(* ===== verification/_CoqProject ===== *)
-Q . S2P
Prelude.v
Memory.v
Lib.v
Paging.v
Devices.v
State.v
Sample.v
Console.v
Filesys.v
Terminal.v
Syscall.v
Scheduler.v
Keyboard.v
Idt.v
Printing.v
Userland.v
Kernel.v
Frames.v
Processes.v
Usermode.v
Syserr.v
Grep.v
Wrappers.v
Blink.v
Userdev.v
Kerneldev.v
