(* ===== verification/Prelude.v ===== *)
(** * SrirachOS: a verification development

    SrirachOS is a small 32-bit x86 kernel in C: Multiboot start-up, a
    descriptor table for interrupts, paging, a read-only file system in
    memory, a keyboard with line editing, three terminals that share the
    screen, six processes that a timer interrupt switches between, and eight
    system calls, with a few user programs.  This library models the code
    under src/student-distrib and the programs of src/syscalls and src/fish,
    and proves
    what makes them correct.  This file is the root: it documents the whole,
    and has what the others share (fixed-width integers, arrays, bounded
    loops, tactics).

    ** The parts and the files

    - Prelude: [u8], [u32], [s32], ... (C conversions written out), arrays as
      lists ([arr_get], [arr_set]), [loop] and [for_loop], the tactics [mach]
      (wrap-around arithmetic) and [cmp] (comparisons).
    - Memory: the class [MemOps] of byte memories with its laws [MemLaws], a
      flat instance, and [DestLaws] for the destinations of a copy.
    - Lib: strings and memory routines of lib.c.
    - Paging: paging.c.  [vmem] is memory behind a page directory and a page
      table; [xlate] is the translation that the processor makes of them;
      [vmem] is an instance of [MemLaws].
    - Devices: i8259.c, rtc.c, pit.c as sequences of port accesses, and the
      interrupt controllers and the clock as machines that run on the trace.
    - State: the records of the kernel's state ([kernel] and the records it
      is made of, one per file of globals, the fields named as the variables)
      and the monad [C] of kernel code: a computation returns, leaves (to a
      program by iret, to the parent of a process that halted, to the task
      that the scheduler chose), spins, or faults.
    - Sample: a concrete machine with a file-system image, for the witnesses.
    - Console: the screen routines of lib.c.
    - Filesys: filesys.c; names, inodes, blocks, and the file and directory
      drivers, reading the image at the addresses the code computes.
    - Terminal, Keyboard: keyboard.c; the terminal driver, and the interrupt
      handler with the line editor.
    - Syscall: syscall.c and syscall_wrapper.S; the process table, the
      control blocks, execute, halt and the other calls, and the dispatch.
    - Scheduler: scheduler.c; the timer tick with its context switch.
    - Idt: idt.c; the gates, the exceptions, and [service], the routine that
      each vector reaches.
    - Printing: [printf] with the lemmas on what printing leaves alone.
    - Kernel: kernel.c, multiboot.h and x86_desc.h; the boot information,
      the descriptors, and [entry] from power on to the first shell.
    - Frames: what each routine leaves alone of the process state.
    - Processes: an abstract process manager ([view], [astep]) and the
      refinement of the whole kernel to it.
    - Userland: the user programs, over the interface [SysCalls] of system
      calls; [SysSpec] is what they rely on.
    - Usermode: the kernel as an instance of [SysCalls] through INT 0x80,
      the proof that it satisfies [SysSpec], and the programs on it.
    - Grep: grep, against a reference that splits the file at its newlines.
    - Syserr: the system call tests, and how the kernel answers them.
    - Wrappers: the assembly routines that the gates reach, as instruction
      lists for a machine of registers, flags and a stack.
    - Blink: blink.S and the allocator of fish.c, the linked list of blinking
      characters in memory, against a list of blinks.
    - Userdev: pingpong, over the interface [DeviceSpec] of several open
      files, the clock and the page that vidmap hands out.
    - Kerneldev: the kernel keeps that interface, and pingpong on it.

    Kernel code is a function of the [kernel] record, one definition for each
    C function with the same name; a static variable of a C file is a field
    of that file's record.  Interrupts are calls of [service]; [kstep] of
    Processes.v is the step relation of the machine: any interrupt, exception
    or system call with any arguments, whatever its outcome.

    ** What the theorems show

    - Processes: [execute] starts a program in the right slot with its whole
      file in its page; [halt] undoes it and hands over the status; a base
      shell is started again; exceptions end their process; a preempted
      process resumes where it was.  [kernel_refines_processes]: nothing
      the kernel does changes the process table other than by the steps of
      the abstract manager, and [reachable_sound]: the table is well formed
      in every state reachable from the boot sequence.
    - Boot: [boot_starts_shell] runs [entry] from power on to the first
      instruction of the shell, with everything in place that the record
      [brought_up] lists: tables, devices, terminals, file system, scheduler,
      the whole address space and the cleared screen; what is on the screen
      before that is not part of it; [gdt_descriptors], [setup_paging_identity]
      and [init_idt_gates] decode the tables it leaves with the processor's
      layouts.
    - Files: [read_data] copies exactly the bytes of a file across blocks;
      reads in sequence concatenate; names are found as the directory has
      them; open and read compose.
    - Terminal: typed keys are edited into a line and read as that line;
      drawing goes to the page of the running process and keeps the cursors
      on the screen; [printf_returns]: printing terminates.
    - Wrappers: [syscall_wrapper_dispatches] ties the instructions of
      syscall_wrapper.S to the model of the dispatch;
      [syscall_wrapper_restores], [interrupt_wrappers_restore] and
      [pit_wrapper_resumes]: whatever the C code does, the interrupted
      program finds its registers and the processor's frame again.
    - Libraries: [itoa] reads back; [memcpy], [memmove] and the comparisons
      agree with their references.
    - Composition: [kernel_implements] proves the interface of the user
      programs for the kernel, and cat, ls, hello and the shell are correct
      on it: cat shows exactly the bytes of the file on the terminal, grep
      exactly the lines with the text; [pingpong_on_kernel]: one frame for
      each tick of the clock.
    - Linked data: [ioctl_refines] and [tasklet_refines], the operations on
      the list of blinking characters and its walk, pointers and allocation
      included, refine the same operations on a list of records.
    - Errors: [syserr_all_pass] runs the repository's own tests of wrong
      system calls, [syserr_unopened_stops] one that fails alone; refused names, refused magic numbers, failing opens, indices
      out of range, with the behaviour that the code has.

    ** Decisions and bounds

    - Loops that the source bounds are [for_loop] or structural; those that
      it does not bound (strings, waiting) take [fuel], and run out into
      [Spin].  The theorems ask for enough: more than the length of the
      string, 100 for the messages of the kernel, 1024 for the buffers of
      the programs; they state results, not partial correctness.
    - [terminal_read] makes one turn of its waiting loop, and [Spin] means
      that it waits; [rtc_read] consumes the interrupts listed in [pending].
    - A page of a process starts at 8 MB plus 16 MB for each number, since
      the code adds to a [uint32_t] pointer, and [UNIT_8_KB] is 32 KB, as the
      constants have it.  Control blocks are a map from their addresses and
      not bytes of memory; the store through [fdt[-1]] is a store of memory.
    - [execute] leaves by [Iret], [halt] by [RetFromHalt], the scheduler by
      [Switched]: control does not come back to the caller in the model; the
      saved EBP and ESP are fields, the rest of the stacks is not modelled.
    - A null or stray operation pointer, and an access past the end of a
      static array, is [Fault].
    - Parameters: what uninitialised locals hold ([junk], [junk_desc]), the
      addresses the linker gives to operation tables, handlers, descriptor
      tables and string literals, the loader's boot information (in memory).
    - [entry] threads the descriptor-table registers beside the kernel state.
    - keyboard.c has its own static copy of [terminals] ([kb_terminals]).
    - A kernel access to an unmapped address reads 0 and stores nothing; there
      is no stale TLB; the flags that gates clear on entry are not modelled.
    - The page directory and the page table, the control blocks and the
      globals of the C files are records beside the bytes of memory, not
      bytes of it.  read, getargs and vidmap do not check that their address
      lies in the page of the process (vidmap refuses 0 and 0x400000 only),
      so in the machine a program can overwrite the kernel through them; in
      [kstep] such a store changes the bytes of memory and can not reach
      those records.  The invariants of Processes.v are thus about programs
      that pass addresses outside of the kernel's data.
    - Of what [setup_paging] does to the control registers the state has the
      bit that turns paging on; CR3 always holds the one directory, and
      CR4.PSE, which it sets too, is assumed by [xlate] wherever an entry has
      the page-size bit.  [xlate] looks at the present bits and addresses; the
      user/supervisor and the read/write bits do not restrict an access in
      the model.
    - A user program runs without preemption over [SysCalls]; a call that
      does not come back is [Stops].

    ** Not modelled

    boot.S and the static part of x86_desc.S (the state that [entry] starts
    from), tests.c
    (launch_tests is not called), debug.h, and of the user programs sigtest
    (the kernel has no signals) and the main program of fish; the emulation files for running the
    programs on a host are not part of the system. *)

From stdpp Require Export base numbers option list gmap strings.
From Stdlib Require Export ZArith Lia.
#[global] Open Scope Z_scope.

(** ** Fixed-width integers

    A C integer is a [Z]; the functions below write out the conversion that
    the C type performs when a value is stored in it. *)

Definition u8 (z : Z) : Z := z mod 256.
Definition u16 (z : Z) : Z := z mod 65536.
Definition u32 (z : Z) : Z := z mod 4294967296.
Definition s8 (z : Z) : Z := (z + 128) mod 256 - 128.
Definition s32 (z : Z) : Z := (z + 2147483648) mod 4294967296 - 2147483648.

(** ** Arrays

    A C array is a list; [arr_get] reads 0 outside of the array and
    [arr_set] does nothing there: where the program can index out of range
    the model says so at the access. *)

Definition arr_get (l : list Z) (i : Z) : Z :=
  if decide (0 <= i) then default 0 (l !! Z.to_nat i) else 0.

Definition arr_set {A} (l : list A) (i : Z) (v : A) : list A :=
  if decide (0 <= i) then <[Z.to_nat i := v]> l else l.

(** The bytes of a string literal, without its terminating null. *)
Fixpoint str_bytes (s : string) : list Z :=
  match s with
  | EmptyString => []
  | String c s' => Z.of_nat (Ascii.nat_of_ascii c) :: str_bytes s'
  end.

(** ** Loops

    [for_loop n i body a] is [for (; n > 0; n--, i++) a = body(i, a)];
    [loop fuel body a] is [while (1) { ... }] whose turn either continues
    with a new state or leaves the loop with a result.  [None] is "still
    running when the fuel is gone". *)

Fixpoint for_loop {A} (n : nat) (i : Z) (body : Z -> A -> A) (a : A) : A :=
  match n with
  | O => a
  | S n' => for_loop n' (i + 1) body (body i a)
  end.

Inductive turn (A B : Type) : Type :=
| Continue (a : A)
| Break (b : B).
Arguments Continue {A B} a.
Arguments Break {A B} b.

Fixpoint loop {A B} (fuel : nat) (body : A -> turn A B) (a : A) : option B :=
  match fuel with
  | O => None
  | S fuel' =>
      match body a with
      | Continue a' => loop fuel' body a'
      | Break b => Some b
      end
  end.

(** ** Automation *)

Create HintDb mach.
Create Rewrite HintDb mach.

(** Unfold the conversions and let [lia] divide. *)
Ltac mach := unfold u8, u16, u32, s8, s32 in *;
  try (Z.div_mod_to_equations; lia).

(** Case analysis on the boolean comparisons of a model, as propositions. *)
Ltac cmp :=
  repeat match goal with
  | |- context [Z.eqb ?a ?b] => destruct (Z.eqb_spec a b)
  | |- context [Z.ltb ?a ?b] => destruct (Z.ltb_spec a b)
  | |- context [Z.leb ?a ?b] => destruct (Z.leb_spec a b)
  | |- context [Z.gtb ?a ?b] => rewrite (Z.gtb_ltb a b)
  | |- context [Z.geb ?a ?b] => rewrite (Z.geb_leb a b)
  | H : context [Z.eqb ?a ?b] |- _ => destruct (Z.eqb_spec a b)
  | H : context [Z.ltb ?a ?b] |- _ => destruct (Z.ltb_spec a b)
  | H : context [Z.leb ?a ?b] |- _ => destruct (Z.leb_spec a b)
  end; simpl in *.

(** ** Lemmas on the conversions *)

Lemma u8_range z : 0 <= u8 z < 256.
Proof. mach. Qed.

Lemma u32_range z : 0 <= u32 z < 4294967296.
Proof. mach. Qed.

Lemma s32_range z : -2147483648 <= s32 z < 2147483648.
Proof. mach. Qed.

Lemma u8_small z : 0 <= z < 256 -> u8 z = z.
Proof. intros. mach. Qed.

Lemma u8_bytes l : Forall (fun c => 0 <= c < 256) l -> u8 <$> l = l.
Proof.
  induction 1 as [| c l Hc _ IH]; [done |]. rewrite fmap_cons, IH. by rewrite u8_small.
Qed.

Lemma u32_small z : 0 <= z < 4294967296 -> u32 z = z.
Proof. intros. mach. Qed.

Lemma s32_small z : -2147483648 <= z < 2147483648 -> s32 z = z.
Proof. intros. mach. Qed.

Lemma s8_small z : -128 <= z < 128 -> s8 z = z.
Proof. intros. mach. Qed.

Lemma u8_idem z : u8 (u8 z) = u8 z.
Proof. mach. Qed.

Lemma u32_idem z : u32 (u32 z) = u32 z.
Proof. mach. Qed.

(** Or-ing two [k]-bit numbers gives a [k]-bit number. *)
Lemma lor_bound x y k :
  0 < k -> 0 <= x < 2 ^ k -> 0 <= y < 2 ^ k -> 0 <= Z.lor x y < 2 ^ k.
Proof.
  intros Hk Hx Hy. split; [apply Z.lor_nonneg; lia |].
  assert (0 <= Z.lor x y) by (apply Z.lor_nonneg; lia).
  destruct (Z.eq_dec (Z.lor x y) 0); [lia |].
  assert (Hlog : forall z, 0 <= z < 2 ^ k -> Z.log2 z < k).
  { intros z Hz. destruct (Z.eq_dec z 0); [by subst | apply Z.log2_lt_pow2; lia]. }
  apply Z.log2_lt_pow2; [lia |]. rewrite Z.log2_lor by lia.
  apply Z.max_lub_lt; by apply Hlog.
Qed.

(** Or-ing a [k]-bit number with a number shifted by [k] adds them. *)
Lemma lor_shiftl_add a b k :
  0 <= k -> 0 <= a < 2 ^ k -> Z.lor a (Z.shiftl b k) = a + b * 2 ^ k.
Proof.
  intros Hk Ha. rewrite <- Z.shiftl_mul_pow2 by done.
  rewrite Z.add_nocarry_lxor, Z.lxor_lor; [done | |];
  apply Z.bits_inj'; intros i Hi; rewrite Z.land_spec, Z.shiftl_spec, Z.bits_0 by done;
  (destruct (Z.lt_ge_cases i k);
   [rewrite (Z.testbit_neg_r b) by lia; apply andb_false_r |
    replace a with (a mod 2 ^ k) by (apply Z.mod_small; lia);
    rewrite Z.mod_pow2_bits_high by lia; done]).
Qed.

(** Setting flag bits in the [k] low zero bits of an address adds them. *)
Lemma lor_flags a b k :
  0 <= k -> a mod 2 ^ k = 0 -> 0 <= b < 2 ^ k -> Z.lor a b = a + b.
Proof.
  intros Hk Ha Hb. pose proof (Z.div_mod a (2 ^ k)) as Hd.
  rewrite Z.lor_comm, Z.add_comm. replace a with (Z.shiftl (a / 2 ^ k) k) at 1.
  - rewrite lor_shiftl_add by done. lia.
  - rewrite Z.shiftl_mul_pow2 by done. lia.
Qed.

#[export] Hint Resolve u8_range u32_range s32_range : mach.
#[export] Hint Rewrite u8_idem u32_idem : mach.

(** ** Lemmas on arrays *)

Lemma arr_get_lookup l i v :
  0 <= i -> l !! Z.to_nat i = Some v -> arr_get l i = v.
Proof. intros Hi Hl. unfold arr_get. rewrite decide_True by done. by rewrite Hl. Qed.

Lemma length_arr_set {A} (l : list A) i v : length (arr_set l i v) = length l.
Proof. unfold arr_set. case_decide; [apply length_insert | done]. Qed.

Lemma arr_get_set_eq l i v :
  0 <= i < Z.of_nat (length l) -> arr_get (arr_set l i v) i = v.
Proof.
  intros Hi. apply arr_get_lookup; [lia |]. unfold arr_set.
  rewrite decide_True by lia. apply list_lookup_insert_eq. lia.
Qed.

Lemma arr_get_set_ne l i j v : i <> j -> arr_get (arr_set l i v) j = arr_get l j.
Proof.
  intros Hne. unfold arr_get, arr_set. repeat case_decide; try done.
  rewrite list_lookup_insert_ne by lia. done.
Qed.

Lemma arr_set_lookup_ne {A} (l : list A) i j (v : A) :
  Z.to_nat i <> j -> arr_set l i v !! j = l !! j.
Proof. intros Hne. unfold arr_set. case_decide; [by apply list_lookup_insert_ne | done]. Qed.

Lemma arr_set_lookup_eq {A} (l : list A) i (v : A) :
  0 <= i < Z.of_nat (length l) -> arr_set l i v !! Z.to_nat i = Some v.
Proof. intros Hi. unfold arr_set. rewrite decide_True by lia. apply list_lookup_insert_eq. lia. Qed.

(** Putting the old value back. *)
Lemma arr_set_restore l i v w :
  0 <= i < Z.of_nat (length l) -> arr_get l i = v -> arr_set (arr_set l i w) i v = l.
Proof.
  intros Hi Hv. apply list_eq. intros n. destruct (decide (n = Z.to_nat i)) as [-> | Hn].
  - rewrite arr_set_lookup_eq by (rewrite length_arr_set; lia).
    destruct (lookup_lt_is_Some_2 l (Z.to_nat i)) as [x Hx]; [lia |].
    by rewrite Hx, <- Hv, (arr_get_lookup l i x) by (done || lia).
  - by rewrite !arr_set_lookup_ne.
Qed.

Lemma arr_get_app_l l1 l2 i : 0 <= i < Z.of_nat (length l1) -> arr_get (l1 ++ l2) i = arr_get l1 i.
Proof. intros Hi. unfold arr_get. rewrite !decide_True by lia. by rewrite lookup_app_l by lia. Qed.

Lemma arr_get_app_r l1 l2 i :
  Z.of_nat (length l1) <= i -> arr_get (l1 ++ l2) i = arr_get l2 (i - Z.of_nat (length l1)).
Proof.
  intros Hi. unfold arr_get. rewrite !decide_True by lia. rewrite lookup_app_r by lia.
  do 2 f_equal. lia.
Qed.

Lemma arr_get_replicate n x i : 0 <= i < Z.of_nat n -> arr_get (replicate n x) i = x.
Proof. intros Hi. apply arr_get_lookup; [lia |]. apply lookup_replicate_2. lia. Qed.

Lemma arr_get_end l : arr_get l (Z.of_nat (length l)) = 0.
Proof. unfold arr_get. rewrite decide_True, Nat2Z.id by lia. by rewrite lookup_ge_None_2. Qed.

Lemma arr_get_forall (P : Z -> Prop) l i :
  Forall P l -> 0 <= i < Z.of_nat (length l) -> P (arr_get l i).
Proof.
  intros HP Hi. destruct (lookup_lt_is_Some_2 l (Z.to_nat i)) as [c Hc]; [lia |].
  rewrite (arr_get_lookup l i c) by (done || lia). by apply (Forall_lookup_1 _ _ _ _ HP Hc).
Qed.

(** An element appended to what was taken so far. *)
Lemma take_snoc l i :
  0 <= i < Z.of_nat (length l) ->
  take (Z.to_nat i) l ++ [arr_get l i] = take (Z.to_nat (i + 1)) l.
Proof.
  intros Hi. destruct (lookup_lt_is_Some_2 l (Z.to_nat i)) as [c Hc]; [lia |].
  rewrite (arr_get_lookup l i c) by (done || lia).
  replace (Z.to_nat (i + 1)) with (S (Z.to_nat i)) by lia. symmetry. by apply take_S_r.
Qed.

#[export] Hint Rewrite @length_arr_set : mach.

(** ** Lemmas on loops *)

(** The invariant rule of a [for] loop: [P] is indexed by the counter. *)
Lemma for_loop_inv {A} (P : Z -> A -> Prop) (body : Z -> A -> A) n i a :
  P i a ->
  (forall j a', i <= j < i + Z.of_nat n -> P j a' -> P (j + 1) (body j a')) ->
  P (i + Z.of_nat n) (for_loop n i body a).
Proof.
  revert i a. induction n as [| n IH]; intros i a Ha Hstep; simpl.
  - by rewrite Z.add_0_r.
  - replace (i + Z.of_nat (S n)) with (i + 1 + Z.of_nat n) by lia.
    apply IH.
    + apply Hstep; [lia | done].
    + intros j a' Hj. apply Hstep. lia.
Qed.

Lemma for_loop_ext {A} (f g : Z -> A -> A) n i a :
  (forall j a', i <= j < i + Z.of_nat n -> f j a' = g j a') ->
  for_loop n i f a = for_loop n i g a.
Proof.
  revert i a. induction n as [| n IH]; intros i a Hfg; simpl; [done |].
  rewrite (Hfg i a) by lia. apply IH. intros j a' Hj. apply Hfg. lia.
Qed.

(** More fuel does not change a result. *)
Lemma loop_mono {A B} (body : A -> turn A B) fuel fuel' a b :
  loop fuel body a = Some b -> (fuel <= fuel')%nat -> loop fuel' body a = Some b.
Proof.
  revert fuel' a. induction fuel as [| fuel IH]; intros fuel' a Hl Hle; [done |].
  destruct fuel' as [| fuel']; [lia |]. simpl in *.
  destruct (body a); [| done]. apply IH; [done | lia].
Qed.

(** Total correctness of a loop from an invariant and a measure. *)
Lemma loop_total {A B} (I : A -> Prop) (mu : A -> nat) (P : B -> Prop)
    (body : A -> turn A B) :
  (forall a, I a ->
     match body a with
     | Continue a' => I a' /\ (mu a' < mu a)%nat
     | Break b => P b
     end) ->
  forall fuel a, I a -> (mu a < fuel)%nat ->
  exists b, loop fuel body a = Some b /\ P b.
Proof.
  intros Hbody fuel. induction fuel as [| fuel IH]; intros a Ha Hmu; [lia |].
  simpl. specialize (Hbody a Ha). destruct (body a) as [a' | b]; [| by eauto].
  destruct Hbody as [Ha' Hlt]. apply IH; [done | lia].
Qed.

(** Partial correctness of a loop from an invariant. *)
Lemma loop_partial {A B} (I : A -> Prop) (P : B -> Prop) (body : A -> turn A B) :
  (forall a, I a ->
     match body a with Continue a' => I a' | Break b => P b end) ->
  forall fuel a b, I a -> loop fuel body a = Some b -> P b.
Proof.
  intros Hbody fuel. induction fuel as [| fuel IH]; intros a b Ha Hl; [done |].
  simpl in Hl. specialize (Hbody a Ha). destruct (body a) as [a' | b'].
  - by apply (IH a').
  - by simplify_eq.
Qed.

(** A loop that fills an array from index 0. *)
Lemma arr_get_fill (f : Z -> Z) n l j :
  (n <= length l)%nat ->
  arr_get (for_loop n 0 (fun i l => arr_set l i (f i)) l) j
  = if decide (0 <= j < Z.of_nat n) then f j else arr_get l j.
Proof.
  intros Hn.
  pose proof (for_loop_inv (fun k l' => length l' = length l /\
    arr_get l' j = if decide (0 <= j < k) then f j else arr_get l j)
    (fun i l => arr_set l i (f i)) n 0 l) as Hinv.
  simpl in Hinv. apply Hinv; clear Hinv.
  - split; [done |]. by rewrite decide_False by lia.
  - intros k l' Hk [Hlen Hl']. rewrite length_arr_set. split; [done |].
    destruct (decide (j = k)) as [-> | Hne].
    + rewrite arr_get_set_eq, decide_True by lia. done.
    + rewrite arr_get_set_ne, Hl' by done. repeat case_decide; lia || done.
Qed.

Lemma length_for_loop_set {A} (f : Z -> list A -> A) n i (l : list A) :
  length (for_loop n i (fun i l => arr_set l i (f i l)) l) = length l.
Proof.
  revert i l. induction n as [| n IH]; intros i l; simpl; [done |].
  by rewrite IH, length_arr_set.
Qed.

#[global] Arguments for_loop {A} n i body a : simpl never.

(** A decidable property of the numbers below [n], by evaluation. *)
Lemma forall_below (P : Z -> bool) n :
  forallb P (seqZ 0 n) = true -> forall t, 0 <= t < n -> P t = true.
Proof.
  intros H t Ht. rewrite forallb_forall in H. apply H, list_elem_of_In, elem_of_seqZ. lia.
Qed.
