(* ===== verification/Memory.v ===== *)
(** * Byte-addressed memory

    The interface [MemOps]/[MemLaws] that every component reads and writes
    memory through, its reference instance [flat] (a 32-bit address space in
    which every address is backed by its own cell), little-endian words,
    ranges of bytes, and the destinations [Dest] a copy loop can fill. *)

From S2P Require Import Prelude.

(** ** The interface

    [loc m a] is the cell that address [a] designates, [None] where nothing
    is mapped.  A store to a mapped address changes that cell and no other. *)

Class MemOps (M : Type) := {
  ld : M -> Z -> Z;
  st : M -> Z -> Z -> M;
  loc : M -> Z -> option Z
}.

Class MemLaws (M : Type) `{MemOps M} := {
  ld_byte : forall m a, 0 <= ld m a < 256;
  ld_st : forall m a v b, is_Some (loc m a) ->
    ld (st m a v) b = if decide (loc m b = loc m a) then u8 v else ld m b;
  loc_st : forall m a v b, loc (st m a v) b = loc m b
}.

(** ** Words, signed bytes, ranges *)

Section words.
Context {M : Type} `{MemOps M}.

(** A read through an [int8_t] pointer: [char] is signed on the target. *)
Definition lds8 (m : M) (a : Z) : Z := s8 (ld m a).

(** A read through a [uint32_t] pointer, little endian. *)
Definition ld32 (m : M) (a : Z) : Z :=
  Z.lor (ld m a)
    (Z.lor (Z.shiftl (ld m (a + 1)) 8)
      (Z.lor (Z.shiftl (ld m (a + 2)) 16) (Z.shiftl (ld m (a + 3)) 24))).

(** A read through an [int32_t] pointer. *)
Definition lds32 (m : M) (a : Z) : Z := s32 (ld32 m a).

Definition st32 (m : M) (a v : Z) : M :=
  st (st (st (st m a (u8 v)) (a + 1) (u8 (Z.shiftr v 8)))
    (a + 2) (u8 (Z.shiftr v 16))) (a + 3) (u8 (Z.shiftr v 24)).

(** The [n] bytes from [a], and storing the bytes [l] from [a]. *)
Fixpoint bytes (m : M) (a : Z) (n : nat) : list Z :=
  match n with
  | O => []
  | S n' => ld m a :: bytes m (a + 1) n'
  end.

Fixpoint write (m : M) (a : Z) (l : list Z) : M :=
  match l with
  | [] => m
  | v :: l' => write (st m a v) (a + 1) l'
  end.

(** The [n] addresses from [a] are mapped to [n] different cells. *)
Definition region (m : M) (a : Z) (n : nat) : Prop :=
  (forall i, 0 <= i < Z.of_nat n -> is_Some (loc m (a + i))) /\
  (forall i j, 0 <= i < Z.of_nat n -> 0 <= j < Z.of_nat n ->
     loc m (a + i) = loc m (a + j) -> i = j).

(** No address in [P] shares a cell with the [n] addresses from [a]. *)
Definition apart (m : M) (P : Z -> Prop) (a : Z) (n : nat) : Prop :=
  forall b i, P b -> 0 <= i < Z.of_nat n -> loc m b <> loc m (a + i).
End words.

(** An interval of addresses, as the predicate [apart] takes. *)
Definition within (a n : Z) (b : Z) : Prop := a <= b < a + n.

(** ** The reference instance *)

Record flat := Flat { cells : gmap Z Z }.

#[export] Instance flat_ops : MemOps flat := {
  ld m a := u8 (default 0 (cells m !! u32 a));
  st m a v := Flat (<[u32 a := v]> (cells m));
  loc m a := Some (u32 a)
}.

#[export] Instance flat_laws : MemLaws flat.
Proof.
  split.
  - intros. apply u8_range.
  - intros m a v b _. simpl. case_decide as Heq.
    + simplify_eq. rewrite Heq, lookup_insert_eq. done.
    + rewrite lookup_insert_ne; [done | congruence].
  - done.
Qed.

(** ** Destinations

    A copy loop of the program reads memory and writes one byte after the
    other, either through a pointer ([*buf = c; buf++]) or into a local array
    of the caller.  [Dest] is what the loop needs of either. *)

Class Dest (D : Type) := {
  dst_ld : D -> Z -> Z;
  dst_put : D -> Z -> D;
  (** the next [n] puts do not disturb the addresses in [P] *)
  dst_room : D -> nat -> (Z -> Prop) -> Prop
}.

Class DestLaws (D : Type) `{Dest D} := {
  dst_ld_byte : forall d a, 0 <= dst_ld d a < 256;
  dst_frame : forall d n (P : Z -> Prop) b a,
    dst_room d (S n) P -> P a -> dst_ld (dst_put d b) a = dst_ld d a;
  dst_next : forall d n P b, dst_room d (S n) P -> dst_room (dst_put d b) n P
}.

(** A pointer into memory. *)
#[export] Instance ptr_dest {M} `{MemOps M} : Dest (M * Z) := {
  dst_ld d a := ld d.1 a;
  dst_put d b := (st d.1 d.2 b, d.2 + 1);
  dst_room d n P := region d.1 d.2 n /\ apart d.1 P d.2 n
}.

(** A local array, filled from its start; memory is only read. *)
#[export] Instance local_dest {M} `{MemOps M} : Dest (M * list Z) := {
  dst_ld d a := ld d.1 a;
  dst_put d b := (d.1, d.2 ++ [b]);
  dst_room d n P := True
}.

(** ** Ranges *)

Section ranges.
Context {M : Type} `{MemLaws M}.
Implicit Types m : M.

Lemma region_S m a n :
  region m a (S n) -> is_Some (loc m a) /\ region m (a + 1) n /\
  (forall i, 0 <= i < Z.of_nat n -> loc m (a + 1 + i) <> loc m a).
Proof.
  intros [Hm Hi]. split; [| split; [split |]].
  - specialize (Hm 0). rewrite Z.add_0_r in Hm. apply Hm. lia.
  - intros i Hr. replace (a + 1 + i) with (a + (i + 1)) by lia. apply Hm. lia.
  - intros i j Hri Hrj Heq. enough (i + 1 = j + 1) by lia. apply Hi; [lia | lia |].
    by rewrite (Z.add_comm i), (Z.add_comm j), !Z.add_assoc.
  - intros i Hr Heq. enough (i + 1 = 0) by lia. apply Hi; [lia | lia |].
    by rewrite Z.add_0_r, (Z.add_comm i), Z.add_assoc.
Qed.

Lemma region_le m a n k : region m a n -> (k <= n)%nat -> region m a k.
Proof. intros [H1 H2] Hle. split; intros; [apply H1 | apply H2]; auto; lia. Qed.

Lemma region_st m a n b v : region m a n -> region (st m b v) a n.
Proof.
  intros [H1 H2]. split; intros *; rewrite ?loc_st; [apply H1 | apply H2].
Qed.

Lemma apart_st m P a n b v : apart m P a n -> apart (st m b v) P a n.
Proof. intros Hd c i. rewrite !loc_st. apply Hd. Qed.

Lemma apart_S m (P : Z -> Prop) a n :
  apart m P a (S n) -> (forall b, P b -> loc m b <> loc m a) /\ apart m P (a + 1) n.
Proof.
  intros Hd. split.
  - intros b Hb. specialize (Hd b 0 Hb). rewrite Z.add_0_r in Hd. apply Hd. lia.
  - intros b i Hb Hi. replace (a + 1 + i) with (a + (i + 1)) by lia. apply Hd; [done | lia].
Qed.

Lemma ld_st_eq m a v : is_Some (loc m a) -> ld (st m a v) a = u8 v.
Proof. intros Hm. rewrite ld_st by done. by rewrite decide_True. Qed.

Lemma ld_st_ne m a v b :
  is_Some (loc m a) -> loc m b <> loc m a -> ld (st m a v) b = ld m b.
Proof. intros Hm Hne. rewrite ld_st by done. by rewrite decide_False. Qed.

Lemma length_bytes m a n : length (bytes m a n) = n.
Proof. revert a. induction n; intros; simpl; [done | by rewrite IHn]. Qed.

Lemma bytes_lookup m a n i :
  (i < n)%nat -> bytes m a n !! i = Some (ld m (a + Z.of_nat i)).
Proof.
  revert a i. induction n as [| n IH]; intros a i Hi; [lia |].
  destruct i as [| i]; simpl.
  - by rewrite Z.add_0_r.
  - rewrite IH by lia. f_equal. f_equal. lia.
Qed.

Lemma bytes_ext m m' a n :
  (forall i, 0 <= i < Z.of_nat n -> ld m (a + i) = ld m' (a + i)) ->
  bytes m a n = bytes m' a n.
Proof.
  intros Heq. apply list_eq. intros i. destruct (decide (i < n)%nat).
  - rewrite !bytes_lookup by done. by rewrite Heq by lia.
  - rewrite !lookup_ge_None_2; [done | |]; rewrite length_bytes; lia.
Qed.

Lemma bytes_app m a n k :
  bytes m a (n + k) = bytes m a n ++ bytes m (a + Z.of_nat n) k.
Proof.
  revert a. induction n as [| n IH]; intros a; simpl.
  - by rewrite Z.add_0_r.
  - rewrite IH. do 3 f_equal. lia.
Qed.

Lemma write_app m a l1 l2 :
  write m a (l1 ++ l2) = write (write m a l1) (a + Z.of_nat (length l1)) l2.
Proof.
  revert m a. induction l1 as [| v l1 IH]; intros m a; simpl.
  - by rewrite Z.add_0_r.
  - rewrite IH. f_equal. lia.
Qed.

Lemma loc_write m a l b : loc (write m a l) b = loc m b.
Proof.
  revert m a. induction l as [| v l IH]; intros m a; simpl; [done |].
  by rewrite IH, loc_st.
Qed.

Lemma region_write m a n b l : region m a n -> region (write m b l) a n.
Proof.
  revert m b. induction l as [| v l IH]; intros m b Hr; simpl; [done |].
  by apply IH, region_st.
Qed.

Lemma apart_write m P a n b l : apart m P a n -> apart (write m b l) P a n.
Proof.
  revert m b. induction l as [| v l IH]; intros m b Hr; simpl; [done |].
  by apply IH, apart_st.
Qed.

(** A store of a range leaves every other cell alone. *)
Lemma ld_write_apart m a l b :
  region m a (length l) ->
  (forall i, 0 <= i < Z.of_nat (length l) -> loc m b <> loc m (a + i)) ->
  ld (write m a l) b = ld m b.
Proof.
  revert m a. induction l as [| v l IH]; intros m a Hr Hd; simpl; [done |].
  apply region_S in Hr as (Hm & Hr & _). simpl in Hd.
  rewrite IH.
  - apply ld_st_ne; [done |]. specialize (Hd 0). rewrite Z.add_0_r in Hd. apply Hd. lia.
  - by apply region_st.
  - intros i Hi. rewrite !loc_st. replace (a + 1 + i) with (a + (i + 1)) by lia.
    apply Hd. lia.
Qed.

(** What was stored can be read back. *)
Lemma bytes_write m a l :
  region m a (length l) -> bytes (write m a l) a (length l) = u8 <$> l.
Proof.
  revert m a. induction l as [| v l IH]; intros m a Hr; simpl; [done |].
  apply region_S in Hr as (Hm & Hr & Hne). f_equal.
  - rewrite ld_write_apart; [by apply ld_st_eq | by apply region_st |].
    intros i Hi. rewrite !loc_st. by apply not_eq_sym, Hne.
  - apply IH. by apply region_st.
Qed.

Lemma bytes_write_apart m a l b n :
  region m a (length l) -> apart m (within b (Z.of_nat n)) a (length l) ->
  bytes (write m a l) b n = bytes m b n.
Proof.
  intros Hr Hd. apply bytes_ext. intros i Hi. apply ld_write_apart; [done |].
  intros j Hj. apply Hd; [unfold within; lia | done].
Qed.

Lemma ld32_sum m a :
  ld32 m a = ld m a + 256 * ld m (a + 1) + 65536 * ld m (a + 2) + 16777216 * ld m (a + 3).
Proof.
  unfold ld32. pose proof (ld_byte m a). pose proof (ld_byte m (a + 1)).
  pose proof (ld_byte m (a + 2)). pose proof (ld_byte m (a + 3)).
  change 24 with (16 + 8). rewrite <- (Z.shiftl_shiftl _ 16 8), Z.shiftl_shiftl by lia.
  rewrite (Z.add_comm 16), <- Z.shiftl_shiftl, <- Z.shiftl_lor by lia.
  change 16 with (8 + 8) at 1. rewrite <- (Z.shiftl_shiftl _ 8 8), <- Z.shiftl_lor by lia.
  rewrite !lor_shiftl_add by lia. lia.
Qed.

Lemma ld32_range m a : 0 <= ld32 m a < 4294967296.
Proof.
  rewrite ld32_sum. pose proof (ld_byte m a). pose proof (ld_byte m (a + 1)).
  pose proof (ld_byte m (a + 2)). pose proof (ld_byte m (a + 3)). lia.
Qed.

(** A word store is a store of the four bytes of the word. *)
Lemma st32_write m a v :
  st32 m a v = write m a [u8 v; u8 (Z.shiftr v 8); u8 (Z.shiftr v 16); u8 (Z.shiftr v 24)].
Proof. unfold st32. cbn [write]. by rewrite <- !Z.add_assoc. Qed.

Lemma st32_ld32 m' m a b : st32 m' b (ld32 m a) = write m' b (bytes m a 4).
Proof.
  unfold st32. simpl. rewrite ld32_sum.
  pose proof (ld_byte m a). pose proof (ld_byte m (a + 1)).
  pose proof (ld_byte m (a + 2)). pose proof (ld_byte m (a + 3)).
  replace (a + 1 + 1) with (a + 2) by lia. replace (a + 2 + 1) with (a + 3) by lia.
  replace (b + 1 + 1) with (b + 2) by lia. replace (b + 2 + 1) with (b + 3) by lia.
  unfold u8. rewrite !Z.shiftr_div_pow2 by lia.
  change (2 ^ 8) with 256. change (2 ^ 16) with 65536. change (2 ^ 24) with 16777216.
  repeat f_equal; Z.div_mod_to_equations; lia.
Qed.

Lemma region_sub m a n b k :
  region m a n -> a <= b -> b + Z.of_nat k <= a + Z.of_nat n -> region m b k.
Proof.
  intros [H1 H2] Hb Hk. split.
  - intros i Hi. replace (b + i) with (a + (b - a + i)) by lia. apply H1. lia.
  - intros i j Hi Hj. replace (b + i) with (a + (b - a + i)) by lia.
    replace (b + j) with (a + (b - a + j)) by lia. intros He. apply H2 in He; lia.
Qed.

Lemma region_st32 m a n b v : region m a n -> region (st32 m b v) a n.
Proof. intros Hr. unfold st32. by repeat apply region_st. Qed.

(** A word that was stored is read back, and no other one changes. *)
Lemma ld32_st32 m a v : region m a 4 -> 0 <= v < 4294967296 -> ld32 (st32 m a v) a = v.
Proof.
  intros Hr Hv. rewrite ld32_sum, st32_write.
  set (l := [u8 v; u8 (Z.shiftr v 8); u8 (Z.shiftr v 16); u8 (Z.shiftr v 24)]).
  assert (Hb : bytes (write m a l) a 4 = u8 <$> l) by by apply (bytes_write m a l).
  set (m' := write m a l) in *. clearbody m'. unfold l in Hb. cbn [bytes fmap list_fmap] in Hb. replace (a + 1 + 1) with (a + 2) in Hb by lia. replace (a + 2 + 1) with (a + 3) in Hb by lia.
  injection Hb as -> -> -> ->.
  rewrite !u8_idem, !Z.shiftr_div_pow2 by lia. mach.
Qed.

Lemma ld32_st32_ne m a b v :
  region m (Z.min a b) (Z.to_nat (Z.max a b + 4 - Z.min a b)) -> a + 4 <= b \/ b + 4 <= a ->
  ld32 (st32 m a v) b = ld32 m b.
Proof.
  intros Hr Hab. pose proof Hr as [_ Hd].
  assert (Hld : forall i, 0 <= i < 4 -> ld (st32 m a v) (b + i) = ld m (b + i)).
  { intros i Hi. rewrite st32_write. apply ld_write_apart.
    - eapply region_sub; [exact Hr | lia | cbn [length]; lia].
    - cbn [length]. intros j Hj He.
      replace (b + i) with (Z.min a b + (b - Z.min a b + i)) in He by lia.
      replace (a + j) with (Z.min a b + (a - Z.min a b + j)) in He by lia.
      apply Hd in He; lia. }
  unfold ld32. rewrite <- (Z.add_0_r b) at 1 5. by rewrite !Hld by lia.
Qed.

Lemma lds32_range m a : -2147483648 <= lds32 m a < 2147483648.
Proof. apply s32_range. Qed.
End ranges.

#[export] Hint Resolve region_st apart_st region_write apart_write : mach.

#[export] Instance ptr_dest_laws {M} `{MemLaws M} : DestLaws (M * Z).
Proof.
  split.
  - intros. apply ld_byte.
  - intros [m p] n P b a [Hr Hd] Ha. simpl in *.
    apply region_S in Hr as (Hm & _). apply apart_S in Hd as [Hd _].
    apply ld_st_ne; auto.
  - intros [m p] n P b [Hr Hd]. simpl in *.
    apply region_S in Hr as (_ & Hr & _). apply apart_S in Hd as [_ Hd]. auto with mach.
Qed.

#[export] Instance local_dest_laws {M} `{MemLaws M} : DestLaws (M * list Z).
Proof. split; [intros; apply ld_byte | done | done]. Qed.

(** Regions of the reference instance: no wrap-around is enough. *)
Lemma flat_region (m : flat) a n :
  0 <= a -> a + Z.of_nat n <= 4294967296 -> region m a n.
Proof.
  intros Ha Hn. split; [by eauto |]. simpl. intros i j Hi Hj Heq. simplify_eq.
  rewrite !u32_small in * by lia. lia.
Qed.

Lemma flat_apart (m : flat) (P : Z -> Prop) a n :
  0 <= a -> a + Z.of_nat n <= 4294967296 ->
  (forall b, P b -> 0 <= b < 4294967296 /\ ~ (a <= b < a + Z.of_nat n)) ->
  apart m P a n.
Proof.
  intros Ha Hn HP b i Hb Hi. specialize (HP b Hb). simpl. intros Heq. simplify_eq.
  rewrite !u32_small in * by lia. lia.
Qed.
