(* ===== verification/Lib.v ===== *)
(** * lib.c: strings and blocks of memory

    The string and block routines of src/student-distrib/lib.c, over any
    memory [M].  A string that a routine only reads is a reader
    [Z -> Z] (index to byte), so that the same definition serves a pointer
    ([chars m p]) and a local array.  The inline assembly of [memset],
    [memcpy] and [memmove] is translated instruction by instruction: the
    byte loop up to alignment, the [rep] string instruction, the tail. *)

From S2P Require Import Prelude Memory.

(** ** Characters *)

Definition NUL : Z := 0.
Definition NEWLINE : Z := 10.
Definition CR : Z := 13.
Definition SPACE : Z := 32.

Section readers.
Context {M : Type} `{MemOps M}.

(** [p[i]] for a pointer, [l[i]] for a local array. *)
Definition chars (m : M) (p i : Z) : Z := ld m (p + i).
End readers.

Definition local (l : list Z) (i : Z) : Z := arr_get l i.

(** ** Operations *)

(** [while (s[len] != '\0') len++;] *)
Definition strlen (fuel : nat) (s : Z -> Z) : option Z :=
  loop fuel (fun len => if s len =? NUL then Break len else Continue (len + 1)) 0.

(** [while (s[len] != '\n') len++; len++;] *)
Definition my_strlen (fuel : nat) (s : Z -> Z) : option Z :=
  loop fuel (fun len => if s len =? NEWLINE then Break (len + 1) else Continue (len + 1)) 0.

(** [s1[i] - s2[i]] at the first difference or terminator below [n]. *)
Fixpoint strncmp_from (n : nat) (i : Z) (s1 s2 : Z -> Z) : Z :=
  match n with
  | O => 0
  | S n' =>
      if negb (s8 (s1 i) =? s8 (s2 i)) || (s8 (s1 i) =? NUL)
      then s8 (s1 i) - s8 (s2 i)
      else strncmp_from n' (i + 1) s1 s2
  end.

Definition strncmp (s1 s2 : Z -> Z) (n : Z) : Z := strncmp_from (Z.to_nat (u32 n)) 0 s1 s2.

(** The digits of [itoa]. *)
Definition itoa_lookup : list Z := str_bytes "0123456789ABCDEFGHIJKLMNOPQRSTUVWXYZ".

Section ops.
Context {M : Type} `{MemOps M}.

(** One turn of the swap loop of [strrev]. *)
Definition strrev_turn (s : Z) (t : M * Z * Z) : turn (M * Z * Z) M :=
  let '(m, beg, en) := t in
  if beg <? en then
    let tmp := ld m (s + en) in
    let m := st m (s + en) (ld m (s + beg)) in
    let m := st m (s + beg) tmp in
    Continue (m, beg + 1, en - 1)
  else Break m.

Definition strrev (fuel : nat) (m : M) (s : Z) : option M :=
  len ← strlen fuel (chars m s);
  loop fuel (strrev_turn s) (m, 0, s32 (len - 1)).

(** One turn of the digit loop of [itoa]: the digit of lowest place goes
    to [*newbuf]. *)
Definition itoa_turn (radix : Z) (t : M * Z * Z) : turn (M * Z * Z) (M * Z) :=
  let '(m, newbuf, newval) := t in
  if 0 <? newval then
    Continue (st m newbuf (arr_get itoa_lookup (newval mod u32 radix)),
              newbuf + 1, newval / u32 radix)
  else Break (m, newbuf).

(** Division by a zero radix faults. *)
Definition itoa (m : M) (value buf radix : Z) : option M :=
  let value := u32 value in
  if value =? 0 then Some (st (st m buf 48) (buf + 1) NUL)
  else if u32 radix =? 0 then None
  else
    '(m, newbuf) ← loop 33 (itoa_turn radix) (m, buf, value);
    strrev 34 (st m newbuf NUL) buf.

Definition strcpy_turn (dest : Z) (stop : Z) (src : M -> Z -> Z) (t : M * Z) : turn (M * Z) M :=
  let '(m, i) := t in
  if src m i =? stop then Break (st m (dest + i) stop)
  else Continue (st m (dest + i) (src m i), i + 1).

(** The source is read through the memory that the copy changes. *)
Definition strcpy (fuel : nat) (m : M) (dest src : Z) : option M :=
  loop fuel (strcpy_turn dest NUL (fun m => chars m src)) (m, 0).

Definition my_strcpy (fuel : nat) (m : M) (dest : Z) (src : M -> Z -> Z) : option M :=
  loop fuel (strcpy_turn dest NEWLINE src) (m, 0).

(** First loop of [strncpy]: copy until the terminator or [n]. *)
Fixpoint strncpy_copy (n : nat) (i : Z) (m : M) (dest src : Z) : M * nat * Z :=
  if chars m src i =? NUL then (m, n, i)
  else match n with
       | O => (m, O, i)
       | S n' => strncpy_copy n' (i + 1) (st m (dest + i) (chars m src i)) dest src
       end.

(** Second loop: pad with nulls. *)
Fixpoint strncpy_pad (n : nat) (i : Z) (m : M) (dest : Z) : M :=
  match n with
  | O => m
  | S n' => strncpy_pad n' (i + 1) (st m (dest + i) NUL) dest
  end.

Definition strncpy (m : M) (dest src n : Z) : M :=
  let '(m, todo, i) := strncpy_copy (Z.to_nat (u32 n)) 0 m dest src in
  strncpy_pad todo i m dest.

(** *** memcpy *)

(** [movb (%esi), %al; movb %al, (%edi)], [ecx] times or, with [align],
    until [edi] is a multiple of 4. *)
Fixpoint copy_bytes (align : bool) (ecx : nat) (m : M) (edi esi : Z) : M * Z * Z * nat :=
  match ecx with
  | O => (m, edi, esi, O)
  | S ecx' =>
      if align && (Z.land edi 3 =? 0) then (m, edi, esi, ecx)
      else copy_bytes align ecx' (st m edi (ld m esi)) (edi + 1) (esi + 1)
  end.

(** [rep movsl] with the direction flag clear. *)
Fixpoint rep_movsl (ecx : nat) (m : M) (edi esi : Z) : M * Z * Z :=
  match ecx with
  | O => (m, edi, esi)
  | S ecx' => rep_movsl ecx' (st32 m edi (ld32 m esi)) (edi + 4) (esi + 4)
  end.

Definition memcpy (m : M) (dest src n : Z) : M :=
  let '(m, edi, esi, ecx) := copy_bytes true (Z.to_nat (u32 n)) m dest src in
  let edx := Z.to_nat (Z.land (Z.of_nat ecx) 3) in
  let ecx := Z.to_nat (Z.shiftr (Z.of_nat ecx) 2) in
  let '(m, edi, esi) := rep_movsl ecx m edi esi in
  let '(m, _, _, _) := copy_bytes false edx m edi esi in
  m.

(** *** memset *)

Fixpoint set_bytes (align : bool) (ecx : nat) (m : M) (edi al : Z) : M * Z * nat :=
  match ecx with
  | O => (m, edi, O)
  | S ecx' =>
      if align && (Z.land edi 3 =? 0) then (m, edi, ecx)
      else set_bytes align ecx' (st m edi al) (edi + 1) al
  end.

(** [rep stosl], [rep stosw] with the direction flag clear. *)
Fixpoint rep_stosl (ecx : nat) (m : M) (edi eax : Z) : M * Z :=
  match ecx with
  | O => (m, edi)
  | S ecx' => rep_stosl ecx' (st32 m edi eax) (edi + 4) eax
  end.

Fixpoint rep_stosw (ecx : nat) (m : M) (edi eax : Z) : M * Z :=
  match ecx with
  | O => (m, edi)
  | S ecx' =>
      rep_stosw ecx' (st (st m edi (u8 eax)) (edi + 1) (u8 (Z.shiftr eax 8))) (edi + 2) eax
  end.

Definition memset (m : M) (s c n : Z) : M :=
  let c := Z.land c 255 in
  let eax := u32 (Z.lor (Z.lor (Z.lor (Z.shiftl c 24) (Z.shiftl c 16)) (Z.shiftl c 8)) c) in
  let '(m, edi, ecx) := set_bytes true (Z.to_nat (u32 n)) m s (u8 eax) in
  let edx := Z.to_nat (Z.land (Z.of_nat ecx) 3) in
  let ecx := Z.to_nat (Z.shiftr (Z.of_nat ecx) 2) in
  let '(m, edi) := rep_stosl ecx m edi eax in
  (set_bytes false edx m edi (u8 eax)).1.1.

Definition memset_word (m : M) (s c n : Z) : M := (rep_stosw (Z.to_nat (u32 n)) m s (u32 c)).1.

Definition memset_dword (m : M) (s c n : Z) : M := (rep_stosl (Z.to_nat (u32 n)) m s (u32 c)).1.

(** *** memmove *)

(** [rep movsb]; [d] is 1 with the direction flag clear, -1 after [std]. *)
Fixpoint rep_movsb (d : Z) (ecx : nat) (m : M) (edi esi : Z) : M :=
  match ecx with
  | O => m
  | S ecx' => rep_movsb d ecx' (st m edi (ld m esi)) (edi + d) (esi + d)
  end.

(** The direction flag that the routine leaves behind comes with the
    memory: the backward path does not clear it again. *)
Definition memmove (m : M) (dest src n : Z) : M * bool :=
  let n := u32 n in
  if u32 dest <=? u32 src then (rep_movsb 1 (Z.to_nat n) m dest src, false)
  else (rep_movsb (-1) (Z.to_nat n) m (dest + n - 1) (src + n - 1), true).
End ops.

(** ** Strings as lists *)

(** [s] holds the bytes [l], none of which is [stop], and then [stop]. *)
Definition terminated (stop : Z) (s : Z -> Z) (l : list Z) : Prop :=
  (forall i, 0 <= i < Z.of_nat (length l) -> l !! Z.to_nat i = Some (s i) /\ s i <> stop) /\
  s (Z.of_nat (length l)) = stop.

(** The digits of [v] in base [r], lowest place first, and their value. *)
Fixpoint digits (fuel : nat) (r v : Z) : list Z :=
  match fuel with
  | O => []
  | S fuel' => if v =? 0 then [] else v mod r :: digits fuel' r (v / r)
  end.

Fixpoint value_of (r : Z) (ds : list Z) : Z :=
  match ds with
  | [] => 0
  | d :: ds' => d + r * value_of r ds'
  end.

(** ** Scanning loops *)

(** The common shape of [strlen], [my_strlen] and the copy loops: a counter
    runs up to the first index at which [stop] is found. *)
Lemma loop_scan {A B} (body : A -> turn A B) (I : Z -> A) (n : nat) (b : B) fuel :
  (n < fuel)%nat ->
  (forall i, 0 <= i < Z.of_nat n -> body (I i) = Continue (I (i + 1))) ->
  body (I (Z.of_nat n)) = Break b ->
  loop fuel body (I 0) = Some b.
Proof.
  intros Hf Hc Hb.
  assert (Hgen : forall k j, (k < fuel)%nat -> j + Z.of_nat k = Z.of_nat n -> 0 <= j ->
            loop fuel body (I j) = Some b).
  2: { apply (Hgen n 0); lia. }
  clear Hf. induction fuel as [| fuel IH]; intros k j Hf Hj Hj0; [lia |]. simpl.
  destruct k as [| k].
  - replace j with (Z.of_nat n) by lia. by rewrite Hb.
  - rewrite Hc by lia. apply (IH k); lia.
Qed.

Lemma terminated_at stop s l i :
  terminated stop s l -> 0 <= i < Z.of_nat (length l) -> s i <> stop.
Proof. intros [H _] Hi. by apply H. Qed.

Lemma terminated_nth stop s l i :
  terminated stop s l -> 0 <= i < Z.of_nat (length l) -> arr_get l i = s i.
Proof. intros [H _] Hi. apply arr_get_lookup; [lia |]. by apply H. Qed.

(** Memory that holds [l] and then the terminator. *)
Lemma terminated_bytes {M} `{MemLaws M} stop (m : M) a l :
  Forall (fun c => c <> stop) l -> bytes m a (length l + 1) = l ++ [stop] ->
  terminated stop (chars m a) l.
Proof.
  intros Hnl Hb. assert (Hat : forall i, (i <= length l)%nat ->
    (l ++ [stop]) !! i = Some (chars m a (Z.of_nat i))).
  { intros i Hi. rewrite <- Hb. by rewrite bytes_lookup by lia. }
  split.
  - intros i Hi. specialize (Hat (Z.to_nat i)). rewrite lookup_app_l, Z2Nat.id in Hat by lia.
    specialize (Hat ltac:(lia)). split; [done |].
    exact (Forall_lookup_1 _ _ _ _ Hnl Hat).
  - specialize (Hat (length l) ltac:(lia)). rewrite list_lookup_middle in Hat by done.
    by injection Hat.
Qed.

Lemma strlen_terminated fuel s l :
  terminated NUL s l -> (length l < fuel)%nat ->
  strlen fuel s = Some (Z.of_nat (length l)).
Proof.
  intros Hs Hf. unfold strlen. apply (loop_scan _ (fun i => i) (length l)); [done | |].
  - intros i Hi. pose proof (terminated_at _ _ _ _ Hs Hi). cmp; done.
  - destruct Hs as [_ ->]. done.
Qed.

Lemma my_strlen_terminated fuel s l :
  terminated NEWLINE s l -> (length l < fuel)%nat ->
  my_strlen fuel s = Some (Z.of_nat (length l) + 1).
Proof.
  intros Hs Hf. unfold my_strlen. apply (loop_scan _ (fun i => i) (length l)); [done | |].
  - intros i Hi. pose proof (terminated_at _ _ _ _ Hs Hi). cmp; done.
  - destruct Hs as [_ ->]. done.
Qed.

(** A string literal in an array is terminated by what follows it. *)
Lemma terminated_lit s :
  Forall (fun c => 0 < c) (str_bytes s) -> terminated NUL (arr_get (str_bytes s)) (str_bytes s).
Proof.
  intros Hs. split.
  - intros i Hi. destruct (lookup_lt_is_Some_2 (str_bytes s) (Z.to_nat i)) as [c Hc]; [lia |].
    rewrite (arr_get_lookup _ _ c) by (done || lia). split; [done |].
    pose proof (Forall_lookup_1 _ _ _ _ Hs Hc) as H0. unfold NUL. cbv beta in H0. lia.
  - unfold arr_get. rewrite decide_True, Nat2Z.id by lia. by rewrite lookup_ge_None_2.
Qed.

(** [strlen] finds the first null. *)
Lemma strlen_first fuel s n :
  strlen fuel s = Some n -> 0 <= n /\ s n = NUL /\ forall i, 0 <= i < n -> s i <> NUL.
Proof.
  intros Hl. revert Hl. unfold strlen.
  apply (loop_partial (fun n => 0 <= n /\ forall i, 0 <= i < n -> s i <> NUL)
           (fun n => 0 <= n /\ s n = NUL /\ forall i, 0 <= i < n -> s i <> NUL)).
  2: { split; [done | intros; lia]. }
  intros a [Ha Hi]. destruct (Z.eqb_spec (s a) NUL) as [He | He].
  - auto.
  - split; [lia |]. intros i Hr. destruct (decide (i = a)); [by subst | apply Hi; lia].
Qed.

(** ** Block copies *)

Section blocks.
Context {M : Type} `{MemLaws M}.
Implicit Types m : M.

Lemma copy_bytes_spec al n m d s :
  region m d n -> apart m (within s (Z.of_nat n)) d n ->
  exists j k, (j + k = n)%nat /\ (al = false -> k = O) /\
    copy_bytes al n m d s = (write m d (bytes m s j), d + Z.of_nat j, s + Z.of_nat j, k).
Proof.
  revert m d s. induction n as [| n IH]; intros m d s Hr Hd; simpl.
  - exists O, O. rewrite !Z.add_0_r. done.
  - destruct (al && (Z.land d 3 =? 0)) eqn:Hal.
    + exists O, (S n). simpl. rewrite !Z.add_0_r. split_and!; [done | | done].
      intros ->. done.
    + pose proof (region_S _ _ _ Hr) as (Hm & Hr' & _).
      pose proof (apart_S _ _ _ _ Hd) as [Hne Hd'].
      destruct (IH (st m d (ld m s)) (d + 1) (s + 1)) as (j & k & Hjk & Hk & ->).
      * by apply region_st.
      * apply apart_st. intros b i Hb Hi. apply Hd'; [| done].
        unfold within in *. lia.
      * exists (S j), k. split_and!; [lia | done |]. cbn [bytes write].
        rewrite (bytes_ext _ m).
        { by replace (d + Z.of_nat (S j)) with (d + 1 + Z.of_nat j) by lia;
            replace (s + Z.of_nat (S j)) with (s + 1 + Z.of_nat j) by lia. }
        intros i Hi.
        apply ld_st_ne; [done |]. apply Hne. unfold within. lia.
Qed.

Lemma rep_movsl_spec n m d s :
  region m d (4 * n) -> apart m (within s (Z.of_nat (4 * n))) d (4 * n) ->
  rep_movsl n m d s =
    (write m d (bytes m s (4 * n)), d + Z.of_nat (4 * n), s + Z.of_nat (4 * n)).
Proof.
  revert m d s. induction n as [| n IH]; intros m d s Hr Hd.
  - simpl. rewrite !Z.add_0_r. done.
  - replace (4 * S n)%nat with (4 + 4 * n)%nat in * by lia.
    assert (Hr4 : region m d 4) by (eapply region_le; [done | lia]).
    assert (Hw : forall i, 0 <= i < Z.of_nat (4 * n) ->
              ld (write m d (bytes m s 4)) (s + 4 + i) = ld m (s + 4 + i)).
    { intros i Hi. apply ld_write_apart; rewrite length_bytes; [done |].
      intros j Hj. apply Hd; unfold within; lia. }
    rewrite bytes_app, write_app, length_bytes. cbn [rep_movsl]. rewrite st32_ld32.
    rewrite IH.
    + rewrite (bytes_ext _ m (s + 4)); [| intros i Hi; apply Hw; lia].
      change (Z.of_nat 4) with 4.
      by replace (d + Z.of_nat (4 + 4 * n)) with (d + 4 + Z.of_nat (4 * n)) by lia;
        replace (s + Z.of_nat (4 + 4 * n)) with (s + 4 + Z.of_nat (4 * n)) by lia.
    + apply region_write. destruct Hr as [Hm Hi]. split.
      * intros i Hr. replace (d + 4 + i) with (d + (4 + i)) by lia. apply Hm. lia.
      * intros i j Hri Hrj Heq. enough (4 + i = 4 + j) by lia. apply Hi; [lia | lia |].
        by rewrite !Z.add_assoc.
    + apply apart_write. intros b i Hb Hi. replace (d + 4 + i) with (d + (4 + i)) by lia.
      apply Hd; unfold within in *; lia.
Qed.

Lemma region_shift m d n k : region m d (n + k) -> region m (d + Z.of_nat n) k.
Proof.
  intros [Hm Hi]. split.
  - intros i Hr. rewrite <- Z.add_assoc. apply Hm. lia.
  - intros i j Hri Hrj Heq. enough (Z.of_nat n + i = Z.of_nat n + j) by lia.
    apply Hi; [lia | lia |]. by rewrite !Z.add_assoc.
Qed.

Lemma apart_shift m P d n k : apart m P d (n + k) -> apart m P (d + Z.of_nat n) k.
Proof. intros Hd b i Hb Hi. rewrite <- Z.add_assoc. apply Hd; [done | lia]. Qed.

(** After a copy of [j] bytes, the copy of the next [k] is unaffected. *)
Lemma write_bytes_app m d s j k :
  region m d (j + k) -> apart m (within s (Z.of_nat (j + k))) d (j + k) ->
  let m' := write m d (bytes m s j) in
  region m' (d + Z.of_nat j) k /\
  apart m' (within (s + Z.of_nat j) (Z.of_nat k)) (d + Z.of_nat j) k /\
  write m' (d + Z.of_nat j) (bytes m' (s + Z.of_nat j) k) = write m d (bytes m s (j + k)).
Proof.
  intros Hr Hd m'. split_and!.
  - apply region_write. by apply region_shift.
  - apply apart_write, apart_shift. intros b i Hb Hi. apply Hd; [| done].
    unfold within in *. lia.
  - rewrite bytes_app, write_app, length_bytes. f_equal. apply bytes_write_apart.
    + rewrite length_bytes. eapply region_le; [done | lia].
    + rewrite length_bytes. intros b i Hb Hi. apply Hd; [unfold within in *; lia | lia].
Qed.

(** The three phases of the assembly together copy the block. *)
Lemma memcpy_write m dest src n :
  0 <= n < 4294967296 ->
  region m dest (Z.to_nat n) -> apart m (within src n) dest (Z.to_nat n) ->
  memcpy m dest src n = write m dest (bytes m src (Z.to_nat n)).
Proof.
  intros Hn Hr Hd. unfold memcpy. rewrite u32_small by done.
  replace n with (Z.of_nat (Z.to_nat n)) in Hd at 1 by lia.
  destruct (copy_bytes_spec true (Z.to_nat n) m dest src Hr Hd) as (j & k & Hjk & _ & ->).
  set (q := Z.to_nat (Z.shiftr (Z.of_nat k) 2)). set (t := Z.to_nat (Z.land (Z.of_nat k) 3)).
  assert (Hk : (k = 4 * q + t)%nat).
  { unfold q, t. rewrite Z.shiftr_div_pow2 by lia. change 3 with (Z.ones 2).
    rewrite Z.land_ones by lia. change (2 ^ 2) with 4. Z.div_mod_to_equations. lia. }
  rewrite <- Hjk in *. rewrite Hk in *. clearbody q t. clear Hjk Hk.
  pose proof (write_bytes_app _ _ _ _ _ Hr Hd) as (Hr1 & Hd1 & <-).
  set (m1 := write m dest (bytes m src j)) in *.
  rewrite rep_movsl_spec.
  2: { eapply region_le; [done | lia]. }
  2: { intros b i Hb Hi. apply Hd1; [unfold within in *; lia | lia]. }
  pose proof (write_bytes_app _ _ _ _ _ Hr1 Hd1) as (Hr2 & Hd2 & <-).
  destruct (copy_bytes_spec false _ _ _ _ Hr2 Hd2) as (j' & k' & Hj' & Hk' & ->).
  rewrite Hk' in Hj' by done. by replace j' with t by lia.
Qed.
End blocks.

Section fills.
Context {M : Type} `{MemLaws M}.
Implicit Types m : M.

Lemma set_bytes_spec al n m d c :
  exists j k, (j + k = n)%nat /\ (al = false -> k = O) /\
    set_bytes al n m d c = (write m d (repeat c j), d + Z.of_nat j, k).
Proof.
  revert m d. induction n as [| n IH]; intros m d; simpl.
  - exists O, O. rewrite !Z.add_0_r. done.
  - destruct (al && (Z.land d 3 =? 0)) eqn:Hal.
    + exists O, (S n). simpl. rewrite !Z.add_0_r. split_and!; [done | | done].
      intros ->. done.
    + destruct (IH (st m d c) (d + 1)) as (j & k & Hjk & Hk & ->).
      exists (S j), k. split_and!; [lia | done |]. cbn [repeat write].
      by replace (d + Z.of_nat (S j)) with (d + 1 + Z.of_nat j) by lia.
Qed.

Lemma spread_sum c :
  0 <= c < 256 ->
  Z.lor (Z.lor (Z.lor (Z.shiftl c 24) (Z.shiftl c 16)) (Z.shiftl c 8)) c
  = c + 256 * c + 65536 * c + 16777216 * c.
Proof.
  intros Hc. change 24 with (16 + 8). rewrite <- (Z.shiftl_shiftl _ 16 8), Z.shiftl_shiftl by lia.
  rewrite (Z.add_comm 16), <- Z.shiftl_shiftl by lia.
  rewrite (Z.lor_comm (Z.shiftl (Z.shiftl c 8) 16)).
  change 16 with (8 + 8). rewrite <- !(Z.shiftl_shiftl _ 8 8) by lia.
  rewrite <- !Z.shiftl_lor.
  rewrite (Z.lor_comm (Z.shiftl _ 8) c), (Z.lor_comm (Z.shiftl _ 8) c).
  rewrite !lor_shiftl_add by lia. lia.
Qed.

Lemma st32_fill m d c :
  0 <= c < 256 ->
  st32 m d (c + 256 * c + 65536 * c + 16777216 * c) = write m d (repeat c 4).
Proof.
  intros Hc. unfold st32. simpl.
  replace (d + 1 + 1) with (d + 2) by lia. replace (d + 2 + 1) with (d + 3) by lia.
  unfold u8. rewrite !Z.shiftr_div_pow2 by lia.
  change (2 ^ 8) with 256. change (2 ^ 16) with 65536. change (2 ^ 24) with 16777216.
  repeat f_equal; Z.div_mod_to_equations; lia.
Qed.

Lemma rep_stosl_spec n m d c :
  0 <= c < 256 ->
  rep_stosl n m d (c + 256 * c + 65536 * c + 16777216 * c)
  = (write m d (repeat c (4 * n)), d + Z.of_nat (4 * n)).
Proof.
  intros Hc. revert m d. induction n as [| n IH]; intros m d; cbn [rep_stosl].
  - simpl. by rewrite Z.add_0_r.
  - rewrite st32_fill, IH by done. replace (4 * S n)%nat with (4 + 4 * n)%nat by lia.
    rewrite repeat_app, write_app, repeat_length. change (Z.of_nat 4) with 4.
    by replace (d + Z.of_nat (4 + 4 * n)) with (d + 4 + Z.of_nat (4 * n)) by lia.
Qed.

(** The three phases of the assembly together fill the block. *)
Lemma memset_write m s c n :
  0 <= n < 4294967296 ->
  memset m s c n = write m s (repeat (u8 c) (Z.to_nat n)).
Proof.
  intros Hn. unfold memset. rewrite (u32_small n) by done.
  change 255 with (Z.ones 8). rewrite Z.land_ones by lia. change (2 ^ 8) with 256.
  fold (u8 c). pose proof (u8_range c) as Hc. generalize dependent (u8 c). clear c.
  intros c Hc. rewrite spread_sum by done.
  rewrite (u32_small (c + _ + _ + _)) by lia.
  replace (u8 (c + _ + _ + _)) with c by mach.
  destruct (set_bytes_spec true (Z.to_nat n) m s c) as (j & k & Hjk & _ & ->).
  set (q := Z.to_nat (Z.shiftr (Z.of_nat k) 2)). set (t := Z.to_nat (Z.land (Z.of_nat k) 3)).
  assert (Hk : (k = 4 * q + t)%nat).
  { unfold q, t. rewrite Z.shiftr_div_pow2 by lia. change 3 with (Z.ones 2).
    rewrite Z.land_ones by lia. change (2 ^ 2) with 4. Z.div_mod_to_equations. lia. }
  rewrite rep_stosl_spec by done.
  destruct (set_bytes_spec false t (write (write m s (repeat c j)) (s + Z.of_nat j)
              (repeat c (4 * q))) (s + Z.of_nat j + Z.of_nat (4 * q)) c)
    as (j' & k' & Hj' & Hk' & ->). rewrite Hk' in Hj' by done.
  replace (Z.to_nat n) with (j + (4 * q + j'))%nat by lia.
  rewrite !repeat_app, !write_app, !repeat_length. done.
Qed.
End fills.

(** ** memmove

    The window [P] holds the source and the destination: mapped, and no two
    of its addresses share a cell.  The two blocks may overlap. *)

Section moves.
Context {M : Type} `{MemLaws M}.
Implicit Types m : M.
Variable P : Z -> Prop.

Definition window m : Prop :=
  (forall x, P x -> is_Some (loc m x)) /\
  (forall x y, P x -> P y -> loc m x = loc m y -> x = y).

Lemma window_st m a v : window m -> window (st m a v).
Proof. intros [H1 H2]. split; intros *; rewrite ?loc_st; auto. Qed.

Lemma ld_window m a v b :
  window m -> P a -> P b -> ld (st m a v) b = if decide (b = a) then u8 v else ld m b.
Proof.
  intros [Hm Hi] Ha Hb. rewrite ld_st by auto. repeat case_decide; try done.
  - exfalso. auto.
  - subst. done.
Qed.

(** Forward, towards lower addresses. *)
Lemma rep_movsb_up n m d s :
  window m -> d <= s ->
  (forall i, 0 <= i < Z.of_nat n -> P (d + i) /\ P (s + i)) ->
  forall b, P b ->
  ld (rep_movsb 1 n m d s) b
  = if decide (d <= b < d + Z.of_nat n) then ld m (s + (b - d)) else ld m b.
Proof.
  revert m d s. induction n as [| n IH]; intros m d s Hw Hds HP b Hb; cbn [rep_movsb].
  - rewrite decide_False by lia. done.
  - destruct (HP 0 ltac:(lia)) as [Hd Hs]. rewrite Z.add_0_r in Hd, Hs.
    rewrite IH; [| by apply window_st | lia | | done].
    2: { intros i Hi. replace (d + 1 + i) with (d + (i + 1)) by lia.
         replace (s + 1 + i) with (s + (i + 1)) by lia. apply HP. lia. }
    pose proof (ld_byte m s).
    repeat case_decide; try lia.
    + rewrite ld_window; [| done | done |].
      * rewrite decide_False by lia. f_equal. lia.
      * replace (s + 1 + (b - (d + 1))) with (s + (b - d)) by lia. apply HP. lia.
    + assert (b = d) as -> by lia. rewrite ld_window, decide_True by done.
      rewrite u8_small by done. f_equal. lia.
    + rewrite ld_window, decide_False by (done || lia). done.
Qed.

(** Backward, towards higher addresses. *)
Lemma rep_movsb_down n m d s :
  window m -> s < d ->
  (forall i, 0 <= i < Z.of_nat n -> P (d + i) /\ P (s + i)) ->
  forall b, P b ->
  ld (rep_movsb (-1) n m (d + Z.of_nat n - 1) (s + Z.of_nat n - 1)) b
  = if decide (d <= b < d + Z.of_nat n) then ld m (s + (b - d)) else ld m b.
Proof.
  revert m. induction n as [| n IH]; intros m Hw Hds HP b Hb; cbn [rep_movsb].
  - rewrite decide_False by lia. done.
  - replace (d + Z.of_nat (S n) - 1) with (d + Z.of_nat n) by lia.
    replace (s + Z.of_nat (S n) - 1) with (s + Z.of_nat n) by lia.
    destruct (HP (Z.of_nat n) ltac:(lia)) as [Hd Hs].
    replace (d + Z.of_nat n + -1) with (d + Z.of_nat n - 1) by lia.
    replace (s + Z.of_nat n + -1) with (s + Z.of_nat n - 1) by lia.
    rewrite IH; [| by apply window_st | lia | | done].
    2: { intros i Hi. apply HP. lia. }
    pose proof (ld_byte m (s + Z.of_nat n)).
    repeat case_decide; try lia.
    + rewrite ld_window; [| done | done |].
      * rewrite decide_False by lia. done.
      * apply HP. lia.
    + assert (b = d + Z.of_nat n) as -> by lia. rewrite ld_window, decide_True by done.
      rewrite u8_small by done. f_equal. lia.
    + rewrite ld_window, decide_False by (done || lia). done.
Qed.
End moves.

(** ** Reversal and number formatting *)

Section numbers.
Context {M : Type} `{MemLaws M}.
Implicit Types m : M.

(** Outside of the [n] cells from [s], [m'] reads as [m]. *)
Definition same_outside (m m' : M) (s : Z) (n : nat) : Prop :=
  forall b, (forall i, 0 <= i < Z.of_nat n -> loc m b <> loc m (s + i)) -> ld m' b = ld m b.

(** The swap loop after [beg] turns. *)
Definition strrev_inv (m0 : M) (s : Z) (n : nat) (t : M * Z * Z) : Prop :=
  let '(m, beg, en) := t in
  0 <= beg /\ beg + en = Z.of_nat n - 1 /\ beg <= en + 1 /\
  (forall b, loc m b = loc m0 b) /\
  (forall i, 0 <= i < Z.of_nat n ->
     ld m (s + i) = ld m0 (s + if decide (i < beg \/ en < i) then Z.of_nat n - 1 - i else i)) /\
  same_outside m0 m s n.

Definition strrev_post (m0 : M) (s : Z) (n : nat) (m : M) : Prop :=
  (forall b, loc m b = loc m0 b) /\
  (forall i, 0 <= i < Z.of_nat n -> ld m (s + i) = ld m0 (s + (Z.of_nat n - 1 - i))) /\
  same_outside m0 m s n.

Lemma strrev_turn_ok m0 s n t :
  region m0 s n -> strrev_inv m0 s n t ->
  match strrev_turn s t with
  | Continue t' => strrev_inv m0 s n t' /\
      (Z.to_nat (t'.2 - t'.1.2 + 1) < Z.to_nat (t.2 - t.1.2 + 1))%nat
  | Break m => strrev_post m0 s n m
  end.
Proof.
  intros [Hm Hi]. destruct t as [[m beg] en]. intros (Hb & Hbe & Hle & Hloc & Hv & Hout).
  simpl. destruct (Z.ltb_spec beg en) as [Hlt | Hge].
  2: { split_and!; [done | | done]. intros i Hr. rewrite Hv by done. f_equal.
       case_decide; lia. }
  assert (Hms : forall i, 0 <= i < Z.of_nat n -> is_Some (loc m (s + i))).
  { intros i Hr. rewrite Hloc. by apply Hm. }
  split; [| simpl; lia]. split_and!; [lia | lia | lia | | |].
  - intros b. by rewrite !loc_st.
  - intros i Hr. rewrite ld_st by (rewrite loc_st; apply Hms; lia). rewrite !loc_st.
    rewrite ld_st by (apply Hms; lia).
    pose proof (ld_byte m (s + en)). pose proof (ld_byte m (s + beg)).
    rewrite !u8_small by done.
    assert (Hij : forall j, 0 <= j < Z.of_nat n -> loc m (s + i) = loc m (s + j) <-> i = j).
    { intros j Hj. rewrite !Hloc. split; [by apply Hi | by intros ->]. }
    rewrite (decide_ext (loc m (s + i) = loc m (s + beg)) (i = beg)) by (apply Hij; lia).
    rewrite (decide_ext (loc m (s + i) = loc m (s + en)) (i = en)) by (apply Hij; lia).
    rewrite !Hv by lia. repeat case_decide; subst; try lia; f_equal; f_equal; lia.
  - intros b Hd. rewrite ld_st_ne; [rewrite ld_st_ne |..]; rewrite ?loc_st.
    + by apply Hout.
    + apply Hms. lia.
    + rewrite !Hloc. apply Hd. lia.
    + apply Hms. lia.
    + rewrite !Hloc. apply Hd. lia.
Qed.

Lemma strrev_spec fuel m s l :
  terminated NUL (chars m s) l -> (length l < fuel)%nat ->
  Z.of_nat (length l) < 2147483648 -> region m s (length l) ->
  exists m', strrev fuel m s = Some m' /\ strrev_post m s (length l) m'.
Proof.
  intros Hs Hf Hl Hr. unfold strrev. rewrite (strlen_terminated _ _ l) by done. simpl.
  rewrite s32_small by lia.
  apply (loop_total (strrev_inv m s (length l)) (fun t => Z.to_nat (t.2 - t.1.2 + 1))).
  - intros t Ht. by apply strrev_turn_ok.
  - split_and!; try done; try lia. intros i Hi. rewrite decide_False by lia. done.
  - simpl. lia.
Qed.

Lemma itoa_loop r fuel m newbuf v :
  2 <= r < 4294967296 -> 0 <= v < r ^ Z.of_nat fuel ->
  loop (S fuel) (itoa_turn r) (m, newbuf, v)
  = let ds := arr_get itoa_lookup <$> digits fuel r v in
    Some (write m newbuf ds, newbuf + Z.of_nat (length ds)).
Proof.
  intros Hr. revert m newbuf v. induction fuel as [| fuel IH]; intros m newbuf v Hv.
  - simpl in *. destruct (Z.ltb_spec 0 v); [lia |]. by rewrite Z.add_0_r.
  - remember (S fuel) as f. cbn [loop]. unfold itoa_turn at 1. subst f. rewrite u32_small by lia.
    cbn [digits]. destruct (Z.eqb_spec v 0) as [-> | Hne].
    + simpl. by rewrite Z.add_0_r.
    + destruct (Z.ltb_spec 0 v); [| lia]. rewrite IH.
      * cbn [fmap list_fmap write length].
        f_equal. f_equal. rewrite Nat2Z.inj_succ. lia.
      * split; [apply Z.div_pos; lia |]. apply Z.div_lt_upper_bound; [lia |].
        rewrite <- Z.pow_succ_r, <- Nat2Z.inj_succ by lia. lia.
Qed.
End numbers.

(** *** Digits *)

Lemma value_of_digits fuel r v :
  2 <= r -> 0 <= v < r ^ Z.of_nat fuel -> value_of r (digits fuel r v) = v.
Proof.
  intros Hr. revert v. induction fuel as [| fuel IH]; intros v Hv; simpl in *; [lia |].
  destruct (Z.eqb_spec v 0); [done |]. simpl. rewrite IH.
  - pose proof (Z.div_mod v r). lia.
  - split; [apply Z.div_pos; lia |]. apply Z.div_lt_upper_bound; [lia |].
    rewrite <- Z.pow_succ_r, <- Nat2Z.inj_succ by lia. simpl. lia.
Qed.

Lemma digits_range fuel r v :
  2 <= r -> 0 <= v -> Forall (fun d => 0 <= d < r) (digits fuel r v).
Proof.
  intros Hr. revert v. induction fuel as [| fuel IH]; intros v Hv; simpl; [done |].
  destruct (Z.eqb_spec v 0); [done |]. constructor; [apply Z.mod_pos_bound; lia |].
  apply IH. apply Z.div_pos; lia.
Qed.

Lemma length_digits fuel r v : (length (digits fuel r v) <= fuel)%nat.
Proof.
  revert v. induction fuel; intros v; simpl; [done |]. destruct (v =? 0); simpl; [lia |].
  specialize (IHfuel (v / r)). lia.
Qed.

(** Reading a numeral back: the digit of a character, most significant first. *)
Definition digit_of (c : Z) : Z := if c <=? 57 then c - 48 else c - 55.

Definition parse (r : Z) (l : list Z) : Z :=
  fold_left (fun acc c => acc * r + digit_of c) l 0.

Lemma itoa_lookup_char d :
  0 <= d < 36 -> 48 <= arr_get itoa_lookup d < 91 /\ digit_of (arr_get itoa_lookup d) = d.
Proof.
  intros Hd. assert (Hall : Forall (fun d => 48 <= arr_get itoa_lookup d < 91 /\
    digit_of (arr_get itoa_lookup d) = d) (seqZ 0 36)).
  { repeat (constructor; [vm_compute; intuition congruence |]). constructor. }
  rewrite Forall_forall in Hall. apply Hall. apply elem_of_seqZ. lia.
Qed.

Lemma parse_lookup r ds :
  r <= 36 -> Forall (fun d => 0 <= d < r) ds ->
  parse r (reverse (arr_get itoa_lookup <$> ds)) = value_of r ds.
Proof.
  intros Hr Hd. unfold parse. induction Hd as [| d ds Hd1 _ IH]; [done |].
  rewrite fmap_cons, reverse_cons, fold_left_app, IH. simpl.
  destruct (itoa_lookup_char d) as [_ ->]; [lia |]. lia.
Qed.

(** *** Formatting *)

Section format.
Context {M : Type} `{MemLaws M}.
Implicit Types m : M.

Lemma same_outside_write m s l n :
  region m s n -> (length l <= n)%nat -> same_outside m (write m s l) s n.
Proof.
  intros Hr Hl b Hb. apply ld_write_apart; [by eapply region_le |].
  intros i Hi. apply Hb. lia.
Qed.

Lemma same_outside_trans m1 m2 m3 s n k :
  same_outside m1 m2 s n -> same_outside m2 m3 s k -> (k <= n)%nat ->
  (forall b, loc m2 b = loc m1 b) -> same_outside m1 m3 s n.
Proof.
  intros H12 H23 Hk Hl b Hb. rewrite H23; [by apply H12 |].
  intros i Hi. rewrite !Hl. apply Hb. lia.
Qed.

(** A string that was stored with its terminator is there. *)
Lemma terminated_write m s l :
  Forall (fun c => 0 < c < 256) l -> region m s (S (length l)) ->
  terminated NUL (chars (write m s (l ++ [NUL])) s) l.
Proof.
  intros Hl Hr.
  assert (Hb : bytes (write m s (l ++ [NUL])) s (length l + 1) = u8 <$> (l ++ [NUL])).
  { replace (length l + 1)%nat with (length (l ++ [NUL])) by (by rewrite length_app).
    apply bytes_write. rewrite length_app. simpl.
    by rewrite Nat.add_1_r. }
  assert (Hc : forall i c, (l ++ [NUL]) !! i = Some c ->
            ld (write m s (l ++ [NUL])) (s + Z.of_nat i) = u8 c).
  { intros i c Hc. pose proof (lookup_lt_Some _ _ _ Hc) as Hi.
    rewrite length_app in Hi. simpl in Hi. apply (f_equal (.!! i)) in Hb.
    rewrite bytes_lookup, list_lookup_fmap, Hc in Hb by lia. by injection Hb. }
  unfold chars. split.
  - intros i Hi. destruct (lookup_lt_is_Some_2 l (Z.to_nat i)) as [c Hli]; [lia |].
    pose proof (Forall_lookup_1 _ _ _ _ Hl Hli) as Hrange. simpl in Hrange.
    specialize (Hc (Z.to_nat i) c). rewrite lookup_app_l in Hc by lia.
    rewrite Z2Nat.id, u8_small in Hc by lia. rewrite Hc by done. unfold NUL. split; [done | lia].
  - rewrite (Hc (length l) NUL); [done |]. by rewrite lookup_app_r, Nat.sub_diag by lia.
Qed.

(** [strrev] turns a string into its reverse. *)
Lemma strrev_terminated m m' s l :
  terminated NUL (chars m s) l -> region m s (S (length l)) ->
  strrev_post m s (length l) m' -> terminated NUL (chars m' s) (reverse l).
Proof.
  intros [Hl Hend] [_ Hinj] (Hloc & Hv & Hout). unfold chars in *. split; rewrite length_reverse.
  - intros i Hi. rewrite Hv by done.
    destruct (Hl (Z.of_nat (length l) - 1 - i)) as [Hli Hne]; [lia |]. split; [| done].
    rewrite <- Hli, reverse_lookup by lia. f_equal. lia.
  - rewrite Hout; [done |]. intros i Hi Heq. enough (Z.of_nat (length l) = i) by lia.
    apply Hinj; [lia | lia | done].
Qed.

Lemma itoa_nonzero m v buf r :
  0 < v < 4294967296 -> 2 <= r <= 36 -> region m buf 33 ->
  exists m' l,
    ('(m1, newbuf) ← loop 33 (itoa_turn r) (m, buf, v);
     strrev 34 (st m1 newbuf NUL) buf) = Some m' /\
    terminated NUL (chars m' buf) l /\ (length l <= 32)%nat /\ parse r l = v /\
    same_outside m m' buf 33.
Proof.
  intros Hv Hr Hreg.
  assert (H32 : v < r ^ Z.of_nat 32).
  { apply (Z.lt_le_trans _ (2 ^ Z.of_nat 32)); [simpl; lia |]. apply Z.pow_le_mono_l. lia. }
  rewrite (itoa_loop r 32) by lia. cbn [mbind option_bind]. cbv zeta.
  assert (Hd : Forall (fun d => 0 <= d < r) (digits 32 r v)) by (apply digits_range; lia).
  set (ds := arr_get itoa_lookup <$> digits 32 r v).
  assert (Hlen : (length ds <= 32)%nat).
  { unfold ds. rewrite length_fmap. apply length_digits. }
  assert (Hch : Forall (fun c => 0 < c < 256) ds).
  { apply Forall_fmap, (Forall_impl _ _ _ Hd). intros d Hdr.
    change (0 < arr_get itoa_lookup d < 256). cbv beta in Hdr.
    destruct (itoa_lookup_char d ltac:(lia)). lia. }
  change (st (write m buf ds) (buf + Z.of_nat (length ds)) NUL)
    with (write (write m buf ds) (buf + Z.of_nat (length ds)) [NUL]).
  rewrite <- write_app.
  assert (Hr1 : region m buf (S (length ds))) by (eapply region_le; [done | lia]).
  pose proof (terminated_write m buf ds Hch Hr1) as Ht.
  destruct (strrev_spec 34 _ _ _ Ht) as (m' & Hrev & Hpost); [lia | lia | |].
  { apply region_write. eapply region_le; [done | lia]. }
  exists m', (reverse ds). split_and!; [done | | by rewrite length_reverse | |].
  - eapply strrev_terminated; [done | by apply region_write | done].
  - unfold ds. rewrite parse_lookup, value_of_digits by (done || lia). done.
  - eapply same_outside_trans; [| apply Hpost | lia |].
    + apply same_outside_write; [done |]. rewrite length_app. simpl. lia.
    + intros b. apply loc_write.
Qed.
End format.

(** ** String copies *)

Section copies.
Context {M : Type} `{MemLaws M}.
Implicit Types m : M.

(** A copy loop over a source that the copy does not disturb writes the
    string and its terminator. *)
Lemma strcpy_loop fuel m dest stop (src : M -> Z -> Z) l :
  terminated stop (src m) l -> (length l < fuel)%nat ->
  (forall k i, (k <= length l)%nat -> 0 <= i <= Z.of_nat (length l) ->
     src (write m dest (take k l)) i = src m i) ->
  loop fuel (strcpy_turn dest stop src) (m, 0) = Some (write m dest (l ++ [stop])).
Proof.
  intros [Hl Hend] Hf Hsrc.
  replace m with (write m dest (take (Z.to_nat 0) l)) at 1 by done.
  apply (loop_scan _ (fun i => (write m dest (take (Z.to_nat i) l), i)) (length l)); [done | |].
  - intros i Hi. destruct (Hl i Hi) as [Hli Hne]. unfold strcpy_turn.
    rewrite Hsrc by lia. destruct (Z.eqb_spec (src m i) stop); [done |].
    replace (Z.to_nat (i + 1)) with (S (Z.to_nat i)) by lia.
    rewrite (take_S_r _ _ _ Hli), write_app, length_take. simpl.
    by replace (dest + Z.of_nat (Z.to_nat i `min` length l)) with (dest + i) by lia.
  - unfold strcpy_turn. rewrite Hsrc, Hend by lia. rewrite Z.eqb_refl.
    rewrite Nat2Z.id, firstn_all, write_app. done.
Qed.

Lemma strcpy_write fuel m dest src l :
  terminated NUL (chars m src) l -> (length l < fuel)%nat ->
  region m dest (length l) -> apart m (within src (Z.of_nat (length l) + 1)) dest (length l) ->
  strcpy fuel m dest src = Some (write m dest (l ++ [NUL])).
Proof.
  intros Hs Hf Hr Hd. apply strcpy_loop; [done | done |]. intros k i Hk Hi. unfold chars.
  apply ld_write_apart; rewrite length_take.
  - eapply region_le; [done | lia].
  - intros j Hj. apply Hd; [unfold within |]; lia.
Qed.
End copies.

(** ** Properties *)

Section properties.
Context {M : Type} `{MemLaws M}.

(** C38: [memcpy] copies: for a destination that is mapped and shares no
    cell with the source, the assembly (byte loop to alignment, [rep
    movsl], tail) leaves the [n] source bytes at the destination, the
    source unchanged, and every cell outside of the destination alone. *)
Theorem memcpy_copies (m : M) dest src n :
  0 <= n < 4294967296 ->
  region m dest (Z.to_nat n) -> apart m (within src n) dest (Z.to_nat n) ->
  bytes (memcpy m dest src n) dest (Z.to_nat n) = bytes m src (Z.to_nat n) /\
  bytes (memcpy m dest src n) src (Z.to_nat n) = bytes m src (Z.to_nat n) /\
  same_outside m (memcpy m dest src n) dest (Z.to_nat n).
Proof.
  intros Hn Hr Hd. rewrite memcpy_write by done.
  assert (Hr' : region m dest (length (bytes m src (Z.to_nat n)))) by by rewrite length_bytes.
  split_and!.
  - rewrite <- (length_bytes m src (Z.to_nat n)) at 2. rewrite bytes_write by done.
    apply list_eq. intros i. rewrite list_lookup_fmap.
    destruct (bytes m src (Z.to_nat n) !! i) as [v |] eqn:Hv; simpl; [| done].
    pose proof (lookup_lt_Some _ _ _ Hv) as Hi. rewrite length_bytes in Hi.
    rewrite bytes_lookup in Hv by done. simplify_eq. f_equal. apply u8_small, ld_byte.
  - apply bytes_write_apart; [done |]. rewrite length_bytes.
    by rewrite Z2Nat.id by lia.
  - intros b Hb. apply ld_write_apart; [done |]. by rewrite length_bytes.
Qed.

(** [memset] fills: the three phases store the low byte of [c] at
    each of the [n] addresses and nowhere else. *)
Theorem memset_fills (m : M) s c n :
  0 <= n < 4294967296 -> region m s (Z.to_nat n) ->
  bytes (memset m s c n) s (Z.to_nat n) = repeat (u8 c) (Z.to_nat n) /\
  same_outside m (memset m s c n) s (Z.to_nat n).
Proof.
  intros Hn Hr. rewrite memset_write by done.
  assert (Hr' : region m s (length (repeat (u8 c) (Z.to_nat n)))) by by rewrite repeat_length.
  split.
  - pose proof (bytes_write m s _ Hr') as Hb. rewrite repeat_length in Hb. rewrite Hb.
    clear. induction (Z.to_nat n) as [| k IH]; [done |].
    cbn [repeat]. by rewrite fmap_cons, IH, u8_idem.
  - intros b Hb. apply ld_write_apart; [done |]. by rewrite repeat_length.
Qed.

(** C39: [memmove] moves overlapping blocks: whatever the order of source
    and destination, the destination ends up with the [n] bytes the source
    held before the call, and the rest of the window is unchanged; the
    direction flag comes back set exactly when the destination was above
    the source. *)
Theorem memmove_moves (P : Z -> Prop) (m : M) dest src n :
  window P m -> 0 <= n -> 0 <= src -> src + n < 4294967296 ->
  0 <= dest -> dest + n < 4294967296 ->
  (forall i, 0 <= i < n -> P (dest + i) /\ P (src + i)) ->
  (forall b, P b ->
     ld (memmove m dest src n).1 b
     = if decide (dest <= b < dest + n) then ld m (src + (b - dest)) else ld m b) /\
  (memmove m dest src n).2 = bool_decide (src < dest).
Proof.
  intros Hw Hn Hs Hsn Hd Hdn HP. unfold memmove. rewrite !u32_small by lia.
  destruct (Z.leb_spec dest src); simpl; (split; [| case_bool_decide; lia]); intros b Hb.
  - rewrite (rep_movsb_up P) by (done || rewrite ?Z2Nat.id by lia; done).
    by rewrite Z2Nat.id by lia.
  - rewrite <- (Z2Nat.id n) at 2 3 by lia.
    rewrite (rep_movsb_down P) by (done || rewrite ?Z2Nat.id by lia; done).
    by rewrite Z2Nat.id by lia.
Qed.

(** [itoa] on every value. *)
Lemma itoa_spec (m : M) v buf r :
  0 <= v < 4294967296 -> 2 <= r <= 36 -> region m buf 33 ->
  exists m' l, itoa m v buf r = Some m' /\
    terminated NUL (chars m' buf) l /\ (length l <= 32)%nat /\ parse r l = v /\
    same_outside m m' buf 33.
Proof.
  intros Hv Hr Hreg. unfold itoa. rewrite (u32_small v) by done.
  destruct (Z.eqb_spec v 0) as [-> | Hne].
  - exists (write m buf ([48] ++ [NUL])), [48].
    split_and!; [done | | simpl; lia | done |].
    + apply terminated_write; [| eapply region_le; [done | simpl; lia]].
      by repeat constructor.
    + apply same_outside_write; [done | simpl; lia].
  - rewrite (u32_small r) by lia. destruct (Z.eqb_spec r 0); [lia |].
    destruct (itoa_nonzero m v buf r) as (m' & l & Hm' & ?); [lia.. | done |].
    rewrite Hm'. by exists m', l.
Qed.

(** C35: [itoa] prints: for every 32-bit value and radix from 2 to 36 the
    routine returns, and [buf] then holds a null-terminated numeral of at
    most 32 characters that reads back as the value; nothing outside of
    the 33 bytes of the buffer changes. *)
Theorem itoa_roundtrip (m : M) v buf r :
  0 <= v < 4294967296 -> 2 <= r <= 36 -> region m buf 33 ->
  exists m' l, itoa m v buf r = Some m' /\
    terminated NUL (chars m' buf) l /\ (length l <= 32)%nat /\ parse r l = v /\
    same_outside m m' buf 33.
Proof. apply itoa_spec. Qed.
End properties.

(** ** Witnesses *)

(** Memory that holds "fish!" at 0x1000, and a window on its first 64 KB. *)
Definition sample_mem : flat := write (Flat ∅) 0x1000 (str_bytes "fish!").

Lemma memcpy_copies_witness : bytes (memcpy sample_mem 0x2000 0x1000 5) 0x2000 5 = str_bytes "fish!".
Proof.
  destruct (memcpy_copies sample_mem 0x2000 0x1000 5) as (H & _).
  - lia.
  - apply flat_region; lia.
  - apply flat_apart; [lia.. |]. unfold within. lia.
  - exact H.
Defined.

Lemma memset_fills_witness : bytes (memset sample_mem 0x1001 0x1FF 3) 0x1000 5 = [102; 255; 255; 255; 33].
Proof.
  destruct (memset_fills sample_mem 0x1001 0x1FF 3) as (H & _).
  - lia.
  - apply flat_region; lia.
  - vm_compute. reflexivity.
Defined.

Lemma memmove_moves_witness :
  ld (memmove sample_mem 0x1002 0x1000 3).1 0x1004 = 115 /\
  (memmove sample_mem 0x1002 0x1000 3).2 = true.
Proof.
  destruct (memmove_moves (fun a => 0 <= a < 0x10000) sample_mem 0x1002 0x1000 3) as [H Hd].
  - split; [by eauto |]. simpl. intros x y Hx Hy Heq. simplify_eq.
    rewrite !u32_small in * by lia. done.
  - lia.
  - lia.
  - lia.
  - lia.
  - lia.
  - intros i Hi. lia.
  - split; [| exact Hd]. rewrite H by lia. reflexivity.
Defined.

Lemma itoa_roundtrip_witness :
  exists m' l, itoa sample_mem 391 0x2000 16 = Some m' /\ terminated NUL (chars m' 0x2000) l /\
    parse 16 l = 391.
Proof.
  destruct (itoa_roundtrip sample_mem 391 0x2000 16) as (m' & l & H1 & H2 & _ & H3 & _).
  - lia.
  - lia.
  - apply flat_region; lia.
  - exists m', l. auto.
Defined.
