(* ===== verification/Paging.v ===== *)
(** * paging.c: page directory, page table, and memory behind them

    The two tables of src/student-distrib/paging.c and every function that
    writes them, together with the memory the processor reaches through
    them: [vmem] is an instance of [MemOps] whose [loc] is the translation
    of the IA-32 manual for the entries the code builds (present bit, page
    size bit, frame).  The code reloads CR3 after each change, so there is
    no TLB in the model. *)

From S2P Require Import Prelude Memory.

(** ** Constants *)

Definition DIR_SIZE : nat := 1024.
Definition TABLE_SIZE : nat := 1024.
Definition PDE_VAL : Z := 0x2.
Definition UNIT_4_KB : Z := 0x1000.
Definition UNIT_4_MB : Z := 0x400000.
Definition VIDEO_MEM_ADDR : Z := 0xB8000.
Definition RWPRESENT : Z := 0x03.
Definition PRESENT_4_MB : Z := 0x083.
Definition PAGE_TAB_IDX : Z := 0.
Definition KERNEL_IDX : Z := 1.
Definition VID_MEM_IDX : Z := 184.
Definition ENABLE_RW : Z := 2.
Definition SET_PRESENT : Z := 1.
Definition U_R_P : Z := 0x07.
Definition PAGE_MAP : Z := 0x87.
Definition NEW_VID_IDX : Z := 34.
Definition NEW_VIRTUAL : Z := UNIT_4_MB * NEW_VID_IDX.

(** ** State

    [pt_addr] is the address the linker gave [page_table]; [paging_on] is
    bit 31 of CR0; [ram] the physical memory. *)

Record vmem := VMem {
  page_dir : list Z;
  page_table : list Z;
  pt_addr : Z;
  paging_on : bool;
  ram : gmap Z Z
}.

Definition set_page_dir (d : list Z) (m : vmem) : vmem :=
  VMem d (page_table m) (pt_addr m) (paging_on m) (ram m).
Definition set_page_table (t : list Z) (m : vmem) : vmem :=
  VMem (page_dir m) t (pt_addr m) (paging_on m) (ram m).
Definition set_paging_on (b : bool) (m : vmem) : vmem :=
  VMem (page_dir m) (page_table m) (pt_addr m) b (ram m).
Definition set_ram (r : gmap Z Z) (m : vmem) : vmem :=
  VMem (page_dir m) (page_table m) (pt_addr m) (paging_on m) r.

(** Project the fields of an updated memory. *)
Ltac psimpl :=
  cbn [page_dir page_table pt_addr paging_on ram set_page_dir set_page_table set_paging_on
       set_ram fst snd].

(** ** The processor's translation *)

Definition entry_bit (e n : Z) : bool := (e / 2 ^ n) mod 2 =? 1.

Definition xlate (m : vmem) (va : Z) : option Z :=
  let va := u32 va in
  if negb (paging_on m) then Some va else
  let pde := arr_get (page_dir m) (va / UNIT_4_MB) in
  if negb (entry_bit pde 0) then None
  else if entry_bit pde 7 then Some (pde / UNIT_4_MB * UNIT_4_MB + va mod UNIT_4_MB)
  else if pde / UNIT_4_KB * UNIT_4_KB =? pt_addr m then
    let pte := arr_get (page_table m) ((va / UNIT_4_KB) mod 1024) in
    if negb (entry_bit pte 0) then None
    else Some (pte / UNIT_4_KB * UNIT_4_KB + va mod UNIT_4_KB)
  else None.

(** An access to an unmapped address is a page fault: nothing is stored. *)
#[export] Instance vmem_ops : MemOps vmem := {
  ld m a :=
    match xlate m a with
    | Some p => u8 (default 0 (ram m !! p))
    | None => 0
    end;
  st m a v :=
    match xlate m a with
    | Some p => set_ram (<[p := v]> (ram m)) m
    | None => m
    end;
  loc := xlate
}.

(** ** Operations *)

Definition init_page_directory (m : vmem) : vmem :=
  set_page_dir (for_loop DIR_SIZE 0 (fun i d => arr_set d i PDE_VAL) (page_dir m)) m.

Definition init_page_table (m : vmem) : vmem :=
  set_page_table
    (for_loop TABLE_SIZE 0 (fun i t => arr_set t i (Z.lor (i * UNIT_4_KB) ENABLE_RW))
       (page_table m)) m.

(** [page_table[i] |= SET_PRESENT;] *)
Definition set_present (i : Z) (t : list Z) : list Z :=
  arr_set t i (Z.lor (arr_get t i) SET_PRESENT).

Definition init_page_map (m : vmem) : vmem :=
  let d := page_dir m in
  let d := arr_set d PAGE_TAB_IDX (Z.lor (pt_addr m) RWPRESENT) in
  let d := arr_set d KERNEL_IDX (Z.lor UNIT_4_MB PRESENT_4_MB) in
  let t := page_table m in
  let t := set_present VID_MEM_IDX t in
  let t := set_present (VID_MEM_IDX + 1) t in
  let t := set_present (VID_MEM_IDX + 2) t in
  let t := set_present (VID_MEM_IDX + 3) t in
  set_page_table t (set_page_dir d m).

Definition setup_paging (m : vmem) : vmem :=
  set_paging_on true (init_page_map (init_page_table (init_page_directory m))).

Definition map_page (physaddr virtualaddr : Z) (m : vmem) : vmem :=
  let pdindex := u32 virtualaddr / UNIT_4_MB in
  set_page_dir (arr_set (page_dir m) pdindex (Z.lor (u32 physaddr) PAGE_MAP)) m.

Definition map_vid (physaddr : Z) (m : vmem) : vmem :=
  let t := page_table m in
  let t := arr_set t 0 0 in
  let t := arr_set t 0 (Z.lor (arr_get t 0) (u32 physaddr)) in
  let t := arr_set t 0 (Z.lor (arr_get t 0) U_R_P) in
  set_page_table t m.

Definition get_vidmap_page (terminal : Z) (m : vmem) : vmem * Z :=
  let d := page_dir m in
  let d := arr_set d NEW_VID_IDX 0 in
  let d := arr_set d NEW_VID_IDX (Z.lor (arr_get d NEW_VID_IDX) (pt_addr m)) in
  let d := arr_set d NEW_VID_IDX (Z.lor (arr_get d NEW_VID_IDX) U_R_P) in
  let t := page_table m in
  let t := arr_set t 0 0 in
  let t := arr_set t 0 (Z.lor (arr_get t 0) VIDEO_MEM_ADDR) in
  let t := arr_set t 0 (Z.lor (arr_get t 0) U_R_P) in
  (set_page_table t (set_page_dir d m), NEW_VIRTUAL).

Definition flush_tlb_helper (m : vmem) : vmem := m.

(** ** The tables keep their shape *)

Definition tables_wf (m : vmem) : Prop :=
  length (page_dir m) = DIR_SIZE /\ length (page_table m) = TABLE_SIZE /\
  0 <= pt_addr m < 4294967296 /\ pt_addr m mod 4096 = 0.

(** ** Memory behind the tables obeys the interface *)

#[export] Instance vmem_laws : MemLaws vmem.
Proof.
  split.
  - intros m a. simpl. destruct (xlate m a); [apply u8_range | lia].
  - intros m a v b [p Hp]. simpl in *. rewrite Hp.
    change (xlate (set_ram (<[p:=v]> (ram m)) m) b) with (xlate m b).
    destruct (xlate m b) as [q |]; [| by rewrite decide_False].
    case_decide as Hq; simplify_eq; simpl.
    + by rewrite lookup_insert_eq.
    + rewrite lookup_insert_ne; [done | congruence].
  - intros m a v b. simpl. destruct (xlate m a); done.
Qed.

(** ** Memory without paging

    Before [setup_paging] an address is its own cell, as in [flat]. *)

Definition bare (r : gmap Z Z) : vmem := VMem (replicate 1024 0) (replicate 1024 0) 0 false r.

Lemma unpaged_loc m a : paging_on m = false -> loc m a = Some (u32 a).
Proof. intros Hoff. simpl. unfold xlate. by rewrite Hoff. Qed.

Lemma unpaged_region m a n :
  paging_on m = false -> 0 <= a -> a + Z.of_nat n <= 4294967296 -> region m a n.
Proof.
  intros Hoff Ha Hn. split; intros *; rewrite ?unpaged_loc by done; [by eauto |].
  intros Hi Hj Heq. simplify_eq. rewrite !u32_small in * by lia. lia.
Qed.

Lemma unpaged_apart m (P : Z -> Prop) a n :
  paging_on m = false -> 0 <= a -> a + Z.of_nat n <= 4294967296 ->
  (forall b, P b -> 0 <= b < 4294967296 /\ ~ (a <= b < a + Z.of_nat n)) ->
  apart m P a n.
Proof.
  intros Hoff Ha Hn HP b i Hb Hi. specialize (HP b Hb). rewrite !unpaged_loc by done.
  intros Heq. simplify_eq. rewrite !u32_small in * by lia. lia.
Qed.

(** ** Lemmas on entries *)

Lemma xlate_4mb m va f :
  paging_on m = true -> arr_get (page_dir m) (u32 va / UNIT_4_MB) = f + PAGE_MAP \/
    arr_get (page_dir m) (u32 va / UNIT_4_MB) = f + PRESENT_4_MB ->
  f mod UNIT_4_MB = 0 ->
  xlate m va = Some (f + u32 va mod UNIT_4_MB).
Proof.
  intros Hon He Hf. unfold xlate. rewrite Hon. cbn [negb]. unfold PAGE_MAP, PRESENT_4_MB in He.
  assert (Hb : entry_bit (arr_get (page_dir m) (u32 va / UNIT_4_MB)) 0 = true /\
               entry_bit (arr_get (page_dir m) (u32 va / UNIT_4_MB)) 7 = true).
  { unfold entry_bit, UNIT_4_MB in *. rewrite !Z.eqb_eq. change (2 ^ 0) with 1.
    change (2 ^ 7) with 128. destruct He as [-> | ->]; split; Z.div_mod_to_equations; lia. }
  destruct Hb as [-> ->]. cbn [negb]. do 2 f_equal.
  unfold UNIT_4_MB in *. destruct He as [-> | ->]; Z.div_mod_to_equations; lia.
Qed.

Lemma xlate_absent m va :
  paging_on m = true -> arr_get (page_dir m) (u32 va / UNIT_4_MB) = PDE_VAL ->
  xlate m va = None.
Proof. intros Hon He. unfold xlate. by rewrite Hon, He. Qed.

(** Through a directory entry that points to the page table. *)
Lemma xlate_4kb m va b :
  paging_on m = true -> tables_wf m -> (b = RWPRESENT \/ b = U_R_P) ->
  arr_get (page_dir m) (u32 va / UNIT_4_MB) = pt_addr m + b ->
  xlate m va =
    let pte := arr_get (page_table m) ((u32 va / UNIT_4_KB) mod 1024) in
    if negb (entry_bit pte 0) then None
    else Some (pte / UNIT_4_KB * UNIT_4_KB + u32 va mod UNIT_4_KB).
Proof.
  intros Hon (_ & _ & Hp & Hpa) Hb He. unfold xlate. rewrite Hon, He. cbn [negb].
  unfold RWPRESENT, U_R_P in Hb.
  assert (Hbits : entry_bit (pt_addr m + b) 0 = true /\ entry_bit (pt_addr m + b) 7 = false /\
            (pt_addr m + b) / UNIT_4_KB * UNIT_4_KB = pt_addr m).
  { unfold entry_bit, UNIT_4_KB. rewrite Z.eqb_eq, Z.eqb_neq. change (2 ^ 0) with 1.
    change (2 ^ 7) with 128. destruct Hb as [-> | ->]; split_and!; Z.div_mod_to_equations; lia. }
  destruct Hbits as (-> & -> & ->). by rewrite Z.eqb_refl.
Qed.

(** ** Lemmas on the operations *)

Lemma init_dir_entry m i :
  tables_wf m -> 0 <= i < 1024 ->
  arr_get (page_dir (setup_paging m)) i
  = if decide (i = 0) then pt_addr m + RWPRESENT
    else if decide (i = 1) then UNIT_4_MB + PRESENT_4_MB else PDE_VAL.
Proof.
  intros (Hd & _ & Hp & Hpa) Hi.
  unfold setup_paging, init_page_map, init_page_table, init_page_directory.
  psimpl.
  set (d := for_loop DIR_SIZE 0 _ (page_dir m)).
  assert (Hlen : length d = 1024%nat) by (unfold d; by rewrite length_for_loop_set).
  destruct (decide (i = 1)) as [-> | Hi1].
  { rewrite arr_get_set_eq by (rewrite length_arr_set, Hlen; lia). done. }
  rewrite arr_get_set_ne by (unfold KERNEL_IDX; lia).
  destruct (decide (i = 0)) as [-> | Hi0].
  { rewrite arr_get_set_eq by (rewrite Hlen; lia).
    apply (lor_flags _ _ 12); [lia | done | unfold RWPRESENT; lia]. }
  rewrite arr_get_set_ne by (unfold PAGE_TAB_IDX; lia).
  unfold d. rewrite arr_get_fill by (rewrite Hd; lia). apply decide_True. unfold DIR_SIZE. lia.
Qed.

Lemma set_present_get i t j :
  0 <= i < Z.of_nat (length t) ->
  arr_get (set_present i t) j
  = if decide (j = i) then Z.lor (arr_get t i) SET_PRESENT else arr_get t j.
Proof.
  intros Hi. unfold set_present. case_decide; subst; [by apply arr_get_set_eq |].
  by apply arr_get_set_ne, not_eq_sym.
Qed.

Lemma length_set_present i t : length (set_present i t) = length t.
Proof. apply length_arr_set. Qed.

Lemma init_table_entry m i :
  tables_wf m -> 0 <= i < 1024 ->
  arr_get (page_table (setup_paging m)) i
  = i * UNIT_4_KB + if decide (184 <= i < 188) then 3 else 2.
Proof.
  intros (_ & Ht & _) Hi.
  unfold setup_paging, init_page_map, init_page_table, init_page_directory.
  psimpl.
  set (t := for_loop TABLE_SIZE 0 _ (page_table m)).
  assert (Hlen : length t = 1024%nat) by (unfold t; by rewrite length_for_loop_set).
  assert (Hget : forall j, 0 <= j < 1024 -> arr_get t j = j * UNIT_4_KB + 2).
  { intros j Hj. unfold t. rewrite arr_get_fill by (rewrite Ht; lia).
    rewrite decide_True by (unfold TABLE_SIZE; lia).
    apply (lor_flags _ _ 12); [lia | | unfold ENABLE_RW; lia].
    change (2 ^ 12) with UNIT_4_KB. apply Z.mod_mul. done. }
  unfold VID_MEM_IDX.
  rewrite !set_present_get by (rewrite ?length_set_present, ?Hlen; lia).
  rewrite !Hget by lia.
  assert (Hor : forall j, 0 <= j -> Z.lor (j * UNIT_4_KB + 2) SET_PRESENT = j * UNIT_4_KB + 3).
  { intros j Hj. rewrite <- (lor_flags _ 2 12), <- Z.lor_assoc; unfold UNIT_4_KB;
      [| lia | change (2 ^ 12) with 0x1000; apply Z.mod_mul; lia | lia].
    change (Z.lor 2 SET_PRESENT) with 3.
    apply (lor_flags _ _ 12); [lia | change (2 ^ 12) with 0x1000; apply Z.mod_mul; lia | lia]. }
  repeat case_decide; subst; try lia; rewrite ?Hor by lia; try lia; rewrite ?Hget by lia; lia.
Qed.

Lemma setup_paging_wf m : tables_wf m -> tables_wf (setup_paging m).
Proof.
  intros (Hd & Ht & Hp). unfold tables_wf, setup_paging, init_page_map, init_page_table, init_page_directory. psimpl.
  rewrite ?length_set_present, ?length_arr_set.
  split_and!; [| | apply Hp..]; by rewrite length_for_loop_set.
Qed.

Lemma map_page_wf pa va m : tables_wf m -> tables_wf (map_page pa va m).
Proof. intros (Hd & Ht & Hp). split_and!; try apply Hp; unfold map_page; psimpl; by rewrite ?length_arr_set. Qed.

Lemma map_vid_wf pa m : tables_wf m -> tables_wf (map_vid pa m).
Proof. intros (Hd & Ht & Hp). split_and!; try apply Hp; unfold map_vid; psimpl; by rewrite ?length_arr_set. Qed.

Lemma get_vidmap_page_wf t m : tables_wf m -> tables_wf (get_vidmap_page t m).1.
Proof.
  intros (Hd & Ht & Hp). split_and!; try apply Hp; unfold get_vidmap_page; psimpl; by rewrite ?length_arr_set.
Qed.

#[export] Hint Resolve setup_paging_wf map_page_wf map_vid_wf get_vidmap_page_wf : mach.

(** A page that the first entry of the page table backs. *)
Lemma xlate_row0 m pa off b va :
  tables_wf m -> paging_on m = true -> 0 <= off < 4096 -> (b = RWPRESENT \/ b = U_R_P) ->
  0 <= va < 4294963200 -> va mod UNIT_4_MB = 0 ->
  arr_get (page_dir m) (va / UNIT_4_MB) = pt_addr m + b ->
  pa mod UNIT_4_KB = 0 -> arr_get (page_table m) 0 = pa + U_R_P ->
  xlate m (va + off) = Some (pa + off).
Proof.
  intros Hwf Hon Hoff Hb Hva Hal He Hpa Ht. unfold UNIT_4_MB, UNIT_4_KB in *.
  rewrite (xlate_4kb _ _ b); [| done | done | done |].
  - rewrite u32_small by lia. replace ((va + off) / UNIT_4_KB mod 1024) with 0
      by (unfold UNIT_4_KB; Z.div_mod_to_equations; lia).
    cbv zeta. rewrite Ht. unfold entry_bit, U_R_P, UNIT_4_KB. change (2 ^ 0) with 1.
    destruct (Z.eqb_spec ((pa + 7) / 1 mod 2) 1); [| Z.div_mod_to_equations; lia].
    cbn [negb]. f_equal. Z.div_mod_to_equations. lia.
  - rewrite u32_small by lia. unfold UNIT_4_MB.
    by replace ((va + off) / 0x400000) with (va / 0x400000) by (Z.div_mod_to_equations; lia).
Qed.

Lemma get_vidmap_page_dir t m :
  tables_wf m -> arr_get (page_dir (get_vidmap_page t m).1) NEW_VID_IDX = pt_addr m + U_R_P.
Proof.
  intros (Hl & _ & _ & Hpa). unfold DIR_SIZE in Hl. unfold get_vidmap_page, NEW_VID_IDX. psimpl.
  rewrite !arr_get_set_eq by (rewrite ?length_arr_set; lia). rewrite Z.lor_0_l.
  apply (lor_flags _ _ 12); [lia | done | unfold U_R_P; lia].
Qed.

(** The translation that [setup_paging] leaves. *)
Lemma setup_paging_xlate m a :
  tables_wf m ->
  xlate (setup_paging m) a
  = if decide (0x400000 <= u32 a < 0x800000 \/ 0xB8000 <= u32 a < 0xBC000)
    then Some (u32 a) else None.
Proof.
  intros Hwf. pose proof (u32_range a) as Ha.
  assert (Hi : 0 <= u32 a / UNIT_4_MB < 1024).
  { unfold UNIT_4_MB. Z.div_mod_to_equations. lia. }
  pose proof (init_dir_entry m _ Hwf Hi) as He.
  destruct (decide (u32 a / UNIT_4_MB = 0)) as [H0 | H0].
  - rewrite (xlate_4kb _ _ RWPRESENT); [| done | by apply setup_paging_wf | by left | done].
    rewrite init_table_entry by (done || (Z.div_mod_to_equations; lia)). cbv zeta.
    unfold UNIT_4_KB, UNIT_4_MB, entry_bit in *. change (2 ^ 0) with 1.
    rewrite (Z.mod_small (u32 a / 4096)) by (Z.div_mod_to_equations; lia).
    repeat case_decide; match goal with |- context [?x =? ?y] => destruct (Z.eqb_spec x y) end;
      simpl; try (f_equal); Z.div_mod_to_equations; lia.
  - destruct (decide (u32 a / UNIT_4_MB = 1)) as [H1 | H1].
    + rewrite (xlate_4mb _ _ UNIT_4_MB); [| done | by right | done].
      unfold UNIT_4_MB in *. rewrite decide_True; [f_equal |]; Z.div_mod_to_equations; lia.
    + rewrite xlate_absent by done.
      rewrite decide_False; [done |]. unfold UNIT_4_MB in *. Z.div_mod_to_equations. lia.
Qed.

(** ** Properties *)

(** C28: [setup_paging] maps, from any contents of the two tables, exactly
    the 4 MB kernel page and the four pages of video memory, each to itself;
    every other address, the null pointer among them, faults. *)
Theorem setup_paging_identity m a :
  tables_wf m ->
  xlate (setup_paging m) a
  = if decide (0x400000 <= u32 a < 0x800000 \/ 0xB8000 <= u32 a < 0xBC000)
    then Some (u32 a) else None.
Proof. apply setup_paging_xlate. Qed.

(** C27: [map_page] redirects the 4 MB page of [virtualaddr] to the frame
    [physaddr], byte for byte, and changes the translation of no other
    address. *)
Theorem map_page_maps m physaddr virtualaddr a :
  tables_wf m -> paging_on m = true ->
  0 <= physaddr < 4294967296 -> physaddr mod UNIT_4_MB = 0 ->
  xlate (map_page physaddr virtualaddr m) a
  = if decide (u32 a / UNIT_4_MB = u32 virtualaddr / UNIT_4_MB)
    then Some (physaddr + u32 a mod UNIT_4_MB) else xlate m a.
Proof.
  intros Hwf Hon Hp Hpa. pose proof (u32_range virtualaddr) as Hv.
  destruct (decide (u32 a / UNIT_4_MB = u32 virtualaddr / UNIT_4_MB)) as [He | He].
  - apply xlate_4mb; [done | left | done]. unfold map_page. psimpl. rewrite He, arr_get_set_eq.
    + rewrite u32_small by done. apply (lor_flags _ _ 22); [lia | done | unfold PAGE_MAP; lia].
    + destruct Hwf as [-> _]. unfold DIR_SIZE, UNIT_4_MB. Z.div_mod_to_equations. lia.
  - unfold xlate, map_page. psimpl. rewrite arr_get_set_ne by done. done.
Qed.

(** [get_vidmap_page] hands out the virtual page 0x8800000 and maps it
    to the video memory; because the page shares the page table of the
    first 4 MB, the page at address 0 is mapped there too whenever the
    directory entry of the first 4 MB is the one [init_page_map] made. *)
Theorem get_vidmap_page_maps m t off :
  tables_wf m -> paging_on m = true -> 0 <= off < 4096 ->
  let m' := (get_vidmap_page t m).1 in
  (get_vidmap_page t m).2 = 0x8800000 /\
  xlate m' (0x8800000 + off) = Some (VIDEO_MEM_ADDR + off) /\
  (arr_get (page_dir m) 0 = pt_addr m + RWPRESENT -> xlate m' off = Some (VIDEO_MEM_ADDR + off)).
Proof.
  intros Hwf Hon Hoff m'. pose proof (get_vidmap_page_wf t m Hwf) as Hwf'.
  assert (Ht : arr_get (page_table m') 0 = VIDEO_MEM_ADDR + U_R_P).
  { destruct Hwf as (_ & Hl & _). unfold TABLE_SIZE in Hl. unfold m', get_vidmap_page. psimpl.
    by rewrite !arr_get_set_eq by (rewrite ?length_arr_set; lia). }
  split_and!; [done | |].
  - apply (xlate_row0 _ _ _ U_R_P 0x8800000); try done; [by right |].
    by apply (get_vidmap_page_dir t m).
  - intros He. apply (xlate_row0 _ _ _ RWPRESENT 0); try done; [by left |].
    change (pt_addr m') with (pt_addr m). rewrite <- He. unfold m', get_vidmap_page. psimpl.
    by rewrite !arr_get_set_ne by done.
Qed.

(** The page of a vidmap follows the process: once [get_vidmap_page]
    installed the directory entry, [map_vid] of a page-aligned frame makes
    0x8800000 designate that frame, and leaves every translation outside of
    the first page of the two 4 MB ranges alone. *)
Theorem map_vid_redirects m t physaddr :
  tables_wf m -> paging_on m = true ->
  0 <= physaddr < 4294967296 -> physaddr mod UNIT_4_KB = 0 ->
  let m1 := (get_vidmap_page t m).1 in
  (forall off, 0 <= off < 4096 ->
     xlate (map_vid physaddr m1) (0x8800000 + off) = Some (physaddr + off)) /\
  (forall a, (u32 a / UNIT_4_KB) mod 1024 <> 0 -> xlate (map_vid physaddr m1) a = xlate m1 a).
Proof.
  intros Hwf Hon Hp Hpa m1. pose proof (get_vidmap_page_wf t m Hwf) as Hwf1. fold m1 in Hwf1.
  split.
  - intros off Hoff. apply (xlate_row0 _ _ _ U_R_P 0x8800000); try done.
    + by apply map_vid_wf.
    + by right.
    + change (page_dir (map_vid physaddr m1)) with (page_dir m1).
      by apply (get_vidmap_page_dir t m).
    + destruct Hwf1 as (_ & Hl & _). unfold TABLE_SIZE in Hl. unfold map_vid. psimpl.
      rewrite !arr_get_set_eq by (rewrite ?length_arr_set; lia).
      rewrite Z.lor_0_l, u32_small by done.
      apply (lor_flags _ _ 12); [lia | done | unfold U_R_P; lia].
  - intros a Ha. unfold xlate, map_vid. psimpl. by rewrite !arr_get_set_ne by done.
Qed.

(** ** Witnesses *)

Lemma bare_wf r : tables_wf (bare r).
Proof. split_and!; [reflexivity | reflexivity | simpl; lia | simpl; lia | reflexivity]. Qed.

(** Paging as [setup_paging] leaves it. *)
Definition sample_paged : vmem := setup_paging (bare ∅).

Lemma sample_paged_wf : tables_wf sample_paged.
Proof. apply setup_paging_wf, bare_wf. Qed.

Lemma setup_paging_identity_witness :
  xlate sample_paged 0x7FFFFF = Some 0x7FFFFF /\ xlate sample_paged 0x800000 = None.
Proof.
  unfold sample_paged. rewrite !(setup_paging_identity (bare ∅)) by apply bare_wf. done.
Defined.

Lemma map_page_maps_witness :
  xlate (map_page 0x1800000 0x8000000 sample_paged) 0x8048018 = Some 0x1848018 /\
  xlate (map_page 0x1800000 0x8000000 sample_paged) 0x400000 = Some 0x400000.
Proof.
  assert (H : forall a, xlate (map_page 0x1800000 0x8000000 sample_paged) a
    = if decide (u32 a / UNIT_4_MB = u32 0x8000000 / UNIT_4_MB)
      then Some (0x1800000 + u32 a mod UNIT_4_MB) else xlate sample_paged a).
  { intros a. apply (map_page_maps sample_paged 0x1800000 0x8000000 a).
    - apply sample_paged_wf.
    - reflexivity.
    - lia.
    - reflexivity. }
  split; rewrite H; vm_compute; reflexivity.
Defined.

Lemma get_vidmap_page_maps_witness :
  xlate (get_vidmap_page 0 sample_paged).1 0x8800010 = Some 0xB8010.
Proof.
  destruct (get_vidmap_page_maps sample_paged 0 16) as (_ & H & _).
  - apply sample_paged_wf.
  - reflexivity.
  - lia.
  - exact H.
Defined.

Lemma map_vid_redirects_witness :
  xlate (map_vid 0xB9000 (get_vidmap_page 0 sample_paged).1) 0x8800010 = Some 0xB9010.
Proof.
  destruct (map_vid_redirects sample_paged 0 0xB9000) as (H & _).
  - apply sample_paged_wf.
  - reflexivity.
  - lia.
  - reflexivity.
  - apply (H 16). lia.
Defined.
