(* ===== verification/Devices.v ===== *)
(** * i8259.c, rtc.c, pit.c: the devices and their ports

    Port input and output as a trace with a reactive environment, and every
    function of src/student-distrib/i8259.c, rtc.c and pit.c over it.  The
    environment is the parameter [answer]: what a read of a port returns
    after a given trace.  What the interrupt controllers and the real-time
    clock are documented to do with a trace is written as the two small
    state machines [pic_after] and [rtc_after]; theorems that depend on a
    read value assume that [answer] agrees with them. *)

From S2P Require Import Prelude Memory.

(** ** Ports *)

Inductive io :=
| Out (port v : Z)
| In (port : Z).

(** The newest event is first. *)
Record ports := Ports {
  trace : list io;
  answer : list io -> Z -> Z
}.

Definition outb (data port : Z) (p : ports) : ports :=
  Ports (Out port (u8 data) :: trace p) (answer p).

Definition inb (port : Z) (p : ports) : Z * ports :=
  (u8 (answer p (trace p) port), Ports (In port :: trace p) (answer p)).

(** ** i8259.c *)

Definition MASTER_8259_PORT : Z := 0x20.
Definition SLAVE_8259_PORT : Z := 0xA0.
Definition ICW1 : Z := 0x11.
Definition ICW2_MASTER : Z := 0x20.
Definition ICW2_SLAVE : Z := 0x28.
Definition ICW3_MASTER : Z := 0x04.
Definition ICW3_SLAVE : Z := 0x02.
Definition ICW4 : Z := 0x01.
Definition EOI : Z := 0x60.
Definition MAX_IRQ : Z := 8.
Definition slave_irq : Z := 2.
Definition master_mask : Z := 0xff.
Definition slave_mask : Z := 0xff.

(** The port and the line on its controller. *)
Definition irq_line (irq_num : Z) : Z * Z :=
  if irq_num <? MAX_IRQ then (MASTER_8259_PORT + 1, irq_num)
  else (SLAVE_8259_PORT + 1, irq_num - MAX_IRQ).

Definition enable_irq (irq_num : Z) (p : ports) : ports :=
  let '(port, irq_num) := irq_line (u32 irq_num) in
  let '(v, p) := inb port p in
  let irq_mask := u8 (Z.land v (Z.lnot (Z.shiftl 1 irq_num))) in
  outb irq_mask port p.

Definition disable_irq (irq_num : Z) (p : ports) : ports :=
  let '(port, irq_num) := irq_line (u32 irq_num) in
  let '(v, p) := inb port p in
  let irq_mask := u8 (Z.lor v (Z.shiftl 1 irq_num)) in
  outb irq_mask port p.

Definition send_eoi (irq_num : Z) (p : ports) : ports :=
  let irq_num := u32 irq_num in
  if MAX_IRQ <=? irq_num then
    let irq_num := irq_num - MAX_IRQ in
    let p := outb (Z.lor EOI irq_num) SLAVE_8259_PORT p in
    outb (Z.lor EOI slave_irq) MASTER_8259_PORT p
  else outb (Z.lor EOI irq_num) MASTER_8259_PORT p.

Definition i8259_init (p : ports) : ports :=
  let p := outb master_mask (MASTER_8259_PORT + 1) p in
  let p := outb slave_mask (SLAVE_8259_PORT + 1) p in
  let p := outb ICW1 MASTER_8259_PORT p in
  let p := outb (ICW2_MASTER + 0) (MASTER_8259_PORT + 1) p in
  let p := outb ICW3_MASTER (MASTER_8259_PORT + 1) p in
  let p := outb ICW4 (MASTER_8259_PORT + 1) p in
  let p := outb ICW1 SLAVE_8259_PORT p in
  let p := outb ICW2_SLAVE (SLAVE_8259_PORT + 1) p in
  let p := outb ICW3_SLAVE (SLAVE_8259_PORT + 1) p in
  let p := outb ICW4 (SLAVE_8259_PORT + 1) p in
  let p := outb master_mask (MASTER_8259_PORT + 1) p in
  let p := outb slave_mask (SLAVE_8259_PORT + 1) p in
  enable_irq slave_irq p.

(** ** rtc.c *)

Definition RATE : Z := 0x2F.
Definition RTC_PORT : Z := 0x70.
Definition CMOS_PORT : Z := 0x71.
Definition REG_A : Z := 0x8A.
Definition REG_B : Z := 0x8B.
Definition PREVIOUS : Z := 0x40.
Definition REG_C : Z := 0x0C.
Definition IRQ_8 : Z := 8.
Definition FOUR_BYTES : Z := 4.

(** The statics of rtc.c and the ports. *)
Record rtc_st := Rtc { rtc_flag : Z; rtc_ports : ports }.

Definition rtc_open (s : rtc_st) : rtc_st * Z :=
  let p := outb REG_A RTC_PORT (rtc_ports s) in
  let p := outb RATE CMOS_PORT p in
  (Rtc (rtc_flag s) p, 0).

Definition rtc_close (s : rtc_st) : rtc_st * Z := (s, 0).

(** The frequency after the cap at 1024, and the rate of a frequency. *)
Definition cap_freq (f : Z) : Z :=
  if (f =? 1024) || (f =? 2048) || (f =? 4096) || (f =? 8192) then 1024 else f.

Definition freq_rate (f : Z) : option Z :=
  match f with
  | 1024 => Some 0x6
  | 512 => Some 0x7
  | 256 => Some 0x8
  | 128 => Some 0x9
  | 64 => Some 0xA
  | 32 => Some 0xB
  | 16 => Some 0xC
  | 8 => Some 0xD
  | 4 => Some 0xE
  | 2 => Some 0xF
  | _ => None
  end.

Definition rtc_write {M} `{MemOps M} (m : M) (buf nbytes : Z) (s : rtc_st) : rtc_st * Z :=
  if negb (nbytes =? FOUR_BYTES) then (s, -1) else
  match freq_rate (cap_freq (lds32 m buf)) with
  | None => (s, -1)
  | Some rate =>
      let p := outb REG_A RTC_PORT (rtc_ports s) in
      let p := outb rate CMOS_PORT p in
      (Rtc (rtc_flag s) p, 0)
  end.

(** [rtc_int]: enable IRQ 8 and set bit 6 of register B; [prev] is a
    [char]. *)
Definition rtc_int (s : rtc_st) : rtc_st :=
  let p := enable_irq IRQ_8 (rtc_ports s) in
  let p := outb REG_B RTC_PORT p in
  let '(v, p) := inb CMOS_PORT p in
  let prev := s8 v in
  let p := outb REG_B RTC_PORT p in
  let p := outb (Z.lor prev PREVIOUS) CMOS_PORT p in
  Rtc (rtc_flag s) p.

Definition rtc_handler (s : rtc_st) : rtc_st :=
  let p := outb REG_C RTC_PORT (rtc_ports s) in
  let '(_, p) := inb CMOS_PORT p in
  Rtc 1 (send_eoi IRQ_8 p).

(** The interrupts that arrive while [rtc_read] spins. *)
Inductive irq := IrqPit | IrqKeyboard | IrqRtc.

(** [while (rtc_flag == 0) {}]: only an interrupt can end the loop; [None]
    is "still spinning when the sequence ends". *)
Fixpoint rtc_wait (evs : list irq) (s : rtc_st) : option (rtc_st * list irq) :=
  if negb (rtc_flag s =? 0) then Some (s, evs) else
  match evs with
  | [] => None
  | IrqRtc :: evs' => rtc_wait evs' (rtc_handler s)
  | _ :: evs' => rtc_wait evs' s
  end.

Definition rtc_read (evs : list irq) (s : rtc_st) : option (rtc_st * list irq * Z) :=
  '(s, evs) ← rtc_wait evs (Rtc 0 (rtc_ports s));
  Some (s, evs, 0).

(** ** pit.c *)

Definition MAX_FREQ : Z := 1193180.
Definition CHOSEN_HZ : Z := 30.
Definition COMMAND_BYTE : Z := 0x36.
Definition PIT_PORT_1 : Z := 0x40.
Definition PIT_PORT_2 : Z := 0x43.

Definition pit_init (p : ports) : ports :=
  let divisor := MAX_FREQ / CHOSEN_HZ in
  let p := outb COMMAND_BYTE PIT_PORT_2 p in
  let p := outb (Z.land divisor 0xFF) PIT_PORT_1 p in
  outb (Z.shiftr divisor 8) PIT_PORT_1 p.

(** ** What the controllers do with a trace

    The 8259 at command port [c]: a command with bit 4 set (ICW1) clears
    the mask and makes the next three data bytes ICW2 to ICW4; any other
    data byte is the interrupt mask. *)

Record pic := Pic { pic_imr : Z; pic_base : Z; icw_left : nat }.

Definition pic_step (c : Z) (e : io) (s : pic) : pic :=
  match e with
  | Out port v =>
      if port =? c then (if Z.testbit v 4 then Pic 0 (pic_base s) 3 else s)
      else if port =? c + 1 then
        match icw_left s with
        | O => Pic v (pic_base s) O
        | S O => Pic (pic_imr s) (pic_base s) O
        | S (S O) => Pic (pic_imr s) (pic_base s) 1
        | S (S (S _)) => Pic (pic_imr s) v 2
        end
      else s
  | In _ => s
  end.

Definition pic_after (c : Z) (tr : list io) : pic := foldr (pic_step c) (Pic 0 0 0) tr.

(** Reading the data port of a controller returns its mask. *)
Definition pic_answers (p : ports) : Prop :=
  forall tr c, c = MASTER_8259_PORT \/ c = SLAVE_8259_PORT ->
    answer p tr (c + 1) = pic_imr (pic_after c tr).

(** The clock: port 0x70 selects a register (bit 7 masks NMI), port 0x71
    accesses it, and a read leaves register D selected. *)

Record clock := Clock { clk_index : Z; clk_regs : gmap Z Z }.

Definition clk_reg (s : clock) (r : Z) : Z := default 0 (clk_regs s !! r).

Definition rtc_step (e : io) (s : clock) : clock :=
  match e with
  | Out port v =>
      if port =? RTC_PORT then Clock (v mod 128) (clk_regs s)
      else if port =? CMOS_PORT then Clock (clk_index s) (<[clk_index s := v]> (clk_regs s))
      else s
  | In port => if port =? CMOS_PORT then Clock 0xD (clk_regs s) else s
  end.

Definition rtc_after (s0 : clock) (tr : list io) : clock := foldr rtc_step s0 tr.

Definition rtc_answers (s0 : clock) (p : ports) : Prop :=
  forall tr, answer p tr CMOS_PORT = clk_reg (rtc_after s0 tr) (clk_index (rtc_after s0 tr)).

(** Channel 0 of the interval timer: a command at port 0x43, and then the low
    and the high byte of the count at port 0x40. *)

Record pit := Pit { pit_command : Z; pit_low : option Z; pit_count : Z }.

Definition pit_step (e : io) (s : pit) : pit :=
  match e with
  | Out port v =>
      if port =? PIT_PORT_2 then Pit v None (pit_count s)
      else if port =? PIT_PORT_1 then
        match pit_low s with
        | None => Pit (pit_command s) (Some v) (pit_count s)
        | Some l => Pit (pit_command s) None (l + 256 * v)
        end
      else s
  | In _ => s
  end.

Definition pit_after (tr : list io) : pit := foldr pit_step (Pit 0 None 0) tr.

(** ** Lemmas *)

Lemma pic_imr_range c tr :
  (forall port v, Out port v ∈ tr -> 0 <= v < 256) -> 0 <= pic_imr (pic_after c tr) < 256.
Proof.
  induction tr as [| e tr IH]; intros Ht; simpl; [lia |].
  assert (IH' : 0 <= pic_imr (pic_after c tr) < 256).
  { apply IH. intros port v Hin. apply (Ht port). rewrite elem_of_cons. by right. }
  destruct e as [port v | port]; [| done].
  assert (Hv : 0 <= v < 256) by (apply (Ht port v); rewrite elem_of_cons; by left).
  unfold pic_after in *. cbn [foldr]. generalize dependent (foldr (pic_step c) (Pic 0 0 0) tr).
  intros s _ Hs. unfold pic_step.
  repeat case_match; cbn [pic_imr]; lia || done.
Qed.

(** The bytes of a trace. *)
Definition trace_bytes (p : ports) : Prop :=
  forall port v, Out port v ∈ trace p -> 0 <= v < 256.

Lemma outb_bytes d port p : trace_bytes p -> trace_bytes (outb d port p).
Proof.
  intros Hp port' v. unfold outb. simpl. rewrite elem_of_cons.
  intros [[= -> ->] | Hin]; [apply u8_range | by apply (Hp port')].
Qed.

(** Bits of a mask with one line cleared or set. *)
Lemma mask_clear_bit v n i :
  0 <= v < 256 -> 0 <= n -> 0 <= i < 8 ->
  Z.testbit (u8 (Z.land v (Z.lnot (Z.shiftl 1 n)))) i = Z.testbit v i && negb (i =? n).
Proof.
  intros Hv Hn Hi. unfold u8. change 256 with (2 ^ 8). rewrite Z.mod_pow2_bits_low by lia.
  rewrite Z.land_spec, Z.lnot_spec, Z.shiftl_spec by lia. f_equal. f_equal.
  destruct (Z.eqb_spec i n) as [-> |]; [by rewrite Z.sub_diag |].
  destruct (Z.lt_ge_cases (i - n) 0); [by apply Z.testbit_neg_r |].
  destruct (i - n) eqn:?; try lia. done.
Qed.

Lemma mask_set_bit v n i :
  0 <= v < 256 -> 0 <= n -> 0 <= i < 8 ->
  Z.testbit (u8 (Z.lor v (Z.shiftl 1 n))) i = Z.testbit v i || (i =? n).
Proof.
  intros Hv Hn Hi. unfold u8. change 256 with (2 ^ 8). rewrite Z.mod_pow2_bits_low by lia.
  rewrite Z.lor_spec, Z.shiftl_spec by lia. f_equal.
  destruct (Z.eqb_spec i n) as [-> |]; [by rewrite Z.sub_diag |].
  destruct (Z.lt_ge_cases (i - n) 0); [by apply Z.testbit_neg_r |].
  destruct (i - n) eqn:?; try lia. done.
Qed.

(** One controller after a mask was written to its data port. *)
Lemma pic_after_mask c tr v :
  icw_left (pic_after c tr) = O ->
  pic_after c (Out (c + 1) v :: In (c + 1) :: tr)
  = Pic v (pic_base (pic_after c tr)) O.
Proof.
  intros Hl. unfold pic_after in *. cbn [foldr]. unfold pic_step at 1 2.
  rewrite (proj2 (Z.eqb_neq (c + 1) c)), Z.eqb_refl by lia. by rewrite Hl.
Qed.

Lemma pic_after_other c port tr v :
  port <> c -> port <> c + 1 -> pic_after c (Out port v :: In port :: tr) = pic_after c tr.
Proof.
  intros H1 H2. unfold pic_after. cbn [foldr]. unfold pic_step at 1 2.
  by rewrite (proj2 (Z.eqb_neq port c)), (proj2 (Z.eqb_neq port (c + 1))).
Qed.

(** The controller and the line of an interrupt request. *)
Definition irq_pic (n : Z) : Z := if n <? 8 then MASTER_8259_PORT else SLAVE_8259_PORT.

Lemma irq_line_pic n : 0 <= n < 16 -> irq_line (u32 n) = (irq_pic n + 1, n mod 8).
Proof.
  intros Hn. rewrite u32_small by lia. unfold irq_line, irq_pic, MAX_IRQ.
  destruct (Z.ltb_spec n 8); f_equal; Z.div_mod_to_equations; lia.
Qed.

Lemma irq_pic_cases n : irq_pic n = MASTER_8259_PORT \/ irq_pic n = SLAVE_8259_PORT.
Proof. unfold irq_pic. destruct (n <? 8); auto. Qed.

Lemma mask_update p c v :
  (c = MASTER_8259_PORT \/ c = SLAVE_8259_PORT) -> 0 <= v < 256 ->
  icw_left (pic_after c (trace p)) = O ->
  let tr := trace (outb v (c + 1) (inb (c + 1) p).2) in
  pic_after c tr = Pic v (pic_base (pic_after c (trace p))) O /\
  forall c', (c' = MASTER_8259_PORT \/ c' = SLAVE_8259_PORT) -> c' <> c ->
    pic_after c' tr = pic_after c' (trace p).
Proof.
  intros Hc Hv Hl. simpl. rewrite u8_small by done. split.
  - by apply pic_after_mask.
  - intros c' Hc' Hne. unfold MASTER_8259_PORT, SLAVE_8259_PORT in *.
    apply pic_after_other; lia.
Qed.

(** ** Properties *)

(** [i8259_init] leaves both controllers out of their initialisation
    sequence, the master at vectors 0x20-0x27 with every line masked except
    the cascade line 2, the slave at 0x28-0x2F with every line masked,
    whatever happened on the ports before. *)
Theorem i8259_init_masks p :
  pic_answers p ->
  pic_after MASTER_8259_PORT (trace (i8259_init p)) = Pic 0xFB 0x20 O /\
  pic_after SLAVE_8259_PORT (trace (i8259_init p)) = Pic 0xFF 0x28 O.
Proof.
  intros Ha. unfold i8259_init.
  match goal with |- context [enable_irq slave_irq ?q] => set (p1 := q) end.
  assert (H1 : pic_after MASTER_8259_PORT (trace p1) = Pic 0xFF 0x20 O) by done.
  assert (H2 : pic_after SLAVE_8259_PORT (trace p1) = Pic 0xFF 0x28 O) by done.
  unfold enable_irq. rewrite irq_line_pic by (unfold slave_irq; lia).
  change (irq_pic slave_irq) with MASTER_8259_PORT. cbn [inb].
  change (answer p1) with (answer p).
  rewrite (Ha (trace p1) MASTER_8259_PORT) by auto. rewrite H1.
  destruct (mask_update p1 MASTER_8259_PORT 0xFB) as [Hm Hs]; [auto | lia | by rewrite H1 |].
  split; [by rewrite H1 in Hm |]. rewrite <- H2. apply Hs; auto.
Qed.

(** [enable_irq] clears and [disable_irq] sets the mask bit of exactly
    the requested line: every other line of its controller and the whole
    other controller keep their masks. *)
Theorem irq_mask_line p n :
  pic_answers p -> trace_bytes p -> 0 <= n < 16 ->
  icw_left (pic_after (irq_pic n) (trace p)) = O ->
  (forall i, 0 <= i < 8 ->
     let old := Z.testbit (pic_imr (pic_after (irq_pic n) (trace p))) i in
     Z.testbit (pic_imr (pic_after (irq_pic n) (trace (enable_irq n p)))) i
     = old && negb (i =? n mod 8) /\
     Z.testbit (pic_imr (pic_after (irq_pic n) (trace (disable_irq n p)))) i
     = old || (i =? n mod 8)) /\
  (forall c, c = MASTER_8259_PORT \/ c = SLAVE_8259_PORT -> c <> irq_pic n ->
     pic_after c (trace (enable_irq n p)) = pic_after c (trace p) /\
     pic_after c (trace (disable_irq n p)) = pic_after c (trace p)).
Proof.
  intros Ha Hb Hn Hl. pose proof (irq_pic_cases n) as Hc.
  pose proof (pic_imr_range (irq_pic n) _ Hb) as Hr.
  assert (Hm : 0 <= n mod 8 < 8) by (Z.div_mod_to_equations; lia).
  unfold enable_irq, disable_irq. rewrite irq_line_pic by done. cbn [inb].
  rewrite (Ha _ _ Hc), (u8_small (pic_imr _)) by done.
  set (ve := u8 (Z.land _ _)). set (vd := u8 (Z.lor _ _)).
  destruct (mask_update p (irq_pic n) ve) as [He He']; [done | apply u8_range | done |].
  destruct (mask_update p (irq_pic n) vd) as [Hd Hd']; [done | apply u8_range | done |].
  cbn [inb snd] in *. split.
  - intros i Hi. rewrite He, Hd. cbn [pic_imr]. split.
    + apply mask_clear_bit; lia.
    + apply mask_set_bit; lia.
  - intros c Hcc Hne. split; [by apply He' | by apply Hd'].
Qed.

(** The mask of one controller after [enable_irq], exactly. *)
Lemma enable_irq_exact p n v b :
  pic_answers p -> 0 <= n < 16 -> 0 <= v < 256 -> pic_after (irq_pic n) (trace p) = Pic v b O ->
  pic_after (irq_pic n) (trace (enable_irq n p)) = Pic (u8 (Z.land v (Z.lnot (Z.shiftl 1 (n mod 8))))) b O /\
  (forall c, c = MASTER_8259_PORT \/ c = SLAVE_8259_PORT -> c <> irq_pic n ->
     pic_after c (trace (enable_irq n p)) = pic_after c (trace p)) /\
  answer (enable_irq n p) = answer p.
Proof.
  intros Ha Hn Hv Hp. pose proof (irq_pic_cases n) as Hc. unfold enable_irq. rewrite irq_line_pic by done. cbn [inb].
  rewrite (Ha _ _ Hc), Hp. cbn [pic_imr]. rewrite (u8_small v) by done. set (ve := u8 (Z.land _ _)).
  destruct (mask_update p (irq_pic n) ve) as [He He']; [done | apply u8_range | by rewrite Hp |].
  cbn [inb snd] in *. rewrite Hp in He. split; [exact He | split; [exact He' | done]].
Qed.

(** The ports of the controllers, and what accesses to others leave. *)
Definition port_of (e : io) : Z := match e with Out port _ => port | In port => port end.

Lemma pic_step_other c e s : port_of e <> c -> port_of e <> c + 1 -> pic_step c e s = s.
Proof.
  destruct e as [port v | port]; cbn [port_of pic_step]; [| done]. intros H1 H2.
  by rewrite (proj2 (Z.eqb_neq port c)), (proj2 (Z.eqb_neq port (c + 1))).
Qed.

Lemma rtc_step_other e s : port_of e <> RTC_PORT -> port_of e <> CMOS_PORT -> rtc_step e s = s.
Proof.
  destruct e as [port v | port]; cbn [port_of rtc_step]; intros H1 H2;
    rewrite ?(proj2 (Z.eqb_neq port RTC_PORT)), ?(proj2 (Z.eqb_neq port CMOS_PORT)) by done; done.
Qed.

Lemma pit_step_other e s : port_of e <> PIT_PORT_1 -> port_of e <> PIT_PORT_2 -> pit_step e s = s.
Proof.
  destruct e as [port v | port]; cbn [port_of pit_step]; [| done]. intros H1 H2.
  by rewrite (proj2 (Z.eqb_neq port PIT_PORT_2)), (proj2 (Z.eqb_neq port PIT_PORT_1)).
Qed.

(** From [p] to [p'] by accesses to other ports than [P] holds of. *)
Definition accessed (P : Z -> Prop) (p p' : ports) : Prop :=
  answer p' = answer p /\ exists l, trace p' = l ++ trace p /\ Forall (fun e => P (port_of e)) l.

Lemma accessed_refl P p : accessed P p p.
Proof. split; [done |]. by exists []. Qed.

Lemma accessed_trans P a b c : accessed P a b -> accessed P b c -> accessed P a c.
Proof.
  intros [A1 (l1 & T1 & F1)] [A2 (l2 & T2 & F2)]. split; [congruence |].
  exists (l2 ++ l1). rewrite T2, T1, <- app_assoc. split; [done | by apply Forall_app].
Qed.

Lemma accessed_weaken (P Q : Z -> Prop) a b : (forall x, P x -> Q x) -> accessed P a b -> accessed Q a b.
Proof.
  intros HPQ [A (l & T & F)]. split; [done |]. exists l. split; [done |].
  eapply Forall_impl; [exact F |]. intros e. apply HPQ.
Qed.

Lemma accessed_outb (P : Z -> Prop) d port p : P port -> accessed P p (outb d port p).
Proof. intros HP. split; [done |]. exists [Out port (u8 d)]. split; [done | by constructor]. Qed.

Lemma accessed_inb (P : Z -> Prop) port p : P port -> accessed P p (inb port p).2.
Proof. intros HP. split; [done |]. exists [In port]. split; [done | by constructor]. Qed.

Lemma foldr_same {S} (f : io -> S -> S) s l tr :
  Forall (fun e => forall s, f e s = s) l -> foldr f s (l ++ tr) = foldr f s tr.
Proof. induction 1 as [| e l He _ IH]; [done |]. cbn [app foldr]. by rewrite IH, He. Qed.

Lemma accessed_pic P c p p' :
  accessed P p p' -> (forall x, P x -> x <> c /\ x <> c + 1) -> pic_after c (trace p') = pic_after c (trace p).
Proof.
  intros [_ (l & -> & HF)] HP. apply foldr_same. eapply Forall_impl; [exact HF |]. intros e He s.
  by apply pic_step_other; apply HP.
Qed.

Lemma accessed_rtc P s0 p p' :
  accessed P p p' -> (forall x, P x -> x <> RTC_PORT /\ x <> CMOS_PORT) ->
  rtc_after s0 (trace p') = rtc_after s0 (trace p).
Proof.
  intros [_ (l & -> & HF)] HP. apply foldr_same. eapply Forall_impl; [exact HF |]. intros e He s.
  by apply rtc_step_other; apply HP.
Qed.

(** *** What each routine accesses *)

Ltac list_ports := repeat (apply Forall_cons; split; [cbn [port_of]; auto |]); by apply Forall_nil.

Definition pic_port (x : Z) : Prop := x = 0x20 \/ x = 0x21 \/ x = 0xA0 \/ x = 0xA1.
Definition clock_port (x : Z) : Prop := x = RTC_PORT \/ x = CMOS_PORT.

Lemma enable_irq_accessed n p : 0 <= n < 16 -> accessed pic_port p (enable_irq n p).
Proof.
  intros Hn. unfold enable_irq. rewrite irq_line_pic by done.
  assert (Hp : pic_port (irq_pic n + 1)).
  { unfold pic_port. destruct (irq_pic_cases n) as [-> | ->]; unfold MASTER_8259_PORT, SLAVE_8259_PORT; lia. }
  destruct (inb (irq_pic n + 1) p) as [v p1] eqn:He.
  eapply accessed_trans; [| apply accessed_outb, Hp]. pose proof (accessed_inb pic_port (irq_pic n + 1) p Hp) as Hi.
  by rewrite He in Hi.
Qed.

Lemma i8259_init_accessed p : accessed pic_port p (i8259_init p).
Proof.
  unfold i8259_init. eapply accessed_trans; [| apply enable_irq_accessed; unfold slave_irq; lia].
  do 12 (eapply accessed_trans; [| apply accessed_outb; unfold pic_port, MASTER_8259_PORT, SLAVE_8259_PORT; lia]).
  apply accessed_refl.
Qed.

(** Register B and the line of the clock, one after the other. *)
Lemma rtc_int_after s : accessed clock_port (enable_irq IRQ_8 (rtc_ports s)) (rtc_ports (rtc_int s)).
Proof.
  unfold rtc_int. cbn [inb rtc_ports]. set (p := enable_irq IRQ_8 (rtc_ports s)).
  split; [done |]. eexists [_; _; _; _]. split; [reflexivity |]. unfold clock_port. list_ports.
Qed.

Lemma rtc_open_accessed s : accessed clock_port (rtc_ports s) (rtc_ports (rtc_open s).1).
Proof.
  unfold rtc_open. cbn [rtc_ports fst]. split; [done |]. eexists [_; _]. split; [reflexivity |].
  unfold clock_port. list_ports.
Qed.

Lemma pit_init_accessed p : accessed (fun x => x = PIT_PORT_1 \/ x = PIT_PORT_2) p (pit_init p).
Proof.
  unfold pit_init. split; [done |]. eexists [_; _; _]. split; [reflexivity |]. list_ports.
Qed.

(** [rtc_open] selects register A and writes the rate. *)
Lemma rtc_open_rate s s0 r :
  clk_reg (rtc_after s0 (trace (rtc_ports (rtc_open s).1))) r
  = if decide (r = 0xA) then RATE else clk_reg (rtc_after s0 (trace (rtc_ports s))) r.
Proof.
  unfold rtc_open. cbn [rtc_ports fst outb trace]. unfold rtc_after. cbn [foldr]. unfold rtc_step at 1 2, clk_reg.
  cbn [Z.eqb RTC_PORT CMOS_PORT Pos.eqb clk_index clk_regs]. change (u8 REG_A mod 128) with 0xA. change (u8 RATE) with RATE.
  case_decide as Hr; [subst; by rewrite lookup_insert_eq | by rewrite lookup_insert_ne].
Qed.

(** [pit_init] sets mode 3 with the count of 30 interrupts a second. *)
Lemma pit_init_count p : pit_after (trace (pit_init p)) = Pit COMMAND_BYTE None (MAX_FREQ / CHOSEN_HZ).
Proof. reflexivity. Qed.

Lemma freq_rate_spec f r :
  freq_rate f = Some r -> 2 <= f <= 1024 /\ 6 <= r <= 15 /\ 32768 = f * 2 ^ (r - 1).
Proof.
  unfold freq_rate. intros Hf.
  repeat (case_match; try done); simplify_eq; lia.
Qed.

Lemma freq_rate_pow2 k : 1 <= k <= 10 -> freq_rate (2 ^ k) = Some (16 - k).
Proof.
  intros Hk. assert (Hin : k ∈ seqZ 1 10) by (apply elem_of_seqZ; lia).
  assert (Hall : Forall (fun k => freq_rate (2 ^ k) = Some (16 - k)) (seqZ 1 10)).
  { repeat constructor. }
  rewrite Forall_forall in Hall. by apply Hall.
Qed.

(** [rtc_write] accepts exactly four-byte requests for a power of two
    from 2 to 8192 Hz; it then selects register A and stores the rate whose
    periodic frequency 32768 / 2^(rate - 1) is the requested one, capped at
    1024 Hz. *)
Theorem rtc_write_sets_rate {M} `{MemLaws M} (m : M) buf k s s0 :
  1 <= k <= 13 -> lds32 m buf = 2 ^ k ->
  exists rate, 32768 = Z.min (2 ^ k) 1024 * 2 ^ (rate - 1) /\
    (rtc_write m buf 4 s).2 = 0 /\
    clk_reg (rtc_after s0 (trace (rtc_ports (rtc_write m buf 4 s).1))) 0xA = rate.
Proof.
  intros Hk Hf. unfold rtc_write. cbn [negb Z.eqb FOUR_BYTES]. rewrite Hf.
  assert (Hcap : cap_freq (2 ^ k) = 2 ^ Z.min k 10).
  { assert (Hin : k ∈ seqZ 1 13) by (apply elem_of_seqZ; lia).
    assert (Hall : Forall (fun k => cap_freq (2 ^ k) = 2 ^ Z.min k 10) (seqZ 1 13)).
    { repeat constructor. }
    rewrite Forall_forall in Hall. by apply Hall. }
  assert (Hmin : Z.min (2 ^ k) 1024 = 2 ^ Z.min k 10).
  { destruct (Z.le_gt_cases k 10).
    - rewrite (Z.min_l k) by lia. apply Z.min_l. change 1024 with (2 ^ 10).
      apply Z.pow_le_mono_r; lia.
    - rewrite (Z.min_r k) by lia. apply Z.min_r. change 1024 with (2 ^ 10).
      apply Z.pow_le_mono_r; lia. }
  rewrite Hcap, freq_rate_pow2 by lia. exists (16 - Z.min k 10). rewrite Hmin.
  split_and!; [| done |].
  - rewrite <- Z.pow_add_r by lia.
    by replace (Z.min k 10 + (16 - Z.min k 10 - 1)) with 15 by lia.
  - simpl. unfold clk_reg. simpl. rewrite lookup_insert_eq. simpl. apply u8_small. lia.
Qed.

(** [rtc_read] returns exactly when a clock interrupt arrives: on a
    sequence of interrupts it gives 0 after the first [IrqRtc], leaving the
    rest of the sequence, and keeps spinning when there is none. *)
Theorem rtc_read_waits evs s :
  match rtc_read evs s with
  | Some (s', rest, r) =>
      r = 0 /\ rtc_flag s' = 1 /\
      exists pre, evs = pre ++ IrqRtc :: rest /\ IrqRtc ∉ pre
  | None => IrqRtc ∉ evs
  end.
Proof.
  unfold rtc_read. set (s1 := Rtc 0 (rtc_ports s)). assert (H0 : rtc_flag s1 = 0) by done.
  generalize dependent s1. intros s1 H0. revert s1 H0.
  induction evs as [| e evs IH]; intros s1 H0; simpl; rewrite H0; simpl.
  { apply not_elem_of_nil. }
  destruct e.
  1,2: specialize (IH s1 H0); destruct (rtc_wait evs s1) as [[s2 rest] |]; simpl in *;
    [ destruct IH as (? & ? & pre & -> & Hpre); split_and!; try done;
      eexists (_ :: pre); split; [done | by apply not_elem_of_cons]
    | by apply not_elem_of_cons ].
  destruct evs; simpl; (split_and!; [done | done |]; exists []; split; [done | apply not_elem_of_nil]).
Qed.

(** [rtc_int] turns on bit 6 of register B and changes no other bit of
    it: the index is set again before the write because the read moved it. *)
Theorem rtc_int_enables s0 s :
  rtc_answers s0 (rtc_ports s) ->
  let old := clk_reg (rtc_after s0 (trace (rtc_ports s))) 0xB in
  0 <= old < 256 ->
  let new := clk_reg (rtc_after s0 (trace (rtc_ports (rtc_int s)))) 0xB in
  forall i, 0 <= i < 8 -> Z.testbit new i = Z.testbit old i || (i =? 6).
Proof.
  intros Ha old Hold new i Hi. subst new. unfold rtc_int, enable_irq.
  change (irq_line (u32 IRQ_8)) with (SLAVE_8259_PORT + 1, 0). cbn [inb].
  cbn [rtc_ports outb trace answer fst snd]. rewrite Ha. unfold rtc_after, clk_reg. simpl.
  rewrite lookup_insert_eq. simpl. fold (rtc_after s0 (trace (rtc_ports s))).
  change (u8 REG_B mod 128) with 11.
  change (default 0 (clk_regs (rtc_after s0 (trace (rtc_ports s))) !! 11)) with old.
  rewrite (u8_small old) by done. unfold u8, s8. change 256 with (2 ^ 8).
  rewrite Z.mod_pow2_bits_low, Z.lor_spec by lia. f_equal.
  - replace ((old + 128) mod 2 ^ 8 - 128)
      with (old + - (if decide (old < 128) then 0 else 1) * 2 ^ 8)
      by (change (2 ^ 8) with 256; case_decide; Z.div_mod_to_equations; lia).
    rewrite <- (Z.mod_pow2_bits_low (_ + _) 8), Z.mod_add, Z.mod_pow2_bits_low by lia. done.
  - assert (Hall : Forall (fun i => Z.testbit PREVIOUS i = (i =? 6)) (seqZ 0 8)) by repeat constructor.
    rewrite Forall_forall in Hall. apply Hall, elem_of_seqZ. lia.
Qed.

(** ** Witnesses *)

(** Ports behind which the two controllers and the clock answer. *)
Definition sample_devices (s0 : clock) : ports :=
  Ports [] (fun tr port =>
    if port =? MASTER_8259_PORT + 1 then pic_imr (pic_after MASTER_8259_PORT tr)
    else if port =? SLAVE_8259_PORT + 1 then pic_imr (pic_after SLAVE_8259_PORT tr)
    else clk_reg (rtc_after s0 tr) (clk_index (rtc_after s0 tr))).

Lemma sample_devices_pic s0 : pic_answers (sample_devices s0).
Proof. intros tr c [-> | ->]; reflexivity. Qed.

(** A clock whose register B is 2. *)
Definition sample_clock : clock := Clock 0 {[ 0xB := 2 ]}.

Lemma i8259_init_masks_witness :
  pic_imr (pic_after MASTER_8259_PORT (trace (i8259_init (sample_devices sample_clock)))) = 0xFB.
Proof.
  destruct (i8259_init_masks (sample_devices sample_clock)) as [H _].
  - apply sample_devices_pic.
  - by rewrite H.
Defined.

Lemma irq_mask_line_witness :
  Z.testbit (pic_imr (pic_after MASTER_8259_PORT
    (trace (enable_irq 1 (i8259_init (sample_devices sample_clock)))))) 1 = false.
Proof.
  destruct (irq_mask_line (i8259_init (sample_devices sample_clock)) 1) as [H _].
  - intros tr c [-> | ->]; reflexivity.
  - intros port v Hin. vm_compute in Hin.
    repeat (apply elem_of_cons in Hin as [Hin | Hin]; [simplify_eq; lia |]). by apply elem_of_nil in Hin.
  - lia.
  - reflexivity.
  - destruct (H 1) as [H1 _]; [lia |]. exact H1.
Defined.

Lemma rtc_write_sets_rate_witness :
  exists rate, 32768 = Z.min (2 ^ 5) 1024 * 2 ^ (rate - 1) /\
    clk_reg (rtc_after sample_clock (trace (rtc_ports
      (rtc_write (st32 (Flat ∅) 0x1000 32) 0x1000 4 (Rtc 0 (sample_devices sample_clock))).1))) 0xA = rate.
Proof.
  destruct (rtc_write_sets_rate (st32 (Flat ∅) 0x1000 32) 0x1000 5
    (Rtc 0 (sample_devices sample_clock)) sample_clock) as (rate & H1 & _ & H2).
  - lia.
  - reflexivity.
  - by exists rate.
Defined.

Lemma rtc_int_enables_witness :
  Z.testbit (clk_reg (rtc_after sample_clock
    (trace (rtc_ports (rtc_int (Rtc 0 (sample_devices sample_clock)))))) 0xB) 6 = true.
Proof.
  pose proof (rtc_int_enables sample_clock (Rtc 0 (sample_devices sample_clock))) as H.
  cbv zeta in H. rewrite H; [reflexivity | intros tr; reflexivity | vm_compute; split; congruence | lia].
Defined.
