(* ===== verification/State.v ===== *)
(** * The state of the kernel

    The data of the C files as records, one per struct and one per file's
    statics, their setters, the outcomes of kernel code and the monad its
    translation is written in. *)

From S2P Require Import Prelude Memory Paging Devices.

(** ** Operation tables

    The drivers a function pointer can designate, and the four static
    tables of syscall.c that an [f_ops] field can point to. *)

Inductive driver := DrvFile | DrvDir | DrvRtc | DrvTerminal.

Inductive table := FileTable | DirTable | RtcTable | TerminalTable.

#[export] Instance driver_eq_dec : EqDecision driver.
Proof. solve_decision. Defined.

#[export] Instance table_eq_dec : EqDecision table.
Proof. solve_decision. Defined.

(** ** Records *)

(** [struct terminal_desc] of keyboard.h. *)
Record terminal_t := Term {
  terminal_idx : Z;
  x_cursor : Z;
  y_cursor : Z;
  color : Z;
  save_buf : list Z;
  save_idx : Z;
  curr_task : Z;
  video_addr : Z
}.

(** [struct dentry_desc] of filesys.h; the reserved bytes are never read. *)
Record dentry_t := Dentry {
  filename : list Z;
  filetype : Z;
  inode_num : Z
}.

(** [struct fdt_desc] of syscall.h. [f_ops] is [None] for a word that is not
    the address of one of the four tables, which is what [create_pcb] leaves. *)
Record fdt_t := Fdt {
  f_ops : option table;
  fd_inode : Z;
  file_pos : Z;
  flags : Z
}.

(** [struct pcb_desc] of syscall.h. *)
Record pcb_t := Pcb {
  fdt : list fdt_t;
  pid : Z;
  ebp : Z;
  esp : Z;
  parent_pcb : Z;
  status_retval : Z;
  pit_ebp : Z;
  pit_esp : Z
}.

(** [struct fops_table_desc] of syscall.h: [None] is a null function pointer. *)
Record f_ops_table := Ops {
  op_read : option driver;
  op_write : option driver;
  op_open : option driver;
  op_close : option driver
}.

(** The statics of lib.c. *)
Record screen := Screen {
  screen_x : Z;
  screen_y : Z;
  text_color : Z
}.

(** The statics of keyboard.c. keyboard.h declares [terminals] [static], so
    keyboard.c has an array [kb_terminals] of its own next to the one of
    syscall.c. *)
Record keyboard := Keyboard {
  keyboard_buf : list Z;
  last_buf : list Z;
  last_idx : Z;
  keyboard_buf_idx : Z;
  num_chars : Z;
  kb_save_buf : list Z;
  save_buf_1 : list Z;
  save_buf_2 : list Z;
  save_buf_3 : list Z;
  caps_lock_check : Z;
  pressed_flags : list Z;
  kb_active : Z;
  kb_terminals : list terminal_t
}.

(** The statics of syscall.c. *)
Record syscalls := Syscalls {
  process_num : list Z;
  arg_buf : list Z;
  active_terminal : Z;
  main_process : Z;
  terminals : list terminal_t;
  file_table : f_ops_table;
  dir_table : f_ops_table;
  rtc_table : f_ops_table;
  terminal_table : f_ops_table
}.

(** The globals of filesys.c. *)
Record filesys := Filesys {
  curr_pcb : Z;
  boot_block : Z;
  cur_dentry : dentry_t;
  FS_START_ADDR : Z;
  FS_END_ADDR : Z
}.

(** The registers and the part of the task state segment that the code uses. *)
Record cpu := Cpu {
  reg_ebp : Z;
  reg_esp : Z;
  if_flag : bool;
  tss_ss0 : Z;
  tss_esp0 : Z
}.

(** The machine: memory, the statics of every file, the process control blocks
    by address, the devices, the interrupts still to come, and the static of
    scheduler.c. *)
Record kernel := Kernel {
  mem : vmem;
  scr : screen;
  kbd : keyboard;
  sys : syscalls;
  fs : filesys;
  hw : cpu;
  pcbs : gmap Z pcb_t;
  rtc : rtc_st;
  pending : list irq;
  curr_process : Z
}.

(** ** Setters *)

Definition set_terminal_idx (v : Z) (r : terminal_t) : terminal_t :=
  Term v (x_cursor r) (y_cursor r) (color r) (save_buf r) (save_idx r) (curr_task r)
    (video_addr r).
Definition set_x_cursor (v : Z) (r : terminal_t) : terminal_t :=
  Term (terminal_idx r) v (y_cursor r) (color r) (save_buf r) (save_idx r) (curr_task r)
    (video_addr r).
Definition set_y_cursor (v : Z) (r : terminal_t) : terminal_t :=
  Term (terminal_idx r) (x_cursor r) v (color r) (save_buf r) (save_idx r) (curr_task r)
    (video_addr r).
Definition set_color (v : Z) (r : terminal_t) : terminal_t :=
  Term (terminal_idx r) (x_cursor r) (y_cursor r) v (save_buf r) (save_idx r) (curr_task r)
    (video_addr r).
Definition set_save_buf (v : list Z) (r : terminal_t) : terminal_t :=
  Term (terminal_idx r) (x_cursor r) (y_cursor r) (color r) v (save_idx r) (curr_task r)
    (video_addr r).
Definition set_save_idx (v : Z) (r : terminal_t) : terminal_t :=
  Term (terminal_idx r) (x_cursor r) (y_cursor r) (color r) (save_buf r) v (curr_task r)
    (video_addr r).
Definition set_curr_task (v : Z) (r : terminal_t) : terminal_t :=
  Term (terminal_idx r) (x_cursor r) (y_cursor r) (color r) (save_buf r) (save_idx r) v
    (video_addr r).
Definition set_video_addr (v : Z) (r : terminal_t) : terminal_t :=
  Term (terminal_idx r) (x_cursor r) (y_cursor r) (color r) (save_buf r) (save_idx r)
    (curr_task r) v.

Definition set_filename (v : list Z) (r : dentry_t) : dentry_t :=
  Dentry v (filetype r) (inode_num r).
Definition set_filetype (v : Z) (r : dentry_t) : dentry_t := Dentry (filename r) v (inode_num r).
Definition set_inode_num (v : Z) (r : dentry_t) : dentry_t := Dentry (filename r) (filetype r) v.

Definition set_f_ops (v : option table) (r : fdt_t) : fdt_t :=
  Fdt v (fd_inode r) (file_pos r) (flags r).
Definition set_fd_inode (v : Z) (r : fdt_t) : fdt_t := Fdt (f_ops r) v (file_pos r) (flags r).
Definition set_file_pos (v : Z) (r : fdt_t) : fdt_t := Fdt (f_ops r) (fd_inode r) v (flags r).
Definition set_flags (v : Z) (r : fdt_t) : fdt_t := Fdt (f_ops r) (fd_inode r) (file_pos r) v.

Definition set_fdt (v : list fdt_t) (r : pcb_t) : pcb_t :=
  Pcb v (pid r) (ebp r) (esp r) (parent_pcb r) (status_retval r) (pit_ebp r) (pit_esp r).
Definition set_pid (v : Z) (r : pcb_t) : pcb_t :=
  Pcb (fdt r) v (ebp r) (esp r) (parent_pcb r) (status_retval r) (pit_ebp r) (pit_esp r).
Definition set_ebp (v : Z) (r : pcb_t) : pcb_t :=
  Pcb (fdt r) (pid r) v (esp r) (parent_pcb r) (status_retval r) (pit_ebp r) (pit_esp r).
Definition set_esp (v : Z) (r : pcb_t) : pcb_t :=
  Pcb (fdt r) (pid r) (ebp r) v (parent_pcb r) (status_retval r) (pit_ebp r) (pit_esp r).
Definition set_parent_pcb (v : Z) (r : pcb_t) : pcb_t :=
  Pcb (fdt r) (pid r) (ebp r) (esp r) v (status_retval r) (pit_ebp r) (pit_esp r).
Definition set_status_retval (v : Z) (r : pcb_t) : pcb_t :=
  Pcb (fdt r) (pid r) (ebp r) (esp r) (parent_pcb r) v (pit_ebp r) (pit_esp r).
Definition set_pit_ebp (v : Z) (r : pcb_t) : pcb_t :=
  Pcb (fdt r) (pid r) (ebp r) (esp r) (parent_pcb r) (status_retval r) v (pit_esp r).
Definition set_pit_esp (v : Z) (r : pcb_t) : pcb_t :=
  Pcb (fdt r) (pid r) (ebp r) (esp r) (parent_pcb r) (status_retval r) (pit_ebp r) v.

Definition set_op_read (v : option driver) (r : f_ops_table) : f_ops_table :=
  Ops v (op_write r) (op_open r) (op_close r).
Definition set_op_write (v : option driver) (r : f_ops_table) : f_ops_table :=
  Ops (op_read r) v (op_open r) (op_close r).
Definition set_op_open (v : option driver) (r : f_ops_table) : f_ops_table :=
  Ops (op_read r) (op_write r) v (op_close r).
Definition set_op_close (v : option driver) (r : f_ops_table) : f_ops_table :=
  Ops (op_read r) (op_write r) (op_open r) v.

Definition set_screen_x (v : Z) (r : screen) : screen := Screen v (screen_y r) (text_color r).
Definition set_screen_y (v : Z) (r : screen) : screen := Screen (screen_x r) v (text_color r).
Definition set_text_color (v : Z) (r : screen) : screen := Screen (screen_x r) (screen_y r) v.

Definition set_keyboard_buf (v : list Z) (r : keyboard) : keyboard :=
  Keyboard v (last_buf r) (last_idx r) (keyboard_buf_idx r) (num_chars r) (kb_save_buf r)
    (save_buf_1 r) (save_buf_2 r) (save_buf_3 r) (caps_lock_check r) (pressed_flags r)
    (kb_active r) (kb_terminals r).
Definition set_last_buf (v : list Z) (r : keyboard) : keyboard :=
  Keyboard (keyboard_buf r) v (last_idx r) (keyboard_buf_idx r) (num_chars r) (kb_save_buf r)
    (save_buf_1 r) (save_buf_2 r) (save_buf_3 r) (caps_lock_check r) (pressed_flags r)
    (kb_active r) (kb_terminals r).
Definition set_last_idx (v : Z) (r : keyboard) : keyboard :=
  Keyboard (keyboard_buf r) (last_buf r) v (keyboard_buf_idx r) (num_chars r) (kb_save_buf r)
    (save_buf_1 r) (save_buf_2 r) (save_buf_3 r) (caps_lock_check r) (pressed_flags r)
    (kb_active r) (kb_terminals r).
Definition set_keyboard_buf_idx (v : Z) (r : keyboard) : keyboard :=
  Keyboard (keyboard_buf r) (last_buf r) (last_idx r) v (num_chars r) (kb_save_buf r)
    (save_buf_1 r) (save_buf_2 r) (save_buf_3 r) (caps_lock_check r) (pressed_flags r)
    (kb_active r) (kb_terminals r).
Definition set_num_chars (v : Z) (r : keyboard) : keyboard :=
  Keyboard (keyboard_buf r) (last_buf r) (last_idx r) (keyboard_buf_idx r) v (kb_save_buf r)
    (save_buf_1 r) (save_buf_2 r) (save_buf_3 r) (caps_lock_check r) (pressed_flags r)
    (kb_active r) (kb_terminals r).
Definition set_kb_save_buf (v : list Z) (r : keyboard) : keyboard :=
  Keyboard (keyboard_buf r) (last_buf r) (last_idx r) (keyboard_buf_idx r) (num_chars r) v
    (save_buf_1 r) (save_buf_2 r) (save_buf_3 r) (caps_lock_check r) (pressed_flags r)
    (kb_active r) (kb_terminals r).
Definition set_save_buf_1 (v : list Z) (r : keyboard) : keyboard :=
  Keyboard (keyboard_buf r) (last_buf r) (last_idx r) (keyboard_buf_idx r) (num_chars r)
    (kb_save_buf r) v (save_buf_2 r) (save_buf_3 r) (caps_lock_check r) (pressed_flags r)
    (kb_active r) (kb_terminals r).
Definition set_save_buf_2 (v : list Z) (r : keyboard) : keyboard :=
  Keyboard (keyboard_buf r) (last_buf r) (last_idx r) (keyboard_buf_idx r) (num_chars r)
    (kb_save_buf r) (save_buf_1 r) v (save_buf_3 r) (caps_lock_check r) (pressed_flags r)
    (kb_active r) (kb_terminals r).
Definition set_save_buf_3 (v : list Z) (r : keyboard) : keyboard :=
  Keyboard (keyboard_buf r) (last_buf r) (last_idx r) (keyboard_buf_idx r) (num_chars r)
    (kb_save_buf r) (save_buf_1 r) (save_buf_2 r) v (caps_lock_check r) (pressed_flags r)
    (kb_active r) (kb_terminals r).
Definition set_caps_lock_check (v : Z) (r : keyboard) : keyboard :=
  Keyboard (keyboard_buf r) (last_buf r) (last_idx r) (keyboard_buf_idx r) (num_chars r)
    (kb_save_buf r) (save_buf_1 r) (save_buf_2 r) (save_buf_3 r) v (pressed_flags r)
    (kb_active r) (kb_terminals r).
Definition set_pressed_flags (v : list Z) (r : keyboard) : keyboard :=
  Keyboard (keyboard_buf r) (last_buf r) (last_idx r) (keyboard_buf_idx r) (num_chars r)
    (kb_save_buf r) (save_buf_1 r) (save_buf_2 r) (save_buf_3 r) (caps_lock_check r) v
    (kb_active r) (kb_terminals r).
Definition set_kb_active (v : Z) (r : keyboard) : keyboard :=
  Keyboard (keyboard_buf r) (last_buf r) (last_idx r) (keyboard_buf_idx r) (num_chars r)
    (kb_save_buf r) (save_buf_1 r) (save_buf_2 r) (save_buf_3 r) (caps_lock_check r)
    (pressed_flags r) v (kb_terminals r).
Definition set_kb_terminals (v : list terminal_t) (r : keyboard) : keyboard :=
  Keyboard (keyboard_buf r) (last_buf r) (last_idx r) (keyboard_buf_idx r) (num_chars r)
    (kb_save_buf r) (save_buf_1 r) (save_buf_2 r) (save_buf_3 r) (caps_lock_check r)
    (pressed_flags r) (kb_active r) v.

Definition set_process_num (v : list Z) (r : syscalls) : syscalls :=
  Syscalls v (arg_buf r) (active_terminal r) (main_process r) (terminals r) (file_table r)
    (dir_table r) (rtc_table r) (terminal_table r).
Definition set_arg_buf (v : list Z) (r : syscalls) : syscalls :=
  Syscalls (process_num r) v (active_terminal r) (main_process r) (terminals r) (file_table r)
    (dir_table r) (rtc_table r) (terminal_table r).
Definition set_active_terminal (v : Z) (r : syscalls) : syscalls :=
  Syscalls (process_num r) (arg_buf r) v (main_process r) (terminals r) (file_table r)
    (dir_table r) (rtc_table r) (terminal_table r).
Definition set_main_process (v : Z) (r : syscalls) : syscalls :=
  Syscalls (process_num r) (arg_buf r) (active_terminal r) v (terminals r) (file_table r)
    (dir_table r) (rtc_table r) (terminal_table r).
Definition set_terminals (v : list terminal_t) (r : syscalls) : syscalls :=
  Syscalls (process_num r) (arg_buf r) (active_terminal r) (main_process r) v (file_table r)
    (dir_table r) (rtc_table r) (terminal_table r).
Definition set_file_table (v : f_ops_table) (r : syscalls) : syscalls :=
  Syscalls (process_num r) (arg_buf r) (active_terminal r) (main_process r) (terminals r) v
    (dir_table r) (rtc_table r) (terminal_table r).
Definition set_dir_table (v : f_ops_table) (r : syscalls) : syscalls :=
  Syscalls (process_num r) (arg_buf r) (active_terminal r) (main_process r) (terminals r)
    (file_table r) v (rtc_table r) (terminal_table r).
Definition set_rtc_table (v : f_ops_table) (r : syscalls) : syscalls :=
  Syscalls (process_num r) (arg_buf r) (active_terminal r) (main_process r) (terminals r)
    (file_table r) (dir_table r) v (terminal_table r).
Definition set_terminal_table (v : f_ops_table) (r : syscalls) : syscalls :=
  Syscalls (process_num r) (arg_buf r) (active_terminal r) (main_process r) (terminals r)
    (file_table r) (dir_table r) (rtc_table r) v.

Definition set_curr_pcb (v : Z) (r : filesys) : filesys :=
  Filesys v (boot_block r) (cur_dentry r) (FS_START_ADDR r) (FS_END_ADDR r).
Definition set_boot_block (v : Z) (r : filesys) : filesys :=
  Filesys (curr_pcb r) v (cur_dentry r) (FS_START_ADDR r) (FS_END_ADDR r).
Definition set_cur_dentry (v : dentry_t) (r : filesys) : filesys :=
  Filesys (curr_pcb r) (boot_block r) v (FS_START_ADDR r) (FS_END_ADDR r).
Definition set_FS_START_ADDR (v : Z) (r : filesys) : filesys :=
  Filesys (curr_pcb r) (boot_block r) (cur_dentry r) v (FS_END_ADDR r).
Definition set_FS_END_ADDR (v : Z) (r : filesys) : filesys :=
  Filesys (curr_pcb r) (boot_block r) (cur_dentry r) (FS_START_ADDR r) v.

Definition set_reg_ebp (v : Z) (r : cpu) : cpu :=
  Cpu v (reg_esp r) (if_flag r) (tss_ss0 r) (tss_esp0 r).
Definition set_reg_esp (v : Z) (r : cpu) : cpu :=
  Cpu (reg_ebp r) v (if_flag r) (tss_ss0 r) (tss_esp0 r).
Definition set_if_flag (v : bool) (r : cpu) : cpu :=
  Cpu (reg_ebp r) (reg_esp r) v (tss_ss0 r) (tss_esp0 r).
Definition set_tss_ss0 (v : Z) (r : cpu) : cpu :=
  Cpu (reg_ebp r) (reg_esp r) (if_flag r) v (tss_esp0 r).
Definition set_tss_esp0 (v : Z) (r : cpu) : cpu :=
  Cpu (reg_ebp r) (reg_esp r) (if_flag r) (tss_ss0 r) v.

Definition set_mem (v : vmem) (r : kernel) : kernel :=
  Kernel v (scr r) (kbd r) (sys r) (fs r) (hw r) (pcbs r) (rtc r) (pending r) (curr_process r).
Definition set_scr (v : screen) (r : kernel) : kernel :=
  Kernel (mem r) v (kbd r) (sys r) (fs r) (hw r) (pcbs r) (rtc r) (pending r) (curr_process r).
Definition set_kbd (v : keyboard) (r : kernel) : kernel :=
  Kernel (mem r) (scr r) v (sys r) (fs r) (hw r) (pcbs r) (rtc r) (pending r) (curr_process r).
Definition set_sys (v : syscalls) (r : kernel) : kernel :=
  Kernel (mem r) (scr r) (kbd r) v (fs r) (hw r) (pcbs r) (rtc r) (pending r) (curr_process r).
Definition set_fs (v : filesys) (r : kernel) : kernel :=
  Kernel (mem r) (scr r) (kbd r) (sys r) v (hw r) (pcbs r) (rtc r) (pending r) (curr_process r).
Definition set_hw (v : cpu) (r : kernel) : kernel :=
  Kernel (mem r) (scr r) (kbd r) (sys r) (fs r) v (pcbs r) (rtc r) (pending r) (curr_process r).
Definition set_pcbs (v : gmap Z pcb_t) (r : kernel) : kernel :=
  Kernel (mem r) (scr r) (kbd r) (sys r) (fs r) (hw r) v (rtc r) (pending r) (curr_process r).
Definition set_rtc (v : rtc_st) (r : kernel) : kernel :=
  Kernel (mem r) (scr r) (kbd r) (sys r) (fs r) (hw r) (pcbs r) v (pending r) (curr_process r).
Definition set_pending (v : list irq) (r : kernel) : kernel :=
  Kernel (mem r) (scr r) (kbd r) (sys r) (fs r) (hw r) (pcbs r) (rtc r) v (curr_process r).
Definition set_curr_process (v : Z) (r : kernel) : kernel :=
  Kernel (mem r) (scr r) (kbd r) (sys r) (fs r) (hw r) (pcbs r) (rtc r) (pending r) v.

(** Project the fields of an updated record. *)
Ltac ksimpl :=
  psimpl;
  cbn [ set_terminal_idx set_x_cursor set_y_cursor set_color set_save_buf set_save_idx
    set_curr_task set_video_addr set_filename set_filetype set_inode_num set_f_ops set_fd_inode
    set_file_pos set_flags set_fdt set_pid set_ebp set_esp set_parent_pcb set_status_retval
    set_pit_ebp set_pit_esp set_op_read set_op_write set_op_open set_op_close set_screen_x
    set_screen_y set_text_color set_keyboard_buf set_last_buf set_last_idx set_keyboard_buf_idx
    set_num_chars set_kb_save_buf set_save_buf_1 set_save_buf_2 set_save_buf_3
    set_caps_lock_check set_pressed_flags set_kb_active set_kb_terminals set_process_num
    set_arg_buf set_active_terminal set_main_process set_terminals set_file_table set_dir_table
    set_rtc_table set_terminal_table set_curr_pcb set_boot_block set_cur_dentry
    set_FS_START_ADDR set_FS_END_ADDR set_reg_ebp set_reg_esp set_if_flag set_tss_ss0
    set_tss_esp0 set_mem set_scr set_kbd set_sys set_fs set_hw set_pcbs set_rtc set_pending
    set_curr_process terminal_idx x_cursor y_cursor color save_buf save_idx curr_task
    video_addr filename filetype inode_num f_ops fd_inode file_pos flags fdt pid ebp esp
    parent_pcb status_retval pit_ebp pit_esp op_read op_write op_open op_close screen_x
    screen_y text_color keyboard_buf last_buf last_idx keyboard_buf_idx num_chars kb_save_buf
    save_buf_1 save_buf_2 save_buf_3 caps_lock_check pressed_flags kb_active kb_terminals
    process_num arg_buf active_terminal main_process terminals file_table dir_table rtc_table
    terminal_table curr_pcb boot_block cur_dentry FS_START_ADDR FS_END_ADDR reg_ebp reg_esp
    if_flag tss_ss0 tss_esp0 mem scr kbd sys fs hw pcbs rtc pending curr_process].

Tactic Notation "ksimpl" "in" hyp(H) := revert H; ksimpl; intros H.

(** ** Outcomes

    Where control goes when it leaves a function for good: [Iret], to user
    code at an address; [RetFromHalt], to the end of the [system_execute]
    that started the halting process, on that frame and with that value in
    EAX; [Switched], to the frame in which another process was interrupted. *)

Inductive exit :=
| Iret (eip : Z)
| RetFromHalt (eax : Z)
| Switched.

(** [Ret]: the C function returned.  [Leave]: control left it; the stack
    registers are in the state.  [Spin]: a loop is still waiting.  [Fault]:
    a call through a null or stray pointer, an index out of an array that
    the model does not lay out in memory, a division by zero. *)

Inductive outcome (A : Type) : Type :=
| Ret (a : A) (k : kernel)
| Leave (e : exit) (k : kernel)
| Spin (k : kernel)
| Fault (k : kernel).
Arguments Ret {A} a k.
Arguments Leave {A} e k.
Arguments Spin {A} k.
Arguments Fault {A} k.

Definition C (A : Type) : Type := kernel -> outcome A.

Definition ret {A} (a : A) : C A := fun k => Ret a k.
Definition bind {A B} (c : C A) (f : A -> C B) : C B := fun k =>
  match c k with
  | Ret a k' => f a k'
  | Leave e k' => Leave e k'
  | Spin k' => Spin k'
  | Fault k' => Fault k'
  end.
Definition gets {A} (f : kernel -> A) : C A := fun k => Ret (f k) k.
Definition modify (f : kernel -> kernel) : C unit := fun k => Ret tt (f k).
Definition fault {A} : C A := fun k => Fault k.
Definition spin {A} : C A := fun k => Spin k.
Definition leave {A} (e : exit) : C A := fun k => Leave e k.

(** A loop that did not end within its fuel is still running. *)
Definition within_fuel {A} (o : option A) : C A :=
  match o with Some a => ret a | None => spin end.

Declare Scope c_scope.
Delimit Scope c_scope with c.
Notation "x <- c ;; f" := (bind c (fun x => f))
  (at level 100, c at next level, right associativity) : c_scope.
Notation "c ;; f" := (bind c (fun _ => f)) (at level 100, right associativity) : c_scope.
#[global] Open Scope c_scope.

Lemma bind_ret_l {A B} (a : A) (f : A -> C B) k : bind (ret a) f k = f a k.
Proof. done. Qed.

Lemma bind_assoc {A B D} (c : C A) (f : A -> C B) (g : B -> C D) k :
  bind (bind c f) g k = bind c (fun a => bind (f a) g) k.
Proof. unfold bind. by destruct (c k). Qed.

(** ** Access paths *)

Definition upd_scr (f : screen -> screen) (k : kernel) : kernel := set_scr (f (scr k)) k.
Definition upd_kbd (f : keyboard -> keyboard) (k : kernel) : kernel := set_kbd (f (kbd k)) k.
Definition upd_sys (f : syscalls -> syscalls) (k : kernel) : kernel := set_sys (f (sys k)) k.
Definition upd_fs (f : filesys -> filesys) (k : kernel) : kernel := set_fs (f (fs k)) k.
Definition upd_hw (f : cpu -> cpu) (k : kernel) : kernel := set_hw (f (hw k)) k.
Definition upd_mem (f : vmem -> vmem) (k : kernel) : kernel := set_mem (f (mem k)) k.
Definition upd_ports (f : ports -> ports) (k : kernel) : kernel :=
  set_rtc (Rtc (rtc_flag (rtc k)) (f (rtc_ports (rtc k)))) k.

Definition no_terminal : terminal_t := Term 0 0 0 0 (replicate 128 0) 0 0 0.
Definition no_fdt : fdt_t := Fdt None 0 0 0.
Definition no_pcb : pcb_t := Pcb (replicate 8 no_fdt) 0 0 0 0 0 0 0.

(** [terminals[i]], [fdt[i]]. *)
Definition term_at (ts : list terminal_t) (i : Z) : terminal_t :=
  if decide (0 <= i) then default no_terminal (ts !! Z.to_nat i) else no_terminal.

Definition fdt_at (l : list fdt_t) (i : Z) : fdt_t :=
  if decide (0 <= i) then default no_fdt (l !! Z.to_nat i) else no_fdt.

(** The control block at an address: zeroes where none was created. *)
Definition pcb_at (a : Z) (k : kernel) : pcb_t := default no_pcb (pcbs k !! a).

Definition upd_pcb (a : Z) (f : pcb_t -> pcb_t) (k : kernel) : kernel :=
  set_pcbs (<[a := f (pcb_at a k)]> (pcbs k)) k.

Definition upd_fdt (a i : Z) (f : fdt_t -> fdt_t) (k : kernel) : kernel :=
  upd_pcb a (fun p => set_fdt (arr_set (fdt p) i (f (fdt_at (fdt p) i))) p) k.

Definition upd_term (i : Z) (f : terminal_t -> terminal_t) (k : kernel) : kernel :=
  upd_sys (fun s => set_terminals (arr_set (terminals s) i (f (term_at (terminals s) i))) s) k.

Definition upd_kb_term (i : Z) (f : terminal_t -> terminal_t) (k : kernel) : kernel :=
  upd_kbd (fun s => set_kb_terminals (arr_set (kb_terminals s) i (f (term_at (kb_terminals s) i))) s) k.

(** [cli] and [sti]. *)
Definition cli : kernel -> kernel := upd_hw (set_if_flag false).
Definition sti : kernel -> kernel := upd_hw (set_if_flag true).

(** ** Power on

    The statics as their initialisers and the zeroed .bss leave them, over a
    memory, ports and a sequence of interrupts. *)

Definition no_table : f_ops_table := Ops None None None None.

Definition power_on (m : vmem) (p : ports) (evs : list irq) : kernel :=
  Kernel m
    (Screen 0 0 7)
    (Keyboard (replicate 128 0) (replicate 128 0) 0 0 0 (replicate 128 0) (replicate 128 0)
       (replicate 128 0) (replicate 128 0) (-1) (replicate 86 0) 0 (replicate 3 no_terminal))
    (Syscalls (replicate 6 (-1)) (replicate 128 0) 0 0 (replicate 3 no_terminal)
       no_table no_table no_table no_table)
    (Filesys 0 0 (Dentry (replicate 32 0) 0 0) 0 0)
    (Cpu 0 0 false 0 0) ∅ (Rtc 0 p) evs 0.

(** ** Lemmas on access paths *)

Lemma pcb_at_upd_eq a f k : pcb_at a (upd_pcb a f k) = f (pcb_at a k).
Proof. unfold pcb_at at 1, upd_pcb. cbn [pcbs set_pcbs]. by rewrite lookup_insert_eq. Qed.

Lemma pcb_at_upd_ne a b f k : a <> b -> pcb_at b (upd_pcb a f k) = pcb_at b k.
Proof.
  intros Hne. unfold pcb_at at 1, upd_pcb. cbn [pcbs set_pcbs]. by rewrite lookup_insert_ne.
Qed.

Lemma fdt_at_set_eq l i v :
  0 <= i < Z.of_nat (length l) -> fdt_at (arr_set l i v) i = v.
Proof.
  intros Hi. unfold fdt_at. rewrite decide_True by lia. by rewrite arr_set_lookup_eq.
Qed.

Lemma fdt_at_set_ne l i j v : i <> j -> fdt_at (arr_set l i v) j = fdt_at l j.
Proof.
  intros Hne. unfold fdt_at, arr_set. repeat case_decide; try done.
  by rewrite list_lookup_insert_ne by lia.
Qed.

Lemma term_at_set_eq l i v :
  0 <= i < Z.of_nat (length l) -> term_at (arr_set l i v) i = v.
Proof.
  intros Hi. unfold term_at. rewrite decide_True by lia. by rewrite arr_set_lookup_eq.
Qed.

Lemma term_at_set_ne l i j v : i <> j -> term_at (arr_set l i v) j = term_at l j.
Proof.
  intros Hne. unfold term_at, arr_set. repeat case_decide; try done.
  by rewrite list_lookup_insert_ne by lia.
Qed.

(** What an update of one component leaves of the others. Rewriting with
    these keeps terms small where conversion would unfold the state. *)

Create Rewrite HintDb frame.

Section frame.
Variables (k : kernel) (a i : Z).
Variables (fp : pcb_t -> pcb_t) (ff : fdt_t -> fdt_t) (ft : terminal_t -> terminal_t)
  (fh : cpu -> cpu) (fm : vmem -> vmem) (fsy : syscalls -> syscalls) (ffs : filesys -> filesys).

Lemma sys_upd_pcb : sys (upd_pcb a fp k) = sys k. Proof. done. Qed.
Lemma mem_upd_pcb : mem (upd_pcb a fp k) = mem k. Proof. done. Qed.
Lemma hw_upd_pcb : hw (upd_pcb a fp k) = hw k. Proof. done. Qed.
Lemma fs_upd_pcb : fs (upd_pcb a fp k) = fs k. Proof. done. Qed.
Lemma sys_upd_fdt : sys (upd_fdt a i ff k) = sys k. Proof. done. Qed.
Lemma mem_upd_fdt : mem (upd_fdt a i ff k) = mem k. Proof. done. Qed.
Lemma hw_upd_fdt : hw (upd_fdt a i ff k) = hw k. Proof. done. Qed.
Lemma fs_upd_fdt : fs (upd_fdt a i ff k) = fs k. Proof. done. Qed.
Lemma pcb_at_upd_term b : pcb_at b (upd_term i ft k) = pcb_at b k. Proof. done. Qed.
Lemma mem_upd_term : mem (upd_term i ft k) = mem k. Proof. done. Qed.
Lemma hw_upd_term : hw (upd_term i ft k) = hw k. Proof. done. Qed.
Lemma fs_upd_term : fs (upd_term i ft k) = fs k. Proof. done. Qed.
Lemma pcb_at_upd_hw b : pcb_at b (upd_hw fh k) = pcb_at b k. Proof. done. Qed.
Lemma sys_upd_hw : sys (upd_hw fh k) = sys k. Proof. done. Qed.
Lemma mem_upd_hw : mem (upd_hw fh k) = mem k. Proof. done. Qed.
Lemma fs_upd_hw : fs (upd_hw fh k) = fs k. Proof. done. Qed.
Lemma hw_upd_hw : hw (upd_hw fh k) = fh (hw k). Proof. done. Qed.
Lemma pcb_at_upd_mem b : pcb_at b (upd_mem fm k) = pcb_at b k. Proof. done. Qed.
Lemma sys_upd_mem : sys (upd_mem fm k) = sys k. Proof. done. Qed.
Lemma hw_upd_mem : hw (upd_mem fm k) = hw k. Proof. done. Qed.
Lemma fs_upd_mem : fs (upd_mem fm k) = fs k. Proof. done. Qed.
Lemma mem_upd_mem : mem (upd_mem fm k) = fm (mem k). Proof. done. Qed.
Lemma pcb_at_upd_sys b : pcb_at b (upd_sys fsy k) = pcb_at b k. Proof. done. Qed.
Lemma sys_upd_sys : sys (upd_sys fsy k) = fsy (sys k). Proof. done. Qed.
Lemma mem_upd_sys : mem (upd_sys fsy k) = mem k. Proof. done. Qed.
Lemma hw_upd_sys : hw (upd_sys fsy k) = hw k. Proof. done. Qed.
Lemma fs_upd_sys : fs (upd_sys fsy k) = fs k. Proof. done. Qed.
Lemma pcb_at_upd_fs b : pcb_at b (upd_fs ffs k) = pcb_at b k. Proof. done. Qed.
Lemma sys_upd_fs : sys (upd_fs ffs k) = sys k. Proof. done. Qed.
Lemma mem_upd_fs : mem (upd_fs ffs k) = mem k. Proof. done. Qed.
Lemma hw_upd_fs : hw (upd_fs ffs k) = hw k. Proof. done. Qed.
Lemma fs_upd_fs : fs (upd_fs ffs k) = ffs (fs k). Proof. done. Qed.
End frame.

Lemma sys_upd_term i f k :
  sys (upd_term i f k)
  = set_terminals (arr_set (terminals (sys k)) i (f (term_at (terminals (sys k)) i))) (sys k).
Proof. done. Qed.

#[export] Hint Rewrite sys_upd_pcb mem_upd_pcb hw_upd_pcb fs_upd_pcb sys_upd_fdt mem_upd_fdt
  hw_upd_fdt fs_upd_fdt pcb_at_upd_term mem_upd_term hw_upd_term fs_upd_term sys_upd_term
  pcb_at_upd_hw sys_upd_hw mem_upd_hw fs_upd_hw hw_upd_hw pcb_at_upd_mem sys_upd_mem hw_upd_mem
  fs_upd_mem mem_upd_mem pcb_at_upd_sys sys_upd_sys mem_upd_sys hw_upd_sys fs_upd_sys
  pcb_at_upd_fs sys_upd_fs mem_upd_fs hw_upd_fs fs_upd_fs : frame.
