(* ===== verification/Sample.v ===== *)
(** * A sample machine

    A file-system image of three entries with one file of five bytes, a
    second one with a program, and a machine that holds the first, on which
    the witnesses of the development evaluate.  The layout is the one of
    filesys.h, written byte by byte. *)

From S2P Require Import Prelude Memory Lib Paging Devices State.

Definition le32 (v : Z) : list Z :=
  [u8 v; u8 (Z.shiftr v 8); u8 (Z.shiftr v 16); u8 (Z.shiftr v 24)].

Definition padded (n : nat) (l : list Z) : list Z := l ++ replicate (n - length l) 0.

(** A [dentry_t]. *)
Definition sample_entry (name : string) (type inode : Z) : list Z :=
  padded 32 (str_bytes name) ++ le32 type ++ le32 inode ++ replicate 24 0.

(** The address of the image. *)
Definition sample_base : Z := 0x500000.

(** The boot block up to its last entry, the inode of the file (five bytes
    in block 0), and the data block. *)
Definition sample_boot : list Z :=
  le32 3 ++ le32 1 ++ le32 1 ++ replicate 52 0 ++
  sample_entry "." 1 0 ++ sample_entry "frame0.txt" 2 0 ++ sample_entry "rtc" 0 0.
Definition sample_inode : list Z := le32 5 ++ le32 0.
Definition sample_data : list Z := str_bytes "fish!".

Definition sample_image {M} `{MemOps M} (m : M) : M :=
  write (write (write m sample_base sample_boot)
    (sample_base + 4096) sample_inode) (sample_base + 8192) sample_data.

Definition sample_ports : ports := Ports [] (fun _ _ => 0).

(** A machine with the image, one process in slot 0 on terminal 0 whose
    descriptors 0 and 1 are the terminal and 2 is the file. *)
Definition sample_fdt : list fdt_t :=
  [Fdt (Some TerminalTable) (-1) 0 1; Fdt (Some TerminalTable) (-1) 0 1;
   Fdt (Some FileTable) 0 0 1; Fdt None (-1) 0 0; Fdt None (-1) 0 0; Fdt None (-1) 0 0;
   Fdt None (-1) 0 0; Fdt None (-1) 0 0].

Definition sample_pcb : Z := 0x7F8000.

Definition sample : kernel :=
  let k := power_on (sample_image (bare ∅)) sample_ports [] in
  let k := set_fs (Filesys sample_pcb sample_base (cur_dentry (fs k)) sample_base 0) k in
  let k := set_pcbs {[ sample_pcb := Pcb sample_fdt 0 0 0 sample_pcb 0 0 0 ]} k in
  upd_sys (set_process_num [0; -1; -1; -1; -1; -1]) k.

(** The image with a program: two inodes, and the data blocks 0 (the text)
    and 1 (32 bytes that start with the ELF magic and have the entry point
    0x08048020 at offset 24). *)
Definition exec_boot : list Z :=
  le32 3 ++ le32 2 ++ le32 2 ++ replicate 52 0 ++
  sample_entry "." 1 0 ++ sample_entry "frame0.txt" 2 0 ++ sample_entry "shell" 2 1.
Definition exec_data : list Z :=
  [0x7f; 0x45; 0x4c; 0x46] ++ replicate 20 0 ++ le32 0x08048020 ++ [0xEB; 0xFE; 0; 0].

Definition exec_image {M} `{MemOps M} (m : M) : M :=
  write (write (write (write (write m sample_base exec_boot)
    (sample_base + 4096) sample_inode) (sample_base + 8192) (le32 32 ++ le32 1))
    (sample_base + 12288) sample_data) (sample_base + 16384) exec_data.

(** A machine with that image behind the kernel's paging, process 0 running
    on terminal 0 with its two descriptors open. *)
Definition exec_fdt : list fdt_t :=
  [Fdt (Some TerminalTable) (-1) 0 1; Fdt (Some TerminalTable) (-1) 0 1;
   Fdt None (-1) 0 0; Fdt None (-1) 0 0; Fdt None (-1) 0 0; Fdt None (-1) 0 0;
   Fdt None (-1) 0 0; Fdt None (-1) 0 0].

Definition exec_machine : kernel :=
  let k := power_on (setup_paging (exec_image (bare ∅))) sample_ports [] in
  let k := set_fs (Filesys sample_pcb sample_base (cur_dentry (fs k)) sample_base 0) k in
  let k := set_pcbs {[ sample_pcb := Pcb exec_fdt 0 0 0 sample_pcb 0 0 0 ]} k in
  let k := set_hw (Cpu 0x7F7F00 0x7F7E00 true 0x18 0x7FFFFC) k in
  upd_sys (set_process_num [0; -1; -1; -1; -1; -1]) k.
