(* ===== verification/Console.v ===== *)
(** * lib.c: the text console

    The video half of src/student-distrib/lib.c (clear, putc, my_putc,
    key_putc, _backspace, the two scroll routines, the hardware cursor,
    puts, my_puts, printf, fs_printf), with the accessors of syscall.c
    through which these routines find the page and the cursor they draw
    at. *)

From S2P Require Import Prelude Memory Lib Paging Devices State Sample.

(** ** Constants *)

Definition VIDEO : Z := 0xB8000.
Definition NUM_COLS : Z := 80.
Definition NUM_ROWS : Z := 25.
Definition BLACK : Z := 0x0.
Definition GRAY : Z := 0x7.
Definition ASCII_SPACE : Z := 0x20.
Definition CURSOR_HIGH : Z := 0x0E.
Definition CURSOR_LOW : Z := 0x0F.
Definition CURSOR_INDEX : Z := 0x3D4.

(** ** Accessors of syscall.c *)

(** [process_num[main_process]]: the terminal of the running process. *)
Definition main_terminal (k : kernel) : Z :=
  arr_get (process_num (sys k)) (main_process (sys k)).

Definition video_return (k : kernel) : Z :=
  if main_terminal k =? active_terminal (sys k) then VIDEO
  else VIDEO + UNIT_4_KB * (1 + main_terminal k).

(** The terminal a cursor call is about: the visible one or the one of the
    running process. *)
Definition cursor_terminal (t : Z) (k : kernel) : Z :=
  if negb (t =? 0) then active_terminal (sys k) else main_terminal k.

Definition x_return (t : Z) (k : kernel) : Z :=
  x_cursor (term_at (terminals (sys k)) (cursor_terminal t k)).

Definition y_return (t : Z) (k : kernel) : Z :=
  y_cursor (term_at (terminals (sys k)) (cursor_terminal t k)).

(** The coordinates are passed as [uint8_t]. *)
Definition set_terminal_pos (x y t : Z) (k : kernel) : kernel :=
  let i := cursor_terminal t k in
  let k := upd_term i (set_x_cursor (u8 x)) k in
  upd_term i (set_y_cursor (u8 y)) k.

Definition get_vid_mem (k : kernel) : Z :=
  if main_terminal k =? active_terminal (sys k) then VIDEO
  else video_addr (term_at (terminals (sys k)) (main_terminal k)).

Definition return_active_terminal (k : kernel) : Z := active_terminal (sys k).

Definition check_read_process (k : kernel) : Z :=
  if negb (main_terminal k =? active_terminal (sys k)) then -1 else 0.

(** ** Cursor *)

Definition x_screen_return (k : kernel) : Z := screen_x (scr k).
Definition y_screen_return (k : kernel) : Z := screen_y (scr k).
Definition x_set_screen (x : Z) : kernel -> kernel := upd_scr (set_screen_x x).
Definition y_set_screen (y : Z) : kernel -> kernel := upd_scr (set_screen_y y).

Definition update_cursor (k : kernel) : kernel :=
  let pos := u16 (screen_y (scr k) * NUM_COLS + screen_x (scr k)) in
  upd_ports (fun p =>
    let p := outb CURSOR_LOW CURSOR_INDEX p in
    let p := outb (u8 (Z.land pos 0xFF)) (CURSOR_INDEX + 1) p in
    let p := outb CURSOR_HIGH CURSOR_INDEX p in
    outb (u8 (Z.land (Z.shiftr pos 8) 0xFF)) (CURSOR_INDEX + 1) p) k.

Definition cycle_text_color (terminal : Z) : kernel -> kernel :=
  upd_scr (set_text_color (Z.lor (Z.shiftl BLACK 4) GRAY)).

(** ** Cells *)

(** The address of the character of row [y], column [x]. *)
Definition cell (base x y : Z) : Z := base + Z.shiftl (NUM_COLS * y + x) 1.

Definition put_cell (base x y c color : Z) (m : vmem) : vmem :=
  st (st m (cell base x y) c) (cell base x y + 1) color.

(** One step of the scroll: the character below, or a space on the last
    row. *)
Definition scroll_cell (base i j : Z) (m : vmem) : vmem :=
  if i =? NUM_ROWS - 1 then st m (cell base j i) SPACE
  else st m (cell base j i) (ld m (cell base j (i + 1))).

Definition _scroll_down_ (video_addr : Z) (m : vmem) : vmem :=
  for_loop (Z.to_nat NUM_ROWS) 0 (fun i m =>
    for_loop (Z.to_nat NUM_COLS) 0 (fun j m => scroll_cell video_addr i j m) m) m.

Definition _scroll_down : kernel -> kernel := upd_mem (_scroll_down_ VIDEO).

(** The loop of [clear] and [my_clear]. *)
Definition clear_cells (color : Z) (m : vmem) : vmem :=
  for_loop (Z.to_nat (NUM_ROWS * NUM_COLS)) 0 (fun i m =>
    st (st m (VIDEO + Z.shiftl i 1) SPACE) (VIDEO + Z.shiftl i 1 + 1) color) m.

Definition clear (k : kernel) : kernel := upd_mem (clear_cells (text_color (scr k))) k.

Definition my_clear (k : kernel) : kernel :=
  let k := x_set_screen 0 k in
  let k := y_set_screen 0 k in
  update_cursor (clear k).

Definition test_interrupts : kernel -> kernel :=
  upd_mem (fun m => for_loop (Z.to_nat (NUM_ROWS * NUM_COLS)) 0 (fun i m =>
    st m (VIDEO + Z.shiftl i 1) (ld m (VIDEO + Z.shiftl i 1) + 1)) m).

(** ** Characters

    [putc], [my_putc] and [key_putc] share their body: it draws [c] at
    column [x], row [y] of the page [base] and gives the memory and the
    cursor that result. *)

Definition draw (base x y c color : Z) (m : vmem) : vmem * Z * Z :=
  if (c =? NEWLINE) || (c =? CR) then
    if y =? NUM_ROWS - 1 then (_scroll_down_ base m, 0, y) else (m, 0, y + 1)
  else
    let m := put_cell base x y c color m in
    let x := x + 1 in
    let x := Z.rem x NUM_COLS in
    let y := Z.rem (y + Z.quot x NUM_COLS) NUM_ROWS in
    if x =? 0 then
      if y =? NUM_ROWS - 1 then (_scroll_down_ base m, x, y) else (m, x, y + 1)
    else (m, x, y).

(** At the global cursor, on the visible page. *)
Definition putc (c : Z) (k : kernel) : kernel :=
  let '(m, x, y) := draw VIDEO (screen_x (scr k)) (screen_y (scr k)) (u8 c)
                      (text_color (scr k)) (mem k) in
  let k := set_mem m k in
  update_cursor (y_set_screen y (x_set_screen x k)).

(** At the cursor of the running process, on its page. *)
Definition my_putc (c : Z) (k : kernel) : kernel :=
  let '(m, x, y) := draw (video_return k) (x_return 0 k) (y_return 0 k) (u8 c)
                      (text_color (scr k)) (mem k) in
  let k := set_mem m k in
  update_cursor (set_terminal_pos x y 0 k).

(** At the cursor of the visible terminal, on the visible page. *)
Definition key_putc (c : Z) (k : kernel) : kernel :=
  let k := x_set_screen (x_return 1 k) k in
  let k := y_set_screen (y_return 1 k) k in
  let '(m, x, y) := draw VIDEO (screen_x (scr k)) (screen_y (scr k)) (u8 c)
                      (text_color (scr k)) (mem k) in
  let k := set_mem m k in
  let k := y_set_screen y (x_set_screen x k) in
  update_cursor (set_terminal_pos x y 1 k).

(** [set_terminal_pos(screen_x, screen_y, 1)] *)
Definition save_pos (k : kernel) : kernel :=
  set_terminal_pos (screen_x (scr k)) (screen_y (scr k)) 1 k.

Definition _backspace (k : kernel) : kernel :=
  let k := x_set_screen (x_return 1 k) k in
  let k := y_set_screen (y_return 1 k) k in
  if (screen_x (scr k) =? 0) && (screen_y (scr k) =? 0) then update_cursor k else
  let k :=
    if screen_x (scr k) =? 0 then
      let k := x_set_screen (NUM_COLS - 1) k in
      let k := y_set_screen (screen_y (scr k) - 1) k in
      let k := key_putc ASCII_SPACE (save_pos k) in
      let k := x_set_screen (NUM_COLS - 1) k in
      let k := y_set_screen (screen_y (scr k) - 1) k in
      save_pos k
    else
      let k := x_set_screen (screen_x (scr k) - 1) k in
      let k := key_putc ASCII_SPACE (save_pos k) in
      let k := x_set_screen (screen_x (scr k) - 1) k in
      save_pos k in
  update_cursor (save_pos k).

Definition _arrow_key (dir : Z) (k : kernel) : kernel :=
  let k := if dir =? 1 then x_set_screen (screen_x (scr k) + 1) k
           else if dir =? -1 then x_set_screen (screen_x (scr k) - 1) k else k in
  update_cursor k.

(** ** Strings

    A string is read through the memory that the drawing changes. *)

Definition text := vmem -> Z -> Z.

(** [s[i]] of a pointer and of a string literal. *)
Definition at_ptr (p : Z) : text := fun m i => ld m (p + i).
Definition lit (s : string) : text := fun _ i => arr_get (str_bytes s) i.

Definition puts (fuel : nat) (s : text) : C Z := fun k =>
  match loop fuel (fun '(k, index) =>
          if s (mem k) index =? NUL then Break (k, index)
          else Continue (putc (s (mem k) index) k, index + 1)) (k, 0) with
  | Some (k', index) => Ret index k'
  | None => Spin k
  end.

(** At most 32 characters. *)
Definition fs_puts (s : text) : C Z := fun k =>
  match loop 33 (fun '(k, index) =>
          if (s (mem k) index =? NUL) || negb (index <? 32) then Break (k, index)
          else Continue (putc (s (mem k) index) k, index + 1)) (k, 0) with
  | Some (k', index) => Ret index k'
  | None => Spin k
  end.

Definition my_puts (fuel : nat) (s : text) (nbytes : Z) : C Z := fun k =>
  match loop fuel (fun '(k, index) =>
          if index =? nbytes then Break (k, index)
          else Continue (my_putc (s (mem k) index) k, index + 1)) (k, 0) with
  | Some (k', index) => Ret index k'
  | None => Spin k
  end.

(** *** printf *)

(** A number in a local [conv_buf], as the text from index [from]. *)
Definition local_text (m : flat) (from : Z) : text := fun _ i => ld m (from + i).

(** [%x]: [conv_buf] from 0. *)
Definition conv_hex (v : Z) : option text :=
  m ← itoa (Flat ∅) v 0 16;
  Some (local_text m 0).

(** [%#x]: the digits at 8, zeroes in front up to eight characters. *)
Definition conv_hex_alt (v : Z) : option text :=
  m ← itoa (Flat ∅) v 8 16;
  starting_index ← strlen 40 (chars m 8);
  let m := for_loop (Z.to_nat (8 - starting_index)) starting_index
             (fun i m => st m i 48) m in
  Some (local_text m starting_index).

Definition conv_unsigned (v : Z) : option text :=
  m ← itoa (Flat ∅) v 0 10;
  Some (local_text m 0).

Definition conv_signed (v : Z) : option text :=
  let value := s32 v in
  m ← (if value <? 0 then itoa (st (Flat ∅) 0 45) (- value) 1 10
       else itoa (Flat ∅) value 0 10);
  Some (local_text m 0).

Definition conv (o : option text) : C text :=
  match o with Some t => ret t | None => fault end.

(** The switch of a conversion, entered after the percent sign; [fs] tells
    [fs_printf], whose [%s] stops after 32 characters.  It gives the index
    of the last character of the conversion and the arguments left; a
    missing argument faults. *)
Fixpoint format_char_switch (fuel cfuel : nat) (fs : bool) (fmt : text)
    (i : Z) (alternate : bool) (args : list Z) : C (Z * list Z) := fun k =>
  match cfuel with
  | O => Spin k
  | S cfuel' =>
      match fmt (mem k) i with
      | 37 => (modify (putc 37);; ret (i, args)) k
      | 35 => format_char_switch fuel cfuel' fs fmt (i + 1) true args k
      | 120 =>
          match args with
          | [] => Fault k
          | v :: args =>
              (t <- conv (if alternate then conv_hex_alt v else conv_hex v);;
               puts fuel t;; ret (i, args)) k
          end
      | 117 =>
          match args with
          | [] => Fault k
          | v :: args => (t <- conv (conv_unsigned v);; puts fuel t;; ret (i, args)) k
          end
      | 100 =>
          match args with
          | [] => Fault k
          | v :: args => (t <- conv (conv_signed v);; puts fuel t;; ret (i, args)) k
          end
      | 99 =>
          match args with
          | [] => Fault k
          | v :: args => (modify (putc (u8 v));; ret (i, args)) k
          end
      | 115 =>
          match args with
          | [] => Fault k
          | v :: args =>
              ((if fs then fs_puts (at_ptr v) else puts fuel (at_ptr v));; ret (i, args)) k
          end
      | _ => Ret (i, args) k
      end
  end.

Fixpoint printf_from (fuel n : nat) (fs : bool) (fmt : text) (i : Z) (args : list Z) : C Z :=
  fun k =>
  match n with
  | O => Spin k
  | S n' =>
      let c := fmt (mem k) i in
      if c =? NUL then Ret i k
      else if c =? 37 then
        (r <- format_char_switch fuel fuel fs fmt (i + 1) false args;;
         printf_from fuel n' fs fmt (r.1 + 1) r.2) k
      else
        (modify (putc c);; printf_from fuel n' fs fmt (i + 1) args) k
  end.

Definition printf (fuel : nat) (fmt : text) (args : list Z) : C Z :=
  printf_from fuel fuel false fmt 0 args.

Definition fs_printf (fuel : nat) (fmt : text) (args : list Z) : C Z :=
  printf_from fuel fuel true fmt 0 args.

(** ** Bounds *)

Definition on_screen (x y : Z) : Prop := 0 <= x < NUM_COLS /\ 0 <= y < NUM_ROWS.

(** Three terminals, each with its cursor on the screen; the global cursor
    is on the screen; the visible and the running terminal exist. *)
Definition console_wf (k : kernel) : Prop :=
  on_screen (screen_x (scr k)) (screen_y (scr k)) /\
  length (terminals (sys k)) = 3%nat /\
  (forall i, 0 <= i < 3 ->
     on_screen (x_cursor (term_at (terminals (sys k)) i)) (y_cursor (term_at (terminals (sys k)) i))) /\
  0 <= active_terminal (sys k) < 3 /\ 0 <= main_terminal k < 3.

(** The position after a character, and whether the page scrolled. *)
Definition next_pos (c x y : Z) : Z * Z :=
  if (c =? NEWLINE) || (c =? CR) then (0, if y =? 24 then y else y + 1)
  else if x =? 79 then (0, if y =? 24 then y else y + 1) else (x + 1, y).

Definition scrolls (c x y : Z) : bool :=
  (y =? 24) && ((c =? NEWLINE) || (c =? CR) || (x =? 79)).

Lemma draw_eq base x y c color m :
  on_screen x y ->
  draw base x y c color m
  = (let m1 := if (c =? NEWLINE) || (c =? CR) then m else put_cell base x y c color m in
     if scrolls c x y then _scroll_down_ base m1 else m1,
     (next_pos c x y).1, (next_pos c x y).2).
Proof.
  unfold on_screen, NUM_COLS, NUM_ROWS. intros [Hx Hy]. unfold draw, next_pos, scrolls, NUM_ROWS, NUM_COLS.
  change (25 - 1) with 24.
  generalize (_scroll_down_ base). intros scroll.
  generalize (put_cell base x y c color m). intros drawn.
  destruct ((c =? NEWLINE) || (c =? CR)) eqn:Hc.
  - rewrite orb_true_l, andb_true_r. by destruct (y =? 24).
  - rewrite orb_false_l. cbv zeta.
    assert (Hrem : Z.rem (x + 1) 80 = if x =? 79 then 0 else x + 1).
    { rewrite Z.rem_mod_nonneg by lia. destruct (Z.eqb_spec x 79) as [-> |]; [done |].
      apply Z.mod_small. lia. }
    rewrite Hrem. assert (Hq : Z.quot (if x =? 79 then 0 else x + 1) 80 = 0).
    { apply Z.quot_small. destruct (Z.eqb_spec x 79); lia. }
    rewrite Hq, Z.add_0_r, Z.rem_small by lia.
    destruct (Z.eqb_spec x 79) as [_ |]; [by destruct (y =? 24) |].
    destruct (Z.eqb_spec (x + 1) 0); [lia |]. by rewrite andb_false_r.
Qed.

Lemma next_pos_on_screen c x y :
  on_screen x y -> on_screen (next_pos c x y).1 (next_pos c x y).2.
Proof.
  unfold on_screen, next_pos, NUM_COLS, NUM_ROWS. intros [Hx Hy].
  destruct ((c =? NEWLINE) || (c =? CR)); cmp; lia.
Qed.

Lemma u8_on_screen x y : on_screen x y -> u8 x = x /\ u8 y = y.
Proof. unfold on_screen, NUM_COLS, NUM_ROWS. intros. split; apply u8_small; lia. Qed.

(** ** Cursor bookkeeping *)

Lemma set_terminal_pos_terms x y t k :
  length (terminals (sys k)) = 3%nat -> 0 <= cursor_terminal t k < 3 ->
  terminals (sys (set_terminal_pos x y t k))
  = arr_set (terminals (sys k)) (cursor_terminal t k)
      (set_y_cursor (u8 y) (set_x_cursor (u8 x) (term_at (terminals (sys k)) (cursor_terminal t k)))).
Proof.
  intros Hl Hi. unfold set_terminal_pos, upd_term, upd_sys. ksimpl.
  rewrite term_at_set_eq by lia. unfold arr_set. rewrite !decide_True by lia.
  by rewrite list_insert_insert_eq.
Qed.

Lemma x_return_set x y t t' k :
  console_wf k ->
  x_return t' (set_terminal_pos x y t k)
  = if decide (cursor_terminal t' k = cursor_terminal t k) then u8 x else x_return t' k.
Proof.
  intros (_ & Hl & _ & Ha & Hm).
  assert (Ht : 0 <= cursor_terminal t k < 3) by (unfold cursor_terminal; destruct (negb (t =? 0)); done).
  unfold x_return at 1. rewrite set_terminal_pos_terms by done.
  change (cursor_terminal t' (set_terminal_pos x y t k)) with (cursor_terminal t' k).
  case_decide as He; [rewrite He, term_at_set_eq by lia; done | by rewrite term_at_set_ne by done].
Qed.

Lemma y_return_set x y t t' k :
  console_wf k ->
  y_return t' (set_terminal_pos x y t k)
  = if decide (cursor_terminal t' k = cursor_terminal t k) then u8 y else y_return t' k.
Proof.
  intros (_ & Hl & _ & Ha & Hm).
  assert (Ht : 0 <= cursor_terminal t k < 3) by (unfold cursor_terminal; destruct (negb (t =? 0)); done).
  unfold y_return at 1. rewrite set_terminal_pos_terms by done.
  change (cursor_terminal t' (set_terminal_pos x y t k)) with (cursor_terminal t' k).
  case_decide as He; [rewrite He, term_at_set_eq by lia; done | by rewrite term_at_set_ne by done].
Qed.

Lemma console_wf_return t k :
  console_wf k -> on_screen (x_return t k) (y_return t k).
Proof.
  intros (_ & _ & Hc & Ha & Hm). apply Hc. unfold cursor_terminal. by destruct (negb (t =? 0)).
Qed.

Lemma console_wf_set_pos x y t k :
  console_wf k -> on_screen x y -> console_wf (set_terminal_pos x y t k).
Proof.
  intros Hwf Hon. pose proof Hwf as (Hs & Hl & Hc & Ha & Hm).
  destruct (u8_on_screen _ _ Hon) as [Hux Huy].
  assert (Ht : 0 <= cursor_terminal t k < 3) by (unfold cursor_terminal; destruct (negb (t =? 0)); done).
  split; [exact Hs |]. split; [| split; [| split; [exact Ha | exact Hm]]].
  - rewrite set_terminal_pos_terms, length_arr_set by done. done.
  - intros i Hi. rewrite set_terminal_pos_terms by done.
    destruct (decide (i = cursor_terminal t k)) as [-> | Hne].
    + rewrite term_at_set_eq by lia. ksimpl. by rewrite Hux, Huy.
    + rewrite term_at_set_ne by done. by apply Hc.
Qed.

Lemma console_wf_screen x y k :
  console_wf k -> on_screen x y -> console_wf (y_set_screen y (x_set_screen x k)).
Proof. intros (_ & Hrest) Hon. split; done. Qed.

Lemma console_wf_x_screen x k :
  console_wf k -> 0 <= x < NUM_COLS -> console_wf (x_set_screen x k).
Proof. intros ((_ & Hy) & Hrest) Hon. split; done. Qed.

Lemma console_wf_y_screen y k :
  console_wf k -> 0 <= y < NUM_ROWS -> console_wf (y_set_screen y k).
Proof. intros ((Hx & _) & Hrest) Hon. split; done. Qed.

Lemma console_wf_cursor k : console_wf k -> console_wf (update_cursor k).
Proof. done. Qed.

Lemma console_wf_mem m k : console_wf k -> console_wf (set_mem m k).
Proof. done. Qed.

Create HintDb console.
#[export] Hint Resolve console_wf_set_pos console_wf_screen console_wf_cursor console_wf_mem
  console_wf_x_screen console_wf_y_screen next_pos_on_screen console_wf_return : console.

(** What a keyboard character does to the cursor and to memory. *)
Lemma key_putc_eq c k :
  console_wf k ->
  let x := x_return 1 k in let y := y_return 1 k in
  key_putc c k
  = update_cursor (set_terminal_pos (next_pos (u8 c) x y).1 (next_pos (u8 c) x y).2 1
      (y_set_screen (next_pos (u8 c) x y).2 (x_set_screen (next_pos (u8 c) x y).1
         (set_mem (draw VIDEO x y (u8 c) (text_color (scr k)) (mem k)).1.1
            (y_set_screen y (x_set_screen x k)))))).
Proof.
  intros Hwf x y. unfold key_putc. cbv zeta.
  change (y_return 1 (x_set_screen (x_return 1 k) k)) with y.
  change (x_return 1 k) with x.
  assert (Hon : on_screen x y) by by apply console_wf_return.
  change (screen_x (scr (y_set_screen y (x_set_screen x k)))) with x.
  change (screen_y (scr (y_set_screen y (x_set_screen x k)))) with y.
  rewrite !draw_eq by done. reflexivity.
Qed.

(** ** Memory *)

Lemma cell_eq base x y : cell base x y = base + 2 * (80 * y + x).
Proof. unfold cell, NUM_COLS. rewrite Z.shiftl_mul_pow2 by lia. lia. Qed.

(** [m1] and [m] agree but for the page of 4000 bytes at [base], where
    byte [n] of [m1] is [f n]. *)
Definition page_is (base : Z) (m m1 : vmem) (f : Z -> Z) : Prop :=
  (forall b, xlate m1 b = xlate m b) /\
  (forall n, 0 <= n < 4000 -> ld m1 (base + n) = f n) /\
  same_outside m m1 base 4000.

Lemma page_is_refl base m : page_is base m m (fun n => ld m (base + n)).
Proof. done. Qed.

Lemma page_is_ext base m m1 f g :
  page_is base m m1 f -> (forall n, 0 <= n < 4000 -> f n = g n) -> page_is base m m1 g.
Proof. intros (H1 & H2 & H3) Hfg. split_and!; [done | | done]. intros. rewrite <- Hfg by done. auto. Qed.

(** One store in the page. *)
Lemma page_is_st base m m1 f i v :
  region m base 4000 -> page_is base m m1 f -> 0 <= i < 4000 ->
  page_is base m (st m1 (base + i) v) (fun n => if decide (n = i) then u8 v else f n).
Proof.
  intros [Hm Hinj] (Hl & Hf & Ho) Hi.
  assert (Hmap : is_Some (loc m1 (base + i))) by (simpl; rewrite Hl; apply Hm; lia).
  split_and!.
  - intros b. change (loc (st m1 (base + i) v) b = xlate m b). rewrite loc_st. apply Hl.
  - intros n Hn. rewrite ld_st by done. simpl loc. rewrite !Hl. rewrite Hf by done.
    apply decide_ext. split; [apply Hinj; lia | by intros ->].
  - intros b Hb. rewrite ld_st_ne; [by apply Ho | done |]. simpl. rewrite !Hl. apply Hb. lia.
Qed.

Lemma page_is_trans base m m1 m2 f g :
  page_is base m m1 f -> page_is base m1 m2 g -> page_is base m m2 g.
Proof.
  intros (Hl1 & _ & Ho1) (Hl2 & Hg & Ho2). split_and!; [| done |].
  - intros b. by rewrite Hl2.
  - intros b Hb. rewrite Ho2; [by apply Ho1 |]. intros i Hi. simpl. rewrite !Hl1. by apply Hb.
Qed.

(** The byte [n] of a page after a scroll. *)
Definition scrolled (f : Z -> Z) (n : Z) : Z :=
  if Z.odd n then f n else if n <? 3840 then f (n + 160) else SPACE.

Lemma odd_mod n : Z.odd n = (n mod 2 =? 1).
Proof. rewrite Zmod_odd. by destruct (Z.odd n). Qed.

Lemma scroll_page base m :
  region m base 4000 ->
  page_is base m (_scroll_down_ base m) (scrolled (fun n => ld m (base + n))).
Proof.
  intros Hr. set (f n := ld m (base + n)).
  set (P idx m1 := page_is base m m1 (fun n => if decide (n < 2 * idx) then scrolled f n else f n)).
  assert (Hend : P (80 * 25) (_scroll_down_ base m)).
  2: { eapply page_is_ext; [exact Hend |]. intros n Hn. simpl. by rewrite decide_True by lia. }
  apply (for_loop_inv (fun i => P (80 * i))).
  { eapply page_is_ext; [apply page_is_refl |]. intros n Hn. simpl. by rewrite decide_False by lia. }
  intros i m1 Hi HP. change (Z.to_nat NUM_COLS) with 80%nat.
  replace (80 * (i + 1)) with (80 * i + (0 + Z.of_nat 80)) by lia.
  apply (for_loop_inv (fun j => P (80 * i + j))); [by rewrite Z.add_0_r |].
  change (0 + Z.of_nat (Z.to_nat NUM_ROWS)) with 25 in Hi.
  intros j m2 Hj HP2. unfold P, scroll_cell. rewrite !cell_eq. set (n0 := 2 * (80 * i + j)).
  assert (Hodd : Z.odd n0 = false) by (rewrite odd_mod; unfold n0; cmp; [Z.div_mod_to_equations; lia | done]).
  assert (Hodd1 : Z.odd (n0 + 1) = true) by (by rewrite Z.add_1_r, Z.odd_succ, <- Z.negb_odd, Hodd).
  assert (Hstep : exists v, u8 v = scrolled f n0 /\
    (if i =? NUM_ROWS - 1 then st m2 (base + n0) SPACE
     else st m2 (base + n0) (ld m2 (base + 2 * (80 * (i + 1) + j)))) = st m2 (base + n0) v).
  { unfold scrolled. rewrite Hodd. change (NUM_ROWS - 1) with 24. destruct (Z.eqb_spec i 24).
    - exists SPACE. split; [| done]. destruct (Z.ltb_spec n0 3840); [unfold n0 in *; lia | done].
    - eexists. split; [| done]. destruct (Z.ltb_spec n0 3840); [| unfold n0 in *; lia].
      destruct HP2 as (_ & Hf & _). rewrite u8_small by apply ld_byte.
      replace (2 * (80 * (i + 1) + j)) with (n0 + 160) by (unfold n0; lia).
      rewrite Hf by (unfold n0 in *; lia). by rewrite decide_False by (unfold n0; lia). }
  destruct Hstep as (v & Hv & ->).
  eapply page_is_ext; [eapply page_is_st; [done | exact HP2 | unfold n0; lia] |].
  intros n Hn. simpl. rewrite Hv.
  destruct (decide (n = n0)) as [-> |]; [by rewrite decide_True by lia |].
  destruct (decide (n = n0 + 1)) as [-> |].
  - rewrite decide_False, decide_True by (unfold n0; lia). unfold scrolled. by rewrite Hodd1.
  - repeat case_decide; unfold n0 in *; lia || done.
Qed.

(** The page after a character. *)
Definition drawn (f : Z -> Z) (x y c color n : Z) : Z :=
  let put n := if decide (n = 2 * (80 * y + x)) then c
               else if decide (n = 2 * (80 * y + x) + 1) then u8 color else f n in
  let f1 := if (c =? NEWLINE) || (c =? CR) then f else put in
  if scrolls c x y then scrolled f1 n else f1 n.

Lemma draw_page base x y c color m :
  region m base 4000 -> on_screen x y -> 0 <= c < 256 ->
  page_is base m (draw base x y c color m).1.1
    (drawn (fun n => ld m (base + n)) x y c color).
Proof.
  intros Hr Hon Hc. rewrite draw_eq by done. cbn [fst].
  unfold on_screen, NUM_COLS, NUM_ROWS in Hon.
  set (f := fun n => ld m (base + n)).
  set (m1 := if (c =? NEWLINE) || (c =? CR) then m else put_cell base x y c color m).
  set (f1 := fun n => if (c =? NEWLINE) || (c =? CR) then f n
             else if decide (n = 2 * (80 * y + x)) then c
             else if decide (n = 2 * (80 * y + x) + 1) then u8 color else f n).
  assert (H1 : page_is base m m1 f1).
  { unfold m1, f1. destruct ((c =? NEWLINE) || (c =? CR)); [apply page_is_refl |].
    unfold put_cell. rewrite cell_eq, <- Z.add_assoc.
    eapply page_is_ext.
    - apply page_is_st; [done | | lia]. apply page_is_st; [done | apply page_is_refl | lia].
    - intros n Hn. rewrite (u8_small c) by done. repeat case_decide; lia || done. }
  assert (Hfin : page_is base m (if scrolls c x y then _scroll_down_ base m1 else m1)
            (fun n => if scrolls c x y then scrolled f1 n else f1 n)).
  { destruct (scrolls c x y); [| done].
    eapply page_is_trans; [exact H1 |]. eapply page_is_ext.
    - apply scroll_page. destruct H1 as (Hl & _). destruct Hr as [Hm Hi].
      split; intros *; simpl; rewrite ?Hl; auto.
    - destruct H1 as (_ & Hf & _). intros n Hn. unfold scrolled.
      destruct (Z.odd n); [by apply Hf |]. destruct (Z.ltb_spec n 3840); [apply Hf; lia | done]. }
  eapply page_is_ext; [exact Hfin |]. intros n Hn. unfold drawn, f1.
  destruct (scrolls c x y); [unfold scrolled |]; by destruct ((c =? NEWLINE) || (c =? CR)).
Qed.

(** ** The character routines *)

Lemma key_putc_spec c k :
  console_wf k -> 0 <= c < 256 ->
  let x := x_return 1 k in let y := y_return 1 k in
  let k' := key_putc c k in
  console_wf k' /\ (x_return 1 k', y_return 1 k') = next_pos c x y /\
  (screen_x (scr k'), screen_y (scr k')) = next_pos c x y /\
  mem k' = (draw VIDEO x y c (text_color (scr k)) (mem k)).1.1 /\
  text_color (scr k') = text_color (scr k) /\
  active_terminal (sys k') = active_terminal (sys k).
Proof.
  intros Hwf Hc x y k'. unfold k'. rewrite key_putc_eq, u8_small by done. fold x y.
  assert (Hon : on_screen x y) by by apply console_wf_return.
  pose proof (next_pos_on_screen c x y Hon) as Hn.
  set (m := (draw VIDEO x y c (text_color (scr k)) (mem k)).1.1).
  destruct (next_pos c x y) as [nx ny]. cbn [fst snd] in *.
  destruct (u8_on_screen _ _ Hn) as [Hx Hy].
  set (k1 := y_set_screen ny (x_set_screen nx (set_mem m (y_set_screen y (x_set_screen x k))))).
  assert (Hwf1 : console_wf k1) by (unfold k1; auto with console).
  change (update_cursor ?q) with (update_cursor q).
  split_and!; try done; auto with console.
  change (x_return 1 (update_cursor ?q)) with (x_return 1 q).
  change (y_return 1 (update_cursor ?q)) with (y_return 1 q).
  by rewrite x_return_set, y_return_set, !decide_True, Hx, Hy by done.
Qed.

Lemma my_putc_spec c k :
  console_wf k -> 0 <= c < 256 ->
  let x := x_return 0 k in let y := y_return 0 k in
  let k' := my_putc c k in
  console_wf k' /\ (x_return 0 k', y_return 0 k') = next_pos c x y /\
  mem k' = (draw (video_return k) x y c (text_color (scr k)) (mem k)).1.1.
Proof.
  intros Hwf Hc x y k'. unfold k', my_putc. rewrite u8_small by done. fold x y.
  assert (Hon : on_screen x y) by by apply console_wf_return.
  pose proof (next_pos_on_screen c x y Hon) as Hn. rewrite !draw_eq by done. cbn [fst].
  destruct (next_pos c x y) as [nx ny]. cbn [fst snd] in *.
  destruct (u8_on_screen _ _ Hn) as [Hx Hy].
  match goal with |- context [set_mem ?m k] => set (k1 := set_mem m k) end.
  assert (Hwf1 : console_wf k1) by (unfold k1; auto with console).
  split_and!; [auto with console | | done].
  change (x_return 0 (update_cursor ?q)) with (x_return 0 q).
  change (y_return 0 (update_cursor ?q)) with (y_return 0 q).
  by rewrite x_return_set, y_return_set, !decide_True, Hx, Hy by done.
Qed.

Lemma putc_wf c k : console_wf k -> console_wf (putc c k).
Proof.
  intros Hwf. pose proof Hwf as [Hon _]. unfold putc. rewrite draw_eq by done.
  auto 6 with console.
Qed.

(** The cell a backspace goes back to. *)
Definition prev_pos (x y : Z) : Z * Z := if x =? 0 then (79, y - 1) else (x - 1, y).

Lemma save_pos_spec k :
  console_wf k ->
  console_wf (save_pos k) /\ x_return 1 (save_pos k) = screen_x (scr k) /\
  y_return 1 (save_pos k) = screen_y (scr k).
Proof.
  intros Hwf. pose proof Hwf as [Hon _]. unfold save_pos.
  destruct (u8_on_screen _ _ Hon) as [Hx Hy].
  by rewrite x_return_set, y_return_set, !decide_True, Hx, Hy by done; auto with console.
Qed.

Lemma blank_draw base px py color m :
  on_screen px py -> (px = 79 -> py < 24) ->
  draw base px py ASCII_SPACE color m
  = (put_cell base px py ASCII_SPACE color m,
     (next_pos ASCII_SPACE px py).1, (next_pos ASCII_SPACE px py).2).
Proof.
  intros Hon Hp. rewrite draw_eq by done. f_equal. f_equal. unfold scrolls.
  change ((ASCII_SPACE =? NEWLINE) || (ASCII_SPACE =? CR)) with false. rewrite orb_false_l.
  destruct (Z.eqb_spec py 24), (Z.eqb_spec px 79); simpl; lia || done.
Qed.

(** The body of [_backspace] for either way back. *)
Lemma backspace_step k px py :
  console_wf k -> on_screen px py -> (px = 79 -> py < 24) ->
  screen_x (scr k) = px -> screen_y (scr k) = py ->
  let k1 := key_putc ASCII_SPACE (save_pos k) in
  console_wf k1 /\ (screen_x (scr k1), screen_y (scr k1)) = next_pos ASCII_SPACE px py /\
  mem k1 = put_cell VIDEO px py ASCII_SPACE (text_color (scr k)) (mem k).
Proof.
  intros Hwf Hon Hp Hx Hy k1. destruct (save_pos_spec k Hwf) as (Hwf1 & Hx1 & Hy1).
  destruct (key_putc_spec ASCII_SPACE (save_pos k)) as (Hwf2 & _ & Hs & Hm & _); [done | done |].
  rewrite Hx1, Hy1, Hx, Hy in Hs, Hm. fold k1 in Hwf2, Hs, Hm.
  rewrite blank_draw in Hm by done. done.
Qed.

(** Both ways end by storing the position twice. *)
Lemma backspace_tail k px py :
  console_wf k -> screen_x (scr k) = px -> screen_y (scr k) = py ->
  let k' := update_cursor (save_pos (save_pos k)) in
  console_wf k' /\ x_return 1 k' = px /\ y_return 1 k' = py /\ mem k' = mem k.
Proof.
  intros Hwf Hx Hy k'. destruct (save_pos_spec k Hwf) as (Hwf1 & _ & _).
  destruct (save_pos_spec _ Hwf1) as (Hwf2 & Hx2 & Hy2).
  split_and!; [done | | | done].
  - change (x_return 1 k') with (x_return 1 (save_pos (save_pos k))). by rewrite Hx2, <- Hx.
  - change (y_return 1 k') with (y_return 1 (save_pos (save_pos k))). by rewrite Hy2, <- Hy.
Qed.

Lemma backspace_spec k :
  console_wf k ->
  let x := x_return 1 k in let y := y_return 1 k in
  let k' := _backspace k in
  console_wf k' /\
  if decide (x = 0 /\ y = 0) then x_return 1 k' = 0 /\ y_return 1 k' = 0 /\ mem k' = mem k
  else
    x_return 1 k' = (prev_pos x y).1 /\ y_return 1 k' = (prev_pos x y).2 /\
    mem k' = put_cell VIDEO (prev_pos x y).1 (prev_pos x y).2 ASCII_SPACE
               (text_color (scr k)) (mem k).
Proof.
  intros Hwf x y k'.
  assert (Hon : on_screen x y) by by apply console_wf_return.
  unfold k', _backspace. fold x. change (y_return 1 (x_set_screen x k)) with y.
  set (k0 := y_set_screen y (x_set_screen x k)).
  assert (Hwf0 : console_wf k0) by (unfold k0; auto with console).
  change (screen_x (scr k0)) with x. change (screen_y (scr k0)) with y.
  unfold on_screen, NUM_COLS, NUM_ROWS in Hon. unfold prev_pos.
  destruct (Z.eqb_spec x 0) as [Hx | Hx]; [destruct (Z.eqb_spec y 0) as [Hy | Hy] |].
  - rewrite decide_True by done. by split_and!.
  - rewrite decide_False by (intros [_ ?]; done). cbn [andb fst snd].
    change (screen_y (scr (x_set_screen (NUM_COLS - 1) k0))) with y.
    set (k1 := y_set_screen (y - 1) (x_set_screen (NUM_COLS - 1) k0)).
    assert (Hon1 : on_screen 79 (y - 1)) by (unfold on_screen, NUM_COLS, NUM_ROWS; lia).
    assert (Hwf1 : console_wf k1) by (unfold k1; auto with console).
    destruct (backspace_step k1 79 (y - 1)) as (Hwf2 & Hs & Hm); [done | done | lia | done.. |].
    set (k2 := key_putc ASCII_SPACE (save_pos k1)) in *.
    change (screen_y (scr (x_set_screen (NUM_COLS - 1) k2))) with (screen_y (scr k2)).
    assert (Hsy : screen_y (scr k2) - 1 = y - 1).
    { injection Hs as _ ->. destruct (Z.eqb_spec (y - 1) 24); lia. }
    rewrite Hsy. change (text_color (scr k1)) with (text_color (scr k)) in Hm.
    change (mem k1) with (mem k) in Hm. rewrite <- Hm. apply (backspace_tail (y_set_screen (y - 1) (x_set_screen (NUM_COLS - 1) k2)) 79 (y - 1));
      [| done | done].
    by apply (console_wf_screen 79 (y - 1)).
  - rewrite decide_False by (intros [? _]; done). cbn [andb fst snd].
    set (k1 := x_set_screen (x - 1) k0).
    assert (Hon1 : on_screen (x - 1) y) by (unfold on_screen, NUM_COLS, NUM_ROWS; lia).
    assert (Hwf1 : console_wf k1) by (apply (console_wf_screen (x - 1) y k0); done).
    destruct (backspace_step k1 (x - 1) y) as (Hwf2 & Hs & Hm); [done | done | lia | done.. |].
    set (k2 := key_putc ASCII_SPACE (save_pos k1)) in *.
    assert (Hs2 : screen_x (scr k2) - 1 = x - 1 /\ screen_y (scr k2) = y).
    { revert Hs. unfold next_pos. cbn [orb]. change (ASCII_SPACE =? NEWLINE) with false.
      change (ASCII_SPACE =? CR) with false. cbn [orb].
      destruct (Z.eqb_spec (x - 1) 79); [lia |]. intros Hs. simplify_eq. lia. }
    destruct Hs2 as [-> Hsy]. change (text_color (scr k1)) with (text_color (scr k)) in Hm.
    change (mem k1) with (mem k) in Hm. rewrite <- Hm. apply (backspace_tail (x_set_screen (x - 1) k2) (x - 1) y); [| done | done].
    apply console_wf_x_screen; [done |]. unfold NUM_COLS. lia.
Qed.

(** ** Properties *)

(** The four character routines keep the console well-formed: the
    global cursor and the cursor of every terminal stay on the 80 x 25
    screen, so no index leaves the video page. *)
Theorem console_routines_wf c k :
  console_wf k -> 0 <= c < 256 ->
  console_wf (putc c k) /\ console_wf (my_putc c k) /\ console_wf (key_putc c k) /\
  console_wf (_backspace k).
Proof.
  intros Hwf Hc. split_and!.
  - by apply putc_wf.
  - by apply my_putc_spec.
  - by apply key_putc_spec.
  - by apply backspace_spec.
Qed.

(** C37: [my_putc] draws for the running process: on the visible page when
    its terminal is the visible one and on the terminal's own page
    otherwise.  The page then shows the character at the cursor, scrolled
    up one row when the cursor left the last row; no byte outside of the
    4000 of that page changes, and the cursor advances. *)
Theorem my_putc_draws c k :
  console_wf k -> 0 <= c < 256 -> region (mem k) (video_return k) 4000 ->
  page_is (video_return k) (mem k) (mem (my_putc c k))
    (drawn (fun n => ld (mem k) (video_return k + n)) (x_return 0 k) (y_return 0 k) c
       (text_color (scr k))) /\
  (x_return 0 (my_putc c k), y_return 0 (my_putc c k)) = next_pos c (x_return 0 k) (y_return 0 k).
Proof.
  intros Hwf Hc Hr. destruct (my_putc_spec c k Hwf Hc) as (_ & Hpos & ->).
  split; [| done]. apply draw_page; [done | by apply console_wf_return | done].
Qed.

(** The scroll moves every row up: row [y] shows the characters of row
    [y + 1], the last row is blank, the attribute bytes stay, and nothing
    outside of the page changes. *)
Theorem scroll_moves_rows base m x y :
  region m base 4000 -> on_screen x y ->
  ld (_scroll_down_ base m) (cell base x y)
    = (if y =? 24 then SPACE else ld m (cell base x (y + 1))) /\
  ld (_scroll_down_ base m) (cell base x y + 1) = ld m (cell base x y + 1) /\
  same_outside m (_scroll_down_ base m) base 4000.
Proof.
  unfold on_screen, NUM_COLS, NUM_ROWS. intros Hr [Hx Hy].
  destruct (scroll_page base m Hr) as (_ & Hf & Ho). rewrite !cell_eq.
  assert (Hodd : Z.odd (2 * (80 * y + x)) = false).
  { rewrite odd_mod. apply Z.eqb_neq. Z.div_mod_to_equations. lia. }
  rewrite <- Z.add_assoc, !Hf by lia. unfold scrolled. rewrite Hodd.
  rewrite (Z.add_1_r (2 * _)), Z.odd_succ, <- Z.negb_odd, Hodd. split_and!; try done.
  destruct (Z.eqb_spec y 24); destruct (Z.ltb_spec (2 * (80 * y + x)) 3840); try lia; try done.
  f_equal. lia.
Qed.

(** Backspace undoes a key: after a printable character and a
    backspace the cursor is back at the character's cell, one row higher
    if the character had scrolled the screen, and the cell is a space. *)
Theorem backspace_undoes_key c k :
  console_wf k -> 0 <= c < 256 -> c <> NEWLINE -> c <> CR ->
  region (mem k) VIDEO 4000 ->
  let x := x_return 1 k in let y := y_return 1 k in
  let k' := _backspace (key_putc c k) in
  x_return 1 k' = x /\
  y_return 1 k' = (if (x =? 79) && (y =? 24) then 23 else y) /\
  ld (mem k') (cell VIDEO (x_return 1 k') (y_return 1 k')) = SPACE.
Proof.
  intros Hwf Hc Hnl Hcr Hr x y k'.
  assert (Hon : on_screen x y) by by apply console_wf_return.
  destruct (key_putc_spec c k Hwf Hc) as (Hwf1 & Hpos & _ & Hm & _). fold x y in Hpos, Hm.
  set (k1 := key_putc c k) in *.
  pose proof (f_equal fst Hpos) as Hx1. pose proof (f_equal snd Hpos) as Hy1.
  cbn [fst snd] in Hx1, Hy1.
  assert (Hprev : x_return 1 k1 <> 0 \/ y_return 1 k1 <> 0).
  { rewrite Hx1, Hy1. unfold on_screen, NUM_COLS, NUM_ROWS, next_pos in *.
    destruct ((c =? NEWLINE) || (c =? CR)) eqn:?; cmp; lia. }
  destruct (backspace_spec k1 Hwf1) as (_ & Hb). fold k' in Hb.
  rewrite decide_False in Hb by lia. destruct Hb as (-> & -> & Hmem).
  assert (Hpp : prev_pos (x_return 1 k1) (y_return 1 k1)
                = (x, if (x =? 79) && (y =? 24) then 23 else y)).
  { rewrite Hx1, Hy1. unfold next_pos, prev_pos, on_screen, NUM_COLS, NUM_ROWS in *.
    rewrite (proj2 (Z.eqb_neq c NEWLINE)), (proj2 (Z.eqb_neq c CR)) by done.
    destruct (Z.eqb_spec x 79) as [-> |]; destruct (Z.eqb_spec y 24); simpl; subst; try done.
    all: cmp; f_equal; lia. }
  rewrite Hpp in *. cbn [fst snd] in *. split_and!; [done | done |].
  assert (Hp : page_is VIDEO (mem k) (mem k1)
            (drawn (fun n => ld (mem k) (VIDEO + n)) x y c (text_color (scr k)))).
  { rewrite Hm. by apply draw_page. }
  destruct Hp as (Hl & _). destruct Hr as [Hmap Hinj].
  rewrite Hmem. unfold put_cell. rewrite !cell_eq.
  set (y' := if (x =? 79) && (y =? 24) then 23 else y) in *.
  assert (Hy' : 0 <= 80 * y' + x < 2000).
  { unfold on_screen, NUM_COLS, NUM_ROWS, y' in *. destruct ((x =? 79) && (y =? 24)) eqn:?; cmp; lia. }
  rewrite ld_st_ne, ld_st_eq; [done | | |]; rewrite ?loc_st; simpl; rewrite ?Hl.
  - apply Hmap. lia.
  - rewrite <- Z.add_assoc. apply Hmap. lia.
  - intros Heq. rewrite <- Z.add_assoc in Heq. apply Hinj in Heq; lia.
Qed.

(** ** Witnesses *)

Lemma sample_console : console_wf sample.
Proof.
  split; [vm_compute; repeat split; congruence |]. split; [done |].
  split; [| vm_compute; repeat split; congruence].
  intros i Hi. assert (Hc : i = 0 \/ i = 1 \/ i = 2) by lia.
  destruct Hc as [-> | [-> | ->]]; vm_compute; repeat split; congruence.
Qed.

Lemma sample_page n : (n <= 4096)%nat -> region (mem sample) VIDEO n.
Proof. intros Hn. apply unpaged_region; [done | vm_compute; congruence | unfold VIDEO; lia]. Qed.

Lemma console_routines_wf_witness :
  console_wf (putc 65 sample) /\ console_wf (my_putc 65 sample) /\
  console_wf (key_putc 65 sample) /\ console_wf (_backspace sample).
Proof. apply (console_routines_wf 65 sample); [exact sample_console | lia]. Defined.

Lemma my_putc_draws_witness :
  page_is (video_return sample) (mem sample) (mem (my_putc 65 sample))
    (drawn (fun n => ld (mem sample) (video_return sample + n)) 0 0 65 7) /\
  (x_return 0 (my_putc 65 sample), y_return 0 (my_putc 65 sample)) = (1, 0).
Proof. apply (my_putc_draws 65 sample); [exact sample_console | lia | apply sample_page; lia]. Defined.

Lemma scroll_moves_rows_witness :
  ld (_scroll_down_ VIDEO (mem sample)) (cell VIDEO 3 24) = SPACE.
Proof.
  destruct (scroll_moves_rows VIDEO (mem sample) 3 24) as [H _].
  - apply sample_page. lia.
  - unfold on_screen, NUM_COLS, NUM_ROWS. lia.
  - exact H.
Defined.

Lemma backspace_undoes_key_witness :
  x_return 1 (_backspace (key_putc 65 sample)) = 0 /\
  y_return 1 (_backspace (key_putc 65 sample)) = 0.
Proof.
  destruct (backspace_undoes_key 65 sample) as (Hx & Hy & _).
  - exact sample_console.
  - lia.
  - discriminate.
  - discriminate.
  - apply sample_page. lia.
  - split; [exact Hx | exact Hy].
Defined.
