(* ===== verification/Filesys.v ===== *)
(** * filesys.c: the read-only file system

    The accessors of the boot block, the searches by name and by index,
    [read_data] and the file and directory drivers of
    src/student-distrib/filesys.c.  The image is read through a byte reader
    [Z -> Z] (the memory of the kernel at the time of the access), so the
    pure part is about the image only; the drivers thread the kernel. *)

From S2P Require Import Prelude Memory Lib Paging Devices State Sample Console.

(** ** Constants *)

Definition UNIT_64_OFFSET : Z := 64.
Definition FILE_TYPE_OFFSET : Z := 32.
Definition INODE_ID_OFFSET : Z := 36.
Definition MAX_FILES : Z := 8.
Definition BOOT_NUM_DIRS : Z := 63.
Definition MAX_FILE_LEN : Z := 32.
Definition FOUR_KB : Z := 4096.
Definition MAX_DATA_BLK_IDX : Z := 1022.
Definition FD_MAX_IDX : Z := 8.
Definition MAX_BUF_IDX : Z := 126.

(** ** The image

    [boot_block_t], [dentry_t] and [inode_t] laid over the bytes. *)

(** A string argument: whether the pointer is null, and its bytes. *)
Record cstr := CStr { is_null : bool; chr : Z -> Z }.

Definition ptr_str (f : Z -> Z) (p : Z) : cstr := CStr (p =? 0) (fun i => f (p + i)).
Definition arr_str (l : list Z) : cstr := CStr false (arr_get l).

Section image.
(** The bytes of memory. *)
Variable f : Z -> Z.

Definition rd32 (a : Z) : Z :=
  s32 (Z.lor (f a) (Z.lor (Z.shiftl (f (a + 1)) 8)
    (Z.lor (Z.shiftl (f (a + 2)) 16) (Z.shiftl (f (a + 3)) 24)))).

Section boot.
(** The boot block's address. *)
Variable bb : Z.

Definition dir_count : Z := rd32 bb.
Definition inode_count : Z := rd32 (bb + 4).
Definition direntry (i : Z) : Z := bb + 64 + UNIT_64_OFFSET * i.
(** [direntries[i].filename[j]]: an [int8_t]. *)
Definition de_filename (i j : Z) : Z := s8 (f (direntry i + j)).
Definition de_filetype (i : Z) : Z := rd32 (direntry i + FILE_TYPE_OFFSET).
Definition de_inode_num (i : Z) : Z := rd32 (direntry i + INODE_ID_OFFSET).

(** ** Searching *)

(** The inner loop of the searches from [char_idx]; [n] is the number of
    turns left. *)
Fixpoint name_matches (n : nat) (char_idx : Z) (fname : Z -> Z) (index : Z) : bool :=
  match n with
  | O => false
  | S n' =>
      if negb (fname char_idx =? de_filename index char_idx) then false
      else if (fname char_idx =? NUL)
              || (char_idx =? FILE_TYPE_OFFSET - 1) && (fname (char_idx + 1) =? NUL)
      then true
      else name_matches n' (char_idx + 1) fname index
  end.

(** The outer loop: the first entry from [index] that matches. *)
Fixpoint find_entry (n : nat) (index : Z) (fname : Z -> Z) : option Z :=
  match n with
  | O => None
  | S n' =>
      if name_matches (Z.to_nat FILE_TYPE_OFFSET) 0 fname index then Some index
      else find_entry n' (index + 1) fname
  end.

Definition get_filetype (fuel : nat) (fname : cstr) : option Z :=
  if is_null fname then Some (-1)
  else
    len ← strlen fuel (chr fname);
    if (MAX_FILE_LEN <? len) || (len =? 0) then Some (-1)
    else match find_entry (Z.to_nat BOOT_NUM_DIRS) 0 (chr fname) with
         | None => Some (-1)
         | Some index => Some (de_filetype index)
         end.

(** [None] for the return value -1, the filled entry for 0. *)
Definition read_dentry_by_index (index : Z) : option dentry_t :=
  if BOOT_NUM_DIRS <? u32 index then None
  else Some (Dentry
    (for_loop (Z.to_nat FILE_TYPE_OFFSET) 0
       (fun i name => arr_set name i (de_filename (u32 index) i)) (replicate 32 0))
    (de_filetype (u32 index)) (de_inode_num (u32 index))).

Definition read_dentry_by_name (fuel : nat) (fname : cstr) : option (option dentry_t) :=
  if is_null fname then Some None
  else
    len ← strlen fuel (chr fname);
    if MAX_FILE_LEN <? len then Some None
    else match find_entry (Z.to_nat BOOT_NUM_DIRS) 0 (chr fname) with
         | None => Some None
         | Some index => Some (read_dentry_by_index index)
         end.

(** ** Inodes *)

Definition inode_length (read_inode : Z) : Z := rd32 read_inode.
Definition data_block_num (read_inode i : Z) : Z := rd32 (read_inode + 4 + 4 * i).
Definition block_ptr (curr_block_idx : Z) : Z :=
  bb + (inode_count + 1) * FOUR_KB + curr_block_idx * FOUR_KB.
End boot.
End image.

(** The address of an inode: [INODE_START_ADDR + inode * FOUR_KB]. *)
Definition inode_addr (start inode : Z) : Z := u32 (start + FOUR_KB + inode * FOUR_KB).

(** ** read_data *)

Section read.
Context {D : Type} `{Dest D}.

(** The loop over the bytes of a block; [n] is the number of turns left. *)
Fixpoint copy_block (n : nat) (d : D) (curr_block_ptr data_left data_read offset_left : Z)
    : D * Z * Z * Z :=
  match n with
  | O => (d, data_left, data_read, offset_left)
  | S n' =>
      if negb (0 <? data_left) then (d, data_left, data_read, offset_left)
      else if 0 <? offset_left
      then copy_block n' d (curr_block_ptr + 1) data_left data_read (offset_left - 1)
      else copy_block n' (dst_put d (dst_ld d curr_block_ptr)) (curr_block_ptr + 1)
             (data_left - 1) (data_read + 1) offset_left
  end.

(** The loop over the blocks. *)
Fixpoint read_blocks (bb read_inode : Z) (n : nat) (i : Z) (d : D)
    (data_left data_read offset_left : Z) : D * Z :=
  match n with
  | O => (d, data_read)
  | S n' =>
      let curr_block_idx := data_block_num (dst_ld d) read_inode i in
      if (curr_block_idx <? 0) || (MAX_DATA_BLK_IDX <? curr_block_idx) then (d, -1)
      else if FOUR_KB <? offset_left
      then read_blocks bb read_inode n' (i + 1) d data_left data_read (offset_left - FOUR_KB)
      else
        let '(d, data_left, data_read, offset_left) :=
          copy_block (Z.to_nat FOUR_KB) d (block_ptr (dst_ld d) bb curr_block_idx)
            data_left data_read offset_left in
        read_blocks bb read_inode n' (i + 1) d data_left data_read offset_left
  end.

(** [start] is [FS_START_ADDR]. The return value comes with the
    destination, which a failing read may have filled in part. *)
Definition read_data (bb start inode offset : Z) (d : D) (length : Z) : D * Z :=
  let inode := u32 inode in
  let offset := u32 offset in
  let length := u32 length in
  if u32 (inode_count (dst_ld d) bb) <? inode then (d, -1)
  else
    let read_inode := inode_addr start inode in
    let flen := inode_length (dst_ld d) read_inode in
    let data_left :=
      if u32 flen <? u32 (offset + length) then s32 (flen - offset) else s32 length in
    let end_pos := u32 (data_left + offset) in
    let num_blocks :=
      if end_pos mod FOUR_KB =? 0 then end_pos / FOUR_KB else end_pos / FOUR_KB + 1 in
    read_blocks bb read_inode (Z.to_nat num_blocks) 0 d data_left 0 (s32 offset).
End read.

(** ** Completion *)

(** The scan for the start of the word that ends at [idx]; [n] is
    [start_idx]. *)
Fixpoint search_start (n : nat) (buf : Z -> Z) : Z :=
  match n with
  | O => 0
  | S n' => if buf (Z.of_nat n') =? ASCII_SPACE then Z.of_nat n' + 1 else search_start n' buf
  end.

(** The comparison loop: the index at which the entry continues the word.
    Past [idx] the loop can no longer match, so the bytes that it reads
    behind the buffer do not matter. *)
Fixpoint search_match (n : nat) (char_idx start_idx idx : Z) (compare buf : Z -> Z) : option Z :=
  match n with
  | O => None
  | S n' =>
      if (start_idx + char_idx =? idx) && negb (compare char_idx =? NUL) then Some char_idx
      else if negb (compare char_idx =? buf (start_idx + char_idx)) then None
      else search_match n' (char_idx + 1) start_idx idx compare buf
  end.

(** The loop over the entries: the first that continues the word, and where. *)
Fixpoint search_entries (f : Z -> Z) (bb : Z) (n : nat) (i start_idx idx : Z) (buf : Z -> Z)
    : option (Z * Z) :=
  match n with
  | O => None
  | S n' =>
      match search_match (Z.to_nat MAX_FILE_LEN) 0 start_idx idx
              (fun j => f (direntry bb i + j)) buf with
      | Some char_idx => Some (i, char_idx)
      | None => search_entries f bb n' (i + 1) start_idx idx buf
      end
  end.

(** The copy loop. It ends because [char_idx] reaches [MAX_FILE_LEN]. *)
Fixpoint search_copy (n : nat) (entry char_idx idx : Z) (buf : list Z) (k : kernel)
    : Z * list Z * kernel :=
  match n with
  | O => (idx, buf, k)
  | S n' =>
      let c := ld (mem k) (entry + char_idx) in
      if negb (c =? NUL) && (char_idx <? MAX_FILE_LEN) && (idx <=? MAX_BUF_IDX)
      then search_copy n' entry (char_idx + 1) (idx + 1) (arr_set buf idx c) (putc c k)
      else (idx, buf, k)
  end.

Definition fs_search (buf : list Z) (idx : Z) (k : kernel) : Z * list Z * kernel :=
  let f := ld (mem k) in
  let bb := boot_block (fs k) in
  if (0 <? idx) && (arr_get buf (idx - 1) =? ASCII_SPACE) then (idx, buf, k)
  else if idx <=? 0 then (idx, buf, k)
  else
    let start_idx := search_start (Z.to_nat idx) (arr_get buf) in
    match search_entries f bb (Z.to_nat (dir_count f bb)) 0 start_idx idx (arr_get buf) with
    | Some (i, char_idx) => search_copy 33 (direntry bb i) char_idx idx buf k
    | None => (idx, buf, k)
    end.

(** ** State *)

Definition set_filesys_pcb (pcb : Z) : kernel -> kernel := upd_fs (set_curr_pcb pcb).

(** The file descriptor [index] of [curr_pcb]. *)
Definition cur_fd (index : Z) (k : kernel) : fdt_t :=
  fdt_at (fdt (pcb_at (curr_pcb (fs k)) k)) index.

Definition upd_cur_fd (index : Z) (g : fdt_t -> fdt_t) (k : kernel) : kernel :=
  upd_fdt (curr_pcb (fs k)) index g k.

Definition fill_bitmap (index : Z) (k : kernel) : kernel :=
  if (FD_MAX_IDX <=? index) || (index <? 0) then k else upd_cur_fd index (set_flags 1) k.

Definition free_bitmap (index : Z) (k : kernel) : kernel :=
  if (FD_MAX_IDX <=? index) || (index <? 0) then k else upd_cur_fd index (set_flags 0) k.

Definition bitmap_open (index : Z) (k : kernel) : bool := flags (cur_fd index k) =? 0.

Definition fs_set_start_end (start_addr end_addr : Z) (k : kernel) : kernel :=
  upd_fs (set_FS_END_ADDR end_addr) (upd_fs (set_FS_START_ADDR start_addr) k).

Definition init_boot_block (k : kernel) : kernel :=
  upd_fs (set_boot_block (FS_START_ADDR (fs k))) k.

Definition init_cur_dentry (k : kernel) : kernel := k.

Definition fs_init (k : kernel) : kernel := init_cur_dentry (init_boot_block k).

(** ** The file driver *)

(** The two loops over the descriptors: is the inode open, and the first
    free descriptor. *)
Fixpoint inode_open (n : nat) (index inode : Z) (k : kernel) : bool :=
  match n with
  | O => false
  | S n' => negb (bitmap_open index k) && (fd_inode (cur_fd index k) =? inode)
            || inode_open n' (index + 1) inode k
  end.

Fixpoint first_free (n : nat) (index : Z) (k : kernel) : option Z :=
  match n with
  | O => None
  | S n' => if bitmap_open index k then Some index else first_free n' (index + 1) k
  end.

(** The bytes of memory. *)
Definition image (k : kernel) : Z -> Z := ld (mem k).

Definition file_open (fuel : nat) (fname : cstr) : C Z := fun k =>
  match read_dentry_by_name (image k) (boot_block (fs k)) fuel fname with
  | None => Spin k
  | Some None => Ret (-1) k
  | Some (Some d) =>
      let k := upd_fs (set_cur_dentry d) k in
      if filetype d =? 1 then Ret (-1) k
      else if inode_open (Z.to_nat MAX_FILES) 0 (inode_num d) k then Ret (-1) k
      else match first_free (Z.to_nat MAX_FILES) 0 k with
           | None => Ret (-1) k
           | Some index =>
               let k := fill_bitmap index k in
               let k := upd_cur_fd index (set_fd_inode (inode_num d)) k in
               let k := upd_cur_fd index (set_file_pos 0) k in
               Ret index k
           end
  end.

(** The guard that close and read share. *)
Definition not_opened (fd : Z) (k : kernel) : bool :=
  (MAX_FILES <=? fd) || (fd <? 0) || bitmap_open fd k.

Definition file_close (fd : Z) : C Z := fun k =>
  if not_opened fd k then Ret (-1) k
  else Ret 0 (free_bitmap fd (upd_cur_fd fd (set_file_pos 0) k)).

Definition file_write (fd buf nbytes : Z) : C Z := ret (-1).

Definition file_read (fd buf nbytes : Z) : C Z := fun k =>
  let offset := file_pos (cur_fd fd k) in
  if nbytes <? 0 then Ret (-1) k
  else if not_opened fd k then Ret (-1) k
  else
    let inode := fd_inode (cur_fd fd k) in
    let len := inode_length (image k) (inode_addr (FS_START_ADDR (fs k)) inode) in
    let size := if len <=? nbytes then len else nbytes in
    let '(d, bytes_read) :=
      read_data (boot_block (fs k)) (FS_START_ADDR (fs k)) inode offset (mem k, buf) size in
    let k := set_mem d.1 k in
    if bytes_read =? -1 then Ret (-1) k
    else Ret bytes_read
           (upd_cur_fd fd (fun e => set_file_pos (s32 (file_pos e + bytes_read)) e) k).

(** ** The directory driver *)

Definition dir_open (fuel : nat) (fname : cstr) : C Z := fun k =>
  let bb := boot_block (fs k) in
  if negb (strncmp (de_filename (image k) bb 0) (chr fname) MAX_FILE_LEN =? 0) then Ret (-1) k
  else match read_dentry_by_name (image k) bb fuel fname with
  | None => Spin k
  | Some None => Ret (-1) k
  | Some (Some d) =>
      let k := upd_fs (set_cur_dentry d) k in
      if negb (filetype d =? 1) then Ret (-1) k
      else match first_free (Z.to_nat MAX_FILES) 0 k with
           | None => Ret (-1) k
           | Some index =>
               let k := fill_bitmap index k in
               Ret index (upd_cur_fd index (set_fd_inode (inode_num d)) k)
           end
  end.

Definition dir_close (fd : Z) : C Z := fun k =>
  if not_opened fd k then Ret (-1) k else Ret 0 (free_bitmap fd k).

Definition dir_write (fd buf nbytes : Z) : C Z := ret (-1).

Definition dir_read (fuel : nat) (fd buf nbytes : Z) : C Z := fun k =>
  let bb := boot_block (fs k) in
  let file_count := dir_count (image k) bb in
  let offset := file_pos (cur_fd fd k) in
  if not_opened fd k then Ret (-1) k
  else match strlen fuel (fun j => image k (direntry bb offset + j)) with
  | None => Spin k
  | Some fname_len =>
      let fname_len := if MAX_FILE_LEN <? fname_len then MAX_FILE_LEN else fname_len in
      let fname_len := if u32 nbytes <? fname_len then u32 nbytes else fname_len in
      let k := upd_mem (fun m => memcpy m buf (direntry bb offset) fname_len) k in
      if file_pos (cur_fd fd k) <? file_count
      then Ret (s32 fname_len) (upd_cur_fd fd (fun e => set_file_pos (s32 (file_pos e + 1)) e) k)
      else Ret 0 k
  end.

(** ** Names *)

Section names.
Variables (f : Z -> Z) (bb : Z).

(** The name stored in entry [index], from its byte [j]: at most [n] bytes
    and no null. *)
Fixpoint name_from (n : nat) (j index : Z) : list Z :=
  match n with
  | O => []
  | S n' =>
      let c := de_filename f bb index j in
      if c =? NUL then [] else c :: name_from n' (j + 1) index
  end.

Definition entry_name : Z -> list Z := name_from 32 0.

(** The first of the 63 entries that has a name. *)
Definition has_name (l : list Z) (index : Z) : Prop :=
  0 <= index < BOOT_NUM_DIRS /\ entry_name index = l /\
  forall i, 0 <= i < index -> entry_name i <> l.

Lemma name_matches_spec n j fname l index :
  j + Z.of_nat n = 32 -> (0 < n)%nat -> (length l <= n)%nat ->
  (forall t, 0 <= t < Z.of_nat (length l) ->
     l !! Z.to_nat t = Some (fname (j + t)) /\ fname (j + t) <> NUL) ->
  fname (j + Z.of_nat (length l)) = NUL ->
  name_matches f bb n j fname index = bool_decide (name_from n j index = l).
Proof.
  revert j l. induction n as [| n IH]; intros j l Hj Hn Hlen Hl Hend; [lia |]. simpl.
  destruct l as [| c l].
  - cbn [length Z.of_nat] in Hend. rewrite Z.add_0_r in Hend. rewrite Hend.
    change (NUL =? NUL) with true. cbn [orb].
    rewrite (Z.eqb_sym NUL). by destruct (de_filename f bb index j =? NUL).
  - destruct (Hl 0) as [Hc Hnz]; [simpl; lia |]. rewrite Z.add_0_r in Hc, Hnz.
    simpl in Hc. injection Hc as ->. rewrite (proj2 (Z.eqb_neq _ _) Hnz). cbn [orb].
    destruct (Z.eqb_spec (fname j) (de_filename f bb index j)) as [He | He]; cbn [negb].
    2: { destruct (de_filename f bb index j =? NUL); [done |].
         symmetry. apply bool_decide_eq_false. intros Heq. by simplify_eq. }
    rewrite <- He, (proj2 (Z.eqb_neq _ _) Hnz).
    assert (Hstep : bool_decide (fname j :: name_from n (j + 1) index = fname j :: l)
              = bool_decide (name_from n (j + 1) index = l)).
    { apply bool_decide_ext. split; [by intros [= ->] | by intros ->]. }
    rewrite Hstep. destruct n as [| n].
    + replace j with 31 in * by lia. destruct l; simpl in Hlen; [| lia].
      cbn [length] in Hend. change (31 + Z.of_nat 1) with (31 + 1) in Hend.
      by rewrite Hend.
    + replace (j =? FILE_TYPE_OFFSET - 1) with false
        by (symmetry; apply Z.eqb_neq; unfold FILE_TYPE_OFFSET; lia).
      cbn [andb]. apply IH; [lia | lia | simpl in Hlen; lia | |].
      * intros t Ht. specialize (Hl (t + 1)). simpl in Hl.
        replace (Z.to_nat (t + 1)) with (S (Z.to_nat t)) in Hl by lia.
        rewrite <- Z.add_assoc, (Z.add_comm 1 t). apply Hl. lia.
      * rewrite <- Hend. f_equal. simpl. lia.
Qed.

Lemma find_entry_spec n i fname l :
  terminated NUL fname l -> (length l <= 32)%nat ->
  match find_entry f bb n i fname with
  | Some j => i <= j < i + Z.of_nat n /\ entry_name j = l /\
              forall t, i <= t < j -> entry_name t <> l
  | None => forall t, i <= t < i + Z.of_nat n -> entry_name t <> l
  end.
Proof.
  intros Ht Hlen. revert i. induction n as [| n IH]; intros i; cbn [find_entry]; [intros; lia |].
  change (Z.to_nat FILE_TYPE_OFFSET) with 32%nat.
  rewrite (name_matches_spec 32 0 fname l);
    [| done | lia | done | exact (proj1 Ht) | exact (proj2 Ht)].
  case_bool_decide as He.
  - split_and!; [lia | lia | done | intros; lia].
  - specialize (IH (i + 1)). destruct (find_entry f bb n (i + 1) fname) as [j |].
    + destruct IH as (? & ? & Hb). split_and!; [lia | lia | done |].
      intros t Hr. destruct (decide (t = i)) as [-> |]; [done | apply Hb; lia].
    + intros t Hr. destruct (decide (t = i)) as [-> |]; [done | apply IH; lia].
Qed.

Lemma find_entry_63 fname l :
  terminated NUL fname l -> (length l <= 32)%nat ->
  (exists j, find_entry f bb 63 0 fname = Some j /\ has_name l j) \/
  (find_entry f bb 63 0 fname = None /\ forall i, 0 <= i < BOOT_NUM_DIRS -> entry_name i <> l).
Proof.
  intros Ht Hlen. pose proof (find_entry_spec 63 0 fname l Ht Hlen) as Hf.
  destruct (find_entry f bb 63 0 fname) as [j |].
  - left. exists j. split; [done |]. unfold has_name, BOOT_NUM_DIRS.
    destruct Hf as (? & ? & ?). split_and!; [lia | lia | done | done].
  - right. split; [done |]. unfold BOOT_NUM_DIRS. intros i Hi. apply Hf. lia.
Qed.
End names.

(** ** Destinations *)

Section puts.
Context {D : Type} `{DestLaws D}.
Implicit Types d : D.

Fixpoint dst_puts (d : D) (l : list Z) : D :=
  match l with
  | [] => d
  | b :: l' => dst_puts (dst_put d b) l'
  end.

Lemma dst_puts_app d l1 l2 : dst_puts d (l1 ++ l2) = dst_puts (dst_puts d l1) l2.
Proof. revert d. induction l1; intros d; simpl; [done | by rewrite IHl1]. Qed.

Lemma dst_room_puts d n (P : Z -> Prop) l :
  dst_room d (length l + n) P -> dst_room (dst_puts d l) n P.
Proof.
  revert d. induction l as [| b l IH]; intros d Hr; simpl in *; [done |].
  by apply IH, dst_next.
Qed.

Lemma dst_ld_puts d n (P : Z -> Prop) l a :
  dst_room d (length l + n) P -> P a -> dst_ld (dst_puts d l) a = dst_ld d a.
Proof.
  revert d. induction l as [| b l IH]; intros d Hr Ha; simpl in *; [done |].
  rewrite IH by (done || by apply dst_next). by apply (dst_frame d (length l + n) P).
Qed.
End puts.

(** Puts through a pointer write the bytes, puts into a local array append
    them. *)
Lemma dst_puts_ptr {M} `{MemLaws M} (m : M) p l :
  dst_puts (D := M * Z) (m, p) l = (write m p l, p + Z.of_nat (length l)).
Proof.
  revert m p. induction l as [| b l IH]; intros m p; simpl.
  - by rewrite Z.add_0_r.
  - rewrite IH. simpl. f_equal. lia.
Qed.

Lemma dst_puts_local {M} `{MemLaws M} (m : M) l0 l :
  dst_puts (D := M * list Z) (m, l0) l = (m, l0 ++ l).
Proof.
  revert l0. induction l as [| b l IH]; intros l0; simpl.
  - by rewrite app_nil_r.
  - rewrite IH. simpl. by rewrite <- app_assoc.
Qed.

(** ** Files as lists of bytes *)

(** The bytes from [a] through a reader. *)
Fixpoint peek (f : Z -> Z) (n : nat) (a : Z) : list Z :=
  match n with
  | O => []
  | S n' => f a :: peek f n' (a + 1)
  end.

Lemma length_peek f n a : length (peek f n a) = n.
Proof. revert a. induction n; intros a; simpl; [done | by rewrite IHn]. Qed.

Lemma peek_app f n k a : peek f (n + k) a = peek f n a ++ peek f k (a + Z.of_nat n).
Proof.
  revert a. induction n as [| n IH]; intros a; simpl; [by rewrite Z.add_0_r |].
  rewrite IH. do 3 f_equal. lia.
Qed.

Lemma peek_ext f g n a b :
  (forall i, 0 <= i < Z.of_nat n -> f (a + i) = g (b + i)) -> peek f n a = peek g n b.
Proof.
  revert a b. induction n as [| n IH]; intros a b Hfg; simpl; [done |]. f_equal.
  - specialize (Hfg 0). rewrite !Z.add_0_r in Hfg. apply Hfg. lia.
  - apply IH. intros i Hi. rewrite <- !Z.add_assoc, (Z.add_comm 1). apply Hfg. lia.
Qed.

Lemma rd32_ext f g a :
  (forall i, 0 <= i < 4 -> f (a + i) = g (a + i)) -> rd32 f a = rd32 g a.
Proof.
  intros Hfg. unfold rd32. rewrite <- (Hfg 1), <- (Hfg 2), <- (Hfg 3) by lia.
  specialize (Hfg 0). rewrite Z.add_0_r in Hfg. by rewrite Hfg by lia.
Qed.

Lemma inode_addr_u32 start inode : inode_addr start (u32 inode) = inode_addr start inode.
Proof.
  unfold inode_addr, u32.
  rewrite <- (Z.add_mod_idemp_r _ (inode mod _ * _)), Z.mul_mod_idemp_l by done.
  by rewrite Z.add_mod_idemp_r by done.
Qed.

Section file.
Variables (f : Z -> Z) (bb start inode : Z).

Definition read_inode : Z := inode_addr start (u32 inode).
Definition file_length : Z := inode_length f read_inode.
Definition file_block (i : Z) : Z := data_block_num f read_inode i.

(** The byte at position [p] of the file. *)
Definition file_byte (p : Z) : Z :=
  f (block_ptr f bb (file_block (p / FOUR_KB)) + p mod FOUR_KB).

Definition file_bytes : nat -> Z -> list Z := peek file_byte.

(** The inode exists and each block of the file has a valid number. *)
Definition file_ok : Prop :=
  u32 inode <= u32 (inode_count f bb) /\
  0 <= file_length <= 1023 * FOUR_KB /\
  forall i, 0 <= i -> i * FOUR_KB < file_length -> 0 <= file_block i <= MAX_DATA_BLK_IDX.

(** The addresses that a read of the file depends on. *)
Definition file_addr (a : Z) : Prop :=
  within bb FOUR_KB a \/ within read_inode FOUR_KB a \/
  exists i, 0 <= i /\ i * FOUR_KB < file_length /\
            within (block_ptr f bb (file_block i)) FOUR_KB a.

Lemma file_bytes_block c i o :
  0 <= i -> 0 <= o -> o + Z.of_nat c <= FOUR_KB ->
  file_bytes c (i * FOUR_KB + o) = peek f c (block_ptr f bb (file_block i) + o).
Proof.
  unfold file_bytes, FOUR_KB. intros Hi Ho Hc. apply peek_ext. intros j Hj.
  unfold file_byte, FOUR_KB. replace ((i * 4096 + o + j) / 4096) with i.
  - replace ((i * 4096 + o + j) mod 4096) with (o + j) by (Z.div_mod_to_equations; lia).
    by rewrite Z.add_assoc.
  - Z.div_mod_to_equations. lia.
Qed.

Lemma file_block_addr i o :
  0 <= i -> i * FOUR_KB < file_length -> 0 <= o < FOUR_KB ->
  file_addr (block_ptr f bb (file_block i) + o).
Proof. intros Hi Hl Ho. right; right. exists i. unfold within. split_and!; [done | done | lia | lia]. Qed.

(** ** Other readers of the same file *)

(** [g] reads the same file as [f]. *)
Definition agree (g : Z -> Z) : Prop := forall a, file_addr a -> g a = f a.

Lemma agree_inode_count g : agree g -> inode_count g bb = inode_count f bb.
Proof.
  intros Hs. apply rd32_ext. intros j Hj. apply Hs. left. unfold within, FOUR_KB. lia.
Qed.

Lemma agree_length g : agree g -> inode_length g read_inode = file_length.
Proof.
  intros Hs. apply rd32_ext. intros j Hj. apply Hs.
  right; left. unfold within, FOUR_KB. lia.
Qed.

Lemma agree_block g i :
  file_ok -> agree g -> 0 <= i -> i * FOUR_KB < file_length ->
  data_block_num g read_inode i = file_block i.
Proof.
  intros (_ & Hlen & _) Hs Hi Hl. apply rd32_ext. intros j Hj. apply Hs.
  right; left. unfold within, FOUR_KB in *. lia.
Qed.

Lemma agree_block_ptr g c : agree g -> block_ptr g bb c = block_ptr f bb c.
Proof. intros Hs. unfold block_ptr. by rewrite agree_inode_count. Qed.

(** ** The loops of [read_data] *)

Section loops.
Context {D : Type} `{DestLaws D}.
Implicit Types d : D.

(** The destination still sees the file. *)
Definition sees d : Prop := agree (dst_ld d).

Lemma sees_puts d n l : sees d -> dst_room d (length l + n) file_addr -> sees (dst_puts d l).
Proof.
  intros Hs Hr a Ha. rewrite (dst_ld_puts d n file_addr l a) by done. by apply Hs.
Qed.

Lemma sees_put d n b : sees d -> dst_room d (S n) file_addr -> sees (dst_put d b).
Proof. intros Hs Hr. by apply (sees_puts d n [b]). Qed.

Lemma copy_block_skip n d ptr L R o :
  0 <= o <= Z.of_nat n -> 0 < L ->
  copy_block n d ptr L R o = copy_block (n - Z.to_nat o) d (ptr + o) L R 0.
Proof.
  revert ptr o. induction n as [| n IH]; intros ptr o Ho HL.
  - replace o with 0 by lia. by rewrite Z.add_0_r.
  - destruct (decide (o = 0)) as [-> | Hne].
    { by rewrite Z.add_0_r. }
    cbn [copy_block]. rewrite (proj2 (Z.ltb_lt 0 L)), (proj2 (Z.ltb_lt 0 o)) by lia.
    cbn [negb]. rewrite IH by lia.
    replace (S n - Z.to_nat o)%nat with (n - Z.to_nat (o - 1))%nat by lia.
    f_equal. lia.
Qed.

Lemma copy_block_done n d ptr L R o : L <= 0 -> copy_block n d ptr L R o = (d, L, R, o).
Proof.
  intros HL. destruct n; cbn [copy_block]; [done |].
  by rewrite (proj2 (Z.ltb_ge 0 L)) by done.
Qed.

Lemma copy_block_run n d ptr L R :
  sees d -> dst_room d (Z.to_nat L) file_addr -> 0 <= L ->
  (forall t, 0 <= t < Z.of_nat n -> file_addr (ptr + t)) ->
  let c := Nat.min n (Z.to_nat L) in
  copy_block n d ptr L R 0
  = (dst_puts d (peek f c ptr), L - Z.of_nat c, R + Z.of_nat c, 0).
Proof.
  revert d ptr L R. induction n as [| n IH]; intros d ptr L R Hs Hr HL Ha.
  - simpl. by rewrite Z.sub_0_r, Z.add_0_r.
  - destruct (decide (L = 0)) as [-> | Hne].
    { cbv zeta. rewrite copy_block_done by done. rewrite Nat.min_r by lia. simpl.
      by rewrite Z.add_0_r. }
    cbn [copy_block]. rewrite (proj2 (Z.ltb_lt 0 L)) by lia. cbn [negb].
    change (0 <? 0) with false. cbv iota.
    replace (Z.to_nat L) with (S (Z.to_nat (L - 1))) in * by lia.
    rewrite IH.
    + cbn [Nat.min peek dst_puts]. rewrite Hs.
      * f_equal. f_equal; [f_equal |]; lia.
      * specialize (Ha 0). rewrite Z.add_0_r in Ha. apply Ha. lia.
    + by apply (sees_put d (Z.to_nat (L - 1))).
    + by apply dst_next.
    + lia.
    + intros t Ht. rewrite <- Z.add_assoc, (Z.add_comm 1 t). apply Ha. lia.
Qed.

(** Nothing left to copy: the remaining blocks are only checked. *)
Lemma read_blocks_done n i d L R o :
  file_ok -> sees d -> 0 <= i -> L <= 0 ->
  (n = O \/ (i + Z.of_nat n - 1) * FOUR_KB < file_length) ->
  read_blocks bb read_inode n i d L R o = (d, R).
Proof.
  intros Hok Hs. revert i o. induction n as [| n IH]; intros i o Hi HL Hn; [done |].
  destruct Hn as [? | Hn]; [done |]. cbn [read_blocks].
  assert (Hl : i * FOUR_KB < file_length) by (unfold FOUR_KB in *; lia).
  rewrite agree_block by done. destruct Hok as (Hc & Hlen & Hblk).
  specialize (Hblk i Hi Hl). unfold MAX_DATA_BLK_IDX in *.
  rewrite (proj2 (Z.ltb_ge _ 0)), (proj2 (Z.ltb_ge 1022 _)) by lia. cbn [orb].
  rewrite copy_block_done by done.
  destruct (FOUR_KB <? o); apply IH; try done; lia.
Qed.

(** The blocks from [i] on, [o] bytes still to skip, [L] to copy. *)
Lemma read_blocks_spec n i d L R o :
  file_ok -> sees d -> dst_room d (Z.to_nat L) file_addr ->
  0 <= i -> 0 <= o -> 0 < L -> i * FOUR_KB + o + L <= file_length ->
  (Z.of_nat n - 1) * FOUR_KB < o + L <= Z.of_nat n * FOUR_KB ->
  read_blocks bb read_inode n i d L R o
  = (dst_puts d (file_bytes (Z.to_nat L) (i * FOUR_KB + o)), R + L).
Proof.
  intros Hok. revert i d L R o. induction n as [| n IH];
    intros i d L R o Hs Hr Hi Ho HL Hle Hn; [unfold FOUR_KB in *; lia |].
  cbn [read_blocks].
  assert (Hl : i * FOUR_KB < file_length) by lia.
  rewrite agree_block by done. pose proof Hok as (_ & _ & Hblk).
  specialize (Hblk i Hi Hl). unfold MAX_DATA_BLK_IDX in *.
  rewrite (proj2 (Z.ltb_ge _ 0)), (proj2 (Z.ltb_ge 1022 _)) by lia. cbn [orb].
  destruct (Z.ltb_spec FOUR_KB o) as [Hskip | Hin].
  { rewrite IH; [| done | done | lia | unfold FOUR_KB in *; lia ..].
    do 3 f_equal. unfold FOUR_KB. lia. }
  rewrite copy_block_skip by (unfold FOUR_KB in *; lia).
  rewrite agree_block_ptr by done.
  rewrite copy_block_run; [| done | done | lia |].
  2: { intros t Ht. rewrite <- Z.add_assoc. apply file_block_addr; [done | done |].
       unfold FOUR_KB in *. lia. }
  set (c := Nat.min _ _).
  assert (Hc : Z.of_nat c = Z.min (FOUR_KB - o) L) by (unfold FOUR_KB in *; lia).
  clearbody c. rewrite <- (file_bytes_block c i o) by (unfold FOUR_KB in *; lia).
  assert (Hr' : dst_room d (length (file_bytes c (i * FOUR_KB + o))
                            + Z.to_nat (L - Z.of_nat c)) file_addr).
  { unfold file_bytes. rewrite length_peek.
    by replace (c + Z.to_nat (L - Z.of_nat c))%nat with (Z.to_nat L) by lia. }
  pose proof (sees_puts _ _ _ Hs Hr') as Hs'.
  destruct (decide (L = Z.of_nat c)) as [Heq | Hne].
  - rewrite read_blocks_done; [| done | done | lia | lia |].
    + by rewrite Heq, Nat2Z.id.
    + right. unfold FOUR_KB in *. lia.
  - rewrite IH; [| done | by apply dst_room_puts | lia | lia | lia |
                  unfold FOUR_KB in *; lia ..].
    rewrite <- dst_puts_app. f_equal; [| lia]. f_equal. unfold file_bytes.
    replace (Z.to_nat L) with (c + Z.to_nat (L - Z.of_nat c))%nat by lia.
    rewrite peek_app. do 2 f_equal. unfold FOUR_KB in *. lia.
Qed.

Lemma read_data_spec d offset length :
  let n := Z.min length (file_length - offset) in
  file_ok -> sees d -> 0 <= offset <= file_length -> 0 <= length ->
  offset + length < 2147483648 -> dst_room d (Z.to_nat n) file_addr ->
  read_data bb start inode offset d length
  = (dst_puts d (file_bytes (Z.to_nat n) offset), n).
Proof.
  intros n Hok Hs Ho Hlen Hmax Hr. unfold read_data.
  pose proof Hok as (Hcount & Hfl & _). unfold FOUR_KB in Hfl.
  rewrite (u32_small offset), (u32_small length) by lia.
  rewrite agree_inode_count by done.
  rewrite (proj2 (Z.ltb_ge _ _)) by done. fold read_inode. rewrite agree_length by done.
  rewrite (u32_small file_length), (u32_small (offset + length)) by lia.
  assert (Hleft : (if file_length <? offset + length then s32 (file_length - offset)
                   else s32 length) = n).
  { destruct (Z.ltb_spec file_length (offset + length)); rewrite s32_small; lia. }
  rewrite Hleft. clear Hleft. assert (Hn : 0 <= n) by lia.
  rewrite (u32_small (n + offset)), (s32_small offset) by lia.
  set (nb := if _ =? 0 then _ else _).
  assert (Hnb : (nb - 1) * FOUR_KB < n + offset <= nb * FOUR_KB /\ 0 <= nb).
  { unfold nb, FOUR_KB. destruct (Z.eqb_spec ((n + offset) mod 4096) 0);
      Z.div_mod_to_equations; lia. }
  clearbody nb. unfold FOUR_KB in Hnb.
  destruct (decide (n = 0)) as [-> | Hne].
  - rewrite read_blocks_done; [done | done | done | lia | lia |].
    unfold FOUR_KB. right. rewrite Z2Nat.id by lia. lia.
  - rewrite read_blocks_spec; [done | done | done | done | lia | lia | lia | lia |].
    unfold FOUR_KB. rewrite Z2Nat.id by lia. lia.
Qed.
End loops.
End file.

(** A reader that agrees with [f] on a file has the same file. *)
Section same_file.
Variables (f g : Z -> Z) (bb start inode : Z).
Hypothesis Hok : file_ok f bb start inode.
Hypothesis Hg : agree f bb start inode g.

Lemma same_length : file_length g start inode = file_length f start inode.
Proof. exact (agree_length f bb start inode g Hg). Qed.

Lemma same_block i :
  0 <= i -> i * FOUR_KB < file_length f start inode ->
  file_block g start inode i = file_block f start inode i.
Proof. intros. by apply (agree_block f bb). Qed.

Lemma same_ok : file_ok g bb start inode.
Proof.
  pose proof Hok as (Hc & Hl & Hb). unfold file_ok.
  rewrite (agree_inode_count f bb start inode g Hg), same_length.
  split_and!; [done | lia | lia |]. intros i Hi Hlt. rewrite same_block by done. by apply Hb.
Qed.

Lemma same_addr a : file_addr g bb start inode a <-> file_addr f bb start inode a.
Proof.
  unfold file_addr. rewrite same_length.
  split; (intros [? | [? | (i & Hi & Hl & Hw)]]; [auto | auto |]; right; right; exists i;
    split_and!; [done | done |]; revert Hw; rewrite same_block by done;
    by rewrite (agree_block_ptr f bb start inode g _ Hg)).
Qed.

Lemma same_bytes n off :
  0 <= off -> off + Z.of_nat n <= file_length f start inode ->
  file_bytes g bb start inode n off = file_bytes f bb start inode n off.
Proof.
  intros Ho Hn. apply peek_ext. intros j Hj. unfold file_byte.
  assert (Hb : 0 <= (off + j) / FOUR_KB /\
    (off + j) / FOUR_KB * FOUR_KB < file_length f start inode /\
    0 <= (off + j) mod FOUR_KB < FOUR_KB).
  { unfold FOUR_KB. Z.div_mod_to_equations. lia. }
  destruct Hb as (? & ? & ?).
  rewrite same_block, (agree_block_ptr f bb start inode g _ Hg) by done.
  apply Hg. by apply file_block_addr.
Qed.
End same_file.

Lemma file_bytes_app f bb start inode n k off :
  file_bytes f bb start inode (n + k) off
  = file_bytes f bb start inode n off ++ file_bytes f bb start inode k (off + Z.of_nat n).
Proof. apply peek_app. Qed.

(** A reader that agrees with [f] on the boot block finds the same entries. *)
Section same_entries.
Variables (f g : Z -> Z) (bb : Z).
Hypothesis Hg : forall a, within bb FOUR_KB a -> g a = f a.

Lemma same_field i o :
  0 <= i < BOOT_NUM_DIRS -> 0 <= o <= 60 -> rd32 g (direntry bb i + o) = rd32 f (direntry bb i + o).
Proof.
  intros Hi Ho. apply rd32_ext. intros t Ht. apply Hg.
  unfold direntry, within, FOUR_KB, BOOT_NUM_DIRS, UNIT_64_OFFSET in *. lia.
Qed.

Lemma same_inode_num i : 0 <= i < BOOT_NUM_DIRS -> de_inode_num g bb i = de_inode_num f bb i.
Proof. intros Hi. apply same_field; [done |]. unfold INODE_ID_OFFSET. lia. Qed.

Lemma same_name i : 0 <= i < BOOT_NUM_DIRS -> entry_name g bb i = entry_name f bb i.
Proof.
  intros Hi. unfold entry_name.
  assert (Hn : forall n j, 0 <= j -> j + Z.of_nat n <= 32 ->
    name_from g bb n j i = name_from f bb n j i); [| by apply Hn].
  induction n as [| n IH]; intros j Hj Hl; [done |]. cbn [name_from]. cbv zeta.
  assert (He : de_filename g bb i j = de_filename f bb i j).
  { unfold de_filename. f_equal. apply Hg.
    unfold direntry, within, FOUR_KB, BOOT_NUM_DIRS, UNIT_64_OFFSET in *. lia. }
  rewrite He. destruct (_ =? NUL); [done |]. f_equal. apply IH; lia.
Qed.

Lemma same_has_name l i : has_name f bb l i -> has_name g bb l i.
Proof.
  intros (Hi & He & Hno). split_and!; [lia | lia | by rewrite same_name |].
  intros t Ht. rewrite same_name by lia. by apply Hno.
Qed.
End same_entries.

(** A write apart from the file leaves the same file. *)
Lemma agree_write {M} `{MemLaws M} (m : M) bb start inode p l :
  region m p (length l) -> apart m (file_addr (ld m) bb start inode) p (length l) ->
  agree (ld m) bb start inode (ld (write m p l)).
Proof. intros Hr Ha a Hfa. apply ld_write_apart; [done |]. intros i Hi. by apply Ha. Qed.

Lemma file_bytes_u8 {M} `{MemLaws M} (m : M) bb start inode n off :
  u8 <$> file_bytes (ld m) bb start inode n off = file_bytes (ld m) bb start inode n off.
Proof.
  unfold file_bytes. revert off. induction n as [| n IH]; intros off; simpl; [done |].
  rewrite IH. f_equal. apply u8_small, ld_byte.
Qed.

(** ** Descriptors *)

Section descriptors.
Implicit Types k : kernel.

Definition fd_valid fd k : Prop := 0 <= fd < 8 /\ length (fdt (pcb_at (curr_pcb (fs k)) k)) = 8%nat.

Lemma cur_fd_upd_eq fd g k :
  fd_valid fd k -> cur_fd fd (upd_cur_fd fd g k) = g (cur_fd fd k).
Proof.
  intros [Hfd Hl]. unfold cur_fd, upd_cur_fd, upd_fdt.
  change (curr_pcb (fs (upd_pcb ?a ?h k))) with (curr_pcb (fs k)).
  rewrite pcb_at_upd_eq. ksimpl. apply fdt_at_set_eq. lia.
Qed.

Lemma cur_fd_upd_ne fd fd' g k : fd <> fd' -> cur_fd fd' (upd_cur_fd fd g k) = cur_fd fd' k.
Proof.
  intros Hne. unfold cur_fd, upd_cur_fd, upd_fdt.
  change (curr_pcb (fs (upd_pcb ?a ?h k))) with (curr_pcb (fs k)).
  rewrite pcb_at_upd_eq. ksimpl. by apply fdt_at_set_ne.
Qed.

Lemma fd_valid_upd fd fd' g k : fd_valid fd k -> fd_valid fd (upd_cur_fd fd' g k).
Proof.
  intros [Hfd Hl]. split; [done |]. unfold upd_cur_fd, upd_fdt.
  change (curr_pcb (fs (upd_pcb ?a ?h k))) with (curr_pcb (fs k)).
  rewrite pcb_at_upd_eq. ksimpl. by rewrite length_arr_set.
Qed.
End descriptors.

(** ** The drivers *)

(** Descriptor [fd] of the current process is open on [inode] at [pos]. *)
Definition opened (fd inode pos : Z) (k : kernel) : Prop :=
  fd_valid fd k /\ flags (cur_fd fd k) <> 0 /\ fd_inode (cur_fd fd k) = inode /\
  file_pos (cur_fd fd k) = pos.

Lemma opened_not fd inode pos k : opened fd inode pos k -> not_opened fd k = false.
Proof.
  intros ([Hfd _] & Hf & _). unfold not_opened, bitmap_open, MAX_FILES.
  rewrite (proj2 (Z.leb_gt 8 fd)), (proj2 (Z.ltb_ge fd 0)), (proj2 (Z.eqb_neq _ 0)); done || lia.
Qed.

Abbreviation file_of k := (file_ok (image k) (boot_block (fs k)) (FS_START_ADDR (fs k))).
Abbreviation length_of k := (file_length (image k) (FS_START_ADDR (fs k))).
Abbreviation bytes_of k := (file_bytes (image k) (boot_block (fs k)) (FS_START_ADDR (fs k))).
Abbreviation addr_of k := (file_addr (image k) (boot_block (fs k)) (FS_START_ADDR (fs k))).

(** The state after [n] bytes were read into [buf]. *)
Definition after_read (fd inode pos buf n : Z) (k : kernel) : kernel :=
  upd_cur_fd fd (fun e => set_file_pos (s32 (file_pos e + n)) e)
    (set_mem (write (mem k) buf (bytes_of k inode (Z.to_nat n) pos)) k).

Lemma file_read_spec fd inode pos buf nbytes k :
  let n := Z.min nbytes (length_of k inode - pos) in
  opened fd inode pos k -> file_of k inode -> 0 <= pos <= length_of k inode ->
  0 <= nbytes -> region (mem k) buf (Z.to_nat n) ->
  apart (mem k) (addr_of k inode) buf (Z.to_nat n) ->
  file_read fd buf nbytes k = Ret n (after_read fd inode pos buf n k).
Proof.
  intros n Hop Hok Hpos Hnb Hr Ha. unfold file_read.
  rewrite (opened_not _ _ _ _ Hop), (proj2 (Z.ltb_ge nbytes 0)) by done.
  destruct Hop as (_ & _ & -> & ->).
  pose proof Hok as (_ & Hl & _). unfold FOUR_KB in Hl. unfold file_length in *.
  set (len := inode_length _ _) in *.
  replace (inode_length (image k) (inode_addr (FS_START_ADDR (fs k)) inode)) with len.
  2: { unfold len, read_inode. by rewrite inode_addr_u32. }
  set (size := if len <=? nbytes then len else nbytes).
  assert (Hsize : size = Z.min len nbytes) by (unfold size; cmp; lia). clearbody size.
  assert (Hn : Z.min size (len - pos) = n) by lia.
  pose proof (read_data_spec (image k) (boot_block (fs k)) (FS_START_ADDR (fs k)) inode
    (mem k, buf) pos size) as Hrd.
  unfold file_length in Hrd. fold len in Hrd. rewrite Hn in Hrd. rewrite Hrd; clear Hrd;
    [| done | done | done | lia | lia | done].
  rewrite dst_puts_ptr. cbn [fst]. destruct (Z.eqb_spec n (-1)); [lia |]. done.
Qed.

Lemma opened_after_read fd inode pos buf n k :
  opened fd inode pos k -> 0 <= pos + n < 2147483648 ->
  opened fd inode (pos + n) (after_read fd inode pos buf n k).
Proof.
  intros (Hv & Hf & Hi & Hp) Hn. unfold after_read.
  set (k0 := set_mem _ k). assert (Hv0 : fd_valid fd k0) by done.
  unfold opened. rewrite !cur_fd_upd_eq by done. ksimpl.
  change (cur_fd fd k0) with (cur_fd fd k). rewrite Hp, s32_small by lia.
  split_and!; [by apply fd_valid_upd | done | done | done].
Qed.

(** Successive reads into the same buffer, as [cat] makes them; the result
    is what the caller saw in the buffer after each of them. *)
Fixpoint read_seq (fd buf : Z) (ns : list Z) : C (list Z) :=
  match ns with
  | [] => ret []
  | nbytes :: ns' =>
      cnt <- file_read fd buf nbytes ;;
      chunk <- gets (fun k => bytes (mem k) buf (Z.to_nat cnt)) ;;
      rest <- read_seq fd buf ns' ;;
      ret (chunk ++ rest)
  end.

Lemma mem_after_read fd inode pos buf n k :
  mem (after_read fd inode pos buf n k) = write (mem k) buf (bytes_of k inode (Z.to_nat n) pos).
Proof. done. Qed.

Lemma read_seq_spec fd inode buf cap ns : forall pos k,
  Forall (fun n => 0 <= n <= cap) ns ->
  opened fd inode pos k -> file_of k inode -> 0 <= pos <= length_of k inode ->
  region (mem k) buf (Z.to_nat cap) -> apart (mem k) (addr_of k inode) buf (Z.to_nat cap) ->
  let total := Z.min (foldr Z.add 0 ns) (length_of k inode - pos) in
  exists k', read_seq fd buf ns k = Ret (bytes_of k inode (Z.to_nat total) pos) k' /\
    opened fd inode (pos + total) k'.
Proof.
  induction ns as [| n0 ns IH]; intros pos k Hns Hop Hok Hpos Hr Ha total.
  - exists k. unfold total. simpl foldr. rewrite Z.min_l, Z.add_0_r by lia. done.
  - apply Forall_cons in Hns as [Hn0 Hns]. cbn [read_seq].
    set (n := Z.min n0 (length_of k inode - pos)).
    assert (Hnn : 0 <= n <= cap) by lia.
    assert (Hrn : region (mem k) buf (Z.to_nat n)) by (eapply region_le; [done | lia]).
    assert (Han : apart (mem k) (addr_of k inode) buf (Z.to_nat n)).
    { intros b i Hb Hi. apply Ha; [done | lia]. }
    unfold bind at 1. rewrite (file_read_spec fd inode pos) by (done || lia). fold n.
    set (k1 := after_read fd inode pos buf n k).
    set (data := bytes_of k inode (Z.to_nat n) pos).
    assert (Hlen : length data = Z.to_nat n) by (unfold data, file_bytes; by rewrite length_peek).
    assert (Hag : agree (image k) (boot_block (fs k)) (FS_START_ADDR (fs k)) inode (image k1)).
    { apply agree_write; unfold data in Hlen; rewrite Hlen; done. }
    assert (Hfl : length_of k1 inode = length_of k inode) by (by apply (same_length _ _ (boot_block (fs k)))).
    pose proof Hok as (_ & Hbound & _). unfold FOUR_KB in Hbound.
    destruct (IH (pos + n) k1) as (k' & Hseq & Hop').
    + done.
    + apply opened_after_read; [done | lia].
    + by apply (same_ok (image k)).
    + rewrite Hfl. lia.
    + unfold k1. rewrite mem_after_read. by apply region_write.
    + unfold k1. rewrite mem_after_read. apply apart_write.
      intros b i Hb. apply Ha. by apply (same_addr (image k) (image k1)) in Hb.
    + exists k'. rewrite Hfl in Hseq, Hop'. unfold bind, gets. rewrite Hseq. unfold ret.
      assert (Hsum : 0 <= foldr Z.add 0 ns).
      { clear -Hns. induction Hns as [| x l Hx Hl IHl]; simpl; lia. }
      set (t' := Z.min (foldr Z.add 0 ns) (length_of k inode - (pos + n))) in *.
      assert (Ht : total = n + t' /\ 0 <= t').
      { unfold total, t', n. simpl foldr. lia. }
      destruct Ht as [Ht Ht0]. rewrite Ht, Z.add_assoc. split; [| done]. f_equal.
      rewrite Z2Nat.inj_add, file_bytes_app by lia. f_equal.
      * unfold k1. rewrite mem_after_read. fold data.
        pose proof (bytes_write (mem k) buf data) as Hbw. rewrite Hlen in Hbw.
        rewrite Hbw by done. apply file_bytes_u8.
      * rewrite Z2Nat.id by lia. apply same_bytes; [done | done | lia |]. lia.
Qed.

(** ** Entries *)

Lemma has_name_unique f bb l i j : has_name f bb l i -> has_name f bb l j -> i = j.
Proof.
  intros (Hi & Hni & Hmi) (Hj & Hnj & Hmj).
  destruct (Z.lt_trichotomy i j) as [Hlt | [-> | Hlt]]; [| done |].
  - destruct (Hmj i); [lia | exact Hni].
  - destruct (Hmi j); [lia | exact Hnj].
Qed.

(** The entry that [read_dentry_by_index] fills in. *)
Definition is_dentry (f : Z -> Z) (bb index : Z) (d : dentry_t) : Prop :=
  length (filename d) = 32%nat /\
  (forall i, 0 <= i < 32 -> arr_get (filename d) i = de_filename f bb index i) /\
  filetype d = de_filetype f bb index /\ inode_num d = de_inode_num f bb index.

Lemma read_dentry_by_index_spec f bb index :
  0 <= index < 4294967296 ->
  match read_dentry_by_index f bb index with
  | Some d => index <= BOOT_NUM_DIRS /\ is_dentry f bb index d
  | None => BOOT_NUM_DIRS < index
  end.
Proof.
  intros Hi. unfold read_dentry_by_index. rewrite u32_small by done.
  destruct (Z.ltb_spec BOOT_NUM_DIRS index); [done |]. split; [done |].
  change (Z.to_nat FILE_TYPE_OFFSET) with 32%nat. unfold is_dentry.
  cbn [filename filetype inode_num]. split_and!; [| | done | done].
  - rewrite (length_for_loop_set (fun i _ => de_filename f bb index i)). by rewrite length_replicate.
  - intros j Hj. rewrite arr_get_fill by (rewrite length_replicate; lia).
    by rewrite decide_True by lia.
Qed.

(** The lookup of a name, as [dir_open], [file_open] and [execute] use it. *)
Lemma read_dentry_by_name_spec f bb fuel s l :
  is_null s = false -> terminated NUL (chr s) l -> (length l < fuel)%nat ->
  (forall j, (length l <= 32)%nat -> has_name f bb l j ->
     exists d, read_dentry_by_name f bb fuel s = Some (Some d) /\ is_dentry f bb j d) /\
  ((32 < length l)%nat \/ (forall i, 0 <= i < BOOT_NUM_DIRS -> entry_name f bb i <> l) ->
     read_dentry_by_name f bb fuel s = Some None).
Proof.
  intros Hn Ht Hf. unfold read_dentry_by_name. rewrite Hn, (strlen_terminated fuel _ l) by done.
  cbn [mbind option_bind]. unfold MAX_FILE_LEN. change (Z.to_nat BOOT_NUM_DIRS) with 63%nat.
  split.
  - intros j Hle Hj. rewrite (proj2 (Z.ltb_ge _ _)) by lia.
    destruct (find_entry_63 f bb _ l Ht Hle) as [(i & -> & Hi) | [_ Hno]].
    + rewrite (has_name_unique _ _ _ _ _ Hj Hi).
      pose proof (read_dentry_by_index_spec f bb i) as Hd.
      destruct Hi as (Hr & _). unfold BOOT_NUM_DIRS in *.
      destruct (read_dentry_by_index f bb i) as [d |]; [| lia].
      exists d. split; [done |]. apply Hd. lia.
    + destruct Hj as (Hr & He & _). destruct (Hno j Hr He).
  - intros Hno. destruct (Z.ltb_spec 32 (Z.of_nat (length l))); [done |].
    destruct Hno as [? | Hno]; [lia |].
    destruct (find_entry_63 f bb _ l Ht) as [(i & _ & Hi) | [-> _]]; [lia | | done].
    destruct Hi as (Hr & He & _). destruct (Hno i Hr He).
Qed.

Lemma get_filetype_spec f bb fuel s l :
  is_null s = false -> terminated NUL (chr s) l -> (length l < fuel)%nat ->
  (forall j, (0 < length l <= 32)%nat -> has_name f bb l j ->
     get_filetype f bb fuel s = Some (de_filetype f bb j)) /\
  ((length l = 0 \/ 32 < length l)%nat \/
      (forall i, 0 <= i < BOOT_NUM_DIRS -> entry_name f bb i <> l) ->
     get_filetype f bb fuel s = Some (-1)).
Proof.
  intros Hn Ht Hf. unfold get_filetype. rewrite Hn, (strlen_terminated fuel _ l) by done.
  cbn [mbind option_bind]. unfold MAX_FILE_LEN. change (Z.to_nat BOOT_NUM_DIRS) with 63%nat.
  split.
  - intros j Hle Hj.
    rewrite (proj2 (Z.ltb_ge _ _)), (proj2 (Z.eqb_neq _ 0)) by lia. cbn [orb].
    destruct (find_entry_63 f bb _ l Ht) as [(i & -> & Hi) | [_ Hno]]; [lia | |].
    + by rewrite (has_name_unique _ _ _ _ _ Hj Hi).
    + destruct Hj as (Hr & He & _). destruct (Hno j Hr He).
  - intros Hno. destruct (Z.ltb_spec 32 (Z.of_nat (length l))); [done |].
    destruct (Z.eqb_spec (Z.of_nat (length l)) 0); [done |]. cbn [orb].
    destruct Hno as [? | Hno]; [lia |].
    destruct (find_entry_63 f bb _ l Ht) as [(i & _ & Hi) | [-> _]]; [lia | | done].
    destruct Hi as (Hr & He & _). destruct (Hno i Hr He).
Qed.

(** ** Descriptors: the loops over the table *)

Lemma first_free_spec n i k :
  match first_free n i k with
  | Some j => i <= j < i + Z.of_nat n /\ bitmap_open j k = true /\
              forall t, i <= t < j -> bitmap_open t k = false
  | None => forall t, i <= t < i + Z.of_nat n -> bitmap_open t k = false
  end.
Proof.
  revert i. induction n as [| n IH]; intros i; cbn [first_free]; [intros; lia |].
  destruct (bitmap_open i k) eqn:Hb; [split_and!; [lia | lia | done | intros; lia] |].
  specialize (IH (i + 1)). destruct (first_free n (i + 1) k) as [j |].
  - destruct IH as (? & ? & Ht). split_and!; [lia | lia | done |].
    intros t Hr. destruct (decide (t = i)) as [-> |]; [done | apply Ht; lia].
  - intros t Hr. destruct (decide (t = i)) as [-> |]; [done | apply IH; lia].
Qed.

Lemma inode_open_spec n i inode k :
  inode_open n i inode k = true <->
  exists t, i <= t < i + Z.of_nat n /\ bitmap_open t k = false /\ fd_inode (cur_fd t k) = inode.
Proof.
  revert i. induction n as [| n IH]; intros i; cbn [inode_open].
  - split; [done | intros (? & ? & _); lia].
  - rewrite orb_true_iff, andb_true_iff, IH, negb_true_iff, Z.eqb_eq. split.
    + intros [[Ho Hi] | (t & Hr & Ht)].
      * exists i. split_and!; [lia | lia | done | done].
      * exists t. split; [lia | done].
    + intros (t & Hr & Ho & Hi). destruct (decide (t = i)) as [-> |]; [by left | right].
      exists t. split; [lia | done].
Qed.

(** The table of the current process has its eight descriptors. *)
Definition fdt_wf (k : kernel) : Prop := length (fdt (pcb_at (curr_pcb (fs k)) k)) = 8%nat.

Lemma fdt_wf_upd fd g k : fdt_wf k -> fdt_wf (upd_cur_fd fd g k).
Proof. intros Hk. apply (fd_valid_upd 0 fd g k). by split. Qed.

Lemma fill_bitmap_in fd k : 0 <= fd < 8 -> fill_bitmap fd k = upd_cur_fd fd (set_flags 1) k.
Proof.
  intros Hfd. unfold fill_bitmap, FD_MAX_IDX.
  by rewrite (proj2 (Z.leb_gt 8 fd)), (proj2 (Z.ltb_ge fd 0)) by lia.
Qed.

Lemma free_bitmap_in fd k : 0 <= fd < 8 -> free_bitmap fd k = upd_cur_fd fd (set_flags 0) k.
Proof.
  intros Hfd. unfold free_bitmap, FD_MAX_IDX.
  by rewrite (proj2 (Z.leb_gt 8 fd)), (proj2 (Z.ltb_ge fd 0)) by lia.
Qed.

(** Project the descriptor after a chain of updates of [fd]. *)
Ltac fd_simpl :=
  repeat (rewrite cur_fd_upd_eq by (split; [lia |]; repeat apply fdt_wf_upd; done));
  repeat (rewrite cur_fd_upd_ne by done); ksimpl.

(** ** Directories *)

(** The name bytes that [dir_read] copies: up to the null, at most 32. *)
Lemma entry_name_peek f bb index len :
  (forall a, 0 <= f a < 256) ->
  (forall t, 0 <= t < len -> f (direntry bb index + t) <> NUL) ->
  f (direntry bb index + len) = NUL -> 0 <= len ->
  u8 <$> entry_name f bb index = peek f (Nat.min 32 (Z.to_nat len)) (direntry bb index).
Proof.
  intros Hb Hnz Hz Hlen.
  assert (Hgen : forall n j, 0 <= j <= len ->
            u8 <$> name_from f bb n j index
            = peek f (Nat.min n (Z.to_nat (len - j))) (direntry bb index + j)).
  2: { rewrite <- (Z.add_0_r (direntry bb index)), <- (Z.sub_0_r len). apply (Hgen 32%nat 0). lia. }
  assert (Hs : forall c, 0 <= c < 256 -> (s8 c = NUL <-> c = NUL) /\ u8 (s8 c) = c).
  { intros c Hc. unfold NUL. split; [split |]; mach. }
  induction n as [| n IH]; intros j Hj; [done |]. cbn [name_from]. cbv zeta. unfold de_filename at 1 2.
  destruct (Hs (f (direntry bb index + j)) (Hb _)) as [Hnul Hu].
  destruct (decide (j = len)) as [-> | Hne].
  - rewrite Hz. change (s8 NUL =? NUL) with true. cbv iota.
    replace (Z.to_nat (len - len)) with O by lia. by rewrite Nat.min_0_r.
  - destruct (Z.eqb_spec (s8 (f (direntry bb index + j))) NUL) as [He | He].
    { apply Hnul in He. destruct (Hnz j); [lia | done]. }
    replace (Z.to_nat (len - j)) with (S (Z.to_nat (len - (j + 1)))) by lia.
    cbn [Nat.min peek]. rewrite fmap_cons, Hu, IH by lia. do 2 f_equal. lia.
Qed.

(** The directory: its entries are in the boot block and every name is
    terminated within its entry (by its own null or by the type field). *)
Definition dir_ok (k : kernel) : Prop :=
  let bb := boot_block (fs k) in
  0 <= dir_count (image k) bb <= BOOT_NUM_DIRS /\
  forall i, 0 <= i < dir_count (image k) bb ->
    exists len, 0 <= len < 64 /\ image k (direntry bb i + len) = NUL /\
      forall t, 0 <= t < len -> image k (direntry bb i + t) <> NUL.

(** The name of entry [i] as bytes. *)
Definition name_bytes (k : kernel) (i : Z) : list Z :=
  u8 <$> entry_name (image k) (boot_block (fs k)) i.

Lemma dir_read_spec fuel fd inode pos buf nbytes k :
  let name := take (Z.to_nat nbytes) (name_bytes k pos) in
  dir_ok k -> opened fd inode pos k -> 0 <= pos < dir_count (image k) (boot_block (fs k)) ->
  (64 <= fuel)%nat -> 0 <= nbytes < 4294967296 ->
  region (mem k) buf 32 -> apart (mem k) (within (boot_block (fs k)) FOUR_KB) buf 32 ->
  dir_read fuel fd buf nbytes k
  = Ret (Z.of_nat (length name))
      (upd_cur_fd fd (set_file_pos (pos + 1)) (set_mem (write (mem k) buf name) k)).
Proof.
  intros name (Hcount & Hdir) Hop Hpos Hfuel Hnb Hr Ha. unfold dir_read.
  rewrite (opened_not _ _ _ _ Hop). destruct Hop as (Hv & _ & _ & Hp). rewrite Hp.
  set (bb := boot_block (fs k)) in *. destruct (Hdir pos Hpos) as (len & Hlen & Hz & Hnz).
  assert (Hstrlen : strlen fuel (fun j => image k (direntry bb pos + j)) = Some len).
  { rewrite <- (Z2Nat.id len) by lia. unfold strlen.
    apply (loop_scan _ (fun i => i) (Z.to_nat len)); [lia | |].
    - intros i Hi. rewrite (proj2 (Z.eqb_neq _ _)); [done |]. apply Hnz. lia.
    - rewrite Z2Nat.id by lia. by rewrite Hz. }
  rewrite Hstrlen. unfold MAX_FILE_LEN. rewrite (u32_small nbytes) by done.
  set (n := if nbytes <? (if 32 <? len then 32 else len) then nbytes else (if 32 <? len then 32 else len)).
  assert (Hn : n = Z.min nbytes (Z.min 32 len)) by (unfold n; cmp; lia). clearbody n.
  assert (Hname : name = bytes (mem k) (direntry bb pos) (Z.to_nat n)).
  { unfold name, name_bytes. rewrite (entry_name_peek _ _ _ len); [| | done | done | lia].
    2: { intros a. apply ld_byte. }
    assert (Hpk : forall c a, peek (image k) c a = bytes (mem k) a c).
    { induction c as [| c IH]; intros a; simpl; [done | by rewrite IH]. }
    rewrite Hpk. fold bb.
    replace (Nat.min 32 (Z.to_nat len)) with (Z.to_nat n + (Nat.min 32 (Z.to_nat len) - Z.to_nat n))%nat by lia.
    rewrite bytes_app. destruct (decide (n = nbytes)) as [-> | Hne].
    - by rewrite take_app_length' by (by rewrite length_bytes).
    - replace (Nat.min 32 (Z.to_nat len) - Z.to_nat n)%nat with O by lia. simpl.
      rewrite app_nil_r. apply take_ge. rewrite length_bytes. lia. }
  rewrite Hname, length_bytes, Z2Nat.id by lia.
  unfold upd_mem. rewrite (memcpy_write (mem k)); [| lia | | ].
  2: { eapply region_le; [done | lia]. }
  2: { intros b i Hb Hi. apply Ha; [| lia]. unfold within, direntry, UNIT_64_OFFSET, FOUR_KB, BOOT_NUM_DIRS in *. lia. }
  set (k1 := set_mem _ k). change (cur_fd fd k1) with (cur_fd fd k). rewrite Hp.
  rewrite (proj2 (Z.ltb_lt _ _)) by lia. rewrite s32_small by lia. f_equal.
  unfold upd_cur_fd, upd_fdt, upd_pcb. change (curr_pcb (fs k1)) with (curr_pcb (fs k)).
  change (pcb_at (curr_pcb (fs k)) k1) with (pcb_at (curr_pcb (fs k)) k).
  unfold cur_fd in Hp. rewrite Hp, s32_small; [done |]. unfold BOOT_NUM_DIRS in Hcount. lia.
Qed.

(** The first read past the last entry returns 0 and keeps the position.
    It still copies the bytes after the directory into the buffer. *)
Lemma dir_read_end fuel fd inode pos buf nbytes len k :
  opened fd inode pos k -> dir_count (image k) (boot_block (fs k)) <= pos ->
  strlen fuel (fun j => image k (direntry (boot_block (fs k)) pos + j)) = Some len ->
  exists m', dir_read fuel fd buf nbytes k = Ret 0 (set_mem m' k).
Proof.
  intros Hop Hpos Hl. unfold dir_read. rewrite (opened_not _ _ _ _ Hop).
  destruct Hop as (Hv & _ & _ & Hp). rewrite Hp, Hl. unfold upd_mem.
  change (cur_fd fd (set_mem ?m k)) with (cur_fd fd k). rewrite Hp.
  rewrite (proj2 (Z.ltb_ge _ _)) by done. by eexists.
Qed.

(** Two states with the same boot block. *)
Definition same_boot (k k' : kernel) : Prop :=
  boot_block (fs k') = boot_block (fs k) /\
  forall a, within (boot_block (fs k)) FOUR_KB a -> image k' a = image k a.

Lemma same_boot_count k k' :
  same_boot k k' ->
  dir_count (image k') (boot_block (fs k')) = dir_count (image k) (boot_block (fs k)).
Proof.
  intros [-> Hs]. apply rd32_ext. intros i Hi. apply Hs. unfold within, FOUR_KB. lia.
Qed.

Lemma within_entry bb i t :
  0 <= i < BOOT_NUM_DIRS -> 0 <= t < 64 -> within bb FOUR_KB (direntry bb i + t).
Proof. unfold within, direntry, UNIT_64_OFFSET, BOOT_NUM_DIRS, FOUR_KB. lia. Qed.

Lemma same_boot_name k k' i :
  same_boot k k' -> 0 <= i < BOOT_NUM_DIRS -> name_bytes k' i = name_bytes k i.
Proof.
  intros [Hb Hs] Hi. unfold name_bytes. rewrite Hb. f_equal. unfold entry_name.
  assert (Hgen : forall n j, 0 <= j -> j + Z.of_nat n <= 32 ->
            name_from (image k') (boot_block (fs k)) n j i
            = name_from (image k) (boot_block (fs k)) n j i); [| apply Hgen; lia].
  induction n as [| n IH]; intros j Hj Hn; [done |]. cbn [name_from]. cbv zeta.
  unfold de_filename. rewrite Hs by (apply within_entry; [done | lia]). by rewrite IH by lia.
Qed.

Lemma same_boot_ok k k' : same_boot k k' -> dir_ok k -> dir_ok k'.
Proof.
  intros Hs (Hc & Hd). pose proof (same_boot_count _ _ Hs) as Heq. unfold dir_ok.
  rewrite Heq. destruct Hs as [-> Hs]. split; [done |]. intros i Hi.
  destruct (Hd i Hi) as (len & Hlen & Hz & Hnz). exists len.
  assert (Hr : 0 <= i < BOOT_NUM_DIRS) by lia.
  split_and!; [lia | lia | rewrite Hs; [done | by apply within_entry] |].
  intros t Ht. rewrite Hs by (apply within_entry; [done | lia]). by apply Hnz.
Qed.

(** [n] reads of a directory, as [ls] makes them: the names it sees. *)
Fixpoint dir_seq (fuel : nat) (fd buf : Z) (n : nat) : C (list (list Z)) :=
  match n with
  | O => ret []
  | S n' =>
      cnt <- dir_read fuel fd buf 32 ;;
      name <- gets (fun k => bytes (mem k) buf (Z.to_nat cnt)) ;;
      rest <- dir_seq fuel fd buf n' ;;
      ret (name :: rest)
  end.

Lemma length_name_bytes k i : (length (name_bytes k i) <= 32)%nat.
Proof.
  unfold name_bytes. rewrite length_fmap. unfold entry_name.
  enough (Hgen : forall n j, (length (name_from (image k) (boot_block (fs k)) n j i) <= n)%nat)
    by apply Hgen.
  induction n as [| n IH]; intros j; cbn [name_from]; [simpl; lia |]. cbv zeta.
  destruct (_ =? NUL); simpl; [lia |]. specialize (IH (j + 1)). lia.
Qed.

Lemma name_bytes_u8 k i : u8 <$> name_bytes k i = name_bytes k i.
Proof.
  unfold name_bytes. rewrite <- list_fmap_compose. apply list_fmap_ext. intros ? x _.
  apply u8_idem.
Qed.

Lemma dir_seq_spec fuel fd inode buf n : forall pos k,
  dir_ok k -> opened fd inode pos k -> 0 <= pos ->
  pos + Z.of_nat n <= dir_count (image k) (boot_block (fs k)) -> (64 <= fuel)%nat ->
  region (mem k) buf 32 -> apart (mem k) (within (boot_block (fs k)) FOUR_KB) buf 32 ->
  exists k', dir_seq fuel fd buf n k
             = Ret ((fun i => name_bytes k (pos + Z.of_nat i)) <$> seq 0 n) k' /\
    opened fd inode (pos + Z.of_nat n) k' /\ same_boot k k'.
Proof.
  induction n as [| n IH]; intros pos k Hd Hop Hpos Hle Hf Hr Ha.
  { exists k. rewrite Z.add_0_r. split_and!; done. }
  cbn [dir_seq]. unfold bind at 1. rewrite (dir_read_spec fuel fd inode pos buf 32 k) by (done || lia).
  rewrite take_ge by apply length_name_bytes. set (name := name_bytes k pos).
  assert (Hlen : (length name <= 32)%nat) by apply length_name_bytes.
  set (k1 := upd_cur_fd _ _ _).
  assert (Hm : mem k1 = write (mem k) buf name) by done.
  assert (Hs : same_boot k k1).
  { split; [done |]. intros a Hw. unfold image. rewrite Hm. apply ld_write_apart.
    - by eapply region_le.
    - intros i Hi. apply Ha; [done | lia]. }
  destruct Hop as (Hv & Hfl & Hin & Hp). pose proof Hd as (Hcount & _).
  destruct (IH (pos + 1) k1) as (k' & Hseq & Hop' & Hs').
  - by apply (same_boot_ok k).
  - unfold k1. set (k0 := set_mem _ k). assert (Hv0 : fd_valid fd k0) by done. unfold opened.
    rewrite cur_fd_upd_eq by done. ksimpl. split_and!; [by apply fd_valid_upd | done | done | done].
  - lia.
  - rewrite (same_boot_count _ _ Hs). lia.
  - done.
  - rewrite Hm. by apply region_write.
  - rewrite Hm. destruct Hs as [-> _]. by apply apart_write.
  - exists k'. rewrite Nat2Z.id. unfold bind, gets. rewrite Hseq. unfold ret.
    replace (pos + Z.of_nat (S n)) with (pos + 1 + Z.of_nat n) by lia.
    split_and!; [| done |].
    + f_equal. cbn [seq fmap list_fmap]. rewrite Z.add_0_r. f_equal.
      * rewrite Hm, bytes_write by (by eapply region_le). apply name_bytes_u8.
      * rewrite <- fmap_S_seq, <- list_fmap_compose. apply list_fmap_ext.
        intros i ? Hi. cbn [compose]. apply lookup_seq in Hi as [-> Hi].
        rewrite (same_boot_name k k1); [| done | unfold BOOT_NUM_DIRS in *; lia].
        by replace (pos + 1 + Z.of_nat (0 + i)) with (pos + Z.of_nat (S (0 + i))) by lia.
    + destruct Hs as [Hb Hs]. destruct Hs' as [Hb' Hs']. split; [congruence |].
      intros a Hw. rewrite Hs', Hs by (by rewrite ?Hb). done.
Qed.

(** ** Opening *)

Lemma file_open_spec fuel s l j k :
  let f := image k in let bb := boot_block (fs k) in
  is_null s = false -> terminated NUL (chr s) l -> (length l < fuel)%nat ->
  (length l <= 32)%nat -> has_name f bb l j -> fdt_wf k ->
  exists r k', file_open fuel s k = Ret r k' /\ mem k' = mem k /\
    (r = -1 <->
       de_filetype f bb j = 1 \/
       (exists t, 0 <= t < 8 /\ bitmap_open t k = false /\
                  fd_inode (cur_fd t k) = de_inode_num f bb j) \/
       (forall t, 0 <= t < 8 -> bitmap_open t k = false)) /\
    (r <> -1 ->
       opened r (de_inode_num f bb j) 0 k' /\ bitmap_open r k = true /\
       (forall t, 0 <= t < r -> bitmap_open t k = false) /\
       (forall t, t <> r -> cur_fd t k' = cur_fd t k)).
Proof.
  intros f bb Hn Ht Hf Hle Hj Hwf.
  destruct (read_dentry_by_name_spec f bb fuel s l Hn Ht Hf) as [Hfound _].
  destruct (Hfound j Hle Hj) as (d & Hd & _ & _ & Hty & Hin). unfold file_open.
  fold f bb. rewrite Hd. set (k1 := upd_fs (set_cur_dentry d) k). rewrite <- Hty, <- Hin.
  change (bitmap_open ?t k) with (bitmap_open t k1). change (cur_fd ?t k) with (cur_fd t k1).
  assert (Hwf1 : fdt_wf k1) by exact Hwf.
  destruct (Z.eqb_spec (filetype d) 1) as [Hdir | Hdir].
  { exists (-1), k1. split_and!; try done. split; [by left | done]. }
  pose proof (inode_open_spec 8 0 (inode_num d) k1) as Hio.
  change (Z.to_nat MAX_FILES) with 8%nat.
  destruct (inode_open 8 0 (inode_num d) k1).
  { exists (-1), k1. split_and!; try done. split; [| done]. intros _. right; left. by apply Hio. }
  pose proof (first_free_spec 8 0 k1) as Hff. destruct (first_free 8 0 k1) as [i |].
  - destruct Hff as (Hi & Hfree & Hbelow). rewrite fill_bitmap_in by lia. eexists i, _.
    split_and!; [done | done | |].
    + split; [lia |]. intros [? | [He | He]]; [done | apply Hio in He; done |].
      rewrite He in Hfree by lia. done.
    + intros _. assert (Hv : fd_valid i k1) by (split; [lia | exact Hwf]).
      split_and!; [| done | done |].
      * unfold opened. split; [by repeat apply fd_valid_upd |]. by fd_simpl.
      * intros t Hne. by rewrite !cur_fd_upd_ne by done.
  - exists (-1), k1. split_and!; try done. split; [| done]. intros _. right; right.
    intros t Hr. apply Hff. lia.
Qed.

(** ** Completion *)

(** [putc] changes the visible page and nothing else of memory. *)
Lemma putc_outside c k :
  console_wf k -> region (mem k) VIDEO 4000 ->
  console_wf (putc c k) /\ same_outside (mem k) (mem (putc c k)) VIDEO 4000 /\
  region (mem (putc c k)) VIDEO 4000 /\
  (forall a, loc (mem (putc c k)) a = loc (mem k) a) /\ fs (putc c k) = fs k.
Proof.
  intros Hwf Hr. pose proof Hwf as [Hon _].
  assert (Hm : mem (putc c k) = (draw VIDEO (screen_x (scr k)) (screen_y (scr k)) (u8 c)
                                   (text_color (scr k)) (mem k)).1.1).
  { unfold putc. by destruct (draw _ _ _ _ _ _) as [[m x] y]. }
  destruct (draw_page VIDEO (screen_x (scr k)) (screen_y (scr k)) (u8 c) (text_color (scr k))
              (mem k) Hr Hon (u8_range c)) as (Hl & _ & Ho).
  rewrite Hm. split_and!; [by apply putc_wf | done | | done |].
  - destruct Hr as [Hmap Hinj]. split; intros *; simpl; rewrite !Hl; [apply Hmap | apply Hinj].
  - unfold putc. by destruct (draw _ _ _ _ _ _) as [[m x] y].
Qed.

(** [s] is the start of the word of [buf] that ends at [idx]. *)
Definition word_start (buf : Z -> Z) (idx s : Z) : Prop :=
  0 <= s <= idx /\ (s = 0 \/ buf (s - 1) = ASCII_SPACE) /\
  forall t, s <= t < idx -> buf t <> ASCII_SPACE.

Lemma search_start_spec n buf : word_start buf (Z.of_nat n) (search_start n buf).
Proof.
  induction n as [| n (Hr & Hs & Hw)]; cbn [search_start].
  - split_and!; [lia | lia | by left | intros; lia].
  - destruct (Z.eqb_spec (buf (Z.of_nat n)) ASCII_SPACE) as [He | He].
    + split_and!; [lia | lia | right | intros; lia]. by rewrite Z.add_simpl_r.
    + split_and!; [lia | lia | done |]. intros t Ht.
      destruct (decide (t = Z.of_nat n)) as [-> |]; [done | apply Hw; lia].
Qed.

Lemma search_match_spec n j s idx compare buf c :
  search_match n j s idx compare buf = Some c ->
  s + c = idx /\ j <= c < j + Z.of_nat n /\ compare c <> NUL /\
  forall t, j <= t < c -> compare t = buf (s + t).
Proof.
  revert j. induction n as [| n IH]; intros j; cbn [search_match]; [done |].
  destruct ((s + j =? idx) && negb (compare j =? NUL)) eqn:Hm.
  - intros [= <-]. apply andb_true_iff in Hm as [He Hn].
    rewrite negb_true_iff, Z.eqb_neq in Hn. rewrite Z.eqb_eq in He.
    split_and!; [done | lia | lia | done | intros; lia].
  - destruct (Z.eqb_spec (compare j) (buf (s + j))) as [He | He]; [| done].
    cbn [negb]. intros Hs. destruct (IH _ Hs) as (? & ? & ? & Ht).
    split_and!; [done | lia | lia | done |]. intros t Hr.
    destruct (decide (t = j)) as [-> |]; [done | apply Ht; lia].
Qed.

Lemma search_entries_spec f bb n i s idx buf j c :
  search_entries f bb n i s idx buf = Some (j, c) ->
  i <= j < i + Z.of_nat n /\
  search_match 32 0 s idx (fun t => f (direntry bb j + t)) buf = Some c.
Proof.
  revert i. induction n as [| n IH]; intros i; cbn [search_entries]; [done |].
  change (Z.to_nat MAX_FILE_LEN) with 32%nat.
  destruct (search_match 32 0 s idx (fun t => f (direntry bb i + t)) buf) as [c' |] eqn:Hm.
  - intros [= -> ->]. split; [lia | done].
  - intros Hs. destruct (IH _ Hs) as [? ?]. split; [lia | done].
Qed.

(** Which completion an entry gives. *)
Definition completes (g : Z -> Z) (s idx : Z) (buf : list Z) : Prop :=
  (forall t, s <= t < idx -> arr_get buf t = g (t - s)) /\
  (idx = MAX_BUF_IDX + 1 \/ idx - s = MAX_FILE_LEN \/ g (idx - s) = NUL).

Lemma search_copy_spec n entry c idx buf k g s :
  console_wf k -> region (mem k) VIDEO 4000 ->
  apart (mem k) (within entry 33) VIDEO 4000 ->
  (forall t, 0 <= t <= 32 -> ld (mem k) (entry + t) = g t) ->
  length buf = 128%nat -> 0 <= s -> idx = s + c -> 0 <= c <= 32 -> idx <= 127 ->
  32 - c < Z.of_nat n ->
  (forall t, s <= t < idx -> arr_get buf t = g (t - s)) ->
  let '(idx', buf', k') := search_copy n entry c idx buf k in
  idx <= idx' <= 127 /\ length buf' = 128%nat /\
  (forall t, t < idx -> arr_get buf' t = arr_get buf t) /\ completes g s idx' buf' /\
  console_wf k'.
Proof.
  revert c idx buf k. induction n as [| n IH];
    intros c idx buf k Hwf Hr Ha Hg Hl Hs Hidx Hc Hmax Hn Hpre; [lia |].
  cbn [search_copy]. rewrite (Hg c) by lia. unfold MAX_FILE_LEN, MAX_BUF_IDX.
  destruct (Z.eqb_spec (g c) NUL) as [He | He]; cbn [negb andb].
  { split_and!; try done. split; [done |]. right; right. by replace (idx - s) with c by lia. }
  destruct (Z.ltb_spec c 32) as [Hc32 | Hc32]; cbn [andb].
  2: { split_and!; try done. split; [done |]. right; left. unfold MAX_FILE_LEN. lia. }
  destruct (Z.leb_spec idx 126) as [Hi | Hi].
  2: { split_and!; try done. split; [done |]. left. unfold MAX_BUF_IDX. lia. }
  destruct (putc_outside (g c) k Hwf Hr) as (Hwf' & Ho & Hr' & Hloc & _).
  specialize (IH (c + 1) (idx + 1) (arr_set buf idx (g c)) (putc (g c) k)).
  destruct (search_copy n entry (c + 1) (idx + 1) (arr_set buf idx (g c)) (putc (g c) k))
    as [[idx' buf'] k'].
  destruct IH as (H1 & H2 & H3 & H4 & H5); try done; try lia.
  - intros b i Hb Hri. rewrite !Hloc. by apply Ha.
  - intros t Ht. rewrite Ho; [by apply Hg |]. intros i Hri. apply Ha; [unfold within; lia | done].
  - by rewrite length_arr_set.
  - intros t Ht. destruct (decide (t = idx)) as [-> | Hne].
    + rewrite arr_get_set_eq by lia. f_equal. lia.
    + rewrite arr_get_set_ne by done. apply Hpre. lia.
  - split_and!; [lia | lia | done | | done | done].
    intros t Ht. rewrite H3 by lia. apply arr_get_set_ne. lia.
Qed.

(** ** Properties *)

(** C9: [read_data] into memory: for a file of the image and an offset
    within it, the bytes from the offset, at most [length] and at most up to
    the end of the file, are copied to the buffer whatever block boundaries
    they cross, their number is returned, and no cell outside of those bytes
    of the buffer changes. *)
Theorem read_data_copies {M} `{MemLaws M} (m : M) bb start inode offset buf length :
  let f := ld m in
  let n := Z.min length (file_length f start inode - offset) in
  file_ok f bb start inode -> 0 <= offset <= file_length f start inode -> 0 <= length ->
  offset + length < 2147483648 -> region m buf (Z.to_nat n) ->
  apart m (file_addr f bb start inode) buf (Z.to_nat n) ->
  exists m', read_data bb start inode offset (m, buf) length = ((m', buf + n), n) /\
    bytes m' buf (Z.to_nat n) = file_bytes f bb start inode (Z.to_nat n) offset /\
    same_outside m m' buf (Z.to_nat n).
Proof.
  intros f n Hok Ho Hlen Hmax Hr Ha. unfold n in *.
  rewrite (read_data_spec f bb start inode (m, buf) offset length) by done.
  fold n. rewrite dst_puts_ptr. set (l := file_bytes f bb start inode (Z.to_nat n) offset).
  assert (Hl : List.length l = Z.to_nat n) by (unfold l, file_bytes; by rewrite length_peek).
  exists (write m buf l). rewrite Hl, Z2Nat.id by lia. split_and!; [done | |].
  - pose proof (bytes_write m buf l) as Hb. rewrite Hl in Hb. rewrite Hb by done.
    apply file_bytes_u8.
  - intros b Hb. apply ld_write_apart; rewrite Hl; done.
Qed.

(** C8: Reading a file in pieces: whatever sizes a program asks for, the
    pieces that successive [file_read]s leave in its buffer, put together,
    are the next bytes of the file up to its end, and the file position
    has advanced by their number. *)
Theorem file_reads_concatenate fd inode buf cap ns pos k :
  Forall (fun n => 0 <= n <= cap) ns ->
  opened fd inode pos k -> file_of k inode -> 0 <= pos <= length_of k inode ->
  region (mem k) buf (Z.to_nat cap) -> apart (mem k) (addr_of k inode) buf (Z.to_nat cap) ->
  let total := Z.min (foldr Z.add 0 ns) (length_of k inode - pos) in
  exists k', read_seq fd buf ns k = Ret (bytes_of k inode (Z.to_nat total) pos) k' /\
    opened fd inode (pos + total) k'.
Proof. apply read_seq_spec. Qed.

(** C26: Lookup by name: a name of 1 to 32 bytes gives the type and the
    entry of the first of the 63 directory entries with exactly that name,
    32-byte names without a terminator included; a longer name, an empty
    one and one that no entry has give -1. *)
Theorem lookup_by_name f bb fuel s l :
  is_null s = false -> terminated NUL (chr s) l -> (length l < fuel)%nat ->
  (forall j, (0 < length l <= 32)%nat -> has_name f bb l j ->
     get_filetype f bb fuel s = Some (de_filetype f bb j) /\
     exists d, read_dentry_by_name f bb fuel s = Some (Some d) /\ is_dentry f bb j d) /\
  ((length l = 0 \/ 32 < length l)%nat \/
      (forall i, 0 <= i < BOOT_NUM_DIRS -> entry_name f bb i <> l) ->
     get_filetype f bb fuel s = Some (-1)).
Proof.
  intros Hn Ht Hf. destruct (get_filetype_spec f bb fuel s l Hn Ht Hf) as [Hg Hno].
  destruct (read_dentry_by_name_spec f bb fuel s l Hn Ht Hf) as [Hr _].
  split; [| exact Hno]. intros j Hl Hj. split; [by apply Hg | apply Hr; [lia | done]].
Qed.

(** [file_open] on the name of an entry: it fails for a directory, for
    an inode that a descriptor already has open, and when no descriptor is
    free; otherwise it takes the lowest free descriptor, at position 0 of
    the entry's inode, and leaves the other descriptors and memory alone. *)
Theorem file_open_opens fuel s l j k :
  let f := image k in let bb := boot_block (fs k) in
  is_null s = false -> terminated NUL (chr s) l -> (length l < fuel)%nat ->
  (length l <= 32)%nat -> has_name f bb l j -> fdt_wf k ->
  exists r k', file_open fuel s k = Ret r k' /\ mem k' = mem k /\
    (r = -1 <->
       de_filetype f bb j = 1 \/
       (exists t, 0 <= t < 8 /\ bitmap_open t k = false /\
                  fd_inode (cur_fd t k) = de_inode_num f bb j) \/
       (forall t, 0 <= t < 8 -> bitmap_open t k = false)) /\
    (r <> -1 ->
       opened r (de_inode_num f bb j) 0 k' /\ bitmap_open r k = true /\
       (forall t, 0 <= t < r -> bitmap_open t k = false) /\
       (forall t, t <> r -> cur_fd t k' = cur_fd t k)).
Proof. apply file_open_spec. Qed.

(** Listing a directory: reads of 32 bytes from the start give the
    names of the entries in order, one per read, and the read after the last
    one returns 0. *)
Theorem dir_reads_list fuel fd inode buf len k :
  let n := dir_count (image k) (boot_block (fs k)) in
  dir_ok k -> opened fd inode 0 k -> (64 <= fuel)%nat ->
  region (mem k) buf 32 -> apart (mem k) (within (boot_block (fs k)) FOUR_KB) buf 32 ->
  exists k', dir_seq fuel fd buf (Z.to_nat n) k
             = Ret ((fun i => name_bytes k (Z.of_nat i)) <$> seq 0 (Z.to_nat n)) k' /\
    (strlen fuel (fun j => image k' (direntry (boot_block (fs k')) n + j)) = Some len ->
     exists k'', dir_read fuel fd buf 32 k' = Ret 0 k'').
Proof.
  intros n Hd Hop Hf Hr Ha. pose proof Hd as (Hcount & _). fold n in Hcount.
  destruct (dir_seq_spec fuel fd inode buf (Z.to_nat n) 0 k) as (k' & Hseq & Hop' & Hs);
    try done; [lia |].
  exists k'. split; [exact Hseq |]. rewrite Z2Nat.id in Hop' by lia. intros Hl.
  destruct (dir_read_end fuel fd inode n buf 32 len k') as [m' ->]; [done | | done | by eexists].
  rewrite (same_boot_count _ _ Hs). fold n. lia.
Qed.

(** Completion stays in the buffer: [fs_search] keeps what was typed,
    never moves the index past 127, and when it moves it the word at the
    cursor has become a prefix of the name of an entry, the whole name
    unless the buffer or the 32 bytes of the name ran out. *)
Theorem fs_search_completes buf idx k :
  console_wf k -> region (mem k) VIDEO 4000 -> length buf = 128%nat -> 0 <= idx <= 127 ->
  dir_count (image k) (boot_block (fs k)) <= BOOT_NUM_DIRS ->
  apart (mem k) (within (boot_block (fs k)) FOUR_KB) VIDEO 4000 ->
  let '(idx', buf', k') := fs_search buf idx k in
  idx <= idx' <= 127 /\ length buf' = 128%nat /\
  (forall t, t < idx -> arr_get buf' t = arr_get buf t) /\
  (idx' = idx \/ exists i s,
     0 <= i < dir_count (image k) (boot_block (fs k)) /\ word_start (arr_get buf) idx s /\
     completes (fun t => image k (direntry (boot_block (fs k)) i + t)) s idx' buf').
Proof.
  intros Hwf Hr Hl Hidx Hcount Ha. unfold fs_search.
  set (f := ld (mem k)). set (bb := boot_block (fs k)) in *.
  destruct ((0 <? idx) && (arr_get buf (idx - 1) =? ASCII_SPACE)).
  { split_and!; [lia | lia | done | done | by left]. }
  destruct (Z.leb_spec idx 0).
  { split_and!; [lia | lia | done | done | by left]. }
  pose proof (search_start_spec (Z.to_nat idx) (arr_get buf)) as Hws.
  rewrite Z2Nat.id in Hws by lia. set (s := search_start _ _) in *.
  destruct (search_entries _ _ _ _ _ _ _) as [[i c] |] eqn:He.
  2: { split_and!; [lia | lia | done | done | by left]. }
  apply search_entries_spec in He as [Hi Hm].
  apply search_match_spec in Hm as (Hsc & Hc & _ & Hpre).
  pose proof (search_copy_spec 33 (direntry bb i) c idx buf k
    (fun t => f (direntry bb i + t)) s Hwf Hr) as Hcopy.
  destruct (search_copy 33 (direntry bb i) c idx buf k) as [[idx' buf'] k'].
  assert (Hi63 : 0 <= i < BOOT_NUM_DIRS) by (unfold f in *; change (ld (mem k)) with (image k) in Hi; lia).
  destruct Hws as (Hws1 & Hws2).
  destruct Hcopy as (H1 & H2 & H3 & H4 & _); try done; try lia.
  - intros b t Hb Ht. apply Ha; [| done]. replace b with (direntry bb i + (b - direntry bb i)) by lia.
    apply within_entry; [done | unfold within in Hb; lia].
  - intros t Ht. rewrite Hpre by lia. f_equal. lia.
  - split_and!; [lia | lia | done | done |]. right. exists i, s. split_and!; [lia | | done | done].
    unfold f in Hi. change (ld (mem k)) with (image k) in Hi. lia.
Qed.

(** C40: The bound of [read_dentry_by_index] is one too large: indices 0 to
    62 give the entries of the boot block and 64 up are refused, but 63 is
    accepted, and what it returns as an entry are the first 64 bytes of the
    first inode. *)
Theorem read_dentry_by_index_bound f bb index :
  0 <= index < 4294967296 ->
  (read_dentry_by_index f bb index = None <-> 63 < index) /\
  (forall d, read_dentry_by_index f bb index = Some d -> is_dentry f bb index d /\
     within bb (FOUR_KB + 64) (direntry bb index) /\
     (direntry bb index + 64 <= bb + FOUR_KB <-> index <> 63) /\
     (index = 63 -> inode_num d = data_block_num f (bb + FOUR_KB) 8)).
Proof.
  intros Hi. pose proof (read_dentry_by_index_spec f bb index Hi) as Hs.
  unfold BOOT_NUM_DIRS in Hs. destruct (read_dentry_by_index f bb index) as [d |].
  - destruct Hs as [Hle Hd]. split; [split; [done | lia] |]. intros d' [= <-].
    unfold within, direntry, UNIT_64_OFFSET, FOUR_KB.
    split; [done |]. split; [lia |]. split; [lia |].
    intros ->. destruct Hd as (_ & _ & _ & ->). unfold de_inode_num, data_block_num, direntry.
    f_equal. unfold UNIT_64_OFFSET, INODE_ID_OFFSET. lia.
  - split; [done | done].
Qed.

(** ** Witnesses *)

Lemma sample_length : length_of sample 0 = 5.
Proof. vm_compute. reflexivity. Qed.

Lemma sample_block0 : block_ptr (image sample) sample_base (file_block (image sample) sample_base 0 0)
  = sample_base + 8192.
Proof. vm_compute. reflexivity. Qed.

Lemma sample_file_ok : file_of sample 0.
Proof.
  split; [vm_compute; congruence |]. rewrite sample_length. split; [vm_compute; split; congruence |].
  intros i Hi Hl. replace i with 0 by (unfold FOUR_KB in Hl; lia). vm_compute. split; congruence.
Qed.

Lemma sample_addrs b : addr_of sample 0 b -> sample_base <= b < sample_base + 12288.
Proof.
  unfold file_addr, within. rewrite sample_length.
  change (read_inode (FS_START_ADDR (fs sample)) 0) with (sample_base + 4096).
  change (boot_block (fs sample)) with sample_base.
  change (FS_START_ADDR (fs sample)) with sample_base.
  unfold FOUR_KB. intros [? | [? | (i & Hi & Hl & Hw)]]; [lia | lia |].
  replace i with 0 in Hw by lia. rewrite sample_block0 in Hw. lia.
Qed.

Lemma sample_region a n : 0 <= a -> a + Z.of_nat n <= 4294967296 -> region (mem sample) a n.
Proof. by apply unpaged_region. Qed.

Lemma sample_apart (P : Z -> Prop) a n :
  (forall b, P b -> sample_base <= b < sample_base + 12288) ->
  0 <= a -> a + Z.of_nat n <= sample_base -> apart (mem sample) P a n.
Proof.
  intros HP Ha Hn. unfold sample_base in *. apply unpaged_apart; [done | done | lia |].
  intros b Hb. specialize (HP b Hb). lia.
Qed.

Lemma sample_boot_addrs b :
  within (boot_block (fs sample)) FOUR_KB b -> sample_base <= b < sample_base + 12288.
Proof. change (boot_block (fs sample)) with sample_base. unfold within, FOUR_KB. lia. Qed.

Lemma sample_opened : opened 2 0 0 sample.
Proof. vm_compute. repeat split; congruence. Qed.

(** Two bytes of the file from position 2, into 0x1000. *)
Lemma read_data_copies_witness :
  exists m', read_data sample_base sample_base 0 2 (mem sample, 0x1000) 2
             = ((m', 0x1000 + 2), 2) /\ bytes m' 0x1000 2 = str_bytes "sh".
Proof.
  destruct (read_data_copies (mem sample) sample_base sample_base 0 2 0x1000 2)
    as (m' & Hr & Hb & _).
  - exact sample_file_ok.
  - change (file_length _ _ _) with (length_of sample 0). rewrite sample_length. lia.
  - lia.
  - lia.
  - apply sample_region; vm_compute; congruence.
  - apply sample_apart; [exact sample_addrs | lia | vm_compute; congruence].
  - exists m'. split; [exact Hr |]. etransitivity; [exact Hb |]. vm_compute. reflexivity.
Defined.

(** Reads of 3, 0 and 4 bytes give the whole of the file. *)
Lemma file_reads_concatenate_witness :
  exists k', read_seq 2 0x1000 [3; 0; 4] sample = Ret (str_bytes "fish!") k' /\ opened 2 0 5 k'.
Proof.
  destruct (file_reads_concatenate 2 0 0x1000 4 [3; 0; 4] 0 sample) as (k' & Hr & Ho).
  - repeat constructor; vm_compute; congruence.
  - exact sample_opened.
  - exact sample_file_ok.
  - rewrite sample_length. lia.
  - apply sample_region; vm_compute; congruence.
  - apply sample_apart; [exact sample_addrs | lia | vm_compute; congruence].
  - exists k'. split; [| rewrite sample_length in Ho; exact Ho].
    etransitivity; [exact Hr |]. f_equal.
Defined.

Lemma sample_has_name : has_name (image sample) sample_base (str_bytes "frame0.txt") 1.
Proof.
  split; [vm_compute; split; congruence |]. split; [vm_compute; reflexivity |].
  intros i Hi. replace i with 0 by lia. vm_compute. congruence.
Qed.

Lemma lookup_by_name_witness :
  get_filetype (image sample) sample_base 40 (arr_str (str_bytes "frame0.txt")) = Some 2 /\
  get_filetype (image sample) sample_base 40 (arr_str (str_bytes "frame0")) = Some (-1).
Proof.
  split.
  - destruct (lookup_by_name (image sample) sample_base 40 (arr_str (str_bytes "frame0.txt"))
      (str_bytes "frame0.txt")) as [Hf _]; [done | | simpl; lia |].
    + apply terminated_lit. repeat constructor.
    + destruct (Hf 1) as [-> _]; [simpl; lia | exact sample_has_name | vm_compute; reflexivity].
  - apply (lookup_by_name (image sample) sample_base 40 (arr_str (str_bytes "frame0"))
      (str_bytes "frame0")); [done | | simpl; lia |].
    + apply terminated_lit. repeat constructor.
    + right. intros i Hi Heq.
      assert (Hno : find_entry (image sample) sample_base 63 0 (arr_get (str_bytes "frame0")) = None)
        by (vm_compute; reflexivity).
      destruct (find_entry_63 (image sample) sample_base (arr_get (str_bytes "frame0"))
        (str_bytes "frame0")) as [(j & Hj & _) | [_ Hnone]]; [| simpl; lia | congruence |].
      * apply terminated_lit. repeat constructor.
      * destruct (Hnone i Hi Heq).
Defined.

(** With descriptor 2 closed again, opening the file takes it. *)
Lemma file_open_opens_witness :
  exists k', file_open 40 (arr_str (str_bytes "frame0.txt")) (free_bitmap 2 sample) = Ret 2 k' /\
    opened 2 0 0 k'.
Proof.
  destruct (file_open_opens 40 (arr_str (str_bytes "frame0.txt")) (str_bytes "frame0.txt") 1
    (free_bitmap 2 sample)) as (r & k' & Hr & _ & _ & Hok).
  - done.
  - apply terminated_lit. repeat constructor.
  - simpl. lia.
  - simpl. lia.
  - exact sample_has_name.
  - done.
  - assert (Hv : match file_open 40 (arr_str (str_bytes "frame0.txt")) (free_bitmap 2 sample) with
                 | Ret r _ => r | _ => 0 end = 2) by (vm_compute; reflexivity).
    rewrite Hr in Hv. subst r. exists k'. split; [exact Hr |].
    destruct Hok as [Ho _]; [lia | exact Ho].
Defined.

(** Descriptor 2 as a directory: [ls] sees the three names. *)
Lemma dir_reads_list_witness :
  exists k', dir_seq 64 2 0x1000 3 sample
             = Ret [str_bytes "."; str_bytes "frame0.txt"; str_bytes "rtc"] k'.
Proof.
  destruct (dir_reads_list 64 2 0 0x1000 0 sample) as (k' & Hs & _).
  - split; [vm_compute; split; congruence |]. intros i Hi.
    change (dir_count (image sample) (boot_block (fs sample))) with 3 in Hi.
    assert (Hc : i = 0 \/ i = 1 \/ i = 2) by lia.
    destruct Hc as [-> | [-> | ->]]; [exists 1 | exists 10 | exists 3];
      (split; [lia |]; split; [vm_compute; reflexivity |]); intros t Ht.
    + replace t with 0 by lia. vm_compute. congruence.
    + assert (Hc : t = 0 \/ t = 1 \/ t = 2 \/ t = 3 \/ t = 4 \/ t = 5 \/ t = 6 \/ t = 7 \/
                   t = 8 \/ t = 9) by lia.
      repeat destruct Hc as [-> | Hc]; [..| subst t]; vm_compute; congruence.
    + assert (Hc : t = 0 \/ t = 1 \/ t = 2) by lia.
      destruct Hc as [-> | [-> | ->]]; vm_compute; congruence.
  - exact sample_opened.
  - lia.
  - apply sample_region; vm_compute; congruence.
  - apply sample_apart; [exact sample_boot_addrs | lia | vm_compute; congruence].
  - exists k'. etransitivity; [exact Hs |]. vm_compute. reflexivity.
Defined.

(** [cat fr] completes to [cat frame0.txt]. *)
Lemma fs_search_completes_witness :
  let buf := padded 128 (str_bytes "cat fr") in
  let '(idx', buf', k') := fs_search buf 6 sample in
  idx' <= 127 /\ (idx' = 6 \/ exists i s, word_start (arr_get buf) 6 s /\
     completes (fun t => image sample (direntry sample_base i + t)) s idx' buf').
Proof.
  pose proof (fs_search_completes (padded 128 (str_bytes "cat fr")) 6 sample) as Hf.
  cbv zeta. destruct (fs_search (padded 128 (str_bytes "cat fr")) 6 sample) as [[idx' buf'] k'].
  destruct Hf as (H1 & _ & _ & H2).
  - exact sample_console.
  - apply sample_region; vm_compute; congruence.
  - reflexivity.
  - lia.
  - vm_compute. congruence.
  - apply sample_apart; [exact sample_boot_addrs | |]; vm_compute; congruence.
  - split; [lia |]. destruct H2 as [? | (i & s & _ & Hw & Hc)]; [by left | right; by exists i, s].
Defined.

Lemma read_dentry_by_index_bound_witness :
  read_dentry_by_index (image sample) sample_base 64 = None /\
  exists d, read_dentry_by_index (image sample) sample_base 63 = Some d.
Proof.
  split.
  - apply (read_dentry_by_index_bound (image sample) sample_base 64); lia.
  - destruct (read_dentry_by_index_bound (image sample) sample_base 63) as [Hn _]; [lia |].
    destruct (read_dentry_by_index (image sample) sample_base 63) as [d |]; [by exists d |].
    exfalso. destruct Hn as [Hn _]. specialize (Hn eq_refl). lia.
Defined.
