(* ===== verification/Terminal.v ===== *)
(** * keyboard.c: the terminal driver

    [terminal_open], [terminal_close], [terminal_read] and [terminal_write]
    of src/student-distrib/keyboard.c, the driver behind descriptors 0 and
    1.  The keyboard side of the same file is in Keyboard.v. *)

From S2P Require Import Prelude Memory Lib Paging Devices State Sample Console.

Definition NULL_CHAR : Z := 0.
Definition BUFSIZE : Z := 128.
Definition TERMINAL_1 : Z := 0.
Definition TERMINAL_2 : Z := 1.
Definition TERMINAL_3 : Z := 2.

(** ** Operations *)

Definition terminal_open : C Z :=
  modify (upd_kbd (fun b => set_keyboard_buf (arr_set (keyboard_buf b) 0 NULL_CHAR) b));;
  modify (upd_kbd (fun b => set_last_buf (arr_set (last_buf b) 0 NULL_CHAR) b));;
  modify (upd_kbd (fun b => set_kb_save_buf (arr_set (kb_save_buf b) 0 NULL_CHAR) b));;
  modify (upd_kbd (fun b => set_save_buf_1 (arr_set (save_buf_1 b) 0 NULL_CHAR) b));;
  modify (upd_kbd (fun b => set_save_buf_2 (arr_set (save_buf_2 b) 0 NULL_CHAR) b));;
  modify (upd_kbd (fun b => set_save_buf_3 (arr_set (save_buf_3 b) 0 NULL_CHAR) b));;
  ret 0.

Definition terminal_close (fd : Z) : C Z := ret (-1).

(** The line buffer of a terminal: the three cases of the switch. *)
Definition line_buf (t : Z) (b : keyboard) : option (list Z) :=
  if t =? TERMINAL_1 then Some (save_buf_1 b)
  else if t =? TERMINAL_2 then Some (save_buf_2 b)
  else if t =? TERMINAL_3 then Some (save_buf_3 b)
  else None.

Definition set_line_buf (t : Z) (v : list Z) (b : keyboard) : keyboard :=
  if t =? TERMINAL_1 then set_save_buf_1 v b
  else if t =? TERMINAL_2 then set_save_buf_2 v b
  else if t =? TERMINAL_3 then set_save_buf_3 v b
  else b.

(** A turn of the loop that finds no line for the running process changes
    nothing: the loop is still waiting.  A line without a newline in its
    128 bytes would be read past its array. *)
Definition terminal_read (fuel : nat) (fd buf nbytes : Z) : C Z := fun k =>
  if negb (fd =? 0) then Ret (-1) k
  else
    let t := return_active_terminal k in
    match line_buf t (kbd k) with
    | None => Spin k
    | Some line =>
        if check_read_process k =? -1 then Spin k
        else if arr_get line 0 =? NULL_CHAR then Spin k
        else
          match my_strcpy (Z.to_nat BUFSIZE) (mem k) buf (fun _ => arr_get line) with
          | None => Fault k
          | Some m =>
              let k := set_mem m k in
              let k := upd_kbd (set_line_buf t (arr_set line 0 NULL_CHAR)) k in
              within_fuel (my_strlen fuel (chars (mem k) buf)) k
          end
    end.

(** The text is a buffer in memory, or an array of the kernel. *)
Definition terminal_write_text (fuel : nat) (fd : Z) (s : text) (nbytes : Z) : C Z :=
  if negb (fd =? 1) then ret (-1)
  else
    modify cli;;
    n <- my_puts fuel s nbytes;;
    modify sti;;
    ret (if n =? nbytes then nbytes else -1).

Definition terminal_write (fuel : nat) (fd buf nbytes : Z) : C Z :=
  terminal_write_text fuel fd (at_ptr buf) nbytes.

(** ** Lemmas *)

(** A line: up to 127 bytes, then a newline. *)
Definition holds_line (b l : list Z) : Prop :=
  length b = 128%nat /\ (length l < 128)%nat /\ Forall (fun c => 0 <= c < 256 /\ c <> NEWLINE) l /\
  exists rest, b = l ++ NEWLINE :: rest.

Lemma holds_line_terminated b l : holds_line b l -> terminated NEWLINE (arr_get b) l.
Proof.
  intros (Hb & Hl & Hnl & rest & ->). split.
  - intros i Hi. destruct (lookup_lt_is_Some_2 l (Z.to_nat i)) as [c Hc]; [lia |].
    rewrite (arr_get_lookup _ _ c); [| lia | by rewrite lookup_app_l by lia].
    split; [done |]. pose proof (Forall_lookup_1 _ _ _ _ Hnl Hc) as [_ H]. exact H.
  - apply arr_get_lookup; [lia |]. rewrite Nat2Z.id. by apply list_lookup_middle.
Qed.

Lemma line_buf_set t v b : is_Some (line_buf t b) -> line_buf t (set_line_buf t v b) = Some v.
Proof.
  unfold line_buf, set_line_buf. intros [l Hl].
  destruct (t =? TERMINAL_1); [done |]. destruct (t =? TERMINAL_2); [done |].
  by destruct (t =? TERMINAL_3).
Qed.

(** Drawing a sequence of characters for the running process. *)
Definition draw_all (l : list Z) (k : kernel) : kernel := foldl (fun k c => my_putc c k) k l.

(** What [my_putc] leaves alone. *)
Lemma my_putc_frame c k :
  console_wf k -> 0 <= c < 256 -> region (mem k) (video_return k) 4000 ->
  console_wf (my_putc c k) /\ video_return (my_putc c k) = video_return k /\
  region (mem (my_putc c k)) (video_return k) 4000 /\
  same_outside (mem k) (mem (my_putc c k)) (video_return k) 4000 /\
  (forall a, loc (mem (my_putc c k)) a = loc (mem k) a).
Proof.
  intros Hwf Hc Hr. destruct (my_putc_spec c k Hwf Hc) as (Hwf' & _ & Hm).
  destruct (draw_page (video_return k) (x_return 0 k) (y_return 0 k) c (text_color (scr k)) (mem k))
    as (Hl & _ & Ho); [done | by apply console_wf_return | done |].
  rewrite Hm. split_and!; [done | | | done | done].
  - unfold my_putc. rewrite (u8_small c) by done.
    destruct (draw _ _ _ _ _ _) as [[m x] y]. reflexivity.
  - destruct Hr as [Hmap Hinj]. split; intros *; simpl; rewrite !Hl; [apply Hmap | apply Hinj].
Qed.

(** [my_puts] of a buffer that does not share cells with the page draws the
    bytes that were there before. *)
Lemma my_puts_spec fuel buf n k :
  console_wf k -> region (mem k) (video_return k) 4000 ->
  apart (mem k) (within buf (Z.of_nat n)) (video_return k) 4000 -> (n < fuel)%nat ->
  my_puts fuel (at_ptr buf) (Z.of_nat n) k
  = Ret (Z.of_nat n) (draw_all (bytes (mem k) buf n) k) /\
  console_wf (draw_all (bytes (mem k) buf n) k).
Proof.
  intros Hwf Hr Ha Hf. unfold my_puts.
  set (body := fun t : kernel * Z => _).
  assert (Hgen : forall j i k1, (i + j = n)%nat -> (j < fuel)%nat -> console_wf k1 ->
            region (mem k1) (video_return k1) 4000 ->
            apart (mem k1) (within buf (Z.of_nat n)) (video_return k1) 4000 ->
            loop fuel body (k1, Z.of_nat i)
            = Some (draw_all (bytes (mem k1) (buf + Z.of_nat i) j) k1, Z.of_nat n) /\
            console_wf (draw_all (bytes (mem k1) (buf + Z.of_nat i) j) k1)).
  2: { destruct (Hgen n O k) as [Hl Hwf']; try done; try lia.
       change (Z.of_nat 0) with 0 in Hl, Hwf'. rewrite Z.add_0_r in Hl, Hwf'. by rewrite Hl. }
  clear k Hwf Hr Ha Hf. induction fuel as [| fuel IH]; intros j i k1 Hij Hj Hwf Hr Ha; [lia |].
  cbn [loop]. unfold body at 1. destruct j as [| j].
  - rewrite (proj2 (Z.eqb_eq _ _)) by lia. simpl. by replace i with n by lia.
  - rewrite (proj2 (Z.eqb_neq _ _)) by lia. cbn [bytes]. unfold draw_all. cbn [foldl].
    change (at_ptr buf (mem k1) (Z.of_nat i)) with (ld (mem k1) (buf + Z.of_nat i)).
    set (c := ld (mem k1) (buf + Z.of_nat i)).
    destruct (my_putc_frame c k1 Hwf (ld_byte _ _) Hr) as (Hwf' & Hv & Hr' & Ho & Hloc).
    destruct (IH j (S i) (my_putc c k1)) as [Hl Hwf2]; try done; try lia; [by rewrite Hv | |].
    { rewrite Hv. intros b t Hb Ht. rewrite !Hloc. by apply Ha. }
    replace (Z.of_nat i + 1) with (Z.of_nat (S i)) by lia. rewrite Hl.
    assert (Hb : bytes (mem (my_putc c k1)) (buf + Z.of_nat (S i)) j
                 = bytes (mem k1) (buf + Z.of_nat i + 1) j).
    { replace (buf + Z.of_nat (S i)) with (buf + Z.of_nat i + 1) by lia.
      apply bytes_ext. intros t Ht. apply Ho. intros u Hu. apply Ha; [unfold within; lia | done]. }
    rewrite Hb in *. done.
Qed.

(** The line is in memory and no longer in the line buffer. *)
Definition line_taken (buf : Z) (l line : list Z) (k : kernel) : kernel :=
  upd_kbd (set_line_buf (active_terminal (sys k)) (arr_set line 0 NULL_CHAR))
    (set_mem (write (mem k) buf (l ++ [NEWLINE])) k).

Lemma terminal_read_run fuel buf nbytes l line k :
  let t := active_terminal (sys k) in
  line_buf t (kbd k) = Some line -> holds_line line l ->
  arr_get line 0 <> NULL_CHAR -> main_terminal k = t ->
  region (mem k) buf 128 -> (128 < fuel)%nat ->
  terminal_read fuel 0 buf nbytes k = Ret (Z.of_nat (length l) + 1) (line_taken buf l line k) /\
  bytes (write (mem k) buf (l ++ [NEWLINE])) buf (length l + 1) = l ++ [NEWLINE].
Proof.
  intros t Hline Hl Hnz Hmt Hr Hf. unfold terminal_read. simpl negb. cbv iota.
  unfold return_active_terminal, check_read_process. fold t. rewrite Hline, Hmt, Z.eqb_refl.
  cbn [negb]. change (0 =? -1) with false. cbv iota.
  rewrite (proj2 (Z.eqb_neq _ _) Hnz).
  pose proof Hl as (Hlen & Hll & Hnl & _).
  assert (Hrl : region (mem k) buf (length (l ++ [NEWLINE]))).
  { eapply region_le; [done |]. rewrite length_app. simpl. lia. }
  unfold my_strcpy. change (Z.to_nat BUFSIZE) with 128%nat.
  rewrite (strcpy_loop 128 (mem k) buf NEWLINE (fun _ => arr_get line) l);
    [| by apply holds_line_terminated | done | done].
  set (m := write _ _ _).
  assert (Hu : u8 <$> l = l).
  { apply u8_bytes. eapply Forall_impl; [exact Hnl |]. by intros c [Hc _]. }
  assert (Hb : bytes m buf (length l + 1) = l ++ [NEWLINE]).
  { pose proof (bytes_write (mem k) buf (l ++ [NEWLINE]) Hrl) as Hb.
    rewrite length_app in Hb. cbn [length] in Hb. fold m in Hb. by rewrite Hb, fmap_app, Hu. }
  split; [| done].
  assert (Hst : my_strlen fuel (chars m buf) = Some (Z.of_nat (length l) + 1)).
  { apply my_strlen_terminated; [| lia]. apply terminated_bytes; [| exact Hb].
    eapply Forall_impl; [exact Hnl |]. by intros c [_ Hc]. }
  change (mem (upd_kbd ?f (set_mem m k))) with m. by rewrite Hst.
Qed.

(** ** Properties *)

(** [terminal_read] hands a line over: when the running process is on
    the visible terminal and its line buffer holds a line, the line with
    its newline is copied to the buffer, its length is returned, nothing
    else of memory changes, and the line is consumed: reading again waits.
    The size that the caller asked for plays no part. *)
Theorem terminal_read_line fuel buf nbytes l line k :
  let t := active_terminal (sys k) in
  line_buf t (kbd k) = Some line -> holds_line line l ->
  arr_get line 0 <> NULL_CHAR -> main_terminal k = t ->
  region (mem k) buf 128 -> (128 < fuel)%nat ->
  exists k', terminal_read fuel 0 buf nbytes k = Ret (Z.of_nat (length l) + 1) k' /\
    mem k' = write (mem k) buf (l ++ [NEWLINE]) /\
    bytes (mem k') buf (length l + 1) = l ++ [NEWLINE] /\
    terminal_read fuel 0 buf nbytes k' = Spin k'.
Proof.
  intros t Hline Hl Hnz Hmt Hr Hf.
  destruct (terminal_read_run fuel buf nbytes l line k) as [He Hb]; try done.
  eexists. split; [exact He |]. split; [done |]. split; [exact Hb |].
  set (k' := line_taken buf l line k). unfold terminal_read. cbn [negb Z.eqb].
  unfold return_active_terminal, check_read_process.
  change (active_terminal (sys k')) with t. change (main_terminal k') with (main_terminal k).
  rewrite Hmt, Z.eqb_refl. cbn [negb]. change (0 =? -1) with false. cbv iota.
  unfold k', line_taken, upd_kbd. ksimpl. fold t.
  rewrite line_buf_set by (unfold line_buf in *; destruct (t =? _); eauto).
  destruct Hl as (Hlen & _). by rewrite arr_get_set_eq by lia.
Qed.

(** [terminal_write] prints exactly the bytes asked for: a write of [n]
    bytes to descriptor 1 draws each of them in order at the cursor of the
    running process, returns [n], leaves the console well-formed and
    interrupts enabled; any other descriptor is refused. *)
Theorem terminal_write_draws fuel fd buf n k :
  console_wf k -> region (mem k) (video_return k) 4000 ->
  apart (mem k) (within buf (Z.of_nat n)) (video_return k) 4000 -> (n < fuel)%nat ->
  terminal_write fuel fd buf (Z.of_nat n) k
  = (if fd =? 1 then Ret (Z.of_nat n) (sti (draw_all (bytes (mem k) buf n) (cli k)))
     else Ret (-1) k) /\
  console_wf (draw_all (bytes (mem k) buf n) (cli k)).
Proof.
  intros Hwf Hr Ha Hf.
  destruct (my_puts_spec fuel buf n (cli k) Hwf Hr Ha Hf) as [Hp Hwf'].
  change (mem (cli k)) with (mem k) in Hp, Hwf'. split; [| done].
  unfold terminal_write, terminal_write_text. destruct (fd =? 1); cbn [negb]; [| done].
  unfold bind, modify. rewrite Hp. unfold ret. by rewrite Z.eqb_refl.
Qed.

(** ** Witnesses *)

Definition sample_typed : kernel :=
  upd_kbd (set_save_buf_1 (padded 128 (str_bytes "ls" ++ [NEWLINE]))) sample.

Lemma terminal_read_line_witness :
  exists k', terminal_read 200 0 0x1000 5 sample_typed = Ret 3 k' /\
    bytes (mem k') 0x1000 3 = str_bytes "ls" ++ [NEWLINE].
Proof.
  destruct (terminal_read_line 200 0x1000 5 (str_bytes "ls")
    (padded 128 (str_bytes "ls" ++ [NEWLINE])) sample_typed) as (k' & Hr & _ & Hb & _).
  - reflexivity.
  - split; [reflexivity |]. split; [simpl; lia |].
    split; [repeat constructor; vm_compute; congruence |]. by exists (replicate 125 0).
  - vm_compute. congruence.
  - reflexivity.
  - by apply unpaged_region.
  - lia.
  - exists k'. split; [exact Hr | exact Hb].
Defined.

(** The data block of the file, printed. *)
Lemma terminal_write_draws_witness :
  terminal_write 100 1 (sample_base + 8192) 5 sample
  = Ret 5 (sti (draw_all (str_bytes "fish!") (cli sample))).
Proof.
  destruct (terminal_write_draws 100 1 (sample_base + 8192) 5 sample) as [Hw _].
  - exact sample_console.
  - apply unpaged_region; vm_compute; congruence.
  - apply unpaged_apart; [done | vm_compute; congruence | vm_compute; congruence |].
    unfold within, sample_base. change (video_return sample) with 0xB8000. lia.
  - lia.
  - etransitivity; [exact Hw |]. do 2 f_equal.
Defined.
