(* ===== verification/Syscall.v ===== *)
(** * syscall.c: processes and system calls

    The terminal array, the process table, the process control blocks and
    the eight system calls of src/student-distrib/syscall.c, with the
    dispatch of syscall_wrapper.S. *)

From S2P Require Import Prelude Memory Lib Paging Devices State Sample Console Filesys Terminal.

(** ** Constants *)

Definition MAX_COMMAND_LENGTH : Z := 128.
Definition MAX_PROCESSES : Z := 6.
Definition MAX_TERMINALS : Z := 3.
Definition UNIT_8_MB : Z := 0x800000.
Definition UNIT_128_MB : Z := 0x8000000.
(** The stride of the kernel stacks: named 8 KB, it is 32 KB. *)
Definition UNIT_8_KB : Z := 0x8000.
Definition PCB_MASK : Z := 0xFFFF8000.
Definition STDIN_IDX : Z := 1.
Definition STDOUT_IDX : Z := 0.
Definition PROG_IMG_OFF : Z := 0x08048000.
Definition KERNEL_DS : Z := 0x0018.
Definition ENTRY_POINT : Z := 24.
Definition MAX_FD : Z := 7.
Definition FILES : Z := 2.
Definition COPY_SIZE : Z := 4096.
Definition NUM_SYSCALLS : Z := 10.

(** [\x7f E L F] *)
Definition ELF_MAGIC : list Z := [0x7f; 0x45; 0x4c; 0x46].

(** The physical base of the page of process [p]:
    [(uint32_t* )UNIT_8_MB + p * UNIT_4_MB], in words of four bytes. *)
Definition prog_phys (p : Z) : Z := u32 (UNIT_8_MB + 4 * (p * UNIT_4_MB)).

(** [UNIT_8_MB - UNIT_8_KB * p - 4] *)
Definition kernel_stack (p : Z) : Z := u32 (UNIT_8_MB - UNIT_8_KB * p - 4).

(** ** Terminals and the process table *)

Definition init_terminal (i : Z) (t : terminal_t) : terminal_t :=
  let t := set_terminal_idx (u8 i) t in
  let t := set_x_cursor 0 t in
  let t := set_y_cursor 0 t in
  let t := set_save_buf (arr_set (save_buf t) 0 NUL) t in
  let t := set_save_idx 0 t in
  let t := set_curr_task (-1) t in
  let t := set_video_addr (VIDEO + UNIT_4_KB * (i + 1)) t in
  set_color (i + 1) t.

Definition init_terminals (k : kernel) : kernel :=
  for_loop 3 0 (fun i k => upd_term i (init_terminal i) k) k.

(** The first index from [i] down at which [process_num] is [terminal]. *)
Fixpoint last_process (n : nat) (i terminal : Z) (k : kernel) : Z :=
  match n with
  | O => -1
  | S n' =>
      if arr_get (process_num (sys k)) i =? terminal then s8 i
      else last_process n' (i - 1) terminal k
  end.

Definition find_terminal_process (terminal : Z) (k : kernel) : Z :=
  last_process (Z.to_nat MAX_PROCESSES) (MAX_PROCESSES - 1) terminal k.

Definition find_parent_process (idx terminal : Z) (k : kernel) : Z :=
  if idx <? MAX_TERMINALS then -1 else last_process (Z.to_nat idx) (idx - 1) terminal k.

Definition get_main_process (k : kernel) : Z := main_process (sys k).

Definition set_main (pid : Z) : kernel -> kernel := upd_sys (set_main_process pid).

(** [set_main_process] of syscall.c takes a [uint8_t]. *)
Definition set_main_process_u8 (pid : Z) : kernel -> kernel := set_main (u8 pid).

(** The loop of [check_tasks]; [i] and [num] both advance. *)
Fixpoint check_tasks_from (n : nat) (i num : Z) (k : kernel) : Z :=
  match n with
  | O => -1
  | S n' =>
      let task := curr_task (term_at (terminals (sys k)) (Z.rem (num + i) 3)) in
      if negb (task =? main_process (sys k)) && negb (task =? -1) then task
      else check_tasks_from n' (i + 1) (num + 1) k
  end.

Definition check_tasks (num : Z) (k : kernel) : Z :=
  check_tasks_from 3 1 (arr_get (process_num (sys k)) num) k.

(** ** Operation tables *)

Definition setup_exec (k : kernel) : kernel :=
  let file := Ops (Some DrvFile) (Some DrvFile) (Some DrvFile) (Some DrvFile) in
  let dir := Ops (Some DrvDir) (Some DrvDir) (Some DrvDir) (Some DrvDir) in
  let rtc := Ops (Some DrvRtc) (Some DrvRtc) (Some DrvRtc) (Some DrvRtc) in
  let term := Ops (Some DrvTerminal) (Some DrvTerminal) (Some DrvTerminal) (Some DrvTerminal) in
  let k := upd_sys (set_file_table file) k in
  let k := upd_sys (set_dir_table dir) k in
  let k := upd_sys (set_rtc_table rtc) k in
  upd_sys (set_terminal_table term) k.

(** The operations an [f_ops] pointer designates; a stray pointer none. *)
Definition table_of (t : option table) (k : kernel) : f_ops_table :=
  match t with
  | Some FileTable => file_table (sys k)
  | Some DirTable => dir_table (sys k)
  | Some RtcTable => rtc_table (sys k)
  | Some TerminalTable => terminal_table (sys k)
  | None => no_table
  end.

(** The RTC driver over the kernel: it spins on the interrupts to come. *)
Definition kernel_rtc_read : C Z := fun k =>
  match rtc_read (pending k) (rtc k) with
  | Some (s, evs, r) => Ret r (set_pending evs (set_rtc s k))
  | None => Spin k
  end.

Definition kernel_rtc_write (buf nbytes : Z) : C Z := fun k =>
  let '(s, r) := rtc_write (mem k) buf nbytes (rtc k) in Ret r (set_rtc s k).

Definition kernel_rtc_close : C Z := fun k =>
  let '(s, r) := rtc_close (rtc k) in Ret r (set_rtc s k).

(** The calls through a function pointer. *)
Definition call_read (fuel : nat) (d : option driver) (fd buf nbytes : Z) : C Z :=
  match d with
  | Some DrvFile => file_read fd buf nbytes
  | Some DrvDir => dir_read fuel fd buf nbytes
  | Some DrvRtc => kernel_rtc_read
  | Some DrvTerminal => terminal_read fuel fd buf nbytes
  | None => fault
  end.

Definition call_write (fuel : nat) (d : option driver) (fd buf nbytes : Z) : C Z :=
  match d with
  | Some DrvFile => file_write fd buf nbytes
  | Some DrvDir => dir_write fd buf nbytes
  | Some DrvRtc => kernel_rtc_write buf nbytes
  | Some DrvTerminal => terminal_write fuel fd buf nbytes
  | None => fault
  end.

Definition call_close (d : option driver) (fd : Z) : C Z :=
  match d with
  | Some DrvFile => file_close fd
  | Some DrvDir => dir_close fd
  | Some DrvRtc => kernel_rtc_close
  | Some DrvTerminal => terminal_close fd
  | None => fault
  end.

(** ** Control blocks *)

Definition return_pcb_parent (num : Z) : Z := u32 (UNIT_8_MB - (1 + s8 num) * UNIT_8_KB).

Definition return_pcb_addr (num : Z) (k : kernel) : Z := Z.land (reg_esp (hw k)) PCB_MASK.

(** The loop over the descriptors: [f_ops] keeps what the memory held. *)
Definition create_fd (i : Z) (l : list fdt_t) : list fdt_t :=
  let e := fdt_at l i in
  arr_set l i (set_file_pos 0 (set_fd_inode (-1) (set_flags 0 e))).

Definition create_pcb (process_idx : Z) (k : kernel) : kernel * Z :=
  let process_idx := s8 process_idx in
  let pcb := return_pcb_parent process_idx in
  let k := upd_pcb pcb (set_pid (u8 process_idx)) k in
  let k := upd_pcb pcb (fun p => set_fdt (for_loop 8 0 create_fd (fdt p)) p) k in
  let k := upd_fdt pcb STDIN_IDX (set_f_ops (Some TerminalTable)) k in
  let k := upd_fdt pcb STDIN_IDX (set_flags 1) k in
  let k := upd_fdt pcb STDOUT_IDX (set_f_ops (Some TerminalTable)) k in
  let k := upd_fdt pcb STDOUT_IDX (set_flags 1) k in
  let parent_pid :=
    if process_idx <? MAX_TERMINALS then process_idx
    else find_parent_process process_idx (active_terminal (sys k)) k in
  let k := upd_pcb pcb (set_parent_pcb (return_pcb_parent parent_pid)) k in
  let k := upd_pcb pcb (set_status_retval 0) k in
  (upd_term (active_terminal (sys k)) (set_curr_task process_idx) k, pcb).

(** [pcb->ebp = ebp; pcb->esp = esp] and the same for the scheduler's pair. *)
Definition save_regs (pcb : Z) (k : kernel) : kernel :=
  upd_pcb pcb (fun p => set_esp (reg_esp (hw k)) (set_ebp (reg_ebp (hw k)) p)) k.

Definition save_pit_regs (pcb : Z) (k : kernel) : kernel :=
  upd_pcb pcb (fun p => set_pit_esp (reg_esp (hw k)) (set_pit_ebp (reg_ebp (hw k)) p)) k.

Definition set_regs (ebp esp : Z) : kernel -> kernel :=
  upd_hw (fun h => set_reg_esp esp (set_reg_ebp ebp h)).

Definition set_esp0 (esp0 : Z) : kernel -> kernel := upd_hw (set_tss_esp0 esp0).

(** ** Command lines *)

Definition skip_spaces (fuel : nat) (command : Z -> Z) (i : Z) : option Z :=
  loop fuel (fun i => if command i =? ASCII_SPACE then Continue (i + 1) else Break i) i.

(** The word from [i]: up to the null or a space. *)
Definition parse_word (fuel : nat) (command : Z -> Z) (i : Z) : option (Z * list Z) :=
  loop fuel (fun '(i, w) =>
    if command i =? NUL then Break (i, w)
    else if command i =? ASCII_SPACE then Break (i, w)
    else Continue (i + 1, w ++ [command i])) (i, []).

(** The rest from [i]: up to the null. *)
Definition parse_rest (fuel : nat) (command : Z -> Z) (i : Z) : option (list Z) :=
  o ← loop fuel (fun '(i, w) =>
    if command i =? NUL then Break (i, w) else Continue (i + 1, w ++ [command i])) (i, []);
  Some o.2.

(** [buf[j] = l[j]] for each [j], then the null. *)
Definition store_str (l : list Z) (buf : list Z) : list Z :=
  arr_set (for_loop (length l) 0 (fun j b => arr_set b j (arr_get l j)) buf)
    (Z.of_nat (length l)) NUL.

(** The slot a new process gets: a free slot among the first three only for
    the terminal of that number, any free slot from 3 on. *)
Fixpoint find_slot (n : nat) (process_idx : Z) (k : kernel) : option Z :=
  match n with
  | O => None
  | S n' =>
      if MAX_PROCESSES <=? process_idx then None
      else if (arr_get (process_num (sys k)) process_idx =? -1) &&
              (((process_idx <? MAX_TERMINALS) && (process_idx =? active_terminal (sys k)))
               || ((MAX_TERMINALS <=? process_idx) && (process_idx <? MAX_PROCESSES)))
      then Some process_idx
      else find_slot n' (process_idx + 1) k
  end.

Section calls.
(** What an uninitialised local array holds, and the addresses that the
    linker gave the operation tables. *)
Variable junk : Z -> Z.
Variable table_addr : table -> Z.
(** Turns for the loops that the source does not bound. *)
Variable fuel : nat.

(** A local array of which [read_data] filled the bytes [l]. *)
Definition local_buf (l : list Z) (i : Z) : Z :=
  if (0 <=? i) && (i <? Z.of_nat (length l)) then arr_get l i else junk i.

(** [uint8_t buf[n]; read_data(inode, offset, buf, n)] *)
Definition read_local (inode offset n : Z) (k : kernel) : Z -> Z :=
  let '(d, _) := read_data (boot_block (fs k)) (FS_START_ADDR (fs k)) inode offset
                   (mem k, @nil Z) n in
  local_buf d.2.

Definition entry_point (b : Z -> Z) : Z :=
  Z.lor (Z.lor (Z.lor (u32 (b 0)) (u32 (Z.shiftl (b 1) 8))) (u32 (Z.shiftl (b 2) 16)))
    (u32 (Z.shiftl (b 3) 24)).

Definition is_elf (b : Z -> Z) : bool :=
  (b 0 =? 0x7f) && (b 1 =? 0x45) && (b 2 =? 0x4c) && (b 3 =? 0x46).

(** [read_data(inode, 0, (uint8_t* )PROG_IMG_OFF, UNIT_8_MB)] *)
Definition load_program (inode : Z) (k : kernel) : kernel :=
  let '(d, _) := read_data (boot_block (fs k)) (FS_START_ADDR (fs k)) inode 0
                   (mem k, PROG_IMG_OFF) UNIT_8_MB in
  set_mem d.1 k.

(** From the assignment of the slot to the [iret]. *)
Definition start_process (inode process_idx : Z) : C Z := fun k =>
  let eip := entry_point (read_local inode ENTRY_POINT 4 k) in
  let k := upd_mem (map_page (prog_phys process_idx) UNIT_128_MB) k in
  let k := load_program inode k in
  let k := cli k in
  let '(k, pcb) := create_pcb process_idx k in
  let k := set_main process_idx k in
  let k := save_regs pcb k in
  let k := upd_hw (set_tss_ss0 KERNEL_DS) k in
  let k := set_esp0 (kernel_stack process_idx) k in
  leave (Iret eip) (sti k).

(** The parse, with the writes to [arg_buf]; a word or an argument that does
    not fit its array of 128 bytes is written past it. *)
Definition parse_command (command : Z -> Z) : C (list Z) :=
  i <- within_fuel (skip_spaces fuel command 0);;
  w <- within_fuel (parse_word fuel command i);;
  (if MAX_COMMAND_LENGTH <=? Z.of_nat (length w.2) then fault else ret tt);;
  modify (upd_sys (fun s => set_arg_buf (arr_set (arg_buf s) 0 NUL) s));;
  j <- within_fuel (skip_spaces fuel command w.1);;
  arg <- within_fuel (parse_rest fuel command j);;
  (if BUFSIZE <=? Z.of_nat (length arg) then fault else ret tt);;
  modify (upd_sys (fun s => set_arg_buf (store_str arg (arg_buf s)) s));;
  ret w.2.

Definition system_execute (command : Z -> Z) : C Z :=
  word <- parse_command command;;
  k <- gets (fun k => k);;
  match read_dentry_by_name (image k) (boot_block (fs k)) fuel (arr_str (word ++ [NUL])) with
  | None => spin
  | Some None => ret (-1)
  | Some (Some test) =>
      if negb (is_elf (read_local (inode_num test) 0 4 k)) then ret (-1)
      else match find_slot 8 0 k with
      | None => my_puts fuel (lit "Max processes.
") 15;; ret 0
      | Some process_idx =>
          modify (upd_sys (fun s =>
            set_process_num (arr_set (process_num s) process_idx (s8 (active_terminal s))) s));;
          start_process (inode_num test) process_idx
      end
  end.

(** [system_execute((uint8_t* )"shell")] *)
Definition execute_shell : C Z := system_execute (arr_get (str_bytes "shell")).

(** ** switch_terminal *)

Definition save_screen (k : kernel) : kernel :=
  upd_mem (fun m => memcpy m (video_addr (term_at (terminals (sys k)) (active_terminal (sys k))))
                      VIDEO COPY_SIZE) k.

Definition restore_screen (k : kernel) : kernel :=
  upd_mem (fun m => memcpy m VIDEO
                      (video_addr (term_at (terminals (sys k)) (active_terminal (sys k))))
                      COPY_SIZE) k.

(** The end of the function: the cursor and the screen of the new terminal. *)
Definition show_terminal (k : kernel) : kernel :=
  let t := term_at (terminals (sys k)) (active_terminal (sys k)) in
  let k := x_set_screen (x_cursor t) k in
  let k := y_set_screen (y_cursor t) k in
  sti (restore_screen k).

Definition switch_terminal (terminal : Z) : C unit := fun k =>
  if active_terminal (sys k) =? terminal then Ret tt k
  else
    let k := cli k in
    let k := save_screen k in
    let k := cycle_text_color (color (term_at (terminals (sys k)) terminal)) k in
    let k := upd_sys (set_active_terminal (u8 terminal)) k in
    let next_process := curr_task (term_at (terminals (sys k)) terminal) in
    if next_process =? -1 then
      let k := restore_screen k in
      let k := save_pit_regs (return_pcb_parent (main_process (sys k))) k in
      let k := sti k in
      (execute_shell;; modify show_terminal) k
    else modify show_terminal k.

(** ** read, write, open, close *)

Definition fd_ops (pcb fd : Z) (k : kernel) : f_ops_table :=
  table_of (f_ops (fdt_at (fdt (pcb_at pcb k)) fd)) k.

Definition system_read (fd buf nbytes : Z) : C Z := fun k =>
  if (buf =? 0) || (fd <? 0) || (MAX_FD <? fd) then Ret (-1) k
  else
    let pcb := return_pcb_parent (main_process (sys k)) in
    let k := set_filesys_pcb pcb k in
    call_read fuel (op_read (fd_ops pcb fd k)) fd buf nbytes k.

Definition system_write (fd buf nbytes : Z) : C Z := fun k =>
  if (buf =? 0) || (fd <? 0) || (MAX_FD <? fd) then Ret (-1) k
  else
    let pcb := return_pcb_parent (main_process (sys k)) in
    let k := set_filesys_pcb pcb k in
    call_write fuel (op_write (fd_ops pcb fd k)) fd buf nbytes k.

Definition system_close (fd : Z) : C Z := fun k =>
  if (fd <? 0) || (MAX_FD <? fd) then Ret (-1) k
  else
    let pcb := return_pcb_parent (main_process (sys k)) in
    let k := set_filesys_pcb pcb k in
    call_close (op_close (fd_ops pcb fd k)) fd k.

Fixpoint fill_open_from (n : nat) (pcb fd : Z) (k : kernel) : kernel * Z :=
  match n with
  | O => (k, -1)
  | S n' =>
      if flags (fdt_at (fdt (pcb_at pcb k)) fd) =? 0
      then (upd_fdt pcb fd (set_flags 1) k, fd)
      else fill_open_from n' pcb (fd + 1) k
  end.

Definition fill_open_fd (pcb : Z) (k : kernel) : kernel * Z :=
  fill_open_from (Z.to_nat (MAX_FILES - FILES)) pcb FILES k.

(** [pcb->fdt[fd].f_ops = &table]; the descriptors start the block and take
    16 bytes each, so index -1 is a word of memory below the block. *)
Definition store_f_ops (pcb fd : Z) (t : table) (k : kernel) : kernel :=
  if (0 <=? fd) && (fd <=? MAX_FD) then upd_fdt pcb fd (set_f_ops (Some t)) k
  else upd_mem (fun m => st32 m (pcb + 16 * fd) (table_addr t)) k.

Definition system_open (filename : Z) : C Z := fun k =>
  let pcb := return_pcb_parent (main_process (sys k)) in
  let k := set_filesys_pcb pcb k in
  let name := ptr_str (image k) filename in
  match get_filetype (image k) (boot_block (fs k)) fuel name with
  | None => Spin k
  | Some 0 =>
      let '(k, fd) := fill_open_fd pcb k in
      if fd =? -1 then Ret (-1) k else Ret fd (store_f_ops pcb fd RtcTable k)
  | Some 1 => (fd <- dir_open fuel name;; modify (store_f_ops pcb fd DirTable);; ret fd) k
  | Some 2 => (fd <- file_open fuel name;; modify (store_f_ops pcb fd FileTable);; ret fd) k
  | Some _ => Ret (-1) k
  end.

(** ** halt *)

(** The loop over the terminals. *)
Definition halt_terminals (pid ppid : Z) (k : kernel) : kernel :=
  for_loop 3 0 (fun i k =>
    if curr_task (term_at (terminals (sys k)) i) =? pid
    then upd_term i (set_curr_task ppid) k else k) k.

(** From [main_process = parent_pcb->pid] on. *)
Definition resume_parent (status curr_pcb parent_pcb : Z) : C Z := fun k =>
  let ppid := pid (pcb_at parent_pcb k) in
  let k := set_main ppid k in
  let k := upd_mem (map_page (prog_phys ppid) UNIT_128_MB) k in
  let k := set_esp0 (kernel_stack ppid) k in
  let k := set_regs (ebp (pcb_at curr_pcb k)) (esp (pcb_at curr_pcb k)) k in
  leave (RetFromHalt status) k.

Definition system_halt (status : Z) : C Z := fun k =>
  let status := u8 status in
  let k := cli k in
  let curr_pcb := return_pcb_parent (main_process (sys k)) in
  let parent := parent_pcb (pcb_at curr_pcb k) in
  let k := upd_pcb parent (set_status_retval status) k in
  let k := halt_terminals (pid (pcb_at curr_pcb k)) (pid (pcb_at parent k)) k in
  let k := upd_sys (fun s =>
             set_process_num (arr_set (process_num s) (pid (pcb_at curr_pcb k)) (-1)) s) k in
  ((if pid (pcb_at curr_pcb k) <? MAX_TERMINALS then execute_shell else ret 0);;
   resume_parent status curr_pcb parent) k.

(** ** getargs, vidmap *)

Definition system_getargs (buf nbytes : Z) : C Z := fun k =>
  if (buf =? 0) || (nbytes =? 0) then Ret (-1) k
  else match strlen (Z.to_nat BUFSIZE) (arr_get (arg_buf (sys k))) with
  | None => Fault k
  | Some len =>
      if len =? 0 then Ret (-1) k
      else match loop (Z.to_nat BUFSIZE)
                   (strcpy_turn buf NUL (fun _ : vmem => arr_get (arg_buf (sys k)))) (mem k, 0) with
      | None => Fault k
      | Some m => Ret 0 (set_mem m k)
      end
  end.

Definition system_vidmap (screen_start : Z) : C Z := fun k =>
  if (screen_start =? 0) || (screen_start =? UNIT_4_MB) then Ret (-1) k
  else
    let '(m, va) := get_vidmap_page (active_terminal (sys k)) (mem k) in
    Ret 0 (set_mem (st32 m screen_start va) k).

(** ** syscall_wrapper.S *)

(** The dispatch on EAX: 0 and anything above 10 give -1; the table has no
    entries 9 and 10, so these jump to what follows it. *)
Definition syscall_wrapper (eax ebx ecx edx : Z) : C Z := fun k =>
  let eax := u32 eax in
  if (NUM_SYSCALLS <? eax) || (eax <? 1) then Ret (-1) k
  else
    let k := sti k in
    match eax with
    | 1 => system_halt ebx k
    | 2 => system_execute (fun i => image k (ebx + i)) k
    | 3 => system_read (s32 ebx) ecx (s32 edx) k
    | 4 => system_write (s32 ebx) ecx (s32 edx) k
    | 5 => system_open ebx k
    | 6 => system_close (s32 ebx) k
    | 7 => system_getargs ebx (s32 ecx) k
    | 8 => system_vidmap ebx k
    | _ => Fault k
    end.
End calls.

(** ** Command lines *)

(** A command line: leading spaces, the command, spaces, the argument. *)
Definition cmdline (a : nat) (w : list Z) (b : nat) (arg : list Z) : list Z :=
  replicate a ASCII_SPACE ++ w ++ replicate b ASCII_SPACE ++ arg.

Lemma terminated_get command l i :
  terminated NUL command l -> 0 <= i <= Z.of_nat (length l) -> command i = arr_get l i.
Proof.
  intros Ht Hi. destruct (decide (i = Z.of_nat (length l))) as [-> | Hne].
  - rewrite arr_get_end. apply Ht.
  - symmetry. apply (terminated_nth NUL); [done | lia].
Qed.

Lemma skip_spaces_spec fuel command i n :
  (forall t, 0 <= t < Z.of_nat n -> command (i + t) = ASCII_SPACE) ->
  command (i + Z.of_nat n) <> ASCII_SPACE -> (n < fuel)%nat ->
  skip_spaces fuel command i = Some (i + Z.of_nat n).
Proof.
  intros Hsp Hend Hf. unfold skip_spaces. rewrite <- (Z.add_0_r i) at 1.
  apply (loop_scan _ (fun t => i + t) n); [done | |].
  - intros t Ht. rewrite Hsp, Z.eqb_refl by done. f_equal. lia.
  - by rewrite (proj2 (Z.eqb_neq _ _) Hend).
Qed.

Lemma parse_word_spec fuel command i w :
  (forall t, 0 <= t < Z.of_nat (length w) -> command (i + t) = arr_get w t) ->
  Forall (fun c => c <> NUL /\ c <> ASCII_SPACE) w ->
  (command (i + Z.of_nat (length w)) = NUL \/ command (i + Z.of_nat (length w)) = ASCII_SPACE) ->
  (length w < fuel)%nat ->
  parse_word fuel command i = Some (i + Z.of_nat (length w), w).
Proof.
  intros Hw Hne Hend Hf. unfold parse_word.
  replace (i, @nil Z) with (i + 0, take (Z.to_nat 0) w) by (simpl; by rewrite Z.add_0_r).
  apply (loop_scan _ (fun t => (i + t, take (Z.to_nat t) w)) (length w)); [done | |].
  - intros t Ht. rewrite Hw by done.
    destruct (arr_get_forall _ _ _ Hne Ht) as [Hn Hs]. cbv beta in *.
    rewrite (proj2 (Z.eqb_neq _ _) Hn), (proj2 (Z.eqb_neq _ _) Hs), take_snoc by done.
    by rewrite Z.add_assoc.
  - rewrite Nat2Z.id, firstn_all. destruct Hend as [-> | ->]; done.
Qed.

Lemma parse_rest_spec fuel command i l :
  (forall t, 0 <= t < Z.of_nat (length l) -> command (i + t) = arr_get l t) ->
  Forall (fun c => c <> NUL) l -> command (i + Z.of_nat (length l)) = NUL ->
  (length l < fuel)%nat ->
  parse_rest fuel command i = Some l.
Proof.
  intros Hl Hne Hend Hf. unfold parse_rest.
  replace (i, @nil Z) with (i + 0, take (Z.to_nat 0) l) by (simpl; by rewrite Z.add_0_r).
  rewrite (loop_scan _ (fun t => (i + t, take (Z.to_nat t) l)) (length l)
             (i + Z.of_nat (length l), l)); [done | done | |].
  - intros t Ht. rewrite Hl by done. pose proof (arr_get_forall _ _ _ Hne Ht) as Hn. cbv beta in Hn.
    rewrite (proj2 (Z.eqb_neq _ _) Hn), take_snoc by done. by rewrite Z.add_assoc.
  - rewrite Nat2Z.id, firstn_all, Hend. done.
Qed.

Lemma store_str_get l buf :
  (length l < length buf)%nat -> length (store_str l buf) = length buf /\
  forall i, 0 <= i <= Z.of_nat (length l) -> arr_get (store_str l buf) i = arr_get l i.
Proof.
  intros Hl. unfold store_str.
  pose proof (length_for_loop_set (fun j (_ : list Z) => arr_get l j) (length l) 0 buf) as Hlen.
  rewrite length_arr_set, Hlen. split; [done |]. intros i Hi.
  destruct (decide (i = Z.of_nat (length l))) as [-> | Hne].
  - rewrite arr_get_set_eq by lia. by rewrite arr_get_end.
  - rewrite arr_get_set_ne by lia. rewrite arr_get_fill by lia.
    by rewrite decide_True by lia.
Qed.

Lemma store_str_terminated l buf :
  (length l < length buf)%nat -> Forall (fun c => c <> NUL) l ->
  terminated NUL (arr_get (store_str l buf)) l.
Proof.
  intros Hl Hne. destruct (store_str_get l buf Hl) as [_ Hg]. split.
  - intros i Hi. rewrite Hg by lia. pose proof (arr_get_forall _ _ _ Hne Hi). split; [| done].
    destruct (lookup_lt_is_Some_2 l (Z.to_nat i)) as [c Hc]; [lia |].
    by rewrite (arr_get_lookup l i c) by (done || lia).
  - rewrite Hg by lia. apply arr_get_end.
Qed.

(** A command line that can be parsed: what the arrays of 128 bytes hold. *)
Definition cmd_ok (w : list Z) (b : nat) (arg : list Z) : Prop :=
  Forall (fun c => c <> NUL /\ c <> ASCII_SPACE) w /\ Forall (fun c => c <> NUL) arg /\
  (length w < 128)%nat /\ (length arg < 128)%nat /\
  arr_get arg 0 <> ASCII_SPACE /\ (arg = [] \/ (0 < b)%nat) /\ (w = [] -> b = O).

(** The characters of a command line, part by part. *)
Lemma cmdline_chars command a w b arg :
  terminated NUL command (cmdline a w b arg) ->
  (forall t, 0 <= t < Z.of_nat a -> command t = ASCII_SPACE) /\
  (forall t, 0 <= t < Z.of_nat (length w) -> command (Z.of_nat a + t) = arr_get w t) /\
  (forall t, 0 <= t < Z.of_nat b ->
     command (Z.of_nat a + Z.of_nat (length w) + t) = ASCII_SPACE) /\
  (forall t, 0 <= t <= Z.of_nat (length arg) ->
     command (Z.of_nat a + Z.of_nat (length w) + Z.of_nat b + t) = arr_get arg t).
Proof.
  intros Ht. unfold cmdline in *.
  assert (Hlen : length (replicate a ASCII_SPACE ++ w ++ replicate b ASCII_SPACE ++ arg)
                 = (a + (length w + (b + length arg)))%nat)
    by by rewrite !length_app, !length_replicate.
  assert (Hcmd : forall i, 0 <= i <= Z.of_nat (a + (length w + (b + length arg))) ->
            command i = arr_get (replicate a ASCII_SPACE ++ w ++ replicate b ASCII_SPACE ++ arg) i).
  { intros i Hi. apply terminated_get; [done | by rewrite Hlen]. }
  split_and!; intros t Hr.
  - rewrite Hcmd, arr_get_app_l by (rewrite ?length_replicate; lia). by apply arr_get_replicate.
  - rewrite Hcmd, arr_get_app_r by (rewrite ?length_replicate; lia).
    rewrite length_replicate, arr_get_app_l by lia. f_equal. lia.
  - rewrite Hcmd, !arr_get_app_r by (rewrite ?length_replicate; lia).
    rewrite length_replicate, arr_get_app_l by (rewrite ?length_replicate; lia).
    apply arr_get_replicate. lia.
  - rewrite Hcmd, !arr_get_app_r by (rewrite ?length_replicate; lia).
    rewrite !length_replicate. f_equal. lia.
Qed.

Lemma parse_command_spec fuel command a w b arg k :
  terminated NUL command (cmdline a w b arg) -> cmd_ok w b arg ->
  (length (cmdline a w b arg) < fuel)%nat ->
  exists buf, parse_command fuel command k = Ret w (upd_sys (set_arg_buf (store_str arg buf)) k) /\
    length buf = length (arg_buf (sys k)).
Proof.
  intros Ht (Hw & Harg & Hlw & Hla & Hsp & Hab & Hwb) Hf.
  destruct (cmdline_chars _ _ _ _ _ Ht) as (Ha & Hcw & Hcb & Hca).
  unfold cmdline in Hf. rewrite !length_app, !length_replicate in Hf.
  assert (Hc0 : command (Z.of_nat a + Z.of_nat (length w)) = NUL \/
                command (Z.of_nat a + Z.of_nat (length w)) = ASCII_SPACE).
  { destruct b as [| b].
    - left. destruct Hab as [-> | ?]; [| lia]. specialize (Hca 0).
      change (Z.of_nat 0) with 0 in Hca. rewrite !Z.add_0_r in Hca. apply Hca. simpl. lia.
    - right. specialize (Hcb 0). rewrite Z.add_0_r in Hcb. apply Hcb. lia. }
  assert (Hs1 : skip_spaces fuel command 0 = Some (Z.of_nat a)).
  { rewrite (skip_spaces_spec fuel command 0 a); rewrite ?Z.add_0_l; [done | done | | lia].
    destruct w as [| c w].
    - rewrite (Hwb eq_refl) in *. specialize (Hca 0 ltac:(lia)). cbn [length] in Hca.
      change (Z.of_nat 0) with 0 in Hca. rewrite !Z.add_0_r in Hca. by rewrite Hca.
    - specialize (Hcw 0). rewrite Z.add_0_r in Hcw. rewrite Hcw by (simpl; lia).
      apply Forall_cons in Hw as [[_ Hc] _]. done. }
  unfold parse_command, bind at 1. rewrite Hs1. cbn [within_fuel]. unfold ret at 1, bind at 1.
  rewrite (parse_word_spec fuel command (Z.of_nat a) w) by (done || lia).
  cbn [within_fuel]. unfold ret at 1, bind at 1. cbn [fst snd].
  rewrite (proj2 (Z.leb_gt MAX_COMMAND_LENGTH (Z.of_nat (length w))))
    by (unfold MAX_COMMAND_LENGTH; lia).
  unfold ret at 1, bind at 1, modify at 1, bind at 1.
  rewrite (skip_spaces_spec fuel command _ b); [| done | | lia].
  2: { specialize (Hca 0 ltac:(lia)). rewrite Z.add_0_r in Hca. by rewrite Hca. }
  cbn [within_fuel]. unfold ret at 1, bind at 1.
  rewrite (parse_rest_spec fuel command _ arg); [| intros; apply Hca; lia | done | | lia].
  2: { rewrite Hca by lia. apply arr_get_end. }
  cbn [within_fuel]. unfold ret at 1, bind at 1.
  rewrite (proj2 (Z.leb_gt BUFSIZE (Z.of_nat (length arg)))) by (unfold BUFSIZE; lia).
  unfold ret, bind, modify. exists (arr_set (arg_buf (sys k)) 0 NUL).
  by rewrite length_arr_set.
Qed.

(** ** Control blocks *)

Lemma pcb_addr n : 0 <= n < 6 -> return_pcb_parent n = UNIT_8_MB - (1 + n) * UNIT_8_KB.
Proof.
  intros Hn. unfold return_pcb_parent, UNIT_8_MB, UNIT_8_KB. rewrite s8_small by lia.
  apply u32_small. lia.
Qed.

Lemma pcb_addr_inj i j : 0 <= i < 6 -> 0 <= j < 6 -> return_pcb_parent i = return_pcb_parent j -> i = j.
Proof. intros Hi Hj. rewrite !pcb_addr by done. unfold UNIT_8_KB. lia. Qed.

(** The descriptors of a fresh control block. *)
Lemma create_fds l :
  length l = 8%nat ->
  length (for_loop 8 0 create_fd l) = 8%nat /\
  forall j, 0 <= j < 8 -> fdt_at (for_loop 8 0 create_fd l) j = Fdt (f_ops (fdt_at l j)) (-1) 0 0.
Proof.
  intros Hl.
  pose proof (for_loop_inv (fun i l' => length l' = 8%nat /\
    forall j, 0 <= j < 8 -> fdt_at l' j
      = if decide (j < i) then Fdt (f_ops (fdt_at l j)) (-1) 0 0 else fdt_at l j)
    create_fd 8 0 l) as Hinv.
  destruct Hinv as [Hlen Hfd].
  - split; [done |]. intros j Hj. by rewrite decide_False by lia.
  - intros i l' Hi [Hlen Hfd]. change (0 + Z.of_nat 8) with 8 in Hi. unfold create_fd.
    split; [by rewrite length_arr_set |]. intros j Hj. destruct (decide (j = i)) as [-> | Hne].
    + rewrite fdt_at_set_eq by lia. rewrite Hfd, decide_False, decide_True by lia. done.
    + rewrite fdt_at_set_ne by done. rewrite Hfd by done. repeat case_decide; lia || done.
  - split; [done |]. intros j Hj. rewrite Hfd by done. by rewrite decide_True by lia.
Qed.

Lemma last_process_ext n i t k k' :
  process_num (sys k) = process_num (sys k') -> last_process n i t k = last_process n i t k'.
Proof.
  intros He. revert i. induction n as [| n IH]; intros i; cbn [last_process]; [done |].
  by rewrite He, IH.
Qed.

(** The parent that [create_pcb] picks. *)
Definition parent_of (process_idx : Z) (k : kernel) : Z :=
  if process_idx <? MAX_TERMINALS then process_idx
  else find_parent_process process_idx (active_terminal (sys k)) k.

(** A control block as [create_pcb] leaves it: the terminal on descriptors
    0 and 1, every other descriptor closed. *)
Definition fresh_pcb (idx parent : Z) (p : pcb_t) : Prop :=
  pid p = idx /\ parent_pcb p = return_pcb_parent parent /\ status_retval p = 0 /\
  length (fdt p) = 8%nat /\
  (forall fd, 0 <= fd < 8 -> fd_inode (fdt_at (fdt p) fd) = -1 /\ file_pos (fdt_at (fdt p) fd) = 0 /\
     flags (fdt_at (fdt p) fd) = (if fd <? 2 then 1 else 0) /\
     (fd < 2 -> f_ops (fdt_at (fdt p) fd) = Some TerminalTable)).

Lemma create_pcb_spec idx k :
  0 <= idx < 6 -> length (fdt (pcb_at (return_pcb_parent idx) k)) = 8%nat ->
  let k' := (create_pcb idx k).1 in let a := return_pcb_parent idx in
  (create_pcb idx k).2 = a /\ fresh_pcb idx (parent_of idx k) (pcb_at a k') /\
  (forall b, b <> a -> pcb_at b k' = pcb_at b k) /\
  sys k' = sys (upd_term (active_terminal (sys k)) (set_curr_task idx) k) /\
  mem k' = mem k /\ hw k' = hw k /\ fs k' = fs k.
Proof.
  intros Hi Hl k' a. unfold k', create_pcb. rewrite (s8_small idx) by lia. fold a.
  cbn [fst snd].
  split; [done |]. split; [| split; [| by autorewrite with frame]].
  - unfold upd_fdt. rewrite pcb_at_upd_term, !pcb_at_upd_eq. autorewrite with frame. ksimpl. rewrite (u8_small idx) by lia.
    destruct (create_fds (fdt (pcb_at a k))) as [Hlen Hfd]; [done |].
    set (l0 := for_loop 8 0 create_fd (fdt (pcb_at a k))) in *. unfold fresh_pcb. ksimpl.
    unfold STDIN_IDX, STDOUT_IDX. split_and!; try done.
    + unfold parent_of, find_parent_process. destruct (idx <? MAX_TERMINALS); [done |].
      f_equal. by apply last_process_ext.
    + by rewrite !length_arr_set.
    + intros fd Hr. destruct (decide (fd = 0)) as [-> | H0]; [| destruct (decide (fd = 1)) as [-> | H1]].
      * rewrite !fdt_at_set_eq by (rewrite ?length_arr_set; lia).
        rewrite !fdt_at_set_ne by done. rewrite Hfd by lia. done.
      * rewrite !(fdt_at_set_ne _ 0 1) by done. rewrite !fdt_at_set_eq by (rewrite ?length_arr_set; lia).
        rewrite Hfd by lia. done.
      * rewrite !fdt_at_set_ne by done. rewrite Hfd by lia. ksimpl.
        destruct (Z.ltb_spec fd 2); [lia |]. split_and!; done || lia.
  - intros b Hb. unfold upd_fdt. by rewrite pcb_at_upd_term, !pcb_at_upd_ne by done.
Qed.

(** ** Program pages *)

Lemma prog_phys_eq p : 0 <= p < 6 -> prog_phys p = UNIT_8_MB + p * 0x1000000.
Proof. intros Hp. unfold prog_phys, UNIT_8_MB, UNIT_4_MB. rewrite u32_small; lia. Qed.

(** The kernel's page of 4 MB is mapped to itself. *)
Definition kernel_mapped (m : vmem) : Prop :=
  paging_on m = true /\ length (page_dir m) = DIR_SIZE /\
  arr_get (page_dir m) KERNEL_IDX = UNIT_4_MB + PRESENT_4_MB.

Definition in_kernel (a : Z) : Prop := UNIT_4_MB <= a < UNIT_8_MB.

Lemma kernel_xlate m a : kernel_mapped m -> in_kernel a -> xlate m a = Some a.
Proof.
  unfold in_kernel, UNIT_4_MB, UNIT_8_MB. intros (Hon & _ & He) Ha.
  assert (Hu : u32 a = a) by (apply u32_small; lia).
  assert (Hidx : u32 a / UNIT_4_MB = KERNEL_IDX)
    by (rewrite Hu; unfold UNIT_4_MB, KERNEL_IDX; Z.div_mod_to_equations; lia).
  rewrite (xlate_4mb m a UNIT_4_MB); [| done | right; by rewrite Hidx | done].
  rewrite Hu. f_equal. unfold UNIT_4_MB. Z.div_mod_to_equations. lia.
Qed.

(** The memory after the page of process [p] was mapped at 128 MB. *)
Definition map_prog (p : Z) : vmem -> vmem := map_page (prog_phys p) UNIT_128_MB.

Lemma map_prog_entry p m :
  0 <= p < 6 -> length (page_dir m) = DIR_SIZE ->
  page_dir (map_prog p m) = arr_set (page_dir m) 32 (prog_phys p + PAGE_MAP).
Proof.
  intros Hp Hl. unfold map_prog, map_page. psimpl.
  change (u32 UNIT_128_MB / UNIT_4_MB) with 32. f_equal.
  rewrite prog_phys_eq, u32_small by (unfold UNIT_8_MB; lia).
  apply (lor_flags _ _ 22); unfold UNIT_8_MB, PAGE_MAP; Z.div_mod_to_equations; lia.
Qed.

Lemma map_prog_kernel p m : 0 <= p < 6 -> kernel_mapped m -> kernel_mapped (map_prog p m).
Proof.
  intros Hp (Hon & Hl & He). unfold kernel_mapped. rewrite map_prog_entry by done.
  rewrite length_arr_set, arr_get_set_ne by done. done.
Qed.

Lemma map_prog_xlate p m o :
  0 <= p < 6 -> kernel_mapped m -> 0 <= o < UNIT_4_MB ->
  xlate (map_prog p m) (UNIT_128_MB + o) = Some (prog_phys p + o).
Proof.
  unfold UNIT_4_MB. intros Hp (Hon & Hl & _) Ho.
  assert (Hu : u32 (UNIT_128_MB + o) = UNIT_128_MB + o) by (apply u32_small; unfold UNIT_128_MB; lia).
  assert (Hidx : u32 (UNIT_128_MB + o) / UNIT_4_MB = 32)
    by (rewrite Hu; unfold UNIT_4_MB, UNIT_128_MB; Z.div_mod_to_equations; lia).
  rewrite (xlate_4mb _ _ (prog_phys p)); [| done | left | ].
  - rewrite Hu. do 2 f_equal. unfold UNIT_128_MB, UNIT_4_MB. Z.div_mod_to_equations. lia.
  - rewrite Hidx, map_prog_entry by done. apply arr_get_set_eq. rewrite Hl. unfold DIR_SIZE. lia.
  - rewrite prog_phys_eq by done. unfold UNIT_8_MB, UNIT_4_MB. Z.div_mod_to_equations. lia.
Qed.

Lemma map_prog_ld p m a :
  0 <= p < 6 -> kernel_mapped m -> in_kernel a -> ld (map_prog p m) a = ld m a.
Proof.
  intros Hp Hk Ha. simpl.
  rewrite (kernel_xlate m), (kernel_xlate (map_prog p m)) by (done || by apply map_prog_kernel).
  done.
Qed.

(** Addresses outside the user's page are translated as before. *)
Lemma map_prog_other p m a :
  0 <= p < 6 -> length (page_dir m) = DIR_SIZE -> u32 a / UNIT_4_MB <> 32 ->
  xlate (map_prog p m) a = xlate m a.
Proof.
  intros Hp Hl Ha. unfold xlate. rewrite map_prog_entry, arr_get_set_ne by done. reflexivity.
Qed.

(** A program: a file that fits behind [PROG_IMG_OFF] in the page, in an
    image that lies in the kernel's page. *)
Definition prog_ok (inode : Z) (k : kernel) : Prop :=
  kernel_mapped (mem k) /\ file_of k inode /\ length_of k inode <= 0x3B8000 /\
  (forall a, addr_of k inode a -> in_kernel a).

(** The state with the program of [inode] in the page of process [p]. *)
Definition loaded (inode p : Z) (k : kernel) : kernel :=
  load_program inode (upd_mem (map_prog p) k).

Lemma loaded_mem inode p k :
  0 <= p < 6 -> prog_ok inode k ->
  mem (loaded inode p k)
  = write (map_prog p (mem k)) PROG_IMG_OFF (bytes_of k inode (Z.to_nat (length_of k inode)) 0).
Proof.
  intros Hp (Hk & Hok & Hlen & Haddr). unfold loaded, load_program.
  autorewrite with frame. set (m1 := map_prog p (mem k)).
  set (bb := boot_block (fs k)). set (start := FS_START_ADDR (fs k)).
  assert (Hag : agree (image k) bb start inode (ld m1)).
  { intros a Ha. apply map_prog_ld; [done | done | by apply Haddr]. }
  pose proof (same_length (image k) (ld m1) bb start inode Hag) as Hfl.
  pose proof Hok as (_ & Hflen & _). fold start in Hflen, Hlen.
  assert (Hx : forall i, 0 <= i < length_of k inode ->
            loc m1 (PROG_IMG_OFF + i) = Some (prog_phys p + 0x48000 + i)).
  { intros i Hi. change PROG_IMG_OFF with (UNIT_128_MB + 0x48000).
    rewrite <- !Z.add_assoc. apply map_prog_xlate; [done | done |]. unfold UNIT_4_MB.
    fold start in Hi. lia. }
  fold start in Hx.
  rewrite (read_data_spec (ld m1) bb start inode (m1, PROG_IMG_OFF) 0 UNIT_8_MB).
  - rewrite dst_puts_ptr. cbn [fst]. rewrite Hfl.
    rewrite Z.min_r by (unfold UNIT_8_MB; lia). rewrite Z.sub_0_r.
    rewrite (same_bytes (image k) (ld m1)); [done | done | done | lia |]. lia.
  - by apply (same_ok (image k)).
  - intros a _. reflexivity.
  - rewrite Hfl. fold start. lia.
  - unfold UNIT_8_MB. lia.
  - unfold UNIT_8_MB. lia.
  - rewrite Hfl. split; cbn [fst snd].
    + split; intros *.
      * intros Hi. rewrite Hx by (unfold UNIT_8_MB in *; lia). by eexists.
      * intros Hi Hj. rewrite !Hx by (unfold UNIT_8_MB in *; lia). intros [= ?]. lia.
    + intros b i Hb Hi. rewrite Hx by (unfold UNIT_8_MB in *; lia).
      apply (same_addr (image k)) in Hb; [| done | done]. apply Haddr in Hb.
      change (loc m1 b) with (xlate m1 b).
      rewrite (kernel_xlate m1); [| by apply map_prog_kernel | exact Hb].
      rewrite prog_phys_eq by done. unfold in_kernel, UNIT_8_MB in *. intros [= ?]. lia.
Qed.

(** The program is where its code expects it, in the page of its process. *)
Lemma loaded_bytes inode p k :
  0 <= p < 6 -> prog_ok inode k ->
  bytes (mem (loaded inode p k)) PROG_IMG_OFF (Z.to_nat (length_of k inode))
  = bytes_of k inode (Z.to_nat (length_of k inode)) 0.
Proof.
  intros Hp Hprog. rewrite loaded_mem by done. pose proof Hprog as (Hkm & (_ & Hfl & _) & Hlen & _).
  set (l := bytes_of k inode _ 0).
  assert (Hll : List.length l = Z.to_nat (length_of k inode))
    by (unfold l, file_bytes; by rewrite length_peek).
  pose proof (bytes_write (map_prog p (mem k)) PROG_IMG_OFF l) as Hbw. rewrite Hll in Hbw.
  rewrite Hbw; [apply file_bytes_u8 |].
  assert (Hx : forall t, 0 <= t < Z.of_nat (Z.to_nat (length_of k inode)) ->
            loc (map_prog p (mem k)) (PROG_IMG_OFF + t) = Some (prog_phys p + (0x48000 + t))).
  { intros t Htr. change PROG_IMG_OFF with (UNIT_128_MB + 0x48000). rewrite <- Z.add_assoc.
    apply map_prog_xlate; [done | done |]. unfold UNIT_4_MB. lia. }
  split; intros *; [intros Hr; rewrite Hx by done; by eexists |].
  intros Hr1 Hr2. rewrite !Hx by done. intros [= ?]. lia.
Qed.

Lemma loaded_xlate inode p k :
  0 <= p < 6 -> prog_ok inode k -> forall o, 0 <= o < UNIT_4_MB ->
  xlate (mem (loaded inode p k)) (UNIT_128_MB + o) = Some (prog_phys p + o).
Proof.
  intros Hp Hprog o Ho. rewrite loaded_mem by done.
  change (xlate (write ?m ?a ?l) ?x) with (loc (write m a l) x). rewrite loc_write.
  apply map_prog_xlate; [done | apply Hprog | done].
Qed.

(** ** Process slots *)

(** The slots that a process of terminal [t] may take. *)
Definition slot_for (i t : Z) : Prop := i = t \/ 3 <= i.

Lemma find_slot_spec n i k :
  0 <= active_terminal (sys k) < 3 -> 0 <= i -> 6 <= i + Z.of_nat n ->
  match find_slot n i k with
  | Some j => i <= j < 6 /\ arr_get (process_num (sys k)) j = -1 /\
              slot_for j (active_terminal (sys k)) /\
              forall t, i <= t < j -> slot_for t (active_terminal (sys k)) ->
                arr_get (process_num (sys k)) t <> -1
  | None => forall t, i <= t < 6 -> slot_for t (active_terminal (sys k)) ->
                arr_get (process_num (sys k)) t <> -1
  end.
Proof.
  intros Hact. unfold slot_for. revert i. induction n as [| n IH]; intros i Hi Hn;
    cbn [find_slot]; [intros; lia |]. unfold MAX_PROCESSES, MAX_TERMINALS.
  destruct (Z.leb_spec 6 i); [intros; lia |].
  match goal with |- context [if ?b then _ else _] => destruct b eqn:Hb end.
  - apply andb_true_iff in Hb as [He Hs]. apply Z.eqb_eq in He.
    split_and!; [lia | lia | done | | intros; lia].
    apply orb_true_iff in Hs as [Hs | Hs]; apply andb_true_iff in Hs as [? ?]; cmp; lia.
  - assert (Hno : slot_for i (active_terminal (sys k)) -> arr_get (process_num (sys k)) i <> -1).
    { unfold slot_for. intros Hs He. rewrite He in Hb. cmp; simpl in Hb; try done; lia. }
    specialize (IH (i + 1) ltac:(lia) ltac:(lia)). destruct (find_slot n (i + 1) k) as [j |].
    + destruct IH as (? & ? & ? & Ht). split_and!; [lia | lia | done | done |].
      intros t Hr Hs. destruct (decide (t = i)) as [-> |]; [by apply Hno | apply Ht; [lia | done]].
    + intros t Hr Hs. destruct (decide (t = i)) as [-> |]; [by apply Hno | apply IH; [lia | done]].
Qed.

(** A slot that the next process of the visible terminal can get. *)
Definition slot_free (k : kernel) (i : Z) : Prop :=
  0 <= i < 6 /\ arr_get (process_num (sys k)) i = -1 /\ slot_for i (active_terminal (sys k)).

(** [find_slot] finds the lowest of them. *)
Lemma find_slot_lowest k :
  0 <= active_terminal (sys k) < 3 ->
  match find_slot 8 0 k with
  | Some i => slot_free k i /\ forall t, 0 <= t < i -> ~ slot_free k t
  | None => forall t, ~ slot_free k t
  end.
Proof.
  intros Hact. pose proof (find_slot_spec 8 0 k Hact ltac:(lia) ltac:(lia)) as Hs.
  destruct (find_slot 8 0 k) as [i |].
  - destruct Hs as (Hi & Hf & Hsf & Hlow). split; [by split |]. intros t Ht (_ & He & Hst). by apply (Hlow t).
  - intros t (Ht & He & Hst). by apply (Hs t).
Qed.

(** The table after a process took slot [i] for the visible terminal. *)
Definition taken (i : Z) (k : kernel) : kernel :=
  upd_sys (fun s => set_process_num (arr_set (process_num s) i (s8 (active_terminal s))) s) k.

(** The rest of the translation is what [map_prog] leaves. *)
Lemma loaded_xlate_prog inode p k a :
  0 <= p < 6 -> prog_ok inode k -> xlate (mem (loaded inode p k)) a = xlate (map_prog p (mem k)) a.
Proof. intros Hp Hprog. rewrite loaded_mem by done. exact (loc_write _ _ _ a). Qed.

(** Loading writes the page of the process and nothing else. *)
Lemma loaded_ld_other inode p k a x :
  0 <= p < 6 -> prog_ok inode k -> u32 a / UNIT_4_MB <> 32 -> xlate (mem k) a = Some x ->
  x < prog_phys p \/ prog_phys p + UNIT_4_MB <= x -> ld (mem (loaded inode p k)) a = ld (mem k) a.
Proof.
  intros Hp Hprog Ha Hx Hout. pose proof Hprog as ((_ & Hl & _) & _ & Hlen & _).
  assert (Hm : xlate (map_prog p (mem k)) a = Some x) by by rewrite map_prog_other.
  assert (Hb : forall i, 0 <= i < length_of k inode ->
            loc (map_prog p (mem k)) (PROG_IMG_OFF + i) = Some (prog_phys p + 0x48000 + i)).
  { intros i Hi. change PROG_IMG_OFF with (UNIT_128_MB + 0x48000). rewrite <- !Z.add_assoc.
    apply map_prog_xlate; [done | apply Hprog |]. unfold UNIT_4_MB. lia. }
  rewrite loaded_mem by done. unfold UNIT_4_MB in Hout. set (l := bytes_of _ _ _ _).
  assert (Hll : forall i, 0 <= i < Z.of_nat (length l) -> 0 <= i < length_of k inode).
  { intros i Hi. unfold l in Hi. unfold file_bytes in Hi. rewrite length_peek in Hi. lia. }
  rewrite ld_write_apart.
  - cbn [ld vmem_ops]. by rewrite Hm, Hx.
  - split; intros *.
    + intros Hi. rewrite Hb by by apply Hll. by eexists.
    + intros Hi Hj. rewrite !Hb by by apply Hll. intros [= ?]. lia.
  - intros i Hi. rewrite Hb by by apply Hll. cbn [loc vmem_ops]. rewrite Hm. pose proof (Hll i Hi). intros [= ?]. lia.
Qed.

(** The process table has its shape. *)
Definition procs_wf (k : kernel) : Prop :=
  length (process_num (sys k)) = 6%nat /\ length (terminals (sys k)) = 3%nat /\
  0 <= active_terminal (sys k) < 3 /\ 0 <= main_process (sys k) < 6 /\
  forall a, length (fdt (pcb_at a k)) = 8%nat.

(** ** execute *)

Section execute.
Variable junk : Z -> Z.

Lemma load_program_frame inode k :
  sys (load_program inode k) = sys k /\ hw (load_program inode k) = hw k /\
  fs (load_program inode k) = fs k /\ (forall a, pcb_at a (load_program inode k) = pcb_at a k).
Proof. unfold load_program. by destruct (read_data _ _ _ _ _ _) as [d r]. Qed.

(** The state that no start of a process touches: the devices, the screen's
    cursor, the keyboard and the scheduler. *)
Definition same_devices (k k' : kernel) : Prop :=
  rtc k' = rtc k /\ scr k' = scr k /\ kbd k' = kbd k /\ curr_process k' = curr_process k.

Lemma load_program_devices inode k : same_devices k (load_program inode k).
Proof. unfold load_program. by destruct (read_data _ _ _ _ _ _) as [d r]. Qed.

(** A new process touches no device. *)
Lemma start_process_devices inode idx k e k' :
  start_process junk inode idx k = Leave e k' -> same_devices k k'.
Proof.
  unfold start_process. set (k1 := upd_mem _ k). destruct (load_program_devices inode k1) as (Hr & Hs & Hk & Hc).
  revert Hr Hs Hk Hc. generalize (load_program inode k1). intros k2 Hr Hs Hk Hc. unfold create_pcb, leave.
  intros [= _ <-]. by split_and!.
Qed.

Lemma fresh_pcb_regs idx parent p b e :
  fresh_pcb idx parent p -> fresh_pcb idx parent (set_esp e (set_ebp b p)).
Proof. done. Qed.

(** Where a starting process leaves the machine: at the entry point, in its
    own page, on a fresh control block in which the caller's frame is saved. *)
Definition started (inode idx : Z) (k k' : kernel) : Prop :=
  let a := return_pcb_parent idx in
  sys k' = set_main_process idx
    (sys (upd_term (active_terminal (sys k)) (set_curr_task idx) k)) /\
  fresh_pcb idx (parent_of idx k) (pcb_at a k') /\
  ebp (pcb_at a k') = reg_ebp (hw k) /\ esp (pcb_at a k') = reg_esp (hw k) /\
  (forall b, b <> a -> pcb_at b k' = pcb_at b k) /\
  hw k' = Cpu (reg_ebp (hw k)) (reg_esp (hw k)) true KERNEL_DS (kernel_stack idx) /\
  mem k' = mem (loaded inode idx k) /\ fs k' = fs k.

Lemma start_process_spec inode idx k :
  0 <= idx < 6 -> length (fdt (pcb_at (return_pcb_parent idx) k)) = 8%nat ->
  exists k', start_process junk inode idx k
             = Leave (Iret (entry_point (read_local junk inode ENTRY_POINT 4 k))) k' /\
    started inode idx k k'.
Proof.
  intros Hi Hl. unfold start_process.
  set (k1 := upd_mem _ k). destruct (load_program_frame inode k1) as (Hs & Hh & Hf & Hp).
  change (load_program inode k1) with (loaded inode idx k) in *.
  set (k2 := loaded inode idx k) in *.
  assert (Hp2 : forall a, pcb_at a (cli k2) = pcb_at a k).
  { intros a. unfold cli. rewrite pcb_at_upd_hw, Hp. unfold k1. by rewrite pcb_at_upd_mem. }
  assert (Hs2 : sys (cli k2) = sys k).
  { unfold cli. rewrite sys_upd_hw, Hs. unfold k1. by rewrite sys_upd_mem. }
  destruct (create_pcb_spec idx (cli k2) Hi) as (Ha & Hfresh & Hother & Hsys & Hmem & Hhw & Hfs);
    [by rewrite Hp2 |].
  destruct (create_pcb idx (cli k2)) as [k3 pcb]. cbn [fst snd] in *. subst pcb.
  set (a := return_pcb_parent idx) in *. eexists. split; [reflexivity |].
  unfold started. fold a. unfold sti, set_esp0, set_main, save_regs. autorewrite with frame.
  assert (Hhw3 : hw k3 = set_if_flag false (hw k)).
  { rewrite Hhw. unfold cli. rewrite hw_upd_hw, Hh. unfold k1. by rewrite hw_upd_mem. }
  assert (Hpar : parent_of idx (cli k2) = parent_of idx k).
  { unfold parent_of, find_parent_process. rewrite Hs2.
    destruct (idx <? MAX_TERMINALS); [done |]. apply last_process_ext. by rewrite Hs2. }
  rewrite pcb_at_upd_eq. autorewrite with frame. rewrite Hhw3. ksimpl.
  split_and!.
  - rewrite Hsys. autorewrite with frame. by rewrite Hs2.
  - rewrite <- Hpar. by apply fresh_pcb_regs.
  - done.
  - done.
  - intros b Hb. autorewrite with frame. rewrite pcb_at_upd_ne by done. autorewrite with frame.
    by rewrite Hother, Hp2.
  - by destruct (hw k).
  - by rewrite Hmem.
  - rewrite Hfs. unfold cli. rewrite fs_upd_hw, Hf. unfold k1. by rewrite fs_upd_mem.
Qed.
End execute.

(** The bytes that a local read of four bytes gets. *)
Lemma read_local_file junk inode offset t k :
  file_of k inode -> 0 <= offset -> offset + 4 <= length_of k inode -> 0 <= t < 4 ->
  read_local junk inode offset 4 k t
  = file_byte (image k) (boot_block (fs k)) (FS_START_ADDR (fs k)) inode (offset + t).
Proof.
  intros Hok Ho Hlen Ht. unfold read_local. pose proof Hok as (_ & Hfl & _). unfold FOUR_KB in Hfl.
  rewrite (read_data_spec (image k));
    [| apply _ | exact Hok | intros a _; reflexivity | lia | lia | lia | exact I].
  rewrite Z.min_l by lia. rewrite dst_puts_local. cbn [snd app].
  change (Z.to_nat 4) with 4%nat. unfold local_buf, file_bytes. rewrite length_peek.
  change (Z.of_nat 4) with 4.
  rewrite (proj2 (Z.leb_le 0 t)), (proj2 (Z.ltb_lt t 4)) by lia. cbn [andb].
  assert (Hc : t = 0 \/ t = 1 \/ t = 2 \/ t = 3) by lia.
  cbn [peek]. destruct Hc as [-> | [-> | [-> | ->]]]; unfold arr_get; simpl;
    rewrite ?Z.add_0_r, <- ?Z.add_assoc; reflexivity.
Qed.

(** Printing a literal. *)
Lemma my_puts_lit fuel s k :
  (length (str_bytes s) < fuel)%nat ->
  my_puts fuel (lit s) (Z.of_nat (length (str_bytes s))) k
  = Ret (Z.of_nat (length (str_bytes s))) (draw_all (str_bytes s) k).
Proof.
  intros Hf. unfold my_puts.
  replace (k, 0) with (draw_all (take (Z.to_nat 0) (str_bytes s)) k, 0) by done.
  rewrite (loop_scan _ (fun i => (draw_all (take (Z.to_nat i) (str_bytes s)) k, i))
             (length (str_bytes s))
             (draw_all (str_bytes s) k, Z.of_nat (length (str_bytes s)))); [done | done | |].
  - intros i Hi. rewrite (proj2 (Z.eqb_neq _ _)) by lia. f_equal. f_equal.
    unfold lit. rewrite <- take_snoc by done. unfold draw_all. by rewrite foldl_app.
  - by rewrite Z.eqb_refl, Nat2Z.id, firstn_all.
Qed.

(** The state that a parsed command line leaves: only [arg_buf] changed. *)
Definition args_set (k k0 : kernel) : Prop :=
  exists b, k0 = upd_sys (set_arg_buf b) k.

(** The parsed command with its null. *)
Lemma word_terminated w b arg :
  cmd_ok w b arg -> terminated NUL (chr (arr_str (w ++ [NUL]))) w.
Proof.
  intros (Hnz & _). cbn [chr arr_str]. split.
  - intros i Hi. rewrite arr_get_app_l by done. split.
    + destruct (lookup_lt_is_Some_2 w (Z.to_nat i)) as [c Hc]; [lia |].
      by rewrite (arr_get_lookup w i c) by (done || lia).
    + by destruct (arr_get_forall _ _ _ Hnz Hi).
  - rewrite arr_get_app_r, Z.sub_diag by lia. done.
Qed.

(** [system_execute] on a parsed line, by what the lookup finds. *)
Lemma system_execute_found junk fuel command a w b arg j k :
  terminated NUL command (cmdline a w b arg) -> cmd_ok w b arg ->
  (length (cmdline a w b arg) < fuel)%nat -> (length w <= 32)%nat ->
  has_name (image k) (boot_block (fs k)) w j ->
  let inode := de_inode_num (image k) (boot_block (fs k)) j in
  exists k0, args_set k k0 /\
    system_execute junk fuel command k
    = (if negb (is_elf (read_local junk inode 0 4 k0)) then Ret (-1) k0
       else match find_slot 8 0 k0 with
            | None => (my_puts fuel (lit "Max processes.
") 15;; ret 0) k0
            | Some i => start_process junk inode i (taken i k0)
            end).
Proof.
  intros Ht Hok Hf Hw Hj inode.
  destruct (parse_command_spec fuel command a w b arg k Ht Hok Hf) as (buf & Hp & _).
  unfold system_execute, bind at 1. rewrite Hp. set (k0 := upd_sys _ k).
  exists k0. split; [by eexists |]. unfold bind at 1, gets.
  assert (Hwlen : (length w <= length (cmdline a w b arg))%nat)
    by (unfold cmdline; rewrite !length_app; lia).
  pose proof (word_terminated w b arg Hok) as Hwt.
  destruct (read_dentry_by_name_spec (image k0) (boot_block (fs k0)) fuel (arr_str (w ++ [NUL])) w)
    as [Hfound _]; [done | done | lia |].
  destruct (Hfound j Hw Hj) as (d & -> & _ & _ & _ & Hin). rewrite Hin.
  change (de_inode_num (image k0) (boot_block (fs k0)) j) with inode.
  destruct (negb _); [done |]. destruct (find_slot 8 0 k0); done.
Qed.

Lemma system_execute_devices junk fuel command a w b arg j k e k' :
  terminated NUL command (cmdline a w b arg) -> cmd_ok w b arg ->
  (length (cmdline a w b arg) < fuel)%nat -> (length w <= 32)%nat ->
  has_name (image k) (boot_block (fs k)) w j -> is_Some (find_slot 8 0 k) ->
  system_execute junk fuel command k = Leave e k' -> same_devices k k'.
Proof.
  intros Ht Hok Hf Hw Hj [i Hi]. destruct (system_execute_found junk fuel command a w b arg j k Ht Hok Hf Hw Hj) as (k0 & [ab ->] & ->).
  change (find_slot 8 0 (upd_sys (set_arg_buf ab) k)) with (find_slot 8 0 k). rewrite Hi.
  destruct (negb _); [done |]. exact (start_process_devices junk _ _ _ _ _).
Qed.


(** ** halt *)

(** Process [i] runs, started by process [p]. *)
Definition child_of (i p : Z) (k : kernel) : Prop :=
  3 <= i < 6 /\ 0 <= p < 6 /\ p <> i /\ main_process (sys k) = i /\
  pid (pcb_at (return_pcb_parent i) k) = i /\
  parent_pcb (pcb_at (return_pcb_parent i) k) = return_pcb_parent p /\
  pid (pcb_at (return_pcb_parent p) k) = p.

Lemma halt_terminals_spec i p k :
  length (terminals (sys k)) = 3%nat ->
  let k' := halt_terminals i p k in
  length (terminals (sys k')) = 3%nat /\
  (forall t, 0 <= t < 3 -> curr_task (term_at (terminals (sys k')) t)
     = if curr_task (term_at (terminals (sys k)) t) =? i then p
       else curr_task (term_at (terminals (sys k)) t)) /\
  exists ts, k' = upd_sys (set_terminals ts) k.
Proof.
  intros Hl k'.
  pose proof (for_loop_inv (fun j k1 => length (terminals (sys k1)) = 3%nat /\
    (forall t, 0 <= t < 3 -> curr_task (term_at (terminals (sys k1)) t)
       = if decide (t < j) then
           (if curr_task (term_at (terminals (sys k)) t) =? i then p
            else curr_task (term_at (terminals (sys k)) t))
         else curr_task (term_at (terminals (sys k)) t)) /\
    exists ts, k1 = upd_sys (set_terminals ts) k)
    (fun j k => if curr_task (term_at (terminals (sys k)) j) =? i
                then upd_term j (set_curr_task p) k else k) 3 0 k) as Hinv.
  destruct Hinv as (H1 & H2 & H3).
  - split_and!; [done | | exists (terminals (sys k)); by destruct k as [? ? ? [] ? ? ? ? ? ?]].
    intros t Ht. by rewrite decide_False by lia.
  - intros j k1 Hj (Hl1 & Hc & ts & ->). change (0 + Z.of_nat 3) with 3 in Hj.
    set (k1 := upd_sys (set_terminals ts) k) in *.
    pose proof (Hc j ltac:(lia)) as Hcj. rewrite decide_False in Hcj by lia.
    destruct (Z.eqb_spec (curr_task (term_at (terminals (sys k1)) j)) i) as [He | He].
    + rewrite sys_upd_term. ksimpl. rewrite length_arr_set. split_and!; [done | | by eexists].
      intros t Ht. destruct (decide (t = j)) as [-> | Hne].
      * rewrite term_at_set_eq by lia. ksimpl. rewrite decide_True by lia.
        by rewrite <- Hcj, He, Z.eqb_refl.
      * rewrite term_at_set_ne by done. rewrite Hc by done. repeat case_decide; lia || done.
    + split_and!; [done | | by eexists]. intros t Ht. destruct (decide (t = j)) as [-> | Hne].
      * rewrite decide_True by lia. rewrite Hcj. rewrite Hcj in He.
        by rewrite (proj2 (Z.eqb_neq _ _) He).
      * rewrite Hc by done. repeat case_decide; lia || done.
  - split_and!; [done | | done]. intros t Ht. rewrite H2 by done. by rewrite decide_True by lia.
Qed.

(** What a running program cannot change of the process table by itself: it
    may write, read, open, close, and move its cursor. *)
Definition same_procs (k1 k2 : kernel) : Prop :=
  process_num (sys k2) = process_num (sys k1) /\ main_process (sys k2) = main_process (sys k1) /\
  active_terminal (sys k2) = active_terminal (sys k1) /\
  length (terminals (sys k2)) = 3%nat /\
  (forall t, 0 <= t < 3 -> curr_task (term_at (terminals (sys k2)) t)
                           = curr_task (term_at (terminals (sys k1)) t)) /\
  (forall a, set_fdt [] (pcb_at a k2) = set_fdt [] (pcb_at a k1)).

(** Where a halting child leaves the machine. *)
Definition resumed (status i p : Z) (k k' : kernel) : Prop :=
  main_process (sys k') = p /\
  process_num (sys k') = arr_set (process_num (sys k)) i (-1) /\
  active_terminal (sys k') = active_terminal (sys k) /\
  length (terminals (sys k')) = 3%nat /\
  (forall t, 0 <= t < 3 -> curr_task (term_at (terminals (sys k')) t)
     = if curr_task (term_at (terminals (sys k)) t) =? i then p
       else curr_task (term_at (terminals (sys k)) t)) /\
  reg_ebp (hw k') = ebp (pcb_at (return_pcb_parent i) k) /\
  reg_esp (hw k') = esp (pcb_at (return_pcb_parent i) k) /\
  tss_esp0 (hw k') = kernel_stack p /\
  status_retval (pcb_at (return_pcb_parent p) k') = status /\
  mem k' = map_prog p (mem k) /\ fs k' = fs k.

Lemma system_halt_child junk fuel status i p k :
  child_of i p k -> length (terminals (sys k)) = 3%nat ->
  exists k', system_halt junk fuel status k = Leave (RetFromHalt (u8 status)) k' /\
    resumed (u8 status) i p k k'.
Proof.
  intros (Hi & Hp & Hne & Hmain & Hpid & Hpar & Hppid) Hl. unfold system_halt.
  change (main_process (sys (cli k))) with (main_process (sys k)). rewrite Hmain.
  set (a := return_pcb_parent i) in *.
  change (pcb_at a (cli k)) with (pcb_at a k). rewrite Hpar.
  set (ap := return_pcb_parent p) in *.
  assert (Hap : a <> ap).
  { intros He. apply pcb_addr_inj in He; lia. }
  set (k1 := upd_pcb ap _ _).
  assert (Hp1 : pid (pcb_at ap k1) = p).
  { unfold k1. rewrite pcb_at_upd_eq. ksimpl. exact Hppid. }
  assert (Ha1 : pcb_at a k1 = pcb_at a k).
  { unfold k1. rewrite pcb_at_upd_ne by done. done. }
  rewrite Ha1, Hp1, Hpid.
  destruct (halt_terminals_spec i p k1) as (Hl2 & Hc2 & ts & Hk2); [done |].
  rewrite Hk2 in Hl2, Hc2 |- *. set (k2 := upd_sys (set_terminals ts) k1) in *.
  assert (Ha2 : pcb_at a k2 = pcb_at a k) by (unfold k2; by rewrite pcb_at_upd_sys).
  rewrite Ha2, Hpid. set (k3 := upd_sys _ k2).
  assert (Ha3 : pcb_at a k3 = pcb_at a k) by (change (pcb_at a k3) with (pcb_at a k2); done).
  rewrite Ha3, Hpid, (proj2 (Z.ltb_ge i MAX_TERMINALS)) by (unfold MAX_TERMINALS; lia).
  unfold bind, ret, resume_parent. eexists. split; [reflexivity |].
  assert (Hp3 : pid (pcb_at ap k3) = p).
  { unfold k3, k2. by rewrite !pcb_at_upd_sys. }
  rewrite Hp3. unfold resumed, set_main, set_esp0, set_regs. autorewrite with frame.
  rewrite Ha3. ksimpl.
  assert (Hs3 : process_num (sys k3) = arr_set (process_num (sys k)) i (-1)).
  { unfold k3. rewrite sys_upd_sys. ksimpl. rewrite <- Hpid at 1. unfold k2, k1.
    autorewrite with frame. ksimpl. by rewrite Hpid. }
  split_and!; try done.
  unfold k3, k2. fold ap. rewrite !pcb_at_upd_sys. unfold k1. by rewrite pcb_at_upd_eq.
Qed.

(** What a halt does before it decides where to go on. *)
Lemma exit_frame junk fuel status k :
  procs_wf k ->
  let a := return_pcb_parent (main_process (sys k)) in
  exists k1, system_halt junk fuel status k
    = ((if pid (pcb_at a k) <? MAX_TERMINALS then execute_shell junk fuel else ret 0);;
       resume_parent (u8 status) a (parent_pcb (pcb_at a k))) k1 /\
    mem k1 = mem k /\ fs k1 = fs k /\ procs_wf k1 /\
    active_terminal (sys k1) = active_terminal (sys k) /\
    main_process (sys k1) = main_process (sys k) /\
    process_num (sys k1) = arr_set (process_num (sys k)) (pid (pcb_at a k)) (-1).
Proof.
  intros (Hlp & Hlt & Hact & Hmain & Hfdt) a. unfold system_halt.
  change (main_process (sys (cli k))) with (main_process (sys k)). fold a.
  change (pcb_at a (cli k)) with (pcb_at a k). set (parent := parent_pcb (pcb_at a k)).
  set (k1 := upd_pcb parent _ (cli k)).
  assert (Hp1 : forall b, pid (pcb_at b k1) = pid (pcb_at b k) /\ fdt (pcb_at b k1) = fdt (pcb_at b k)).
  { intros b. unfold k1. destruct (decide (parent = b)) as [-> | Hb];
      [by rewrite pcb_at_upd_eq | by rewrite pcb_at_upd_ne]. }
  destruct (halt_terminals_spec (pid (pcb_at a k1)) (pid (pcb_at parent k1)) k1) as (Hl2 & _ & ts & Hk2);
    [done |]. rewrite Hk2 in Hl2 |- *. set (k2 := upd_sys (set_terminals ts) k1) in *.
  assert (Ha2 : pid (pcb_at a k2) = pid (pcb_at a k))
    by (change (pcb_at a k2) with (pcb_at a k1); apply Hp1).
  set (k3 := upd_sys _ k2).
  assert (Ha3 : pid (pcb_at a k3) = pid (pcb_at a k)) by (change (pcb_at a k3) with (pcb_at a k2); done).
  rewrite Ha3. exists k3. split; [done |]. unfold k3, procs_wf. autorewrite with frame. ksimpl.
  rewrite Ha2, length_arr_set. split; [done |]. split; [done |]. split; [| done].
  split; [exact Hlp |]. split; [exact Hl2 |]. split; [exact Hact |]. split; [exact Hmain |].
  intros b. change (length (fdt (pcb_at b k1)) = 8%nat).
  destruct (Hp1 b) as [_ ->]. apply Hfdt.
Qed.

(** A free slot below 3 of the visible terminal is taken first. *)
Lemma own_slot i k :
  active_terminal (sys k) = i -> 0 <= i < 3 -> arr_get (process_num (sys k)) i = -1 ->
  find_slot 8 0 k = Some i.
Proof.
  intros Hact Hi Hfree. pose proof (find_slot_spec 8 0 k ltac:(lia) ltac:(lia) ltac:(lia)) as Hs.
  rewrite Hact in Hs. destruct (find_slot 8 0 k) as [n |].
  - destruct Hs as (Hn & _ & [Hsn | Hsn] & Hlow); [by subst |].
    destruct (Hlow i); [lia | by left | done].
  - destruct (Hs i); [lia | by left | done].
Qed.

(** A started process is a child of the process that [parent_of] finds. *)
Lemma started_child inode i p k k1 :
  3 <= i < 6 -> 0 <= p < 6 -> p <> i -> parent_of i (taken i k) = p ->
  pid (pcb_at (return_pcb_parent p) k) = p -> started inode i (taken i k) k1 -> child_of i p k1.
Proof.
  intros Hi Hp Hne Hpar Hppid (Hs1 & Hfresh & _ & _ & Hother & _). rewrite Hpar in Hfresh.
  destruct Hfresh as (Hpid & Hparent & _).
  assert (Hinj : return_pcb_parent p <> return_pcb_parent i) by (intros He; apply pcb_addr_inj in He; lia).
  autorewrite with frame in Hs1. unfold taken in Hs1. rewrite sys_upd_sys in Hs1. ksimpl in Hs1.
  split_and!; try lia; rewrite ?Hs1, ?Hpid, ?Hparent, ?(Hother _ Hinj); done.
Qed.

(** The fields of a control block other than the descriptors. *)
Lemma same_procs_fields k1 k2 a :
  same_procs k1 k2 ->
  pid (pcb_at a k2) = pid (pcb_at a k1) /\ parent_pcb (pcb_at a k2) = parent_pcb (pcb_at a k1) /\
  ebp (pcb_at a k2) = ebp (pcb_at a k1) /\ esp (pcb_at a k2) = esp (pcb_at a k1).
Proof.
  intros (_ & _ & _ & _ & _ & Hpcb). specialize (Hpcb a).
  destruct (pcb_at a k2), (pcb_at a k1). by simplify_eq/=.
Qed.

Lemma child_of_same i p k1 k2 : same_procs k1 k2 -> child_of i p k1 -> child_of i p k2.
Proof.
  intros Hsame (Hi & Hp & Hne & Hm & H1 & H2 & H3).
  destruct (same_procs_fields k1 k2 (return_pcb_parent i) Hsame) as (E1 & E2 & _).
  destruct (same_procs_fields k1 k2 (return_pcb_parent p) Hsame) as (E3 & _).
  destruct Hsame as (_ & Hmp & _). split_and!; try lia; rewrite ?Hmp, ?E1, ?E2, ?E3; done.
Qed.

(** ** Descriptors through the tables *)

(** The operation tables are the ones [setup_exec] fills in. *)
Definition tables_set (k : kernel) : Prop :=
  op_read (file_table (sys k)) = Some DrvFile /\ op_write (file_table (sys k)) = Some DrvFile /\
  op_close (file_table (sys k)) = Some DrvFile /\ op_read (dir_table (sys k)) = Some DrvDir /\
  op_read (rtc_table (sys k)) = Some DrvRtc /\ op_write (rtc_table (sys k)) = Some DrvRtc /\
  op_close (rtc_table (sys k)) = Some DrvRtc /\
  op_read (terminal_table (sys k)) = Some DrvTerminal /\
  op_write (terminal_table (sys k)) = Some DrvTerminal.

Lemma setup_exec_tables k : tables_set (setup_exec k).
Proof. by split_and!. Qed.

(** The control block of the running process. *)
Definition main_pcb (k : kernel) : Z := return_pcb_parent (main_process (sys k)).

Lemma system_read_file fuel fd inode pos buf nbytes k :
  let k0 := set_filesys_pcb (main_pcb k) k in
  tables_set k -> opened fd inode pos k0 -> f_ops (cur_fd fd k0) = Some FileTable -> buf <> 0 ->
  system_read fuel fd buf nbytes k = file_read fd buf nbytes k0.
Proof.
  intros k0 Ht Ho Hf Hb. destruct Ho as ((Hfd & _) & _). unfold system_read, MAX_FD.
  rewrite (proj2 (Z.eqb_neq buf 0) Hb), (proj2 (Z.ltb_ge fd 0)), (proj2 (Z.ltb_ge 7 fd)) by lia.
  cbn [orb]. fold (main_pcb k) k0. unfold fd_ops.
  change (fdt_at (fdt (pcb_at (main_pcb k) k0)) fd) with (cur_fd fd k0). rewrite Hf.
  cbn [table_of]. change (file_table (sys k0)) with (file_table (sys k)).
  destruct Ht as (-> & _). done.
Qed.

Lemma opened_f_ops fd inode pos t k :
  opened fd inode pos k -> let k' := upd_cur_fd fd (set_f_ops t) k in
  opened fd inode pos k' /\ f_ops (cur_fd fd k') = t.
Proof.
  intros (Hv & Hf & Hi & Hp) k'. unfold opened, k'. rewrite !cur_fd_upd_eq by done. ksimpl.
  split_and!; try done. by apply fd_valid_upd.
Qed.

(** [system_open] on the name of a regular file. *)
Lemma system_open_file table_addr fuel p l j k :
  let k0 := set_filesys_pcb (main_pcb k) k in
  let f := image k in let bb := boot_block (fs k) in let inode := de_inode_num f bb j in
  p <> 0 -> terminated NUL (fun i => f (p + i)) l -> (length l < fuel)%nat ->
  (0 < length l <= 32)%nat -> has_name f bb l j -> de_filetype f bb j = 2 -> fdt_wf k0 ->
  exists r k', system_open table_addr fuel p k
      = Ret r (store_f_ops table_addr (main_pcb k) r FileTable k') /\
    (r = -1 <->
       (exists t, 0 <= t < 8 /\ bitmap_open t k0 = false /\ fd_inode (cur_fd t k0) = inode) \/
       (forall t, 0 <= t < 8 -> bitmap_open t k0 = false)) /\
    mem k' = mem k /\ curr_pcb (fs k') = main_pcb k /\ sys k' = sys k /\
    boot_block (fs k') = bb /\ FS_START_ADDR (fs k') = FS_START_ADDR (fs k) /\
    (r <> -1 -> opened r inode 0 k').
Proof.
  intros k0 f bb inode Hp Ht Hf Hl Hj Hty Hwf. unfold system_open. fold (main_pcb k) k0.
  change (image k0) with f. change (boot_block (fs k0)) with bb.
  set (name := ptr_str f p).
  assert (Hn : is_null name = false) by (unfold name, ptr_str; by apply Z.eqb_neq).
  assert (Hgt : get_filetype f bb fuel name = Some 2).
  { destruct (get_filetype_spec f bb fuel name l Hn Ht Hf) as [Hg _]. by rewrite (Hg j Hl Hj), Hty. }
  rewrite Hgt.
  destruct (file_open_spec fuel name l j k0 Hn Ht Hf (proj2 Hl) Hj Hwf)
    as (r & k' & Ho & Hm & Hneg & Hpos).
  unfold bind. rewrite Ho. unfold modify, ret. exists r, k'. split; [done |].
  change (image k0) with f in *. change (boot_block (fs k0)) with bb in *. rewrite Hty in Hneg.
  assert (Hfs : sys k' = sys k /\ curr_pcb (fs k') = main_pcb k /\ boot_block (fs k') = bb /\
                FS_START_ADDR (fs k') = FS_START_ADDR (fs k)).
  { clear Hneg Hpos Hm. revert Ho. unfold file_open. destruct (read_dentry_by_name _ _ _ _) as [[d |] |].
    - destruct (filetype d =? 1); [by intros [= _ <-] |].
      destruct (inode_open _ _ _ _); [by intros [= _ <-] |].
      destruct (first_free _ _ _); [| by intros [= _ <-]].
      unfold fill_bitmap. intros [= _ <-]. by destruct ((FD_MAX_IDX <=? z) || (z <? 0)).
    - by intros [= _ <-].
    - done. }
  destruct Hfs as (H1 & H2 & H3 & H4). split_and!; try done.
  - split.
    + intros Hr. destruct (proj1 Hneg Hr) as [? | [? | ?]]; [done | by left | by right].
    + intros [? | ?]; apply Hneg; right; [by left | by right].
  - intros Hr. by apply Hpos.
Qed.

(** [execute] of a program in the file system. *)
Lemma system_execute_starts junk fuel command a w b arg j k :
  let inode := de_inode_num (image k) (boot_block (fs k)) j in
  let byte := file_byte (image k) (boot_block (fs k)) (FS_START_ADDR (fs k)) inode in
  terminated NUL command (cmdline a w b arg) -> cmd_ok w b arg ->
  (length (cmdline a w b arg) < fuel)%nat -> (length w <= 32)%nat -> (15 < fuel)%nat ->
  has_name (image k) (boot_block (fs k)) w j -> procs_wf k -> prog_ok inode k ->
  28 <= length_of k inode -> is_elf byte = true ->
  exists k0, args_set k k0 /\
  match find_slot 8 0 k with
  | None => system_execute junk fuel command k
            = Ret 0 (draw_all (str_bytes "Max processes.
") k0)
  | Some i => exists k', 0 <= i < 6 /\ arr_get (process_num (sys k)) i = -1 /\
      slot_for i (active_terminal (sys k)) /\
      system_execute junk fuel command k
      = Leave (Iret (entry_point (fun t => byte (24 + t)))) k' /\
      started inode i (taken i k0) k' /\
      bytes (mem k') PROG_IMG_OFF (Z.to_nat (length_of k inode))
      = bytes_of k inode (Z.to_nat (length_of k inode)) 0 /\
      forall o, 0 <= o < UNIT_4_MB -> xlate (mem k') (UNIT_128_MB + o) = Some (prog_phys i + o)
  end.
Proof.
  intros inode byte Ht Hok Hf Hw Hf15 Hj Hwf Hprog Hlen Helf.
  destruct (system_execute_found junk fuel command a w b arg j k Ht Hok Hf Hw Hj) as (k0 & Hk0 & He).
  fold inode in He. exists k0. split; [done |]. destruct Hk0 as [ab ->].
  set (k0 := upd_sys (set_arg_buf ab) k) in *.
  pose proof Hprog as (Hkm & Hfile & Hlen2 & Haddr).
  assert (Hl0 : forall off t, 0 <= off -> off + 4 <= length_of k inode -> 0 <= t < 4 ->
            read_local junk inode off 4 k0 t = byte (off + t)).
  { intros off t Ho Hle Hr. by apply (read_local_file junk inode off t k0). }
  assert (Hisf : is_elf (read_local junk inode 0 4 k0) = true).
  { revert Helf. unfold is_elf. rewrite !Hl0 by lia. by rewrite !Z.add_0_l. }
  rewrite Hisf in He. cbn [negb] in He. destruct Hwf as (Hlp & Hlt & Hact & Hmain & Hfdt).
  pose proof (find_slot_spec 8 0 k Hact ltac:(lia) ltac:(lia)) as Hslot.
  change (find_slot 8 0 k0) with (find_slot 8 0 k) in He.
  destruct (find_slot 8 0 k) as [i |].
  - destruct Hslot as (Hi & Hfree & Hsf & _). rewrite He.
    destruct (start_process_spec junk inode i (taken i k0)) as (k' & Hs & Hst); [done | apply Hfdt |].
    exists k'. split; [done |]. split; [done |]. split; [done |]. split; [| split; [done | split]].
    + rewrite Hs. do 2 f_equal. unfold entry_point, ENTRY_POINT.
      change (read_local junk inode 24 4 (taken i k0)) with (read_local junk inode 24 4 k0).
      by rewrite !Hl0 by lia.
    + destruct Hst as (_ & _ & _ & _ & _ & _ & -> & _). by apply (loaded_bytes inode i (taken i k0)).
    + destruct Hst as (_ & _ & _ & _ & _ & _ & -> & _). by apply (loaded_xlate inode i (taken i k0)).
  - rewrite He. unfold bind.
    pose proof (my_puts_lit fuel "Max processes.
" k0) as Hputs. change (Z.of_nat (length (str_bytes "Max processes.
"))) with 15 in Hputs. rewrite Hputs by (simpl; lia). done.
Qed.

(** ** Properties *)

(** C30: Arguments arrive: whatever spaces separate them, the command line is
    split into command and argument, and the next [getargs] returns the
    argument with its terminator, or -1 when there was none. *)
Theorem getargs_returns_argument fuel command a w b arg buf nbytes k :
  terminated NUL command (cmdline a w b arg) -> cmd_ok w b arg ->
  (length (cmdline a w b arg) < fuel)%nat -> Forall (fun c => 0 <= c < 256) arg ->
  length (arg_buf (sys k)) = 128%nat -> buf <> 0 -> nbytes <> 0 -> region (mem k) buf 128 ->
  exists k1, parse_command fuel command k = Ret w k1 /\
    (arg = [] -> system_getargs buf nbytes k1 = Ret (-1) k1) /\
    (arg <> [] -> exists k2, system_getargs buf nbytes k1 = Ret 0 k2 /\
       bytes (mem k2) buf (length arg + 1) = arg ++ [NUL] /\
       same_outside (mem k) (mem k2) buf (length arg + 1)).
Proof.
  intros Ht Hok Hf Hb Hlen Hbuf Hnb Hr.
  destruct (parse_command_spec fuel command a w b arg k Ht Hok Hf) as (ab & Hp & Hlab).
  eexists. split; [exact Hp |]. destruct Hok as (_ & Harg & _ & Hla & _).
  set (k1 := upd_sys _ k). unfold system_getargs.
  rewrite (proj2 (Z.eqb_neq _ _) Hbuf), (proj2 (Z.eqb_neq _ _) Hnb). cbn [orb].
  change (arg_buf (sys k1)) with (store_str arg ab).
  assert (Hst : terminated NUL (arr_get (store_str arg ab)) arg)
    by (apply store_str_terminated; [lia | done]).
  change (Z.to_nat BUFSIZE) with 128%nat.
  rewrite (strlen_terminated 128 _ arg) by done. split.
  - by intros ->.
  - intros Hne. rewrite (proj2 (Z.eqb_neq _ 0)) by (destruct arg; simpl in *; [done | lia]).
    change (mem k1) with (mem k).
    rewrite (strcpy_loop 128 (mem k) buf NUL (fun _ => arr_get (store_str arg ab)) arg) by done.
    eexists. split; [reflexivity |]. cbn [mem set_mem].
    assert (Hl1 : length (arg ++ [NUL]) = (length arg + 1)%nat) by (rewrite length_app; done).
    assert (Hr1 : region (mem k) buf (length (arg ++ [NUL]))) by (eapply region_le; [done | lia]).
    split.
    + rewrite <- Hl1. rewrite bytes_write by done. rewrite fmap_app. f_equal.
      by apply u8_bytes.
    + rewrite <- Hl1. by apply same_outside_write.
Qed.

(** C1: [execute] starts a program: for a file with the ELF magic that fits
    its page, the lowest slot that is free and that the visible terminal may
    use is taken, control leaves to the address stored at byte 24 of the
    file, on a fresh control block with the caller's frame saved in it, and
    the whole file is in memory at 0x08048000, in the page of the new
    process. When there is no such slot the call prints a message and
    returns 0. *)
Theorem execute_starts_program junk fuel command a w b arg j k :
  let inode := de_inode_num (image k) (boot_block (fs k)) j in
  let byte := file_byte (image k) (boot_block (fs k)) (FS_START_ADDR (fs k)) inode in
  terminated NUL command (cmdline a w b arg) -> cmd_ok w b arg ->
  (length (cmdline a w b arg) < fuel)%nat -> (length w <= 32)%nat -> (15 < fuel)%nat ->
  has_name (image k) (boot_block (fs k)) w j -> procs_wf k -> prog_ok inode k ->
  28 <= length_of k inode -> is_elf byte = true ->
  exists k0, args_set k k0 /\
  ((forall i, ~ slot_free k i) ->
     system_execute junk fuel command k
     = Ret 0 (draw_all (str_bytes "Max processes.
") k0)) /\
  (forall i, slot_free k i -> (forall t, 0 <= t < i -> ~ slot_free k t) ->
     exists k', system_execute junk fuel command k
       = Leave (Iret (entry_point (fun t => byte (24 + t)))) k' /\
       started inode i (taken i k0) k' /\
       bytes (mem k') PROG_IMG_OFF (Z.to_nat (length_of k inode))
       = bytes_of k inode (Z.to_nat (length_of k inode)) 0 /\
       forall o, 0 <= o < UNIT_4_MB -> xlate (mem k') (UNIT_128_MB + o) = Some (prog_phys i + o)).
Proof.
  intros inode byte Ht Hok Hf Hw Hf15 Hj Hwf Hprog Hlen Helf.
  destruct (system_execute_starts junk fuel command a w b arg j k Ht Hok Hf Hw Hf15 Hj Hwf Hprog Hlen Helf)
    as (k0 & Hk0 & Hr).
  exists k0. split; [exact Hk0 |]. pose proof (find_slot_lowest k (proj1 (proj2 (proj2 Hwf)))) as Hs.
  destruct (find_slot 8 0 k) as [n |].
  - destruct Hs as [Hn Hlow]. split; [intros Hno; by destruct (Hno n) |]. intros i Hi Hleast.
    assert (i = n) as ->; [| by destruct Hr as (k' & _ & _ & _ & Hr); exists k'].
    destruct (decide (i < n)); [by destruct (Hlow i); [destruct Hi; lia |] |].
    destruct (decide (n < i)); [by destruct (Hleast n); [destruct Hn; lia |] | lia].
  - split; [by intros _ |]. intros i Hi. by destruct (Hs i).
Qed.


(** C2: [halt] undoes [execute]: when process [p] runs on the visible
    terminal and executes a program, then however the child [i] that was
    started leaves memory, its halt frees the slot, makes [p] the running
    process and the task of its terminal again, maps the page of [p] at
    128 MB, restores the stack frame of the [execute] call and leaves to its
    end with the status, cut to 8 bits, as the value. *)
Theorem halt_undoes_execute junk fuel status inode i p k k1 k2 :
  procs_wf k -> 3 <= i < 6 -> arr_get (process_num (sys k)) i = -1 -> main_process (sys k) = p ->
  p <> i -> parent_of i (taken i k) = p -> pid (pcb_at (return_pcb_parent p) k) = p ->
  curr_task (term_at (terminals (sys k)) (active_terminal (sys k))) = p ->
  (forall t, 0 <= t < 3 -> curr_task (term_at (terminals (sys k)) t) <> i) ->
  started inode i (taken i k) k1 ->
  same_procs k1 k2 -> kernel_mapped (mem k2) ->
  exists k3, system_halt junk fuel status k2 = Leave (RetFromHalt (u8 status)) k3 /\
    main_process (sys k3) = p /\ process_num (sys k3) = process_num (sys k) /\
    active_terminal (sys k3) = active_terminal (sys k) /\
    (forall t, 0 <= t < 3 -> curr_task (term_at (terminals (sys k3)) t)
                              = curr_task (term_at (terminals (sys k)) t)) /\
    reg_ebp (hw k3) = reg_ebp (hw k) /\ reg_esp (hw k3) = reg_esp (hw k) /\
    tss_esp0 (hw k3) = kernel_stack p /\
    forall o, 0 <= o < UNIT_4_MB -> xlate (mem k3) (UNIT_128_MB + o) = Some (prog_phys p + o).
Proof.
  intros (Hlp & Hlt & Hact & Hmain & Hfdt) Hi Hfree Hp Hne Hpar Hppid Hcur Hnoti Hst Hsame Hkm.
  rewrite Hp in Hmain.
  pose proof (started_child inode i p k k1 Hi Hmain Hne Hpar Hppid Hst) as Hch.
  destruct (same_procs_fields k1 k2 (return_pcb_parent i) Hsame) as (_ & _ & H3 & H4).
  pose proof Hsame as (Hpn2 & _ & Hat2 & Hlt2 & Hct2 & _).
  destruct Hst as (Hs1 & _ & Hebp & Hesp & _).
  autorewrite with frame in Hs1. unfold taken in Hs1. rewrite sys_upd_sys in Hs1. ksimpl in Hs1.
  destruct (system_halt_child junk fuel status i p k2) as (k3 & Hh & Hr).
  - by apply (child_of_same i p k1).
  - exact Hlt2.
  - exists k3. split; [exact Hh |].
    destruct Hr as (Hm & Hpn & Ha & _ & Hc & He1 & He2 & He3 & _ & Hmem & _).
    rewrite He1, He2, H3, H4, Hmem. split_and!; try done.
    + rewrite Hpn, Hpn2, Hs1. ksimpl. apply arr_set_restore; [lia | exact Hfree].
    + by rewrite Ha, Hat2, Hs1.
    + intros t Ht. rewrite Hc, Hct2, Hs1 by done. ksimpl.
      destruct (decide (t = active_terminal (sys k))) as [-> | Hta].
      * rewrite term_at_set_eq by lia. ksimpl. by rewrite Z.eqb_refl.
      * rewrite term_at_set_ne by done. by rewrite (proj2 (Z.eqb_neq _ _) (Hnoti t Ht)).
    + intros o Ho. by apply map_prog_xlate.
Qed.

(** C12: Opening and reading a file through the system calls: [open] of the
    name of a regular file either fails, because its inode is open already
    or no descriptor is free, or gives a descriptor from which [read] then
    delivers the first bytes of that file. *)
Theorem open_then_read table_addr fuel p l j buf nbytes k :
  let k0 := set_filesys_pcb (main_pcb k) k in
  let inode := de_inode_num (image k) (boot_block (fs k)) j in
  let n := Z.min nbytes (length_of k inode) in
  p <> 0 -> terminated NUL (fun i => image k (p + i)) l -> (length l < fuel)%nat ->
  (0 < length l <= 32)%nat -> has_name (image k) (boot_block (fs k)) l j ->
  de_filetype (image k) (boot_block (fs k)) j = 2 -> fdt_wf k0 -> tables_set k ->
  file_of k inode -> buf <> 0 -> 0 <= nbytes -> region (mem k) buf (Z.to_nat n) ->
  apart (mem k) (addr_of k inode) buf (Z.to_nat n) ->
  exists r k1, system_open table_addr fuel p k = Ret r k1 /\
    (r = -1 <->
       (exists t, 0 <= t < 8 /\ bitmap_open t k0 = false /\ fd_inode (cur_fd t k0) = inode) \/
       (forall t, 0 <= t < 8 -> bitmap_open t k0 = false)) /\
    (r <> -1 -> exists k2, system_read fuel r buf nbytes k1 = Ret n k2 /\
       mem k2 = write (mem k) buf (bytes_of k inode (Z.to_nat n) 0)).
Proof.
  intros k0 inode n Hp Ht Hf Hl Hj Hty Hwf Htab Hfile Hb Hnb Hr Ha.
  destruct (system_open_file table_addr fuel p l j k Hp Ht Hf Hl Hj Hty Hwf)
    as (r & k' & Ho & Hneg & Hm & Hcp & Hs & Hbb & Hst & Hpos).
  exists r, (store_f_ops table_addr (main_pcb k) r FileTable k'). split; [exact Ho |].
  split; [exact Hneg |]. intros Hr1. specialize (Hpos Hr1). fold inode in Hpos.
  pose proof Hpos as ((Hrange & _) & _). unfold store_f_ops, MAX_FD.
  rewrite (proj2 (Z.leb_le 0 r)), (proj2 (Z.leb_le r 7)) by lia. cbn [andb].
  rewrite <- Hcp. fold (upd_cur_fd r (set_f_ops (Some FileTable)) k').
  destruct (opened_f_ops r inode 0 (Some FileTable) k' Hpos) as [Hop Hfo].
  set (k1 := upd_cur_fd r _ k') in *.
  assert (Hk1 : main_pcb k1 = main_pcb k).
  { unfold main_pcb. change (sys k1) with (sys k'). by rewrite Hs. }
  assert (Heq : set_filesys_pcb (main_pcb k1) k1 = k1).
  { rewrite Hk1, <- Hcp. unfold set_filesys_pcb, upd_fs, k1, upd_cur_fd.
    destruct k' as [? ? ? ? [] ? ? ? ? ?]. done. }
  rewrite (system_read_file fuel r inode 0); [| | by rewrite Heq | by rewrite Heq | done].
  2: { unfold tables_set. change (sys k1) with (sys k'). rewrite Hs. exact Htab. }
  rewrite Heq.
  assert (Himg : image k1 = image k) by (unfold image; change (mem k1) with (mem k'); by rewrite Hm).
  assert (Hbb1 : boot_block (fs k1) = boot_block (fs k)) by exact Hbb.
  assert (Hst1 : FS_START_ADDR (fs k1) = FS_START_ADDR (fs k)) by exact Hst.
  assert (Hmk1 : mem k1 = mem k) by exact Hm.
  pose proof (file_read_spec r inode 0 buf nbytes k1 Hop) as Hfr.
  rewrite Himg, Hbb1, Hst1, Hmk1, Z.sub_0_r in Hfr. fold n in Hfr.
  pose proof Hfile as (_ & Hfl & _).
  rewrite Hfr by (done || lia). eexists. split; [reflexivity |].
  rewrite mem_after_read. by rewrite Himg, Hbb1, Hst1, Hmk1.
Qed.

(** A failed open writes below the control block: when the file is
    already open or no descriptor is free, [system_open] returns -1 but has
    stored the address of [file_table] at index -1 of the descriptors, in
    the four bytes that start 16 bytes below the control block. *)
Theorem failed_open_stores table_addr fuel p l j k :
  let k0 := set_filesys_pcb (main_pcb k) k in
  let inode := de_inode_num (image k) (boot_block (fs k)) j in
  p <> 0 -> terminated NUL (fun i => image k (p + i)) l -> (length l < fuel)%nat ->
  (0 < length l <= 32)%nat -> has_name (image k) (boot_block (fs k)) l j ->
  de_filetype (image k) (boot_block (fs k)) j = 2 -> fdt_wf k0 ->
  (exists t, 0 <= t < 8 /\ bitmap_open t k0 = false /\ fd_inode (cur_fd t k0) = inode) \/
    (forall t, 0 <= t < 8 -> bitmap_open t k0 = false) ->
  exists k1, system_open table_addr fuel p k = Ret (-1) k1 /\
    mem k1 = st32 (mem k) (main_pcb k - 16) (table_addr FileTable).
Proof.
  intros k0 inode Hp Ht Hf Hl Hj Hty Hwf Hbad.
  destruct (system_open_file table_addr fuel p l j k Hp Ht Hf Hl Hj Hty Hwf)
    as (r & k' & Ho & Hneg & Hm & _).
  apply Hneg in Hbad as Hr. subst r. eexists. split; [exact Ho |].
  unfold store_f_ops. cbn [andb Z.leb Z.compare]. unfold upd_mem. cbn [mem set_mem]. by rewrite Hm.
Qed.

(** The dispatcher: 0 and every number above 10 are refused with -1 and
    without a change of state, 1 to 8 reach the eight calls with their
    arguments, and 9 and 10, which pass the range check, have no entry in
    the jump table. *)
Theorem syscall_wrapper_dispatch junk table_addr fuel eax ebx ecx edx k :
  0 <= eax < 4294967296 ->
  syscall_wrapper junk table_addr fuel eax ebx ecx edx k
  = (if decide (eax = 0 \/ 10 < eax) then Ret (-1) k
     else if decide (eax = 1) then system_halt junk fuel ebx (sti k)
     else if decide (eax = 2) then system_execute junk fuel (fun i => image (sti k) (ebx + i)) (sti k)
     else if decide (eax = 3) then system_read fuel (s32 ebx) ecx (s32 edx) (sti k)
     else if decide (eax = 4) then system_write fuel (s32 ebx) ecx (s32 edx) (sti k)
     else if decide (eax = 5) then system_open table_addr fuel ebx (sti k)
     else if decide (eax = 6) then system_close (s32 ebx) (sti k)
     else if decide (eax = 7) then system_getargs ebx (s32 ecx) (sti k)
     else if decide (eax = 8) then system_vidmap ebx (sti k)
     else Fault (sti k)).
Proof.
  intros He. unfold syscall_wrapper, NUM_SYSCALLS. rewrite u32_small by done.
  destruct (Z.ltb_spec 10 eax) as [H1 | H1]; [by rewrite decide_True by lia |].
  destruct (Z.ltb_spec eax 1) as [H2 | H2]; [by rewrite decide_True by lia |].
  cbn [orb]. rewrite decide_False by lia.
  assert (Hc : eax = 1 \/ eax = 2 \/ eax = 3 \/ eax = 4 \/ eax = 5 \/ eax = 6 \/ eax = 7 \/ eax = 8
               \/ eax = 9 \/ eax = 10) by lia.
  repeat destruct Hc as [-> | Hc]; try subst eax; reflexivity.
Qed.

(** C19: A base shell is started again: when the shell of the visible
    terminal halts, its slot is freed and taken again by the shell found in
    the file system, so that the process table is as before, and control
    leaves to the entry point of that program on a fresh control block whose
    parent is the process itself. *)
Theorem halt_restarts_shell junk fuel status j k :
  let i := main_process (sys k) in
  let inode := de_inode_num (image k) (boot_block (fs k)) j in
  let byte := file_byte (image k) (boot_block (fs k)) (FS_START_ADDR (fs k)) inode in
  procs_wf k -> 0 <= i < 3 -> active_terminal (sys k) = i -> arr_get (process_num (sys k)) i = i ->
  pid (pcb_at (return_pcb_parent i) k) = i -> (15 < fuel)%nat ->
  has_name (image k) (boot_block (fs k)) (str_bytes "shell") j -> prog_ok inode k ->
  28 <= length_of k inode -> is_elf byte = true ->
  exists k', system_halt junk fuel status k = Leave (Iret (entry_point (fun t => byte (24 + t)))) k' /\
    process_num (sys k') = process_num (sys k) /\ main_process (sys k') = i /\
    active_terminal (sys k') = i /\ curr_task (term_at (terminals (sys k')) i) = i /\
    fresh_pcb i i (pcb_at (return_pcb_parent i) k') /\
    bytes (mem k') PROG_IMG_OFF (Z.to_nat (length_of k inode))
    = bytes_of k inode (Z.to_nat (length_of k inode)) 0.
Proof.
  intros i inode byte Hwf Hi Hact Hown Hpid Hf Hj Hprog Hlen Helf.
  destruct (exit_frame junk fuel status k Hwf) as (k1 & Hh & Hm1 & Hf1 & Hwf1 & Ha1 & Hmp1 & Hpn1).
  rewrite Hh. fold i in Hpn1 |- *. rewrite Hpid in Hpn1 |- *.
  rewrite (proj2 (Z.ltb_lt i MAX_TERMINALS)) by (unfold MAX_TERMINALS; lia).
  assert (Himg : image k1 = image k) by (unfold image; by rewrite Hm1).
  destruct (system_execute_starts junk fuel (arr_get (str_bytes "shell")) 0 (str_bytes "shell") 0 [] j k1)
    as (k0 & [ab ->] & Hr).
  - apply terminated_lit. repeat constructor.
  - unfold cmd_ok. split_and!; try (simpl; lia); try (by repeat constructor); try (by left); done.
  - simpl. lia.
  - simpl. lia.
  - done.
  - by rewrite Himg, Hf1.
  - done.
  - unfold prog_ok. rewrite Himg, Hm1, Hf1. exact Hprog.
  - rewrite Himg, Hf1. exact Hlen.
  - rewrite Himg, Hf1. exact Helf.
  - rewrite Himg, Hf1 in Hr.
    assert (Hslot : find_slot 8 0 k1 = Some i).
    { apply own_slot; [by rewrite Ha1, Hact | done |]. rewrite Hpn1. apply arr_get_set_eq.
      destruct Hwf as (-> & _). lia. }
    rewrite Hslot in Hr. destruct Hr as (k' & _ & _ & _ & He & Hst & Hby & _).
    exists k'. unfold execute_shell, bind. rewrite He. split; [done |].
    destruct Hst as (Hs & Hfresh & _). rewrite Hs. unfold taken.
    autorewrite with frame. ksimpl. rewrite Ha1, Hact, Hpn1.
    destruct Hwf1 as (_ & Hlt1 & _).
    split; [| split; [done | split; [done | split; [| split]]]].
    + rewrite s8_small by lia. apply arr_set_restore; [| exact Hown]. destruct Hwf as (-> & _). lia.
    + rewrite term_at_set_eq by lia. done.
    + unfold parent_of in Hfresh.
      by rewrite (proj2 (Z.ltb_lt i MAX_TERMINALS)) in Hfresh by (unfold MAX_TERMINALS; lia).
    + exact Hby.
Qed.

(** ** Witnesses *)

(** The sample machine after the tables and the terminals were set up. *)
Definition running : kernel :=
  upd_term 0 (set_curr_task 0) (init_terminals (setup_exec exec_machine)).

Lemma running_kernel : kernel_mapped (mem running).
Proof. by split_and!. Qed.

Lemma running_procs : procs_wf running.
Proof.
  split_and!; try (vm_compute; congruence). intros a. unfold pcb_at.
  change (pcbs running) with ({[ sample_pcb := Pcb exec_fdt 0 0 0 sample_pcb 0 0 0 ]} : gmap Z pcb_t).
  destruct (decide (a = sample_pcb)) as [-> | Hne];
    [by rewrite lookup_singleton_eq | by rewrite lookup_singleton_ne].
Qed.

Lemma running_length n i : i = n -> n = 0 \/ n = 1 ->
  length_of running i = if n =? 0 then 5 else 32.
Proof. intros -> [-> | ->]; vm_compute; reflexivity. Qed.

Lemma running_file i : i = 0 \/ i = 1 -> file_of running i.
Proof.
  intros Hi. split; [destruct Hi as [-> | ->]; vm_compute; congruence |].
  rewrite (running_length i i) by done. split; [destruct Hi as [-> | ->]; vm_compute; split; congruence |].
  intros n Hn Hl. replace n with 0 by (unfold FOUR_KB in Hl; destruct Hi as [-> | ->]; simpl in Hl; lia).
  destruct Hi as [-> | ->]; vm_compute; split; congruence.
Qed.

Lemma running_addrs i b :
  i = 0 \/ i = 1 -> addr_of running i b -> sample_base <= b < sample_base + 20480.
Proof.
  intros Hi. unfold file_addr, within. rewrite (running_length i i) by done.
  change (boot_block (fs running)) with sample_base.
  change (FS_START_ADDR (fs running)) with sample_base.
  assert (Hb : block_ptr (image running) sample_base (file_block (image running) sample_base i 0)
    = sample_base + 12288 + 4096 * i) by (destruct Hi as [-> | ->]; vm_compute; reflexivity).
  assert (Hri : read_inode sample_base i = sample_base + 4096 + 4096 * i)
    by (destruct Hi as [-> | ->]; vm_compute; reflexivity).
  rewrite Hri. unfold FOUR_KB. intros [? | [? | (n & Hn & Hl & Hw)]]; [lia | lia |].
  replace n with 0 in Hw by (destruct Hi as [-> | ->]; simpl in Hl; lia). rewrite Hb in Hw. lia.
Qed.

Lemma running_prog : prog_ok 1 running.
Proof.
  split; [apply running_kernel |]. split; [apply running_file; by right |].
  split; [by rewrite (running_length 1 1) by auto |].
  intros a Ha. apply running_addrs in Ha; [| by right].
  unfold in_kernel, sample_base, UNIT_4_MB, UNIT_8_MB in *. lia.
Qed.

Lemma kernel_mapped_write m a l : kernel_mapped m -> kernel_mapped (write m a l).
Proof.
  intros Hk. revert m a Hk. induction l as [| c l IH]; intros m a Hk; [done |].
  cbn [write]. apply IH. cbn [st vmem_ops]. by destruct (xlate m a).
Qed.

(** Addresses of the kernel's page are their own physical addresses. *)
Lemma kernel_loc m a : kernel_mapped m -> in_kernel a -> loc m a = Some a.
Proof. apply kernel_xlate. Qed.

Lemma kernel_region m a n :
  kernel_mapped m -> UNIT_4_MB <= a -> a + Z.of_nat n <= UNIT_8_MB -> region m a n.
Proof.
  intros Hk Ha Hn. split; intros i *; [intros Hi | intros Hi Hj];
    rewrite !(kernel_loc m) by (done || (unfold in_kernel; lia)); [by eexists | intros [= ?]; lia].
Qed.

Lemma kernel_apart m (P : Z -> Prop) a n :
  kernel_mapped m -> UNIT_4_MB <= a -> a + Z.of_nat n <= UNIT_8_MB ->
  (forall b, P b -> in_kernel b /\ ~ (a <= b < a + Z.of_nat n)) -> apart m P a n.
Proof.
  intros Hk Ha Hn HP b i Hb Hi. destruct (HP b Hb) as [Hb1 Hb2].
  rewrite !(kernel_loc m) by (done || (unfold in_kernel; lia)). intros [= ?]. lia.
Qed.

Lemma running_has_name w j :
  (w, j) = (str_bytes "frame0.txt", 1) \/ (w, j) = (str_bytes "shell", 2) ->
  has_name (image running) (boot_block (fs running)) w j.
Proof.
  intros Hc. split; [destruct Hc; simplify_eq; vm_compute; split; congruence |].
  split; [destruct Hc; simplify_eq; vm_compute; reflexivity |].
  destruct Hc; simplify_eq; intros i Hi.
  - replace i with 0 by lia. vm_compute. congruence.
  - assert (Hi' : i = 0 \/ i = 1) by lia. destruct Hi' as [-> | ->]; vm_compute; congruence.
Qed.

(** A command line with two spaces before the argument. *)
Definition sample_command : Z -> Z := arr_get (str_bytes " shell  a b").

Lemma sample_command_line :
  terminated NUL sample_command (cmdline 1 (str_bytes "shell") 2 (str_bytes "a b")).
Proof. apply terminated_lit. repeat constructor. Qed.

Lemma sample_command_ok : cmd_ok (str_bytes "shell") 2 (str_bytes "a b").
Proof.
  unfold cmd_ok. split_and!; try (simpl; lia); try (by repeat constructor); done.
Qed.

Lemma getargs_returns_argument_witness :
  exists k1 k2, parse_command 100 sample_command running = Ret (str_bytes "shell") k1 /\
    system_getargs 0x700000 4 k1 = Ret 0 k2 /\
    bytes (mem k2) 0x700000 4 = str_bytes "a b" ++ [NUL].
Proof.
  destruct (getargs_returns_argument 100 sample_command 1 (str_bytes "shell") 2 (str_bytes "a b")
    0x700000 4 running) as (k1 & Hp & _ & Hg).
  - exact sample_command_line.
  - exact sample_command_ok.
  - simpl. lia.
  - repeat constructor; vm_compute; congruence.
  - reflexivity.
  - lia.
  - lia.
  - apply kernel_region; [exact running_kernel | vm_compute; congruence..].
  - destruct Hg as (k2 & Hg & Hb & _); [done |]. by exists k1, k2.
Defined.

Lemma execute_starts_program_witness :
  exists k', system_execute (fun _ => 0) 100 sample_command running = Leave (Iret 0x08048020) k' /\
    main_process (sys k') = 3.
Proof.
  destruct (execute_starts_program (fun _ => 0) 100 sample_command 1 (str_bytes "shell") 2
    (str_bytes "a b") 2 running) as (k0 & [ab ->] & Hr).
  - exact sample_command_line.
  - exact sample_command_ok.
  - simpl. lia.
  - simpl. lia.
  - lia.
  - apply running_has_name. by right.
  - exact running_procs.
  - exact running_prog.
  - vm_compute. congruence.
  - vm_compute. reflexivity.
  - destruct Hr as [_ Hr]. destruct (Hr 3) as (k' & He & Hs & _).
    { split; [lia |]. split; [reflexivity | right; lia]. }
    { intros t Ht (_ & Hfree & Hslot). assert (Hc : t = 0 \/ t = 1 \/ t = 2) by lia.
      destruct Hc as [-> | [-> | ->]]; [discriminate Hfree | |]; destruct Hslot as [Hslot | Hslot]; try lia; discriminate Hslot. }
    exists k'. split; [etransitivity; [exact He |]; do 2 f_equal; vm_compute; reflexivity |].
    destruct Hs as [-> _]. reflexivity.
Defined.


(** Starting in a free slot, and what the program finds. *)
Lemma start_taken inode i k :
  procs_wf k -> prog_ok inode k -> 0 <= i < 6 ->
  exists k1, started inode i (taken i k) k1 /\ same_procs k1 k1 /\ kernel_mapped (mem k1).
Proof.
  intros Hwf Hprog Hi. pose proof Hwf as (_ & Hlt & _ & _ & Hfdt).
  destruct (start_process_spec (fun _ => 0) inode i (taken i k)) as (k1 & _ & Hs); [done | apply Hfdt |].
  exists k1. split; [exact Hs |]. split.
  - destruct Hs as [Hsys _]. split_and!; try done. rewrite Hsys. autorewrite with frame. ksimpl.
    by rewrite length_arr_set.
  - destruct Hs as (_ & _ & _ & _ & _ & _ & -> & _). rewrite loaded_mem by done.
    change (mem (taken i k)) with (mem k).
    apply kernel_mapped_write, map_prog_kernel; [done | apply Hprog].
Qed.

Lemma halt_undoes_execute_witness :
  exists k1 k3, started 1 3 (taken 3 running) k1 /\
    system_halt (fun _ => 0) 100 0x107 k1 = Leave (RetFromHalt 7) k3 /\
    process_num (sys k3) = [0; -1; -1; -1; -1; -1].
Proof.
  destruct (start_taken 1 3 running) as (k1 & Hs & Hk1); [exact running_procs | exact running_prog | lia |].
  destruct (halt_undoes_execute (fun _ => 0) 100 0x107 1 3 0 running k1 k1) as (k3 & Hh & _ & Hn & _).
  - exact running_procs.
  - lia.
  - reflexivity.
  - reflexivity.
  - lia.
  - reflexivity.
  - reflexivity.
  - reflexivity.
  - intros t Ht. assert (Hc : t = 0 \/ t = 1 \/ t = 2) by lia.
    destruct Hc as [-> | [-> | ->]]; vm_compute; congruence.
  - exact Hs.
  - apply Hk1.
  - apply Hk1.
  - by exists k1, k3.
Defined.

(** Nothing of the image is at 0x700000. *)
Lemma running_apart i n :
  i = 0 \/ i = 1 -> Z.of_nat n <= 0x100000 -> apart (mem running) (addr_of running i) 0x700000 n.
Proof.
  intros Hi Hn. apply kernel_apart; [exact running_kernel | vm_compute; congruence | |].
  - unfold UNIT_8_MB. lia.
  - intros b Hb. apply running_addrs in Hb; [| done].
    unfold in_kernel, sample_base, UNIT_4_MB, UNIT_8_MB in *. lia.
Qed.

(** The name of the file, where the directory has it. *)
Definition sample_name : Z := sample_base + 128.

Lemma sample_name_chars :
  terminated NUL (fun i => image running (sample_name + i)) (str_bytes "frame0.txt").
Proof.
  split; [| vm_compute; reflexivity]. change (Z.of_nat (length (str_bytes "frame0.txt"))) with 10.
  intros i Hi. assert (Hc : i = 0 \/ i = 1 \/ i = 2 \/ i = 3 \/ i = 4 \/ i = 5 \/ i = 6 \/ i = 7 \/
                            i = 8 \/ i = 9) by lia.
  repeat destruct Hc as [-> | Hc]; [.. | subst i]; vm_compute; split; congruence.
Qed.

Lemma open_then_read_witness :
  exists k1 k2, system_open (fun _ => 0) 100 sample_name running = Ret 2 k1 /\
    system_read 100 2 0x700000 100 k1 = Ret 5 k2 /\ bytes (mem k2) 0x700000 5 = str_bytes "fish!".
Proof.
  destruct (open_then_read (fun _ => 0) 100 sample_name (str_bytes "frame0.txt") 1 0x700000 100 running)
    as (r & k1 & Ho & _ & Hr).
  - vm_compute. congruence.
  - exact sample_name_chars.
  - simpl. lia.
  - simpl. lia.
  - apply running_has_name. by left.
  - reflexivity.
  - reflexivity.
  - vm_compute. repeat split.
  - apply running_file. by left.
  - lia.
  - lia.
  - apply kernel_region; [exact running_kernel | vm_compute; congruence..].
  - apply running_apart; [by left | vm_compute; congruence].
  - assert (Hv : match system_open (fun _ => 0) 100 sample_name running with
                 | Ret r _ => r | _ => 0 end = 2) by (vm_compute; reflexivity).
    rewrite Ho in Hv. subst r. destruct Hr as (k2 & Hr & Hm); [lia |].
    exists k1, k2. split; [exact Ho |]. split; [etransitivity; [exact Hr |]; f_equal |].
    rewrite Hm. vm_compute. reflexivity.
Defined.

(** Opened again, with the first descriptor still open. *)
Lemma failed_open_stores_witness :
  let k := fill_bitmap 2 (upd_fdt sample_pcb 2 (set_fd_inode 0) running) in
  exists k1, system_open (fun _ => 0x401000) 100 sample_name k = Ret (-1) k1 /\
    ld (mem k1) (sample_pcb - 15) = 0x10.
Proof.
  intros k. destruct (failed_open_stores (fun _ => 0x401000) 100 sample_name (str_bytes "frame0.txt")
    1 k) as (k1 & Ho & Hm).
  - vm_compute. congruence.
  - exact sample_name_chars.
  - simpl. lia.
  - simpl. lia.
  - apply running_has_name. by left.
  - reflexivity.
  - reflexivity.
  - left. exists 2. split; [lia |]. vm_compute. by split.
  - exists k1. split; [exact Ho |]. rewrite Hm. vm_compute. reflexivity.
Defined.

Lemma syscall_wrapper_dispatch_witness :
  syscall_wrapper (fun _ => 0) (fun _ => 0) 100 11 0 0 0 running = Ret (-1) running.
Proof. rewrite syscall_wrapper_dispatch by lia. reflexivity. Defined.

(** The shell of terminal 0 exits. *)
Lemma halt_restarts_shell_witness :
  exists k', system_halt (fun _ => 0) 100 0 running = Leave (Iret 0x08048020) k' /\
    process_num (sys k') = process_num (sys running).
Proof.
  destruct (halt_restarts_shell (fun _ => 0) 100 0 2 running) as (k' & Hh & Hp & _).
  - exact running_procs.
  - vm_compute. split; congruence.
  - reflexivity.
  - reflexivity.
  - reflexivity.
  - lia.
  - apply running_has_name. by right.
  - exact running_prog.
  - vm_compute. congruence.
  - vm_compute. reflexivity.
  - exists k'. split; [| exact Hp]. etransitivity; [exact Hh |]. do 2 f_equal; vm_compute; reflexivity.
Defined.
