(* ===== verification/Scheduler.v ===== *)
(** * scheduler.c and pit.c: round robin over the terminals

    The handler of the timer of src/student-distrib/scheduler.c.  The switch
    of stacks is the outcome [Leave Switched]: the stack registers are the
    ones that were saved when the next process was last preempted, so
    control continues in that frame. *)

From S2P Require Import Prelude Memory Lib Paging Devices State Sample.
From S2P Require Import Console Filesys Terminal Syscall.

(** ** Operations *)

Definition irq_0 : Z := 0.

(** The address of the control block of a process. *)
Definition task_pcb (num : Z) : Z := u32 (UNIT_8_MB - (1 + num) * UNIT_8_KB).

Definition switch_task (num : Z) (k : kernel) : kernel * Z :=
  let next := check_tasks num k in
  if next =? -1 then (k, u32 (-1)) else (set_curr_process (task_pcb next) k, 0).

Definition scheduler_handler : C unit := fun k =>
  let k := upd_ports (send_eoi irq_0) k in
  let num := get_main_process k in
  let save_process := task_pcb num in
  let '(k, r) := switch_task num k in
  if r =? u32 (-1) then Ret tt k
  else
    let next := curr_process k in
    let k := set_main_process_u8 (pid (pcb_at next k)) k in
    let k := save_pit_regs save_process k in
    let k := upd_mem (map_page (prog_phys (pid (pcb_at next k))) UNIT_128_MB) k in
    let vid_mem := get_vid_mem k in
    let k := upd_mem (map_vid vid_mem) k in
    let k := upd_hw (set_tss_ss0 KERNEL_DS) k in
    let k := set_esp0 (kernel_stack (pid (pcb_at next k))) k in
    let k := set_regs (pit_ebp (pcb_at next k)) (pit_esp (pcb_at next k)) k in
    leave Switched k.

Definition scheduler_init : kernel -> kernel := set_curr_process 0.

Definition pit_handler : C unit := scheduler_handler.

(** ** The choice of the next task *)

(** The task of terminal [t] if another process can be switched to there. *)
Definition runnable (k : kernel) (t : Z) : bool :=
  let task := curr_task (term_at (terminals (sys k)) t) in
  negb (task =? main_process (sys k)) && negb (task =? -1).

(** The order in which [check_tasks] looks: the next terminal, then the
    own one, then the one after the next. *)
Lemma check_tasks_spec num k :
  let t := arr_get (process_num (sys k)) num in
  0 <= t < 3 ->
  check_tasks num k
  = (if runnable k ((t + 1) mod 3) then curr_task (term_at (terminals (sys k)) ((t + 1) mod 3))
     else if runnable k t then curr_task (term_at (terminals (sys k)) t)
     else if runnable k ((t + 2) mod 3)
     then curr_task (term_at (terminals (sys k)) ((t + 2) mod 3))
     else -1).
Proof.
  intros t Ht. unfold check_tasks. fold t. cbn [check_tasks_from].
  rewrite !Z.rem_mod_nonneg by lia.
  replace ((t + 1 + (1 + 1)) mod 3) with t by (Z.div_mod_to_equations; lia).
  replace ((t + 1 + 1 + (1 + 1 + 1)) mod 3) with ((t + 2) mod 3) by (Z.div_mod_to_equations; lia).
  unfold runnable. done.
Qed.

Lemma task_pcb_eq n : 0 <= n < 6 -> task_pcb n = return_pcb_parent n.
Proof.
  intros Hn. rewrite pcb_addr by done. unfold task_pcb. apply u32_small.
  unfold UNIT_8_MB, UNIT_8_KB. lia.
Qed.

(** A switch from process [num] to process [next]. *)
Definition switched (num next : Z) (k k' : kernel) : Prop :=
  main_process (sys k') = next /\ process_num (sys k') = process_num (sys k) /\
  terminals (sys k') = terminals (sys k) /\ active_terminal (sys k') = active_terminal (sys k) /\
  pit_ebp (pcb_at (return_pcb_parent num) k') = reg_ebp (hw k) /\
  pit_esp (pcb_at (return_pcb_parent num) k') = reg_esp (hw k) /\
  (forall a, pid (pcb_at a k') = pid (pcb_at a k)) /\
  (forall a, a <> return_pcb_parent num -> pcb_at a k' = pcb_at a k) /\
  reg_ebp (hw k') = pit_ebp (pcb_at (return_pcb_parent next) k) /\
  reg_esp (hw k') = pit_esp (pcb_at (return_pcb_parent next) k) /\
  tss_esp0 (hw k') = kernel_stack next /\
  mem k' = map_vid (get_vid_mem (set_main next k)) (map_prog next (mem k)).

(** The handler when [next] is the task to switch to. *)
Lemma scheduler_switch num next k :
  main_process (sys k) = num -> 0 <= num < 6 -> 0 <= next < 6 -> num <> next ->
  check_tasks num k = next -> pid (pcb_at (return_pcb_parent next) k) = next ->
  exists k', scheduler_handler k = Leave Switched k' /\ switched num next k k'.
Proof.
  intros Hm Hn Hx Hne Hc Hpid. unfold scheduler_handler, get_main_process.
  set (k1 := upd_ports _ k). change (main_process (sys k1)) with (main_process (sys k)). rewrite Hm.
  unfold switch_task. change (check_tasks num k1) with (check_tasks num k). rewrite Hc.
  rewrite (proj2 (Z.eqb_neq next (-1))) by lia.
  change (0 =? u32 (-1)) with false. cbv iota. rewrite !task_pcb_eq by done.
  set (a := return_pcb_parent num). set (b := return_pcb_parent next) in *.
  assert (Hab : a <> b).
  { intros He. apply pcb_addr_inj in He; lia. }
  change (curr_process (set_curr_process b k1)) with b.
  set (k2 := set_curr_process b k1).
  change (pcb_at b k2) with (pcb_at b k). rewrite Hpid. unfold set_main_process_u8, set_main.
  rewrite (u8_small next) by lia. unfold save_pit_regs.
  change (hw (upd_sys (set_main_process next) k2)) with (hw k).
  set (k3 := upd_pcb a _ _).
  assert (Hb3 : pcb_at b k3 = pcb_at b k).
  { unfold k3. rewrite pcb_at_upd_ne by done. rewrite pcb_at_upd_sys. done. }
  rewrite Hb3, Hpid. change (pcb_at b (upd_mem ?f k3)) with (pcb_at b k3).
  set (k4 := upd_mem _ k3).
  assert (Hv : get_vid_mem k4 = get_vid_mem (set_main next k)) by reflexivity.
  rewrite Hv. eexists. split; [reflexivity |].
  unfold switched, set_esp0, set_regs. fold a b. autorewrite with frame.
  assert (Hb4 : pcb_at b k4 = pcb_at b k) by (unfold k4; by rewrite pcb_at_upd_mem).
  rewrite Hb4, Hpid. ksimpl. unfold k4. autorewrite with frame.
  assert (Ha3 : pcb_at a k3 = set_pit_esp (reg_esp (hw k)) (set_pit_ebp (reg_ebp (hw k)) (pcb_at a k))).
  { unfold k3. rewrite pcb_at_upd_eq, pcb_at_upd_sys. done. }
  rewrite Ha3. ksimpl. split_and!; try done.
  - intros c. autorewrite with frame. destruct (decide (c = a)) as [-> | Hca].
    + by rewrite Ha3.
    + unfold k3. rewrite pcb_at_upd_ne by congruence. by rewrite pcb_at_upd_sys.
  - intros c Hca. autorewrite with frame. unfold k3. rewrite pcb_at_upd_ne by congruence.
    by rewrite pcb_at_upd_sys.
Qed.

(** [map_vid] is about page 0 of the small pages, not the program's page. *)
Lemma map_vid_prog_page v p m o :
  0 <= p < 6 -> kernel_mapped m -> 0 <= o < UNIT_4_MB ->
  xlate (map_vid v (map_prog p m)) (UNIT_128_MB + o) = xlate (map_prog p m) (UNIT_128_MB + o).
Proof.
  intros Hp Hk Ho.
  assert (He : arr_get (page_dir (map_prog p m)) 32 = prog_phys p + PAGE_MAP).
  { destruct Hk as (_ & Hl & _). rewrite map_prog_entry by done. apply arr_get_set_eq.
    rewrite Hl. unfold DIR_SIZE. lia. }
  assert (Hidx : u32 (UNIT_128_MB + o) / UNIT_4_MB = 32).
  { unfold UNIT_4_MB, UNIT_128_MB in *. rewrite u32_small by lia. Z.div_mod_to_equations. lia. }
  unfold xlate. change (paging_on (map_vid v ?q)) with (paging_on q).
  change (page_dir (map_vid v ?q)) with (page_dir q). rewrite Hidx, He.
  assert (Hb : entry_bit (prog_phys p + PAGE_MAP) 7 = true).
  { unfold entry_bit. rewrite Z.eqb_eq, prog_phys_eq by done. unfold PAGE_MAP, UNIT_8_MB.
    change (2 ^ 7) with 128. Z.div_mod_to_equations. lia. }
  by rewrite Hb.
Qed.

(** ** Three running terminals *)

(** Every terminal [t] has a task [a t], with its slot and control block. *)
Definition tasks (a : Z -> Z) (k : kernel) : Prop :=
  forall t, 0 <= t < 3 ->
    0 <= a t < 6 /\ arr_get (process_num (sys k)) (a t) = t /\
    curr_task (term_at (terminals (sys k)) t) = a t /\
    pid (pcb_at (return_pcb_parent (a t)) k) = a t.

(** What a process does until the next tick: anything but changing the
    process table or the saved registers. *)
Definition undisturbed (k k' : kernel) : Prop :=
  process_num (sys k') = process_num (sys k) /\ main_process (sys k') = main_process (sys k) /\
  (forall t, 0 <= t < 3 -> curr_task (term_at (terminals (sys k')) t)
                           = curr_task (term_at (terminals (sys k)) t)) /\
  (forall b, pid (pcb_at b k') = pid (pcb_at b k) /\ pit_ebp (pcb_at b k') = pit_ebp (pcb_at b k) /\
             pit_esp (pcb_at b k') = pit_esp (pcb_at b k)).

Lemma tasks_undisturbed a k k' : tasks a k -> undisturbed k k' -> tasks a k'.
Proof.
  intros Ht (Hp & _ & Hc & Hpcb) t Hr. destruct (Ht t Hr) as (H1 & H2 & H3 & H4).
  destruct (Hpcb (return_pcb_parent (a t))) as (H5 & _). by rewrite Hp, Hc, H5.
Qed.

Lemma tasks_distinct a k s t :
  tasks a k -> 0 <= s < 3 -> 0 <= t < 3 -> a s = a t -> s = t.
Proof.
  intros Ht Hs Hr He. destruct (Ht s Hs) as (_ & H1 & _). destruct (Ht t Hr) as (_ & H2 & _).
  by rewrite <- H1, <- H2, He.
Qed.

Lemma next_terminal t : 0 <= t < 3 -> 0 <= (t + 1) mod 3 < 3 /\ (t + 1) mod 3 <> t.
Proof. intros Ht. Z.div_mod_to_equations. lia. Qed.

(** One tick: the next terminal's task. *)
Lemma tick a t k :
  tasks a k -> 0 <= t < 3 -> main_process (sys k) = a t ->
  exists k', scheduler_handler k = Leave Switched k' /\
    switched (a t) (a ((t + 1) mod 3)) k k' /\ tasks a k'.
Proof.
  intros Ht Hr Hm. destruct (next_terminal t Hr) as [Hn Hne].
  destruct (Ht t Hr) as (Hat & Hpt & Hct & Hpidt).
  destruct (Ht _ Hn) as (Han & Hpn & Hcn & Hpidn).
  assert (Hdiff : a t <> a ((t + 1) mod 3)).
  { intros He. apply Hne. symmetry. by apply (tasks_distinct a k). }
  destruct (scheduler_switch (a t) (a ((t + 1) mod 3)) k) as (k' & Hk' & Hs); try done.
  - rewrite check_tasks_spec by (by rewrite Hpt). rewrite Hpt. unfold runnable. rewrite Hcn, Hm.
    rewrite (proj2 (Z.eqb_neq _ _) (not_eq_sym Hdiff)).
    by rewrite (proj2 (Z.eqb_neq _ (-1))) by lia.
  - exists k'. split; [done |]. split; [done |].
    destruct Hs as (_ & Hpn' & Hts & _ & _ & _ & Hpid & _). intros u Hu.
    destruct (Ht u Hu) as (H1 & H2 & H3 & H4). by rewrite Hpn', Hts, Hpid.
Qed.

(** ** Properties *)

(** C23: One tick of the timer: when another terminal has a task, the handler
    saves the stack registers of the running process in its control block,
    makes the chosen task the running process, and leaves on the registers
    that were saved for it, with its page at 128 MB and its kernel stack in
    the TSS; with no other task the handler only acknowledges the interrupt.
    The next terminal in cyclic order comes first. *)
Theorem scheduler_handler_switches k :
  let num := main_process (sys k) in
  let t := arr_get (process_num (sys k)) num in
  let next := check_tasks num k in
  0 <= num < 6 -> 0 <= t < 3 -> kernel_mapped (mem k) ->
  (next <> -1 -> 0 <= next < 6 /\ pid (pcb_at (return_pcb_parent next) k) = next) ->
  next = (if runnable k ((t + 1) mod 3) then curr_task (term_at (terminals (sys k)) ((t + 1) mod 3))
          else if runnable k t then curr_task (term_at (terminals (sys k)) t)
          else if runnable k ((t + 2) mod 3)
          then curr_task (term_at (terminals (sys k)) ((t + 2) mod 3)) else -1) /\
  (next = -1 -> scheduler_handler k = Ret tt (upd_ports (send_eoi irq_0) k)) /\
  (next <> -1 -> exists k', scheduler_handler k = Leave Switched k' /\ switched num next k k' /\
     forall o, 0 <= o < UNIT_4_MB -> xlate (mem k') (UNIT_128_MB + o) = Some (prog_phys next + o)).
Proof.
  intros num t next Hn Ht Hkm Hnext. pose proof (check_tasks_spec num k Ht) as Hc. fold t next in Hc.
  split; [exact Hc |]. split.
  - intros He. unfold scheduler_handler, switch_task, get_main_process.
    set (k1 := upd_ports _ k). change (check_tasks (main_process (sys k1)) k1) with next.
    by rewrite He.
  - intros Hne. destruct (Hnext Hne) as [Hx Hpid].
    assert (Hdiff : num <> next).
    { intros He. assert (Hr : forall u, runnable k u = true ->
        curr_task (term_at (terminals (sys k)) u) <> num).
      { intros u. unfold runnable. destruct (Z.eqb_spec (curr_task (term_at (terminals (sys k)) u))
          (main_process (sys k))); done. }
      destruct (runnable k ((t + 1) mod 3)) eqn:H1; [by apply (Hr _ H1); rewrite <- Hc |].
      destruct (runnable k t) eqn:H2; [by apply (Hr _ H2); rewrite <- Hc |].
      destruct (runnable k ((t + 2) mod 3)) eqn:H3; [by apply (Hr _ H3); rewrite <- Hc | done]. }
    destruct (scheduler_switch num next k) as (k' & Hk' & Hs); try done.
    exists k'. split; [done |]. split; [done |]. intros o Ho.
    destruct Hs as (_ & _ & _ & _ & _ & _ & _ & _ & _ & _ & _ & ->).
    rewrite map_vid_prog_page by done. by apply map_prog_xlate.
Qed.

(** C6: Round robin and resumption: with a task on each of the three
    terminals, three ticks run them in cyclic order and come back to the
    first, which resumes with exactly the stack registers it was preempted
    with, whatever the processes do in between that leaves the process table
    and the saved registers alone. *)
Theorem preempted_process_resumes a t k k1 k1' k2 k2' :
  tasks a k -> 0 <= t < 3 -> main_process (sys k) = a t ->
  scheduler_handler k = Leave Switched k1 -> undisturbed k1 k1' ->
  scheduler_handler k1' = Leave Switched k2 -> undisturbed k2 k2' ->
  main_process (sys k1) = a ((t + 1) mod 3) /\ main_process (sys k2) = a ((t + 2) mod 3) /\
  exists k3, scheduler_handler k2' = Leave Switched k3 /\ main_process (sys k3) = a t /\
    reg_ebp (hw k3) = reg_ebp (hw k) /\ reg_esp (hw k3) = reg_esp (hw k) /\
    tss_esp0 (hw k3) = kernel_stack (a t) /\ tasks a k3.
Proof.
  intros Ht Hr Hm H1 Hu1 H2 Hu2.
  destruct (tick a t k Ht Hr Hm) as (j1 & Hj1 & Hs1 & Ht1). rewrite H1 in Hj1. simplify_eq.
  destruct (next_terminal t Hr) as [Hn1 Hne1]. pose proof Hs1 as (Hm1 & _).
  destruct (tick a ((t + 1) mod 3) k1') as (j2 & Hj2 & Hs2 & Ht2);
    [by apply (tasks_undisturbed a j1) | done | by destruct Hu1 as (_ & -> & _) |].
  rewrite H2 in Hj2. simplify_eq. pose proof Hs2 as (Hm2 & _).
  assert (E2 : ((t + 1) mod 3 + 1) mod 3 = (t + 2) mod 3) by (Z.div_mod_to_equations; lia).
  rewrite E2 in *. assert (Hn2 : 0 <= (t + 2) mod 3 < 3) by (Z.div_mod_to_equations; lia).
  destruct (tick a ((t + 2) mod 3) k2') as (k3 & Hk3 & Hs3 & Ht3);
    [by apply (tasks_undisturbed a j2) | done | by destruct Hu2 as (_ & -> & _) |].
  assert (E3 : ((t + 2) mod 3 + 1) mod 3 = t) by (Z.div_mod_to_equations; lia).
  rewrite E3 in *. split; [done |]. split; [done |]. exists k3. split; [done |].
  destruct Hs3 as (Hm3 & _ & _ & _ & _ & _ & _ & _ & He3 & Hp3 & Ht3' & _).
  destruct Hs2 as (_ & _ & _ & _ & _ & _ & _ & Ho2 & _).
  destruct Hs1 as (_ & _ & _ & _ & He1 & Hp1 & _).
  destruct Hu1 as (_ & _ & _ & Hpcb1). destruct Hu2 as (_ & _ & _ & Hpcb2).
  destruct (Hpcb1 (return_pcb_parent (a t))) as (_ & Hb1 & Hb2).
  destruct (Hpcb2 (return_pcb_parent (a t))) as (_ & Hb3 & Hb4).
  assert (Hdiff : return_pcb_parent (a t) <> return_pcb_parent (a ((t + 1) mod 3))).
  { intros He. destruct (Ht t Hr) as (Ha & _). destruct (Ht _ Hn1) as (Hb & _).
    apply pcb_addr_inj in He; [| done | done]. apply Hne1. symmetry. by apply (tasks_distinct a k). }
  rewrite He3, Hp3, Hb3, Hb4, Ho2 by done. rewrite Hb1, Hb2, He1, Hp1. done.
Qed.

(** ** Witnesses *)

(** Processes 0, 1 and 2 on the terminals 0, 1 and 2, 0 running. *)
Definition three_pcb (n : Z) : pcb_t :=
  Pcb exec_fdt n 0 0 (return_pcb_parent n) 0 (0x700000 + n) (0x710000 + n).

Definition three : kernel :=
  let k := upd_sys (set_process_num [0; 1; 2; -1; -1; -1]) running in
  let k := upd_term 1 (set_curr_task 1) (upd_term 2 (set_curr_task 2) k) in
  set_pcbs {[ return_pcb_parent 0 := three_pcb 0; return_pcb_parent 1 := three_pcb 1;
              return_pcb_parent 2 := three_pcb 2 ]} k.

Lemma three_tasks : tasks (fun t => t) three.
Proof.
  intros t Ht. assert (Hc : t = 0 \/ t = 1 \/ t = 2) by lia.
  destruct Hc as [-> | [-> | ->]]; split_and!; try lia; vm_compute; reflexivity.
Qed.

Lemma undisturbed_refl k : undisturbed k k.
Proof. by split_and!. Qed.

Lemma scheduler_handler_switches_witness :
  exists k', scheduler_handler three = Leave Switched k' /\ main_process (sys k') = 1 /\
    reg_ebp (hw k') = 0x700001.
Proof.
  destruct (scheduler_handler_switches three) as (_ & _ & Hs).
  - vm_compute. split; congruence.
  - vm_compute. split; congruence.
  - split_and!; reflexivity.
  - intros _. vm_compute. repeat split; congruence.
  - destruct Hs as (k' & Hk' & Hs & _); [vm_compute; congruence |].
    exists k'. split; [exact Hk' |].
    destruct Hs as (Hm & _ & _ & _ & _ & _ & _ & _ & Hb & _). rewrite Hm, Hb.
    vm_compute. by split.
Defined.

Lemma preempted_process_resumes_witness :
  exists k1 k2 k3, scheduler_handler three = Leave Switched k1 /\
    scheduler_handler k1 = Leave Switched k2 /\ scheduler_handler k2 = Leave Switched k3 /\
    main_process (sys k3) = 0 /\ reg_esp (hw k3) = 0x7F7E00.
Proof.
  destruct (tick (fun t => t) 0 three) as (k1 & H1 & Hs1 & Ht1); [exact three_tasks | lia | reflexivity |].
  destruct (tick (fun t => t) 1 k1) as (k2 & H2 & _ & _); [exact Ht1 | lia | apply Hs1 |].
  destruct (preempted_process_resumes (fun t => t) 0 three k1 k1 k2 k2) as (_ & _ & k3 & H3 & Hm & _ & He & _).
  - exact three_tasks.
  - lia.
  - reflexivity.
  - exact H1.
  - apply undisturbed_refl.
  - exact H2.
  - apply undisturbed_refl.
  - exists k1, k2, k3. split_and!; [exact H1 | exact H2 | exact H3 | exact Hm |].
    rewrite He. reflexivity.
Defined.
