(* ===== verification/Keyboard.v ===== *)
(** * keyboard.c: the keyboard

    The scancode table, [getScancode], [getChar] and [keyboard_handler] of
    src/student-distrib/keyboard.c.  The handler edits the line of the
    visible terminal in keyboard.c's own copy of [terminals]. *)

From S2P Require Import Prelude Memory Lib Paging Devices State Sample.
From S2P Require Import Console Filesys Terminal Syscall.

(** ** Constants *)

Definition SCANCODE_ARRAY_SIZE : Z := 86.
Definition KEYBOARD_PORT : Z := 0x60.
Definition MAX_PRESSED_CODE : Z := 0x58.
Definition MAX_RELEASED_CODE : Z := 0xD8.
Definition KEYBOARD_IRQ_NUM : Z := 1.
Definition PRESSED : Z := 1.
Definition NOT_PRESSED : Z := 0.
Definition RELEASED_MASK : Z := 0x7F.
Definition DONT_PRINT : Z := 0xFF.
Definition ENTER_KEY : Z := 0x0A.
Definition BACKSPACE_KEY : Z := 0x0E.
Definition TAB_KEY : Z := 0x0F.
Definition L_CTL_KEY : Z := 0x1D.
Definition L_SHIFT_KEY : Z := 0x2A.
Definition L_KEY : Z := 0x26.
Definition C_KEY : Z := 0x2E.
Definition T_KEY : Z := 0x14.
Definition R_SHIFT_KEY : Z := 0x36.
Definition L_ALT_KEY : Z := 0x38.
Definition CAPSLOCK_KEY : Z := 0x3A.
Definition FUNCTION_START : Z := 0x3B.
Definition DOWN_ARROW : Z := 0x50.
Definition LEFT_ARROW : Z := 0x4B.
Definition RIGHT_ARROW : Z := 0x4D.
Definition UP_ARROW : Z := 0x48.
Definition EXCP_RET : Z := 255.

(** The table, in the rows of the source: the keys, then the shifted keys. *)
Definition scancode : list Z :=
  [0; 0] ++ str_bytes "1234567890-=" ++ [0; 0] ++ str_bytes "qwertyuiop[]" ++ [10; 0] ++
  str_bytes "asdfghjkl;'`" ++ [0] ++ str_bytes "\zxcvbnm,./" ++ [0] ++ str_bytes "*" ++ [0] ++
  str_bytes " " ++ [0] ++ replicate 12 0 ++ str_bytes "789-456+1230." ++ [0; 0] ++
  [0; 0] ++ str_bytes "!@#$%^&*()_+" ++ [0; 0] ++ str_bytes "QWERTYUIOP{}" ++ [10; 0] ++
  str_bytes "ASDFGHJKL:" ++ [34] ++ str_bytes "~" ++ [0] ++ str_bytes "|ZXCVBNM<>?" ++ [0] ++
  str_bytes "*" ++ [0] ++ str_bytes " " ++ [0] ++ replicate 12 0 ++ str_bytes "789-456+1230." ++
  [0; 0].

(** ** Keys *)

(** [pressed_flags[i]], and an assignment to it; the array has 86 entries. *)
Definition pressed (i : Z) (k : kernel) : bool :=
  negb (arr_get (pressed_flags (kbd k)) i =? NOT_PRESSED).

Definition set_pressed (i v : Z) : C unit := fun k =>
  if (0 <=? i) && (i <? SCANCODE_ARRAY_SIZE)
  then Ret tt (upd_kbd (fun b => set_pressed_flags (arr_set (pressed_flags b) i v) b) k)
  else Fault k.

(** [terminals[active_terminal].save_buf] of keyboard.c. *)
Definition key_buf (k : kernel) : list Z :=
  save_buf (term_at (kb_terminals (kbd k)) (kb_active (kbd k))).

Definition upd_key_term (f : terminal_t -> terminal_t) (k : kernel) : kernel :=
  upd_kb_term (kb_active (kbd k)) f k.

Definition put_key (i c : Z) : kernel -> kernel :=
  upd_key_term (fun t => set_save_buf (arr_set (save_buf t) i c) t).

Definition set_idx (i : Z) : kernel -> kernel := upd_kbd (set_keyboard_buf_idx i).
Definition set_chars (n : Z) : kernel -> kernel := upd_kbd (set_num_chars n).

Definition getScancode : C Z := fun k =>
  let '(c, p) := inb KEYBOARD_PORT (rtc_ports (rtc k)) in
  Ret (u8 c) (set_rtc (Rtc (rtc_flag (rtc k)) p) k).

Section keys.
Variable junk : Z -> Z.
Variable fuel : nat.

(** Control and L, C, T. [None]: not one of them. *)
Definition control_keys (c : Z) : C (option Z) := fun k =>
  let idx := keyboard_buf_idx (kbd k) in
  if pressed L_CTL_KEY k && (c =? L_KEY) then
    (modify my_clear;;
     r <- terminal_write_text fuel 1 (fun _ i => arr_get (key_buf k) i) idx;;
     ret (Some DONT_PRINT)) k
  else if pressed L_CTL_KEY k && (c =? C_KEY) then
    (r <- printf fuel (lit "
Keyboard interrupt!
") [];;
     modify (put_key idx NEWLINE);;
     modify (upd_ports (send_eoi KEYBOARD_IRQ_NUM));;
     r <- system_halt junk fuel EXCP_RET;;
     spin) k
  else if pressed L_CTL_KEY k && (c =? T_KEY) then Ret (Some DONT_PRINT) k
  else Ret None k.

(** Completion: [fs_search] edits the line. *)
Definition complete_key (k : kernel) : kernel :=
  let '(idx, buf, k') := fs_search (key_buf k) (keyboard_buf_idx (kbd k)) k in
  set_idx idx (upd_key_term (set_save_buf buf) k').

(** The index into [scancode] after shift and caps lock. *)
Definition shifted (c : Z) (k : kernel) : Z :=
  let caps := caps_lock_check (kbd k) in
  if pressed L_SHIFT_KEY k || pressed R_SHIFT_KEY k
  then (if negb (caps =? 1) then u8 (c + SCANCODE_ARRAY_SIZE) else c)
  else if caps =? 1 then u8 (c + SCANCODE_ARRAY_SIZE) else c.

(** A pressed key that is none of the special ones. *)
Definition char_key (c : Z) (k : kernel) : outcome Z :=
  let c := shifted c k in
  let k := if c =? TAB_KEY then complete_key k else k in
  let r := arr_get scancode c in
  Ret (if r =? NUL then DONT_PRINT else r) k.

Definition pressed_key (c : Z) : C Z := fun k =>
  if c =? CAPSLOCK_KEY then
    Ret DONT_PRINT (upd_kbd (fun b => set_caps_lock_check (s32 (- caps_lock_check b)) b) k)
  else
    (o <- control_keys c;;
     match o with
     | Some r => ret r
     | None => fun k =>
         if pressed L_ALT_KEY k && (FUNCTION_START <=? c) && (c <? FUNCTION_START + MAX_TERMINALS)
         then (modify (upd_ports (send_eoi KEYBOARD_IRQ_NUM));;
               r <- switch_terminal junk fuel (c - FUNCTION_START);;
               ret DONT_PRINT) k
         else if (c =? LEFT_ARROW) || (c =? RIGHT_ARROW) then Ret DONT_PRINT k
         else if (c =? UP_ARROW) || (c =? DOWN_ARROW) then Ret DONT_PRINT k
         else if (c =? BACKSPACE_KEY) && (0 <? keyboard_buf_idx (kbd k)) then
           let k := _backspace k in
           let k := set_idx (keyboard_buf_idx (kbd k) - 1) k in
           Ret DONT_PRINT (set_chars (s32 (num_chars (kbd k) - 1)) k)
         else char_key c k
     end) k.

Definition getChar : C Z :=
  c <- getScancode;;
  if c <=? MAX_PRESSED_CODE then set_pressed c PRESSED;; pressed_key c
  else if c <=? MAX_RELEASED_CODE then
    set_pressed (Z.land c RELEASED_MASK) NOT_PRESSED;; ret DONT_PRINT
  else ret DONT_PRINT.

(** [my_strcpy] between two arrays of 128 bytes, from index [i]. *)
Fixpoint copy_line (n : nat) (i : Z) (dest src : list Z) : option (list Z) :=
  match n with
  | O => None
  | S n' =>
      if arr_get src i =? NEWLINE then Some (arr_set dest i NEWLINE)
      else copy_line n' (i + 1) (arr_set dest i (arr_get src i)) src
  end.

(** Enter: the line goes to the line buffer of the terminal and to
    [last_buf], and a new line starts. *)
Definition enter_line : C unit := fun k =>
  let t := kb_active (kbd k) in
  let src := key_buf k in
  match (match line_buf t (kbd k) with
         | Some dest => copy_line 128 0 dest src
         | None => Some []
         end), copy_line 128 0 (last_buf (kbd k)) src with
  | Some line, Some last =>
      let k := upd_kbd (set_line_buf t line) k in
      let k := upd_kbd (set_last_buf last) k in
      let k := upd_kbd (set_last_idx (keyboard_buf_idx (kbd k))) k in
      let k := set_idx 0 k in
      let k := set_chars 0 k in
      Ret tt (put_key 0 NULL_CHAR k)
  | _, _ => Fault k
  end.

(** The character that a key gave goes into the line. *)
Definition line_key (test : Z) : C unit := fun k =>
  let idx := keyboard_buf_idx (kbd k) in
  let k := put_key idx test k in
  if negb (test =? ENTER_KEY) then
    let k := set_idx (idx + 1) k in
    Ret tt (if num_chars (kbd k) <? idx + 1 then set_chars (idx + 1) k else k)
  else enter_line k.

(** The end of the handler: [save_idx] and the end of interrupt. *)
Definition key_done (k : kernel) : kernel :=
  let k := upd_key_term (set_save_idx (keyboard_buf_idx (kbd k))) k in
  upd_ports (send_eoi KEYBOARD_IRQ_NUM) k.

Definition keyboard_handler : C unit := fun k =>
  let t := return_active_terminal k in
  let k := upd_kbd (set_kb_active t) k in
  let k := set_idx (save_idx (term_at (kb_terminals (kbd k)) t)) k in
  (test <- getChar;;
   if test =? DONT_PRINT then modify key_done
   else fun k =>
     if (keyboard_buf_idx (kbd k) =? BUFSIZE - 1) && negb (test =? ENTER_KEY)
     then Ret tt (upd_ports (send_eoi KEYBOARD_IRQ_NUM) (put_key (BUFSIZE - 1) NEWLINE k))
     else (line_key test;; modify (key_putc test);; modify key_done) k) k.
End keys.

(** ** Typing *)

(** The keyboard port answers with scancode [c]. *)
Definition with_key (c : Z) (k : kernel) : kernel :=
  set_rtc (Rtc (rtc_flag (rtc k)) (Ports (trace (rtc_ports (rtc k))) (fun _ _ => c))) k.

Definition key_char (c : Z) : Z := arr_get scancode c.

(** A key that only gives a character, other than enter. *)
Definition plain (c : Z) : Prop :=
  0 <= c < SCANCODE_ARRAY_SIZE /\ c <> UP_ARROW /\ c <> LEFT_ARROW /\ c <> RIGHT_ARROW /\
  c <> DOWN_ARROW /\ key_char c <> NUL /\ key_char c <> NEWLINE.

#[export] Instance plain_dec c : Decision (plain c).
Proof. unfold plain. apply _. Defined.

(** No shift, control, alt or caps lock. *)
Definition no_modifiers (b : keyboard) : Prop :=
  length (pressed_flags b) = 86%nat /\ caps_lock_check b <> 1 /\
  arr_get (pressed_flags b) L_CTL_KEY = 0 /\ arr_get (pressed_flags b) L_SHIFT_KEY = 0 /\
  arr_get (pressed_flags b) R_SHIFT_KEY = 0 /\ arr_get (pressed_flags b) L_ALT_KEY = 0.

(** The line [l] has been typed so far on terminal [t], the visible one. *)
Definition typing (t : Z) (l : list Z) (k : kernel) : Prop :=
  console_wf k /\ active_terminal (sys k) = t /\ no_modifiers (kbd k) /\
  length (kb_terminals (kbd k)) = 3%nat /\
  length (save_buf (term_at (kb_terminals (kbd k)) t)) = 128%nat /\
  save_idx (term_at (kb_terminals (kbd k)) t) = Z.of_nat (length l) /\
  (forall i, 0 <= i < Z.of_nat (length l) ->
     arr_get (save_buf (term_at (kb_terminals (kbd k)) t)) i = arr_get l i) /\
  (forall b, line_buf t (kbd k) = Some b -> length b = 128%nat) /\
  length (last_buf (kbd k)) = 128%nat.

Lemma scancode_byte c : 0 <= key_char c < 128.
Proof.
  assert (Hf : Forall (fun x => 0 <= x < 128) scancode).
  { apply (bool_decide_unpack (Forall (fun x => 0 <= x < 128) scancode)). vm_compute. exact I. }
  unfold key_char, arr_get. case_decide; [| lia].
  destruct (scancode !! Z.to_nat c) as [v |] eqn:Hv; simpl; [| lia].
  by apply (Forall_lookup_1 _ _ _ _ Hf Hv).
Qed.

(** What [key_putc] leaves alone. *)
Lemma key_putc_frame c k :
  kbd (key_putc c k) = kbd k /\ process_num (sys (key_putc c k)) = process_num (sys k) /\
  main_process (sys (key_putc c k)) = main_process (sys k).
Proof. unfold key_putc. by destruct (draw _ _ _ _ _ _) as [[m x] y]. Qed.

Lemma key_putc_loc c k :
  console_wf k -> 0 <= c < 256 -> region (mem k) VIDEO 4000 ->
  forall a, loc (mem (key_putc c k)) a = loc (mem k) a.
Proof.
  intros Hwf Hc Hr. destruct (key_putc_spec c k Hwf Hc) as (_ & _ & _ & -> & _).
  destruct (draw_page VIDEO (x_return 1 k) (y_return 1 k) c (text_color (scr k)) (mem k))
    as (Hl & _); [done | by apply console_wf_return | done | exact Hl].
Qed.

(** The line and its index, after an update of them. *)
Lemma key_term_upd f k t :
  length (kb_terminals (kbd k)) = 3%nat -> 0 <= t < 3 -> kb_active (kbd k) = t ->
  term_at (kb_terminals (kbd (upd_key_term f k))) t = f (term_at (kb_terminals (kbd k)) t) /\
  length (kb_terminals (kbd (upd_key_term f k))) = 3%nat.
Proof.
  intros Hl Ht <-. unfold upd_key_term, upd_kb_term, upd_kbd. ksimpl.
  rewrite term_at_set_eq by lia. by rewrite length_arr_set.
Qed.

(** ** Lines *)

Lemma holds_line_intro b l :
  length b = 128%nat -> (length l < 128)%nat -> Forall (fun c => 0 <= c < 256 /\ c <> NEWLINE) l ->
  (forall i, 0 <= i < Z.of_nat (length l) -> arr_get b i = arr_get l i) ->
  arr_get b (Z.of_nat (length l)) = NEWLINE -> holds_line b l.
Proof.
  intros Hb Hl Hnl Heq Hend. split_and!; [done | done | done |].
  exists (drop (S (length l)) b). rewrite <- (take_drop (length l) b) at 1. f_equal.
  - apply list_eq. intros i. destruct (decide (i < length l)%nat) as [Hi | Hi].
    + specialize (Heq (Z.of_nat i) ltac:(lia)). rewrite lookup_take_lt by done.
      destruct (lookup_lt_is_Some_2 l i Hi) as [c Hc].
      destruct (lookup_lt_is_Some_2 b i) as [d Hd]; [lia |].
      rewrite (arr_get_lookup b _ d), (arr_get_lookup l _ c) in Heq by (rewrite ?Nat2Z.id; done || lia).
      by rewrite Hc, Hd, Heq.
    + rewrite !lookup_ge_None_2; [done | lia | rewrite length_take; lia].
  - destruct (lookup_lt_is_Some_2 b (length l)) as [d Hd]; [lia |].
    rewrite (arr_get_lookup b _ d) in Hend by (rewrite ?Nat2Z.id; done || lia). subst d.
    by apply drop_S.
Qed.

Lemma copy_line_spec n i dest src l :
  i + Z.of_nat n = 128 -> length dest = 128%nat -> terminated NEWLINE (arr_get src) l ->
  0 <= i <= Z.of_nat (length l) -> (length l < 128)%nat ->
  (forall j, 0 <= j < i -> arr_get dest j = arr_get l j) ->
  exists d, copy_line n i dest src = Some d /\ length d = 128%nat /\
    (forall j, 0 <= j < Z.of_nat (length l) -> arr_get d j = arr_get l j) /\
    arr_get d (Z.of_nat (length l)) = NEWLINE.
Proof.
  intros Hn Hd Ht Hi Hl Hpre. revert i dest Hn Hd Hi Hpre.
  induction n as [| n IH]; intros i dest Hn Hd Hi Hpre; [lia |]. cbn [copy_line].
  destruct (decide (i = Z.of_nat (length l))) as [-> | Hne].
  - rewrite (proj2 Ht), Z.eqb_refl. eexists. split; [reflexivity |].
    rewrite length_arr_set, arr_get_set_eq by lia. split_and!; [done | | done].
    intros j Hj. rewrite arr_get_set_ne by lia. by apply Hpre.
  - assert (Hr : 0 <= i < Z.of_nat (length l)) by lia.
    pose proof (terminated_at _ _ _ _ Ht Hr) as Hnl.
    rewrite (proj2 (Z.eqb_neq _ _) Hnl).
    destruct (IH (i + 1) (arr_set dest i (arr_get src i))) as (d & Hc & Hrest);
      [lia | by rewrite length_arr_set | lia | | by exists d].
    intros j Hj. destruct (decide (j = i)) as [-> | Hji].
    + rewrite arr_get_set_eq by lia. symmetry. by apply (terminated_nth NEWLINE).
    + rewrite arr_get_set_ne by done. apply Hpre. lia.
Qed.

(** A plain key is none of the special keys, and neither is enter. *)
Lemma key_not_special c x : key_char x = NUL -> key_char c <> NUL -> c <> x.
Proof. intros Hx Hc ->. done. Qed.

Section typing.
Variable junk : Z -> Z.
Variable fuel : nat.

(** The state in which [getChar] looks at a key, and the one it leaves. *)
Definition key_start (c : Z) (k : kernel) : kernel :=
  let k := upd_kbd (set_kb_active (active_terminal (sys k))) (with_key c k) in
  set_idx (save_idx (term_at (kb_terminals (kbd k)) (active_terminal (sys k)))) k.

Definition key_down (c : Z) (k : kernel) : kernel :=
  let p := (inb KEYBOARD_PORT (rtc_ports (rtc (with_key c k)))).2 in
  upd_kbd (fun b => set_pressed_flags (arr_set (pressed_flags b) c PRESSED) b)
    (set_rtc (Rtc (rtc_flag (rtc k)) p) (key_start c k)).

(** A key with a character, whatever the character, and no modifier. *)
Definition char_code (c : Z) : Prop :=
  0 <= c < SCANCODE_ARRAY_SIZE /\ c <> UP_ARROW /\ c <> LEFT_ARROW /\ c <> RIGHT_ARROW /\
  c <> DOWN_ARROW /\ key_char c <> NUL.

Lemma getChar_plain c k :
  char_code c -> no_modifiers (kbd k) ->
  getChar junk fuel (key_start c k) = Ret (key_char c) (key_down c k).
Proof.
  intros (Hr & H1 & H2 & H3 & H4 & Hch) (Hl & Hcaps & Hctl & Hsh & Hsh2 & Halt).
  unfold SCANCODE_ARRAY_SIZE in Hr. unfold getChar, bind at 1, getScancode.
  change (inb KEYBOARD_PORT (rtc_ports (rtc (key_start c k)))) with
    (inb KEYBOARD_PORT (rtc_ports (rtc (with_key c k)))).
  unfold inb at 1. cbn [rtc_ports rtc with_key set_rtc answer].
  rewrite (u8_small c) by lia. rewrite (u8_small c) by lia.
  rewrite (proj2 (Z.leb_le c MAX_PRESSED_CODE)) by (unfold MAX_PRESSED_CODE; lia).
  unfold bind at 1, set_pressed, SCANCODE_ARRAY_SIZE.
  rewrite (proj2 (Z.leb_le 0 c)), (proj2 (Z.ltb_lt c 86)) by lia. cbn [andb].
  match goal with |- pressed_key _ _ c ?s = _ => change s with (key_down c k) end.
  set (k3 := key_down c k).
  assert (Hp : forall x, key_char x = NUL -> arr_get (pressed_flags (kbd k)) x = 0 ->
            pressed x k3 = false).
  { intros x Hx Hz. unfold pressed. change (pressed_flags (kbd k3))
      with (arr_set (pressed_flags (kbd k)) c PRESSED).
    rewrite arr_get_set_ne by (by apply key_not_special). by rewrite Hz. }
  unfold pressed_key.
  rewrite (proj2 (Z.eqb_neq c CAPSLOCK_KEY)) by (by apply key_not_special).
  unfold bind, control_keys. rewrite (Hp L_CTL_KEY) by done. cbn [andb].
  rewrite (Hp L_ALT_KEY) by done. cbn [andb].
  rewrite (proj2 (Z.eqb_neq c LEFT_ARROW)), (proj2 (Z.eqb_neq c RIGHT_ARROW)),
    (proj2 (Z.eqb_neq c UP_ARROW)), (proj2 (Z.eqb_neq c DOWN_ARROW)) by done. cbn [orb].
  rewrite (proj2 (Z.eqb_neq c BACKSPACE_KEY)) by (by apply key_not_special). cbn [andb].
  unfold char_key, shifted. rewrite (Hp L_SHIFT_KEY), (Hp R_SHIFT_KEY) by done. cbn [orb].
  change (caps_lock_check (kbd k3)) with (caps_lock_check (kbd k)).
  rewrite (proj2 (Z.eqb_neq _ 1) Hcaps).
  rewrite (proj2 (Z.eqb_neq c TAB_KEY)) by (by apply key_not_special).
  change (arr_get scancode c) with (key_char c). by rewrite (proj2 (Z.eqb_neq _ NUL) Hch).
Qed.

(** The handler on a key with a character, before the line is full. *)
Lemma handler_char c k :
  char_code c -> no_modifiers (kbd k) ->
  save_idx (term_at (kb_terminals (kbd k)) (active_terminal (sys k))) < 127 ->
  keyboard_handler junk fuel (with_key c k)
  = (line_key (key_char c);; modify (key_putc (key_char c));; modify key_done) (key_down c k).
Proof.
  intros Hc Hm Hi.
  change (keyboard_handler junk fuel (with_key c k)) with
    ((test <- getChar junk fuel;;
      if test =? DONT_PRINT then modify key_done
      else fun k =>
        if (keyboard_buf_idx (kbd k) =? BUFSIZE - 1) && negb (test =? ENTER_KEY)
        then Ret tt (upd_ports (send_eoi KEYBOARD_IRQ_NUM) (put_key (BUFSIZE - 1) NEWLINE k))
        else (line_key test;; modify (key_putc test);; modify key_done) k) (key_start c k)).
  unfold bind at 1. rewrite getChar_plain by done.
  pose proof (scancode_byte c) as Hb.
  rewrite (proj2 (Z.eqb_neq (key_char c) DONT_PRINT)) by (unfold DONT_PRINT; lia).
  change (keyboard_buf_idx (kbd (key_down c k)))
    with (save_idx (term_at (kb_terminals (kbd k)) (active_terminal (sys k)))).
  rewrite (proj2 (Z.eqb_neq _ (BUFSIZE - 1))) by (unfold BUFSIZE; lia). done.
Qed.

Lemma no_modifiers_down c k :
  char_code c -> no_modifiers (kbd k) -> no_modifiers (kbd (key_down c k)).
Proof.
  intros (Hr & _ & _ & _ & _ & Hch) (Hl & Hcaps & Hctl & Hsh & Hsh2 & Halt).
  unfold no_modifiers. change (pressed_flags (kbd (key_down c k)))
    with (arr_set (pressed_flags (kbd k)) c PRESSED).
  rewrite length_arr_set, !arr_get_set_ne by (by apply key_not_special). done.
Qed.

(** A plain key extends the line by its character. *)
Lemma type_char t l c k :
  typing t l k -> plain c -> (length l < 127)%nat ->
  exists k', keyboard_handler junk fuel (with_key c k) = Ret tt k' /\
    typing t (l ++ [key_char c]) k' /\ main_terminal k' = main_terminal k /\
    (region (mem k) VIDEO 4000 -> forall a, loc (mem k') a = loc (mem k) a).
Proof.
  intros (Hwf & Ha & Hm & Hl3 & Hlb & Hsi & Hline & Hbufs & Hlast) Hp Hlen.
  destruct Hp as (Hr & H1 & H2 & H3 & H4 & Hnul & Hnl).
  assert (Hc : char_code c) by done. pose proof (scancode_byte c) as Hb.
  rewrite handler_char; [| done | done | rewrite Ha, Hsi; lia].
  pose proof Hwf as (_ & _ & _ & Hact & _). rewrite Ha in Hact.
  set (k1 := key_down c k). set (ch := key_char c) in *.
  assert (Hk1 : kb_active (kbd k1) = t) by exact Ha.
  assert (Hidx : keyboard_buf_idx (kbd k1) = Z.of_nat (length l)).
  { rewrite <- Hsi, <- Ha. done. }
  unfold line_key, bind at 1. rewrite (proj2 (Z.eqb_neq ch ENTER_KEY)) by exact Hnl. cbn [negb].
  rewrite Hidx. set (k2 := put_key (Z.of_nat (length l)) ch k1).
  destruct (key_term_upd (fun t => set_save_buf (arr_set (save_buf t) (Z.of_nat (length l)) ch) t)
    k1 t Hl3 Hact Hk1) as [Ht2 Hl2]. fold (put_key (Z.of_nat (length l)) ch k1) k2 in Ht2, Hl2.
  set (k3 := if num_chars _ <? _ then _ else _).
  assert (Hk3 : kb_terminals (kbd k3) = kb_terminals (kbd k2) /\ kb_active (kbd k3) = t /\
    keyboard_buf_idx (kbd k3) = Z.of_nat (length l) + 1 /\ pressed_flags (kbd k3) = pressed_flags (kbd k1) /\
    caps_lock_check (kbd k3) = caps_lock_check (kbd k) /\ last_buf (kbd k3) = last_buf (kbd k) /\
    line_buf t (kbd k3) = line_buf t (kbd k) /\ sys k3 = sys k /\ mem k3 = mem k /\ scr k3 = scr k).
  { unfold k3. destruct (num_chars _ <? _); done. }
  clearbody k3. destruct Hk3 as (E1 & E2 & E3 & E4 & E5 & E6 & E7 & E8 & E9 & E10).
  unfold modify at 1, bind, modify. eexists. split; [reflexivity |].
  assert (Hwf3 : console_wf k3) by (unfold console_wf, main_terminal; by rewrite E8, E10).
  destruct (key_putc_spec ch k3 Hwf3 ltac:(lia)) as (Hwf4 & _ & _ & _ & _ & Hact4).
  destruct (key_putc_frame ch k3) as (Hkb4 & Hpn4 & Hmp4).
  set (k4 := key_putc ch k3) in *.
  destruct (key_term_upd (set_save_idx (Z.of_nat (length l) + 1)) k4 t) as [Ht5 Hl5];
    [by rewrite Hkb4, E1 | done | by rewrite Hkb4 |].
  unfold key_done. rewrite Hkb4, E3.
  set (k5 := upd_key_term _ k4) in *. rewrite Hkb4, E1, Ht2 in Ht5.
  split; [| split].
  - unfold typing. change (kbd (upd_ports ?g k5)) with (kbd k5). rewrite Ht5. ksimpl.
    rewrite !length_app. cbn [length]. split; [exact Hwf4 |].
    split; [change (sys (upd_ports ?g k5)) with (sys k4); by rewrite Hact4, E8 |].
    split; [unfold no_modifiers; change (pressed_flags (kbd k5)) with (pressed_flags (kbd k4));
            change (caps_lock_check (kbd k5)) with (caps_lock_check (kbd k4));
            rewrite Hkb4, E4, E5; exact (no_modifiers_down c k Hc Hm) |].
    split; [done |].
    change (term_at (kb_terminals (kbd k1)) t) with (term_at (kb_terminals (kbd k)) t).
    split; [by rewrite length_arr_set |]. split; [lia |]. split.
    + intros i Hi. destruct (decide (i = Z.of_nat (length l))) as [-> | Hne].
      * rewrite arr_get_set_eq by lia. rewrite arr_get_app_r, Z.sub_diag by lia. done.
      * rewrite arr_get_set_ne, arr_get_app_l by lia. apply Hline. lia.
    + change (line_buf t (kbd k5)) with (line_buf t (kbd k4)).
      change (last_buf (kbd k5)) with (last_buf (kbd k4)). by rewrite Hkb4, E7, E6.
  - change (main_terminal (upd_ports ?g k5)) with (main_terminal k4). unfold main_terminal.
    by rewrite Hpn4, Hmp4, E8.
  - intros Hreg a. change (mem (upd_ports ?g k5)) with (mem k4). unfold k4.
    rewrite key_putc_loc; [by rewrite E9 | done | lia | by rewrite E9].
Qed.

Definition ENTER_CODE : Z := 0x1C.

(** Enter hands the line over and starts a new one. *)
Lemma type_enter t l k :
  typing t l k -> (length l < 127)%nat -> Forall (fun c => 0 < c < 128 /\ c <> NEWLINE) l ->
  exists k' line, keyboard_handler junk fuel (with_key ENTER_CODE k) = Ret tt k' /\
    typing t [] k' /\ main_terminal k' = main_terminal k /\
    line_buf t (kbd k') = Some line /\ holds_line line l /\ arr_get line 0 <> NULL_CHAR /\
    (region (mem k) VIDEO 4000 -> forall a, loc (mem k') a = loc (mem k) a).
Proof.
  intros (Hwf & Ha & Hm & Hl3 & Hlb & Hsi & Hline & Hbufs & Hlast) Hlen Hall.
  assert (Hc : char_code ENTER_CODE) by (vm_compute; split_and!; congruence).
  rewrite handler_char; [| done | done | rewrite Ha, Hsi; lia].
  change (key_char ENTER_CODE) with NEWLINE.
  pose proof Hwf as (_ & _ & _ & Hact & _). rewrite Ha in Hact.
  set (k1 := key_down ENTER_CODE k).
  assert (Hk1 : kb_active (kbd k1) = t) by exact Ha.
  assert (Hidx : keyboard_buf_idx (kbd k1) = Z.of_nat (length l)) by (rewrite <- Hsi, <- Ha; done).
  unfold line_key, bind at 1. change (negb (NEWLINE =? ENTER_KEY)) with false. cbv iota.
  rewrite Hidx. set (k2 := put_key (Z.of_nat (length l)) NEWLINE k1).
  destruct (key_term_upd (fun t => set_save_buf (arr_set (save_buf t) (Z.of_nat (length l)) NEWLINE) t)
    k1 t Hl3 Hact Hk1) as [Ht2 Hl2].
  fold (put_key (Z.of_nat (length l)) NEWLINE k1) k2 in Ht2, Hl2.
  change (term_at (kb_terminals (kbd k1)) t) with (term_at (kb_terminals (kbd k)) t) in Ht2.
  assert (Hsrc : terminated NEWLINE (arr_get (key_buf k2)) l).
  { unfold key_buf. change (kb_active (kbd k2)) with (kb_active (kbd k1)). rewrite Hk1, Ht2. ksimpl.
    split.
    - intros i Hi. rewrite arr_get_set_ne, Hline by lia. pose proof (arr_get_forall _ _ _ Hall Hi) as [_ H].
      split; [| exact H]. destruct (lookup_lt_is_Some_2 l (Z.to_nat i)) as [c Hc']; [lia |].
      by rewrite (arr_get_lookup l i c) by (done || lia).
    - by rewrite arr_get_set_eq by lia. }
  assert (Hlb2 : exists b, line_buf t (kbd k) = Some b /\ length b = 128%nat).
  { assert (Hc3 : t = 0 \/ t = 1 \/ t = 2) by lia.
    destruct Hc3 as [-> | [-> | ->]]; eexists; (split; [reflexivity |]); by apply Hbufs. }
  destruct Hlb2 as (b & Hb & Hlenb).
  destruct (copy_line_spec 128 0 b (key_buf k2) l) as (line & Hcl & Hll & Hlg & Hle);
    [try done; try lia; try (intros; lia) .. |].
  destruct (copy_line_spec 128 0 (last_buf (kbd k)) (key_buf k2) l) as (last & Hcl2 & Hll2 & _);
    [try done; try lia; try (intros; lia) .. |].
  unfold enter_line. change (kb_active (kbd k2)) with (kb_active (kbd k1)). rewrite Hk1.
  change (line_buf t (kbd k2)) with (line_buf t (kbd k)). rewrite Hb, Hcl.
  change (last_buf (kbd k2)) with (last_buf (kbd k)). rewrite Hcl2.
  set (k3 := set_chars 0 _).
  assert (Hlbk3 : forall t' v bb, line_buf t' (set_last_idx v bb) = line_buf t' bb) by done.
  assert (Hk3 : kb_terminals (kbd k3) = kb_terminals (kbd k2) /\ kb_active (kbd k3) = t /\
    keyboard_buf_idx (kbd k3) = 0 /\ pressed_flags (kbd k3) = pressed_flags (kbd k1) /\
    caps_lock_check (kbd k3) = caps_lock_check (kbd k) /\ last_buf (kbd k3) = last /\
    line_buf t (kbd k3) = Some line /\ sys k3 = sys k /\ mem k3 = mem k /\ scr k3 = scr k).
  { unfold k3. assert (Hc3 : t = 0 \/ t = 1 \/ t = 2) by lia.
    destruct Hc3 as [-> | [-> | ->]]; split_and!; first [reflexivity | exact Ha]. }
  clearbody k3. destruct Hk3 as (E1 & E2 & E3 & E4 & E5 & E6 & E7 & E8 & E9 & E10).
  destruct (key_term_upd (fun t => set_save_buf (arr_set (save_buf t) 0 NULL_CHAR) t) k3 t)
    as [Ht4 Hl4]; [by rewrite E1 | done | done |].
  fold (put_key 0 NULL_CHAR k3) in Ht4, Hl4. set (k4 := put_key 0 NULL_CHAR k3) in *.
  rewrite E1, Ht2 in Ht4. unfold modify at 1, bind, modify.
  assert (Hwf4 : console_wf k4).
  { unfold console_wf, main_terminal. change (sys k4) with (sys k3). change (scr k4) with (scr k3).
    by rewrite E8, E10. }
  destruct (key_putc_spec NEWLINE k4 Hwf4 ltac:(unfold NEWLINE; lia)) as (Hwf5 & _ & _ & _ & _ & Hact5).
  destruct (key_putc_frame NEWLINE k4) as (Hkb5 & Hpn5 & Hmp5).
  set (k5 := key_putc NEWLINE k4) in *.
  destruct (key_term_upd (set_save_idx 0) k5 t) as [Ht6 Hl6]; [by rewrite Hkb5 | done | by rewrite Hkb5 |].
  eexists _, line. split; [reflexivity |]. unfold key_done. rewrite Hkb5.
  change (keyboard_buf_idx (kbd k4)) with (keyboard_buf_idx (kbd k3)). rewrite E3.
  set (k6 := upd_key_term _ k5) in *. rewrite Hkb5, Ht4 in Ht6.
  change (kbd (upd_ports ?g k6)) with (kbd k6).
  assert (Hlbk : line_buf t (kbd k6) = Some line).
  { change (line_buf t (kbd k6)) with (line_buf t (kbd k5)). by rewrite Hkb5. }
  split; [| split; [| split; [| split; [| split]]]].
  - unfold typing. change (kbd (upd_ports ?g k6)) with (kbd k6). rewrite Ht6, Hlbk. ksimpl.
    rewrite !length_arr_set. split; [exact Hwf5 |].
    split; [change (sys (upd_ports ?g k6)) with (sys k5); rewrite Hact5;
            change (sys k4) with (sys k3); by rewrite E8 |].
    split; [unfold no_modifiers; change (pressed_flags (kbd k6)) with (pressed_flags (kbd k5));
            change (caps_lock_check (kbd k6)) with (caps_lock_check (kbd k5)); rewrite Hkb5;
            change (pressed_flags (kbd k4)) with (pressed_flags (kbd k3));
            change (caps_lock_check (kbd k4)) with (caps_lock_check (kbd k3));
            rewrite E4, E5; exact (no_modifiers_down ENTER_CODE k Hc Hm) |].
    split; [done |]. split; [done |]. split; [done |]. split; [intros; simpl in *; lia |].
    split; [by intros ? [= <-] |].
    change (last_buf (kbd k6)) with (last_buf (kbd k5)). rewrite Hkb5.
    change (last_buf (kbd k4)) with (last_buf (kbd k3)). by rewrite E6.
  - change (main_terminal (upd_ports ?g k6)) with (main_terminal k5). unfold main_terminal.
    rewrite Hpn5, Hmp5. change (sys k4) with (sys k3). by rewrite E8.
  - exact Hlbk.
  - apply holds_line_intro; [done | lia | | done | done].
    eapply Forall_impl; [exact Hall |]. cbv beta. intros c Hc'. lia.
  - destruct l as [| c l]; [cbn [length] in Hle; change (Z.of_nat 0) with 0 in Hle; by rewrite Hle |].
    rewrite Hlg by (simpl; lia). apply Forall_cons in Hall as [[H0 _] _]. unfold arr_get. simpl.
    unfold NULL_CHAR. lia.
  - intros Hreg a. change (mem (upd_ports ?g k6)) with (mem k5). unfold k5.
    change (mem k3) with (mem k4) in E9.
    rewrite key_putc_loc; [by rewrite E9 | done | unfold NEWLINE; lia | by rewrite E9].
Qed.

(** The handler run for each key of a sequence. *)
Fixpoint type_keys (cs : list Z) : C unit := fun k =>
  match cs with
  | [] => Ret tt k
  | c :: cs' => (keyboard_handler junk fuel;; type_keys cs') (with_key c k)
  end.

Lemma type_plain t cs : forall l k,
  typing t l k -> Forall plain cs -> (length l + length cs < 127)%nat ->
  exists k', type_keys cs k = Ret tt k' /\ typing t (l ++ (key_char <$> cs)) k' /\
    main_terminal k' = main_terminal k /\
    (region (mem k) VIDEO 4000 -> forall a, loc (mem k') a = loc (mem k) a).
Proof.
  induction cs as [| c cs IH]; intros l k Ht Hp Hl.
  - exists k. cbn [fmap list_fmap]. by rewrite app_nil_r.
  - apply Forall_cons in Hp as [Hc Hp]. cbn [length] in Hl.
    destruct (type_char t l c k Ht Hc) as (k1 & Hk1 & Ht1 & Hm1 & Hloc1); [lia |].
    destruct (IH (l ++ [key_char c]) k1 Ht1 Hp) as (k2 & Hk2 & Ht2 & Hm2 & Hloc2);
      [rewrite length_app; simpl; lia |].
    exists k2. cbn [type_keys]. unfold bind. rewrite Hk1. split; [exact Hk2 |].
    rewrite <- app_assoc in Ht2. split; [exact Ht2 |]. split; [by rewrite Hm2 |].
    intros Hr a. rewrite Hloc2; [by apply Hloc1 |]. destruct Hr as [Hmap Hinj].
    split; intros *; rewrite !(Hloc1 (conj Hmap Hinj)); [apply Hmap | apply Hinj].
Qed.
End typing.

Lemma type_keys_app junk fuel cs cs' k :
  type_keys junk fuel (cs ++ cs') k = (type_keys junk fuel cs;; type_keys junk fuel cs') k.
Proof.
  revert k. induction cs as [| c cs IH]; intros k; [done |]. cbn [app type_keys].
  unfold bind at 1 2 3. destruct (keyboard_handler junk fuel (with_key c k)); done.
Qed.

(** ** Properties *)

(** C7: A typed line is read: from an empty line on the visible terminal,
    up to 126 plain keys and then enter, each handled by its interrupt, put
    the characters of the scancode table into the line buffer, and
    [terminal_read] of a process of that terminal returns exactly these
    characters and a newline; the handler is ready for the next line. *)
Theorem typed_line_is_read junk fuel t cs buf nbytes k :
  typing t [] k -> main_terminal k = t -> Forall plain cs -> (length cs < 127)%nat ->
  region (mem k) VIDEO 4000 -> region (mem k) buf 128 -> (128 < fuel)%nat ->
  exists k1 k2, type_keys junk fuel (cs ++ [ENTER_CODE]) k = Ret tt k1 /\ typing t [] k1 /\
    terminal_read fuel 0 buf nbytes k1 = Ret (Z.of_nat (length cs) + 1) k2 /\
    bytes (mem k2) buf (length cs + 1) = (key_char <$> cs) ++ [NEWLINE].
Proof.
  intros Ht Hmt Hp Hl Hrv Hrb Hf.
  destruct (type_plain junk fuel t cs [] k Ht Hp) as (k0 & Hk0 & Ht0 & Hm0 & Hloc0); [done |].
  cbn [app] in Ht0. specialize (Hloc0 Hrv).
  assert (Hall : Forall (fun c => 0 < c < 128 /\ c <> NEWLINE) (key_char <$> cs)).
  { rewrite Forall_fmap. eapply Forall_impl; [exact Hp |]. intros c Hc. cbn [compose].
    destruct Hc as (_ & _ & _ & _ & _ & Hnul & Hnl). pose proof (scancode_byte c).
    unfold NUL in Hnul. split; [lia | done]. }
  assert (Hreg : forall b n, region (mem k) b n -> region (mem k0) b n).
  { intros b n [Hmap Hinj]. split; intros *; rewrite !Hloc0; [apply Hmap | apply Hinj]. }
  destruct (type_enter junk fuel t (key_char <$> cs) k0 Ht0) as
    (k1 & line & Hk1 & Ht1 & Hm1 & Hb1 & Hline & Hnz & Hloc1); [by rewrite length_fmap | done |].
  specialize (Hloc1 (Hreg _ _ Hrv)).
  pose proof Ht1 as (_ & Ha1 & _).
  destruct (terminal_read_run fuel buf nbytes (key_char <$> cs) line k1) as [Hr Hby];
    [by rewrite Ha1 | done | done | by rewrite Hm1, Hm0, Ha1 | | done |].
  { destruct (Hreg _ _ Hrb) as [Hmap Hinj].
    split; intros *; rewrite !Hloc1; [apply Hmap | apply Hinj]. }
  rewrite length_fmap in Hr, Hby. exists k1. eexists. split; [| by split].
  rewrite type_keys_app. unfold bind. rewrite Hk0. cbn [type_keys]. unfold bind. by rewrite Hk1.
Qed.

(** ** Witness *)

Lemma sample_typing : typing 0 [] sample.
Proof. split; [exact sample_console |]. split_and!; try (vm_compute; congruence).
  all: try (intros ? [= <-]; reflexivity).
  - split_and!; vm_compute; congruence.
  - intros i Hi. change (Z.of_nat (length [])) with 0 in Hi. lia.
Qed.

(** "ls", by the scancodes of its letters. *)
Lemma typed_line_is_read_witness :
  exists k1 k2, type_keys (fun _ => 0) 200 [0x26; 0x1F; ENTER_CODE] sample = Ret tt k1 /\
    terminal_read 200 0 0x1000 128 k1 = Ret 3 k2 /\
    bytes (mem k2) 0x1000 3 = str_bytes "ls" ++ [NEWLINE].
Proof.
  destruct (typed_line_is_read (fun _ => 0) 200 0 [0x26; 0x1F] 0x1000 128 sample)
    as (k1 & k2 & Hk & _ & Hr & Hb).
  - exact sample_typing.
  - reflexivity.
  - repeat constructor; vm_compute; congruence.
  - simpl. lia.
  - apply unpaged_region; vm_compute; congruence.
  - apply unpaged_region; vm_compute; congruence.
  - lia.
  - exists k1, k2. split; [exact Hk |]. split; [exact Hr | exact Hb].
Defined.
