(* ===== verification/Idt.v ===== *)
(** * The interrupt descriptor table (idt.c, x86_desc.h)

    The gates with their fields, [init_idt], the exception handlers, and what
    each vector does.  The gates are read back the way the processor reads
    them; an exception ends the process that raised it. *)

From S2P Require Import Prelude Memory Lib Paging Devices State Sample.
From S2P Require Import Console Filesys Terminal Syscall Scheduler Keyboard.

Definition NUM_VEC : Z := 256.
Definition KERNEL_CS : Z := 0x0010.
Definition KEYB_IDX : Z := 33.
Definition RTC_IDX : Z := 0x28.
Definition PIT_IDX : Z := 0x20.
Definition SYS_CALL : Z := 0x80.

(** ** Gates *)

(** [idt_desc_t] *)
Record idt_desc := Gate {
  offset_15_00 : Z; seg_selector : Z; reserved4 : Z; reserved3 : Z; reserved2 : Z;
  reserved1 : Z; size : Z; reserved0 : Z; dpl : Z; present : Z; offset_31_16 : Z
}.

Definition no_gate : idt_desc := Gate 0 0 0 0 0 0 0 0 0 0 0.

Definition gate_at (l : list idt_desc) (i : Z) : idt_desc :=
  if decide (0 <= i) then default no_gate (l !! Z.to_nat i) else no_gate.

(** The two words [val] of the union. *)
Definition val0 (g : idt_desc) : Z := offset_15_00 g + Z.shiftl (seg_selector g) 16.
Definition val1 (g : idt_desc) : Z :=
  reserved4 g +
  Z.shiftl (reserved3 g + 2 * reserved2 g + 4 * reserved1 g + 8 * size g + 16 * reserved0 g +
            32 * dpl g + 128 * present g) 8 +
  Z.shiftl (offset_31_16 g) 16.

(** The routines that gates lead to. *)
Inductive handler :=
  | H_DIVIDE_BY_ZERO | H_DB | H_NMI | H_BP | H_OF | H_BR | H_UD | H_NM | H_DF | H_CSO | H_TS
  | H_NP | H_SS | H_GP | H_PF | H_DEFAULT | H_MF | H_AC | H_MC | H_XF
  | H_syscall_wrapper | H_rtc_wrapper | H_keyboard_wrapper | H_pit_wrapper.

(** [SET_IDT_ENTRY(str, handler)], on the address of the handler. *)
Definition SET_IDT_ENTRY (g : idt_desc) (addr : Z) : idt_desc :=
  Gate (Z.land (u32 addr) 0xFFFF) (seg_selector g) (reserved4 g) (reserved3 g) (reserved2 g)
    (reserved1 g) (size g) (reserved0 g) (dpl g) (present g)
    (Z.shiftr (Z.land (u32 addr) 0xFFFF0000) 16).

(** One turn of the loop: [dpl] stays [d] except where set later. *)
Definition init_gate (i : Z) (g : idt_desc) : idt_desc :=
  Gate (offset_15_00 g) KERNEL_CS 0 0 1 1 1 0 0
    (if (i <? 20) || (i =? KEYB_IDX) || (i =? SYS_CALL) || (i =? RTC_IDX) || (i =? PIT_IDX)
     then 1 else 0)
    (offset_31_16 g).

Definition set_dpl (d : Z) (g : idt_desc) : idt_desc :=
  Gate (offset_15_00 g) (seg_selector g) (reserved4 g) (reserved3 g) (reserved2 g)
    (reserved1 g) (size g) (reserved0 g) d (present g) (offset_31_16 g).

Definition upd_gate (i : Z) (f : idt_desc -> idt_desc) (l : list idt_desc) : list idt_desc :=
  arr_set l i (f (gate_at l i)).

(** The [SET_IDT_ENTRY] lines, in order. *)
Definition idt_entries : list (Z * handler) :=
  [(0, H_DIVIDE_BY_ZERO); (1, H_DB); (2, H_NMI); (3, H_BP); (4, H_OF); (5, H_BR); (6, H_UD);
   (7, H_NM); (8, H_DF); (9, H_CSO); (10, H_TS); (11, H_NP); (12, H_SS); (13, H_GP); (14, H_PF);
   (15, H_DEFAULT); (16, H_MF); (17, H_AC); (18, H_MC); (19, H_XF);
   (SYS_CALL, H_syscall_wrapper); (RTC_IDX, H_rtc_wrapper); (KEYB_IDX, H_keyboard_wrapper);
   (PIT_IDX, H_pit_wrapper)].

Section idt.
(** The addresses that the linker gave the routines. *)
Variable handler_addr : handler -> Z.

Definition set_entries (es : list (Z * handler)) (idt : list idt_desc) : list idt_desc :=
  foldl (fun idt e => upd_gate e.1 (fun g => SET_IDT_ENTRY g (handler_addr e.2)) idt) idt es.

Definition init_idt (idt : list idt_desc) : list idt_desc :=
  let idt := for_loop (Z.to_nat NUM_VEC) 0 (fun i idt => upd_gate i (init_gate i) idt) idt in
  let idt := upd_gate SYS_CALL (set_dpl 3) idt in
  set_entries idt_entries idt.
End idt.

(** ** Exceptions *)

Section exceptions.
Variable junk : Z -> Z.
Variable table_addr : table -> Z.
Variable fuel : nat.

(** [printf(...); system_halt(EXCP_RET); while(1){};] *)
Definition exception (message : string) : C unit :=
  printf fuel (lit message) [];; system_halt junk fuel EXCP_RET;; spin.

Definition DIVIDE_BY_ZERO : C unit := exception "DIVIDE BY ZERO EXCEPTION
".
Definition DB : C unit := exception "DEBUG EXCEPTION
".
Definition NMI : C unit := exception "NMI EXCEPTION
".
Definition BP : C unit := exception "BREAKPOINT_KGDB
".
Definition OF : C unit := exception "NMI OVERFLOW_EXCEPTION
".
Definition BR : C unit := exception "BOUND Range Exceeded Exception
".
Definition UD : C unit := exception "Invalid Opcode Exception
".
Definition NM : C unit := exception "Device Not Available Exception
".
Definition DF : C unit := exception "Double Fault Exception 
".
Definition CSO : C unit := exception "Coprocessor Segment Overrun
".
Definition TS : C unit := exception "Invalid TSS Exception
".
Definition NP : C unit := exception "Segment Not Present 
".
Definition SS : C unit := exception "Stack Fault Exception
".
Definition GP : C unit := exception "General Protection Exception
".
Definition PF : C unit := exception "Page-Fault Exception
".
Definition MF : C unit := exception "FPU Floating-Point Error
".
Definition AC : C unit := exception "Alignment Check Exception
".
Definition MC : C unit := exception "Machine-Check Exception 
".
Definition XF : C unit := exception "SIMD Floating-Point Exception 
".

(** Vector 15 prints and hangs. *)
Definition DEFAULT : C unit :=
  modify cli;; printf fuel (lit "default 
") [];; modify sti;; spin.

(** What a vector runs.  The system-call gate takes its arguments from the
    registers; the wrappers of the devices call the C handlers. *)
Definition service (h : handler) (eax ebx ecx edx : Z) : C unit :=
  match h with
  | H_DIVIDE_BY_ZERO => DIVIDE_BY_ZERO | H_DB => DB | H_NMI => NMI | H_BP => BP | H_OF => OF
  | H_BR => BR | H_UD => UD | H_NM => NM | H_DF => DF | H_CSO => CSO | H_TS => TS | H_NP => NP
  | H_SS => SS | H_GP => GP | H_PF => PF | H_DEFAULT => DEFAULT | H_MF => MF | H_AC => AC
  | H_MC => MC | H_XF => XF
  | H_syscall_wrapper => syscall_wrapper junk table_addr fuel eax ebx ecx edx;; ret tt
  | H_rtc_wrapper => modify (fun k => set_rtc (rtc_handler (rtc k)) k)
  | H_keyboard_wrapper => keyboard_handler junk fuel
  | H_pit_wrapper => pit_handler
  end.
End exceptions.

(** ** Gates as the processor reads them *)

(** The eight bytes of a gate, and the fields of an interrupt gate. *)
Definition gate_word (g : idt_desc) : Z := val0 g + val1 g * 2 ^ 32.
Definition gate_offset (w : Z) : Z := w mod 2 ^ 16 + (w / 2 ^ 48) mod 2 ^ 16 * 2 ^ 16.
Definition gate_selector (w : Z) : Z := (w / 2 ^ 16) mod 2 ^ 16.
Definition gate_type (w : Z) : Z := (w / 2 ^ 40) mod 32.
Definition gate_dpl (w : Z) : Z := (w / 2 ^ 45) mod 4.
Definition gate_present (w : Z) : bool := Z.testbit w 47.

(** A 32-bit interrupt gate: type 14, not a storage segment. *)
Definition INTERRUPT_GATE : Z := 14.

Lemma gate_decode lo hi d p r0 :
  0 <= lo < 2 ^ 16 -> 0 <= hi < 2 ^ 16 -> 0 <= d < 4 -> p = 0 \/ p = 1 ->
  let w := gate_word (Gate lo r0 0 0 1 1 1 0 d p hi) in
  0 <= r0 < 2 ^ 16 ->
  gate_offset w = lo + hi * 2 ^ 16 /\ gate_selector w = r0 /\ gate_type w = INTERRUPT_GATE /\
  gate_dpl w = d /\ gate_present w = (p =? 1).
Proof.
  intros Hlo Hhi Hd Hp w Hr.
  assert (Hw : w = lo + r0 * 2 ^ 16 + (14 + 32 * d + 128 * p) * 2 ^ 40 + hi * 2 ^ 48).
  { unfold w, gate_word, val0, val1. cbn [offset_15_00 seg_selector reserved4 reserved3 reserved2
      reserved1 size reserved0 dpl present offset_31_16]. rewrite !Z.shiftl_mul_pow2 by lia. lia. }
  clearbody w. unfold gate_offset, gate_selector, gate_type, gate_dpl, gate_present, INTERRUPT_GATE.
  rewrite Z.testbit_odd, Z.shiftr_div_pow2 by lia.
  change (2 ^ 16) with 65536 in *. change (2 ^ 40) with 1099511627776 in *.
  change (2 ^ 48) with 281474976710656 in *. change (2 ^ 45) with 35184372088832 in *.
  change (2 ^ 47) with 140737488355328 in *.
  assert (H16 : w / 65536 = r0 + (14 + 32 * d + 128 * p) * 16777216 + hi * 4294967296)
    by (Z.div_mod_to_equations; lia).
  assert (H40 : w / 1099511627776 = 14 + 32 * d + 128 * p + hi * 256) by (Z.div_mod_to_equations; lia).
  assert (H45 : w / 35184372088832 = d + 4 * p + hi * 8) by (Z.div_mod_to_equations; lia).
  assert (H47 : w / 140737488355328 = p + 2 * hi) by (Z.div_mod_to_equations; lia).
  assert (H48 : w / 281474976710656 = hi) by (Z.div_mod_to_equations; lia).
  rewrite H16, H40, H45, H47, H48. split_and!; [Z.div_mod_to_equations; lia.. |].
  rewrite Z.odd_add, Z.odd_mul. simpl. rewrite xorb_false_r. by destruct Hp as [-> | ->].
Qed.

(** ** What [init_idt] leaves *)

Lemma gate_at_upd i j f l :
  0 <= i < Z.of_nat (length l) ->
  gate_at (upd_gate i f l) j = if decide (j = i) then f (gate_at l i) else gate_at l j.
Proof.
  intros Hi. unfold upd_gate. destruct (decide (j = i)) as [-> | Hne]; unfold gate_at at 1.
  - rewrite decide_True by lia. by rewrite arr_set_lookup_eq by lia.
  - unfold gate_at. case_decide; [| done]. rewrite arr_set_lookup_ne; [done |]. lia.
Qed.

Lemma length_upd_gate i f l : length (upd_gate i f l) = length l.
Proof. apply length_arr_set. Qed.

(** The last line for a vector wins. *)
Definition pick (v : Z) (o : option handler) (e : Z * handler) : option handler :=
  if decide (e.1 = v) then Some e.2 else o.

Definition handler_of (v : Z) : option handler := foldl (pick v) None idt_entries.

Definition with_entry (addr : handler -> Z) (g : idt_desc) (o : option handler) : idt_desc :=
  match o with Some h => SET_IDT_ENTRY g (addr h) | None => g end.

Lemma set_entries_at addr v g es : forall o l,
  (forall e, e ∈ es -> 0 <= e.1 < Z.of_nat (length l)) ->
  gate_at l v = with_entry addr g o ->
  gate_at (set_entries addr es l) v = with_entry addr g (foldl (pick v) o es).
Proof.
  induction es as [| e es IH]; intros o l Hr Hl; [done |]. cbn [set_entries foldl].
  apply IH.
  - intros e' He'. rewrite length_upd_gate. apply Hr. by right.
  - rewrite gate_at_upd by (apply Hr; by left). unfold pick. destruct (decide (v = e.1)) as [-> | Hne].
    + rewrite decide_True by done. rewrite Hl. by destruct o.
    + rewrite decide_False by done. done.
Qed.

Lemma init_gates l v :
  length l = 256%nat -> 0 <= v < 256 ->
  gate_at (for_loop (Z.to_nat NUM_VEC) 0 (fun i idt => upd_gate i (init_gate i) idt) l) v
  = init_gate v (gate_at l v) /\
  length (for_loop (Z.to_nat NUM_VEC) 0 (fun i idt => upd_gate i (init_gate i) idt) l) = 256%nat.
Proof.
  intros Hl Hv.
  destruct (for_loop_inv (fun i l' => length l' = 256%nat /\
    gate_at l' v = if decide (v < i) then init_gate v (gate_at l v) else gate_at l v)
    (fun i idt => upd_gate i (init_gate i) idt) (Z.to_nat NUM_VEC) 0 l) as [H1 H2].
  - split; [done |]. by rewrite decide_False by lia.
  - intros i l' Hi [Hl' Hg]. change (0 + Z.of_nat (Z.to_nat NUM_VEC)) with 256 in Hi.
    rewrite length_upd_gate. split; [done |]. rewrite gate_at_upd by lia.
    destruct (decide (v = i)) as [-> | Hne].
    + rewrite Hg, decide_False, decide_True by lia. done.
    + rewrite Hg. by repeat case_decide; try lia.
  - rewrite decide_True in H2 by (change (0 + Z.of_nat (Z.to_nat NUM_VEC)) with 256; lia). done.
Qed.

Lemma init_idt_at addr l v :
  length l = 256%nat -> 0 <= v < 256 ->
  gate_at (init_idt addr l) v
  = with_entry addr ((if decide (v = SYS_CALL) then set_dpl 3 else fun g => g)
                       (init_gate v (gate_at l v))) (handler_of v).
Proof.
  intros Hl Hv. destruct (init_gates l v Hl Hv) as [Hg Hlen]. unfold init_idt.
  set (l1 := for_loop _ _ _ l) in *. apply set_entries_at.
  - intros e He. rewrite length_upd_gate, Hlen. change (Z.of_nat 256) with 256.
    assert (Hall : Forall (fun e : Z * handler => 0 <= e.1 < 256) idt_entries)
      by (repeat constructor; vm_compute; congruence).
    by apply (proj1 (Forall_forall _ _) Hall).
  - cbn [with_entry]. rewrite gate_at_upd by (rewrite Hlen; unfold SYS_CALL; lia).
    destruct (decide (v = SYS_CALL)) as [-> |]; by rewrite Hg.
Qed.

Lemma handler_of_entry v h : (v, h) ∈ idt_entries -> handler_of v = Some h.
Proof.
  unfold idt_entries. rewrite !elem_of_cons, elem_of_nil.
  intros H. repeat destruct H as [H | H]; try done; injection H as -> ->; reflexivity.
Qed.

Lemma pick_some v h es : forall o, foldl (pick v) o es = Some h -> o = Some h \/ (v, h) ∈ es.
Proof.
  induction es as [| [u h'] es IH]; intros o; cbn [foldl]; [by left |]. intros Hf.
  destruct (IH _ Hf) as [Ho | Hin]; [| right; by right]. unfold pick in Ho. cbn [fst snd] in Ho.
  case_decide as He; [right; apply elem_of_cons; left; congruence | by left].
Qed.

Lemma handler_of_some v h : handler_of v = Some h -> exists h, (v, h) ∈ idt_entries.
Proof. intros Hh. exists h. destruct (pick_some v h idt_entries None Hh) as [? | ?]; done. Qed.

(** The vectors with a line are the ones marked present. *)
Lemma handler_of_present v :
  0 <= v < 256 -> present (init_gate v no_gate) = match handler_of v with Some _ => 1 | None => 0 end.
Proof.
  intros Hv. destruct (decide (v < 50)) as [Hs | Hs]; [| destruct (decide (v = SYS_CALL)) as [-> |]].
  - assert (Hall : Forall (fun v => present (init_gate v no_gate) = match handler_of v with Some _ => 1 | None => 0 end)
      (seqZ 0 50)) by (apply (bool_decide_unpack _); vm_compute; exact I).
    apply (proj1 (Forall_forall _ _) Hall). apply elem_of_seqZ. lia.
  - reflexivity.
  - assert (Hn : handler_of v = None).
    { unfold handler_of, idt_entries, SYS_CALL, RTC_IDX, KEYB_IDX, PIT_IDX in *. cbn [foldl].
      unfold pick. cbn [fst snd]. by rewrite !decide_False by lia. }
    rewrite Hn. unfold init_gate, KEYB_IDX, SYS_CALL, RTC_IDX, PIT_IDX in *. cbn [present].
    destruct (Z.ltb_spec v 20); [lia |]. cbn [orb].
    by rewrite !(proj2 (Z.eqb_neq v _)) by lia.
Qed.

(** ** Messages *)

(** A literal without conversions, printed at the global cursor. *)
Definition print_all (l : list Z) (k : kernel) : kernel := foldl (fun k c => putc c k) k l.

Lemma printf_from_literal fuel fs s i args k :
  Forall (fun c => 0 < c /\ c <> 37) (str_bytes s) -> (i <= length (str_bytes s))%nat ->
  forall n, (length (str_bytes s) - i < n)%nat ->
  printf_from fuel n fs (lit s) (Z.of_nat i) args k
  = Ret (Z.of_nat (length (str_bytes s))) (print_all (drop i (str_bytes s)) k).
Proof.
  intros Hs Hi n. remember (length (str_bytes s) - i)%nat as d eqn:Hd.
  revert i k n Hi Hd. induction d as [| d IH]; intros i k n Hi Hd Hn;
    (destruct n as [| n]; [lia |]); cbn [printf_from].
  - replace i with (length (str_bytes s)) by lia. unfold lit. rewrite arr_get_end, Z.eqb_refl.
    rewrite drop_all. done.
  - destruct (lookup_lt_is_Some_2 (str_bytes s) i) as [c Hc]; [lia |].
    pose proof (Forall_lookup_1 _ _ _ _ Hs Hc) as [H0 H37]. cbv beta in H0, H37.
    assert (Hg : forall m, lit s m (Z.of_nat i) = c)
      by (intros m; unfold lit; rewrite (arr_get_lookup _ _ c); [done | lia | by rewrite Nat2Z.id]).
    rewrite !Hg.
    unfold NUL. rewrite (proj2 (Z.eqb_neq c 0)), (proj2 (Z.eqb_neq c 37)) by lia.
    unfold bind, modify. replace (Z.of_nat i + 1) with (Z.of_nat (S i)) by lia.
    rewrite IH by lia. by rewrite (drop_S _ c i).
Qed.

Lemma printf_literal fuel s k :
  Forall (fun c => 0 < c /\ c <> 37) (str_bytes s) -> (length (str_bytes s) < fuel)%nat ->
  printf fuel (lit s) [] k = Ret (Z.of_nat (length (str_bytes s))) (print_all (str_bytes s) k).
Proof.
  intros Hs Hf. unfold printf. change 0 with (Z.of_nat 0) at 1.
  rewrite printf_from_literal by (done || lia). by rewrite drop_0.
Qed.

Lemma putc_frame c k :
  sys (putc c k) = sys k /\ hw (putc c k) = hw k /\ fs (putc c k) = fs k /\
  pcbs (putc c k) = pcbs k /\ kbd (putc c k) = kbd k.
Proof. unfold putc. by destruct (draw _ _ _ _ _ _) as [[m x] y]. Qed.

Lemma print_all_frame l k :
  sys (print_all l k) = sys k /\ hw (print_all l k) = hw k /\ fs (print_all l k) = fs k /\
  pcbs (print_all l k) = pcbs k /\ kbd (print_all l k) = kbd k.
Proof.
  revert k. induction l as [| c l IH]; intros k; [done |].
  change (print_all (c :: l) k) with (print_all l (putc c k)).
  destruct (IH (putc c k)) as (-> & -> & -> & -> & ->). apply putc_frame.
Qed.

Lemma print_all_child i p l k : child_of i p k -> child_of i p (print_all l k).
Proof.
  destruct (print_all_frame l k) as (Hs & _ & _ & Hp & _). unfold child_of, pcb_at.
  by rewrite Hs, Hp.
Qed.

(** The message of each exception that ends the process. *)
Definition exception_message (v : Z) : option string :=
  match v with
  | 0 => Some "DIVIDE BY ZERO EXCEPTION
" | 1 => Some "DEBUG EXCEPTION
" | 2 => Some "NMI EXCEPTION
" | 3 => Some "BREAKPOINT_KGDB
" | 4 => Some "NMI OVERFLOW_EXCEPTION
" | 5 => Some "BOUND Range Exceeded Exception
" | 6 => Some "Invalid Opcode Exception
" | 7 => Some "Device Not Available Exception
" | 8 => Some "Double Fault Exception 
" | 9 => Some "Coprocessor Segment Overrun
" | 10 => Some "Invalid TSS Exception
" | 11 => Some "Segment Not Present 
" | 12 => Some "Stack Fault Exception
" | 13 => Some "General Protection Exception
" | 14 => Some "Page-Fault Exception
" | 16 => Some "FPU Floating-Point Error
" | 17 => Some "Alignment Check Exception
" | 18 => Some "Machine-Check Exception 
" | 19 => Some "SIMD Floating-Point Exception 
" | _ => None
  end%string.

Lemma exception_child junk fuel s i p k :
  Forall (fun c => 0 < c /\ c <> 37) (str_bytes s) -> (length (str_bytes s) < fuel)%nat ->
  child_of i p k -> length (terminals (sys k)) = 3%nat ->
  exists k', exception junk fuel s k = Leave (RetFromHalt EXCP_RET) k' /\
    resumed EXCP_RET i p (print_all (str_bytes s) k) k'.
Proof.
  intros Hs Hf Hc Hl. unfold exception, bind at 1. rewrite printf_literal by done.
  destruct (system_halt_child junk fuel EXCP_RET i p (print_all (str_bytes s) k)) as (k' & Hh & Hr).
  - by apply print_all_child.
  - by destruct (print_all_frame (str_bytes s) k) as (-> & _).
  - exists k'. unfold bind. by rewrite Hh.
Qed.

Lemma service_exception junk table_addr fuel v h eax ebx ecx edx :
  (v, h) ∈ idt_entries -> 0 <= v < 20 -> v <> 15 ->
  exists s, exception_message v = Some s /\
    service junk table_addr fuel h eax ebx ecx edx = exception junk fuel s /\
    Forall (fun c => 0 < c /\ c <> 37) (str_bytes s) /\ (length (str_bytes s) < 40)%nat.
Proof.
  unfold idt_entries. rewrite !elem_of_cons, elem_of_nil. intros H Hv H15.
  repeat destruct H as [H | H]; try done; injection H as -> ->;
    try (unfold SYS_CALL, RTC_IDX, KEYB_IDX, PIT_IDX in Hv; lia);
    (eexists; split; [reflexivity |]; split; [reflexivity |]; split;
      [apply (bool_decide_unpack _); vm_compute; exact I | vm_compute; lia]).
Qed.

(** ** Properties *)

(** C29: [init_idt] builds the table the processor expects: read as eight
    bytes, each of the 256 gates is a 32-bit interrupt gate on the kernel's
    code segment, callable from user code at vector 0x80 only; the gates
    marked present are exactly those for which a routine is set, and their
    offset is the address of that routine. *)
Theorem init_idt_gates addr idt v :
  (forall h, 0 <= addr h < 2 ^ 32) -> length idt = 256%nat ->
  Forall (fun g => 0 <= offset_15_00 g < 2 ^ 16 /\ 0 <= offset_31_16 g < 2 ^ 16) idt ->
  0 <= v < 256 ->
  let w := gate_word (gate_at (init_idt addr idt) v) in
  gate_type w = INTERRUPT_GATE /\ gate_selector w = KERNEL_CS /\
  gate_dpl w = (if decide (v = SYS_CALL) then 3 else 0) /\
  (gate_present w = true <-> exists h, (v, h) ∈ idt_entries) /\
  (forall h, (v, h) ∈ idt_entries -> gate_offset w = addr h).
Proof.
  intros Haddr Hl Hidt Hv w. unfold w. rewrite init_idt_at by done.
  set (g := gate_at idt v). pose proof (handler_of_present v Hv) as Hpres.
  assert (Hg : 0 <= offset_15_00 g < 2 ^ 16 /\ 0 <= offset_31_16 g < 2 ^ 16).
  { unfold g, gate_at. rewrite decide_True by lia.
    destruct (lookup_lt_is_Some_2 idt (Z.to_nat v)) as [x Hx]; [lia |]. rewrite Hx.
    exact (Forall_lookup_1 _ _ _ _ Hidt Hx). }
  set (d := if decide (v = SYS_CALL) then 3 else 0).
  assert (Hd : 0 <= d < 4) by (unfold d; case_decide; lia).
  assert (He : (if decide (v = SYS_CALL) then set_dpl 3 else fun g => g) (init_gate v g)
    = Gate (offset_15_00 g) KERNEL_CS 0 0 1 1 1 0 d (present (init_gate v no_gate)) (offset_31_16 g))
    by (unfold d; by case_decide).
  rewrite He, Hpres. destruct (handler_of v) as [h |] eqn:Hh; cbn [with_entry].
  - pose proof (Haddr h) as Ha. unfold SET_IDT_ENTRY.
    cbn [seg_selector reserved4 reserved3 reserved2 reserved1 size reserved0 dpl present].
    rewrite u32_small by exact Ha.
    replace (Z.land (addr h) 0xFFFF) with (addr h mod 2 ^ 16) by (symmetry; apply (Z.land_ones _ 16); lia).
    replace (Z.shiftr (Z.land (addr h) 0xFFFF0000) 16) with (addr h / 2 ^ 16).
    2: { rewrite Z.shiftr_land. change (Z.shiftr 0xFFFF0000 16) with (Z.ones 16).
         rewrite Z.land_ones, Z.shiftr_div_pow2 by lia. symmetry. apply Z.mod_small.
         change (2 ^ 32) with 4294967296 in Ha. change (2 ^ 16) with 65536. Z.div_mod_to_equations. lia. }
    assert (Hlo : 0 <= addr h mod 2 ^ 16 < 2 ^ 16) by (apply Z.mod_pos_bound; lia).
    assert (Hhi : 0 <= addr h / 2 ^ 16 < 2 ^ 16).
    { change (2 ^ 32) with 4294967296 in Ha. change (2 ^ 16) with 65536. Z.div_mod_to_equations. lia. }
    destruct (gate_decode (addr h mod 2 ^ 16) (addr h / 2 ^ 16) d 1 KERNEL_CS) as (-> & -> & -> & -> & ->);
      [done | done | done | by right | unfold KERNEL_CS; lia |].
    split_and!; try done.
    + split; [intros _ | done]. by apply (handler_of_some v h).
    + intros h' Hin. apply handler_of_entry in Hin. rewrite Hh in Hin. injection Hin as <-.
      rewrite (Z.mul_comm (addr h / 2 ^ 16)). rewrite Z.add_comm. symmetry. apply Z.div_mod. done.
  - destruct Hg as [Hlo Hhi].
    destruct (gate_decode (offset_15_00 g) (offset_31_16 g) d 0 KERNEL_CS) as (_ & -> & -> & -> & ->);
      [done | done | done | by left | unfold KERNEL_CS; lia |].
    split_and!; try done.
    + split; [done | intros [h Hin]]. apply handler_of_entry in Hin. congruence.
    + intros h Hin. apply handler_of_entry in Hin. congruence.
Qed.

(** C22: A fault ends the program, not the system: when process [i], started
    by process [p], raises an exception for which the manual has a vector
    below 20 (other than the reserved 15), the message of the vector is
    printed and [p] resumes at the end of its [execute] call with the value
    255, slot [i] being free again. *)
Theorem exception_ends_process junk table_addr fuel v h eax ebx ecx edx i p k :
  (v, h) ∈ idt_entries -> 0 <= v < 20 -> v <> 15 -> (40 <= fuel)%nat ->
  child_of i p k -> length (terminals (sys k)) = 3%nat ->
  exists s k', exception_message v = Some s /\
    service junk table_addr fuel h eax ebx ecx edx k = Leave (RetFromHalt EXCP_RET) k' /\
    resumed EXCP_RET i p (print_all (str_bytes s) k) k' /\
    process_num (sys k') = arr_set (process_num (sys k)) i (-1).
Proof.
  intros Hin Hv H15 Hf Hc Hl.
  destruct (service_exception junk table_addr fuel v h eax ebx ecx edx Hin Hv H15) as (s & Hs & -> & Hlit & Hlen).
  destruct (exception_child junk fuel s i p k) as (k' & Hk' & Hr); [done | lia | done | done |].
  exists s, k'. split_and!; try done. destruct Hr as (_ & -> & _).
  by destruct (print_all_frame (str_bytes s) k) as (-> & _).
Qed.

(** ** Witnesses *)

Lemma init_idt_gates_witness :
  let w := gate_word (gate_at (init_idt (fun _ => 0x401234) (replicate 256 no_gate)) 0x80) in
  gate_dpl w = 3 /\ gate_present w = true /\ gate_offset w = 0x401234.
Proof.
  destruct (init_idt_gates (fun _ => 0x401234) (replicate 256 no_gate) 0x80) as (_ & _ & Hd & Hp & Ho).
  - intros _. lia.
  - reflexivity.
  - apply Forall_replicate. vm_compute. repeat split; congruence.
  - lia.
  - split; [exact Hd |]. split.
    + apply Hp. exists H_syscall_wrapper. unfold idt_entries. rewrite !elem_of_cons. tauto.
    + apply (Ho H_syscall_wrapper). unfold idt_entries. rewrite !elem_of_cons. tauto.
Defined.

(** The child of the sample machine raises a page fault. *)
Lemma exception_ends_process_witness :
  exists k1 k', started 1 3 (taken 3 running) k1 /\
    service (fun _ => 0) (fun _ => 0) 100 H_PF 0 0 0 0 k1 = Leave (RetFromHalt 255) k' /\
    main_process (sys k') = 0.
Proof.
  destruct (start_taken 1 3 running) as (k1 & Hs & Hsame & _);
    [exact running_procs | exact running_prog | lia |].
  destruct (exception_ends_process (fun _ => 0) (fun _ => 0) 100 14 H_PF 0 0 0 0 3 0 k1)
    as (s & k' & _ & Hk' & Hr & _).
  - unfold idt_entries. rewrite !elem_of_cons. tauto.
  - lia.
  - lia.
  - lia.
  - apply (started_child 1 3 0 running); try lia; try reflexivity. exact Hs.
  - apply Hsame.
  - exists k1, k'. split; [exact Hs |]. split; [exact Hk' |]. apply Hr.
Defined.
