(* ===== verification/Printing.v ===== *)
(** * Printing returns (lib.c)

    [prints k k'] says that [k'] differs from [k] by what printing may
    change: the page of video memory, the cursor, and the port accesses that
    move the hardware cursor.  [printf] of a well-formed format returns, and
    its states are so related. *)

From S2P Require Import Prelude Memory Lib Paging Devices State Sample Console.

(** The cursor is on the screen, and the visible page is mapped. *)
Definition ready (k : kernel) : Prop :=
  on_screen (screen_x (scr k)) (screen_y (scr k)) /\ region (mem k) VIDEO 4000.

(** The ports of the hardware cursor. *)
Definition cursor_port (x : Z) : Prop := x = CURSOR_INDEX \/ x = CURSOR_INDEX + 1.

Lemma update_cursor_accessed k : accessed cursor_port (rtc_ports (rtc k)) (rtc_ports (rtc (update_cursor k))).
Proof.
  split; [done |]. eexists [_; _; _; _]. split; [reflexivity |]. unfold cursor_port. list_ports.
Qed.

Record prints (k k' : kernel) : Prop := Prints {
  prints_sys : sys k' = sys k;
  prints_kbd : kbd k' = kbd k;
  prints_fs : fs k' = fs k;
  prints_hw : hw k' = hw k;
  prints_pcbs : pcbs k' = pcbs k;
  prints_pending : pending k' = pending k;
  prints_curr : curr_process k' = curr_process k;
  prints_flag : rtc_flag (rtc k') = rtc_flag (rtc k);
  prints_ports : accessed cursor_port (rtc_ports (rtc k)) (rtc_ports (rtc k'));
  prints_color : text_color (scr k') = text_color (scr k);
  prints_ram : exists r, mem k' = set_ram r (mem k);
  prints_outside : same_outside (mem k) (mem k') VIDEO 4000;
  prints_ready : ready k'
}.

Lemma prints_loc k k' : prints k k' -> forall a, loc (mem k') a = loc (mem k) a.
Proof. intros Hp a. destruct (prints_ram k k' Hp) as [r ->]. done. Qed.

Lemma prints_refl k : ready k -> prints k k.
Proof. intros Hr. split; try done; [apply accessed_refl |]. exists (ram (mem k)). by destruct (mem k). Qed.

Lemma prints_trans a b c : prints a b -> prints b c -> prints a c.
Proof.
  intros H1 H2. pose proof (prints_loc a b H1) as Hl.
  destruct H1 as [A1 A2 A3 A4 A5 A6 A7 A8 AP AC [r A9] A10 A11].
  destruct H2 as [B1 B2 B3 B4 B5 B6 B7 B8 BP BC [r' B9] B10 B11].
  split; try congruence; try done.
  - by eapply accessed_trans.
  - exists r'. by rewrite B9, A9.
  - intros x Hx. rewrite B10; [by apply A10 |]. intros i Hi. rewrite !Hl. by apply Hx.
Qed.

(** An address outside of the page reads as before. *)
Definition off_screen (m : vmem) (a : Z) : Prop :=
  forall i, 0 <= i < 4000 -> loc m a <> loc m (VIDEO + i).

Lemma prints_ld k k' a : prints k k' -> off_screen (mem k) a -> ld (mem k') a = ld (mem k) a.
Proof. intros Hp Ha. apply (prints_outside k k' Hp). exact Ha. Qed.

Lemma region_loc (m m' : vmem) a n :
  (forall b, loc m' b = loc m b) -> region m a n -> region m' a n.
Proof. intros Hl [Hm Hi]. split; intros *; rewrite !Hl; [apply Hm | apply Hi]. Qed.

(** ** Characters and strings *)

Lemma st_ram (m : vmem) a v : exists r, st m a v = set_ram r m.
Proof.
  cbn [st vmem_ops]. destruct (xlate m a) as [p |]; [by eexists |]. exists (ram m). by destruct m.
Qed.

Lemma for_loop_ram n i body (m : vmem) :
  (forall j m, exists r, body j m = set_ram r m) -> exists r, for_loop n i body m = set_ram r m.
Proof.
  intros Hb. apply (for_loop_inv (fun _ m' => exists r, m' = set_ram r m)).
  - exists (ram m). by destruct m.
  - intros j m' _ [r ->]. destruct (Hb j (set_ram r m)) as [r' ->]. by exists r'.
Qed.

Lemma scroll_ram v m : exists r, _scroll_down_ v m = set_ram r m.
Proof.
  unfold _scroll_down_. apply for_loop_ram. intros i m1. apply for_loop_ram. intros j m2.
  unfold scroll_cell. destruct (_ =? _); apply st_ram.
Qed.

Lemma put_cell_ram base x y c color m : exists r, put_cell base x y c color m = set_ram r m.
Proof.
  unfold put_cell. destruct (st_ram m (cell base x y) c) as [r1 ->].
  destruct (st_ram (set_ram r1 m) (cell base x y + 1) color) as [r2 ->]. by exists r2.
Qed.

Lemma draw_ram base x y c color m : exists r, (draw base x y c color m).1.1 = set_ram r m.
Proof.
  assert (H0 : exists r, m = set_ram r m) by (exists (ram m); by destruct m).
  unfold draw. destruct (_ || _); [destruct (_ =? _); [apply scroll_ram | done] |].
  destruct (put_cell_ram base x y c color m) as [r Hr]. rewrite Hr.
  destruct (scroll_ram base (set_ram r m)) as [r' Hr'].
  destruct (_ =? 0); [destruct (_ =? _) |]; cbn [fst];
    [exists r'; exact Hr' | exists r; reflexivity | exists r; reflexivity].
Qed.

Lemma putc_prints c k : ready k -> prints k (putc c k).
Proof.
  intros [Hon Hr]. pose proof (draw_ram VIDEO (screen_x (scr k)) (screen_y (scr k)) (u8 c)
    (text_color (scr k)) (mem k)) as Hram.
  pose proof (draw_page VIDEO (screen_x (scr k)) (screen_y (scr k)) (u8 c) (text_color (scr k))
    (mem k) Hr Hon (u8_range c)) as (Hl & _ & Ho).
  assert (Hm : mem (putc c k) = (draw VIDEO (screen_x (scr k)) (screen_y (scr k)) (u8 c)
    (text_color (scr k)) (mem k)).1.1) by (unfold putc; by destruct (draw _ _ _ _ _ _) as [[m x] y]).
  assert (Hs : on_screen (screen_x (scr (putc c k))) (screen_y (scr (putc c k)))).
  { unfold putc. rewrite draw_eq by done. cbn [fst snd].
    by apply next_pos_on_screen. }
  split; try (unfold putc; by destruct (draw _ _ _ _ _ _) as [[m x] y]).
  { unfold putc. destruct (draw _ _ _ _ _ _) as [[m x] y].
    exact (update_cursor_accessed (y_set_screen y (x_set_screen x (set_mem m k)))). }
  split; [done |]. rewrite Hm. by apply (region_loc (mem k)).
Qed.

(** A text that stays what it is while it is printed. *)
Definition stays (s : text) (l : list Z) (k : kernel) : Prop :=
  forall k', prints k k' -> terminated NUL (s (mem k')) l.

Lemma stays_prints s l k k' : stays s l k -> prints k k' -> stays s l k'.
Proof. intros Hs Hp k2 H2. apply Hs. by apply (prints_trans k k'). Qed.

(** A string in memory outside of the page. *)
Lemma stays_ptr p l k :
  terminated NUL (chars (mem k) p) l ->
  (forall i, 0 <= i <= Z.of_nat (length l) -> off_screen (mem k) (p + i)) -> stays (at_ptr p) l k.
Proof.
  intros [Hc Hn] Ho k' Hp. unfold at_ptr. split.
  - intros i Hi. rewrite (prints_ld k k' (p + i)); [by apply Hc | done | apply Ho; lia].
  - rewrite (prints_ld k k'); [exact Hn | done | apply Ho; lia].
Qed.

Lemma puts_from fuel s l k :
  ready k -> stays s l k -> forall d i k1, prints k k1 ->
  (i + d = length l)%nat -> (d < fuel)%nat ->
  exists k', loop fuel (fun '(k, index) =>
      if s (mem k) index =? NUL then Break (k, index)
      else Continue (putc (s (mem k) index) k, index + 1)) (k1, Z.of_nat i)
    = Some (k', Z.of_nat (length l)) /\ prints k k'.
Proof.
  intros Hr Hs d. revert fuel. induction d as [| d IH]; intros fuel i k1 H1 Hi Hf;
    (destruct fuel as [| fuel]; [lia |]); cbn [loop]; destruct (Hs k1 H1) as [Hc Hn].
  - replace (Z.of_nat i) with (Z.of_nat (length l)) by lia. rewrite Hn, Z.eqb_refl. by exists k1.
  - destruct (Hc (Z.of_nat i)) as [_ Hne]; [lia |]. rewrite (proj2 (Z.eqb_neq _ _) Hne).
    replace (Z.of_nat i + 1) with (Z.of_nat (S i)) by lia. apply IH; [| lia | lia].
    apply (prints_trans k k1); [done |]. apply putc_prints, H1.
Qed.

(** [puts] of a text shorter than the fuel. *)
Lemma puts_returns fuel s l k :
  ready k -> stays s l k -> (length l < fuel)%nat ->
  exists k', puts fuel s k = Ret (Z.of_nat (length l)) k' /\ prints k k'.
Proof.
  intros Hr Hs Hf. destruct (puts_from fuel s l k Hr Hs (length l) 0 k) as (k' & Hl & Hp);
    [by apply prints_refl | lia | done |].
  exists k'. unfold puts. change (k, 0) with (k, Z.of_nat 0). by rewrite Hl.
Qed.

(** ** Numbers *)

(** A short numeral in a local buffer. *)
Definition numeral (o : option text) : Prop :=
  exists t l, o = Some t /\ (length l <= 40)%nat /\ forall m, terminated NUL (t m) l.

Lemma flat_local (m0 : flat) v from r :
  0 <= v < 4294967296 -> 2 <= r <= 36 -> 0 <= from <= 40 ->
  exists m l, itoa m0 v from r = Some m /\ (length l <= 32)%nat /\
    terminated NUL (chars m from) l /\ (forall i, 0 <= i < from -> ld m i = ld m0 i).
Proof.
  intros Hv Hr Hf. destruct (itoa_spec m0 v from r) as (m & l & Hi & Ht & Hl & _ & Ho); [done | done | |].
  - apply flat_region; lia.
  - exists m, l. split_and!; try done. intros i Hi'. apply Ho. intros j Hj. simpl.
    rewrite !u32_small by lia. intros [= ?]. lia.
Qed.

Lemma itoa_u32 {M} `{MemOps M} (m : M) v buf r : itoa m v buf r = itoa m (u32 v) buf r.
Proof. unfold itoa. by rewrite u32_idem. Qed.

Lemma conv_hex_numeral v : numeral (conv_hex v).
Proof.
  unfold conv_hex. rewrite itoa_u32.
  destruct (flat_local (Flat ∅) (u32 v) 0 16) as (m & l & Hm & Hl & Ht & _);
    [apply u32_range | lia | lia |].
  rewrite Hm. exists (local_text m 0), l. split; [done |]. split; [lia |]. intros m1. exact Ht.
Qed.

Lemma conv_unsigned_numeral v : numeral (conv_unsigned v).
Proof.
  unfold conv_unsigned. rewrite itoa_u32.
  destruct (flat_local (Flat ∅) (u32 v) 0 10) as (m & l & Hm & Hl & Ht & _);
    [apply u32_range | lia | lia |].
  rewrite Hm. exists (local_text m 0), l. split; [done |]. split; [lia |]. intros m1. exact Ht.
Qed.

Lemma conv_signed_numeral v : numeral (conv_signed v).
Proof.
  unfold conv_signed. cbv zeta. pose proof (s32_range v) as Hr.
  destruct (Z.ltb_spec (s32 v) 0) as [Hn | Hp].
  - destruct (flat_local (st (Flat ∅) 0 45) (- s32 v) 1 10) as (m & l & Hm & Hl & [Hc Hz] & Ho);
      [lia | lia | lia |].
    rewrite Hm. exists (local_text m 0), (45 :: l). split; [done |]. split; [simpl; lia |]. intros m1.
    assert (H0 : ld m 0 = 45) by (rewrite Ho by lia; reflexivity).
    unfold local_text. split.
    + cbn [length]. intros i Hi. destruct (decide (i = 0)) as [-> | Hne]; [by rewrite Z.add_0_l, H0 |].
      specialize (Hc (i - 1) ltac:(lia)). unfold chars in Hc.
      replace (1 + (i - 1)) with (0 + i) in Hc by lia.
      by replace (Z.to_nat i) with (S (Z.to_nat (i - 1))) by lia.
    + cbn [length]. rewrite Nat2Z.inj_succ. unfold chars in Hz.
      by replace (0 + Z.succ (Z.of_nat (length l))) with (1 + Z.of_nat (length l)) by lia.
  - destruct (flat_local (Flat ∅) (s32 v) 0 10) as (m & l & Hm & Hl & Ht & _);
      [lia | lia | lia |].
    rewrite Hm. exists (local_text m 0), l. split; [done |]. split; [lia |]. intros m1. exact Ht.
Qed.

(** The zeroes that [%#x] puts in front. *)
Lemma fill_zeroes (m : flat) n i :
  0 <= i -> i + Z.of_nat n <= 40 -> forall j, 0 <= j <= 80 ->
  ld (for_loop n i (fun i m => st m i 48) m) j
  = if decide (i <= j < i + Z.of_nat n) then 48 else ld m j.
Proof.
  intros Hi Hn j Hj.
  pose proof (for_loop_inv (fun t (m' : flat) =>
    ld m' j = if decide (i <= j < t) then 48 else ld m j) (fun i m => st m i 48) n i m) as Hloop.
  cbv beta in Hloop. apply Hloop; clear Hloop.
  - by rewrite decide_False by lia.
  - intros t m' Ht IH. destruct (decide (t = j)) as [-> | Hne].
    + rewrite decide_True by lia. rewrite ld_st_eq; [done | by eexists].
    + rewrite ld_st_ne; [rewrite IH; repeat case_decide; lia || done | by eexists |]. simpl.
      rewrite !u32_small by lia. congruence.
Qed.

Lemma conv_hex_alt_numeral v : numeral (conv_hex_alt v).
Proof.
  unfold conv_hex_alt. rewrite itoa_u32.
  destruct (flat_local (Flat ∅) (u32 v) 8 16) as (m & l & Hm & Hl & Ht & _);
    [apply u32_range | lia | lia |].
  rewrite Hm. cbn [mbind option_bind]. rewrite (strlen_terminated 40 _ l) by (done || lia).
  cbn [mbind option_bind]. set (n := length l) in *.
  set (m' := for_loop _ _ _ m).
  assert (Hld : forall j, 0 <= j <= 80 ->
            ld m' j = if decide (Z.of_nat n <= j < 8) then 48 else ld m j).
  { intros j Hj. unfold m'. rewrite fill_zeroes by lia.
    repeat case_decide; lia || done. }
  clearbody m'. destruct Ht as [Hc Hz]. unfold chars in Hc, Hz.
  exists (local_text m' (Z.of_nat n)), (replicate (8 - n) 48 ++ drop (n - 8) l).
  split; [done |]. split; [rewrite length_app, length_replicate, length_drop; lia |]. intros m1.
  unfold local_text. split; rewrite length_app, length_replicate, length_drop; fold n.
  - intros i Hi. rewrite Hld by lia. destruct (decide (i < Z.of_nat (8 - n))) as [Hs | Hs].
    + rewrite decide_True by lia. rewrite lookup_app_l by (rewrite length_replicate; lia).
      split; [apply lookup_replicate_2; lia | done].
    + rewrite decide_False by lia. rewrite lookup_app_r by (rewrite length_replicate; lia).
      rewrite length_replicate, lookup_drop.
      destruct (Hc (Z.of_nat n + i - 8)) as [H1 H2]; [lia |].
      replace (8 + (Z.of_nat n + i - 8)) with (Z.of_nat n + i) in * by lia.
      replace (n - 8 + (Z.to_nat i - (8 - n)))%nat with (Z.to_nat (Z.of_nat n + i - 8)) by lia. done.
  - rewrite Hld by lia. rewrite decide_False by lia.
    replace (Z.of_nat n + Z.of_nat (8 - n + (n - (n - 8)))) with (8 + Z.of_nat n) by lia. exact Hz.
Qed.

(** ** Formats *)

(** The conversions of a format that take an argument, in order; [None] for
    a format that ends inside a conversion. [inside] is after a percent
    sign. *)
Fixpoint conversions (inside : bool) (l : list Z) : option (list Z) :=
  match l with
  | [] => if inside then None else Some []
  | c :: l' =>
      if inside then
        if c =? 35 then conversions true l'
        else if (c =? 120) || (c =? 117) || (c =? 100) || (c =? 99) || (c =? 115)
        then cs ← conversions false l'; Some (c :: cs)
        else conversions false l'
      else conversions (c =? 37) l'
  end.

Section formats.
Variable fuel : nat.
Hypothesis Hfuel : (40 < fuel)%nat.

(** An argument for each conversion; one for [%s] points to a string. *)
Definition fits (cs args : list Z) (k : kernel) : Prop :=
  Forall2 (fun c a => c = 115 ->
    exists l, stays (at_ptr a) l k /\ (length l < fuel)%nat) cs args.

Lemma fits_prints cs args k k' : fits cs args k -> prints k k' -> fits cs args k'.
Proof.
  intros Hf Hp. eapply Forall2_impl; [exact Hf |]. intros c a Hc He.
  destruct (Hc He) as (l & Hl & Hlen). exists l. split; [by apply (stays_prints _ _ k) | done].
Qed.

(** A number is printed. *)
Lemma number_returns o k (i : Z) (args : list Z) :
  numeral o -> ready k ->
  exists k', (t <- conv o;; puts fuel t;; ret (i, args)) k = Ret (i, args) k' /\ prints k k'.
Proof.
  intros (t & l & -> & Hl & Ht) Hr. unfold conv. unfold bind at 1, ret at 1.
  destruct (puts_returns fuel t l k Hr) as (k' & Hp & Hk); [by intros k' _ | lia |].
  exists k'. unfold bind. by rewrite Hp.
Qed.

(** What follows a format position. *)
Definition rest (s : string) (i : Z) : list Z := drop (Z.to_nat i) (str_bytes s).

Lemma rest_cons s i c l :
  0 <= i -> rest s i = c :: l ->
  arr_get (str_bytes s) i = c /\ rest s (i + 1) = l /\ i < Z.of_nat (length (str_bytes s)).
Proof.
  intros Hi Hr. unfold rest in *.
  assert (Hc : str_bytes s !! Z.to_nat i = Some c).
  { rewrite <- (Nat.add_0_r (Z.to_nat i)), <- lookup_drop, Hr. done. }
  split; [by apply arr_get_lookup |]. split.
  - replace (Z.to_nat (i + 1)) with (S (Z.to_nat i)) by lia.
    by rewrite (drop_S _ _ _ Hc) in Hr; injection Hr.
  - apply lookup_lt_Some in Hc. lia.
Qed.

(** A character that is no conversion is skipped. *)
Lemma format_other fuel' cf fs fmt i alt args k :
  let c := fmt (mem k) i in
  c <> 37 -> c <> 35 -> c <> 120 -> c <> 117 -> c <> 100 -> c <> 99 -> c <> 115 ->
  format_char_switch fuel' (S cf) fs fmt i alt args k = Ret (i, args) k.
Proof.
  cbv zeta. cbn [format_char_switch]. destruct (fmt (mem k) i) as [| p | p]; [done | | done].
  intros H1 H2 H3 H4 H5 H6 H7. do 7 (destruct p as [p | p |]; try done).
Qed.

(** After the percent sign. *)
Lemma format_returns s n : forall cf i alt args k l,
  length l = n -> (n < cf)%nat -> 0 <= i -> ready k -> rest s i = l ->
  Forall (fun c => 0 < c) l -> forall cs, conversions true l = Some cs -> fits cs args k ->
  exists i' args' cs' k', format_char_switch fuel cf false (lit s) i alt args k = Ret (i', args') k' /\
    prints k k' /\ i <= i' /\ conversions false (rest s (i' + 1)) = Some cs' /\ fits cs' args' k' /\
    i' < Z.of_nat (length (str_bytes s)).
Proof.
  induction n as [| n IH]; intros cf i alt args k l Hl Hcf Hi Hr Hrest Hpos cs Hcs Hfit;
    (destruct l as [| c l]; [done |]); [done |].
  destruct cf as [| cf]; [lia |]. destruct (rest_cons s i c l Hi Hrest) as (Hc & Hrest' & Hlt).
  assert (Hsw := format_other fuel cf false (lit s) i alt args k). cbv zeta in Hsw.
  cbn [format_char_switch] in *. unfold lit at 1. unfold lit at 1 2 3 4 5 6 7 8 in Hsw. rewrite Hc in *. cbn [conversions] in Hcs.
  apply Forall_cons in Hpos as [Hcp Hpos].
  assert (Hgo : forall k' args' cs', prints k k' -> conversions false l = Some cs' -> fits cs' args' k' ->
    exists i0 args0 cs0 k0, Ret (i, args') k' = Ret (i0, args0) k0 /\ prints k k0 /\ i <= i0 /\
      conversions false (rest s (i0 + 1)) = Some cs0 /\ fits cs0 args0 k0 /\
      i0 < Z.of_nat (length (str_bytes s))).
  { intros k' args' cs' H1 H2 H3. exists i, args', cs', k'. rewrite Hrest'. split_and!; done || lia. }
  destruct (Z.eqb_spec c 35) as [-> | H35].
  { destruct (IH cf (i + 1) true args k l) with (cs := cs)
      as (i' & args' & cs' & k' & He & Hp & Hle & H1 & H2 & H3); try done; try (simpl in *; lia).
    exists i', args', cs', k'. split_and!; done || lia. }
  destruct (decide (c = 120 \/ c = 117 \/ c = 100 \/ c = 99 \/ c = 115)) as [Hconv | Hno].
  - assert (Ht : (c =? 120) || (c =? 117) || (c =? 100) || (c =? 99) || (c =? 115) = true)
      by (rewrite !orb_true_iff, !Z.eqb_eq; lia).
    rewrite Ht in Hcs. destruct (conversions false l) as [cs1 |] eqn:Hcs1; [| done].
    injection Hcs as <-. destruct args as [| v args]; [by apply Forall2_cons_nil_inv in Hfit |].
    apply Forall2_cons in Hfit as [Hv Hfit].
    assert (Hret : forall (o : outcome (Z * list Z)) k', o = Ret (i, args) k' -> prints k k' ->
      exists i0 args0 cs0 k0, o = Ret (i0, args0) k0 /\ prints k k0 /\ i <= i0 /\
      conversions false (rest s (i0 + 1)) = Some cs0 /\ fits cs0 args0 k0 /\
      i0 < Z.of_nat (length (str_bytes s))).
    { intros o k' -> Hp. apply (Hgo k' args cs1); [done | done | by apply (fits_prints _ _ k)]. }
    destruct Hconv as [-> | [-> | [-> | [-> | ->]]]]; cbv iota beta.
    + destruct (number_returns (if alt then conv_hex_alt v else conv_hex v) k i args) as (k' & He & Hp);
        [destruct alt; [apply conv_hex_alt_numeral | apply conv_hex_numeral] | done |].
      by apply (Hret _ k').
    + destruct (number_returns (conv_unsigned v) k i args) as (k' & He & Hp);
        [apply conv_unsigned_numeral | done |]. by apply (Hret _ k').
    + destruct (number_returns (conv_signed v) k i args) as (k' & He & Hp);
        [apply conv_signed_numeral | done |]. by apply (Hret _ k').
    + apply (Hret _ (putc (u8 v) k)); [done | by apply putc_prints].
    + destruct (Hv eq_refl) as (t & Ht' & Hlen).
      destruct (puts_returns fuel (at_ptr v) t k Hr Ht' Hlen) as (k' & He & Hp).
      apply (Hret _ k'); [| done]. unfold bind. by rewrite He.
  - assert (Ht : (c =? 120) || (c =? 117) || (c =? 100) || (c =? 99) || (c =? 115) = false)
      by (rewrite !orb_false_iff, !Z.eqb_neq; lia).
    rewrite Ht in Hcs. destruct (decide (c = 37)) as [-> | H37].
    + apply (Hgo (putc 37 k) args cs); [by apply putc_prints | done |].
      apply (fits_prints _ _ k); [done | by apply putc_prints].
    + rewrite Hsw by lia. apply (Hgo k args cs); [by apply prints_refl | done | done].
Qed.

Lemma printf_from_returns s n : forall d i args k cs,
  ready k -> Forall (fun c => 0 < c) (str_bytes s) -> (length (str_bytes s) < fuel)%nat ->
  0 <= i <= Z.of_nat (length (str_bytes s)) -> (Z.to_nat (Z.of_nat (length (str_bytes s)) - i) <= d)%nat ->
  (d < n)%nat -> conversions false (rest s i) = Some cs -> fits cs args k ->
  exists r k', printf_from fuel n false (lit s) i args k = Ret r k' /\ prints k k'.
Proof.
  induction n as [| n IH]; intros d i args k cs Hr Hpos Hlen Hi Hd Hn Hcs Hfit; [lia |].
  cbn [printf_from]. destruct (rest s i) as [| c l] eqn:Hrest.
  - assert (He : i = Z.of_nat (length (str_bytes s))).
    { unfold rest in Hrest. apply (f_equal length) in Hrest. rewrite length_drop in Hrest. simpl in Hrest. lia. }
    rewrite He. unfold lit at 1. rewrite arr_get_end, Z.eqb_refl. exists (Z.of_nat (length (str_bytes s))), k.
    split; [done | by apply prints_refl].
  - destruct (rest_cons s i c l) as (Hc & Hrest' & Hlt); [lia | done |].
    assert (Hl : Forall (fun c => 0 < c) (c :: l)) by (rewrite <- Hrest; by apply Forall_drop).
    apply Forall_cons in Hl as [H0 Hl]. unfold lit at 1 2 4. rewrite Hc. unfold NUL.
    rewrite (proj2 (Z.eqb_neq c 0)) by lia. cbn [conversions] in Hcs.
    destruct (Z.eqb_spec c 37) as [-> | H37].
    + destruct (format_returns s (length l) fuel (i + 1) false args k l) with (cs := cs)
        as (i' & args' & cs' & k1 & He & Hp & Hle & Hcs' & Hfit' & Hlt'); try done; try lia.
      { rewrite <- Hrest'. unfold rest. rewrite length_drop. lia. }
      unfold bind. rewrite He. cbn [fst snd].
      destruct (IH (Z.to_nat (Z.of_nat (length (str_bytes s)) - (i' + 1))) (i' + 1) args' k1 cs')
        as (r & k2 & Hr2 & Hp2); try done; try lia; [apply Hp |].
      exists r, k2. split; [done | by apply (prints_trans k k1)].
    + unfold bind, modify. pose proof (putc_prints c k Hr) as Hp.
      destruct (IH (Z.to_nat (Z.of_nat (length (str_bytes s)) - (i + 1))) (i + 1) args (putc c k) cs)
        as (r & k2 & Hr2 & Hp2); try done; try lia;
        [apply Hp | by rewrite Hrest' | by apply (fits_prints _ _ k) |].
      exists r, k2. split; [| by apply (prints_trans k (putc c k))]. unfold lit at 2. by rewrite Hc.
Qed.

(** [printf] of a well-formed literal. *)
Lemma printf_prints s args k cs :
  ready k -> Forall (fun c => 0 < c) (str_bytes s) -> (length (str_bytes s) < fuel)%nat ->
  conversions false (str_bytes s) = Some cs -> fits cs args k ->
  exists r k', printf fuel (lit s) args k = Ret r k' /\ prints k k'.
Proof.
  intros Hr Hpos Hl Hcs Hf. unfold printf.
  apply (printf_from_returns s fuel (length (str_bytes s)) 0 args k cs); done || lia.
Qed.
End formats.

(** ** Properties *)

(** C31: [printf] terminates and touches only the screen: for every format
    that does not end inside a conversion, with an argument for each
    conversion and null-terminated strings outside of video memory for
    [%s], the call returns, and afterwards nothing has changed but the
    visible page, the cursor and the port accesses. *)
Theorem printf_returns fuel s args k cs :
  ready k -> Forall (fun c => 0 < c) (str_bytes s) ->
  conversions false (str_bytes s) = Some cs -> fits fuel cs args k ->
  (40 < fuel)%nat -> (length (str_bytes s) < fuel)%nat ->
  exists r k', printf fuel (lit s) args k = Ret r k' /\ prints k k'.
Proof. intros Hr Hpos Hcs Hf H40 Hl. by apply (printf_prints fuel H40 s args k cs). Qed.

(** ** Witness *)

Lemma printf_returns_witness :
  exists r k', printf 100 (lit "%s: 0x%#x, %d%%") [sample_base + 8192; 391; -7] sample = Ret r k' /\
    prints sample k'.
Proof.
  apply (printf_returns 100 "%s: 0x%#x, %d%%" [sample_base + 8192; 391; -7] sample [115; 120; 100]).
  - split; [apply sample_console |]. by apply unpaged_region.
  - apply (bool_decide_unpack _). vm_compute. exact I.
  - reflexivity.
  - repeat constructor; try (intros; lia). exists (str_bytes "fish!"). split; [| simpl; lia].
    apply stays_ptr.
    + split; [| vm_compute; reflexivity]. intros i Hi. change (Z.of_nat (length (str_bytes "fish!"))) with 5 in Hi.
      assert (Hc : i = 0 \/ i = 1 \/ i = 2 \/ i = 3 \/ i = 4) by lia.
      repeat destruct Hc as [-> | Hc]; [.. | subst i]; vm_compute; split; congruence.
    + intros i Hi j Hj. change (Z.of_nat (length (str_bytes "fish!"))) with 5 in Hi.
      rewrite !unpaged_loc by done. unfold sample_base. change VIDEO with 0xB8000.
      rewrite !u32_small by lia. intros [= ?]. lia.
  - lia.
  - simpl. lia.
Defined.
