(* ===== verification/Userland.v ===== *)
(** * User programs: the library and the programs of src/syscalls

    The support library (ece391support.c) and the programs cat, ls, hello,
    testprint, counter and shell, over the interface [SysCalls] of the system
    calls that ece391syscall.S wraps.  [SysSpec] states what the programs
    rely on; their theorems are proved against it, and Usermode.v shows that
    the kernel keeps it. *)

From S2P Require Import Prelude Memory Lib.

(** ** The world of a program

    A system call gives control back with the value of EAX, or it does not:
    it waits for ever, faults, or leaves to another process. *)

Inductive result (W A : Type) : Type :=
| Returns (a : A) (w : W)
| Stops (w : W).
Arguments Returns {W A} a w.
Arguments Stops {W A} w.

Definition U (W A : Type) : Type := W -> result W A.

Definition u_ret {W A} (a : A) : U W A := fun w => Returns a w.
Definition u_stop {W A} : U W A := fun w => Stops w.
Definition u_bind {W A B} (c : U W A) (f : A -> U W B) : U W B := fun w =>
  match c w with
  | Returns a w' => f a w'
  | Stops w' => Stops w'
  end.
Definition u_gets {W A} (f : W -> A) : U W A := fun w => Returns (f w) w.
Definition u_modify {W} (f : W -> W) : U W unit := fun w => Returns tt (f w).
(** A loop that did not end within its fuel. *)
Definition u_loop {W A} (o : W -> option A) : U W A := fun w =>
  match o w with Some a => Returns a w | None => Stops w end.

Declare Scope user_scope.
Delimit Scope user_scope with user.
Notation "x <- c ;; f" := (u_bind c (fun x => f))
  (at level 100, c at next level, right associativity) : user_scope.
Notation "c ;; f" := (u_bind c (fun _ => f)) (at level 100, right associativity) : user_scope.
#[local] Open Scope user_scope.

(** ** The interface of the system calls *)

Class SysCalls (W : Type) := {
  user_mem :: MemOps W;
  ece391_halt : Z -> U W Z;
  ece391_execute : Z -> U W Z;
  ece391_read : Z -> Z -> Z -> U W Z;
  ece391_write : Z -> Z -> Z -> U W Z;
  ece391_open : Z -> U W Z;
  ece391_close : Z -> U W Z;
  ece391_getargs : Z -> Z -> U W Z;
  ece391_vidmap : Z -> U W Z;
  (** INT 0x80 with the number alone: the other registers are not set *)
  call_sys : Z -> U W Z
}.

Section programs.
Context {W : Type} `{SysCalls W}.
(** The addresses that the linker gave the string literals, and turns for
    the loops that the source does not bound. *)
Variable lit_addr : string -> Z.
Variable fuel : nat.

(** ** ece391support.c *)

Definition ece391_strlen (s : Z) : U W Z := u_loop (fun w => strlen fuel (chars w s)).

Definition ece391_strcpy (dst src : Z) : U W unit := fun w =>
  match loop fuel (strcpy_turn dst NUL (fun w => chars w src)) (w, 0) with
  | Some w' => Returns tt w'
  | None => Stops w
  end.

Definition ece391_fdputs (fd s : Z) : U W unit :=
  len <- ece391_strlen s;; ece391_write fd s len;; u_ret tt.

(** The two pointers advance together. *)
Definition strcmp_turn (s1 s2 : Z -> Z) (i : Z) : turn Z Z :=
  if s1 i =? s2 i then if s1 i =? NUL then Break 0 else Continue (i + 1)
  else Break (s1 i - s2 i).

Definition ece391_strcmp (s1 s2 : Z) : U W Z :=
  u_loop (fun w => loop fuel (strcmp_turn (chars w s1) (chars w s2)) 0).

(** [--n] on a [uint32_t] that is not 0. *)
Definition ustrncmp_turn (s1 s2 : Z -> Z) (t : Z * Z) : turn (Z * Z) Z :=
  let '(i, n) := t in
  if s1 i =? s2 i then
    if (s1 i =? NUL) || (n - 1 =? 0) then Break 0 else Continue (i + 1, n - 1)
  else Break (s1 i - s2 i).

Definition ece391_strncmp (s1 s2 n : Z) : U W Z :=
  if u32 n =? 0 then u_ret 0
  else u_loop (fun w => loop fuel (ustrncmp_turn (chars w s1) (chars w s2)) (0, u32 n)).

(** [ece391_itoa] and [ece391_strrev] are those of the kernel's lib.c. *)
Definition ece391_itoa (value buf radix : Z) : U W Z := fun w =>
  match itoa w value buf radix with
  | Some w' => Returns buf w'
  | None => Stops w
  end.

(** [ece391_fdputs(1, (uint8_t* )"...")] *)
Definition print (s : string) : U W unit := ece391_fdputs 1 (lit_addr s).

(** ** The programs: [main] with its buffer at [buf] *)

Definition testprint_main : U W Z :=
  print "Hello, if this ran, the program was correct. Yay!
";; u_ret 0.

Definition hello_main (buf : Z) : U W Z :=
  print "Hi, what's your name? ";;
  cnt <- ece391_read 0 buf 1023;;
  if cnt =? -1 then
    print "Can't read name from keyboard.
";; u_ret 3
  else
    u_modify (fun w => st w (buf + cnt) NUL);;
    print "Hello, ";;
    ece391_fdputs 1 buf;;
    u_ret 0.

Fixpoint cat_loop (n : nat) (fd buf : Z) : U W Z :=
  match n with
  | O => u_stop
  | S n' =>
      cnt <- ece391_read fd buf 1024;;
      if cnt =? 0 then u_ret 0
      else if cnt =? -1 then
        print "file read failed
";; u_ret 3
      else
        r <- ece391_write 1 buf cnt;;
        if r =? -1 then u_ret 3 else cat_loop n' fd buf
  end.

Definition cat_main (buf : Z) : U W Z :=
  r <- ece391_getargs buf 1024;;
  if negb (r =? 0) then
    print "could not read arguments
";; u_ret 3
  else
    fd <- ece391_open buf;;
    if fd =? -1 then
      print "file not found
";; u_ret 2
    else cat_loop fuel fd buf.

Definition SBUFSIZE : Z := 33.

Fixpoint ls_loop (n : nat) (fd buf : Z) : U W Z :=
  match n with
  | O => u_stop
  | S n' =>
      cnt <- ece391_read fd buf (SBUFSIZE - 1);;
      if cnt =? 0 then u_ret 0
      else if cnt =? -1 then
        print "directory entry read failed
";; u_ret 3
      else
        u_modify (fun w => st w (buf + cnt) NEWLINE);;
        r <- ece391_write 1 buf (cnt + 1);;
        if r =? -1 then u_ret 3 else ls_loop n' fd buf
  end.

Definition ls_main (buf : Z) : U W Z :=
  fd <- ece391_open (lit_addr ".");;
  if fd =? -1 then
    print "directory open failed
";; u_ret 2
  else ls_loop fuel fd buf.

(** What the shell says about the value of [execute]. *)
Definition shell_report (rval : Z) : U W unit :=
  if rval =? -1 then print "no such command
"
  else if rval =? 256 then print "program terminated by exception
"
  else if negb (rval =? 0) then print "program terminated abnormally
"
  else u_ret tt.

Fixpoint shell_loop (n : nat) (buf : Z) : U W Z :=
  match n with
  | O => u_stop
  | S n' =>
      print "391OS> ";;
      cnt <- ece391_read 0 buf 1023;;
      if cnt =? -1 then
        print "read from keyboard failed
";; u_ret 3
      else
        cnt <- u_gets (fun w =>
          if (0 <? cnt) && (ld w (buf + (cnt - 1)) =? NEWLINE) then cnt - 1 else cnt);;
        u_modify (fun w => st w (buf + cnt) NUL);;
        r <- ece391_strcmp buf (lit_addr "exit");;
        if r =? 0 then u_ret 0
        else
          c <- u_gets (fun w => ld w buf);;
          if c =? NUL then shell_loop n' buf
          else
            rval <- ece391_execute buf;;
            shell_report rval;;
            shell_loop n' buf
  end.

Definition shell_main (buf : Z) : U W Z :=
  print "Starting 391 Shell
";;
  shell_loop fuel buf.

(** The bound that counter reads; without a valid digit it stays 0. *)
Definition counter_max (c : Z) : Z :=
  if c =? 48 then 100 else if c =? 49 then 10000 else if c =? 50 then 100000 else 0.

Fixpoint counter_loop (n : nat) (i max buf : Z) : U W Z :=
  if i <? max then
    match n with
    | O => u_stop
    | S n' =>
        ece391_itoa (i + 1) buf 10;;
        ece391_fdputs 1 buf;;
        print "
";;
        counter_loop n' (i + 1) max buf
    end
  else u_ret 0.

Definition counter_main (buf : Z) : U W Z :=
  print "Enter the Test Number: (0): 100, (1): 10000, (2): 100000
";;
  cnt <- ece391_read 0 buf 1023;;
  if u32 cnt =? u32 (-1) then
    print "Can't read the number from keyboard.
";; u_ret 3
  else
    u_modify (fun w => st w (buf + u32 cnt) NUL);;
    len <- ece391_strlen buf;;
    c <- u_gets (fun w => ld w buf);;
    if (2 <? len) || ((len =? 2) && ((c <? 48) || (50 <? c))) then
      print "Wrong Choice!
";; u_ret 0
    else counter_loop fuel 0 (counter_max c) buf.
End programs.

(** ** What programs rely on

    [user_addr] are the addresses of the program's page; [display] is what
    the program's terminal shows and [show] what one more character makes of
    it.  The other predicates say what the system has for the program: a
    descriptor from which [l] is still to be read, one that lists names, the
    line typed at the keyboard, the named files, the directory, and the
    argument of the command line. *)

Class SysView (W : Type) := {
  user_addr : Z -> Prop;
  good : W -> Prop;
  screen_t : Type;
  display : W -> screen_t;
  show : screen_t -> Z -> screen_t;
  (** the longest text that one [write] takes *)
  limit : Z;
  stream : W -> Z -> list Z -> Prop;
  listing : W -> Z -> list (list Z) -> Prop;
  typed : W -> list Z -> Prop;
  named : W -> list Z -> list Z -> Prop;
  absent : W -> list Z -> Prop;
  directory : W -> list (list Z) -> Prop;
  argument : W -> list Z -> Prop
}.

Section view.
Context {W : Type} `{SysView W, SysCalls W}.

Definition users (a n : Z) : Prop := forall i, 0 <= i < n -> user_addr (a + i).

(** What the system has for the program stays. *)
Record env_kept (w w' : W) : Prop := EnvKept {
  kept_stream : forall fd l, stream w fd l -> stream w' fd l;
  kept_listing : forall fd l, listing w fd l -> listing w' fd l;
  kept_typed : forall l, typed w l -> typed w' l;
  kept_named : forall n l, named w n l -> named w' n l;
  kept_absent : forall n, absent w n -> absent w' n;
  kept_directory : forall l, directory w l -> directory w' l;
  kept_argument : forall l, argument w l -> argument w' l
}.

(** From [w] to [w'] the text [l] was shown and the program's memory changed
    at most at [touched]. *)
Record after (w w' : W) (l : list Z) (touched : Z -> Prop) : Prop := After {
  after_good : good w';
  after_display : display w' = foldl show (display w) l;
  after_mem : forall a, user_addr a -> ~ touched a -> ld w' a = ld w a
}.

Definition nowhere (a : Z) : Prop := False.
End view.

Class SysSpec (W : Type) `{SysView W, SysCalls W} : Prop := {
  spec_mem :: MemLaws W;
  law_mapped w a : good w -> user_addr a -> is_Some (loc w a);
  law_distinct w a b : good w -> user_addr a -> user_addr b -> loc w a = loc w b -> a = b;
  law_store w a v : good w -> user_addr a ->
    after w (st w a v) [] (eq a) /\ env_kept w (st w a v);
  law_write w buf n : good w -> 0 <= n <= limit -> user_addr buf -> users buf n ->
    exists w', ece391_write 1 buf n w = Returns n w' /\
      after w w' (bytes w buf (Z.to_nat n)) nowhere /\ env_kept w w';
  law_read w fd l buf n : good w -> stream w fd l -> 0 <= n -> user_addr buf -> users buf n ->
    let c := Z.min n (Z.of_nat (length l)) in
    exists w', ece391_read fd buf n w = Returns c w' /\ after w w' [] (within buf c) /\
      bytes w' buf (Z.to_nat c) = take (Z.to_nat c) l /\ stream w' fd (drop (Z.to_nat c) l);
  law_close w fd l : good w -> stream w fd l ->
    exists w', ece391_close fd w = Returns 0 w' /\ after w w' [] nowhere;
  law_list w fd nm rest buf : good w -> listing w fd (nm :: rest) -> users buf 32 ->
    exists w', ece391_read fd buf 32 w = Returns (Z.of_nat (length nm)) w' /\
      after w w' [] (within buf 32) /\ bytes w' buf (length nm) = nm /\ listing w' fd rest;
  law_listed w fd nm rest : listing w fd (nm :: rest) -> (0 < length nm <= 32)%nat;
  law_list_end w fd buf : good w -> listing w fd [] -> users buf 32 ->
    exists w', ece391_read fd buf 32 w = Returns 0 w' /\ after w w' [] (within buf 32);
  law_typed w l buf n : good w -> typed w l -> users buf 128 -> 128 <= n ->
    exists w', ece391_read 0 buf n w = Returns (Z.of_nat (length l) + 1) w' /\
      after w w' [] (within buf 128) /\ bytes w' buf (length l + 1) = l ++ [NEWLINE];
  law_line w l : typed w l -> (length l <= 127)%nat /\ Forall (fun c => 0 < c < 256) l;
  law_open w p n l : good w -> terminated NUL (chars w p) n -> users p (Z.of_nat (length n) + 1) ->
    named w n l ->
    exists fd w', ece391_open p w = Returns fd w' /\ fd <> -1 /\ after w w' [] nowhere /\
      stream w' fd l;
  law_open_absent w p n : good w -> terminated NUL (chars w p) n ->
    users p (Z.of_nat (length n) + 1) -> absent w n ->
    exists w', ece391_open p w = Returns (-1) w' /\ after w w' [] nowhere;
  law_open_dir w p names : good w -> terminated NUL (chars w p) (str_bytes ".") -> users p 2 ->
    directory w names ->
    exists fd w', ece391_open p w = Returns fd w' /\ fd <> -1 /\ after w w' [] nowhere /\
      listing w' fd names;
  law_getargs w l buf n : good w -> argument w l -> l <> [] -> users buf 128 -> 128 <= n <= 1024 ->
    exists w', ece391_getargs buf n w = Returns 0 w' /\ after w w' [] (within buf 128) /\
      terminated NUL (chars w' buf) l /\ env_kept w w';
  law_argument w l : argument w l -> (length l <= 127)%nat
}.

(** ** Comparing strings *)

(** The difference of the first bytes in which two strings differ, the end
    of a string counting as a null. *)
Fixpoint lex_diff (l1 l2 : list Z) : Z :=
  match l1, l2 with
  | c1 :: l1', c2 :: l2' => if c1 =? c2 then lex_diff l1' l2' else c1 - c2
  | c1 :: _, [] => c1 - NUL
  | [], c2 :: _ => NUL - c2
  | [], [] => 0
  end.

Lemma lex_diff_zero l1 l2 :
  Forall (fun c => c <> NUL) l1 -> Forall (fun c => c <> NUL) l2 ->
  (lex_diff l1 l2 = 0 <-> l1 = l2).
Proof.
  unfold NUL. intros H1. revert l2. induction H1 as [| c1 l1 Hc1 H1 IH]; intros l2 H2;
    destruct H2 as [| c2 l2 Hc2 H2]; cbn [lex_diff]; unfold NUL; try (split; [lia | congruence]); [done |].
  destruct (Z.eqb_spec c1 c2) as [-> | Hne].
  - rewrite IH by done. split; [by intros -> | by intros [= ->]].
  - split; [lia | intros [= ? ?]; congruence].
Qed.

Lemma terminated_nonzero s l : terminated NUL s l -> Forall (fun c => c <> NUL) l.
Proof.
  intros [Hc _]. apply Forall_lookup. intros i c Hi.
  destruct (Hc (Z.of_nat i)) as [Hl Hn]; [apply lookup_lt_Some in Hi; lia |].
  rewrite Nat2Z.id in Hl. congruence.
Qed.

(** A string from its second byte. *)
Lemma terminated_cons s c l :
  terminated NUL s (c :: l) <-> s 0 = c /\ c <> NUL /\ terminated NUL (fun i => s (i + 1)) l.
Proof.
  split.
  - intros [Hc Hz]. destruct (Hc 0) as [Hh Hn]; [simpl; lia |]. injection Hh as ->. split_and!; try done.
    split.
    + intros i Hi. destruct (Hc (i + 1)) as [Hl Hn']; [simpl; lia |].
      by replace (Z.to_nat (i + 1)) with (S (Z.to_nat i)) in Hl by lia.
    + rewrite <- Hz. f_equal. simpl. lia.
  - intros (Hh & Hn & [Hc Hz]). split.
    + intros i Hi. destruct (decide (i = 0)) as [-> | Hi0]; [by subst |].
      destruct (Hc (i - 1)) as [Hl Hn']; [simpl in Hi; lia |].
      replace (i - 1 + 1) with i in * by lia.
      by replace (Z.to_nat i) with (S (Z.to_nat (i - 1))) by lia.
    + rewrite <- Hz. f_equal. simpl. lia.
Qed.

Lemma terminated_ext stop s s' l :
  (forall i, 0 <= i <= Z.of_nat (length l) -> s' i = s i) -> terminated stop s l ->
  terminated stop s' l.
Proof.
  intros He [Hc Hz]. split; [| by rewrite He by lia]. intros i Hi. rewrite He by lia. by apply Hc.
Qed.

Lemma strncmp_loop s1 s2 l1 : forall fuel l2 i n,
  terminated NUL (fun t => s1 (i + t)) l1 -> terminated NUL (fun t => s2 (i + t)) l2 ->
  (length l1 < fuel)%nat -> 0 < n ->
  loop fuel (ustrncmp_turn s1 s2) (i, n)
  = Some (lex_diff (take (Z.to_nat n) l1) (take (Z.to_nat n) l2)).
Proof.
  induction l1 as [| c1 l1 IH]; intros fuel l2 i n H1 H2 Hf Hn; (destruct fuel as [| fuel]; [simpl in *; lia |]);
    cbn [loop ustrncmp_turn]; replace (Z.to_nat n) with (S (Z.to_nat (n - 1))) by lia; cbn [take].
  - destruct H1 as [_ E1]. cbn [length Z.of_nat] in E1. rewrite Z.add_0_r in E1. rewrite E1.
    destruct l2 as [| c2 l2]; cbn [take lex_diff].
    + destruct H2 as [_ E2]. cbn [length Z.of_nat] in E2. rewrite Z.add_0_r in E2. by rewrite E2.
    + apply terminated_cons in H2 as (E2 & Hn2 & _). rewrite Z.add_0_r in E2. rewrite E2.
      by rewrite (proj2 (Z.eqb_neq NUL c2)).
  - apply terminated_cons in H1 as (E1 & Hn1 & H1). rewrite Z.add_0_r in E1. rewrite E1.
    destruct l2 as [| c2 l2]; cbn [take lex_diff].
    + destruct H2 as [_ E2]. cbn [length Z.of_nat] in E2. rewrite Z.add_0_r in E2.
      rewrite E2, (proj2 (Z.eqb_neq c1 NUL)); done.
    + apply terminated_cons in H2 as (E2 & Hn2 & H2). rewrite Z.add_0_r in E2. rewrite E2.
      destruct (Z.eqb_spec c1 c2) as [-> | Hne]; [| done].
      rewrite (proj2 (Z.eqb_neq c2 NUL)) by done. cbn [orb].
      destruct (Z.eqb_spec (n - 1) 0) as [-> | Hn0]; [done |].
      apply (IH fuel l2 (i + 1) (n - 1)); [| | simpl in *; lia | lia].
      * eapply terminated_ext; [| exact H1]. intros t _. cbv beta. f_equal. lia.
      * eapply terminated_ext; [| exact H2]. intros t _. cbv beta. f_equal. lia.
Qed.

Lemma strcmp_loop s1 s2 l1 : forall fuel l2 i,
  terminated NUL (fun t => s1 (i + t)) l1 -> terminated NUL (fun t => s2 (i + t)) l2 ->
  (length l1 < fuel)%nat -> loop fuel (strcmp_turn s1 s2) i = Some (lex_diff l1 l2).
Proof.
  induction l1 as [| c1 l1 IH]; intros fuel l2 i H1 H2 Hf; (destruct fuel as [| fuel]; [simpl in *; lia |]);
    cbn [loop]; unfold strcmp_turn at 1.
  - destruct H1 as [_ E1]. cbn [length Z.of_nat] in E1. rewrite Z.add_0_r in E1. rewrite E1.
    destruct l2 as [| c2 l2]; cbn [lex_diff].
    + destruct H2 as [_ E2]. cbn [length Z.of_nat] in E2. rewrite Z.add_0_r in E2. by rewrite E2.
    + apply terminated_cons in H2 as (E2 & Hn2 & _). rewrite Z.add_0_r in E2. rewrite E2.
      by rewrite (proj2 (Z.eqb_neq NUL c2)).
  - apply terminated_cons in H1 as (E1 & Hn1 & H1). rewrite Z.add_0_r in E1. rewrite E1.
    destruct l2 as [| c2 l2]; cbn [lex_diff].
    + destruct H2 as [_ E2]. cbn [length Z.of_nat] in E2. rewrite Z.add_0_r in E2.
      rewrite E2, (proj2 (Z.eqb_neq c1 NUL)); done.
    + apply terminated_cons in H2 as (E2 & Hn2 & H2). rewrite Z.add_0_r in E2. rewrite E2.
      destruct (Z.eqb_spec c1 c2) as [-> | Hne]; [| done].
      rewrite (proj2 (Z.eqb_neq c2 NUL)) by done.
      apply IH; [| | simpl in *; lia].
      * eapply terminated_ext; [| exact H1]. intros t _. cbv beta. f_equal. lia.
      * eapply terminated_ext; [| exact H2]. intros t _. cbv beta. f_equal. lia.
Qed.

(** C32: The string comparisons of the programs are the reference
    comparison: [ece391_strcmp] returns the difference of the first bytes
    in which the strings differ, [ece391_strncmp] the same of their first
    [n] bytes, both without a change of memory, and 0 means equal. *)
Theorem comparisons_agree {W} `{SysCalls W} fuel s1 s2 n l1 l2 (w : W) :
  terminated NUL (chars w s1) l1 -> terminated NUL (chars w s2) l2 -> (length l1 < fuel)%nat ->
  0 <= n < 4294967296 ->
  ece391_strcmp fuel s1 s2 w = Returns (lex_diff l1 l2) w /\
  ece391_strncmp fuel s1 s2 n w
  = Returns (lex_diff (take (Z.to_nat n) l1) (take (Z.to_nat n) l2)) w /\
  (lex_diff l1 l2 = 0 <-> l1 = l2).
Proof.
  intros H1 H2 Hf Hn. split; [| split].
  - unfold ece391_strcmp, u_loop. by rewrite (strcmp_loop _ _ l1 fuel l2 0).
  - unfold ece391_strncmp. rewrite u32_small by done. destruct (Z.eqb_spec n 0) as [-> | Hn0]; [done |].
    unfold u_loop. by rewrite (strncmp_loop _ _ l1 fuel l2 0 n) by (done || lia).
  - apply lex_diff_zero; by eapply terminated_nonzero.
Qed.

(** ** Programs against the interface *)

Section verified.
Context {W : Type} `{SysSpec W}.
#[local] Existing Instance spec_mem.
Variable lit_addr : string -> Z.
Variable fuel : nat.

Lemma env_refl (w : W) : env_kept w w. Proof. by split. Qed.

Lemma env_trans (a b c : W) : env_kept a b -> env_kept b c -> env_kept a c.
Proof. intros [] []; split; auto. Qed.

Lemma after_refl (w : W) : good w -> after w w [] nowhere. Proof. by split. Qed.

Lemma after_trans a b c l1 l2 T1 T2 T :
  after a b l1 T1 -> after b c l2 T2 -> (forall x, T1 x -> T x) -> (forall x, T2 x -> T x) ->
  after a c (l1 ++ l2) T.
Proof.
  intros [G1 D1 M1] [G2 D2 M2] HT1 HT2. split; [done | |].
  - by rewrite foldl_app, D2, D1.
  - intros x Hx Hn. rewrite M2, M1; auto.
Qed.

Lemma after_weaken a b l T T' : after a b l T -> (forall x, T x -> T' x) -> after a b l T'.
Proof. intros [G D M] HT. split; auto. Qed.

Lemma users_sub a n b m : users a n -> a <= b -> b + m <= a + n -> users b m.
Proof. intros Hu Hb Hm i Hi. replace (b + i) with (a + (b - a + i)) by lia. apply Hu. lia. Qed.

Lemma users_at a n i : users a n -> 0 <= i < n -> user_addr (a + i).
Proof. auto. Qed.

(** A string that the program did not touch. *)
Lemma after_string w w' l T p s :
  after w w' l T -> users p (Z.of_nat (length s) + 1) ->
  (forall i, 0 <= i <= Z.of_nat (length s) -> ~ T (p + i)) ->
  terminated NUL (chars w p) s -> terminated NUL (chars w' p) s.
Proof.
  intros [_ _ Hm] Hu HT [Hc Hz].
  assert (He : forall i, 0 <= i <= Z.of_nat (length s) -> chars w' p i = chars w p i).
  { intros i Hi. apply Hm; [apply Hu; lia | by apply HT]. }
  split; [| by rewrite He by lia]. intros i Hi. rewrite He by lia. by apply Hc.
Qed.

(** The bytes of a string. *)
Lemma bytes_string (w : W) p s : terminated NUL (chars w p) s -> bytes w p (length s) = s.
Proof.
  intros [Hc _]. unfold chars in Hc. revert p Hc. induction s as [| c s IH]; intros p Hc; [done |].
  cbn [bytes length]. f_equal.
  - destruct (Hc 0) as [Hh _]; [simpl; lia |]. rewrite Z.add_0_r in Hh. by injection Hh.
  - apply IH. intros i Hi. destruct (Hc (i + 1)) as [Hh Hn]; [simpl in *; lia |].
    replace (p + 1 + i) with (p + (i + 1)) by lia. split; [| done].
    by replace (Z.to_nat (i + 1)) with (S (Z.to_nat i)) in Hh by lia.
Qed.

Lemma fdputs_shows w p s :
  good w -> terminated NUL (chars w p) s -> users p (Z.of_nat (length s) + 1) ->
  (length s < fuel)%nat -> Z.of_nat (length s) <= limit ->
  exists w', ece391_fdputs fuel 1 p w = Returns tt w' /\ after w w' s nowhere /\ env_kept w w'.
Proof.
  intros Hg Ht Hu Hf Hl. unfold ece391_fdputs, ece391_strlen, u_loop, u_bind.
  rewrite (strlen_terminated fuel _ s) by done.
  destruct (law_write w p (Z.of_nat (length s))) as (w' & He & Ha & Hk); [done | lia | | |].
  - pose proof (users_at _ _ 0 Hu) as Hp. rewrite Z.add_0_r in Hp. apply Hp. lia.
  - eapply users_sub; [exact Hu | lia | lia].
  - rewrite He. exists w'. split; [done |]. split; [| done].
    rewrite Nat2Z.id in Ha. by rewrite (bytes_string w p s) in Ha.
Qed.

(** A literal of the program, apart from the addresses in [T]. *)
Definition has_lit (T : Z -> Prop) (w : W) (s : string) : Prop :=
  terminated NUL (chars w (lit_addr s)) (str_bytes s) /\
  users (lit_addr s) (Z.of_nat (length (str_bytes s)) + 1) /\
  (forall i, 0 <= i <= Z.of_nat (length (str_bytes s)) -> ~ T (lit_addr s + i)) /\
  (length (str_bytes s) < fuel)%nat /\ Z.of_nat (length (str_bytes s)) <= limit.

Lemma has_lit_after T T' w w' l s :
  has_lit T w s -> after w w' l T' -> (forall x, T' x -> T x) -> has_lit T w' s.
Proof.
  intros (Ht & Hu & HT & Hf & Hl) Ha Hs. split_and!; try done.
  eapply after_string; [exact Ha | done | | done]. intros i Hi Hx. by apply (HT i Hi), Hs.
Qed.

Lemma print_shows T w s :
  good w -> has_lit T w s ->
  exists w', print lit_addr fuel s w = Returns tt w' /\ after w w' (str_bytes s) nowhere /\
    env_kept w w'.
Proof. intros Hg (Ht & Hu & _ & Hf & Hl). by apply fdputs_shows. Qed.

(** One byte stored. *)
Lemma ld_user_st (w : W) a v b :
  good w -> user_addr a -> user_addr b -> ld (st w a v) b = if decide (b = a) then u8 v else ld w b.
Proof.
  intros Hg Ha Hb. rewrite ld_st by by apply law_mapped.
  destruct (decide (b = a)) as [-> | Hne]; [by rewrite decide_True |].
  rewrite decide_False; [done |]. intros He. by apply Hne, (law_distinct w).
Qed.

(** *** cat *)

Lemma cat_loop_shows fd buf n : forall w l T,
  good w -> stream w fd l -> user_addr buf -> users buf 1024 -> 1024 <= limit ->
  (forall x, within buf 1024 x -> T x) -> (length l < n)%nat ->
  exists w', cat_loop lit_addr fuel n fd buf w = Returns 0 w' /\ after w w' l T.
Proof.
  induction n as [| n IH]; intros w l T Hg Hs Hb Hu Hlim HT Hn; [lia |]. cbn [cat_loop].
  destruct (law_read w fd l buf 1024) as (w1 & He & Ha & Hby & Hs1); try done.
  set (c := Z.min 1024 (Z.of_nat (length l))) in *. unfold u_bind. rewrite He.
  assert (HT1 : forall x, within buf c x -> T x) by (intros x Hx; apply HT; unfold within in *; lia).
  destruct (Z.eqb_spec c 0) as [Hc0 | Hc0].
  - exists w1. split; [done |]. destruct l; [| simpl in *; lia]. by eapply after_weaken.
  - rewrite (proj2 (Z.eqb_neq c (-1))) by lia.
    destruct (law_write w1 buf c) as (w2 & He2 & Ha2 & Hk2);
      [apply Ha | lia | done | eapply users_sub; [exact Hu | lia | lia] |].
    rewrite He2, (proj2 (Z.eqb_neq c (-1))) by lia. rewrite Hby in Ha2.
    destruct (IH w2 (drop (Z.to_nat c) l) T) as (w3 & He3 & Ha3); try done.
    + apply Ha2.
    + by apply Hk2.
    + rewrite length_drop. lia.
    + exists w3. split; [done |]. rewrite <- (take_drop (Z.to_nat c) l).
      apply (after_trans w w1 w3 [] _ (within buf c) T); [done | | done | done].
      by apply (after_trans w1 w2 w3 _ _ nowhere T).
Qed.

(** The argument is in the buffer. *)
Lemma getargs_string w name buf :
  good w -> argument w name -> name <> [] -> users buf 1024 ->
  exists w', ece391_getargs buf 1024 w = Returns 0 w' /\ after w w' [] (within buf 1024) /\
    terminated NUL (chars w' buf) name /\ env_kept w w' /\
    users buf (Z.of_nat (length name) + 1).
Proof.
  intros Hg Ha Hne Hu. pose proof (law_argument w name Ha) as Hl.
  destruct (law_getargs w name buf 1024) as (w' & He & Haf & Ht & Hk); try done;
    [eapply users_sub; [exact Hu | lia | lia] |].
  exists w'. split_and!; try done.
  - eapply after_weaken; [exact Haf |]. unfold within. intros; lia.
  - eapply users_sub; [exact Hu | lia | lia].
Qed.

(** *** ls *)

Lemma ls_loop_shows fd buf n : forall w names T,
  good w -> listing w fd names -> users buf 33 -> 33 <= limit ->
  (forall x, within buf 33 x -> T x) -> (length names < n)%nat ->
  exists w', ls_loop lit_addr fuel n fd buf w = Returns 0 w' /\
    after w w' (concat ((fun nm => nm ++ [NEWLINE]) <$> names)) T.
Proof.
  induction n as [| n IH]; intros w names T Hg Hs Hu Hlim HT Hn; [lia |]. cbn [ls_loop].
  change (SBUFSIZE - 1) with 32.
  assert (Hu32 : users buf 32) by (eapply users_sub; [exact Hu | lia | lia]).
  assert (HT32 : forall x, within buf 32 x -> T x) by (intros x Hx; apply HT; unfold within in *; lia).
  destruct names as [| nm rest].
  - destruct (law_list_end w fd buf) as (w1 & He & Ha); try done.
    exists w1. unfold u_bind. rewrite He. split; [done |]. by eapply after_weaken.
  - destruct (law_list w fd nm rest buf) as (w1 & He & Ha & Hby & Hs1); try done.
    pose proof (law_listed w fd nm rest Hs) as Hnm. unfold u_bind at 1. rewrite He.
    rewrite (proj2 (Z.eqb_neq _ 0)), (proj2 (Z.eqb_neq _ (-1))) by lia.
    assert (Hend : user_addr (buf + Z.of_nat (length nm))) by (apply Hu; lia).
    set (w2 := st w1 (buf + Z.of_nat (length nm)) NEWLINE).
    destruct (law_store w1 (buf + Z.of_nat (length nm)) NEWLINE) as [Ha2 Hk2]; [apply Ha | done |].
    fold w2 in Ha2, Hk2.
    destruct (law_write w2 buf (Z.of_nat (length nm) + 1)) as (w3 & He3 & Ha3 & Hk3);
      [apply Ha2 | lia | | eapply users_sub; [exact Hu | lia | lia] |].
    { pose proof (Hu 0 ltac:(lia)) as Hb. by rewrite Z.add_0_r in Hb. }
    replace (Z.to_nat (Z.of_nat (length nm) + 1)) with (length nm + 1)%nat in Ha3 by lia.
    assert (Hline : bytes w2 buf (length nm + 1) = nm ++ [NEWLINE]).
    { rewrite bytes_app. f_equal.
      - transitivity (bytes w1 buf (length nm)); [| exact Hby]. apply bytes_ext. intros i Hi. unfold w2.
        rewrite (ld_user_st w1) by (done || apply Ha || (apply Hu; lia)).
        rewrite decide_False; [done | lia].
      - cbn [bytes]. unfold w2. rewrite (ld_user_st w1) by (done || apply Ha).
        by rewrite decide_True. }
    rewrite Hline in Ha3.
    destruct (IH w3 rest T) as (w4 & He4 & Ha4); try done; [apply Ha3 | by apply Hk3, Hk2 | simpl in *; lia |].
    exists w4. split.
    + unfold u_bind, u_modify. fold w2. rewrite He3.
      by rewrite (proj2 (Z.eqb_neq _ (-1))) by lia.
    + cbn [concat fmap list_fmap].
      apply (after_trans w w1 w4 [] _ (within buf 32) T); [done | | done | done].
      apply (after_trans w1 w2 w4 [] _ _ T T Ha2); [| | done].
      * by apply (after_trans w2 w3 w4 _ _ nowhere T).
      * intros x <-. apply HT. unfold within. lia.
Qed.

(** *** The line of the keyboard *)

(** A null stored after the bytes of [l]. *)
Lemma bytes_terminate w l buf :
  good w -> Forall (fun c => 0 < c < 256) l -> users buf (Z.of_nat (length l) + 1) ->
  bytes w buf (length l) = l ->
  terminated NUL (chars (st w (buf + Z.of_nat (length l)) NUL) buf) l.
Proof.
  intros Hg Hc Hu Hb.
  assert (Hst : forall i, 0 <= i <= Z.of_nat (length l) ->
    chars (st w (buf + Z.of_nat (length l)) NUL) buf i
    = if decide (i = Z.of_nat (length l)) then NUL else ld w (buf + i)).
  { intros i Hi. unfold chars. rewrite (ld_user_st w) by (done || (apply Hu; lia)).
    destruct (decide (i = Z.of_nat (length l))) as [-> | Hne]; [by rewrite decide_True |].
    rewrite decide_False; [done | lia]. }
  split; [| by rewrite Hst, decide_True by lia].
  intros i Hi. rewrite Hst, decide_False by lia.
  destruct (lookup_lt_is_Some_2 l (Z.to_nat i)) as [c Hlk]; [lia |].
  pose proof (Forall_lookup_1 _ _ _ _ Hc Hlk) as Hr. cbv beta in Hr.
  assert (Hld : bytes w buf (length l) !! Z.to_nat i = Some c) by by rewrite Hb.
  rewrite bytes_lookup, Z2Nat.id in Hld by lia. injection Hld as ->. split; [done |].
  unfold NUL. lia.
Qed.

(** A line was read and its newline replaced by a null. *)
Lemma line_string w l buf :
  good w -> (length l <= 127)%nat -> Forall (fun c => 0 < c < 256) l -> users buf 128 ->
  bytes w buf (length l + 1) = l ++ [NEWLINE] ->
  ld w (buf + Z.of_nat (length l)) = NEWLINE /\
  terminated NUL (chars (st w (buf + Z.of_nat (length l)) NUL) buf) l.
Proof.
  intros Hg Hl Hc Hu Hb. rewrite bytes_app in Hb. apply app_inj_1 in Hb as [Hb Hn];
    [| by rewrite length_bytes].
  split; [by injection Hn |]. apply bytes_terminate; try done.
  eapply users_sub; [exact Hu | lia | lia].
Qed.

(** A typed line in the buffer, after the newline was replaced. *)
Lemma read_line w l buf :
  good w -> typed w l -> users buf 1024 ->
  exists w1, ece391_read 0 buf 1023 w = Returns (Z.of_nat (length l) + 1) w1 /\
    ld w1 (buf + Z.of_nat (length l)) = NEWLINE /\ good w1 /\
    let w2 := st w1 (buf + Z.of_nat (length l)) NUL in
    after w w2 [] (within buf 1024) /\ terminated NUL (chars w2 buf) l /\
    after w w1 [] (within buf 1024) /\ bytes w1 buf (length l + 1) = l ++ [NEWLINE].
Proof.
  intros Hg Ht Hu. destruct (law_line w l Ht) as [Hl Hc].
  assert (Hu1 : users buf 128) by (eapply users_sub; [exact Hu | lia | lia]).
  destruct (law_typed w l buf 1023) as (w1 & He & Ha & Hb); try done.
  destruct (line_string w1 l buf) as [Hn Hs]; try done; [apply Ha |].
  exists w1. assert (Hw : forall x, within buf 128 x -> within buf 1024 x) by (unfold within; intros; lia).
  destruct (law_store w1 (buf + Z.of_nat (length l)) NUL) as [Hst _]; [apply Ha | apply Hu; lia |].
  cbv zeta. split_and!; try done; [apply Ha | | by eapply after_weaken].
  apply (after_trans w w1 _ [] [] _ _ _ Ha Hst Hw). intros x <-. unfold within. lia.
Qed.

(** *** shell *)

(** What the shell does with a line. *)
Definition shell_line (n : nat) (buf : Z) (line : list Z) : U W Z :=
  if decide (line = str_bytes "exit") then u_ret 0
  else if decide (line = []) then shell_loop lit_addr fuel n buf
  else rval <- ece391_execute buf;; shell_report lit_addr fuel rval;; shell_loop lit_addr fuel n buf.

Lemma shell_turn n buf w line :
  let T := within buf 1024 in
  good w -> typed w line -> users buf 1024 -> has_lit T w "391OS> " -> has_lit T w "exit" ->
  (128 < fuel)%nat ->
  exists w', shell_loop lit_addr fuel (S n) buf w = shell_line n buf line w' /\
    after w w' (str_bytes "391OS> ") T /\ terminated NUL (chars w' buf) line.
Proof.
  intros T Hg Ht Hu Hp Hx Hf. destruct (law_line w line Ht) as [Hl Hc].
  destruct (print_shows T w "391OS> " Hg Hp) as (w1 & He1 & Ha1 & Hk1).
  destruct (read_line w1 line buf) as (w2 & He2 & Hnl & Hg2 & Ha3 & Hs3 & _);
    [apply Ha1 | by apply Hk1 | done |].
  set (w3 := st w2 (buf + Z.of_nat (length line)) NUL) in *.
  assert (Ha : after w w3 (str_bytes "391OS> ") T).
  { rewrite <- (app_nil_r (str_bytes "391OS> ")).
    by apply (after_trans w w1 w3 _ [] nowhere (within buf 1024) T). }
  exists w3. split; [| done].
  destruct (has_lit_after T T w w3 _ "exit" Hx Ha) as (Hex & _); [done |].
  cbn [shell_loop]. unfold u_bind at 1. rewrite He1. unfold u_bind at 1. rewrite He2.
  rewrite (proj2 (Z.eqb_neq _ (-1))) by lia. unfold u_gets at 1, u_bind at 1.
  replace (Z.of_nat (length line) + 1 - 1) with (Z.of_nat (length line)) by lia.
  rewrite Hnl, (proj2 (Z.ltb_lt 0 _)) by lia. cbn [andb]. rewrite Z.eqb_refl.
  unfold u_modify, u_bind at 1. fold w3. unfold ece391_strcmp, u_loop, u_bind at 1.
  rewrite (strcmp_loop _ _ line fuel (str_bytes "exit") 0); [| done | done | lia].
  unfold shell_line. pose proof (lex_diff_zero line (str_bytes "exit")
    (terminated_nonzero _ _ Hs3) (terminated_nonzero _ _ Hex)) as Hz.
  destruct (decide (line = str_bytes "exit")) as [-> | Hne].
  - by rewrite (proj2 Hz).
  - rewrite (proj2 (Z.eqb_neq _ 0)) by (by intros He; apply Hne, Hz). unfold u_gets, u_bind at 1.
    destruct line as [| c line].
    + destruct Hs3 as [_ Hz3]. cbn [length Z.of_nat] in Hz3. unfold chars in Hz3.
      rewrite Z.add_0_r in Hz3. by rewrite Hz3.
    + apply terminated_cons in Hs3 as (Hc0 & Hcn & _). unfold chars in Hc0.
      rewrite Z.add_0_r in Hc0. rewrite Hc0. by rewrite (proj2 (Z.eqb_neq c NUL)) by done.
Qed.

(** ** The programs *)

(** [cat] shows a file: with the name of a file as its argument, the
    program reads it in pieces of 1024 bytes and writes exactly its bytes to
    the terminal, changes no memory but its buffer, and returns 0. *)
Lemma cat_shows_file buf w name l :
  good w -> argument w name -> name <> [] -> named w name l -> users buf 1024 ->
  1024 <= limit -> (length l < fuel)%nat ->
  exists w', cat_main lit_addr fuel buf w = Returns 0 w' /\ after w w' l (within buf 1024).
Proof.
  intros Hg Ha Hne Hn Hu Hlim Hf.
  destruct (getargs_string w name buf Hg Ha Hne Hu) as (w1 & He1 & Ha1 & Ht1 & Hk1 & Hu1).
  destruct (law_open w1 buf name l) as (fd & w2 & He2 & Hfd & Ha2 & Hs2);
    [apply Ha1 | done | done | by apply Hk1 |].
  destruct (cat_loop_shows fd buf fuel w2 l (within buf 1024)) as (w3 & He3 & Ha3); try done.
  - apply Ha2.
  - pose proof (Hu 0 ltac:(lia)) as Hb. by rewrite Z.add_0_r in Hb.
  - exists w3. split.
    + unfold cat_main, u_bind. rewrite He1. cbn [Z.eqb negb]. rewrite He2.
      by rewrite (proj2 (Z.eqb_neq fd (-1)) Hfd).
    + apply (after_trans w w1 w3 [] l (within buf 1024) (within buf 1024)); try done.
      by apply (after_trans w1 w2 w3 [] l nowhere (within buf 1024)).
Qed.

(** [cat] of a name that no entry has prints "file not found", changes
    no memory but its buffer, and returns 2. *)
Lemma cat_reports_absent buf w name :
  good w -> argument w name -> name <> [] -> absent w name -> users buf 1024 ->
  has_lit (within buf 1024) w "file not found
" ->
  exists w', cat_main lit_addr fuel buf w = Returns 2 w' /\
    after w w' (str_bytes "file not found
") (within buf 1024).
Proof.
  intros Hg Ha Hne Hn Hu Hlit.
  destruct (getargs_string w name buf Hg Ha Hne Hu) as (w1 & He1 & Ha1 & Ht1 & Hk1 & Hu1).
  destruct (law_open_absent w1 buf name) as (w2 & He2 & Ha2);
    [apply Ha1 | done | done | by apply Hk1 |].
  assert (Hl2 : has_lit (within buf 1024) w2 "file not found
").
  { eapply has_lit_after; [eapply has_lit_after; [exact Hlit | exact Ha1 | done] | exact Ha2 | done]. }
  destruct (print_shows _ w2 _ (after_good _ _ _ _ Ha2) Hl2) as (w3 & He3 & Ha3 & _).
  exists w3. split.
  - unfold cat_main, u_bind. rewrite He1. cbn [Z.eqb negb]. rewrite He2. rewrite Z.eqb_refl.
    by rewrite He3.
  - apply (after_trans w w1 w3 [] _ (within buf 1024) nowhere); try done.
    by apply (after_trans w1 w2 w3 [] _ nowhere nowhere).
Qed.

(** [ls] lists the directory: it writes the name of every entry, each
    followed by a newline, in the order of the directory, and returns 0. *)
Lemma ls_shows_names buf w names :
  good w -> directory w names -> users buf 33 -> 33 <= limit -> (length names < fuel)%nat ->
  has_lit (within buf 33) w "." ->
  exists w', ls_main lit_addr fuel buf w = Returns 0 w' /\
    after w w' (concat ((fun nm => nm ++ [NEWLINE]) <$> names)) (within buf 33).
Proof.
  intros Hg Hd Hu Hlim Hf (Ht & Hul & _).
  destruct (law_open_dir w (lit_addr ".") names) as (fd & w1 & He1 & Hfd & Ha1 & Hl1); try done.
  destruct (ls_loop_shows fd buf fuel w1 names (within buf 33)) as (w2 & He2 & Ha2); try done;
    [apply Ha1 |].
  exists w2. split.
  - unfold ls_main, u_bind. rewrite He1. by rewrite (proj2 (Z.eqb_neq fd (-1)) Hfd).
  - by apply (after_trans w w1 w2 [] _ nowhere (within buf 33)).
Qed.

(** [hello] greets by name: it shows its question, and then the typed
    line after "Hello, ". *)
Lemma hello_greets buf w line :
  good w -> typed w line -> users buf 1024 -> (128 < fuel)%nat -> 128 <= limit ->
  has_lit (within buf 1024) w "Hi, what's your name? " -> has_lit (within buf 1024) w "Hello, " ->
  exists w', hello_main lit_addr fuel buf w = Returns 0 w' /\
    after w w' (str_bytes "Hi, what's your name? " ++ str_bytes "Hello, " ++ line ++ [NEWLINE])
      (within buf 1024).
Proof.
  intros Hg Ht Hu Hf Hlim Hq Hh. destruct (law_line w line Ht) as [Hl Hc].
  destruct (print_shows _ w _ Hg Hq) as (w1 & He1 & Ha1 & Hk1).
  destruct (read_line w1 line buf) as (w2 & He2 & _ & Hg2 & _ & _ & Ha2 & Hb2);
    [apply Ha1 | by apply Hk1 | done |].
  set (s := line ++ [NEWLINE]) in *.
  assert (Hs : length s = (length line + 1)%nat) by (unfold s; by rewrite length_app).
  destruct (law_store w2 (buf + Z.of_nat (length s)) NUL) as [Ha3 _]; [done | apply Hu; lia |].
  set (w3 := st w2 (buf + Z.of_nat (length s)) NUL) in *.
  assert (Ht3 : terminated NUL (chars w3 buf) s).
  { apply bytes_terminate; [done | | eapply users_sub; [exact Hu | lia | lia] | by rewrite Hs].
    apply Forall_app. split; [done |]. repeat constructor. }
  assert (Ha13 : after w1 w3 [] (within buf 1024)).
  { apply (after_trans w1 w2 w3 [] [] _ _ _ Ha2 Ha3); [done |]. intros x <-. unfold within. lia. }
  assert (Hh3 : has_lit (within buf 1024) w3 "Hello, ").
  { eapply has_lit_after; [eapply has_lit_after; [exact Hh | exact Ha1 | done] | exact Ha13 | done]. }
  destruct (print_shows _ w3 _ (after_good _ _ _ _ Ha13) Hh3) as (w4 & He4 & Ha4 & _).
  assert (Ht4 : terminated NUL (chars w4 buf) s).
  { eapply after_string; [exact Ha4 | eapply users_sub; [exact Hu | lia | lia] | intros i _ [] | done]. }
  destruct (fdputs_shows w4 buf s) as (w5 & He5 & Ha5 & _); try (done || lia);
    [apply Ha4 | eapply users_sub; [exact Hu | lia | lia] |].
  exists w5. split.
  - unfold hello_main, u_bind at 1. rewrite He1. unfold u_bind at 1. rewrite He2.
    rewrite (proj2 (Z.eqb_neq _ (-1))) by lia. unfold u_modify, u_bind at 1.
    replace (Z.of_nat (length line) + 1) with (Z.of_nat (length s)) by lia. fold w3.
    unfold u_bind at 1. rewrite He4. unfold u_bind. by rewrite He5.
  - pose proof (after_trans w3 w4 w5 _ _ _ _ nowhere Ha4 Ha5 (fun _ h => h) (fun _ h => h)) as Ha35.
    pose proof (after_trans w1 w3 w5 _ _ _ _ (within buf 1024) Ha13 Ha35 (fun _ h => h)
      (fun _ h => match h with end)) as Ha15.
    exact (after_trans w w1 w5 _ _ _ _ (within buf 1024) Ha1 Ha15 (fun _ h => match h with end)
      (fun _ h => h)).
Qed.
End verified.
