(* ===== verification/Kernel.v ===== *)
(** * kernel.c: the boot sequence

    [entry] of src/student-distrib/kernel.c: the Multiboot information that
    the loader passes (multiboot.h), the two system descriptors of the GDT
    (x86_desc.h), and the order in which the components are brought up
    before the first program is executed. *)

From S2P Require Import Prelude Memory Lib Paging Devices State Sample Console Filesys Terminal.
From S2P Require Import Syscall Scheduler Idt Printing.

(** ** multiboot.h *)

Definition MULTIBOOT_BOOTLOADER_MAGIC : Z := 0x2BADB002.

(** The fields of the structures, at their offsets. *)
Section multiboot.
Context {M : Type} `{MemOps M}.
Variable m : M.

Definition mbi_flags (mbi : Z) : Z := ld32 m mbi.
Definition mbi_mem_lower (mbi : Z) : Z := ld32 m (mbi + 4).
Definition mbi_mem_upper (mbi : Z) : Z := ld32 m (mbi + 8).
Definition mbi_boot_device (mbi : Z) : Z := ld32 m (mbi + 12).
Definition mbi_cmdline (mbi : Z) : Z := ld32 m (mbi + 16).
Definition mbi_mods_count (mbi : Z) : Z := ld32 m (mbi + 20).
Definition mbi_mods_addr (mbi : Z) : Z := ld32 m (mbi + 24).
Definition elf_num (mbi : Z) : Z := ld32 m (mbi + 28).
Definition elf_size (mbi : Z) : Z := ld32 m (mbi + 32).
Definition elf_addr (mbi : Z) : Z := ld32 m (mbi + 36).
Definition elf_shndx (mbi : Z) : Z := ld32 m (mbi + 40).
Definition mbi_mmap_length (mbi : Z) : Z := ld32 m (mbi + 44).
Definition mbi_mmap_addr (mbi : Z) : Z := ld32 m (mbi + 48).

(** [module_t], of 16 bytes. *)
Definition mod_start (p : Z) : Z := ld32 m p.
Definition mod_end (p : Z) : Z := ld32 m (p + 4).

(** [memory_map_t]. *)
Definition mmap_size (mmap : Z) : Z := ld32 m mmap.
Definition mmap_base_addr_low (mmap : Z) : Z := ld32 m (mmap + 4).
Definition mmap_base_addr_high (mmap : Z) : Z := ld32 m (mmap + 8).
Definition mmap_length_low (mmap : Z) : Z := ld32 m (mmap + 12).
Definition mmap_length_high (mmap : Z) : Z := ld32 m (mmap + 16).
Definition mmap_type (mmap : Z) : Z := ld32 m (mmap + 20).
End multiboot.

Definition CHECK_FLAG (flags bit : Z) : bool := negb (Z.land flags (Z.shiftl 1 bit) =? 0).

(** ** Printing the Multiboot information *)

Section info.
Variable fuel : nat.

(** A [printf] whose arguments are read from memory when it is called. *)
Definition print_fields (fmt : string) (args : list (vmem -> Z)) : C unit :=
  l <- gets (fun k => (fun a => a (mem k)) <$> args);;
  printf fuel (lit fmt) l;; ret tt.

Definition when (b : vmem -> bool) (c : C unit) : C unit :=
  go <- gets (fun k => b (mem k));; if go : bool then c else ret tt.

(** [for (i = 0; i < 16; i++) printf("0x%x ", ...);] a [char] is signed. *)
Fixpoint print_bytes (n : nat) (i p : Z) : C unit :=
  match n with
  | O => ret tt
  | S n' =>
      print_fields "0x%x " [fun m => u32 (lds8 m (mod_start m p + i))];;
      print_bytes n' (i + 1) p
  end.

Definition load_module (mod_count p : Z) : C unit :=
  print_fields "Module %d loaded at address: 0x%#x
" [fun _ => mod_count; fun m => mod_start m p];;
  print_fields "Module %d ends at address: 0x%#x
" [fun _ => mod_count; fun m => mod_end m p];;
  modify (fun k => fs_set_start_end (mod_start (mem k) p) (mod_end (mem k) p) k);;
  print_fields "First few bytes of module:
" [];;
  print_bytes 16 0 p;;
  print_fields "
" [].

(** [while (mod_count < mbi->mods_count)]: the comparison is unsigned. *)
Fixpoint load_modules (n : nat) (mbi mod_count p : Z) : C unit :=
  go <- gets (fun k => mod_count <? mbi_mods_count (mem k) mbi);;
  if go : bool then
    match n with
    | O => spin
    | S n' => load_module mod_count p;; load_modules n' mbi (u32 (mod_count + 1)) (p + 16)
    end
  else ret tt.

(** The loop over the memory map: each entry says where the next one is. *)
Fixpoint print_mmap (n : nat) (mbi mmap : Z) : C unit :=
  go <- gets (fun k => mmap <? u32 (mbi_mmap_addr (mem k) mbi + mbi_mmap_length (mem k) mbi));;
  if go : bool then
    match n with
    | O => spin
    | S n' =>
        print_fields "    size = 0x%x, base_addr = 0x%#x%#x
    type = 0x%x,  length    = 0x%#x%#x
" [fun m => mmap_size m mmap; fun m => mmap_base_addr_high m mmap;
   fun m => mmap_base_addr_low m mmap; fun m => mmap_type m mmap;
   fun m => mmap_length_high m mmap; fun m => mmap_length_low m mmap];;
        next <- gets (fun k => u32 (mmap + mmap_size (mem k) mmap + 4));;
        print_mmap n' mbi next
    end
  else ret tt.

(** [entry] up to the descriptors; [false] where it returns early. *)
Definition print_info (magic mbi : Z) : C bool :=
  modify clear;;
  if negb (magic =? MULTIBOOT_BOOTLOADER_MAGIC) then
    print_fields "Invalid magic number: 0x%#x
" [fun _ => magic];; ret false
  else
  let flag bit := fun m : vmem => CHECK_FLAG (mbi_flags m mbi) bit in
  print_fields "flags = 0x%#x
" [fun m => mbi_flags m mbi];;
  when (flag 0) (print_fields "mem_lower = %uKB, mem_upper = %uKB
" [fun m => mbi_mem_lower m mbi; fun m => mbi_mem_upper m mbi]);;
  when (flag 1) (print_fields "boot_device = 0x%#x
" [fun m => mbi_boot_device m mbi]);;
  when (flag 2) (print_fields "cmdline = %s
" [fun m => mbi_cmdline m mbi]);;
  when (flag 3) (p <- gets (fun k => mbi_mods_addr (mem k) mbi);; load_modules fuel mbi 0 p);;
  both <- gets (fun k => flag 4 (mem k) && flag 5 (mem k));;
  if both : bool then
    print_fields "Both bits 4 and 5 are set.
" [];; ret false
  else
  when (flag 5) (print_fields "elf_sec: num = %u, size = 0x%#x, addr = 0x%#x, shndx = 0x%#x
" [fun m => elf_num m mbi; fun m => elf_size m mbi; fun m => elf_addr m mbi;
   fun m => elf_shndx m mbi]);;
  when (flag 6)
    (print_fields "mmap_addr = 0x%#x, mmap_length = 0x%x
" [fun m => mbi_mmap_addr m mbi; fun m => mbi_mmap_length m mbi];;
     mmap <- gets (fun k => mbi_mmap_addr (mem k) mbi);; print_mmap fuel mbi mmap);;
  ret true.
End info.

(** ** x86_desc.h: segment descriptors *)

Definition KERNEL_TSS : Z := 0x0030.
Definition KERNEL_LDT : Z := 0x0038.
Definition TSS_SIZE : Z := 104.

Record seg_desc := SegDesc {
  seg_lim_15_00 : Z;
  base_15_00 : Z;
  base_23_16 : Z;
  seg_type : Z;
  seg_sys : Z;
  seg_dpl : Z;
  seg_present : Z;
  seg_lim_19_16 : Z;
  avail : Z;
  reserved : Z;
  opsize : Z;
  granularity : Z;
  base_31_24 : Z
}.

(** The two words [val] of the union. *)
Definition seg_val0 (d : seg_desc) : Z := seg_lim_15_00 d + Z.shiftl (base_15_00 d) 16.
Definition seg_val1 (d : seg_desc) : Z :=
  base_23_16 d +
  Z.shiftl (seg_type d + 16 * seg_sys d + 32 * seg_dpl d + 128 * seg_present d) 8 +
  Z.shiftl (seg_lim_19_16 d + 16 * avail d + 32 * reserved d + 64 * opsize d +
            128 * granularity d) 16 +
  Z.shiftl (base_31_24 d) 24.

(** [SET_LDT_PARAMS] and [SET_TSS_PARAMS] have the same body. *)
Definition SET_SEG_PARAMS (d : seg_desc) (addr lim : Z) : seg_desc :=
  SegDesc (Z.land lim 0x0000FFFF) (Z.land (u32 addr) 0x0000FFFF)
    (Z.shiftr (Z.land (u32 addr) 0x00FF0000) 16) (seg_type d) (seg_sys d) (seg_dpl d)
    (seg_present d) (Z.shiftr (Z.land lim 0x000F0000) 16) (avail d) (reserved d) (opsize d)
    (granularity d) (Z.shiftr (Z.land (u32 addr) 0xFF000000) 24).

(** The descriptor locals of [entry], from uninitialised ones. *)
Definition the_ldt_desc (d : seg_desc) (ldt ldt_size : Z) : seg_desc :=
  let d := SegDesc (seg_lim_15_00 d) (base_15_00 d) (base_23_16 d) 0x2 0x0 0x0 0x1
             (seg_lim_19_16 d) 0x0 0x0 0x1 0x0 (base_31_24 d) in
  SET_SEG_PARAMS d ldt ldt_size.

(** [seg_lim_19_16] is four bits wide. *)
Definition the_tss_desc (d : seg_desc) (tss tss_size : Z) : seg_desc :=
  let d := SegDesc (Z.land TSS_SIZE 0x0000FFFF) (base_15_00 d) (base_23_16 d) 0x9 0x0 0x0 0x1
             (Z.land TSS_SIZE 0x000F0000 mod 16) 0x0 0x0 0x0 0x0 (base_31_24 d) in
  SET_SEG_PARAMS d tss tss_size.

(** The descriptor tables: the two entries of the GDT that [entry] fills, the
    selector in the task state segment, the registers that name them, and
    the IDT. *)
Record tables := Tables {
  ldt_desc_ptr : seg_desc;
  tss_desc_ptr : seg_desc;
  ldtr : Z;
  tr : Z;
  ldt_segment_selector : Z;
  idt : list idt_desc
}.

(** [.long ldt_bottom - ldt - 1] and [.long tss_bottom - tss - 1] of
    x86_desc.S. *)
Definition ldt_size : Z := 4 * 8 - 1.
Definition tss_size : Z := 104 - 1.

Section entry.
Variable fuel : nat.
Variable junk : Z -> Z.
(** The addresses that the linker gave [ldt], [tss] and the handlers, and
    the contents of the uninitialised descriptors. *)
Variables ldt tss : Z.
Variable handler_addr : handler -> Z.
Variable junk_desc : seg_desc.

Definition load_ldt (t : tables) : tables :=
  Tables (the_ldt_desc junk_desc ldt ldt_size) (tss_desc_ptr t) KERNEL_LDT (tr t)
    (ldt_segment_selector t) (idt t).

Definition load_tss (t : tables) : tables :=
  Tables (ldt_desc_ptr t) (the_tss_desc junk_desc tss tss_size) (ldtr t) KERNEL_TSS
    KERNEL_LDT (idt t).

Definition load_tss_stack : kernel -> kernel :=
  upd_hw (fun h => set_tss_esp0 0x800000 (set_tss_ss0 KERNEL_DS h)).

Definition load_idt (t : tables) : tables :=
  Tables (ldt_desc_ptr t) (tss_desc_ptr t) (ldtr t) (tr t) (ldt_segment_selector t)
    (init_idt handler_addr (idt t)).

Definition upd_rtc (f : rtc_st -> rtc_st) (k : kernel) : kernel := set_rtc (f (rtc k)) k.

(** From [enable_irq] up to [system_execute]. *)
Definition init_system : C unit :=
  modify (upd_ports (enable_irq 1));;
  modify (upd_ports (enable_irq 0));;
  modify (upd_rtc rtc_int);;
  modify (upd_rtc (fun s => (rtc_open s).1));;
  terminal_open;;
  printf fuel (lit "Enabling Interrupts
") [];;
  modify sti;;
  modify (upd_mem setup_paging);;
  modify fs_init;;
  printf fuel (lit "Got to the end
") [];;
  modify my_clear;;
  modify setup_exec;;
  modify (upd_ports pit_init);;
  modify init_terminals;;
  modify scheduler_init.

(** The first program; [hlt; jmp .1] when there is none. *)
Definition bring_up : C unit := init_system;; execute_shell junk fuel;; spin.

Definition entry (magic addr : Z) (t : tables) (k : kernel) : tables * outcome unit :=
  match print_info fuel magic addr k with
  | Ret true k1 =>
      let t := load_tss (load_ldt t) in
      let k1 := upd_ports i8259_init (load_tss_stack k1) in
      (load_idt t, bring_up k1)
  | Ret false k1 => (t, Ret tt k1)
  | Leave e k1 => (t, Leave e k1)
  | Spin k1 => (t, Spin k1)
  | Fault k1 => (t, Fault k1)
  end.
End entry.

(** ** Descriptors as the processor reads them *)

(** The base, the limit and the access byte of a descriptor's two words, by
    the layout of the IA-32 manual that x86_desc.S quotes. *)
Definition hw_base (v0 v1 : Z) : Z :=
  v0 / 2 ^ 16 + (v1 mod 2 ^ 8) * 2 ^ 16 + (v1 / 2 ^ 24) * 2 ^ 24.
Definition hw_limit (v0 v1 : Z) : Z := v0 mod 2 ^ 16 + (v1 / 2 ^ 16 mod 2 ^ 4) * 2 ^ 16.
Definition hw_access (v1 : Z) : Z := v1 / 2 ^ 8 mod 2 ^ 8.

(** A field cut out of a word by a mask and a shift. *)
Lemma mask_shift x a n : 0 <= a -> 0 <= n ->
  Z.shiftr (Z.land x (Z.shiftl (Z.ones n) a)) a = x / 2 ^ a mod 2 ^ n.
Proof.
  intros Ha Hn. rewrite Z.shiftr_land, Z.shiftr_shiftl_l by lia.
  rewrite Z.sub_diag, Z.shiftl_0_r, Z.land_ones, Z.shiftr_div_pow2 by lia. done.
Qed.

Lemma seg_params_spec d addr lim :
  let d' := SET_SEG_PARAMS d addr lim in
  seg_lim_15_00 d' = lim mod 2 ^ 16 /\ seg_lim_19_16 d' = lim / 2 ^ 16 mod 2 ^ 4 /\
  base_15_00 d' = u32 addr mod 2 ^ 16 /\ base_23_16 d' = u32 addr / 2 ^ 16 mod 2 ^ 8 /\
  base_31_24 d' = u32 addr / 2 ^ 24 mod 2 ^ 8.
Proof.
  cbv zeta. cbn [seg_lim_15_00 seg_lim_19_16 base_15_00 base_23_16 base_31_24 SET_SEG_PARAMS].
  split_and!.
  - apply (Z.land_ones lim 16). lia.
  - apply (mask_shift lim 16 4); lia.
  - apply (Z.land_ones (u32 addr) 16). lia.
  - apply (mask_shift (u32 addr) 16 8); lia.
  - apply (mask_shift (u32 addr) 24 8); lia.
Qed.

(** A descriptor set by the macro, with its access byte [acc] and flags in
    range, as the processor decodes it. *)
Lemma seg_params_decode d addr lim :
  0 <= seg_type d < 16 -> 0 <= seg_sys d < 2 -> 0 <= seg_dpl d < 4 -> 0 <= seg_present d < 2 ->
  0 <= avail d + 2 * reserved d + 4 * opsize d + 8 * granularity d < 16 ->
  let d' := SET_SEG_PARAMS d addr lim in
  hw_base (seg_val0 d') (seg_val1 d') = u32 addr /\
  hw_limit (seg_val0 d') (seg_val1 d') = lim mod 2 ^ 20 /\
  hw_access (seg_val1 d') = seg_type d + 16 * seg_sys d + 32 * seg_dpl d + 128 * seg_present d.
Proof.
  intros Ht Hs Hd Hp Hf d'. destruct (seg_params_spec d addr lim) as (E1 & E2 & E3 & E4 & E5).
  fold d' in E1, E2, E3, E4, E5. unfold seg_val0, seg_val1. rewrite E1, E2, E3, E4, E5.
  change (seg_type d') with (seg_type d). change (seg_sys d') with (seg_sys d).
  change (seg_dpl d') with (seg_dpl d). change (seg_present d') with (seg_present d).
  change (avail d') with (avail d). change (reserved d') with (reserved d).
  change (opsize d') with (opsize d). change (granularity d') with (granularity d).
  rewrite !Z.shiftl_mul_pow2 by lia. unfold hw_base, hw_limit, hw_access.
  set (acc := seg_type d + _ + _ + _). set (fl := avail d + _ + _ + _) in Hf.
  replace (lim / 2 ^ 16 mod 2 ^ 4 + 16 * avail d + 32 * reserved d + 64 * opsize d + 128 * granularity d)
    with (lim / 2 ^ 16 mod 2 ^ 4 + 16 * fl) by (unfold fl; lia).
  assert (Hacc : 0 <= acc < 256) by (unfold acc; lia). clearbody acc fl.
  pose proof (u32_range addr) as Ha. revert Ha. generalize (u32 addr). intros a Ha.
  change (2 ^ 16) with 65536. change (2 ^ 24) with 16777216. change (2 ^ 20) with 1048576.
  change (2 ^ 8) with 256. change (2 ^ 4) with 16. clear -Ha Hacc Hf.
  split; [| split]; Z.div_mod_to_equations; lia.
Qed.

(** ** Memory before and behind paging *)

(** Behind the tables that [setup_paging] builds, the kernel's page and the
    visible page read as they did without paging. *)
Lemma setup_paging_loc m a :
  tables_wf m -> in_kernel a \/ within VIDEO 4000 a -> loc (setup_paging m) a = Some a.
Proof.
  intros Hw Ha. cbn [loc vmem_ops].
  assert (Hu : u32 a = a).
  { apply u32_small. unfold in_kernel, within, UNIT_4_MB, UNIT_8_MB, VIDEO in Ha. lia. }
  rewrite setup_paging_xlate, Hu by done.
  rewrite decide_True; [done |]. unfold in_kernel, within, UNIT_4_MB, UNIT_8_MB, VIDEO in Ha. lia.
Qed.

Lemma setup_paging_region m : tables_wf m -> region (setup_paging m) VIDEO 4000.
Proof.
  intros Hw.
  assert (Hl : forall i, 0 <= i < 4000 -> loc (setup_paging m) (VIDEO + i) = Some (VIDEO + i)).
  { intros i Hi. apply setup_paging_loc; [done |]. right. unfold within. lia. }
  split.
  - intros i Hi. rewrite Hl by lia. by eexists.
  - intros i j Hi Hj. rewrite !Hl by lia. intros [= He]. lia.
Qed.

Lemma unpaged_ld m a : paging_on m = false -> ld m a = u8 (default 0 (ram m !! u32 a)).
Proof. intros Hp. cbn [ld vmem_ops]. unfold xlate. by rewrite Hp. Qed.

Lemma setup_paging_ld m a :
  tables_wf m -> paging_on m = false -> in_kernel a -> ld (setup_paging m) a = ld m a.
Proof.
  intros Hw Hp Ha. rewrite (unpaged_ld m a) by done.
  rewrite u32_small by (unfold in_kernel, UNIT_4_MB, UNIT_8_MB in Ha; lia).
  pose proof (setup_paging_loc m a Hw (or_introl Ha)) as Hl. cbn [loc ld vmem_ops] in *.
  by rewrite Hl.
Qed.

(** The kernel's page is not the visible one. *)
Lemma kernel_off_screen m a :
  paging_on m = false \/ (exists m', tables_wf m' /\ m = setup_paging m') -> in_kernel a ->
  off_screen m a.
Proof.
  intros Hm Ha i Hi. assert (Hb : in_kernel a /\ 0 <= i < 4000) by done.
  unfold in_kernel, UNIT_4_MB, UNIT_8_MB in Hb.
  destruct Hm as [Hp | (m' & Hw & ->)].
  - cbn [loc vmem_ops]. unfold xlate. rewrite Hp. cbn [negb]. unfold VIDEO.
    rewrite !u32_small by lia. intros [= ?]. lia.
  - rewrite !setup_paging_loc by (done || (by left) || (right; unfold within; lia)).
    unfold VIDEO. intros [= ?]. lia.
Qed.

Lemma setup_paging_kernel m : length (page_dir m) = DIR_SIZE -> kernel_mapped (setup_paging m).
Proof.
  intros Hd. unfold DIR_SIZE in Hd.
  unfold kernel_mapped, setup_paging, init_page_map, init_page_table, init_page_directory. psimpl.
  rewrite !length_arr_set, length_for_loop_set. split_and!; [done | done |].
  rewrite arr_get_set_eq; [done |]. rewrite length_arr_set, length_for_loop_set, Hd.
  unfold KERNEL_IDX. lia.
Qed.

Lemma kernel_mapped_ram r m : kernel_mapped m -> kernel_mapped (set_ram r m).
Proof. done. Qed.

(** ** The devices after the boot *)

(** What [init_system] does to the clock and the ports before it opens the
    terminal. *)
Definition devices_on (r : rtc_st) : rtc_st :=
  (rtc_open (rtc_int (Rtc (rtc_flag r) (enable_irq 0 (enable_irq 1 (rtc_ports r)))))).1.

(** The devices between the ports [p] before the boot and [pd] after it: the
    controllers deliver vectors 0x20 to 0x2F and let exactly the lines of
    the timer (0), the keyboard (1), the slave (2) and the clock (8) through;
    register A of the clock holds its rate, and bit 6 of register B is set
    and no other changed; the timer counts down from 39772, 30 times a
    second.  The first two hold of ports behind which the controllers and
    the clock answer a read as their documents say. *)
Record devices_up (p pd : ports) : Prop := DevicesUp {
  up_pics : pic_answers p ->
    pic_after MASTER_8259_PORT (trace pd) = Pic 0xF8 0x20 O /\
    pic_after SLAVE_8259_PORT (trace pd) = Pic 0xFE 0x28 O;
  up_clock : forall s0, rtc_answers s0 p ->
    let old := clk_reg (rtc_after s0 (trace p)) 0xB in
    let new := rtc_after s0 (trace pd) in 0 <= old < 256 ->
    clk_reg new 0xA = 0x2F /\
    forall i, 0 <= i < 8 -> Z.testbit (clk_reg new 0xB) i = Z.testbit old i || (i =? 6);
  up_timer : pit_after (trace pd) = Pit 0x36 None 39772
}.

Lemma accessed_pic_answers P p p' : accessed P p p' -> pic_answers p -> pic_answers p'.
Proof. intros [He _] Ha tr c Hc. rewrite He. by apply Ha. Qed.

Lemma accessed_rtc_answers P s0 p p' : accessed P p p' -> rtc_answers s0 p -> rtc_answers s0 p'.
Proof. intros [He _] Ha tr. rewrite He. apply Ha. Qed.

(** None of the ports of the cursor, the clock and the timer is a
    controller's; none of those of the cursor, the controllers and the timer
    is the clock's. *)
Ltac other_port :=
  unfold cursor_port, pic_port, clock_port, CURSOR_INDEX, RTC_PORT, CMOS_PORT, PIT_PORT_1, PIT_PORT_2,
    MASTER_8259_PORT, SLAVE_8259_PORT; lia.

Lemma devices_on_pics r :
  pic_answers (rtc_ports r) ->
  let r' := devices_on (Rtc (rtc_flag r) (i8259_init (rtc_ports r))) in
  pic_after MASTER_8259_PORT (trace (rtc_ports r')) = Pic 0xF8 0x20 O /\
  pic_after SLAVE_8259_PORT (trace (rtc_ports r')) = Pic 0xFE 0x28 O.
Proof.
  intros Ha. cbv zeta. destruct r as [fl pa]. cbn [rtc_flag rtc_ports] in *.
  destruct (i8259_init_masks pa Ha) as [HM HS].
  set (p0 := i8259_init pa) in *.
  pose proof (accessed_pic_answers _ _ _ (i8259_init_accessed pa) Ha) as A0. fold p0 in A0.
  unfold devices_on. cbn [rtc_flag rtc_ports].
  destruct (enable_irq_exact p0 1 0xFB 0x20 A0) as (M1 & S1 & E1); [lia | lia | exact HM |].
  set (p1 := enable_irq 1 p0) in *. assert (A1 : pic_answers p1) by (intros tr c; rewrite E1; apply A0).
  destruct (enable_irq_exact p1 0 0xF9 0x20 A1) as (M2 & S2 & E2); [lia | lia | exact M1 |].
  set (p2 := enable_irq 0 p1) in *. assert (A2 : pic_answers p2) by (intros tr c; rewrite E2; apply A1).
  assert (S0 : pic_after SLAVE_8259_PORT (trace p2) = Pic 0xFF 0x28 O)
    by by rewrite S2, S1 by ((by right) || done).
  destruct (enable_irq_exact p2 8 0xFF 0x28 A2) as (S3 & M3 & _); [lia | lia | exact S0 |].
  pose proof (accessed_trans _ _ _ _ (rtc_int_after (Rtc fl p2)) (rtc_open_accessed (rtc_int (Rtc fl p2)))) as Hd.
  cbn [rtc_ports] in Hd. change (enable_irq IRQ_8 p2) with (enable_irq 8 p2) in Hd.
  split; rewrite (accessed_pic _ _ _ _ Hd) by other_port; [| exact S3].
  rewrite M3 by ((by left) || done). exact M2.
Qed.

Lemma devices_on_clock s0 r :
  rtc_answers s0 (rtc_ports r) ->
  let old := clk_reg (rtc_after s0 (trace (rtc_ports r))) 0xB in
  let new := rtc_after s0 (trace (rtc_ports (devices_on r))) in 0 <= old < 256 ->
  clk_reg new 0xA = 0x2F /\
  forall i, 0 <= i < 8 -> Z.testbit (clk_reg new 0xB) i = Z.testbit old i || (i =? 6).
Proof.
  intros Ha. cbv zeta. destruct r as [fl p]. unfold devices_on. cbn [rtc_flag rtc_ports] in *.
  pose proof (accessed_trans _ _ _ _ (enable_irq_accessed 1 p ltac:(lia))
    (enable_irq_accessed 0 (enable_irq 1 p) ltac:(lia))) as Hp.
  set (p2 := enable_irq 0 (enable_irq 1 p)) in *.
  rewrite <- (accessed_rtc _ s0 _ _ Hp) by other_port. intros Hold.
  rewrite !rtc_open_rate. rewrite decide_True, decide_False by done. split; [done |].
  apply (rtc_int_enables s0 (Rtc fl p2)); [exact (accessed_rtc_answers _ _ _ _ Hp Ha) | exact Hold].
Qed.

(** The whole way: [print_info] moves the cursor, [entry] programs the
    controllers, [init_system] the lines, the clock and, after it has printed,
    the timer. *)
Lemma boot_devices_up p pa fl pb :
  accessed cursor_port p pa ->
  accessed cursor_port (rtc_ports (devices_on (Rtc fl (i8259_init pa)))) pb ->
  devices_up p (pit_init pb).
Proof.
  intros H1 H2. pose proof (pit_init_accessed pb) as H3. split; [| | reflexivity].
  - intros Ha. destruct (devices_on_pics (Rtc fl pa)) as [HM HS]; [by apply (accessed_pic_answers _ _ _ H1) |].
    rewrite !(accessed_pic _ _ _ _ H3), !(accessed_pic _ _ _ _ H2) by other_port. done.
  - intros s0 Ha. cbv zeta. pose proof (accessed_trans _ _ _ _
      (accessed_weaken _ (fun x => cursor_port x \/ pic_port x) _ _ (fun x Hx => or_introl Hx) H1)
      (accessed_weaken _ (fun x => cursor_port x \/ pic_port x) _ _ (fun x Hx => or_intror Hx) (i8259_init_accessed pa))) as H0.
    rewrite !(accessed_rtc _ _ _ _ H3), !(accessed_rtc _ _ _ _ H2), <- !(accessed_rtc _ _ _ _ H0) by other_port.
    apply (devices_on_clock s0 (Rtc fl (i8259_init pa))). exact (accessed_rtc_answers _ _ _ _ H0 Ha).
Qed.

(** ** Printing with arguments from memory *)

(** A format of [n] conversions, none of them [%s]. *)
Definition plain (fmt : string) (n : nat) : bool :=
  forallb (fun c => 0 <? c) (str_bytes fmt) && (length (str_bytes fmt) <? 100)%nat &&
  match conversions false (str_bytes fmt) with
  | Some cs => (length cs =? n)%nat && forallb (fun c => negb (c =? 115)) cs
  | None => false
  end.

(** No address of a range is on the visible page. *)
Definition off_area (m : vmem) (a n : Z) : Prop := forall i, 0 <= i < n -> off_screen m (a + i).

Lemma off_area_prints k k' a n : prints k k' -> off_area (mem k) a n -> off_area (mem k') a n.
Proof. intros Hp Ho i Hi j Hj. rewrite !(prints_loc k k' Hp). by apply Ho. Qed.

Lemma off_area_sub m a n b c :
  off_area m a n -> a <= b -> b + c <= a + n -> off_area m b c.
Proof.
  intros Ho Hb Hc i Hi. replace (b + i) with (a + (b - a + i)) by lia. apply Ho. lia.
Qed.

(** A word that is not on the visible page reads as before. *)
Lemma ld32_prints k k' a : prints k k' -> off_area (mem k) a 4 -> ld32 (mem k') a = ld32 (mem k) a.
Proof.
  intros Hp Ho. pose proof (Ho 0 ltac:(lia)) as H0. rewrite Z.add_0_r in H0. unfold ld32.
  rewrite !(prints_ld k k') by (done || apply Ho; lia). done.
Qed.

(** A printed state whose file-system addresses were set. *)
Lemma prints_set_fs f k k' : prints k k' -> prints (set_fs f k) (set_fs f k').
Proof. intros []. by split. Qed.

Lemma prints_fs_trans f g k k1 k2 :
  prints (set_fs f k) k1 -> prints (set_fs g k1) k2 -> prints (set_fs g k) k2.
Proof. intros H1 H2. apply (prints_trans _ (set_fs g k1)); [by apply (prints_set_fs g) in H1 | done]. Qed.

Section printing.
Variable fuel : nat.
Hypothesis Hfuel : (100 < fuel)%nat.

Lemma print_numbers fmt args k :
  ready k -> plain fmt (length args) = true ->
  exists k', print_fields fuel fmt args k = Ret tt k' /\ prints k k'.
Proof.
  unfold plain. intros Hr Hp. apply andb_prop in Hp as [Hp Hc]. apply andb_prop in Hp as [Hpos Hlen].
  apply Nat.ltb_lt in Hlen. destruct (conversions false (str_bytes fmt)) as [cs |] eqn:Hcs; [| done].
  apply andb_prop in Hc as [Hn Hno]. apply Nat.eqb_eq in Hn.
  destruct (printf_prints fuel ltac:(lia) fmt ((fun a => a (mem k)) <$> args) k cs)
    as (r & k' & He & Hk); [done | | lia | done | |].
  - apply Forall_forall. intros c Hi. rewrite forallb_forall in Hpos.
    apply Z.ltb_lt, Hpos, list_elem_of_In, Hi.
  - apply Forall2_same_length_lookup. split; [by rewrite length_fmap |].
    intros i c a Hi _ ->. rewrite forallb_forall in Hno.
    assert (Hin : List.In 115 cs) by (apply list_elem_of_In; by eapply list_elem_of_lookup_2).
    by specialize (Hno _ Hin).
  - exists k'. unfold print_fields, gets, bind. by rewrite He.
Qed.

(** One [print_fields] of numbers, then the rest. *)
Lemma print_then {A} fmt args (c : C A) k (P : outcome A -> Prop) :
  ready k -> plain fmt (length args) = true ->
  (forall k', prints k k' -> P (c k')) -> P ((print_fields fuel fmt args;; c) k).
Proof.
  intros Hr Hf Hc. destruct (print_numbers fmt args k Hr Hf) as (k' & He & Hp).
  unfold bind at 1. rewrite He. by apply Hc.
Qed.

(** The outcome of a phase that sets the file system to [g] and prints. *)
Definition phase (g : filesys) (k : kernel) (o : outcome unit) : Prop :=
  exists k', o = Ret tt k' /\ prints (set_fs g k) k'.

Lemma prints_phase k k' : prints k k' -> phase (fs k) k (Ret tt k').
Proof. intros Hp. exists k'. split; [done |]. by destruct k. Qed.

Lemma phase_trans g k k1 o : prints k k1 -> phase g k1 o -> phase g k o.
Proof.
  intros H1 (k' & -> & H2). exists k'. split; [done |].
  apply (prints_trans _ (set_fs g k1)); [by apply prints_set_fs | done].
Qed.

(** A phase, then a continuation from the state it leaves. *)
Lemma phase_bind {A} g k (c : C unit) (f : unit -> C A) (P : outcome A -> Prop) :
  phase g k (c k) -> (forall k', prints (set_fs g k) k' -> P (f tt k')) -> P (bind c f k).
Proof. intros (k' & He & Hp) Hf. unfold bind. rewrite He. by apply Hf. Qed.

Lemma print_bytes_phase n : forall i p k, ready k -> phase (fs k) k (print_bytes fuel n i p k).
Proof.
  induction n as [| n IH]; intros i p k Hr; cbn [print_bytes].
  - apply prints_phase. by apply prints_refl.
  - apply print_then; [done | reflexivity |]. intros k' Hp.
    apply (phase_trans _ _ k'); [done |]. rewrite <- (prints_fs k k' Hp). apply IH, Hp.
Qed.

(** What a module leaves in the two addresses. *)
Definition module_fs (m : vmem) (p : Z) (f : filesys) : filesys :=
  set_FS_END_ADDR (mod_end m p) (set_FS_START_ADDR (mod_start m p) f).

Lemma load_module_phase c p k :
  ready k -> off_area (mem k) p 8 -> phase (module_fs (mem k) p (fs k)) k (load_module fuel c p k).
Proof.
  intros Hr Ho. unfold load_module.
  apply print_then; [done | reflexivity |]. intros k1 H1.
  apply print_then; [apply H1 | reflexivity |]. intros k2 H2.
  assert (H12 : prints k k2) by by apply (prints_trans k k1).
  unfold bind at 1, modify.
  assert (Hfs : fs_set_start_end (mod_start (mem k2) p) (mod_end (mem k2) p) k2
                = set_fs (module_fs (mem k) p (fs k)) k2).
  { unfold mod_start, mod_end. rewrite !(ld32_prints k k2) by (done || by eapply off_area_sub; [exact Ho | lia | lia]).
    unfold module_fs, mod_start, mod_end. rewrite <- (prints_fs k k2 H12). by destruct k2. }
  rewrite Hfs. clear Hfs. set (g := module_fs (mem k) p (fs k)).
  assert (Hg : prints (set_fs g k) (set_fs g k2)) by by apply prints_set_fs.
  apply print_then; [apply Hg | reflexivity |]. intros k3 H3.
  apply (phase_bind (fs k3)); [apply print_bytes_phase, H3 |]. intros k4 H4.
  destruct (print_numbers "
" [] k4) as (k5 & -> & H5); [apply H4 | reflexivity |].
  exists k5. split; [done |]. apply (prints_trans _ (set_fs g k2)); [done |].
  apply (prints_trans _ k3); [done |]. apply (prints_trans _ k4); [| done]. by destruct k3.
Qed.

(** What [d] modules from [p] leave: the addresses of the last one. *)
Definition modules_fs (m : vmem) (f : filesys) (p : Z) (d : nat) : filesys :=
  match d with O => f | S d' => module_fs m (p + 16 * Z.of_nat d') f end.

Lemma module_fs_prints k k' p f :
  prints k k' -> off_area (mem k) p 8 -> module_fs (mem k') p f = module_fs (mem k) p f.
Proof.
  intros Hp Ho. unfold module_fs, mod_start, mod_end.
  by rewrite !(ld32_prints k k') by (done || by eapply off_area_sub; [exact Ho | lia | lia]).
Qed.

Lemma load_modules_phase mbi d : forall nf c p k,
  ready k -> off_area (mem k) (mbi + 20) 4 -> off_area (mem k) p (16 * Z.of_nat d) ->
  0 <= c -> c + Z.of_nat d = mbi_mods_count (mem k) mbi -> (d <= nf)%nat ->
  phase (modules_fs (mem k) (fs k) p d) k (load_modules fuel nf mbi c p k).
Proof.
  induction d as [| d IH]; intros nf c p k Hr Hm Ho Hc Hn Hf;
    destruct nf as [| nf]; try lia; cbn [load_modules]; unfold gets, bind at 1.
  - rewrite (proj2 (Z.ltb_ge _ _)) by lia. apply prints_phase. by apply prints_refl.
  - rewrite (proj2 (Z.ltb_ge _ _)) by lia. apply prints_phase. by apply prints_refl.
  - rewrite (proj2 (Z.ltb_lt _ _)) by lia.
    apply (phase_bind (module_fs (mem k) p (fs k)));
      [apply load_module_phase; [done | by eapply off_area_sub; [exact Ho | lia | lia]] |].
    intros k1 H1. pose proof (ld32_range (mem k) (mbi + 20)) as Hu. unfold mbi_mods_count in *.
    rewrite u32_small by lia.
    destruct (IH nf (c + 1) (p + 16) k1) as (k2 & He & H2).
    + apply H1.
    + by apply (off_area_prints _ _ _ _ H1).
    + apply (off_area_prints _ _ _ _ H1). cbn [mem set_fs]. eapply off_area_sub; [exact Ho | lia | lia].
    + lia.
    + rewrite (ld32_prints _ _ _ H1); [cbn [mem set_fs]; lia | exact Hm].
    + lia.
    + exists k2. split; [exact He |]. eapply prints_fs_trans; [exact H1 |].
      enough (modules_fs (mem k1) (fs k1) (p + 16) d = modules_fs (mem k) (fs k) p (S d)) as <- by done.
      rewrite (prints_fs _ _ H1). cbn [fs set_fs]. destruct d as [| d]; cbn [modules_fs].
      * by rewrite Z.mul_0_r, Z.add_0_r.
      * replace (p + 16 + 16 * Z.of_nat d) with (p + 16 * Z.of_nat (S d)) by lia.
        rewrite (module_fs_prints _ _ _ _ H1); [done |]. cbn [mem set_fs].
        eapply off_area_sub; [exact Ho | lia | lia].
Qed.

(** The walk over the memory map ends within [n] entries, none of which is
    on the visible page. *)
Fixpoint mmap_ends (n : nat) (m : vmem) (stop mmap : Z) : Prop :=
  stop <= mmap \/
  match n with
  | O => False
  | S n' => off_area m mmap 24 /\ mmap_ends n' m stop (u32 (mmap + mmap_size m mmap + 4))
  end.

Lemma mmap_ends_prints n k k' stop : prints k k' -> forall mmap,
  mmap_ends n (mem k) stop mmap -> mmap_ends n (mem k') stop mmap.
Proof.
  intros Hp. induction n as [| n IH]; intros mmap [Hs | Hw]; [by left | done | by left |].
  right. destruct Hw as [Ho Hw]. split; [by apply (off_area_prints k) |].
  unfold mmap_size. rewrite (ld32_prints k k'); [by apply IH | done |].
  eapply off_area_sub; [exact Ho | lia | lia].
Qed.

Definition mmap_stop (m : vmem) (mbi : Z) : Z := u32 (mbi_mmap_addr m mbi + mbi_mmap_length m mbi).

Lemma print_mmap_phase mbi n : forall nf mmap k,
  ready k -> off_area (mem k) (mbi + 44) 8 -> mmap_ends n (mem k) (mmap_stop (mem k) mbi) mmap ->
  (n <= nf)%nat -> phase (fs k) k (print_mmap fuel nf mbi mmap k).
Proof.
  induction n as [| n IH]; intros nf mmap k Hr Ho He Hn;
    destruct nf as [| nf]; try lia; cbn [print_mmap]; unfold gets, bind at 1;
    fold (mmap_stop (mem k) mbi); destruct (Z.ltb_spec mmap (mmap_stop (mem k) mbi)) as [Hlt | Hge];
    try (apply prints_phase; by apply prints_refl); destruct He as [He | He]; try done; try lia.
  destruct He as [Hom He]. apply print_then; [done | reflexivity |]. intros k1 H1.
  unfold bind. rewrite <- (prints_fs k k1 H1). apply (phase_trans _ _ k1); [done |].
  assert (Hstop : mmap_stop (mem k1) mbi = mmap_stop (mem k) mbi).
  { unfold mmap_stop, mbi_mmap_addr, mbi_mmap_length.
    by rewrite !(ld32_prints k k1) by (done || by eapply off_area_sub; [exact Ho | lia | lia]). }
  apply IH; [apply H1 | by apply (off_area_prints k) | | lia].
  rewrite Hstop. apply (mmap_ends_prints n k k1); [done |].
  unfold mmap_size in *. rewrite (ld32_prints k k1); [exact He | done |].
  eapply off_area_sub; [exact Hom | lia | lia].
Qed.

(** What the Multiboot information must be for [entry] to get past it: it
    lies off the visible page with everything it points to, bits 4 and 5 are
    not both set, and its lists have at most [n] entries. *)
Record boot_info (m : vmem) (mbi : Z) (n : nat) : Prop := BootInfo {
  bi_area : off_area m mbi 52;
  bi_bits : CHECK_FLAG (mbi_flags m mbi) 4 && CHECK_FLAG (mbi_flags m mbi) 5 = false;
  bi_cmdline : CHECK_FLAG (mbi_flags m mbi) 2 = true ->
    exists l, (length l < n)%nat /\ terminated NUL (chars m (mbi_cmdline m mbi)) l /\
      off_area m (mbi_cmdline m mbi) (Z.of_nat (length l) + 1);
  bi_modules : CHECK_FLAG (mbi_flags m mbi) 3 = true ->
    mbi_mods_count m mbi < Z.of_nat n /\ off_area m (mbi_mods_addr m mbi) (16 * mbi_mods_count m mbi);
  bi_mmap : CHECK_FLAG (mbi_flags m mbi) 6 = true ->
    mmap_ends n m (mmap_stop m mbi) (mbi_mmap_addr m mbi)
}.

(** The file system's addresses after the modules were looked at. *)
Definition info_fs (m : vmem) (mbi : Z) (f : filesys) : filesys :=
  if CHECK_FLAG (mbi_flags m mbi) 3
  then modules_fs m f (mbi_mods_addr m mbi) (Z.to_nat (mbi_mods_count m mbi)) else f.

Lemma clear_cells_spec color m :
  region m VIDEO 4000 ->
  (exists r, clear_cells color m = set_ram r m) /\
  same_outside m (clear_cells color m) VIDEO 4000.
Proof.
  intros Hr. unfold clear_cells.
  assert (Hst : forall o v m1, (exists r, m1 = set_ram r m) -> same_outside m m1 VIDEO 4000 ->
    0 <= o < 4000 -> (exists r, st m1 (VIDEO + o) v = set_ram r m) /\
    same_outside m (st m1 (VIDEO + o) v) VIDEO 4000).
  { intros o v m1 [r ->] Hs Ho. split.
    - destruct (st_ram (set_ram r m) (VIDEO + o) v) as [r' ->]. by exists r'.
    - intros b Hb. rewrite ld_st_ne; [by apply Hs | | by apply (Hb o)].
      by apply (proj1 Hr). }
  apply (for_loop_inv (fun i m' => i <= 2000 -> (exists r, m' = set_ram r m) /\
    same_outside m m' VIDEO 4000)); [| | done].
  - intros _. split; [exists (ram m); by destruct m | done].
  - intros i m1 Hi IH Hle. change (Z.to_nat (NUM_ROWS * NUM_COLS)) with 2000%nat in Hi.
    destruct IH as [H1 H2]; [lia |]. rewrite Z.shiftl_mul_pow2 by lia.
    rewrite <- Z.add_assoc. change (2 ^ 1) with 2.
    edestruct (Hst (i * 2)) as [H3 H4]; [exact H1 | exact H2 | lia |].
    eapply Hst; [exact H3 | exact H4 | lia].
Qed.

(** Every cell of the visible page is a space in the colour [color]. *)
Definition blank (color : Z) (m : vmem) : Prop :=
  forall i, 0 <= i < 2000 -> ld m (VIDEO + 2 * i) = 32 /\ ld m (VIDEO + 2 * i + 1) = color.

Lemma clear_cells_blank color m :
  region m VIDEO 4000 -> 0 <= color < 256 -> blank color (clear_cells color m).
Proof.
  intros Hr Hcol. unfold clear_cells.
  assert (Hst : forall m1 o v x, (exists r, m1 = set_ram r m) -> 0 <= o < 4000 -> 0 <= x < 4000 -> x <> o ->
    ld (st m1 (VIDEO + o) v) (VIDEO + x) = ld m1 (VIDEO + x)).
  { intros m1 o v x [r ->] Ho Hx Hne. apply ld_st_ne; [by apply (proj1 Hr) |]. intros He. apply Hne.
    by apply (proj2 Hr). }
  assert (Heq : forall m1 o v, (exists r, m1 = set_ram r m) -> 0 <= o < 4000 -> 0 <= v < 256 ->
    ld (st m1 (VIDEO + o) v) (VIDEO + o) = v).
  { intros m1 o v [r ->] Ho Hv. rewrite ld_st_eq by by apply (proj1 Hr). by apply u8_small. }
  assert (Hram : forall m1 o v, (exists r, m1 = set_ram r m) -> exists r, st m1 o v = set_ram r m).
  { intros m1 o v [r ->]. destruct (st_ram (set_ram r m) o v) as [r' ->]. by exists r'. }
  pose (P := fun j m' => j <= 2000 -> (exists r, m' = set_ram r m) /\
    forall i, 0 <= i < j -> ld m' (VIDEO + 2 * i) = 32 /\ ld m' (VIDEO + 2 * i + 1) = color).
  match goal with |- blank _ (for_loop ?n _ ?f _) => assert (HP : P (0 + Z.of_nat n) (for_loop n 0 f m)) end.
  2: { intros i Hi. apply HP; [by compute | exact Hi]. }
  apply for_loop_inv; unfold P; clear P.
  - intros _. split; [exists (ram m); by destruct m | lia].
  - intros j m1 Hj IH Hle. destruct IH as [H1 H2]; [lia |].
    change (Z.to_nat (NUM_ROWS * NUM_COLS)) with 2000%nat in Hj. rewrite Z.shiftl_mul_pow2 by lia.
    rewrite <- Z.add_assoc. change (2 ^ 1) with 2. replace (j * 2) with (2 * j) by lia.
    split; [by apply Hram, Hram |]. intros i Hi. rewrite <- Z.add_assoc.
    rewrite (Hst _ _ _ (2 * i)) by ((by apply Hram) || lia). destruct (decide (i = j)) as [-> | Hne].
    + rewrite !Heq by ((by apply Hram) || (unfold SPACE; lia) || done). done.
    + rewrite !Hst by ((by apply Hram) || done || lia). rewrite Z.add_assoc. apply H2. lia.
Qed.

Lemma screen_prints (m : vmem) k :
  ready k -> (exists r, m = set_ram r (mem k)) -> same_outside (mem k) m VIDEO 4000 ->
  prints k (set_mem m k).
Proof.
  intros [Hon Hr] [r ->] Ho. split; try done; [apply accessed_refl | by exists r].
Qed.

Lemma clear_prints k : ready k -> prints k (clear k).
Proof.
  intros Hr. destruct (clear_cells_spec (text_color (scr k)) (mem k) (proj2 Hr)) as [Hm Ho].
  exact (screen_prints _ k Hr Hm Ho).
Qed.

(** A phase under a flag. *)
Lemma when_phase b c g k :
  ready k -> (b (mem k) = true -> phase g k (c k)) -> (b (mem k) = false -> g = fs k) ->
  phase g k (when b c k).
Proof.
  intros Hr Ht Hf. unfold when, gets, bind. destruct (b (mem k)); [by apply Ht |].
  rewrite Hf by done. apply prints_phase. by apply prints_refl.
Qed.

Lemma print_phase fmt args k :
  ready k -> plain fmt (length args) = true -> phase (fs k) k (print_fields fuel fmt args k).
Proof. intros Hr Hp. destruct (print_numbers fmt args k Hr Hp) as (k' & -> & H). by apply prints_phase. Qed.

Section info_spec.
Variables (k0 : kernel) (mbi : Z) (n : nat).
Hypothesis Hbi : boot_info (mem k0) mbi n.
Hypothesis Hn : (n <= fuel)%nat.

(** A field of the information, after printing. *)
Lemma field_same g k o :
  prints (set_fs g k0) k -> 0 <= o -> o + 4 <= 52 -> ld32 (mem k) (mbi + o) = ld32 (mem k0) (mbi + o).
Proof.
  intros Hp H1 H2. rewrite (ld32_prints _ _ _ Hp); [done |]. cbn [mem set_fs].
  eapply off_area_sub; [apply Hbi | lia | lia].
Qed.

Lemma flags_same g k : prints (set_fs g k0) k -> mbi_flags (mem k) mbi = mbi_flags (mem k0) mbi.
Proof.
  intros Hp. unfold mbi_flags. pose proof (field_same g k 0 Hp ltac:(lia) ltac:(lia)) as He.
  by rewrite Z.add_0_r in He.
Qed.

Lemma cmdline_phase g k :
  prints (set_fs g k0) k -> CHECK_FLAG (mbi_flags (mem k0) mbi) 2 = true ->
  phase (fs k) k (print_fields fuel "cmdline = %s
" [fun m => mbi_cmdline m mbi] k).
Proof.
  intros Hp Hc. destruct (bi_cmdline _ _ _ Hbi Hc) as (l & Hl & Ht & Ho).
  destruct (printf_prints fuel ltac:(lia) "cmdline = %s
" [mbi_cmdline (mem k) mbi] k [115]) as (r & k' & He & Hk); [apply Hp | | simpl; lia | done | |].
  - apply (bool_decide_unpack _). vm_compute. exact I.
  - unfold mbi_cmdline. rewrite (field_same g k) by (done || lia). constructor; [| constructor]. intros _.
    exists l. split; [| lia]. eapply stays_prints; [| exact Hp]. apply stays_ptr; [exact Ht |].
    intros i Hi. apply Ho. lia.
  - exists k'. split; [| destruct k; exact Hk]. unfold print_fields, gets, bind. cbn [fmap list_fmap].
    by rewrite He.
Qed.

Lemma modules_phase g k :
  prints (set_fs g k0) k -> CHECK_FLAG (mbi_flags (mem k0) mbi) 3 = true ->
  phase (modules_fs (mem k0) (fs k) (mbi_mods_addr (mem k0) mbi)
           (Z.to_nat (mbi_mods_count (mem k0) mbi))) k
    ((p <- gets (fun k => mbi_mods_addr (mem k) mbi);; load_modules fuel fuel mbi 0 p) k).
Proof.
  intros Hp Hc. destruct (bi_modules _ _ _ Hbi Hc) as [Hlt Ho].
  unfold gets, bind, mbi_mods_addr at 2. rewrite (field_same g k) by (done || lia).
  fold (mbi_mods_addr (mem k0) mbi).
  pose proof (ld32_range (mem k0) (mbi + 20)) as Hu. fold (mbi_mods_count (mem k0) mbi) in Hu.
  assert (Heq : forall f, modules_fs (mem k) f (mbi_mods_addr (mem k0) mbi)
                  (Z.to_nat (mbi_mods_count (mem k0) mbi))
                = modules_fs (mem k0) f (mbi_mods_addr (mem k0) mbi)
                    (Z.to_nat (mbi_mods_count (mem k0) mbi))).
  { intros f. destruct (Z.to_nat (mbi_mods_count (mem k0) mbi)) as [| d] eqn:Hd; [done |].
    cbn [modules_fs]. apply (module_fs_prints (set_fs g k0)); [done |]. cbn [mem set_fs].
    eapply off_area_sub; [exact Ho | lia | lia]. }
  rewrite <- Heq. apply load_modules_phase.
  - apply Hp.
  - apply (off_area_prints _ _ _ _ Hp). eapply off_area_sub; [apply Hbi | lia | lia].
  - apply (off_area_prints _ _ _ _ Hp). by rewrite Z2Nat.id by lia.
  - lia.
  - unfold mbi_mods_count at 2. rewrite (field_same g k) by (done || lia). unfold mbi_mods_count in *. lia.
  - lia.
Qed.

Lemma mmap_phase g k :
  prints (set_fs g k0) k -> CHECK_FLAG (mbi_flags (mem k0) mbi) 6 = true ->
  phase (fs k) k
    ((print_fields fuel "mmap_addr = 0x%#x, mmap_length = 0x%x
" [fun m => mbi_mmap_addr m mbi; fun m => mbi_mmap_length m mbi];;
      mmap <- gets (fun k => mbi_mmap_addr (mem k) mbi);; print_mmap fuel fuel mbi mmap) k).
Proof.
  intros Hp Hc. pose proof (bi_mmap _ _ _ Hbi Hc) as He.
  apply print_then; [apply Hp | reflexivity |]. intros k1 H1.
  rewrite <- (prints_fs k k1 H1). apply (phase_trans _ _ k1); [done |].
  assert (Hp1 : prints (set_fs g k0) k1) by by apply (prints_trans _ k).
  unfold gets, bind. apply (print_mmap_phase mbi n); [apply H1 | | | done].
  - apply (off_area_prints _ _ _ _ Hp1). eapply off_area_sub; [apply Hbi | lia | lia].
  - apply (mmap_ends_prints n _ _ _ Hp1) in He. unfold mmap_stop, mbi_mmap_addr, mbi_mmap_length in *.
    by rewrite !(field_same g k1) by (done || lia).
Qed.
End info_spec.

(** A printing phase, from a state that printing led to. *)
Lemma print_bind {A} k0 g k (c : C unit) (f : unit -> C A) (P : outcome A -> Prop) :
  prints (set_fs g k0) k -> phase (fs k) k (c k) ->
  (forall k', prints (set_fs g k0) k' -> P (f tt k')) -> P (bind c f k).
Proof.
  intros Hp Hc Hf. apply (phase_bind (fs k)); [done |]. intros k' H'. apply Hf.
  apply (prints_trans _ k); [done |]. by destruct k.
Qed.

Lemma print_info_returns mbi n k :
  ready k -> boot_info (mem k) mbi n -> (n <= fuel)%nat ->
  exists k', print_info fuel MULTIBOOT_BOOTLOADER_MAGIC mbi k = Ret true k' /\
    prints (set_fs (info_fs (mem k) mbi (fs k)) k) k'.
Proof.
  intros Hr Hbi Hn. unfold print_info, bind at 1, modify. rewrite Z.eqb_refl. cbn [negb].
  assert (H0 : prints (set_fs (fs k) k) (clear k)).
  { replace (set_fs (fs k) k) with k by by destruct k. by apply clear_prints. }
  revert H0. generalize (clear k). intros k1 H1. cbv zeta.
  pose (P := fun o : outcome bool => exists k', o = Ret true k' /\
    prints (set_fs (info_fs (mem k) mbi (fs k)) k) k').
  match goal with |- exists k', ?o = _ /\ _ => change (P o) end.
  apply (print_bind k (fs k)); [done | apply print_phase; [apply H1 | reflexivity] |].
  clear k1 H1. intros k1 H1.
  do 2 (apply (print_bind k (fs k));
    [done | apply when_phase; [apply H1 | intros _; apply print_phase; [apply H1 | reflexivity] | done] |];
    clear k1 H1; intros k1 H1).
  apply (print_bind k (fs k)); [done | |].
  { apply when_phase; [apply H1 | | done]. rewrite (flags_same k mbi n Hbi Hn _ _ H1).
    by apply (cmdline_phase k mbi n Hbi Hn (fs k)). }
  clear k1 H1. intros k1 H1. set (g := info_fs (mem k) mbi (fs k)) in *.
  apply (phase_bind g).
  { apply when_phase; [apply H1 | |]; rewrite (flags_same k mbi n Hbi Hn _ _ H1); unfold g, info_fs;
      intros Hc; rewrite Hc; [| by rewrite (prints_fs _ _ H1)].
    pose proof (modules_phase k mbi n Hbi Hn (fs k) k1 H1 Hc) as Hm.
    by rewrite (prints_fs _ _ H1) in Hm. }
  intros k2 H2. pose proof (prints_fs_trans _ _ _ _ _ H1 H2) as H3. clear k1 H1 H2.
  unfold gets at 1, bind at 1. rewrite (flags_same k mbi n Hbi Hn _ _ H3), (bi_bits _ _ _ Hbi).
  apply (print_bind k g); [done | |].
  { apply when_phase; [apply H3 | intros _; apply print_phase; [apply H3 | reflexivity] | done]. }
  clear k2 H3. intros k2 H2. apply (print_bind k g); [done | |].
  { apply when_phase; [apply H2 | | done]. rewrite (flags_same k mbi n Hbi Hn _ _ H2).
    by apply (mmap_phase k mbi n Hbi Hn g). }
  clear k2 H2. intros k2 H2. by exists k2.
Qed.

(** ** Bringing the system up *)

Lemma my_clear_prints k : ready k -> prints k (my_clear k).
Proof.
  intros [Hon Hr].
  destruct (clear_cells_spec (text_color (scr k)) (mem k) Hr) as [[r Hm] Ho].
  unfold my_clear, clear. set (k1 := y_set_screen 0 (x_set_screen 0 k)).
  change (text_color (scr k1)) with (text_color (scr k)).
  change (upd_mem (clear_cells (text_color (scr k))) k1)
    with (set_mem (clear_cells (text_color (scr k)) (mem k)) k1).
  revert Hm Ho. generalize (clear_cells (text_color (scr k)) (mem k)). intros m -> Ho.
  split; try done; [exact (update_cursor_accessed (set_mem (set_ram r (mem k)) k1)) | by exists r].
Qed.

(** A literal without conversions. *)
Lemma printf_plain s k :
  ready k -> plain s 0 = true -> exists r k', printf fuel (lit s) [] k = Ret r k' /\ prints k k'.
Proof.
  intros Hr Hp. destruct (print_numbers s [] k Hr Hp) as (k' & He & Hk). revert He.
  unfold print_fields, gets, bind. cbn [fmap list_fmap].
  destruct (printf fuel (lit s) [] k) as [r k1 | | |]; try done. intros [= <-]. by exists r, k1.
Qed.

(** The kernel's page and the video pages, each at its own address. *)
Definition boot_pages (m : vmem) : Prop := forall a,
  xlate m a = if decide (0x400000 <= u32 a < 0x800000 \/ 0xB8000 <= u32 a < 0xBC000) then Some (u32 a) else None.

(** What the initialisation leaves for the first program. *)
Record initialised (k kf : kernel) : Prop := Initialised {
  init_sys : sys kf = sys (init_terminals (setup_exec k));
  init_pcbs : pcbs kf = pcbs k;
  init_fs : fs kf = set_boot_block (FS_START_ADDR (fs k)) (fs k);
  init_hw : hw kf = set_if_flag true (hw k);
  init_curr : curr_process kf = 0;
  init_mapped : kernel_mapped (mem kf);
  init_ld : forall a, in_kernel a -> ld (mem kf) a = ld (mem k) a;
  init_xlate : boot_pages (mem kf);
  init_blank : 0 <= text_color (scr k) < 256 -> blank (text_color (scr k)) (mem kf);
  init_scr : scr kf = Screen 0 0 (text_color (scr k));
  init_kbd : forall r k', terminal_open k = Ret r k' -> kbd kf = kbd k';
  init_ports : exists p1, accessed cursor_port (rtc_ports (devices_on (rtc k))) p1 /\
    rtc_ports (rtc kf) = pit_init p1
}.

Lemma terminals_frame k :
  mem (init_terminals k) = mem k /\ fs (init_terminals k) = fs k /\ hw (init_terminals k) = hw k /\
  pcbs (init_terminals k) = pcbs k /\ scr (init_terminals k) = scr k /\
  kbd (init_terminals k) = kbd k /\ rtc (init_terminals k) = rtc k.
Proof. done. Qed.

(** [my_clear] leaves a blank screen and the cursor at its start. *)
Lemma my_clear_blank k :
  ready k -> scr (my_clear k) = Screen 0 0 (text_color (scr k)) /\
  (0 <= text_color (scr k) < 256 -> blank (text_color (scr k)) (mem (my_clear k))).
Proof. intros [_ Hr]. split; [done | exact (clear_cells_blank _ _ Hr)]. Qed.

Lemma terminals_sys k k' : sys k = sys k' -> sys (init_terminals k) = sys (init_terminals k').
Proof.
  intros Hs. transitivity (sys (init_terminals (set_sys (sys k') k))); [| done].
  rewrite <- Hs. by destruct k.
Qed.

Lemma init_system_reaches k :
  ready k -> tables_wf (mem k) -> paging_on (mem k) = false ->
  exists kf, init_system fuel k = Ret tt kf /\ initialised k kf.
Proof.
  intros Hr Hw Hp. unfold init_system, terminal_open, modify, ret, bind. cbv beta iota.
  match goal with |- context [printf fuel (lit "Enabling Interrupts
") [] ?k] => set (ka := k) end.
  destruct (printf_plain "Enabling Interrupts
" ka) as (r1 & k1 & He1 & H1); [exact Hr | reflexivity |].
  rewrite He1. cbv beta iota.
  set (kb := fs_init (upd_mem setup_paging (sti k1))).
  destruct (prints_ram _ _ H1) as [r Hm1]. change (mem ka) with (mem k) in Hm1.
  assert (Hw1 : tables_wf (mem k1)) by by rewrite Hm1.
  assert (Hp1 : paging_on (mem k1) = false) by by rewrite Hm1.
  destruct (printf_plain "Got to the end
" kb) as (r2 & k2 & He2 & H2); [| reflexivity |].
  { split; [apply H1 |]. by apply setup_paging_region. }
  rewrite He2. cbv beta iota.
  exists (scheduler_init (init_terminals (upd_ports pit_init (setup_exec (my_clear k2))))).
  split; [reflexivity |].
  pose proof (my_clear_prints k2 (prints_ready _ _ H2)) as H3.
  destruct (my_clear_blank k2 (prints_ready _ _ H2)) as [Hscr Hblank].
  assert (Hcol : text_color (scr k2) = text_color (scr k)).
  { rewrite (prints_color _ _ H2). exact (prints_color _ _ H1). }
  rewrite Hcol in Hscr, Hblank.
  pose proof (prints_trans _ _ _ H2 H3) as H4. revert H4 Hscr Hblank. generalize (my_clear k2).
  clear k2 H2 H3 He2 Hcol. intros k3 H3 Hscr Hblank. destruct (prints_ram _ _ H3) as [r' Hm3].
  set (k4 := upd_ports pit_init (setup_exec k3)).
  destruct (terminals_frame k4) as (E1 & E2 & E3 & E4 & E6 & E7 & E8).
  pose proof (terminals_sys k4 (setup_exec k)) as E5.
  revert E1 E2 E3 E4 E5 E6 E7 E8. generalize (init_terminals k4). intros k5 E1 E2 E3 E4 E5 E6 E7 E8.
  change (mem k4) with (mem k3) in E1. change (fs k4) with (fs k3) in E2.
  change (hw k4) with (hw k3) in E3. change (pcbs k4) with (pcbs k3) in E4. split.
  - change (sys (scheduler_init k5)) with (sys k5). apply E5. unfold k4, setup_exec.
    change (sys (upd_ports pit_init ?x)) with (sys x). cbn [sys upd_sys set_sys].
    rewrite (prints_sys _ _ H3). change (sys kb) with (sys k1). by rewrite (prints_sys _ _ H1).
  - change (pcbs (scheduler_init k5)) with (pcbs k5). rewrite E4, (prints_pcbs _ _ H3).
    change (pcbs kb) with (pcbs k1). by rewrite (prints_pcbs _ _ H1).
  - change (fs (scheduler_init k5)) with (fs k5). rewrite E2, (prints_fs _ _ H3).
    change (fs kb) with (set_boot_block (FS_START_ADDR (fs k1)) (fs k1)).
    by rewrite (prints_fs _ _ H1).
  - change (hw (scheduler_init k5)) with (hw k5). rewrite E3, (prints_hw _ _ H3).
    change (hw kb) with (set_if_flag true (hw k1)). by rewrite (prints_hw _ _ H1).
  - done.
  - change (mem (scheduler_init k5)) with (mem k5). rewrite E1, Hm3.
    apply kernel_mapped_ram. change (mem kb) with (setup_paging (mem k1)).
    exact (setup_paging_kernel _ (proj1 Hw1)).
  - intros a Ha. change (mem (scheduler_init k5)) with (mem k5). rewrite E1.
    rewrite (prints_ld _ _ _ H3) by (apply kernel_off_screen; [right; by exists (mem k1) | done]).
    change (mem kb) with (setup_paging (mem k1)). rewrite setup_paging_ld by done.
    apply (prints_ld _ _ _ H1). apply kernel_off_screen; [by left | done].
  - intros a. change (mem (scheduler_init k5)) with (mem k5). rewrite E1, Hm3.
    change (xlate (set_ram r' (mem kb)) a) with (xlate (setup_paging (mem k1)) a).
    by apply setup_paging_xlate.
  - change (mem (scheduler_init k5)) with (mem k5). rewrite E1. exact Hblank.
  - change (scr (scheduler_init k5)) with (scr k5). rewrite E6. exact Hscr.
  - intros rt kt Ht. change (kbd (scheduler_init k5)) with (kbd k5). rewrite E7.
    change (kbd k4) with (kbd k3). rewrite (prints_kbd _ _ H3). change (kbd kb) with (kbd k1).
    rewrite (prints_kbd _ _ H1). by injection Ht as _ <-.
  - change (rtc (scheduler_init k5)) with (rtc k5). rewrite E8.
    exists (rtc_ports (rtc k3)). split; [| done].
    exact (accessed_trans _ _ _ _ (prints_ports _ _ H1) (prints_ports _ _ H3)).
Qed.
End printing.

(** A byte of the file through a reader that agrees on it. *)
Lemma same_byte f g bb start inode p :
  file_ok f bb start inode -> agree f bb start inode g -> 0 <= p < file_length f start inode ->
  file_byte g bb start inode p = file_byte f bb start inode p.
Proof.
  intros Hok Hg Hp. pose proof (same_bytes f g bb start inode Hok Hg 1 p ltac:(lia) ltac:(lia)) as H1.
  by injection H1.
Qed.

(** A program in an image that starts at [start] and lies in the kernel's
    page, under the name [l]. *)
Record program (f : Z -> Z) (start : Z) (l : list Z) (j : Z) : Prop := Program {
  program_name : has_name f start l j;
  program_file : file_ok f start start (de_inode_num f start j);
  program_addr : forall a, file_addr f start start (de_inode_num f start j) a -> in_kernel a;
  program_length : 28 <= file_length f start (de_inode_num f start j) <= 0x3B8000;
  program_elf : is_elf (file_byte f start start (de_inode_num f start j)) = true
}.

(** A reader that agrees in the kernel's page sees the same program. *)
Lemma program_same f g start l j :
  (forall a, in_kernel a -> g a = f a) -> program f start l j ->
  let inode := de_inode_num f start j in
  de_inode_num g start j = inode /\ agree f start start inode g /\ program g start l j.
Proof.
  intros Hg [Hn Hf Ha Hl He] inode. fold inode in Hf, Ha, Hl, He.
  assert (Hag : agree f start start inode g) by (intros a Hfa; by apply Hg, Ha).
  assert (Hbb : forall a, within start FOUR_KB a -> g a = f a) by (intros a Hw; apply Hag; by left).
  assert (Hi : de_inode_num g start j = inode) by (apply same_inode_num; [done | apply Hn]).
  split; [done |]. split; [done |]. split; rewrite ?Hi.
  - by apply (same_has_name f).
  - by apply (same_ok f).
  - intros a Hfa. apply Ha. by apply (same_addr f g) in Hfa.
  - by rewrite (same_length f g start start inode Hag).
  - revert He. unfold is_elf. by rewrite !(same_byte f g) by (done || lia).
Qed.

Definition boot_start (m : vmem) (mbi : Z) : Z :=
  mod_start m (mbi_mods_addr m mbi + 16 * (mbi_mods_count m mbi - 1)).

Lemma info_fs_start m mbi f :
  CHECK_FLAG (mbi_flags m mbi) 3 = true -> 0 < mbi_mods_count m mbi ->
  FS_START_ADDR (info_fs m mbi f) = boot_start m mbi.
Proof.
  intros Hc Hn. unfold info_fs, boot_start. rewrite Hc.
  destruct (Z.to_nat (mbi_mods_count m mbi)) as [| d] eqn:Hd; [lia |]. cbn [modules_fs].
  unfold module_fs. cbn [FS_START_ADDR set_FS_END_ADDR set_FS_START_ADDR]. do 3 f_equal. lia.
Qed.

Lemma power_on_ready m p evs : paging_on m = false -> ready (power_on m p evs).
Proof.
  intros Hp. split; [| by apply unpaged_region].
  change (on_screen 0 0). unfold on_screen, NUM_COLS, NUM_ROWS. lia.
Qed.

(** The tables that the first program finds. *)
Lemma initialised_sys m p evs k kf :
  sys k = sys (power_on m p evs) -> initialised k kf ->
  sys kf = sys (init_terminals (setup_exec (power_on m p evs))).
Proof.
  intros Hs Hi. rewrite (init_sys k kf Hi). apply terminals_sys. unfold setup_exec.
  cbn [sys upd_sys set_sys]. by rewrite Hs.
Qed.

Lemma initialised_procs m p evs k kf :
  sys k = sys (power_on m p evs) -> pcbs k = ∅ -> initialised k kf -> procs_wf kf.
Proof.
  intros Hs Hp Hi. unfold procs_wf. rewrite (initialised_sys m p evs k kf Hs Hi).
  split_and!; try done. intros a. unfold pcb_at. by rewrite (init_pcbs k kf Hi), Hp.
Qed.

(** The machine on which the program of [inode], in an image that [f] shows
    at [start], starts as process 0 of terminal 0. *)
Record first_process (f : Z -> Z) (start inode : Z) (k : kernel) : Prop := FirstProcess {
  first_slots : process_num (sys k) = [0; -1; -1; -1; -1; -1];
  first_running : main_process (sys k) = 0;
  first_shown : active_terminal (sys k) = 0;
  first_task : curr_task (term_at (terminals (sys k)) 0) = 0;
  first_pcb : fresh_pcb 0 0 (pcb_at (return_pcb_parent 0) k);
  first_bytes : bytes (mem k) PROG_IMG_OFF (Z.to_nat (file_length f start inode))
    = file_bytes f start start inode (Z.to_nat (file_length f start inode)) 0;
  first_interrupts : if_flag (hw k) = true;
  first_stack : tss_ss0 (hw k) = KERNEL_DS /\ tss_esp0 (hw k) = kernel_stack 0
}.

(** What the boot has brought up when the first program starts, on a machine
    with the ports [p] and the file system at [start]: the devices; the
    keyboard's line buffers, empty; the four operation tables; the three
    terminals, each at the start of its own page and in its own colour, with
    process 0 on the first and none on the others; the file system; the
    scheduler at terminal 0; the pages: the kernel and the video memory each
    at their own address, the program's 4 MB at 128 MB, and nothing else; and
    the screen, cleared, with the cursor at its start. *)
Record brought_up (p : ports) (start : Z) (k : kernel) : Prop := BroughtUp {
  up_devices : devices_up p (rtc_ports (rtc k));
  up_keyboard : keyboard_buf (kbd k) = replicate 128 0 /\ last_buf (kbd k) = replicate 128 0 /\
    kb_save_buf (kbd k) = replicate 128 0 /\ save_buf_1 (kbd k) = replicate 128 0 /\
    save_buf_2 (kbd k) = replicate 128 0 /\ save_buf_3 (kbd k) = replicate 128 0;
  up_tables :
    file_table (sys k) = Ops (Some DrvFile) (Some DrvFile) (Some DrvFile) (Some DrvFile) /\
    dir_table (sys k) = Ops (Some DrvDir) (Some DrvDir) (Some DrvDir) (Some DrvDir) /\
    rtc_table (sys k) = Ops (Some DrvRtc) (Some DrvRtc) (Some DrvRtc) (Some DrvRtc) /\
    terminal_table (sys k) = Ops (Some DrvTerminal) (Some DrvTerminal) (Some DrvTerminal) (Some DrvTerminal);
  up_terminals : terminals (sys k) =
    [Term 0 0 0 1 (replicate 128 0) 0 0 0xB9000; Term 1 0 0 2 (replicate 128 0) 0 (-1) 0xBA000;
     Term 2 0 0 3 (replicate 128 0) 0 (-1) 0xBB000];
  up_fs : boot_block (fs k) = start /\ FS_START_ADDR (fs k) = start;
  up_scheduler : curr_process k = 0;
  up_pages : forall a, xlate (mem k) a
    = if decide (0x8000000 <= u32 a < 0x8400000) then Some (u32 a - 0x8000000 + 0x800000)
      else if decide (0x400000 <= u32 a < 0x800000 \/ 0xB8000 <= u32 a < 0xBC000) then Some (u32 a)
      else None;
  up_screen : scr k = Screen 0 0 7 /\ blank 7 (mem k)
}.

(** The pages with the first program in place. *)
Lemma first_pages inode k a :
  prog_ok inode k -> boot_pages (mem k) ->
  xlate (mem (loaded inode 0 k)) a
  = if decide (0x8000000 <= u32 a < 0x8400000) then Some (u32 a - 0x8000000 + 0x800000)
    else if decide (0x400000 <= u32 a < 0x800000 \/ 0xB8000 <= u32 a < 0xBC000) then Some (u32 a)
    else None.
Proof.
  intros Hprog Hb. rewrite loaded_xlate_prog by (done || lia). pose proof (u32_range a) as Ha.
  case_decide as Hu.
  - assert (He : xlate (map_prog 0 (mem k)) a = xlate (map_prog 0 (mem k)) (u32 a))
      by (unfold xlate; by rewrite (u32_small (u32 a))).
    rewrite He. replace (u32 a) with (UNIT_128_MB + (u32 a - 0x8000000)) at 1 by (unfold UNIT_128_MB; lia).
    rewrite map_prog_xlate; [| lia | apply Hprog | unfold UNIT_4_MB; lia].
    rewrite prog_phys_eq by lia. f_equal. unfold UNIT_8_MB. lia.
  - rewrite map_prog_other; [apply Hb | lia | apply Hprog |]. unfold UNIT_4_MB. Z.div_mod_to_equations. lia.
Qed.

Lemma first_screen inode k :
  prog_ok inode k -> boot_pages (mem k) -> blank 7 (mem k) -> blank 7 (mem (loaded inode 0 k)).
Proof.
  intros Hprog Hb Hbl i Hi.
  assert (Hv : forall x, 0 <= x < 4000 -> ld (mem (loaded inode 0 k)) (VIDEO + x) = ld (mem k) (VIDEO + x)).
  { intros x Hx. assert (Hu : u32 (VIDEO + x) = VIDEO + x) by (apply u32_small; unfold VIDEO; lia).
    apply (loaded_ld_other _ _ _ _ (VIDEO + x)); [lia | done | | |].
    - rewrite Hu. unfold VIDEO, UNIT_4_MB. Z.div_mod_to_equations. lia.
    - rewrite Hb, Hu, decide_True by (unfold VIDEO; lia). done.
    - left. rewrite prog_phys_eq by lia. unfold VIDEO, UNIT_8_MB. lia. }
  rewrite <- Z.add_assoc. rewrite !Hv by lia. rewrite Z.add_assoc. by apply Hbl.
Qed.

Definition start_address (f : Z -> Z) (start inode : Z) : Z :=
  entry_point (fun o => file_byte f start start inode (24 + o)).

Lemma shell_cmd_ok : cmd_ok (str_bytes "shell") 0 [].
Proof. unfold cmd_ok. split_and!; try (simpl; lia); try (by repeat constructor); try (by left); done. Qed.

(** [execute] of the shell on an initialised machine. *)
Lemma first_shell junk fuel m p evs k kf f start j :
  (15 < fuel)%nat -> sys k = sys (power_on m p evs) -> pcbs k = ∅ -> initialised k kf ->
  boot_block (fs kf) = start -> FS_START_ADDR (fs kf) = start ->
  (forall a, in_kernel a -> image kf a = f a) -> program f start (str_bytes "shell") j ->
  text_color (scr k) = 7 -> kbd kf = kbd (power_on m p evs) -> devices_up p (rtc_ports (rtc kf)) ->
  let inode := de_inode_num f start j in
  exists k', execute_shell junk fuel kf = Leave (Iret (start_address f start inode)) k' /\
    first_process f start inode k' /\ brought_up p start k'.
Proof.
  intros Hf Hs Hp Hi Hboot Hstart Hld Hprog Hcol Hkbd Hdev inode.
  destruct (program_same f (image kf) start _ j Hld Hprog) as (Hin & Hag & [Pn Pf Pa Pl Pe]).
  fold inode in Hin, Hag. rewrite Hin in *.
  pose proof (initialised_sys m p evs k kf Hs Hi) as Hskf.
  pose proof (initialised_procs m p evs k kf Hs Hp Hi) as Hwf.
  assert (Hslot : find_slot 8 0 kf = Some 0) by by apply own_slot; rewrite ?Hskf.
  destruct Hprog as [_ Pf' _ Pl' _]. fold inode in Pf', Pl'.
  assert (Hlen : file_length (image kf) start inode = file_length f start inode)
    by by apply (same_length f (image kf) start start inode).
  assert (Hent : entry_point (fun t => file_byte (image kf) start start inode (24 + t))
                 = start_address f start inode).
  { unfold start_address, entry_point. by rewrite !(same_byte f (image kf)) by (done || lia). }
  destruct (system_execute_starts junk fuel (arr_get (str_bytes "shell")) 0 (str_bytes "shell") 0 [] j kf)
    as (k0 & [ab ->] & Hrun); rewrite ?Hboot, ?Hstart, ?Hin; try done; try (simpl; lia); try lia.
  - apply terminated_lit. repeat constructor.
  - exact shell_cmd_ok.
  - split; [apply (init_mapped _ _ Hi) |]. rewrite Hboot, Hstart. split_and!; [done | lia | done].
  - rewrite Hslot, Hboot, Hstart, Hin, Hlen, Hent in Hrun.
    destruct Hrun as (k' & _ & _ & _ & He & Hst & Hby & _).
    exists k'. split; [exact He |].
    destruct (system_execute_devices junk fuel (arr_get (str_bytes "shell")) 0 (str_bytes "shell") 0 [] j kf
      (Iret (start_address f start inode)) k') as (Dr & Dsc & Dk & Dc);
      [apply terminated_lit; repeat constructor | by apply shell_cmd_ok | simpl; lia | simpl; lia
      | by rewrite Hboot | by rewrite Hslot | exact He |].
    destruct Hst as (Hs' & Hfresh & _ & _ & _ & Hhw & Hmem & Hfs').
    assert (Hprog0 : prog_ok inode (taken 0 (upd_sys (set_arg_buf ab) kf))).
    { split; [apply (init_mapped _ _ Hi) |].
      change (file_of kf inode /\ length_of kf inode <= 0x3B8000 /\ (forall a, addr_of kf inode a -> in_kernel a)).
      rewrite Hboot, Hstart. split_and!; [done | lia | done]. }
    set (k1 := taken 0 (upd_sys (set_arg_buf ab) kf)) in *.
    change (fs k1) with (fs kf) in Hfs'. pose proof (init_blank _ _ Hi) as Hbl. rewrite Hcol in Hbl.
    split; [| split]; try unfold k1, taken in Hs'; autorewrite with frame in *; rewrite ?Hskf in *.
    + split; rewrite ?Hs', ?Hhw; try reflexivity; [exact Hfresh | | done].
      rewrite Hby. apply same_bytes; done || lia.
    + by rewrite Dr.
    + by rewrite Dk, Hkbd.
    + by rewrite Hs'.
    + by rewrite Hs'.
    + by rewrite Hfs', Hboot, Hstart.
    + rewrite Dc. apply (init_curr _ _ Hi).
    + intros a. rewrite Hmem. apply first_pages; [done | exact (init_xlate _ _ Hi)].
    + rewrite Dsc, (init_scr _ _ Hi), Hcol, Hmem. split; [done |].
      apply first_screen; [done | exact (init_xlate _ _ Hi) | apply Hbl; lia].
Qed.

(** ** Properties *)

(** C33: The two system descriptors that [entry] builds from uninitialised
    memory decode, by the processor's layout, to the addresses and sizes of
    the tables: a present LDT of 32 bytes at [ldt], and an available 32-bit
    TSS of 104 bytes at [tss]. *)
Theorem gdt_descriptors junk_desc ldt tss :
  let d := the_ldt_desc junk_desc ldt ldt_size in let e := the_tss_desc junk_desc tss tss_size in
  (hw_base (seg_val0 d) (seg_val1 d) = u32 ldt /\ hw_limit (seg_val0 d) (seg_val1 d) = 31 /\
   hw_access (seg_val1 d) = 0x82) /\
  (hw_base (seg_val0 e) (seg_val1 e) = u32 tss /\ hw_limit (seg_val0 e) (seg_val1 e) = 103 /\
   hw_access (seg_val1 e) = 0x89).
Proof.
  cbv zeta. split.
  - apply (seg_params_decode (SegDesc (seg_lim_15_00 junk_desc) (base_15_00 junk_desc)
      (base_23_16 junk_desc) 2 0 0 1 (seg_lim_19_16 junk_desc) 0 0 1 0 (base_31_24 junk_desc)));
      simpl; lia.
  - apply (seg_params_decode (SegDesc (Z.land TSS_SIZE 0x0000FFFF) (base_15_00 junk_desc)
      (base_23_16 junk_desc) 9 0 0 1 (Z.land TSS_SIZE 0x000F0000 mod 16) 0 0 0 0
      (base_31_24 junk_desc))); simpl; lia.
Qed.

Section boot.
Variable fuel : nat.
Variable junk : Z -> Z.
Variables ldt tss : Z.
Variable handler_addr : handler -> Z.
Variable junk_desc : seg_desc.

(** C3: The system boots: with a Multiboot loader, well-formed boot
    information and a file system with a "shell" program as its last module,
    [entry] returns from everything it prints and leaves to the entry point
    of the shell, which runs as process 0 of terminal 0 with the other slots
    free, its whole file at 0x08048000 and interrupts enabled.  Before that
    it has loaded the descriptor tables and the 256 gates, programmed the
    interrupt controllers, the clock and the timer, filled the operation
    tables, started the three terminals, the file system and the scheduler,
    turned paging on and cleared the screen ([brought_up]; what the masks and
    the clock's registers then hold is stated for controllers and a clock
    that answer reads as documented).  Of what it prints on the way nothing
    is left on the screen. *)
Theorem boot_starts_shell m p evs mbi n j t :
  let f := ld m in let start := boot_start m mbi in let inode := de_inode_num f start j in
  (100 < fuel)%nat -> (n <= fuel)%nat -> tables_wf m -> paging_on m = false ->
  boot_info m mbi n -> CHECK_FLAG (mbi_flags m mbi) 3 = true -> 0 < mbi_mods_count m mbi ->
  program f start (str_bytes "shell") j ->
  exists k', entry fuel junk ldt tss handler_addr junk_desc MULTIBOOT_BOOTLOADER_MAGIC mbi t
               (power_on m p evs)
      = (Tables (the_ldt_desc junk_desc ldt ldt_size) (the_tss_desc junk_desc tss tss_size)
           KERNEL_LDT KERNEL_TSS KERNEL_LDT (init_idt handler_addr (idt t)),
         Leave (Iret (start_address f start inode)) k') /\
    first_process f start inode k' /\ brought_up p start k'.
Proof.
  intros f start inode Hf Hn Hw Hp Hbi Hc Hmods Hprog.
  set (k := power_on m p evs). pose proof (power_on_ready m p evs Hp) as Hr.
  destruct (print_info_returns fuel Hf mbi n k Hr Hbi Hn) as (k1 & He1 & H1).
  set (k2 := upd_ports i8259_init (load_tss_stack k1)).
  destruct (prints_ram _ _ H1) as [r Hm1]. change (mem (set_fs _ k)) with m in Hm1.
  destruct (init_system_reaches fuel Hf k2) as (kf & He2 & Hi);
    [exact (prints_ready _ _ H1) | by change (mem k2) with (mem k1); rewrite Hm1
    | by change (mem k2) with (mem k1); rewrite Hm1 |].
  assert (Hfs : FS_START_ADDR (fs kf) = start /\ boot_block (fs kf) = start).
  { rewrite (init_fs _ _ Hi). change (fs k2) with (fs k1). rewrite (prints_fs _ _ H1).
    cbn [boot_block FS_START_ADDR set_boot_block fs set_fs].
    rewrite info_fs_start by done. done. }
  destruct Hfs as [Hstart Hboot].
  destruct (first_shell junk fuel m p evs k2 kf f start j) as (k' & He & Hfirst & Hup);
    try done; [lia | ..].
  - exact (prints_sys _ _ H1).
  - exact (prints_pcbs _ _ H1).
  - intros a Ha. unfold image. rewrite (init_ld _ _ Hi) by done. change (mem k2) with (mem k1).
    rewrite (prints_ld _ _ a H1); [done |]. apply kernel_off_screen; [by left | done].
  - exact (prints_color _ _ H1).
  - rewrite (init_kbd _ _ Hi _ _ eq_refl). unfold upd_kbd. cbn [kbd set_kbd].
    change (kbd k2) with (kbd k1). by rewrite (prints_kbd _ _ H1).
  - destruct (init_ports _ _ Hi) as (p1 & Hp1 & ->).
    exact (boot_devices_up p (rtc_ports (rtc k1)) _ p1 (prints_ports _ _ H1) Hp1).
  - exists k'. split; [| done]. unfold entry. rewrite He1. f_equal. unfold bring_up, bind. fold k2.
    by rewrite He2, He.
Qed.

(** A loader that is not Multiboot is refused: [entry] clears the
    screen, prints the wrong magic number and returns, with the descriptor
    tables untouched and nothing changed but the screen. *)
Theorem boot_refuses_magic m p evs magic mbi t :
  (100 < fuel)%nat -> paging_on m = false -> magic <> MULTIBOOT_BOOTLOADER_MAGIC ->
  exists k', entry fuel junk ldt tss handler_addr junk_desc magic mbi t (power_on m p evs)
             = (t, Ret tt k') /\ prints (power_on m p evs) k'.
Proof.
  intros Hf Hp Hm. set (k := power_on m p evs).
  pose proof (clear_prints fuel Hf k (power_on_ready m p evs Hp)) as H1.
  unfold entry, print_info, bind, modify. rewrite (proj2 (Z.eqb_neq _ _) Hm). cbn [negb].
  revert H1. generalize (clear k). intros k1 H1.
  destruct (print_numbers fuel Hf "Invalid magic number: 0x%#x
" [fun _ => magic] k1) as (k2 & -> & H2); [apply H1 | reflexivity |].
  exists k2. split; [done | by apply (prints_trans k k1)].
Qed.
End boot.

(** ** Witnesses *)

(** Boot information as GRUB leaves it: a command line (bit 2), one module
    (bit 3), a memory map of one entry (bit 6). *)
Definition boot_base : Z := 0x9000.

Definition sample_info : list Z :=
  padded 256 (le32 0x4C ++ replicate 12 0 ++ le32 (boot_base + 256) ++ le32 1 ++
              le32 (boot_base + 512) ++ replicate 16 0 ++ le32 24 ++ le32 (boot_base + 768)) ++
  padded 256 (str_bytes "kernel") ++
  padded 256 (le32 sample_base ++ le32 (sample_base + 20480)) ++
  le32 20 ++ replicate 8 0 ++ le32 0x100000 ++ replicate 4 0 ++ le32 1.

Definition boot_memory : vmem := write (exec_image (bare ∅)) boot_base sample_info.

(** Low memory is not on the page at 0xB8000. *)
Lemma low_off_area m a n :
  paging_on m = false -> 0 <= a -> a + n <= VIDEO -> off_area m a n.
Proof.
  intros Hp Ha Hn i Hi j Hj. rewrite !unpaged_loc by done. unfold VIDEO in *.
  rewrite !u32_small by lia. intros [= ?]. lia.
Qed.

Lemma boot_memory_ld a : in_kernel a -> ld boot_memory a = image running a.
Proof.
  unfold in_kernel, UNIT_4_MB, UNIT_8_MB. intros Ha.
  change (image running a) with (ld (setup_paging (exec_image (bare ∅))) a).
  rewrite setup_paging_ld; [| | reflexivity | exact Ha].
  - unfold boot_memory. apply ld_write_apart.
    + by apply unpaged_region.
    + change (Z.of_nat (length sample_info)) with 792. intros i Hi.
      rewrite !unpaged_loc by reflexivity. unfold boot_base. rewrite !u32_small by lia.
      intros [= ?]. lia.
  - split_and!; vm_compute; congruence.
Qed.

Lemma running_program : program (image running) sample_base (str_bytes "shell") 2.
Proof.
  split.
  - apply running_has_name. by right.
  - apply running_file. by right.
  - apply running_prog.
  - vm_compute. split; congruence.
  - vm_compute. reflexivity.
Qed.

Lemma boot_memory_info : boot_info boot_memory boot_base 10.
Proof.
  split.
  - apply low_off_area; done.
  - reflexivity.
  - intros _. exists (str_bytes "kernel"). split; [simpl; lia |]. split.
    + split; [| vm_compute; reflexivity]. intros i Hi.
      change (Z.of_nat (length (str_bytes "kernel"))) with 6 in Hi.
      assert (Hc : i = 0 \/ i = 1 \/ i = 2 \/ i = 3 \/ i = 4 \/ i = 5) by lia.
      repeat destruct Hc as [-> | Hc]; [.. | subst i]; vm_compute; split; congruence.
    + apply low_off_area; [done | vm_compute; congruence..].
  - intros _. split; [vm_compute; reflexivity |].
    apply low_off_area; [done | vm_compute; congruence..].
  - intros _. cbn [mmap_ends]. right. split; [apply low_off_area; [done | vm_compute; congruence..] |].
    left. vm_compute. congruence.
Qed.

Definition sample_tables : tables :=
  let d := SegDesc 0 0 0 0 0 0 0 0 0 0 0 0 0 in
  Tables d d 0 0 0 (replicate 256 (Gate 0 0 0 0 0 0 0 0 0 0 0)).

Definition sample_desc : seg_desc := SegDesc 7 7 7 7 1 3 1 7 1 1 1 1 7.

Lemma boot_starts_shell_witness :
  exists t' k', entry 101 (fun _ => 0) 0x4050A0 0x405000 (fun _ => 0x400000) sample_desc
      MULTIBOOT_BOOTLOADER_MAGIC boot_base sample_tables
      (power_on boot_memory (sample_devices sample_clock) [])
    = (t', Leave (Iret 0x08048020) k') /\ process_num (sys k') = [0; -1; -1; -1; -1; -1] /\
    pic_imr (pic_after MASTER_8259_PORT (trace (rtc_ports (rtc k')))) = 0xF8 /\
    Z.testbit (clk_reg (rtc_after sample_clock (trace (rtc_ports (rtc k')))) 0xB) 6 = true.
Proof.
  destruct (boot_starts_shell 101 (fun _ => 0) 0x4050A0 0x405000 (fun _ => 0x400000) sample_desc
    boot_memory (sample_devices sample_clock) [] boot_base 10 2 sample_tables) as (k' & He & Hp & Hup).
  - lia.
  - lia.
  - split_and!; vm_compute; congruence.
  - reflexivity.
  - exact boot_memory_info.
  - reflexivity.
  - vm_compute. reflexivity.
  - apply (program_same (image running)); [exact boot_memory_ld | exact running_program].
  - eexists _, k'. split; [etransitivity; [exact He | by do 3 f_equal] |].
    split; [apply Hp |]. destruct (up_devices _ _ _ Hup) as [HP HC _]. split.
    + destruct (HP (sample_devices_pic sample_clock)) as [-> _]. done.
    + destruct (HC sample_clock) as [_ Hb]; [intros tr; reflexivity | vm_compute; split; congruence |].
      rewrite Hb by lia. vm_compute. reflexivity.
Defined.

Lemma boot_refuses_magic_witness :
  exists k', entry 101 (fun _ => 0) 0x4050A0 0x405000 (fun _ => 0x400000) sample_desc 0x1BADB002
      boot_base sample_tables (power_on (bare ∅) sample_ports []) = (sample_tables, Ret tt k').
Proof.
  destruct (boot_refuses_magic 101 (fun _ => 0) 0x4050A0 0x405000 (fun _ => 0x400000) sample_desc
    (bare ∅) sample_ports [] 0x1BADB002 boot_base sample_tables) as (k' & He & _).
  - lia.
  - reflexivity.
  - vm_compute. congruence.
  - by exists k'.
Defined.
