(* ===== verification/Frames.v ===== *)
(** * What the operations leave alone

    [steady k k'] relates two states that agree on the process table, the
    identity of the processes and the kernel's page mapping.  Reading,
    writing, drawing, typing and every other operation that does not start,
    stop or switch a process is steady; the proofs are by the hint database
    of the same name. *)

From S2P Require Import Prelude Memory Lib Paging Devices State Sample.
From S2P Require Import Console Filesys Terminal Syscall Scheduler Keyboard Idt Printing Kernel.

(** ** What stores keep, the memory routines keep *)

Section closed.
Context {M : Type} `{MemOps M} (P : M -> Prop).
Hypothesis P_st : forall m a v, P m -> P (st m a v).

Lemma closed_st32 m a v : P m -> P (st32 m a v).
Proof. intros Hm. unfold st32. by repeat apply P_st. Qed.

Lemma closed_copy_bytes align n : forall m edi esi, P m -> P (copy_bytes align n m edi esi).1.1.1.
Proof.
  induction n as [| n IH]; intros m edi esi Hm; cbn [copy_bytes]; [done |].
  destruct (align && _); [done |]. by apply IH, P_st.
Qed.

Lemma closed_rep_movsl n : forall m edi esi, P m -> P (rep_movsl n m edi esi).1.1.
Proof.
  induction n as [| n IH]; intros m edi esi Hm; cbn [rep_movsl]; [done |].
  by apply IH, closed_st32.
Qed.

Lemma closed_memcpy m dest src n : P m -> P (memcpy m dest src n).
Proof.
  intros Hm. unfold memcpy.
  pose proof (closed_copy_bytes true (Z.to_nat (u32 n)) m dest src Hm) as H1.
  destruct (copy_bytes true _ _ _ _) as [[[m1 edi1] esi1] ecx1]. cbn [fst] in H1.
  pose proof (closed_rep_movsl (Z.to_nat (Z.shiftr (Z.of_nat ecx1) 2)) m1 edi1 esi1 H1) as H2.
  destruct (rep_movsl _ _ _ _) as [[m2 edi2] esi2]. cbn [fst] in H2.
  pose proof (closed_copy_bytes false (Z.to_nat (Z.land (Z.of_nat ecx1) 3)) m2 edi2 esi2 H2) as H3.
  by destruct (copy_bytes false _ _ _ _) as [[[m3 edi3] esi3] ecx3].
Qed.

Lemma closed_strcpy fuel m dest stop src m' :
  P m -> loop fuel (strcpy_turn dest stop src) (m, 0) = Some m' -> P m'.
Proof.
  intros Hm. apply (loop_partial (fun t => P t.1) P); [| done].
  intros [m1 i] H1. cbn [fst strcpy_turn] in *. destruct (_ =? stop); by apply P_st.
Qed.

(** Into memory, not into a local array. *)
Lemma closed_copy_block n : forall (d : M * Z) p dl dr ol, P d.1 -> P (copy_block n d p dl dr ol).1.1.1.1.
Proof.
  induction n as [| n IH]; intros d p dl dr ol Hd; cbn [copy_block]; [done |].
  destruct (negb _); [done |]. destruct (0 <? ol); [by apply IH |]. apply IH. by apply P_st.
Qed.

Lemma closed_read_blocks bb ri n : forall i (d : M * Z) dl dr ol,
  P d.1 -> P (read_blocks bb ri n i d dl dr ol).1.1.
Proof.
  induction n as [| n IH]; intros i d dl dr ol Hd; cbn [read_blocks]; [done |].
  destruct (_ || _); [done |]. destruct (FOUR_KB <? ol); [by apply IH |].
  match goal with |- context [copy_block ?n ?d ?p ?dl ?dr ?ol] =>
    pose proof (closed_copy_block n d p dl dr ol Hd) as H1;
    destruct (copy_block n d p dl dr ol) as [[[d1 dl1] dr1] ol1] end.
  by apply IH.
Qed.

Lemma closed_read_data bb start inode offset (d : M * Z) n :
  P d.1 -> P (read_data bb start inode offset d n).1.1.
Proof.
  intros Hd. unfold read_data. destruct (_ <? _); [done |]. by apply closed_read_blocks.
Qed.
End closed.

(** ** The kernel's page stays mapped *)

(** Same paging, same kernel entry. *)
Record kept (m m' : vmem) : Prop := Kept {
  kept_paging : paging_on m' = paging_on m;
  kept_length : length (page_dir m') = length (page_dir m);
  kept_entry : arr_get (page_dir m') KERNEL_IDX = arr_get (page_dir m) KERNEL_IDX
}.

#[export] Instance kept_refl : Reflexive kept. Proof. by split. Qed.
#[export] Instance kept_trans : Transitive kept.
Proof. intros a b c [H1 H2 H3] [H4 H5 H6]. split; congruence. Qed.

Create HintDb steady.
#[export] Hint Constants Opaque : steady.

Lemma kept_st m0 m a v : kept m0 m -> kept m0 (st m a v).
Proof. intros [H1 H2 H3]. cbn [st vmem_ops]. by destruct (xlate m a). Qed.

Lemma kept_map_page pid m0 m :
  kept m0 m -> kept m0 (map_page (prog_phys pid) UNIT_128_MB m).
Proof.
  intros [H1 H2 H3]. unfold map_page. split; psimpl; rewrite ?length_arr_set; try done.
  by rewrite arr_get_set_ne.
Qed.

Lemma kept_map_vid p m0 m : kept m0 m -> kept m0 (map_vid p m).
Proof. by intros [H1 H2 H3]. Qed.

Lemma kept_get_vidmap t m0 m : kept m0 m -> kept m0 (get_vidmap_page t m).1.
Proof.
  intros [H1 H2 H3]. unfold get_vidmap_page. split; psimpl; rewrite ?length_arr_set; try done.
  by rewrite !arr_get_set_ne.
Qed.

#[export] Hint Resolve kept_st kept_map_page kept_map_vid kept_get_vidmap : steady.

(** The routines on the kernel's memory. *)
Lemma kept_st32 m0 m a v : kept m0 m -> kept m0 (st32 m a v).
Proof. apply (closed_st32 (kept m0)). auto with steady. Qed.

Lemma kept_memcpy m0 m dest src n : kept m0 m -> kept m0 (memcpy m dest src n).
Proof. apply (closed_memcpy (kept m0)). auto with steady. Qed.

Lemma kept_strcpy m0 fuel m dest stop src m' :
  kept m0 m -> loop fuel (strcpy_turn dest stop src) (m, 0) = Some m' -> kept m0 m'.
Proof. apply (closed_strcpy (kept m0)). auto with steady. Qed.

Lemma kept_read_data m0 bb start inode offset (d : vmem * Z) n :
  kept m0 d.1 -> kept m0 (read_data bb start inode offset d n).1.1.
Proof. apply (closed_read_data (kept m0)). auto with steady. Qed.

#[export] Hint Resolve kept_st32 kept_memcpy kept_read_data : steady.

(** A loop of stores. *)
Lemma kept_for_loop m0 n i body m :
  (forall j m, kept m0 m -> kept m0 (body j m)) -> kept m0 m -> kept m0 (for_loop n i body m).
Proof. intros Hb Hm. by apply (for_loop_inv (fun _ => kept m0)); auto. Qed.

Lemma kept_scroll m0 v m : kept m0 m -> kept m0 (_scroll_down_ v m).
Proof.
  intros Hm. unfold _scroll_down_. apply kept_for_loop; [| done]. intros i m1 H1.
  apply kept_for_loop; [| done]. intros j m2 H2. unfold scroll_cell.
  destruct (_ =? _); auto with steady.
Qed.

Lemma kept_clear m0 c m : kept m0 m -> kept m0 (clear_cells c m).
Proof. intros Hm. unfold clear_cells. apply kept_for_loop; [auto with steady | done]. Qed.

Lemma kept_draw m0 base x y c color m : kept m0 m -> kept m0 (draw base x y c color m).1.1.
Proof.
  intros Hm. unfold draw, put_cell. repeat case_match; cbn [fst]; auto using kept_scroll with steady.
Qed.

#[export] Hint Resolve kept_scroll kept_clear kept_draw : steady.

(** ** Steady states *)

(** Same process table, same tasks, same control blocks but for their
    descriptors, same mapping of the kernel. *)
Record steady (k k' : kernel) : Prop := Steady {
  steady_slots : process_num (sys k') = process_num (sys k);
  steady_main : main_process (sys k') = main_process (sys k);
  steady_active : active_terminal (sys k') = active_terminal (sys k);
  steady_tasks : curr_task <$> terminals (sys k') = curr_task <$> terminals (sys k);
  steady_pcbs : forall a, set_fdt [] (pcb_at a k') = set_fdt [] (pcb_at a k) /\
                          length (fdt (pcb_at a k')) = length (fdt (pcb_at a k));
  steady_kernel : kept (mem k) (mem k')
}.

#[export] Instance steady_refl : Reflexive steady.
Proof. intros k. by split. Qed.

#[export] Instance steady_trans : Transitive steady.
Proof.
  intros a b c [H1 H2 H3 H4 H5 H6] [G1 G2 G3 G4 G5 G6].
  split; [congruence.. | | by etransitivity].
  intros x. destruct (H5 x), (G5 x). split; congruence.
Qed.

(** States with the same system-call state and control blocks. *)
Lemma steady_eq k0 k k' :
  steady k0 k -> sys k' = sys k -> pcbs k' = pcbs k -> kept (mem k) (mem k') -> steady k0 k'.
Proof.
  intros Hs H1 H2 H3. transitivity k; [done |]. split; unfold pcb_at; rewrite ?H1, ?H2; done.
Qed.

Section primitives.
Variables k0 k : kernel.
Hypothesis Hk : steady k0 k.

Lemma steady_scr f : steady k0 (upd_scr f k). Proof. by apply (steady_eq k0 k). Qed.
Lemma steady_kbd f : steady k0 (upd_kbd f k). Proof. by apply (steady_eq k0 k). Qed.
Lemma steady_fs f : steady k0 (upd_fs f k). Proof. by apply (steady_eq k0 k). Qed.
Lemma steady_hw f : steady k0 (upd_hw f k). Proof. by apply (steady_eq k0 k). Qed.
Lemma steady_ports f : steady k0 (upd_ports f k). Proof. by apply (steady_eq k0 k). Qed.
Lemma steady_rtc r : steady k0 (set_rtc r k). Proof. by apply (steady_eq k0 k). Qed.
Lemma steady_pending e : steady k0 (set_pending e k). Proof. by apply (steady_eq k0 k). Qed.
Lemma steady_curr_process a : steady k0 (set_curr_process a k). Proof. by apply (steady_eq k0 k). Qed.
Lemma steady_mem m : kept (mem k) m -> steady k0 (set_mem m k).
Proof. intros Hm. by apply (steady_eq k0 k). Qed.
Lemma steady_upd_mem f : kept (mem k) (f (mem k)) -> steady k0 (upd_mem f k).
Proof. intros Hm. by apply (steady_eq k0 k). Qed.

(** A change of the system-call state outside of the process table. *)
Lemma steady_sys f :
  process_num (f (sys k)) = process_num (sys k) -> main_process (f (sys k)) = main_process (sys k) ->
  active_terminal (f (sys k)) = active_terminal (sys k) ->
  terminals (f (sys k)) = terminals (sys k) -> steady k0 (upd_sys f k).
Proof.
  intros H1 H2 H3 H4. transitivity k; [done |].
  split; autorewrite with frame; rewrite ?H1, ?H2, ?H3, ?H4; done.
Qed.

(** A change of a terminal that leaves its task alone. *)
Lemma steady_term i f :
  (forall t, curr_task (f t) = curr_task t) -> steady k0 (upd_term i f k).
Proof.
  intros Hf. transitivity k; [done |]. split; rewrite ?sys_upd_term; ksimpl; try done. unfold arr_set. case_decide; [| done].
  apply list_eq. intros n. rewrite !list_lookup_fmap.
  destruct (decide (n = Z.to_nat i)) as [-> | Hne]; [| by rewrite list_lookup_insert_ne].
  destruct (decide (Z.to_nat i < length (terminals (sys k)))%nat) as [Hl | Hl].
  - rewrite list_lookup_insert_eq by done. unfold term_at. rewrite decide_True by done.
    destruct (lookup_lt_is_Some_2 (terminals (sys k)) (Z.to_nat i)) as [t Ht]; [done |].
    rewrite Ht. cbn [fmap option_fmap option_map default]. by rewrite Hf.
  - by rewrite list_insert_ge by lia.
Qed.

(** A change of a descriptor. *)
Lemma steady_fdt a i f : steady k0 (upd_fdt a i f k).
Proof.
  transitivity k; [done |]. split; autorewrite with frame; try done.
  intros b. unfold upd_fdt. destruct (decide (a = b)) as [-> | Hne].
  - rewrite pcb_at_upd_eq. by rewrite <- (length_arr_set (fdt (pcb_at b k)) i (f (fdt_at (fdt (pcb_at b k)) i))).
  - by rewrite pcb_at_upd_ne.
Qed.
End primitives.

#[export] Hint Resolve steady_scr steady_kbd steady_fs steady_hw steady_ports steady_rtc
  steady_pending steady_curr_process steady_mem steady_upd_mem steady_sys steady_term steady_fdt
  : steady.
#[export] Hint Extern 5 (steady ?k ?k) => reflexivity : steady.
#[export] Hint Extern 5 (kept ?m ?m) => reflexivity : steady.

(** ** Drawing *)

Section drawing.
Variables k0 k : kernel.
Hypothesis Hk : steady k0 k.

Lemma steady_cli : steady k0 (cli k). Proof. unfold cli. auto with steady. Qed.
Lemma steady_sti : steady k0 (sti k). Proof. unfold sti. auto with steady. Qed.
Lemma steady_x x : steady k0 (x_set_screen x k). Proof. unfold x_set_screen. auto with steady. Qed.
Lemma steady_y y : steady k0 (y_set_screen y k). Proof. unfold y_set_screen. auto with steady. Qed.
Lemma steady_cursor : steady k0 (update_cursor k).
Proof. unfold update_cursor. auto with steady. Qed.
Lemma steady_color t : steady k0 (cycle_text_color t k).
Proof. unfold cycle_text_color. auto with steady. Qed.
Lemma steady_pos x y t : steady k0 (set_terminal_pos x y t k).
Proof. unfold set_terminal_pos. auto with steady. Qed.
End drawing.

#[export] Hint Resolve steady_cli steady_sti steady_x steady_y steady_cursor steady_color
  steady_pos : steady.

Section characters.
Variables k0 k : kernel.
Hypothesis Hk : steady k0 k.

Lemma steady_clear : steady k0 (my_clear k).
Proof. unfold my_clear, clear. auto 8 with steady. Qed.

Lemma steady_save_pos : steady k0 (save_pos k).
Proof. unfold save_pos. auto with steady. Qed.

Lemma steady_putc c : steady k0 (putc c k).
Proof.
  unfold putc. pose proof (kept_draw (mem k) VIDEO (screen_x (scr k)) (screen_y (scr k)) (u8 c)
    (text_color (scr k)) (mem k)) as Hd.
  destruct (draw _ _ _ _ _ _) as [[m x] y]. cbn [fst] in Hd. auto 8 with steady.
Qed.

Lemma steady_my_putc c : steady k0 (my_putc c k).
Proof.
  unfold my_putc. pose proof (kept_draw (mem k) (video_return k) (x_return 0 k) (y_return 0 k) (u8 c)
    (text_color (scr k)) (mem k)) as Hd.
  destruct (draw _ _ _ _ _ _) as [[m x] y]. cbn [fst] in Hd. auto 8 with steady.
Qed.

Lemma steady_key_putc c : steady k0 (key_putc c k).
Proof.
  unfold key_putc. set (k1 := y_set_screen _ _).
  assert (H1 : steady k0 k1) by (unfold k1; auto with steady).
  pose proof (kept_draw (mem k1) VIDEO (screen_x (scr k1)) (screen_y (scr k1)) (u8 c)
    (text_color (scr k1)) (mem k1)) as Hd.
  destruct (draw _ _ _ _ _ _) as [[m x] y]. cbn [fst] in Hd. auto 10 with steady.
Qed.
End characters.

#[export] Hint Resolve steady_clear steady_save_pos steady_putc steady_my_putc steady_key_putc
  : steady.

Lemma steady_backspace k0 k : steady k0 k -> steady k0 (_backspace k).
Proof. intros Hk. unfold _backspace. repeat case_match; auto 15 with steady. Qed.

Lemma steady_search_copy n : forall entry char_idx idx buf k0 k,
  steady k0 k -> steady k0 (search_copy n entry char_idx idx buf k).2.
Proof.
  induction n as [| n IH]; intros; cbn [search_copy]; [done |].
  destruct (_ && _); [| done]. apply IH. auto with steady.
Qed.

Lemma steady_fs_search buf idx k0 k : steady k0 k -> steady k0 (fs_search buf idx k).2.
Proof.
  intros Hk. unfold fs_search. repeat case_match; try done. by apply steady_search_copy.
Qed.

#[export] Hint Resolve steady_backspace steady_fs_search : steady.

(** ** Operations *)

(** The state in which a call leaves the machine. *)
Definition final {A} (o : outcome A) : kernel :=
  match o with Ret _ k => k | Leave _ k => k | Spin k => k | Fault k => k end.

(** A relation holds between the states before and after a call. *)
Definition keeps {A} (c : C A) : Prop := forall k0 k, steady k0 k -> steady k0 (final (c k)).

Section rules.
Context {A B : Type}.

Lemma keeps_ret (a : A) : keeps (ret a). Proof. by intros k0 k Hk. Qed.
Lemma keeps_gets (f : kernel -> A) : keeps (gets f). Proof. by intros k0 k Hk. Qed.
Lemma keeps_fault : keeps (@fault A). Proof. by intros k0 k Hk. Qed.
Lemma keeps_spin : keeps (@spin A). Proof. by intros k0 k Hk. Qed.
Lemma keeps_leave e : keeps (@leave A e). Proof. by intros k0 k Hk. Qed.
Lemma keeps_within (o : option A) : keeps (within_fuel o).
Proof. by destruct o; intros k0 k Hk. Qed.
Lemma keeps_modify f : (forall k0 k, steady k0 k -> steady k0 (f k)) -> keeps (modify f).
Proof. intros Hf k0 k Hk. by apply Hf. Qed.
Lemma keeps_bind (c : C A) (f : A -> C B) : keeps c -> (forall a, keeps (f a)) -> keeps (bind c f).
Proof.
  intros Hc Hf k0 k Hk. specialize (Hc k0 k Hk). unfold bind.
  destruct (c k) as [a k1 | | |]; cbn [final] in *; try done. by apply Hf.
Qed.

(** At a state, the two ways a handler continues. *)
Lemma keeps_at (c : C A) k0 k : keeps c -> steady k0 k -> steady k0 (final (c k)).
Proof. auto. Qed.
End rules.

#[export] Hint Resolve keeps_ret keeps_gets keeps_fault keeps_spin keeps_leave keeps_within
  keeps_modify keeps_bind keeps_at : steady.

(** Case analysis down to the leaves, each by the hints. *)
Ltac steady_tac :=
  repeat match goal with
  | |- keeps (bind _ _) => apply keeps_bind; [| intros ?]
  | |- keeps _ => solve [auto with steady]
  | |- keeps _ => intros ? ? ?
  end; repeat (cbn [final fst snd] in *; case_match); cbn [final] in *; subst; auto 12 with steady.

(** A loop over a string that draws each character. *)
Lemma steady_text_loop fuel (body : kernel * Z -> turn (kernel * Z) (kernel * Z)) k0 k i k' i' :
  (forall k1 j, steady k0 k1 ->
     match body (k1, j) with Continue t => steady k0 t.1 | Break t => steady k0 t.1 end) ->
  steady k0 k -> loop fuel body (k, i) = Some (k', i') -> steady k0 k'.
Proof.
  intros Hb Hk Hl. change (steady k0 (k', i').1).
  apply (loop_partial (fun t => steady k0 t.1) (fun t : kernel * Z => steady k0 t.1) body) in Hl;
    [done | | done].
  intros [k1 j] H1. by apply Hb.
Qed.

Ltac text_loop_tac :=
  intros k0 k Hk;
  match goal with |- context [loop ?n ?b ?t] =>
    let E := fresh in destruct (loop n b t) as [[k' i'] |] eqn:E; [| done];
    cbn [final]; eapply steady_text_loop; [| exact Hk | exact E]; clear E end;
  intros k1 j H1; cbv beta iota; match goal with |- context [if ?b then _ else _] => destruct b end; cbn [fst]; auto with steady.

Lemma keeps_puts fuel s : keeps (puts fuel s).
Proof. unfold puts. text_loop_tac. Qed.

Lemma keeps_fs_puts s : keeps (fs_puts s).
Proof. unfold fs_puts. text_loop_tac. Qed.

Lemma keeps_my_puts fuel s n : keeps (my_puts fuel s n).
Proof. unfold my_puts. text_loop_tac. Qed.

#[export] Hint Resolve keeps_puts keeps_fs_puts keeps_my_puts : steady.

Lemma keeps_conv o : keeps (conv o).
Proof. destruct o; cbn [conv]; auto with steady. Qed.

#[export] Hint Resolve keeps_conv : steady.

Lemma keeps_format fuel n fs fmt : forall i alt args, keeps (format_char_switch fuel n fs fmt i alt args).
Proof.
  induction n as [| n IH]; intros i alt args k0 k Hk; cbn [format_char_switch]; [done |].
  repeat (case_match; try done); try (apply keeps_at; [| done]); auto 10 with steady.
  all: repeat (apply keeps_bind; [| intros ?]); try case_match; auto with steady.
Qed.

Lemma keeps_printf_from fuel n fs fmt : forall i args, keeps (printf_from fuel n fs fmt i args).
Proof.
  induction n as [| n IH]; intros i args k0 k Hk; cbn [printf_from]; [done |].
  case_match; [done |]. case_match; apply keeps_at; try done.
  - apply keeps_bind; [apply keeps_format | intros; apply IH].
  - apply keeps_bind; [auto with steady | intros; apply IH].
Qed.

Lemma keeps_printf fuel fmt args : keeps (printf fuel fmt args).
Proof. apply keeps_printf_from. Qed.

#[export] Hint Resolve keeps_printf : steady.

(** Terminal. *)
Lemma keeps_terminal_write_text fuel fd s n : keeps (terminal_write_text fuel fd s n).
Proof.
  unfold terminal_write_text. case_match; [auto with steady |].
  repeat (apply keeps_bind; [| intros ?]); auto with steady.
Qed.

Lemma keeps_terminal_write fuel fd buf n : keeps (terminal_write fuel fd buf n).
Proof. apply keeps_terminal_write_text. Qed.

Lemma keeps_terminal_read fuel fd buf n : keeps (terminal_read fuel fd buf n).
Proof.
  intros k0 k Hk. unfold terminal_read. repeat (case_match; try done).
  apply keeps_at; [auto with steady |]. apply steady_kbd, steady_mem; [done |].
  match goal with H : my_strcpy _ _ _ _ = Some _ |- _ => apply (kept_strcpy _ _ _ _ _ _ _ (reflexivity _) H) end.
Qed.

(** Files and directories. *)
Lemma steady_fill_bitmap i k0 k : steady k0 k -> steady k0 (fill_bitmap i k).
Proof. intros Hk. unfold fill_bitmap, upd_cur_fd. case_match; auto with steady. Qed.

Lemma steady_free_bitmap i k0 k : steady k0 k -> steady k0 (free_bitmap i k).
Proof. intros Hk. unfold free_bitmap, upd_cur_fd. case_match; auto with steady. Qed.

Lemma steady_cur_fd i f k0 k : steady k0 k -> steady k0 (upd_cur_fd i f k).
Proof. intros Hk. unfold upd_cur_fd. auto with steady. Qed.

#[export] Hint Resolve keeps_terminal_write_text keeps_terminal_write keeps_terminal_read
  steady_fill_bitmap steady_free_bitmap steady_cur_fd : steady.

Lemma keeps_file_open fuel f : keeps (file_open fuel f).
Proof. intros k0 k Hk. unfold file_open. repeat (case_match; try done); cbn [final]; auto 10 with steady. Qed.

Lemma keeps_file_close fd : keeps (file_close fd).
Proof. intros k0 k Hk. unfold file_close. case_match; cbn [final]; auto with steady. Qed.

Lemma keeps_file_read fd buf n : keeps (file_read fd buf n).
Proof.
  intros k0 k Hk. unfold file_read. repeat (case_match; try done); cbn [final];
  match goal with H : read_data ?b ?s ?i ?o ?d ?n = _ |- _ =>
    pose proof (kept_read_data (mem k) b s i o d n (reflexivity _)) as Hr; rewrite H in Hr end;
  cbn [fst] in Hr; auto with steady.
Qed.

Lemma keeps_dir_open fuel f : keeps (dir_open fuel f).
Proof. intros k0 k Hk. unfold dir_open. repeat (case_match; try done); cbn [final]; auto 10 with steady. Qed.

Lemma keeps_dir_close fd : keeps (dir_close fd).
Proof. intros k0 k Hk. unfold dir_close. case_match; cbn [final]; auto with steady. Qed.

Lemma keeps_dir_read fuel fd buf n : keeps (dir_read fuel fd buf n).
Proof. intros k0 k Hk. unfold dir_read. repeat (case_match; try done); cbn [final]; auto 10 with steady. Qed.

#[export] Hint Resolve keeps_file_open keeps_file_close keeps_file_read keeps_dir_open
  keeps_dir_close keeps_dir_read : steady.

(** System calls that do not start, stop or switch a process. *)
Lemma keeps_rtc_read : keeps kernel_rtc_read.
Proof. intros k0 k Hk. unfold kernel_rtc_read. repeat (case_match; try done); cbn [final]; auto with steady. Qed.

Lemma keeps_rtc_write buf n : keeps (kernel_rtc_write buf n).
Proof. intros k0 k Hk. unfold kernel_rtc_write. case_match; cbn [final]; auto with steady. Qed.

Lemma keeps_rtc_close : keeps kernel_rtc_close.
Proof. intros k0 k Hk. unfold kernel_rtc_close. case_match; cbn [final]; auto with steady. Qed.

#[export] Hint Resolve keeps_rtc_read keeps_rtc_write keeps_rtc_close : steady.

Lemma keeps_call_read fuel d fd buf n : keeps (call_read fuel d fd buf n).
Proof. destruct d as [[] |]; cbn [call_read]; auto with steady. Qed.

Lemma keeps_call_write fuel d fd buf n : keeps (call_write fuel d fd buf n).
Proof. destruct d as [[] |]; cbn [call_write]; auto with steady; apply keeps_ret. Qed.

Lemma keeps_call_close d fd : keeps (call_close d fd).
Proof. destruct d as [[] |]; cbn [call_close]; auto with steady; apply keeps_ret. Qed.

Lemma steady_set_pcb a k0 k : steady k0 k -> steady k0 (set_filesys_pcb a k).
Proof. intros Hk. unfold set_filesys_pcb. auto with steady. Qed.

#[export] Hint Resolve keeps_call_read keeps_call_write keeps_call_close steady_set_pcb : steady.

Lemma keeps_system_read fuel fd buf n : keeps (system_read fuel fd buf n).
Proof.
  intros k0 k Hk. unfold system_read. case_match; [done |]. cbv zeta.
  apply keeps_at; auto with steady.
Qed.

Lemma keeps_system_write fuel fd buf n : keeps (system_write fuel fd buf n).
Proof.
  intros k0 k Hk. unfold system_write. case_match; [done |]. cbv zeta.
  apply keeps_at; auto with steady.
Qed.

Lemma keeps_system_close fd : keeps (system_close fd).
Proof.
  intros k0 k Hk. unfold system_close. case_match; [done |]. cbv zeta.
  apply keeps_at; auto with steady.
Qed.

Lemma steady_fill_open n : forall pcb fd k0 k, steady k0 k -> steady k0 (fill_open_from n pcb fd k).1.
Proof.
  induction n as [| n IH]; intros pcb fd k0 k Hk; cbn [fill_open_from]; [done |].
  case_match; cbn [fst]; [auto with steady | by apply IH].
Qed.

Lemma steady_store_f_ops addr pcb fd t k0 k : steady k0 k -> steady k0 (store_f_ops addr pcb fd t k).
Proof. intros Hk. unfold store_f_ops. case_match; auto with steady. Qed.

#[export] Hint Resolve steady_fill_open steady_store_f_ops : steady.

Lemma keeps_system_open addr fuel p : keeps (system_open addr fuel p).
Proof.
  intros k0 k Hk. unfold system_open.
  set (k1 := set_filesys_pcb _ k). assert (H1 : steady k0 k1) by (unfold k1; auto with steady).
  clearbody k1. cbv zeta.
  destruct (get_filetype _ _ _ _) as [ty |]; [| done].
  repeat (case_match; try done); cbn [final].
  - by match goal with H : fill_open_fd ?p k1 = (?k2, _) |- _ =>
      pose proof (steady_fill_open (Z.to_nat (MAX_FILES - FILES)) p FILES k0 k1 H1) as Hf;
      unfold fill_open_fd in H; rewrite H in Hf end.
  - match goal with H : fill_open_fd ?p k1 = (?k2, _) |- _ =>
      pose proof (steady_fill_open (Z.to_nat (MAX_FILES - FILES)) p FILES k0 k1 H1) as Hf;
      unfold fill_open_fd in H; rewrite H in Hf end. auto with steady.
  - apply keeps_at; [| done]. repeat (apply keeps_bind; [| intros ?]); auto with steady.
  - apply keeps_at; [| done]. repeat (apply keeps_bind; [| intros ?]); auto with steady.
Qed.

Lemma keeps_system_getargs buf n : keeps (system_getargs buf n).
Proof.
  intros k0 k Hk. unfold system_getargs. case_match; [done |].
  case_match; [| done]. case_match; [done |].
  match goal with |- context [loop ?n ?b ?t] => destruct (loop n b t) as [m |] eqn:Hl; [| done] end.
  apply steady_mem; [done |]. apply (kept_strcpy _ _ _ _ _ _ _ (reflexivity _) Hl).
Qed.

Lemma keeps_system_vidmap p : keeps (system_vidmap p).
Proof.
  intros k0 k Hk. unfold system_vidmap. case_match; [done |].
  pose proof (kept_get_vidmap (active_terminal (sys k)) (mem k) (mem k) (reflexivity _)) as Hv.
  destruct (get_vidmap_page _ _) as [m va]. cbn [final fst] in *. auto with steady.
Qed.

Lemma keeps_parse_command fuel c : keeps (parse_command fuel c).
Proof.
  unfold parse_command. repeat (apply keeps_bind; [| intros ?]); try case_match; auto with steady.
  all: apply keeps_modify; intros; apply steady_sys; done.
Qed.

#[export] Hint Resolve keeps_system_read keeps_system_write keeps_system_close keeps_system_open
  keeps_system_getargs keeps_system_vidmap keeps_parse_command : steady.

(** ** The boot sequence up to the tables *)

Section boot.
Variable fuel : nat.

Lemma keeps_print_fields fmt args : keeps (print_fields fuel fmt args).
Proof. unfold print_fields. repeat (apply keeps_bind; [| intros ?]); auto with steady. Qed.

Lemma keeps_when b c : keeps c -> keeps (when b c).
Proof. intros Hc. apply keeps_bind; [auto with steady | intros []]; auto with steady. Qed.

#[local] Hint Resolve keeps_print_fields keeps_when : steady.

Lemma keeps_print_bytes n : forall i p, keeps (print_bytes fuel n i p).
Proof. induction n; intros i p; cbn [print_bytes]; auto with steady. Qed.

#[local] Hint Resolve keeps_print_bytes : steady.

Lemma keeps_load_module c p : keeps (load_module fuel c p).
Proof.
  unfold load_module. repeat (apply keeps_bind; [| intros ?]); auto with steady.
  apply keeps_modify. intros k0 k Hk. unfold fs_set_start_end. auto with steady.
Qed.

#[local] Hint Resolve keeps_load_module : steady.

Lemma keeps_load_modules mbi n : forall c p, keeps (load_modules fuel n mbi c p).
Proof.
  induction n; intros c p; cbn [load_modules]; (apply keeps_bind; [| intros []]); auto with steady.
Qed.

Lemma keeps_print_mmap mbi n : forall p, keeps (print_mmap fuel n mbi p).
Proof.
  induction n; intros p; cbn [print_mmap]; (apply keeps_bind; [| intros []]); auto with steady.
Qed.

#[local] Hint Resolve keeps_load_modules keeps_print_mmap : steady.

Lemma keeps_print_info magic mbi : keeps (print_info fuel magic mbi).
Proof.
  unfold print_info. apply keeps_bind; [| intros _].
  - apply keeps_modify. intros k0 k Hk. unfold clear. auto with steady.
  - repeat (case_match || (apply keeps_bind; [| intros ?])); auto with steady.
Qed.
End boot.
