(* ===== verification/Processes.v ===== *)
(** * The process table: specification and refinement

    [view] is what the process table means: which terminal owns each slot,
    which process runs, which terminal is shown, the task of each terminal
    and the process number in each control block.  [astep] says how it may
    change.  The theorems show that every way into the kernel (system calls,
    exceptions, the interrupts) refines these steps, and that the table keeps
    its shape in every reachable state. *)

From stdpp Require relations.
From S2P Require Import Prelude Memory Lib Paging Devices State Sample.
From S2P Require Import Console Filesys Terminal Syscall Scheduler Keyboard Idt Printing Kernel Frames.

(** ** Specification *)

Record view := View {
  v_slots : list Z;     (** the terminal that owns each slot, -1 for a free one *)
  v_main : Z;           (** the running process *)
  v_active : Z;         (** the terminal on the screen *)
  v_tasks : list Z;     (** the process in the foreground of each terminal, or -1 *)
  v_pids : list Z       (** the number in the control block of each slot *)
}.

(** The number of the running process, by its control block. *)
Definition v_self (v : view) : Z := arr_get (v_pids v) (v_main v).

Inductive astep : view -> view -> Prop :=
  (** a program starts in the lowest slot that the shown terminal may use *)
  | a_start v i :
      0 <= i < 6 -> arr_get (v_slots v) i = -1 -> slot_for i (v_active v) ->
      (forall t, 0 <= t < i -> slot_for t (v_active v) -> arr_get (v_slots v) t <> -1) ->
      astep v (View (arr_set (v_slots v) i (v_active v)) i (v_active v)
                 (arr_set (v_tasks v) (v_active v) i) (arr_set (v_pids v) i i))
  (** the running process gives up its slot, its terminals go to [p] *)
  | a_exit v p :
      0 <= p < 6 ->
      astep v (View (arr_set (v_slots v) (v_self v) (-1)) (v_main v) (v_active v)
                 ((fun c => if c =? v_self v then p else c) <$> v_tasks v) (v_pids v))
  (** after an exit another process goes on *)
  | a_resume v p :
      0 <= p < 6 -> arr_get (v_slots v) (v_self v) = -1 ->
      astep v (View (v_slots v) p (v_active v) (v_tasks v) (v_pids v))
  (** another terminal is shown *)
  | a_show v t :
      0 <= t < 3 -> t <> v_active v ->
      astep v (View (v_slots v) (v_main v) t (v_tasks v) (v_pids v))
  (** a tick gives the processor to the task of a terminal *)
  | a_switch v t :
      0 <= t < 3 -> arr_get (v_tasks v) t <> -1 -> arr_get (v_tasks v) t <> v_main v ->
      astep v (View (v_slots v) (arr_get (v_pids v) (arr_get (v_tasks v) t)) (v_active v)
                 (v_tasks v) (v_pids v)).

(** Any number of steps. *)
Definition asteps : view -> view -> Prop := relations.rtc astep.

#[export] Instance asteps_preorder : PreOrder asteps.
Proof. apply relations.rtc_po. Qed.

(** The invariant: everything in range, the first three slots are reserved
    for the base shells of their terminals, and the control block of a used
    slot has its number. *)
Definition v_ok (v : view) : Prop :=
  length (v_slots v) = 6%nat /\ length (v_tasks v) = 3%nat /\ length (v_pids v) = 6%nat /\
  0 <= v_main v < 6 /\ 0 <= v_active v < 3 /\
  (forall i, 0 <= i < 6 -> -1 <= arr_get (v_slots v) i < 3) /\
  (forall i, 0 <= i < 3 -> arr_get (v_slots v) i = -1 \/ arr_get (v_slots v) i = i) /\
  (forall t, 0 <= t < 3 -> -1 <= arr_get (v_tasks v) t < 6) /\
  (forall i, 0 <= i < 6 -> 0 <= arr_get (v_pids v) i < 6) /\
  (forall i, 0 <= i < 6 -> arr_get (v_slots v) i <> -1 -> arr_get (v_pids v) i = i).

(** ** The invariant holds along every run *)

Lemma arr_get_set_cases l i j v :
  0 <= j < Z.of_nat (length l) ->
  arr_get (arr_set l i v) j = if decide (i = j) then v else arr_get l j.
Proof.
  intros Hj. case_decide as He; [subst; by apply arr_get_set_eq | by apply arr_get_set_ne].
Qed.

Lemma arr_get_fmap f l j :
  0 <= j < Z.of_nat (length l) -> arr_get (f <$> l) j = f (arr_get l j).
Proof.
  intros Hj. destruct (lookup_lt_is_Some_2 l (Z.to_nat j)) as [x Hx]; [lia |].
  rewrite (arr_get_lookup l j x) by (done || lia). apply arr_get_lookup; [lia |].
  by rewrite list_lookup_fmap, Hx.
Qed.

Ltac v_simpl :=
  repeat match goal with
  | |- context [arr_get (arr_set _ _ _) _] => rewrite arr_get_set_cases by lia
  | |- context [arr_get (_ <$> _) _] => rewrite arr_get_fmap by lia
  end.

Lemma astep_ok v v' : v_ok v -> astep v v' -> v_ok v'.
Proof.
  intros (L1 & L2 & L3 & Hm & Ha & Hs & Hb & Ht & Hp & Hl) Hstep.
  assert (Hself : 0 <= v_self v < 6) by (by apply Hp).
  destruct Hstep as [v i Hi Hfree Hslot _ | v p Hp' | v p Hp' _ | v t Ht' _ | v t Ht' Hn _];
    unfold v_ok; cbn [v_slots v_main v_active v_tasks v_pids];
    rewrite ?length_arr_set, ?length_fmap; split_and!; try done; try lia.
  - intros j Hj. v_simpl. case_match; [lia | by apply Hs].
  - intros j Hj. v_simpl. case_match; [| by apply Hb]. unfold slot_for in Hslot. lia.
  - intros j Hj. v_simpl. case_match; [lia | by apply Ht].
  - intros j Hj. v_simpl. case_match; [lia | by apply Hp].
  - intros j Hj. v_simpl. case_match; [done | by apply Hl].
  - intros j Hj. v_simpl. case_match; [lia | by apply Hs].
  - intros j Hj. v_simpl. case_match; [by left | by apply Hb].
  - intros j Hj. v_simpl. case_match; [lia | by apply Ht].
  - intros j Hj. v_simpl. case_match; [done | by apply Hl].
  - apply Hp. specialize (Ht t). lia.
  - apply Hp. specialize (Ht t). lia.
Qed.

Lemma asteps_ok v v' : v_ok v -> asteps v v' -> v_ok v'.
Proof. intros Hv Hr. induction Hr as [| v v1 v2 H1 _ IH]; [done |]. by apply IH, (astep_ok v). Qed.

(** ** The view of a machine *)

Definition pids (k : kernel) : list Z := (fun i => pid (pcb_at (return_pcb_parent i) k)) <$> seqZ 0 6.

Definition view_of (k : kernel) : view :=
  View (process_num (sys k)) (main_process (sys k)) (active_terminal (sys k))
    (curr_task <$> terminals (sys k)) (pids k).

(** What the view does not show: every control block has eight descriptors
    and a process number in range, and the kernel's page is mapped. *)
Definition shape (k : kernel) : Prop :=
  (forall a, length (fdt (pcb_at a k)) = 8%nat /\ 0 <= pid (pcb_at a k) < 6) /\
  kernel_mapped (mem k).

Definition sound (k : kernel) : Prop := shape k /\ v_ok (view_of k).

Lemma pids_get k i : 0 <= i < 6 -> arr_get (pids k) i = pid (pcb_at (return_pcb_parent i) k).
Proof.
  intros Hi. unfold pids. apply arr_get_lookup; [lia |].
  rewrite list_lookup_fmap, lookup_seqZ_lt by lia. cbn [fmap option_fmap option_map].
  by replace (0 + Z.of_nat (Z.to_nat i)) with i by lia.
Qed.

Lemma pids_ext k k' : (forall a, pid (pcb_at a k') = pid (pcb_at a k)) -> pids k' = pids k.
Proof. intros H. unfold pids. apply list_fmap_ext. intros i x _. apply H. Qed.

Lemma tasks_get k t : arr_get (curr_task <$> terminals (sys k)) t
  = if decide (0 <= t < Z.of_nat (length (terminals (sys k))))
    then curr_task (term_at (terminals (sys k)) t) else 0.
Proof.
  unfold arr_get, term_at. rewrite list_lookup_fmap.
  destruct (decide (0 <= t)) as [Ht |]; [| by rewrite decide_False by lia].
  destruct (terminals (sys k) !! Z.to_nat t) as [x |] eqn:Hx; cbn [fmap option_fmap option_map default].
  - apply lookup_lt_Some in Hx. by rewrite decide_True by lia.
  - apply lookup_ge_None in Hx. by rewrite decide_False by lia.
Qed.

Lemma kept_kernel m m' : kept m m' -> kernel_mapped m -> kernel_mapped m'.
Proof. intros [H1 H2 H3]. unfold kernel_mapped. by rewrite H1, H2, H3. Qed.

(** A steady change is invisible. *)
Lemma steady_view k k' : steady k k' -> view_of k' = view_of k.
Proof.
  intros [H1 H2 H3 H4 H5 _]. unfold view_of. rewrite H1, H2, H3, H4. f_equal.
  apply pids_ext. intros a. destruct (H5 a) as [H _]. by apply (f_equal pid) in H.
Qed.

Lemma steady_shape k k' : steady k k' -> shape k -> shape k'.
Proof.
  intros [_ _ _ _ H5 H6] [Hs Hk]. split; [| by apply (kept_kernel (mem k))].
  intros a. destruct (H5 a) as [Hp Hl]. apply (f_equal pid) in Hp.
  change (pid (set_fdt [] ?p)) with (pid p) in Hp. rewrite Hl, Hp. apply Hs.
Qed.

#[export] Instance sound_steady : Proper (steady ==> impl) sound.
Proof.
  intros k k' Hk [Hs Hv]. split; [by apply (steady_shape k) |]. by rewrite (steady_view k k').
Qed.

(** ** Refinement of a call *)

Definition refines {A} (c : C A) : Prop :=
  forall k, sound k -> sound (final (c k)) /\ asteps (view_of k) (view_of (final (c k))).

Lemma refines_keeps {A} (c : C A) : keeps c -> refines c.
Proof.
  intros Hc k Hs. pose proof (Hc k k (reflexivity k)) as Hk. split; [by apply (sound_steady k) |].
  rewrite (steady_view k (final (c k)) Hk). reflexivity.
Qed.

(** Calls compose as the steps do. *)
Lemma refines_bind {A B} (c : C A) (f : A -> C B) :
  refines c -> (forall a, refines (f a)) -> refines (bind c f).
Proof.
  intros Hc Hf k Hs. destruct (Hc k Hs) as [H1 H2]. unfold bind.
  destruct (c k) as [a k1 | | |]; cbn [final] in *; try done.
  destruct (Hf a k1 H1) as [H3 H4]. split; [done |]. by etransitivity.
Qed.

Lemma bind_gets {A B} (f : kernel -> A) (g : A -> C B) k : bind (gets f) g k = g (f k) k.
Proof. done. Qed.

Lemma bind_modify {B} f (g : unit -> C B) k : bind (modify f) g k = g tt (f k).
Proof. done. Qed.

(** After a prefix that the steps allow. *)
Lemma refines_after {A} (c : C A) k k1 :
  refines c -> sound k1 -> asteps (view_of k) (view_of k1) ->
  sound (final (c k1)) /\ asteps (view_of k) (view_of (final (c k1))).
Proof.
  intros Hc Hs Hv. destruct (Hc k1 Hs) as [H1 H2]. split; [done |]. by etransitivity.
Qed.

(** One step to a state with the shape. *)
Lemma refines_step k k' : sound k -> shape k' -> astep (view_of k) (view_of k') ->
  sound k' /\ asteps (view_of k) (view_of k').
Proof.
  intros [Hs Hv] Hs' Hstep. split; [split; [done | by apply (astep_ok (view_of k))] |].
  by apply relations.rtc_once.
Qed.

(** A state with the same view. *)
Lemma sound_same k k' : sound k -> shape k' -> view_of k' = view_of k -> sound k'.
Proof. intros [_ Hv] Hs He. split; [done | by rewrite He]. Qed.

(** ** Starting a process *)

Lemma arr_ext (l l' : list Z) :
  length l = length l' -> (forall j, 0 <= j < Z.of_nat (length l) -> arr_get l j = arr_get l' j) -> l = l'.
Proof.
  intros Hl H. apply list_eq_same_length with (length l); [done | done |].
  intros i x y Hi Hx Hy. specialize (H (Z.of_nat i) ltac:(lia)).
  rewrite (arr_get_lookup l (Z.of_nat i) x) in H by (rewrite ?Nat2Z.id; done || lia).
  by rewrite (arr_get_lookup l' (Z.of_nat i) y) in H by (rewrite ?Nat2Z.id; done || lia).
Qed.

Lemma length_pids k : length (pids k) = 6%nat.
Proof. unfold pids. by rewrite length_fmap, length_seqZ. Qed.

Lemma tasks_set ts t v :
  0 <= t -> curr_task <$> arr_set ts t (set_curr_task v (term_at ts t)) = arr_set (curr_task <$> ts) t v.
Proof.
  intros Ht. unfold arr_set. rewrite !decide_True by done. by rewrite list_fmap_insert.
Qed.

(** A new number in one control block. *)
Lemma pids_set i v k k' :
  0 <= i < 6 -> pid (pcb_at (return_pcb_parent i) k') = v ->
  (forall a, a <> return_pcb_parent i -> pid (pcb_at a k') = pid (pcb_at a k)) ->
  pids k' = arr_set (pids k) i v.
Proof.
  intros Hi Hv Ho. apply arr_ext; [by rewrite length_arr_set, !length_pids |].
  rewrite length_pids. intros j Hj. rewrite pids_get by lia.
  rewrite arr_get_set_cases by (rewrite length_pids; lia).
  case_decide as He; [by subst |]. rewrite Ho, pids_get; [done | lia |].
  intros He'. apply pcb_addr_inj in He'; lia.
Qed.

Lemma started_refines inode i k k' :
  sound k -> find_slot 8 0 k = Some i -> started inode i (taken i k) k' ->
  sound k' /\ asteps (view_of k) (view_of k').
Proof.
  intros Hs Hslot Hst. pose proof Hs as [[Hpcb Hkm] (L1 & L2 & _ & _ & Ha & _)].
  cbn [view_of v_slots v_tasks v_active] in *. rewrite length_fmap in L2.
  pose proof (find_slot_spec 8 0 k Ha ltac:(lia) ltac:(lia)) as Hf. rewrite Hslot in Hf.
  destruct Hf as (Hi & Hfree & Hsf & Hlow).
  destruct Hst as (Hsys & (Hpid & _ & _ & Hlen & _) & _ & _ & Hother & _ & Hmem & _).
  apply refines_step; [done | split |].
  - intros a. destruct (decide (a = return_pcb_parent i)) as [-> | Hne]; [rewrite Hpid, Hlen; lia |].
    rewrite Hother by done. apply Hpcb.
  - rewrite Hmem. apply (kept_kernel (mem k)); [| done]. unfold loaded, load_program.
    autorewrite with frame. change (mem (taken i k)) with (mem k).
    match goal with |- context [read_data ?b ?s ?n ?o ?d ?l] =>
      pose proof (kept_read_data (mem k) b s n o d l) as Hr; destruct (read_data b s n o d l) as [d' r] end.
    apply Hr. cbn [fst]. unfold map_prog. by apply kept_map_page.
  - assert (Hv : view_of k' = View (arr_set (process_num (sys k)) i (active_terminal (sys k))) i
      (active_terminal (sys k)) (arr_set (curr_task <$> terminals (sys k)) (active_terminal (sys k)) i)
      (arr_set (pids k) i i)).
    { unfold view_of. rewrite Hsys. autorewrite with frame. unfold taken. autorewrite with frame. ksimpl.
      rewrite tasks_set, s8_small by lia. f_equal.
      apply pids_set; [lia | done |]. intros a Hne. by rewrite Hother. }
    rewrite Hv. apply (a_start (view_of k)); done || lia.
Qed.

(** A call that the hints know to be steady. *)
Ltac by_keeps := apply refines_keeps; [auto with steady | done].

Section calls.
Variable junk : Z -> Z.
Variable table_addr : table -> Z.
Variable fuel : nat.

Lemma refines_execute command : refines (system_execute junk fuel command).
Proof.
  apply refines_bind; [apply refines_keeps, keeps_parse_command |]. intros word k Hs.
  rewrite bind_gets. destruct (read_dentry_by_name _ _ _ _) as [[d |] |]; [| by_keeps | by_keeps].
  destruct (negb _); [by_keeps |].
  destruct (find_slot 8 0 k) as [i |] eqn:Hslot; [| by_keeps].
  pose proof Hs as [[Hpcb _] (L1 & _ & _ & _ & Ha & _)].
  pose proof (find_slot_spec 8 0 k Ha ltac:(lia) ltac:(lia)) as Hf. rewrite Hslot in Hf.
  destruct (start_process_spec junk (inode_num d) i (taken i k)) as (k' & He & Hst); [lia | apply Hpcb |].
  rewrite bind_modify. fold (taken i k). rewrite He. by apply (started_refines (inode_num d) i).
Qed.

(** ** Ending a process *)

(** A change of a control block that keeps its number and descriptors. *)
Lemma pcb_same a f k :
  (forall p, pid (f p) = pid p /\ fdt (f p) = fdt p) -> sound k ->
  sound (upd_pcb a f k) /\ view_of (upd_pcb a f k) = view_of k.
Proof.
  intros Hf Hs. assert (Hp : forall b, pid (pcb_at b (upd_pcb a f k)) = pid (pcb_at b k) /\
    fdt (pcb_at b (upd_pcb a f k)) = fdt (pcb_at b k)).
  { intros b. destruct (decide (a = b)) as [-> | Hne]; [by rewrite pcb_at_upd_eq | by rewrite pcb_at_upd_ne]. }
  assert (Hv : view_of (upd_pcb a f k) = view_of k).
  { unfold view_of. autorewrite with frame. f_equal. apply pids_ext. intros b. apply Hp. }
  split; [| done]. apply (sound_same k); [done | | done]. destruct Hs as [[Hs Hk] _].
  split; [| done]. intros b. destruct (Hp b) as [-> ->]. apply Hs.
Qed.

(** After the terminals of a process went to another. *)
Lemma halt_terminals_view q p k :
  length (terminals (sys k)) = 3%nat ->
  let k' := halt_terminals q p k in
  process_num (sys k') = process_num (sys k) /\ main_process (sys k') = main_process (sys k) /\
  active_terminal (sys k') = active_terminal (sys k) /\
  curr_task <$> terminals (sys k')
  = (fun c => if c =? q then p else c) <$> (curr_task <$> terminals (sys k)) /\
  (forall a, pcb_at a k' = pcb_at a k) /\ mem k' = mem k.
Proof.
  intros Hl k'. destruct (halt_terminals_spec q p k Hl) as (Hl' & Hc & ts & Hk').
  fold k' in Hl', Hc, Hk'. split_and!; try (by rewrite Hk').
  apply arr_ext; rewrite !length_fmap, ?Hl, ?Hl'; [done |]. intros j Hj.
  rewrite arr_get_fmap by (rewrite length_fmap; lia). rewrite !tasks_get.
  rewrite !decide_True by lia. apply Hc. lia.
Qed.

(** The state in which a halting process has given everything up. *)
Definition exited (status : Z) (k : kernel) : kernel :=
  let k := cli k in
  let a := return_pcb_parent (main_process (sys k)) in
  let parent := parent_pcb (pcb_at a k) in
  let k := upd_pcb parent (set_status_retval status) k in
  let k := halt_terminals (pid (pcb_at a k)) (pid (pcb_at parent k)) k in
  upd_sys (fun s => set_process_num (arr_set (process_num s) (pid (pcb_at a k)) (-1)) s) k.

Lemma exited_refines status k :
  sound k ->
  sound (exited status k) /\ asteps (view_of k) (view_of (exited status k)) /\
  arr_get (v_slots (view_of (exited status k))) (v_self (view_of (exited status k))) = -1 /\
  main_process (sys (exited status k)) = main_process (sys k).
Proof.
  intros Hs. unfold exited. set (a := return_pcb_parent _). set (parent := parent_pcb _).
  assert (H1 : sound (cli k)) by (apply (sound_steady k); [unfold cli; auto with steady | done]).
  destruct (pcb_same parent (set_status_retval status) (cli k)) as [H2 E2]; [done | done |].
  set (k2 := upd_pcb parent _ (cli k)) in *. change (view_of (cli k)) with (view_of k) in E2.
  pose proof H2 as [S2 (L1 & L2 & _ & Hm & _ & _ & _ & _ & Hp & _)].
  cbn [view_of v_slots v_tasks v_main v_pids] in *. rewrite length_fmap in L2.
  set (q := pid (pcb_at a k2)). set (p := pid (pcb_at parent k2)).
  destruct (halt_terminals_view q p k2 L2) as (F1 & F2 & F3 & F4 & F5 & F6).
  set (k3 := halt_terminals q p k2) in *. clearbody k3.
  assert (Hq : v_self (view_of k2) = q).
  { unfold v_self. cbn [view_of v_pids v_main]. by rewrite pids_get. }
  assert (Hq3 : pid (pcb_at a k3) = q) by (by rewrite F5).
  assert (Hqr : 0 <= q < 6) by apply S2.
  rewrite Hq3. set (k4 := upd_sys _ k3).
  assert (Ep : pids k4 = pids k2).
  { apply pids_ext. intros b. unfold k4. autorewrite with frame. by rewrite F5. }
  assert (Ev : view_of k4
    = View (arr_set (process_num (sys k2)) q (-1)) (main_process (sys k2)) (active_terminal (sys k2))
        ((fun c => if c =? q then p else c) <$> (curr_task <$> terminals (sys k2))) (pids k2)).
  { unfold view_of. rewrite Ep. unfold k4. autorewrite with frame. ksimpl. by rewrite F1, F2, F3, F4. }
  destruct (refines_step k2 k4) as [H4 R4]; [done | | |].
  { destruct S2 as [S2 K2]. unfold k4. split; [| autorewrite with frame; by rewrite F6].
    intros b. autorewrite with frame. rewrite F5. apply S2. }
  { rewrite Ev. rewrite <- Hq. apply (a_exit (view_of k2)). apply S2. }
  rewrite E2 in R4. split; [done |]. split; [done |]. split.
  - rewrite Ev. unfold v_self. cbn [v_slots v_pids v_main].
    replace (arr_get (pids k2) (main_process (sys k2))) with q by (by rewrite <- Hq).
    apply arr_get_set_eq. rewrite ?F1, L1. lia.
  - unfold k4. autorewrite with frame. ksimpl. by rewrite F2.
Qed.

(** A program that could not be started left the process table alone. *)
Lemma execute_returns command r k k' :
  system_execute junk fuel command k = Ret r k' -> steady k k'.
Proof.
  unfold system_execute, bind at 1.
  pose proof (keeps_parse_command fuel command k k (reflexivity k)) as H1.
  destruct (parse_command fuel command k) as [word k1 | | |]; [| done | done | done].
  cbn [final] in H1. rewrite bind_gets.
  destruct (read_dentry_by_name _ _ _ _) as [[d |] |]; [| by intros [= _ <-] | done].
  destruct (negb _); [by intros [= _ <-] |]. destruct (find_slot 8 0 k1) as [i |].
  - rewrite bind_modify. unfold start_process. by destruct (create_pcb i _) as [k2 pcb].
  - intros He. transitivity k1; [done |].
    pose proof (keeps_at (my_puts fuel (lit "Max processes.
") 15;; ret 0) k1 k1) as Hk. rewrite He in Hk. apply Hk; auto with steady.
Qed.

Lemma resume_refines status a parent k :
  sound k -> arr_get (v_slots (view_of k)) (v_self (view_of k)) = -1 ->
  sound (final (resume_parent status a parent k)) /\
  asteps (view_of k) (view_of (final (resume_parent status a parent k))).
Proof.
  intros Hs Hfree. pose proof Hs as [[Hp Hk] _]. unfold resume_parent. cbn [final leave].
  set (p := pid (pcb_at parent k)). apply refines_step; [done | split |].
  - intros b. unfold set_regs, set_esp0, set_main. autorewrite with frame. apply Hp.
  - unfold set_regs, set_esp0, set_main. autorewrite with frame.
    apply (kept_kernel (mem k)); [by apply kept_map_page | done].
  - assert (Ev : forall f g, view_of (set_regs f g (set_esp0 (kernel_stack p)
        (upd_mem (map_page (prog_phys p) UNIT_128_MB) (set_main p k))))
      = View (process_num (sys k)) p (active_terminal (sys k)) (curr_task <$> terminals (sys k)) (pids k))
      by done.
    rewrite Ev. apply (a_resume (view_of k)); [apply Hp | done].
Qed.

Lemma refines_halt status : refines (system_halt junk fuel status).
Proof.
  intros k Hs. unfold system_halt.
  destruct (exited_refines (u8 status) k Hs) as (H1 & R1 & Hfree & Hm).
  unfold exited in *. set (a := return_pcb_parent _) in *. set (parent := parent_pcb _) in *.
  set (k1 := upd_sys _ _) in *. clearbody k1.
  assert (Hres : forall k2, steady k1 k2 -> sound (final (resume_parent (u8 status) a parent k2)) /\
            asteps (view_of k) (view_of (final (resume_parent (u8 status) a parent k2)))).
  { intros k2 H2. pose proof (steady_view k1 k2 H2) as Ev.
    destruct (resume_refines (u8 status) a parent k2) as [H3 R3];
      [by apply (sound_steady k1) | by rewrite Ev |].
    split; [done |]. etransitivity; [exact R1 |]. by rewrite <- Ev. }
  destruct (_ <? MAX_TERMINALS); [| by apply Hres].
  unfold execute_shell, bind at 1 2.
  destruct (refines_execute (arr_get (str_bytes "shell")) k1 H1) as [H2 R2].
  destruct (system_execute junk fuel (arr_get (str_bytes "shell")) k1) as [r k2 | e k2 | k2 | k2] eqn:He;
    cbn [final] in *; try (split; [done | by etransitivity]).
  apply Hres. by apply (execute_returns (arr_get (str_bytes "shell")) r).
Qed.

(** ** Switching terminals and processes *)

Lemma steady_save_screen k0 k : steady k0 k -> steady k0 (save_screen k).
Proof. intros Hk. unfold save_screen. auto with steady. Qed.

Lemma steady_restore_screen k0 k : steady k0 k -> steady k0 (restore_screen k).
Proof. intros Hk. unfold restore_screen. auto with steady. Qed.

Hint Resolve steady_save_screen steady_restore_screen : steady.

Lemma steady_show k0 k : steady k0 k -> steady k0 (show_terminal k).
Proof. intros Hk. unfold show_terminal. auto 8 with steady. Qed.

Hint Resolve steady_show : steady.

Lemma save_pit_same a k : sound k -> sound (save_pit_regs a k) /\ view_of (save_pit_regs a k) = view_of k.
Proof. intros Hs. by apply pcb_same. Qed.

Lemma refines_switch terminal : 0 <= terminal < 3 -> refines (switch_terminal junk fuel terminal).
Proof.
  intros Ht k Hs. unfold switch_terminal.
  destruct (Z.eqb_spec (active_terminal (sys k)) terminal) as [He | Hne]; [by split |].
  set (k1 := cycle_text_color _ _).
  assert (Hst : steady k k1) by (unfold k1; auto 8 with steady).
  assert (H1 : sound k1) by (by apply (sound_steady k)).
  pose proof (steady_view k k1 Hst) as E1. clearbody k1.
  set (k2 := upd_sys (set_active_terminal (u8 terminal)) k1).
  assert (Ev : view_of k2 = View (process_num (sys k1)) (main_process (sys k1)) terminal
      (curr_task <$> terminals (sys k1)) (pids k1)).
  { unfold view_of, k2. autorewrite with frame. ksimpl. by rewrite u8_small by lia. }
  destruct (refines_step k1 k2) as [H2 R2]; [done | apply H1 | |].
  { rewrite Ev. apply (a_show (view_of k1)); [done |]. rewrite E1. cbn. congruence. }
  rewrite E1 in R2. clearbody k2. destruct (_ =? -1).
  - set (k3 := restore_screen k2).
    assert (H3 : steady k2 k3) by (unfold k3; auto with steady). clearbody k3.
    destruct (save_pit_same (return_pcb_parent (main_process (sys k3))) k3) as [H4 E4];
      [by apply (sound_steady k2) |].
    set (k4 := save_pit_regs _ k3) in *. clearbody k4.
    apply refines_after.
    + apply refines_bind; [apply refines_execute | intros _; apply refines_keeps; auto with steady].
    + apply (sound_steady k4); [auto with steady | done].
    + rewrite (steady_view k4 (sti k4)) by auto with steady. rewrite E4, (steady_view k2 k3) by done.
      done.
  - apply refines_after; [apply refines_keeps; auto with steady | done | done].
Qed.

(** What [check_tasks] finds is the task of a terminal. *)
Lemma check_tasks_from_task n : forall i num k,
  0 <= num + i ->
  check_tasks_from n i num k = -1 \/
  exists t, 0 <= t < 3 /\ check_tasks_from n i num k = curr_task (term_at (terminals (sys k)) t) /\
    check_tasks_from n i num k <> main_process (sys k) /\ check_tasks_from n i num k <> -1.
Proof.
  induction n as [| n IH]; intros i num k Hi; cbn [check_tasks_from]; [by left |].
  set (task := curr_task _). destruct (Z.eqb_spec task (main_process (sys k)));
    [apply IH; lia |]. destruct (Z.eqb_spec task (-1)); [apply IH; lia |]. cbn [negb andb].
  right. exists (Z.rem (num + i) 3). rewrite Z.rem_mod_nonneg by lia.
  split; [apply Z.mod_pos_bound; lia |]. unfold task in *. rewrite Z.rem_mod_nonneg in * by lia. done.
Qed.

Lemma refines_tick : refines scheduler_handler.
Proof.
  intros k Hs. unfold scheduler_handler, switch_task.
  set (k1 := upd_ports _ k). assert (H1 : steady k k1) by (unfold k1; auto with steady).
  assert (S1 : sound k1) by (by apply (sound_steady k)).
  pose proof (steady_view k k1 H1) as E1. clearbody k1.
  destruct (Z.eqb_spec (check_tasks (get_main_process k1) k1) (-1)) as [He | Hne].
  { change (u32 (-1) =? u32 (-1)) with true. split; [done |]. cbn [final]. by rewrite E1. }
  change (0 =? u32 (-1)) with false. cbv iota. rewrite <- E1.
  pose proof S1 as [[Hp Hk] (L1 & L2 & L3 & Hm & Ha & Hsl & _ & Ht & Hpid & _)].
  cbn [view_of v_slots v_tasks v_main v_pids v_active] in *. rewrite length_fmap in L2.
  destruct (check_tasks_from_task 3 1 (arr_get (process_num (sys k1)) (main_process (sys k1))) k1)
    as [Hc | (t & Hr & Hc & Hnm & _)]; [specialize (Hsl _ Hm); lia | by contradict Hne |].
  fold (check_tasks (main_process (sys k1)) k1) in Hc, Hnm. unfold get_main_process in *.
  set (next := check_tasks (main_process (sys k1)) k1) in *.
  assert (Htask : arr_get (curr_task <$> terminals (sys k1)) t = next)
    by (rewrite tasks_get, decide_True by lia; done).
  assert (Hn : 0 <= next < 6) by (specialize (Ht t Hr); lia).
  rewrite !task_pcb_eq by done. set (a := return_pcb_parent (main_process (sys k1))).
  set (b := return_pcb_parent next).
  set (k2 := set_curr_process b k1). change (curr_process k2) with b.
  change (pcb_at b k2) with (pcb_at b k1). unfold set_main_process_u8.
  assert (Hb : 0 <= pid (pcb_at b k1) < 6) by apply Hp. rewrite u8_small by lia.
  set (p := pid (pcb_at b k1)) in *. set (k3 := set_main p k2).
  destruct (refines_step k1 k3) as [H3 R3]; [done | done | |].
  { assert (Ev : view_of k3 = View (process_num (sys k1)) p (active_terminal (sys k1))
      (curr_task <$> terminals (sys k1)) (pids k1)) by done.
    rewrite Ev. replace p with (arr_get (v_pids (view_of k1)) (arr_get (v_tasks (view_of k1)) t)).
    - apply (a_switch (view_of k1)); cbn; rewrite ?Htask; done.
    - cbn [view_of v_pids v_tasks]. rewrite Htask. by apply pids_get. }
  destruct (save_pit_same a k3 H3) as [H4 E4]. rewrite <- E4 in R3.
  set (k4 := save_pit_regs a k3) in *. clearbody k4. cbn [final leave].
  set (k5 := set_regs _ _ _).
  assert (H5 : steady k4 k5) by (unfold k5, set_regs, set_esp0; auto 12 with steady).
  clearbody k5. split; [by apply (sound_steady k4) | by rewrite (steady_view k4 k5)].
Qed.

(** ** The keyboard *)

Lemma steady_put_key i c k0 k : steady k0 k -> steady k0 (put_key i c k).
Proof. intros Hk. unfold put_key, upd_key_term, upd_kb_term. auto with steady. Qed.

Lemma steady_set_idx i k0 k : steady k0 k -> steady k0 (set_idx i k).
Proof. intros Hk. unfold set_idx. auto with steady. Qed.

Lemma steady_set_chars i k0 k : steady k0 k -> steady k0 (set_chars i k).
Proof. intros Hk. unfold set_chars. auto with steady. Qed.

Lemma steady_key_done k0 k : steady k0 k -> steady k0 (key_done k).
Proof. intros Hk. unfold key_done, upd_key_term, upd_kb_term. auto with steady. Qed.

Hint Resolve steady_put_key steady_set_idx steady_set_chars steady_key_done : steady.

Lemma steady_complete k0 k : steady k0 k -> steady k0 (complete_key k).
Proof.
  intros Hk. unfold complete_key.
  pose proof (steady_fs_search (key_buf k) (keyboard_buf_idx (kbd k)) k0 k Hk) as Hf.
  destruct (fs_search _ _ _) as [[idx buf] k']. cbn [snd] in Hf.
  unfold upd_key_term, upd_kb_term. auto with steady.
Qed.

Hint Resolve steady_complete : steady.

Lemma keeps_getScancode : keeps getScancode.
Proof. intros k0 k Hk. unfold getScancode. case_match; cbn [final]; auto with steady. Qed.

Lemma keeps_set_pressed i v : keeps (set_pressed i v).
Proof. intros k0 k Hk. unfold set_pressed. case_match; cbn [final]; auto with steady. Qed.

Lemma keeps_enter : keeps enter_line.
Proof. intros k0 k Hk. unfold enter_line. repeat (case_match; try done); cbn [final]; auto 12 with steady. Qed.

Lemma keeps_line_key test : keeps (line_key test).
Proof.
  intros k0 k Hk. unfold line_key. case_match; [| apply keeps_enter; auto with steady].
  cbn [final]. case_match; auto with steady.
Qed.

Hint Resolve keeps_getScancode keeps_set_pressed keeps_line_key : steady.

Lemma keeps_char_key c : keeps (char_key c).
Proof. intros k0 k Hk. unfold char_key. cbn [final]. case_match; auto with steady. Qed.

Hint Resolve keeps_char_key : steady.

(** A handler that branches on the state. *)
Lemma refines_fun {A} (c : C A) :
  (forall k, sound k -> sound (final (c k)) /\ asteps (view_of k) (view_of (final (c k)))) -> refines c.
Proof. done. Qed.

Lemma refines_control c : refines (control_keys junk fuel c).
Proof.
  intros k Hs. unfold control_keys. case_match; [| case_match; [| case_match]].
  - apply refines_keeps; [| done]. repeat (apply keeps_bind; [| intros ?]); auto with steady.
  - apply refines_bind; [apply refines_keeps; auto with steady | intros _ | done].
    apply refines_bind; [apply refines_keeps; auto with steady | intros _].
    apply refines_bind; [apply refines_keeps; auto with steady | intros _].
    apply refines_bind; [apply refines_halt | intros _]. apply refines_keeps. auto with steady.
  - apply refines_keeps; [apply keeps_ret | done].
  - apply refines_keeps; [apply keeps_ret | done].
Qed.

Lemma refines_pressed c : refines (pressed_key junk fuel c).
Proof.
  intros k Hs. unfold pressed_key. case_match.
  { apply (refines_keeps (fun k => Ret DONT_PRINT (upd_kbd (fun b =>
      set_caps_lock_check (s32 (- caps_lock_check b)) b) k))); [| done].
    intros k0 k1 Hk. cbn [final]. auto with steady. }
  apply refines_bind; [apply refines_control | | done]. intros [r |]; [apply refines_keeps; auto with steady |].
  intros k1 H1. destruct (pressed L_ALT_KEY k1 && _ && _) eqn:Halt.
  - apply andb_true_iff in Halt as [Halt Hhi]. apply andb_true_iff in Halt as [_ Hlo].
    apply Z.leb_le in Hlo. apply Z.ltb_lt in Hhi. unfold MAX_TERMINALS in Hhi.
    apply refines_bind; [apply refines_keeps; auto with steady | intros _ | done].
    apply refines_bind; [apply refines_switch; lia | intros _]. apply refines_keeps. auto with steady.
  - case_match; [by apply (refines_keeps (ret DONT_PRINT)); [apply keeps_ret |] |].
    case_match; [by apply (refines_keeps (ret DONT_PRINT)); [apply keeps_ret |] |].
    case_match; [| apply refines_keeps; auto with steady].
    apply (refines_keeps (fun k => let k := _backspace k in
      let k := set_idx (keyboard_buf_idx (kbd k) - 1) k in
      Ret DONT_PRINT (set_chars (s32 (num_chars (kbd k) - 1)) k))); [| done].
    intros k0 k2 Hk. cbn [final]. auto with steady.
Qed.

Lemma refines_getChar : refines (getChar junk fuel).
Proof.
  unfold getChar. apply refines_bind; [apply refines_keeps; auto with steady | intros c].
  case_match; [| case_match]; [| apply refines_keeps; repeat (apply keeps_bind; [| intros ?]); auto with steady
    | apply refines_keeps; auto with steady].
  apply refines_bind; [apply refines_keeps; auto with steady | intros _]. apply refines_pressed.
Qed.

Lemma refines_keyboard : refines (keyboard_handler junk fuel).
Proof.
  intros k Hs. unfold keyboard_handler. set (k1 := set_idx _ _).
  assert (Hk : steady k k1) by (unfold k1; auto with steady).
  rewrite <- (steady_view k k1 Hk). assert (H1 : sound k1) by (by apply (sound_steady k)).
  clearbody k1. apply refines_bind; [apply refines_getChar | | done]. intros test.
  case_match; [apply refines_keeps; auto with steady |]. intros k2 H2. case_match.
  - apply (refines_keeps (fun k => Ret tt (upd_ports (send_eoi KEYBOARD_IRQ_NUM)
      (put_key (BUFSIZE - 1) NEWLINE k)))); [| done]. intros k0 k3 Hk3. cbn [final]. auto with steady.
  - apply refines_keeps; [| done]. repeat (apply keeps_bind; [| intros ?]); auto with steady.
Qed.

(** ** Every way into the kernel *)

Lemma refines_wrapper eax ebx ecx edx : refines (syscall_wrapper junk table_addr fuel eax ebx ecx edx).
Proof.
  intros k Hs. unfold syscall_wrapper. case_match; [by split |].
  assert (Hk : steady k (sti k)) by auto with steady.
  rewrite <- (steady_view k (sti k) Hk). assert (H1 : sound (sti k)) by (by apply (sound_steady k)).
  generalize dependent (sti k). intros k1 _ H1.
  assert (Hf : sound k1 /\ asteps (view_of k1) (view_of k1)) by done.
  repeat (case_match; try exact Hf);
    lazymatch goal with
    | |- context [system_halt] => by apply refines_halt
    | |- context [system_execute] => by apply refines_execute
    | _ => by_keeps
    end.
Qed.

Lemma refines_exception s : refines (exception junk fuel s).
Proof.
  unfold exception. apply refines_bind; [apply refines_keeps; auto with steady | intros _].
  apply refines_bind; [apply refines_halt | intros _]. apply refines_keeps. auto with steady.
Qed.

Lemma refines_service h eax ebx ecx edx : refines (service junk table_addr fuel h eax ebx ecx edx).
Proof.
  destruct h; try apply refines_exception; cbn [service].
  - apply refines_keeps. unfold DEFAULT. repeat (apply keeps_bind; [| intros ?]); auto with steady.
  - apply refines_bind; [apply refines_wrapper | intros _]. apply refines_keeps. auto with steady.
  - apply refines_keeps. auto with steady.
  - apply refines_keyboard.
  - apply refines_tick.
Qed.

(** One step of the machine: a routine that a vector leads to, a program
    that the kernel starts itself, a new scancode on the keyboard port, or
    user code, which changes registers and memory but not the tables. *)
Inductive kstep : kernel -> kernel -> Prop :=
  | k_service h eax ebx ecx edx k :
      kstep k (final (service junk table_addr fuel h eax ebx ecx edx k))
  | k_shell k : kstep k (final (execute_shell junk fuel k))
  | k_key c k : kstep k (with_key c k)
  | k_user r h k : kstep k (set_hw h (upd_mem (set_ram r) k)).

(** [k] is the state in which the boot sequence, from power on, executes the
    first program. *)
Definition booted (magic mbi : Z) (m : vmem) (p : ports) (evs : list irq) (k : kernel) : Prop :=
  exists k1, print_info fuel magic mbi (power_on m p evs) = Ret true k1 /\
    init_system fuel (upd_ports i8259_init (load_tss_stack k1)) = Ret tt k.


Lemma kstep_refines k k' : sound k -> kstep k k' -> sound k' /\ asteps (view_of k) (view_of k').
Proof.
  intros Hs Hstep.
  assert (Hst : forall k1, steady k k1 -> sound k1 /\ asteps (view_of k) (view_of k1)).
  { intros k1 H1. split; [by apply (sound_steady k) |]. by rewrite (steady_view k k1). }
  destruct Hstep as [h eax ebx ecx edx k | k | c k | r h k].
  - by apply refines_service.
  - by apply refines_execute.
  - apply Hst. unfold with_key. auto with steady.
  - apply Hst. by apply (steady_eq k k).
Qed.

(** No process yet. *)
Record fresh (k : kernel) : Prop := Fresh {
  fresh_slots : process_num (sys k) = replicate 6 (-1);
  fresh_main : main_process (sys k) = 0;
  fresh_active : active_terminal (sys k) = 0;
  fresh_terminals : length (terminals (sys k)) = 3%nat;
  fresh_pcbs : forall a, length (fdt (pcb_at a k)) = 8%nat /\ pid (pcb_at a k) = 0
}.

Lemma fresh_steady k k' : steady k k' -> fresh k -> fresh k'.
Proof.
  intros [H1 H2 H3 H4 H5 _] [F1 F2 F3 F4 F5]. split; try congruence.
  - by rewrite <- (length_fmap curr_task), H4, length_fmap.
  - intros a. destruct (H5 a) as [Hp Hl], (F5 a) as [G1 G2]. apply (f_equal pid) in Hp.
    change (pid (set_fdt [] ?p)) with (pid p) in Hp. split; congruence.
Qed.

(** The tables are sound after [init_terminals]. *)
Lemma fresh_sound k : fresh k -> kernel_mapped (mem k) -> sound (init_terminals k).
Proof.
  intros [F1 F2 F3 F4 F5] Hm. split.
  - split; [| exact Hm]. intros a. change (pcb_at a (init_terminals k)) with (pcb_at a k).
    destruct (F5 a) as [-> ->]. lia.
  - assert (Ht : curr_task <$> terminals (sys (init_terminals k)) = replicate 3 (-1)).
    { revert F4. change (terminals (sys (init_terminals k)))
        with (terminals (for_loop 3 0 (fun i s => set_terminals (arr_set (terminals s) i
                (init_terminal i (term_at (terminals s) i))) s) (sys k))).
      generalize (sys k). intros [a1 a2 a3 a4 ts a5 a6 a7 a8] Hl. cbn [terminals] in Hl.
      destruct ts as [| t0 [| t1 [| t2 [| t3 ts]]]]; try done. }
    assert (Hv : view_of (init_terminals k)
      = View (replicate 6 (-1)) 0 0 (replicate 3 (-1)) (replicate 6 0)).
    { unfold view_of. rewrite Ht. change (process_num (sys (init_terminals k))) with (process_num (sys k)).
      change (main_process (sys (init_terminals k))) with (main_process (sys k)).
      change (active_terminal (sys (init_terminals k))) with (active_terminal (sys k)).
      rewrite F1, F2, F3. f_equal. unfold pids. change (replicate 6 0) with ((fun _ => 0) <$> seqZ 0 6).
      apply list_fmap_ext. intros i x _. apply F5. }
    rewrite Hv. unfold v_ok. cbn [v_slots v_tasks v_pids v_main v_active].
    split_and!; try done; intros i Hi; rewrite ?arr_get_replicate by lia; try lia; by left.
Qed.

Lemma power_on_fresh m p evs : fresh (power_on m p evs).
Proof. by split. Qed.

Lemma booted_sound magic mbi m p evs k :
  length (page_dir m) = DIR_SIZE -> booted magic mbi m p evs k -> sound k.
Proof.
  intros Hm (k1 & He1 & He2). set (k0 := power_on m p evs) in *.
  assert (H1 : steady k0 k1).
  { pose proof (keeps_print_info fuel magic mbi k0 k0 (reflexivity _)) as Hk. by rewrite He1 in Hk. }
  revert He2. unfold init_system, terminal_open, modify, ret, bind. cbv beta iota.
  match goal with |- context [printf fuel (lit "Enabling Interrupts
") [] ?k] => set (k2 := k) end.
  assert (H2 : steady k0 k2) by (unfold k2, load_tss_stack, upd_rtc; auto 20 with steady).
  pose proof (keeps_printf fuel (lit "Enabling Interrupts
") [] k0 k2 H2) as H3. clearbody k2. revert H3.
  destruct (printf fuel _ [] k2) as [r3 k3 | | |]; intros H3; try done. cbn [final] in H3.
  assert (Hd : length (page_dir (mem k3)) = DIR_SIZE) by by rewrite (kept_length _ _ (steady_kernel _ _ H3)).
  set (k4 := fs_init (upd_mem setup_paging (sti k3))).
  assert (H4 : fresh k4) by (destruct (fresh_steady k0 k3 H3 (power_on_fresh m p evs)); by split).
  assert (Hk4 : kernel_mapped (mem k4)) by exact (setup_paging_kernel (mem k3) Hd).
  pose proof (keeps_printf fuel (lit "Got to the end
") [] k4 k4 (reflexivity _)) as H5. clearbody k4. revert H5.
  destruct (printf fuel _ [] k4) as [r5 k5 | | |]; intros H5 He; try done. cbn [final] in H5.
  injection He as <-. apply steady_clear in H5. revert H5. generalize (my_clear k5). intros k7 H7.
  set (k6 := upd_ports pit_init (setup_exec k7)).
  assert (H6 : steady k4 k6).
  { unfold k6, setup_exec. cbv zeta. apply steady_ports. by do 4 (apply steady_sys; [| done..]). }
  apply (sound_steady (init_terminals k6)).
  - apply steady_curr_process. reflexivity.
  - apply fresh_sound; [by apply (fresh_steady k4) |].
    exact (kept_kernel (mem k4) (mem k6) (steady_kernel _ _ H6) Hk4).
Qed.

(** ** Properties *)

(** C4: Refinement: from a sound state, every way into the kernel (any
    system call, exception or interrupt, with any arguments, whether it
    returns, leaves to a process, hangs or faults) changes the process table
    only by steps of the specification: starting in the lowest slot the
    shown terminal may use, exiting, resuming after an exit, showing another
    terminal, switching to the task of a terminal. *)
Theorem kernel_refines_processes k k' :
  sound k -> kstep k k' -> asteps (view_of k) (view_of k').
Proof. intros Hs Hstep. by apply kstep_refines. Qed.

End calls.

(** ** Witnesses *)

(** The boot sequence on the memory of Kernel.v. *)
Lemma sample_booted : exists k, booted 101 MULTIBOOT_BOOTLOADER_MAGIC boot_base boot_memory sample_ports [] k.
Proof.
  destruct (print_info_returns 101 ltac:(lia) boot_base 10 (power_on boot_memory sample_ports []))
    as (k1 & H1 & Hp1); [by apply power_on_ready | exact boot_memory_info | lia |].
  destruct (prints_ram _ _ Hp1) as [r Hm1].
  destruct (init_system_reaches 101 ltac:(lia) (upd_ports i8259_init (load_tss_stack k1))) as (k & H2 & _).
  - exact (prints_ready _ _ Hp1).
  - change (tables_wf (mem k1)). rewrite Hm1. split_and!; vm_compute; congruence.
  - change (paging_on (mem k1) = false). by rewrite Hm1.
  - exists k, k1. exact (conj H1 H2).
Qed.

Lemma kernel_refines_processes_witness :
  exists k, booted 101 MULTIBOOT_BOOTLOADER_MAGIC boot_base boot_memory sample_ports [] k /\
    asteps (view_of k)
      (view_of (final (service (fun _ => 0) (fun _ => 0) 101 H_pit_wrapper 0 0 0 0 k))).
Proof.
  destruct sample_booted as [k Hk]. exists k. split; [exact Hk |].
  apply (kernel_refines_processes (fun _ => 0) (fun _ => 0) 101).
  - by eapply booted_sound; [| exact Hk].
  - apply k_service.
Defined.

