(* ===== verification/Usermode.v ===== *)
(** * User programs on the kernel

    The system calls of a program, by INT 0x80 through the wrapper, as an
    instance of the interface of Userland.v, and the proof that the kernel
    keeps what the programs rely on.  So the theorems about the programs hold
    on the machine. *)

From S2P Require Import Prelude Memory Lib Paging Devices State Sample Console Filesys Terminal.
From S2P Require Import Syscall Printing Userland.

(** ** Memory and system calls *)

#[export] Instance kernel_mem : MemOps kernel := {
  ld k a := ld (mem k) a;
  st k a v := set_mem (st (mem k) a v) k;
  loc k a := loc (mem k) a
}.

#[export] Instance kernel_mem_laws : MemLaws kernel.
Proof.
  split.
  - intros k a. apply (ld_byte (mem k)).
  - intros k a v b Ha. exact (ld_st (mem k) a v b Ha).
  - intros k a v b. exact (loc_st (mem k) a v b).
Qed.

Section instance.
Variable junk : Z -> Z.
Variable table_addr : table -> Z.
Variable fuel : nat.

(** [INT $0x80] with the registers that the wrapper of ece391syscall.S
    loads. *)
Definition int80 (eax ebx ecx edx : Z) : U kernel Z := fun k =>
  match syscall_wrapper junk table_addr fuel eax ebx ecx edx k with
  | Ret a k' => Returns a k'
  | Leave _ k' | Spin k' | Fault k' => Stops k'
  end.

#[local] Instance kernel_calls : SysCalls kernel := {
  user_mem := kernel_mem;
  ece391_halt status := int80 1 status 0 0;
  ece391_execute command := int80 2 command 0 0;
  ece391_read fd buf nbytes := int80 3 fd buf nbytes;
  ece391_write fd buf nbytes := int80 4 fd buf nbytes;
  ece391_open filename := int80 5 filename 0 0;
  ece391_close fd := int80 6 fd 0 0;
  ece391_getargs buf nbytes := int80 7 buf nbytes 0;
  ece391_vidmap screen_start := int80 8 screen_start 0 0;
  call_sys num := int80 num (junk 0) (junk 1) (junk 2)
}.

(** ** What the program's terminal shows *)

(** The page, the cursor and the colour. *)
Definition shown_t : Type := list Z * (Z * Z) * Z.

Definition shown (k : kernel) : shown_t :=
  (bytes (mem k) (video_return k) 4000, (x_return 0 k, y_return 0 k), text_color (scr k)).

Definition show_char (d : shown_t) (c : Z) : shown_t :=
  let '(page, (x, y), color) := d in
  (drawn (arr_get page) x y c color <$> seqZ 0 4000, next_pos c x y, color).

(** ** Where things are *)

Definition user_page (a : Z) : Prop := UNIT_128_MB <= a < UNIT_128_MB + UNIT_4_MB.

(** The descriptor [fd] of the running process. *)
Definition proc_fd (fd : Z) (k : kernel) : fdt_t := fdt_at (fdt (pcb_at (main_pcb k) k)) fd.

(** The machine as a running program needs it. *)
Record served (k : kernel) : Prop := Served {
  sv_console : console_wf k;
  sv_tables : tables_set k;
  sv_kernel : kernel_mapped (mem k);
  sv_user : exists p, 0 <= p < 6 /\
    forall o, 0 <= o < UNIT_4_MB -> xlate (mem k) (UNIT_128_MB + o) = Some (prog_phys p + o);
  sv_page : exists q, VIDEO <= q /\ q + 4000 <= UNIT_4_MB /\
    forall i, 0 <= i < 4000 -> xlate (mem k) (video_return k + i) = Some (q + i);
  sv_fdt : length (fdt (pcb_at (main_pcb k) k)) = 8%nat;
  sv_std : forall fd, 0 <= fd < 2 ->
    flags (proc_fd fd k) <> 0 /\ f_ops (proc_fd fd k) = Some TerminalTable
}.

Lemma user_loc k a : served k -> user_page a ->
  exists p, 0 <= p < 6 /\ loc (mem k) a = Some (prog_phys p + (a - UNIT_128_MB)) /\
    forall b, user_page b -> loc (mem k) b = Some (prog_phys p + (b - UNIT_128_MB)).
Proof.
  intros Hs Ha. destruct (sv_user k Hs) as (p & Hp & Hx). exists p. split; [done |].
  assert (Hall : forall b, user_page b -> loc (mem k) b = Some (prog_phys p + (b - UNIT_128_MB))).
  { intros b Hb. unfold user_page in Hb. cbn [loc vmem_ops].
    replace b with (UNIT_128_MB + (b - UNIT_128_MB)) at 1 by lia. apply Hx. lia. }
  split; [by apply Hall | exact Hall].
Qed.

Lemma user_not_kernel k a b : served k -> user_page a -> in_kernel b -> loc (mem k) b <> loc (mem k) a.
Proof.
  intros Hs Ha Hb. destruct (user_loc k a Hs Ha) as (p & Hp & -> & _).
  rewrite (kernel_loc (mem k) b (sv_kernel k Hs) Hb), prog_phys_eq by done.
  unfold in_kernel, user_page, UNIT_8_MB, UNIT_4_MB, UNIT_128_MB in *. intros [= ?]. lia.
Qed.

Lemma user_not_video k a i : served k -> user_page a -> 0 <= i < 4000 ->
  loc (mem k) a <> loc (mem k) (video_return k + i).
Proof.
  intros Hs Ha Hi. destruct (user_loc k a Hs Ha) as (p & Hp & -> & _).
  destruct (sv_page k Hs) as (q & Hq1 & Hq2 & Hx). cbn [loc vmem_ops]. rewrite Hx by done.
  rewrite prog_phys_eq by done. unfold user_page, UNIT_8_MB, UNIT_4_MB, UNIT_128_MB in *.
  intros [= ?]. lia.
Qed.

Lemma kernel_not_video k a i : served k -> in_kernel a -> 0 <= i < 4000 ->
  loc (mem k) a <> loc (mem k) (video_return k + i).
Proof.
  intros Hs Ha Hi. rewrite (kernel_loc (mem k) a (sv_kernel k Hs) Ha).
  destruct (sv_page k Hs) as (q & Hq1 & Hq2 & Hx). cbn [loc vmem_ops]. rewrite Hx by done.
  unfold in_kernel, UNIT_4_MB in *. intros [= ?]. lia.
Qed.

Lemma served_video k : served k -> region (mem k) (video_return k) 4000.
Proof.
  intros Hs. destruct (sv_page k Hs) as (q & _ & _ & Hx). split.
  - intros i Hi. cbn [loc vmem_ops]. rewrite Hx by lia. by eexists.
  - intros i j Hi Hj. cbn [loc vmem_ops]. rewrite !Hx by lia. intros [= ?]. lia.
Qed.

Lemma user_region k a n :
  served k -> (forall i, 0 <= i < Z.of_nat n -> user_page (a + i)) -> region (mem k) a n.
Proof.
  intros Hs Hu. split.
  - intros i Hi. destruct (user_loc k (a + i) Hs (Hu i Hi)) as (p & _ & -> & _). by eexists.
  - intros i j Hi Hj. destruct (user_loc k (a + i) Hs (Hu i Hi)) as (p & _ & -> & Hall).
    rewrite Hall by by apply Hu. intros [= ?]. lia.
Qed.

(** ** Steps that change no descriptor *)

(** From [k] to [k'] nothing changed for the program's files: drawing,
    stores to its page, the interrupt flag. *)
Record quiet (k k' : kernel) : Prop := Quiet {
  quiet_ram : exists r, mem k' = set_ram r (mem k);
  quiet_image : forall a, in_kernel a -> image k' a = image k a;
  quiet_boot : boot_block (fs k') = boot_block (fs k);
  quiet_start : FS_START_ADDR (fs k') = FS_START_ADDR (fs k);
  quiet_kbd : kbd k' = kbd k;
  quiet_pcbs : pcbs k' = pcbs k;
  quiet_sys : exists ts, sys k' = set_terminals ts (sys k);
  quiet_console : console_wf k'
}.

Lemma quiet_refl k : console_wf k -> quiet k k.
Proof.
  intros Hc. split; try done; [exists (ram (mem k)); by destruct (mem k) |].
  exists (terminals (sys k)). by destruct (sys k).
Qed.

Lemma quiet_trans a b c : quiet a b -> quiet b c -> quiet a c.
Proof.
  intros [[r A1] A2 A3 A4 A5 A6 [ts A7] A8] [[r' B1] B2 B3 B4 B5 B6 [ts' B7] B8].
  split; try congruence.
  - exists r'. by rewrite B1, A1.
  - intros x Hx. by rewrite B2, A2.
  - exists ts'. by rewrite B7, A7.
Qed.

(** What a step must keep for the machine to go on serving. *)
Lemma served_keeps k k' :
  served k -> (exists r, mem k' = set_ram r (mem k)) -> console_wf k' ->
  (exists ts, sys k' = set_terminals ts (sys k)) ->
  length (fdt (pcb_at (main_pcb k) k')) = 8%nat ->
  (forall fd, 0 <= fd < 2 -> flags (proc_fd fd k') = flags (proc_fd fd k) /\
     f_ops (proc_fd fd k') = f_ops (proc_fd fd k)) ->
  served k'.
Proof.
  intros [S1 S2 S3 S4 S5 S6 S7] [r Hm] Hc [ts Hs] Hl H0.
  assert (Hx : forall a, xlate (mem k') a = xlate (mem k) a) by (intros a; by rewrite Hm).
  assert (Hv : video_return k' = video_return k) by (unfold video_return, main_terminal; by rewrite Hs).
  split; try done.
  - unfold tables_set. by rewrite Hs.
  - by rewrite Hm.
  - destruct S4 as (p & Hp & Hu). exists p. split; [done |]. intros o Ho. rewrite Hx. by apply Hu.
  - destruct S5 as (q & Hq1 & Hq2 & Hq). exists q. split_and!; try done. intros i Hi.
    rewrite Hx, Hv. by apply Hq.
  - unfold main_pcb in *. by rewrite Hs.
  - intros fd Hfd. destruct (H0 fd Hfd) as [-> ->]. by apply S7.
Qed.

Lemma quiet_fd fd k k' : quiet k k' -> proc_fd fd k' = proc_fd fd k.
Proof.
  intros Hq. destruct (quiet_sys k k' Hq) as [ts Hs]. unfold proc_fd, main_pcb, pcb_at.
  by rewrite Hs, (quiet_pcbs k k' Hq).
Qed.

Lemma quiet_served k k' : quiet k k' -> served k -> served k'.
Proof.
  intros Hq Hs. apply (served_keeps k); try done; try apply Hq.
  - unfold pcb_at. rewrite (quiet_pcbs k k' Hq). apply Hs.
  - intros fd _. by rewrite (quiet_fd fd k).
Qed.

(** A step outside of memory and the terminals. *)
Lemma quiet_eq k k' :
  console_wf k -> mem k' = mem k -> sys k' = sys k -> scr k' = scr k -> kbd k' = kbd k ->
  pcbs k' = pcbs k -> boot_block (fs k') = boot_block (fs k) ->
  FS_START_ADDR (fs k') = FS_START_ADDR (fs k) ->
  quiet k k' /\ shown k' = shown k.
Proof.
  intros Hc Hm Hs Hscr Hk Hp Hb Hst. split.
  - split; try done.
    + exists (ram (mem k)). rewrite Hm. by destruct (mem k).
    + intros a _. unfold image. by rewrite Hm.
    + exists (terminals (sys k)). rewrite Hs. by destruct (sys k).
    + unfold console_wf, main_terminal in *. by rewrite Hs, Hscr.
  - unfold shown, video_return, x_return, y_return, cursor_terminal, main_terminal.
    by rewrite Hm, Hs, Hscr.
Qed.

(** ** Stores to the program's page *)

Lemma write_ram (l : list Z) : forall a (m : vmem), exists r, write m a l = set_ram r m.
Proof.
  induction l as [| v l IH]; intros a m; [exists (ram m); by destruct m |]. cbn [write].
  destruct (st_ram m a v) as [r ->]. destruct (IH (a + 1) (set_ram r m)) as [r' ->]. by exists r'.
Qed.

Lemma quiet_user_write k a l :
  served k -> (forall i, 0 <= i < Z.of_nat (length l) -> user_page (a + i)) ->
  let k' := set_mem (write (mem k) a l) k in quiet k k' /\ shown k' = shown k.
Proof.
  intros Hs Hu k'. pose proof (user_region k a (length l) Hs Hu) as Hr.
  assert (Hld : forall b, (forall i, 0 <= i < Z.of_nat (length l) -> loc (mem k) b <> loc (mem k) (a + i)) ->
    ld (mem k') b = ld (mem k) b) by (intros b Hb; by apply ld_write_apart).
  split; [split; try done |].
  - apply write_ram.
  - intros b Hb. apply Hld. intros i Hi. by apply (user_not_kernel k); [| apply Hu |].
  - exists (terminals (sys k)). change (sys k') with (sys k). by destruct (sys k).
  - apply Hs.
  - unfold shown. f_equal. f_equal. apply bytes_ext. intros i Hi.
    change (video_return k') with (video_return k). apply Hld. intros j Hj He.
    by apply (user_not_video k (a + j) i Hs (Hu j Hj) Hi).
Qed.

(** ** Drawing *)

Lemma drawn_ext f g x y c color n :
  on_screen x y -> (forall i, 0 <= i < 4000 -> f i = g i) -> 0 <= n < 4000 ->
  drawn f x y c color n = drawn g x y c color n.
Proof.
  intros Hon Hfg Hn. unfold drawn, scrolled.
  destruct ((c =? NEWLINE) || (c =? CR)); destruct (scrolls c x y); try (by apply Hfg);
    try (destruct (Z.odd n); [| destruct (Z.ltb_spec n 3840)]); try done; try (apply Hfg; lia);
    repeat case_decide; try done; apply Hfg; lia.
Qed.

Lemma putc_quiet c k :
  served k -> 0 <= c < 256 ->
  quiet k (my_putc c k) /\ shown (my_putc c k) = show_char (shown k) c /\
  (forall a, user_page a -> ld (mem (my_putc c k)) a = ld (mem k) a).
Proof.
  intros Hs Hc.
  assert (Hsys : exists ts, sys (my_putc c k) = set_terminals ts (sys k)).
  { exists (terminals (sys (my_putc c k))). unfold my_putc. by destruct (draw _ _ _ _ _ _) as [[m x] y]. }
  assert (Hrest : kbd (my_putc c k) = kbd k /\ pcbs (my_putc c k) = pcbs k /\
    fs (my_putc c k) = fs k /\ text_color (scr (my_putc c k)) = text_color (scr k)).
  { unfold my_putc. by destruct (draw _ _ _ _ _ _) as [[m x] y]. }
  pose proof (served_video k Hs) as Hr.
  destruct (my_putc_spec c k (sv_console k Hs) Hc) as (Hwf & Hpos & Hm).
  pose proof (console_wf_return 0 k (sv_console k Hs)) as Hon.
  destruct (draw_page (video_return k) (x_return 0 k) (y_return 0 k) c (text_color (scr k)) (mem k)
    Hr Hon Hc) as (_ & Hf & Ho). rewrite <- Hm in Hf, Ho.
  destruct Hrest as (Hk & Hp & Hfs & Hcol).
  assert (Hv : video_return (my_putc c k) = video_return k).
  { destruct Hsys as [ts Hts]. unfold video_return, main_terminal. by rewrite Hts. }
  split; [split; rewrite ?Hfs; try done |].
  - rewrite Hm. apply draw_ram.
  - intros a Ha. apply Ho. intros i Hi. by apply (kernel_not_video k).
  - split; [| intros a Ha; apply Ho; intros i Hi; by apply (user_not_video k)].
    unfold shown, show_char. rewrite Hpos, Hcol, Hv. f_equal. f_equal.
    apply list_eq. intros i. rewrite list_lookup_fmap.
    destruct (decide (i < 4000)%nat) as [Hi | Hi].
    + rewrite bytes_lookup, lookup_seqZ_lt by lia. cbn [fmap option_fmap option_map]. f_equal.
      rewrite Z.add_0_l, Hf by lia. apply drawn_ext; [done | | lia]. intros j Hj.
      rewrite <- (Z2Nat.id j) at 1 by lia. symmetry.
      rewrite (arr_get_lookup _ j (ld (mem k) (video_return k + Z.of_nat (Z.to_nat j)))); [done | lia |].
      apply bytes_lookup. lia.
    + rewrite lookup_ge_None_2 by (rewrite length_bytes; lia).
      rewrite lookup_seqZ_ge by lia. done.
Qed.

Lemma draw_all_quiet l : forall k,
  served k -> Forall (fun c => 0 <= c < 256) l ->
  quiet k (draw_all l k) /\ shown (draw_all l k) = foldl show_char (shown k) l /\
  (forall a, user_page a -> ld (mem (draw_all l k)) a = ld (mem k) a).
Proof.
  induction l as [| c l IH]; intros k Hs Hl.
  - split_and!; [apply quiet_refl, Hs | done | done].
  - apply Forall_cons in Hl as [Hc Hl]. destruct (putc_quiet c k Hs Hc) as (Hq & Hd & Hu).
    destruct (IH (my_putc c k) (quiet_served _ _ Hq Hs) Hl) as (Hq' & Hd' & Hu').
    cbn [draw_all foldl]. split_and!.
    + by apply (quiet_trans k (my_putc c k)).
    + unfold draw_all in Hd'. by rewrite Hd', Hd.
    + intros a Ha. unfold draw_all in Hu'. by rewrite Hu', Hu.
Qed.

Lemma draw_all_pending l : forall k, pending (draw_all l k) = pending k.
Proof.
  induction l as [| c l IH]; intros k; [done |]. change (pending (draw_all l (my_putc c k)) = pending k).
  rewrite IH. unfold my_putc. by destruct (draw _ _ _ _ _ _) as [[m x] y].
Qed.

(** ** write *)

Lemma bytes_range (m : vmem) a n : Forall (fun c => 0 <= c < 256) (bytes m a n).
Proof.
  revert a. induction n as [| n IH]; intros a; constructor; [apply (ld_byte m) | apply IH].
Qed.

Lemma write_draws buf n k :
  served k -> 0 <= n <= Z.min (Z.of_nat fuel - 1) 65536 -> user_page buf ->
  (forall i, 0 <= i < n -> user_page (buf + i)) ->
  exists k', int80 4 1 buf n k = Returns n k' /\ quiet k k' /\
    shown k' = foldl show_char (shown k) (bytes (mem k) buf (Z.to_nat n)) /\
    (forall a, user_page a -> ld (mem k') a = ld (mem k) a) /\ pending k' = pending k.
Proof.
  intros Hs Hn Hb Hu.
  set (k1 := set_filesys_pcb (return_pcb_parent (main_process (sys k))) (sti k)).
  set (k2 := cli k1). set (l := bytes (mem k) buf (Z.to_nat n)).
  destruct (quiet_eq k k2 (sv_console k Hs) eq_refl eq_refl eq_refl eq_refl eq_refl eq_refl eq_refl)
    as [Hq2 Hd2].
  pose proof (quiet_served k k2 Hq2 Hs) as Hs2.
  assert (Hl : Forall (fun c => 0 <= c < 256) l) by apply bytes_range.
  destruct (draw_all_quiet l k2 Hs2 Hl) as (Hq3 & Hd3 & Hu3).
  set (k3 := draw_all l k2) in *.
  destruct (quiet_eq k3 (sti k3) (quiet_console _ _ Hq3) eq_refl eq_refl eq_refl eq_refl eq_refl eq_refl eq_refl)
    as [Hq4 Hd4].
  exists (sti k3). split_and!.
  - unfold int80, syscall_wrapper. change (u32 4) with 4. cbn [Z.ltb Z.compare orb]. cbv iota.
    change ((NUM_SYSCALLS <? 4) || (4 <? 1)) with false. cbv iota.
    unfold system_write. rewrite (proj2 (Z.eqb_neq buf 0))
      by (unfold user_page, UNIT_128_MB in Hb; lia).
    change (s32 1) with 1. change ((1 <? 0) || (MAX_FD <? 1)) with false. cbn [orb]. cbv zeta.
    rewrite s32_small by lia. change (main_process (sys (sti k))) with (main_process (sys k)).
    fold k1. unfold fd_ops.
    change (fdt_at (fdt (pcb_at (return_pcb_parent (main_process (sys k))) k1)) 1) with (proc_fd 1 k).
    rewrite (proj2 (sv_std k Hs 1 ltac:(lia))). cbn [table_of]. change (terminal_table (sys k1)) with (terminal_table (sys k)).
    rewrite (proj2 (proj2 (proj2 (proj2 (proj2 (proj2 (proj2 (proj2 (sv_tables k Hs))))))))).
    cbn [call_write]. unfold terminal_write, terminal_write_text. cbn [Z.eqb Pos.eqb negb].
    unfold bind, modify. fold k2.
    destruct (my_puts_spec fuel buf (Z.to_nat n) k2) as [Hp _]; [apply Hs2 | by apply served_video | | lia |].
    { intros b i Hb' Hi. unfold within in Hb'. apply user_not_video; [done | | done].
      replace b with (buf + (b - buf)) by lia. apply Hu. lia. }
    rewrite Z2Nat.id in Hp by lia. rewrite Hp.
    change (bytes (mem k2) buf (Z.to_nat n)) with l. fold k3. unfold ret. by rewrite Z.eqb_refl.
  - apply (quiet_trans k k2); [done |]. by apply (quiet_trans k2 k3).
  - by rewrite Hd4, Hd3, Hd2.
  - intros a Ha. change (ld (mem (sti k3)) a) with (ld (mem k3) a). rewrite Hu3 by done. done.
  - exact (draw_all_pending l k2).
Qed.

(** ** Files of the image *)

(** A file of the image, which lies in the kernel's page. *)
Definition in_image (inode : Z) (k : kernel) : Prop :=
  file_of k inode /\ forall a, addr_of k inode a -> in_kernel a.

Lemma in_image_agree inode k k' :
  (forall a, in_kernel a -> image k' a = image k a) -> boot_block (fs k') = boot_block (fs k) ->
  FS_START_ADDR (fs k') = FS_START_ADDR (fs k) -> in_image inode k ->
  in_image inode k' /\ length_of k' inode = length_of k inode /\
  (forall n off, 0 <= off -> off + Z.of_nat n <= length_of k inode ->
     bytes_of k' inode n off = bytes_of k inode n off).
Proof.
  intros Hi Hb Hs [Hok Ha]. unfold in_image. rewrite Hb, Hs.
  assert (Hag : agree (image k) (boot_block (fs k)) (FS_START_ADDR (fs k)) inode (image k'))
    by (intros a Haa; by apply Hi, Ha).
  split_and!.
  - by apply (same_ok (image k)).
  - intros a Haa. apply Ha. by apply (same_addr (image k) (image k')) in Haa.
  - by apply (same_length (image k) (image k') (boot_block (fs k))).
  - intros n off H1 H2. by apply same_bytes.
Qed.

Lemma in_image_same inode k k' :
  quiet k k' -> in_image inode k ->
  in_image inode k' /\ length_of k' inode = length_of k inode /\
  (forall n off, 0 <= off -> off + Z.of_nat n <= length_of k inode ->
     bytes_of k' inode n off = bytes_of k inode n off).
Proof. intros [_ Hi Hb Hs _ _ _ _]. by apply in_image_agree. Qed.

(** ** Descriptors of the running process *)

Definition fd_open (fd inode pos : Z) (t : table) (k : kernel) : Prop :=
  0 <= fd < 8 /\ flags (proc_fd fd k) <> 0 /\ fd_inode (proc_fd fd k) = inode /\
  file_pos (proc_fd fd k) = pos /\ f_ops (proc_fd fd k) = Some t.

(** The state in which a call finds the descriptors. *)
Definition called (k : kernel) : kernel := set_filesys_pcb (main_pcb k) (sti k).

Lemma called_quiet k : served k -> quiet k (called k) /\ shown (called k) = shown k.
Proof. intros Hs. apply quiet_eq; try done. apply Hs. Qed.

Lemma fd_open_opened fd inode pos t k :
  served k -> fd_open fd inode pos t k -> opened fd inode pos (called k).
Proof. intros Hs (H1 & H2 & H3 & H4 & _). split; [split; [done | apply (sv_fdt k Hs)] | done]. Qed.

(** A descriptor changes; the ones of the terminal stay what they are. *)
Lemma change_fd fd g k :
  served k -> 2 <= fd < 8 ->
  let k' := upd_fdt (main_pcb k) fd g k in
  served k' /\ shown k' = shown k /\ proc_fd fd k' = g (proc_fd fd k) /\
  forall i, i <> fd -> proc_fd i k' = proc_fd i k.
Proof.
  intros Hs Hfd k'.
  assert (Hget : forall i, proc_fd i k' = if decide (i = fd) then g (proc_fd fd k) else proc_fd i k).
  { intros i. unfold proc_fd. change (main_pcb k') with (main_pcb k).
    unfold k', upd_fdt. rewrite pcb_at_upd_eq. cbn [fdt set_fdt].
    destruct (decide (i = fd)) as [-> | Hne].
    - apply fdt_at_set_eq. rewrite (sv_fdt k Hs). lia.
    - by apply fdt_at_set_ne. }
  split; [| split; [done | split; [by rewrite Hget, decide_True | intros i Hi; by rewrite Hget, decide_False]]].
  apply (served_keeps k); try done.
  - exists (ram (mem k)). change (mem k') with (mem k). by destruct (mem k).
  - apply Hs.
  - exists (terminals (sys k)). change (sys k') with (sys k). by destruct (sys k).
  - unfold k', upd_fdt. rewrite pcb_at_upd_eq. cbn [fdt set_fdt]. rewrite length_arr_set. apply Hs.
  - intros i Hi. rewrite Hget, decide_False by lia. done.
Qed.

(** ** The view of a running program *)

(** What may be read from a descriptor: the rest of its file. *)
Definition stream_of (k : kernel) (fd : Z) (l : list Z) : Prop :=
  exists inode pos, fd_open fd inode pos FileTable k /\ in_image inode k /\
    0 <= pos <= length_of k inode /\
    l = bytes_of k inode (Z.to_nat (length_of k inode - pos)) pos.

(** The boot block is in the kernel's page, its names are terminated and not
    empty, and so is the entry after the last one. *)
Definition dir_in_image (k : kernel) : Prop :=
  dir_ok k /\ (forall a, within (boot_block (fs k)) FOUR_KB a -> in_kernel a) /\
  (forall i, 0 <= i < dir_count (image k) (boot_block (fs k)) -> name_bytes k i <> []) /\
  dir_count (image k) (boot_block (fs k)) < BOOT_NUM_DIRS /\
  exists l, (length l < 64)%nat /\
    terminated NUL (fun j => image k (direntry (boot_block (fs k))
      (dir_count (image k) (boot_block (fs k))) + j)) l.

(** The names from entry [pos] on. *)
Definition names_from (k : kernel) (pos : Z) : list (list Z) :=
  (fun i => name_bytes k (pos + Z.of_nat i))
    <$> seq 0 (Z.to_nat (dir_count (image k) (boot_block (fs k)) - pos)).

Definition listing_of (k : kernel) (fd : Z) (names : list (list Z)) : Prop :=
  exists inode pos, fd_open fd inode pos DirTable k /\ dir_in_image k /\
    0 <= pos <= dir_count (image k) (boot_block (fs k)) /\ names = names_from k pos.

(** A line waits for the running process. *)
Definition typed_line (k : kernel) (l : list Z) : Prop :=
  main_terminal k = active_terminal (sys k) /\ Forall (fun c => 0 < c < 256) l /\
  exists line, line_buf (active_terminal (sys k)) (kbd k) = Some line /\ holds_line line l.

(** A regular file of that name that [open] can open: it is not open yet and
    a descriptor is free. *)
Definition named_at (k : kernel) (n l : list Z) (j : Z) : Prop :=
  let inode := de_inode_num (image k) (boot_block (fs k)) j in
  (0 < length n <= 32)%nat /\ (length n < fuel)%nat /\
  has_name (image k) (boot_block (fs k)) n j /\
  de_filetype (image k) (boot_block (fs k)) j = 2 /\
  (forall a, within (boot_block (fs k)) FOUR_KB a -> in_kernel a) /\
  in_image inode k /\ inode_open 8 0 inode (called k) = false /\
  is_Some (first_free 8 0 (called k)) /\
  l = bytes_of k inode (Z.to_nat (length_of k inode)) 0.

Definition named_file (k : kernel) (n l : list Z) : Prop := exists j, named_at k n l j.

(** A name that no entry has. *)
Definition no_file (k : kernel) (n : list Z) : Prop :=
  (length n < fuel)%nat /\ (forall a, within (boot_block (fs k)) FOUR_KB a -> in_kernel a) /\
  ((length n = 0 \/ 32 < length n)%nat \/
   forall i, 0 <= i < BOOT_NUM_DIRS -> entry_name (image k) (boot_block (fs k)) i <> n).

(** The directory is the first entry, and the descriptor that [open] takes
    for it starts at 0: [dir_open] leaves the position that its last user
    left there. *)
Definition root_listing (k : kernel) (names : list (list Z)) : Prop :=
  dir_in_image k /\ has_name (image k) (boot_block (fs k)) (str_bytes ".") 0 /\
  de_filetype (image k) (boot_block (fs k)) 0 = 1 /\
  (exists fd, first_free 8 0 (called k) = Some fd /\ file_pos (proc_fd fd k) = 0) /\
  names = names_from k 0.

Definition argument_of (k : kernel) (l : list Z) : Prop :=
  (length l <= 127)%nat /\ Forall (fun c => 0 < c < 256) l /\
  terminated NUL (arr_get (arg_buf (sys k))) l.

#[local] Instance kernel_view : SysView kernel := {
  user_addr := user_page;
  good := served;
  screen_t := shown_t;
  display := shown;
  show := show_char;
  limit := Z.min (Z.of_nat fuel - 1) 65536;
  stream := stream_of;
  listing := listing_of;
  typed := typed_line;
  named := named_file;
  absent := no_file;
  directory := root_listing;
  argument := argument_of
}.

(** ** The view stays *)

Lemma quiet_same_boot k k' :
  quiet k k' -> (forall a, within (boot_block (fs k)) FOUR_KB a -> in_kernel a) -> same_boot k k'.
Proof. intros Hq Hb. split; [apply Hq |]. intros a Ha. by apply Hq, Hb. Qed.

Lemma quiet_fd_open k k' fd inode pos t :
  quiet k k' -> fd_open fd inode pos t k -> fd_open fd inode pos t k'.
Proof. intros Hq. unfold fd_open. by rewrite (quiet_fd fd k k' Hq). Qed.

Lemma quiet_first_free k k' n i :
  quiet k k' -> first_free n i (called k') = first_free n i (called k).
Proof.
  intros Hq. revert i. induction n as [| n IH]; intros i; [done |]. cbn [first_free].
  change (bitmap_open i (called k')) with (flags (proc_fd i k') =? 0).
  change (bitmap_open i (called k)) with (flags (proc_fd i k) =? 0).
  by rewrite (quiet_fd i k k' Hq), IH.
Qed.

Lemma quiet_inode_open k k' n i inode :
  quiet k k' -> inode_open n i inode (called k') = inode_open n i inode (called k).
Proof.
  intros Hq. revert i. induction n as [| n IH]; intros i; [done |]. cbn [inode_open].
  change (bitmap_open i (called k')) with (flags (proc_fd i k') =? 0).
  change (bitmap_open i (called k)) with (flags (proc_fd i k) =? 0).
  change (cur_fd i (called k')) with (proc_fd i k'). change (cur_fd i (called k)) with (proc_fd i k).
  by rewrite (quiet_fd i k k' Hq), IH.
Qed.

(** The directory depends on the boot block alone. *)
Lemma same_boot_dir k k' : same_boot k k' -> dir_in_image k -> dir_in_image k'.
Proof.
  intros Hs (Hok & Hb & Hne & Hlt & l & Hl & Ht).
  pose proof (same_boot_count _ _ Hs) as Hc. pose proof Hok as [Hcount _].
  split; [by apply (same_boot_ok k) |]. rewrite Hc. pose proof Hs as [Hbb Hi]. rewrite Hbb.
  split_and!; try done.
  - intros i Hr. rewrite (same_boot_name k k' i Hs) by lia. by apply Hne.
  - exists l. split; [done |]. eapply terminated_ext; [| exact Ht]. intros i Hr. cbv beta.
    apply Hi. apply within_entry; lia.
Qed.

Lemma same_boot_names k k' pos :
  same_boot k k' -> dir_in_image k -> 0 <= pos -> names_from k' pos = names_from k pos.
Proof.
  intros Hs (Hok & _) Hp. unfold names_from. rewrite (same_boot_count _ _ Hs).
  apply list_fmap_ext. intros i ? Hi. apply lookup_seq in Hi as [-> Hi].
  apply same_boot_name; [done |]. destruct Hok as [Hc _]. lia.
Qed.

Lemma same_boot_root k k' names :
  same_boot k k' -> first_free 8 0 (called k') = first_free 8 0 (called k) ->
  (forall fd, proc_fd fd k' = proc_fd fd k) -> root_listing k names -> root_listing k' names.
Proof.
  intros Hs Hff Hfd (Hd & Hn & Ht & (fd & Hf & Hp) & ->). pose proof Hs as [Hb He].
  split; [by apply (same_boot_dir k) |]. rewrite Hb. split_and!.
  - by apply (same_has_name (image k)).
  - unfold de_filetype, FILE_TYPE_OFFSET in *.
    rewrite (same_field _ _ _ He); [done | unfold BOOT_NUM_DIRS; lia | lia].
  - exists fd. by rewrite Hff, Hfd.
  - symmetry. by apply same_boot_names.
Qed.

Lemma same_boot_absent k k' n : same_boot k k' -> no_file k n -> no_file k' n.
Proof.
  intros [Hbb He] (Hf & Hb & Hn). unfold no_file. rewrite Hbb. split_and!; try done.
  destruct Hn as [Hn | Hn]; [by left | right]. intros i Hi.
  rewrite (same_name _ _ _ He) by done. by apply Hn.
Qed.

Lemma quiet_entries k k' :
  quiet k k' -> (forall a, within (boot_block (fs k)) FOUR_KB a -> in_kernel a) ->
  forall a, within (boot_block (fs k)) FOUR_KB a -> image k' a = image k a.
Proof. intros Hq Hb a Ha. by apply (quiet_same_boot _ _ Hq Hb). Qed.

Lemma env_stream k k' fd l : quiet k k' -> stream_of k fd l -> stream_of k' fd l.
Proof.
  intros Hq (inode & pos & Ho & Hi & Hp & ->).
  destruct (in_image_same inode k k' Hq Hi) as (Hi' & Hl & Hb). exists inode, pos. rewrite Hl.
  split_and!; [by apply (quiet_fd_open k) | done | lia | lia |]. rewrite Hb; [done | lia | lia].
Qed.

Lemma env_listing k k' fd l : quiet k k' -> listing_of k fd l -> listing_of k' fd l.
Proof.
  intros Hq (inode & pos & Ho & Hd & Hp & ->). pose proof Hd as (_ & Hb & _).
  pose proof (quiet_same_boot _ _ Hq Hb) as Hs. exists inode, pos.
  split; [by apply (quiet_fd_open k) |]. split; [by apply (same_boot_dir k) |].
  rewrite (same_boot_names k k'), (same_boot_count k k') by (done || lia). done.
Qed.

Lemma env_typed k k' l : quiet k k' -> typed_line k l -> typed_line k' l.
Proof.
  intros Hq (Hm & Hl & Hline). destruct (quiet_sys k k' Hq) as [ts Hs].
  unfold typed_line, main_terminal in *. by rewrite Hs, (quiet_kbd k k' Hq).
Qed.

Lemma env_named k k' n l : quiet k k' -> named_file k n l -> named_file k' n l.
Proof.
  intros Hq (j & Hn & Hf & Hj & Ht & Hb & Hi & Ho & Hff & ->). exists j.
  pose proof (quiet_entries k k' Hq Hb) as He. pose proof Hj as ([Hj0 Hj1] & _).
  unfold named_at. cbv zeta in *. rewrite (quiet_boot k k' Hq).
  unfold de_filetype, FILE_TYPE_OFFSET in *.
  rewrite (same_inode_num _ _ _ He), (same_field _ _ _ He) by lia.
  destruct (in_image_same _ k k' Hq Hi) as (Hi' & Hl & Hby).
  rewrite (quiet_inode_open k k'), (quiet_first_free k k'), Hl by done.
  split; [exact Hn |]. split; [done |]. split; [by apply (same_has_name (image k)) |].
  split_and!; try done. rewrite (quiet_boot k k' Hq) in Hby. symmetry. apply Hby; [lia |].
  destruct Hi as [(_ & Hlen & _) _]. lia.
Qed.

Lemma env_absent k k' n : quiet k k' -> no_file k n -> no_file k' n.
Proof. intros Hq Hn. apply (same_boot_absent k); [| done]. by apply quiet_same_boot, Hn. Qed.

Lemma env_directory k k' l : quiet k k' -> root_listing k l -> root_listing k' l.
Proof.
  intros Hq Hr. apply (same_boot_root k); [| by apply quiet_first_free | | done].
  - by apply quiet_same_boot, Hr.
  - intros fd. by apply quiet_fd.
Qed.

Lemma env_argument k k' l : quiet k k' -> argument_of k l -> argument_of k' l.
Proof.
  intros Hq (Hl & Hc & Ht). destruct (quiet_sys k k' Hq) as [ts Hs].
  unfold argument_of. by rewrite Hs.
Qed.

Lemma quiet_env k k' : quiet k k' -> env_kept k k'.
Proof.
  intros Hq. split; cbn [stream listing typed named absent directory argument kernel_view]; intros *.
  - by apply env_stream.
  - by apply env_listing.
  - by apply env_typed.
  - by apply env_named.
  - by apply env_absent.
  - by apply env_directory.
  - by apply env_argument.
Qed.

(** ** Stores to the program's page, as the interface sees them *)

Lemma kernel_bytes k a n : bytes k a n = bytes (mem k) a n.
Proof. revert a. induction n as [| n IH]; intros a; [done |]. cbn [bytes]. by rewrite IH. Qed.

Lemma quiet_after k k' l T :
  served k -> quiet k k' -> shown k' = foldl show_char (shown k) l ->
  (forall a, user_page a -> ~ T a -> ld (mem k') a = ld (mem k) a) -> after k k' l T.
Proof. intros Hs Hq Hd Hm. split; [by apply (quiet_served k) | done | done]. Qed.

Lemma user_write k a l :
  served k -> (forall i, 0 <= i < Z.of_nat (length l) -> user_page (a + i)) ->
  let k' := set_mem (write (mem k) a l) k in
  quiet k k' /\ after k k' [] (within a (Z.of_nat (length l))) /\
  bytes k' a (length l) = u8 <$> l.
Proof.
  intros Hs Hu k'. destruct (quiet_user_write k a l Hs Hu) as [Hq Hd].
  pose proof (user_region k a (length l) Hs Hu) as Hr. split; [done |]. split.
  - apply quiet_after; try done. intros b Hb Hn. apply ld_write_apart; [done |].
    intros i Hi He. destruct (user_loc k b Hs Hb) as (p & Hp & Hlb & Hall).
    rewrite Hlb, (Hall (a + i)) in He by by apply Hu. injection He as He.
    apply Hn. unfold within. lia.
  - rewrite kernel_bytes. by apply bytes_write.
Qed.

(** ** The system calls keep what programs rely on *)

Lemma kernel_store k a v :
  served k -> user_page a -> after k (st k a v) [] (eq a) /\ env_kept k (st k a v).
Proof.
  intros Hs Ha.
  destruct (user_write k a [v] Hs) as (Hq & Haf & _).
  { intros i Hi. cbn [length] in Hi. replace (a + i) with a by lia. done. }
  split; [| by apply quiet_env]. eapply after_weaken; [exact Haf |].
  unfold within. cbn [length]. intros x Hx. lia.
Qed.

Lemma kernel_write buf n k :
  served k -> 0 <= n <= Z.min (Z.of_nat fuel - 1) 65536 -> user_page buf ->
  (forall i, 0 <= i < n -> user_page (buf + i)) ->
  exists k', ece391_write 1 buf n k = Returns n k' /\
    after k k' (bytes k buf (Z.to_nat n)) nowhere /\ env_kept k k'.
Proof.
  intros Hs Hn Hb Hu. destruct (write_draws buf n k Hs Hn Hb Hu) as (k' & He & Hq & Hd & Hm & _).
  exists k'. split; [exact He |]. split; [| by apply quiet_env].
  rewrite kernel_bytes. exact (quiet_after k k' _ _ Hs Hq Hd (fun a Ha _ => Hm a Ha)).
Qed.

(** The descriptors of the terminal are the first two. *)
Lemma open_above fd inode pos t k :
  served k -> fd_open fd inode pos t k -> t <> TerminalTable -> 2 <= fd < 8.
Proof.
  intros Hs (Hfd & _ & _ & _ & Ht) Hne. destruct (decide (fd < 2)); [| lia].
  destruct (sv_std k Hs fd) as [_ Hf]; [lia | congruence].
Qed.

(** Text placed in the program's buffer, and then a descriptor changed. *)
Lemma fill_and_move k fd g buf l :
  served k -> 2 <= fd < 8 -> (forall i, 0 <= i < Z.of_nat (length l) -> user_page (buf + i)) ->
  Forall (fun c => 0 <= c < 256) l ->
  let k1 := set_mem (write (mem (called k)) buf l) (called k) in
  let k2 := upd_cur_fd fd g k1 in
  quiet k k1 /\ after k k2 [] (within buf (Z.of_nat (length l))) /\
  bytes k2 buf (length l) = l /\ proc_fd fd k2 = g (proc_fd fd k).
Proof.
  intros Hs Hfd Hu Hl k1 k2. destruct (called_quiet k Hs) as [Hqc Hdc].
  pose proof (quiet_served _ _ Hqc Hs) as Hsc.
  destruct (user_write (called k) buf l Hsc Hu) as (Hq1 & [Hg1 Hd1 Hm1] & Hb1). fold k1 in Hq1, Hg1, Hd1, Hm1, Hb1.
  destruct (change_fd fd g k1 Hg1 Hfd) as (Hs2 & Hd2 & Hf2 & _).
  change (upd_fdt (main_pcb k1) fd g k1) with k2 in Hs2, Hd2, Hf2.
  assert (Hq : quiet k k1) by by apply (quiet_trans k (called k)).
  split; [done |]. split; [split; [exact Hs2 | | exact Hm1] |].
  - cbn [display kernel_view foldl] in *. by rewrite Hd2, Hd1.
  - split; [| by rewrite Hf2, (quiet_fd fd k k1)].
    rewrite kernel_bytes in Hb1 |- *. change (mem k2) with (mem k1). rewrite Hb1.
    by apply u8_bytes.
Qed.

(** [read] through the wrapper. *)
Lemma int80_read fd buf n k :
  0 <= fd < 8 ->
  int80 3 fd buf n k
  = match system_read fuel fd buf (s32 n) (sti k) with
    | Ret a k' => Returns a k'
    | Leave _ k' | Spin k' | Fault k' => Stops k'
    end.
Proof.
  intros Hfd. unfold int80, syscall_wrapper. change (u32 3) with 3.
  change ((NUM_SYSCALLS <? 3) || (3 <? 1)) with false. cbv iota.
  by rewrite (s32_small fd) by lia.
Qed.

Lemma user_size buf n : 0 <= n -> (forall i, 0 <= i < n -> user_page (buf + i)) -> n <= UNIT_4_MB.
Proof.
  intros Hn Hu. destruct (decide (n = 0)) as [-> |]; [done |].
  pose proof (Hu 0 ltac:(lia)) as H0. pose proof (Hu (n - 1) ltac:(lia)) as H1.
  unfold user_page in *. lia.
Qed.

Lemma user_nonzero buf : user_page buf -> buf <> 0.
Proof. unfold user_page, UNIT_128_MB. lia. Qed.

(** The rest of a file, [c] bytes further. *)
Lemma bytes_split k inode pos c :
  0 <= c <= length_of k inode - pos ->
  bytes_of k inode (Z.to_nat (length_of k inode - pos)) pos
  = bytes_of k inode (Z.to_nat c) pos
    ++ bytes_of k inode (Z.to_nat (length_of k inode - (pos + c))) (pos + c).
Proof.
  intros Hc. replace (Z.to_nat (length_of k inode - pos))
    with (Z.to_nat c + Z.to_nat (length_of k inode - (pos + c)))%nat by lia.
  by rewrite file_bytes_app, Z2Nat.id by lia.
Qed.

(** What [read] of a file leaves: the bytes in the buffer, the position
    moved. *)
Definition filled (fd buf : Z) (lst : list Z) (c : Z) (k : kernel) : kernel :=
  upd_cur_fd fd (fun e => set_file_pos (s32 (file_pos e + c)) e) (set_mem (write (mem (called k)) buf lst) (called k)).

Lemma kernel_read k fd l buf n :
  served k -> stream_of k fd l -> 0 <= n -> user_page buf ->
  (forall i, 0 <= i < n -> user_page (buf + i)) ->
  let c := Z.min n (Z.of_nat (length l)) in
  exists k', ece391_read fd buf n k = Returns c k' /\ after k k' [] (within buf c) /\
    bytes k' buf (Z.to_nat c) = take (Z.to_nat c) l /\ stream_of k' fd (drop (Z.to_nat c) l) /\
    k' = filled fd buf (take (Z.to_nat c) l) c k.
Proof.
  intros Hs (inode & pos & Ho & Hi & Hp & Hl) Hn Hb Hu c.
  pose proof (open_above _ _ _ _ _ Hs Ho ltac:(done)) as Hfd.
  set (len := length_of k inode) in *.
  assert (Hc : c = Z.min n (len - pos)).
  { unfold c. rewrite Hl. unfold file_bytes. rewrite length_peek. lia. }
  clearbody c. set (lst := bytes_of k inode (Z.to_nat c) pos).
  assert (Hsplit : l = lst ++ bytes_of k inode (Z.to_nat (len - (pos + c))) (pos + c)).
  { rewrite Hl. apply bytes_split. fold len. lia. }
  assert (Hlen : length lst = Z.to_nat c) by (unfold lst, file_bytes; apply length_peek).
  assert (Hub : forall i, 0 <= i < Z.of_nat (length lst) -> user_page (buf + i))
    by (rewrite Hlen; intros i Hr; apply Hu; lia).
  assert (Hrange : Forall (fun c => 0 <= c < 256) lst).
  { pose proof (file_bytes_u8 (mem k) (boot_block (fs k)) (FS_START_ADDR (fs k)) inode
      (Z.to_nat c) pos) as Hu8.
    apply Forall_forall. intros x Hx. unfold lst, image in Hx. rewrite <- Hu8 in Hx.
    apply list_elem_of_fmap in Hx as (y & -> & _). unfold u8. apply Z.mod_pos_bound. lia. }
  destruct (fill_and_move k fd (fun e => set_file_pos (s32 (file_pos e + c)) e) buf lst Hs Hfd Hub Hrange)
    as (Hq & Ha & Hby & Hpf).
  set (k1 := set_mem _ _) in *. set (k2 := upd_cur_fd _ _ _) in *.
  pose proof (fd_open_opened _ _ _ _ _ Hs Ho) as Hop.
  assert (Htake : take (Z.to_nat c) l = lst) by (rewrite Hsplit; by rewrite take_app_length').
  exists k2. rewrite Hlen in *. rewrite Z2Nat.id in Ha by lia.
  split; [| split; [exact Ha | split; [| split; [| by rewrite Htake]]]].
  - cbn [ece391_read kernel_calls]. rewrite int80_read by lia.
    pose proof (user_size buf n Hn Hu) as Hsz. unfold UNIT_4_MB in Hsz. rewrite s32_small by lia.
    rewrite (system_read_file fuel fd inode pos); 
      [| exact (sv_tables k Hs) | exact Hop | | by apply user_nonzero].
    2: { destruct Ho as (_ & _ & _ & _ & Ho). exact Ho. }
    change (set_filesys_pcb (main_pcb (sti k)) (sti k)) with (called k).
    rewrite (file_read_spec fd inode pos buf n (called k));
      [| exact Hop | apply Hi | exact Hp | done | |].
    + change (length_of (called k) inode) with len. rewrite <- Hc. done.
    + change (length_of (called k) inode) with len. rewrite <- Hc.
      apply (user_region k); [done |]. intros i Hr. apply Hu. lia.
    + change (length_of (called k) inode) with len. rewrite <- Hc. intros b i Hbb Hr.
      apply (user_not_kernel k); [done | apply Hu; lia |]. by apply Hi.
  - by rewrite Hby, Htake.
  - destruct (in_image_same inode k k1 Hq Hi) as (Hi1 & Hl1 & Hb1).
    exists inode, (pos + c). destruct Ho as (Ho1 & Ho2 & Ho3 & Ho4 & Ho5).
    pose proof (proj1 (proj2 (proj1 Hi))) as Hmax. fold len in Hmax.
    change (length_of k2 inode) with (length_of k1 inode). rewrite Hl1. fold len.
    split_and!; [| exact Hi1 | lia | lia |].
    + unfold fd_open. rewrite Hpf. ksimpl. rewrite Ho4. split_and!; [lia | lia | done | done | | done].
      apply s32_small. unfold MAX_DATA_BLK_IDX, FOUR_KB in *. lia.
    + rewrite Hsplit, drop_app_length' by done. symmetry. apply Hb1; [lia |]. fold len. lia.
Qed.

(** *** Listing *)

Lemma system_read_dir fd inode pos buf nbytes k :
  let k0 := set_filesys_pcb (main_pcb k) k in
  tables_set k -> opened fd inode pos k0 -> f_ops (cur_fd fd k0) = Some DirTable -> buf <> 0 ->
  system_read fuel fd buf nbytes k = dir_read fuel fd buf nbytes k0.
Proof.
  intros k0 Ht Ho Hf Hb. destruct Ho as ((Hfd & _) & _). unfold system_read, MAX_FD.
  rewrite (proj2 (Z.eqb_neq buf 0) Hb), (proj2 (Z.ltb_ge fd 0)), (proj2 (Z.ltb_ge 7 fd)) by lia.
  cbn [orb]. fold (main_pcb k) k0. unfold fd_ops.
  change (fdt_at (fdt (pcb_at (main_pcb k) k0)) fd) with (cur_fd fd k0). rewrite Hf.
  cbn [table_of]. change (dir_table (sys k0)) with (dir_table (sys k)).
  destruct Ht as (_ & _ & _ & -> & _). done.
Qed.

Lemma kernel_read_dir fd inode pos buf k :
  served k -> fd_open fd inode pos DirTable k -> user_page buf ->
  ece391_read fd buf 32 k
  = match dir_read fuel fd buf 32 (called k) with
    | Ret a k' => Returns a k'
    | Leave _ k' | Spin k' | Fault k' => Stops k'
    end.
Proof.
  intros Hs Ho Hb. pose proof (fd_open_opened _ _ _ _ _ Hs Ho) as Hop.
  cbn [ece391_read kernel_calls]. destruct Ho as (Hfd & _ & _ & _ & Hf).
  rewrite int80_read by lia. change (s32 32) with 32.
  rewrite (system_read_dir fd inode pos); [done | exact (sv_tables k Hs) | exact Hop | exact Hf |].
  by apply user_nonzero.
Qed.

Lemma names_cons k pos :
  0 <= pos < dir_count (image k) (boot_block (fs k)) ->
  names_from k pos = name_bytes k pos :: names_from k (pos + 1).
Proof.
  intros Hp. unfold names_from. set (n := dir_count _ _) in *.
  replace (Z.to_nat (n - pos)) with (S (Z.to_nat (n - (pos + 1)))) by lia.
  generalize (name_bytes k). intros name. cbn [seq fmap list_fmap]. rewrite Z.add_0_r. f_equal. rewrite <- fmap_S_seq, <- list_fmap_compose.
  apply list_fmap_ext. intros i x _. cbn [compose].
  by replace (pos + 1 + Z.of_nat x) with (pos + Z.of_nat (S x)) by lia.
Qed.

Lemma names_nil k pos :
  dir_count (image k) (boot_block (fs k)) <= pos -> names_from k pos = [].
Proof.
  intros Hp. unfold names_from. set (n := dir_count _ _) in *. by rewrite Z2Nat.nonpos by lia.
Qed.

Lemma name_in_page k i : Forall (fun c => 0 <= c < 256) (name_bytes k i).
Proof.
  apply Forall_forall. intros x Hx. unfold name_bytes in Hx.
  apply list_elem_of_fmap in Hx as (y & -> & _). unfold u8. apply Z.mod_pos_bound. lia.
Qed.

Lemma kernel_apart_user k bb buf n :
  served k -> (forall a, within bb FOUR_KB a -> in_kernel a) ->
  (forall i, 0 <= i < Z.of_nat n -> user_page (buf + i)) ->
  apart (mem k) (within bb FOUR_KB) buf n.
Proof.
  intros Hs Hb Hu b i Hbb Hi. apply (user_not_kernel k); [done | by apply Hu | by apply Hb].
Qed.

Lemma user_at buf n : 0 < n -> (forall i, 0 <= i < n -> user_page (buf + i)) -> user_page buf.
Proof. intros Hn Hu. pose proof (Hu 0 ltac:(lia)) as H. by rewrite Z.add_0_r in H. Qed.

Lemma kernel_list k fd nm rest buf :
  (64 <= fuel)%nat -> served k -> listing_of k fd (nm :: rest) ->
  (forall i, 0 <= i < 32 -> user_page (buf + i)) ->
  exists k', ece391_read fd buf 32 k = Returns (Z.of_nat (length nm)) k' /\
    after k k' [] (within buf 32) /\ bytes k' buf (length nm) = nm /\ listing_of k' fd rest.
Proof.
  intros Hf Hs (inode & pos & Ho & Hd & Hp & Hnames) Hu.
  pose proof (open_above _ _ _ _ _ Hs Ho ltac:(done)) as Hfd.
  pose proof Hd as (Hok & Hb & _). pose proof Hok as [Hcount _].
  destruct (decide (pos = dir_count (image k) (boot_block (fs k)))) as [Heq | Hne].
  { rewrite names_nil in Hnames by lia. discriminate. }
  rewrite names_cons in Hnames by lia. injection Hnames as Hnm Hrest.
  pose proof (length_name_bytes k pos) as Hlen. rewrite <- Hnm in Hlen.
  pose proof (name_in_page k pos) as Hrange. rewrite <- Hnm in Hrange.
  destruct (fill_and_move k fd (set_file_pos (pos + 1)) buf nm Hs Hfd) as (Hq & Ha & Hby & Hpf);
    [intros i Hi; apply Hu; lia | done |].
  set (k1 := set_mem _ _) in *. set (k2 := upd_cur_fd _ _ _) in *.
  exists k2. split; [| split; [| split; [exact Hby |]]].
  - rewrite (kernel_read_dir fd inode pos buf k Hs Ho) by (apply (user_at buf 32); [lia | done]).
    rewrite (dir_read_spec fuel fd inode pos buf 32 (called k));
      [| exact Hok | by eapply fd_open_opened | change (0 <= pos < dir_count (image k) (boot_block (fs k))); lia
       | done | lia | apply (user_region k); [done |]; intros i Hi; apply Hu; lia
       | by apply (kernel_apart_user k)].
    change (name_bytes (called k) pos) with (name_bytes k pos). rewrite <- Hnm.
    rewrite take_ge by lia. done.
  - eapply after_weaken; [exact Ha |]. unfold within. intros x Hx. lia.
  - exists inode, (pos + 1). destruct Ho as (Ho1 & Ho2 & Ho3 & Ho4 & Ho5).
    change (dir_in_image k2) with (dir_in_image k1).
    change (names_from k2 (pos + 1)) with (names_from k1 (pos + 1)).
    change (dir_count (image k2) (boot_block (fs k2))) with (dir_count (image k1) (boot_block (fs k1))).
    pose proof (quiet_same_boot _ _ Hq Hb) as Hsb.
    rewrite (same_boot_names k k1), (same_boot_count k k1) by (done || lia).
    split; [unfold fd_open; rewrite Hpf; split_and!; (done || lia) |].
    split; [by apply (same_boot_dir k) |]. split; [lia | done].
Qed.

Lemma kernel_listed k fd nm rest :
  listing_of k fd (nm :: rest) -> (0 < length nm <= 32)%nat.
Proof.
  intros (inode & pos & _ & (_ & _ & Hne & _) & Hp & Hnames).
  destruct (decide (pos = dir_count (image k) (boot_block (fs k)))) as [Heq | Hlt].
  { rewrite names_nil in Hnames by lia. discriminate. }
  rewrite names_cons in Hnames by lia. injection Hnames as Hnm _.
  pose proof (length_name_bytes k pos) as Hlen. specialize (Hne pos ltac:(lia)). rewrite <- Hnm in *.
  destruct nm; [done | cbn [length] in *; lia].
Qed.

(** The read past the last name still copies the next entry's bytes. *)
Lemma kernel_list_end k fd buf :
  (64 <= fuel)%nat -> served k -> listing_of k fd [] ->
  (forall i, 0 <= i < 32 -> user_page (buf + i)) ->
  exists k', ece391_read fd buf 32 k = Returns 0 k' /\ after k k' [] (within buf 32).
Proof.
  intros Hf Hs (inode & pos & Ho & Hd & Hp & Hnames) Hu.
  pose proof (fd_open_opened _ _ _ _ _ Hs Ho) as Hop.
  pose proof Hd as (Hok & Hb & _ & Hlt & l & Hl & Ht).
  destruct (decide (pos = dir_count (image k) (boot_block (fs k)))) as [Heq | Hne].
  2: { rewrite names_cons in Hnames by lia. discriminate. }
  set (n := Z.min 32 (Z.of_nat (length l))).
  set (src := direntry (boot_block (fs k)) pos).
  set (text := bytes (mem k) src (Z.to_nat n)).
  assert (Hlen : length text = Z.to_nat n) by (unfold text; apply length_bytes).
  destruct (called_quiet k Hs) as [Hqc Hdc].
  pose proof (quiet_served _ _ Hqc Hs) as Hsc.
  destruct (user_write (called k) buf text Hsc) as (_ & [Hg1 Hd1 Hm1] & _);
    [rewrite Hlen; intros i Hi; apply Hu; lia |].
  eexists. split.
  - rewrite (kernel_read_dir fd inode pos buf k Hs Ho) by (apply (user_at buf 32); [lia | done]).
    unfold dir_read. rewrite (opened_not _ _ _ _ Hop). destruct Hop as (_ & _ & _ & Hpos).
    rewrite Hpos. change (boot_block (fs (called k))) with (boot_block (fs k)). fold src.
    rewrite <- Heq in Ht. fold src in Ht. change (image (called k)) with (image k).
    rewrite (strlen_terminated fuel _ l Ht) by lia. change (u32 32) with 32. unfold MAX_FILE_LEN.
    replace (if 32 <? (if 32 <? Z.of_nat (length l) then 32 else Z.of_nat (length l)) then 32
             else if 32 <? Z.of_nat (length l) then 32 else Z.of_nat (length l)) with n
      by (unfold n; cmp; lia).
    unfold upd_mem. rewrite (memcpy_write (mem (called k))); [| lia | |].
    2: { apply (user_region k); [done |]. intros i Hi. apply Hu. lia. }
    2: { intros b i Hbb Hi. apply (user_not_kernel k); [done | apply Hu; lia |].
         apply Hb. replace b with (src + (b - src)) by lia. unfold within in Hbb.
         destruct Hok as [Hcount _]. apply within_entry; lia. }
    change (bytes (mem (called k)) src (Z.to_nat n)) with text.
    change (cur_fd fd (set_mem ?m (called k))) with (cur_fd fd (called k)). rewrite Hpos.
    rewrite (proj2 (Z.ltb_ge _ _)) by lia. reflexivity.
  - split; [exact Hg1 | |].
    + cbn [display kernel_view foldl] in *. by rewrite Hd1.
    + intros a Ha Hn. apply Hm1; [done |]. rewrite Hlen. unfold within in *. lia.
Qed.

(** *** The line and the argument *)

Lemma kernel_line k l : typed_line k l -> (length l <= 127)%nat /\ Forall (fun c => 0 < c < 256) l.
Proof. intros (_ & Hc & line & _ & (_ & Hl & _)). split; [lia | done]. Qed.

(** A step that changes the program's page and the line buffers. *)
Lemma served_kbd k f : served k -> served (upd_kbd f k).
Proof.
  intros Hs. apply (served_keeps k); try done; try apply Hs.
  - exists (ram (mem k)). change (mem (upd_kbd f k)) with (mem k). by destruct (mem k).
  - exists (terminals (sys k)). change (sys (upd_kbd f k)) with (sys k). by destruct (sys k).
Qed.

Lemma kernel_typed_run k l buf n :
  (128 < fuel)%nat -> served k -> typed_line k l ->
  (forall i, 0 <= i < 128 -> user_page (buf + i)) ->
  exists g k1, let k' := upd_kbd g k1 in
    ece391_read 0 buf n k = Returns (Z.of_nat (length l) + 1) k' /\ quiet k k1 /\
    after k k' [] (within buf 128) /\ bytes k' buf (length l + 1) = l ++ [NEWLINE].
Proof.
  intros Hf Hs Ht Hu. destruct (kernel_line k l Ht) as [Hl Hc].
  destruct Ht as (Hmt & _ & line & Hline & Hh).
  assert (Hnz : arr_get line 0 <> NULL_CHAR).
  { destruct (holds_line_terminated line l Hh) as [Hin Hend]. destruct l as [| c l].
    - change (Z.of_nat (length [])) with 0 in Hend. by rewrite Hend.
    - destruct (Hin 0) as [H0 _]; [simpl; lia |]. injection H0 as H0. rewrite <- H0.
      apply Forall_cons in Hc as [Hc _]. unfold NULL_CHAR. lia. }
  destruct (called_quiet k Hs) as [Hqc Hdc].
  pose proof (quiet_served _ _ Hqc Hs) as Hsc.
  assert (Hlen : length (l ++ [NEWLINE]) = (length l + 1)%nat) by by rewrite length_app.
  destruct (user_write (called k) buf (l ++ [NEWLINE]) Hsc) as (Hqw & [Hg1 Hd1 Hm1] & _);
    [rewrite Hlen; intros i Hi; apply Hu; lia |].
  destruct (terminal_read_run fuel buf (s32 n) l line (called k) Hline Hh Hnz Hmt) as [Hr Hb];
    [| exact Hf |].
  { apply (user_region k); [done |]. intros i Hi. apply Hu. lia. }
  exists (set_line_buf (active_terminal (sys (called k))) (arr_set line 0 NULL_CHAR)),
    (set_mem (write (mem (called k)) buf (l ++ [NEWLINE])) (called k)).
  cbv zeta. fold (line_taken buf l line (called k)).
  split; [| split; [by apply (quiet_trans k (called k)) | split]].
  - cbn [ece391_read kernel_calls]. rewrite int80_read by lia. unfold system_read.
    rewrite (proj2 (Z.eqb_neq buf 0)) by (apply user_nonzero, (user_at buf 128); [lia | done]).
    change ((0 <? 0) || (MAX_FD <? 0)) with false. cbn [orb]. cbv zeta.
    change (set_filesys_pcb (return_pcb_parent (main_process (sys (sti k)))) (sti k)) with (called k).
    unfold fd_ops.
    change (fdt_at (fdt (pcb_at (return_pcb_parent (main_process (sys (sti k)))) (called k))) 0)
      with (proc_fd 0 k).
    rewrite (proj2 (sv_std k Hs 0 ltac:(lia))). cbn [table_of].
    change (terminal_table (sys (called k))) with (terminal_table (sys k)).
    destruct (sv_tables k Hs) as (_ & _ & _ & _ & _ & _ & _ & -> & _). cbn [call_read].
    by rewrite Hr.
  - split.
    + by apply served_kbd.
    + cbn [display kernel_view foldl] in *.
      change (shown (line_taken buf l line (called k)))
        with (shown (set_mem (write (mem (called k)) buf (l ++ [NEWLINE])) (called k))).
      by rewrite Hd1.
    + intros a Ha Hn. rewrite Hlen in Hm1. apply Hm1; [done |]. unfold within in *. lia.
  - rewrite kernel_bytes. exact Hb.
Qed.

Lemma kernel_typed k l buf n :
  (128 < fuel)%nat -> served k -> typed_line k l ->
  (forall i, 0 <= i < 128 -> user_page (buf + i)) ->
  exists k', ece391_read 0 buf n k = Returns (Z.of_nat (length l) + 1) k' /\
    after k k' [] (within buf 128) /\ bytes k' buf (length l + 1) = l ++ [NEWLINE].
Proof.
  intros Hf Hs Ht Hu. destruct (kernel_typed_run k l buf n Hf Hs Ht Hu) as (g & k1 & He & _ & Ha & Hb).
  by exists (upd_kbd g k1).
Qed.

Lemma kernel_getargs k l buf n :
  served k -> argument_of k l -> l <> [] -> (forall i, 0 <= i < 128 -> user_page (buf + i)) ->
  128 <= n <= 1024 ->
  exists k', ece391_getargs buf n k = Returns 0 k' /\ after k k' [] (within buf 128) /\
    terminated NUL (chars k' buf) l /\ env_kept k k'.
Proof.
  intros Hs (Hl & Hc & Ht) Hne Hu Hn. assert (Hl' : (length l < 128)%nat) by lia.
  assert (Hl0 : Z.of_nat (length l) <> 0) by (clear -Hne; destruct l; [done | cbn [length]; lia]).
  destruct (quiet_eq k (sti k) (sv_console k Hs) eq_refl eq_refl eq_refl eq_refl eq_refl eq_refl eq_refl)
    as [Hqs Hds].
  pose proof (quiet_served _ _ Hqs Hs) as Hss.
  assert (Hlen : length (l ++ [NUL]) = (length l + 1)%nat) by by rewrite length_app.
  destruct (user_write (sti k) buf (l ++ [NUL]) Hss) as (Hq & [Hg1 Hd1 Hm1] & Hb);
    [rewrite Hlen; intros i Hi; apply Hu; lia |].
  eexists. split; [| split; [| split]].
  - cbn [ece391_getargs kernel_calls]. unfold int80, syscall_wrapper. change (u32 7) with 7.
    change ((NUM_SYSCALLS <? 7) || (7 <? 1)) with false. cbv iota. rewrite s32_small by lia.
    unfold system_getargs.
    rewrite (proj2 (Z.eqb_neq buf 0)), (proj2 (Z.eqb_neq n 0))
      by (lia || (apply user_nonzero, (user_at buf 128); [lia | done])).
    cbn [orb]. change (arg_buf (sys (sti k))) with (arg_buf (sys k)). change (Z.to_nat BUFSIZE) with 128%nat.
    rewrite (strlen_terminated 128 _ l Ht Hl').
    rewrite (proj2 (Z.eqb_neq _ 0) Hl0).
    rewrite (strcpy_loop 128 (mem (sti k)) buf NUL (fun _ => arr_get (arg_buf (sys k))) l Ht Hl');
      [| intros; reflexivity].
    reflexivity.
  - split; [exact Hg1 | |].
    + cbn [display kernel_view foldl] in *. by rewrite Hd1.
    + intros a Ha Hna. apply Hm1; [done |]. rewrite Hlen. unfold within in *. lia.
  - rewrite Hlen, fmap_app, u8_bytes in Hb
      by (eapply Forall_impl; [exact Hc |]; intros c Hr; cbv beta in *; lia).
    apply terminated_bytes; [| exact Hb].
    eapply Forall_impl; [exact Hc |]. unfold NUL. intros c Hr. cbv beta in *. lia.
  - apply quiet_env. by apply (quiet_trans k (sti k)).
Qed.

(** *** Opening *)

Lemma int80_open p k :
  int80 5 p 0 0 k
  = match system_open table_addr fuel p (sti k) with
    | Ret a k' => Returns a k'
    | Leave _ k' | Spin k' | Fault k' => Stops k'
    end.
Proof. done. Qed.

(** The changes that [open] makes to one descriptor. *)
Definition change_all (fd : Z) (gs : list (fdt_t -> fdt_t)) (k : kernel) : kernel :=
  foldl (fun k g => upd_fdt (main_pcb k) fd g k) k gs.

Lemma change_all_spec fd gs : forall k,
  served k -> 2 <= fd < 8 ->
  let k' := change_all fd gs k in
  (served k' /\ shown k' = shown k /\ mem k' = mem k /\ fs k' = fs k /\
   proc_fd fd k' = foldl (fun e g => g e) (proc_fd fd k) gs) /\
  sys k' = sys k /\ forall i, i <> fd -> proc_fd i k' = proc_fd i k.
Proof.
  induction gs as [| g gs IH]; intros k Hs Hfd; [done |].
  destruct (change_fd fd g k Hs Hfd) as (Hs1 & Hd1 & Hf1 & Ho1).
  destruct (IH _ Hs1 Hfd) as ((Hs' & Hd' & Hm' & Hfs' & Hf') & Hsys & Ho').
  cbn [change_all foldl]. cbv zeta in *. unfold change_all in Hs', Hd', Hm', Hfs', Hf', Hsys, Ho'.
  rewrite Hd', Hm', Hfs', Hf', Hf1, Hd1, Hsys. split; [by split_and! |]. split; [done |].
  intros i Hi. by rewrite Ho', Ho1.
Qed.

(** The drivers find the control block in [curr_pcb]. *)
Lemma opened_changes fd inode t k1 :
  curr_pcb (fs k1) = main_pcb k1 ->
  upd_fdt (main_pcb k1) fd (set_f_ops t)
    (upd_cur_fd fd (set_fd_inode inode) (upd_cur_fd fd (set_flags 1) k1))
  = change_all fd [set_flags 1; set_fd_inode inode; set_f_ops t] k1 /\
  upd_fdt (main_pcb k1) fd (set_f_ops t)
    (upd_cur_fd fd (set_file_pos 0)
      (upd_cur_fd fd (set_fd_inode inode) (upd_cur_fd fd (set_flags 1) k1)))
  = change_all fd [set_flags 1; set_fd_inode inode; set_file_pos 0; set_f_ops t] k1.
Proof.
  intros Hc. unfold change_all. cbn [foldl]. unfold upd_cur_fd.
  rewrite !fs_upd_fdt, !Hc. unfold main_pcb. by rewrite !sys_upd_fdt.
Qed.

(** The entry that the lookup copied. *)
Definition looked_up (d : dentry_t) (k : kernel) : kernel := upd_fs (set_cur_dentry d) (called k).

Lemma looked_up_quiet d k : served k -> quiet k (looked_up d k) /\ shown (looked_up d k) = shown k.
Proof. intros Hs. apply quiet_eq; try reflexivity. apply Hs. Qed.

(** The descriptor that [open] takes is none of the terminal's. *)
Lemma free_above k fd :
  served k -> first_free 8 0 (called k) = Some fd -> 2 <= fd < 8.
Proof.
  intros Hs Hff. pose proof (first_free_spec 8 0 (called k)) as H. rewrite Hff in H.
  destruct H as (Hr & Hb & _). change (bitmap_open fd (called k)) with (flags (proc_fd fd k) =? 0) in Hb.
  apply Z.eqb_eq in Hb. destruct (decide (fd < 2)); [| lia].
  destruct (sv_std k Hs fd) as [Hn _]; [lia | done].
Qed.

(** The state with an opened file. *)
Definition file_opened (fd inode : Z) (d : dentry_t) (k : kernel) : kernel :=
  change_all fd [set_flags 1; set_fd_inode inode; set_file_pos 0; set_f_ops (Some FileTable)] (looked_up d k).

Lemma kernel_open_at k p n l j :
  served k -> terminated NUL (chars k p) n -> user_page p -> named_at k n l j ->
  exists fd d, let k' := file_opened fd (de_inode_num (image k) (boot_block (fs k)) j) d k in
    first_free 8 0 (called k) = Some fd /\ ece391_open p k = Returns fd k' /\ fd <> -1 /\
    after k k' [] nowhere /\ stream_of k' fd l.
Proof.
  intros Hs Ht Hp (Hn & Hf & Hj & Hty & Hb & Hi & Hio & [fd Hff] & ->).
  set (inode := de_inode_num (image k) (boot_block (fs k)) j) in *.
  pose proof (free_above k fd Hs Hff) as Hfd. set (name := ptr_str (image k) p).
  assert (Hnn : is_null name = false) by by apply Z.eqb_neq, user_nonzero.
  destruct (get_filetype_spec (image k) (boot_block (fs k)) fuel name n Hnn Ht Hf) as [Hg _].
  destruct (read_dentry_by_name_spec (image k) (boot_block (fs k)) fuel name n Hnn Ht Hf) as [Hr _].
  destruct (Hr j (proj2 Hn) Hj) as (d & Hd & _ & _ & Hdt & Hdi).
  destruct (looked_up_quiet d k Hs) as [Hq Hdis]. pose proof (quiet_served _ _ Hq Hs) as Hs1.
  set (gs := [set_flags 1; set_fd_inode inode; set_file_pos 0; set_f_ops (Some FileTable)]).
  destruct (change_all_spec fd gs (looked_up d k) Hs1 Hfd) as ((Hs' & Hd' & Hm' & Hfs' & Hf') & _).
  set (k' := change_all fd gs (looked_up d k)) in *.
  exists fd, d. change (file_opened fd inode d k) with k'. split; [exact Hff |]. split; [| split; [lia | split]].
  - cbn [ece391_open kernel_calls]. rewrite int80_open. unfold system_open.
    change (set_filesys_pcb (return_pcb_parent (main_process (sys (sti k)))) (sti k)) with (called k).
    change (image (called k)) with (image k). change (boot_block (fs (called k))) with (boot_block (fs k)).
    fold name. rewrite (Hg j Hn Hj), Hty. unfold bind, file_open.
    change (image (called k)) with (image k). change (boot_block (fs (called k))) with (boot_block (fs k)).
    rewrite Hd, Hdt, Hty, Hdi. fold inode. change (2 =? 1) with false. cbv iota zeta.
    change (Z.to_nat MAX_FILES) with 8%nat.
    change (upd_fs (set_cur_dentry d) (called k)) with (looked_up d k).
    change (inode_open 8 0 inode (looked_up d k)) with (inode_open 8 0 inode (called k)). rewrite Hio.
    change (first_free 8 0 (looked_up d k)) with (first_free 8 0 (called k)). rewrite Hff.
    rewrite fill_bitmap_in by lia. unfold modify, ret, store_f_ops.
    rewrite (proj2 (Z.leb_le 0 fd)), (proj2 (Z.leb_le fd MAX_FD)) by (unfold MAX_FD; lia).
    change (return_pcb_parent (main_process (sys (sti k)))) with (main_pcb (looked_up d k)).
    cbn [andb]. cbv iota.
    rewrite (proj2 (opened_changes fd inode (Some FileTable) (looked_up d k) eq_refl)). exact eq_refl.
  - split; [exact Hs' | |].
    + cbn [display kernel_view foldl] in *. by rewrite Hd', Hdis.
    + intros a Ha _. change (ld (mem k') a = ld (mem k) a). by rewrite Hm'.
  - assert (Him : image k' = image k) by (unfold image; by rewrite Hm').
    assert (Hbb : boot_block (fs k') = boot_block (fs k)) by by rewrite Hfs'.
    assert (Hst : FS_START_ADDR (fs k') = FS_START_ADDR (fs k)) by by rewrite Hfs'.
    exists inode, 0. unfold in_image, fd_open. rewrite Him, Hbb, Hst, Hf', Z.sub_0_r.
    unfold gs. cbn [foldl].
    split; [split; [lia |]; split; [discriminate | split; [reflexivity | split; reflexivity]] |]. split; [exact Hi |]. split; [| done].
    destruct Hi as [(_ & Hlen & _) _]. lia.
Qed.

Lemma kernel_open k p n l :
  served k -> terminated NUL (chars k p) n -> user_page p -> named_file k n l ->
  exists fd k', ece391_open p k = Returns fd k' /\ fd <> -1 /\ after k k' [] nowhere /\
    stream_of k' fd l.
Proof.
  intros Hs Ht Hp (j & Hj). destruct (kernel_open_at k p n l j Hs Ht Hp Hj) as (fd & d & _ & H1 & H2 & H3 & H4).
  by exists fd, (file_opened fd (de_inode_num (image k) (boot_block (fs k)) j) d k).
Qed.

Lemma open_absent_refused k p n :
  terminated NUL (chars k p) n -> user_page p -> no_file k n ->
  ece391_open p k = Returns (-1) (called k).
Proof.
  intros Ht Hp (Hf & _ & Hno). set (name := ptr_str (image k) p).
  assert (Hnn : is_null name = false) by by apply Z.eqb_neq, user_nonzero.
  destruct (get_filetype_spec (image k) (boot_block (fs k)) fuel name n Hnn Ht Hf) as [_ Hg].
  cbn [ece391_open kernel_calls]. rewrite int80_open. unfold system_open.
  change (set_filesys_pcb (return_pcb_parent (main_process (sys (sti k)))) (sti k)) with (called k).
  change (image (called k)) with (image k). change (boot_block (fs (called k))) with (boot_block (fs k)).
  fold name. rewrite Hg by exact Hno. reflexivity.
Qed.

Lemma kernel_open_absent k p n :
  served k -> terminated NUL (chars k p) n -> user_page p -> no_file k n ->
  exists k', ece391_open p k = Returns (-1) k' /\ after k k' [] nowhere.
Proof.
  intros Hs Ht Hp Hn. destruct (called_quiet k Hs) as [Hq Hd].
  exists (called k). split; [by apply (open_absent_refused k p n) |].
  split; [by apply (quiet_served k) | exact Hd | intros a _ _; reflexivity].
Qed.

Lemma dot_entry f bb :
  entry_name f bb 0 = str_bytes "." -> forall s, terminated NUL s (str_bytes ".") ->
  strncmp (de_filename f bb 0) s MAX_FILE_LEN = 0.
Proof.
  intros He s [Hc Hz]. change (Z.of_nat (length (str_bytes "."))) with 1 in *.
  destruct (Hc 0 ltac:(lia)) as [H0 _]. injection H0 as H0.
  unfold entry_name in He. cbn [name_from] in He. cbv zeta in He.
  change (0 + 1) with 1 in He. unfold strncmp, MAX_FILE_LEN.
  change (Z.to_nat (u32 32)) with 32%nat. cbn [strncmp_from]. change (0 + 1) with 1.
  rewrite <- H0, Hz.
  destruct (Z.eqb_spec (de_filename f bb 0 0) NUL); [discriminate |].
  injection He as -> He.
  destruct (Z.eqb_spec (de_filename f bb 0 1) NUL) as [-> |]; [reflexivity | discriminate].
Qed.

(** [open] of the directory takes the first free descriptor; without one it
    stores the table's address below the control block. *)
Lemma open_dir_run k p :
  (1 < fuel)%nat -> served k -> terminated NUL (chars k p) (str_bytes ".") -> user_page p ->
  has_name (image k) (boot_block (fs k)) (str_bytes ".") 0 ->
  de_filetype (image k) (boot_block (fs k)) 0 = 1 ->
  exists d, ece391_open p k
    = match first_free 8 0 (called k) with
      | Some fd => Returns fd (change_all fd
          [set_flags 1; set_fd_inode (inode_num d); set_f_ops (Some DirTable)] (looked_up d k))
      | None => Returns (-1) (upd_mem (fun m => st32 m (main_pcb k + 16 * -1) (table_addr DirTable))
                  (looked_up d k))
      end.
Proof.
  intros Hf Hs Ht Hp Hj Hty. set (name := ptr_str (image k) p).
  assert (Hnn : is_null name = false) by by apply Z.eqb_neq, user_nonzero.
  assert (Hlen : length (str_bytes ".") = 1%nat) by reflexivity.
  destruct (get_filetype_spec (image k) (boot_block (fs k)) fuel name _ Hnn Ht) as [Hg _]; [lia |].
  destruct (read_dentry_by_name_spec (image k) (boot_block (fs k)) fuel name _ Hnn Ht) as [Hr _]; [lia |].
  destruct (Hr 0 ltac:(lia) Hj) as (d & Hd & _ & _ & Hdt & Hdi). exists d.
  cbn [ece391_open kernel_calls]. rewrite int80_open. unfold system_open.
  change (set_filesys_pcb (return_pcb_parent (main_process (sys (sti k)))) (sti k)) with (called k).
  change (image (called k)) with (image k). change (boot_block (fs (called k))) with (boot_block (fs k)).
  fold name. rewrite (Hg 0 ltac:(lia) Hj), Hty. unfold bind, dir_open. cbv zeta.
  change (image (called k)) with (image k). change (boot_block (fs (called k))) with (boot_block (fs k)).
  rewrite (dot_entry _ _ (proj1 (proj2 Hj)) (chr name) Ht). change (negb (0 =? 0)) with false. cbv iota.
  rewrite Hd, Hdt, Hty. change (negb (1 =? 1)) with false. cbv iota zeta.
  change (Z.to_nat MAX_FILES) with 8%nat.
  change (upd_fs (set_cur_dentry d) (called k)) with (looked_up d k).
  change (first_free 8 0 (looked_up d k)) with (first_free 8 0 (called k)).
  change (return_pcb_parent (main_process (sys (sti k)))) with (main_pcb (looked_up d k)).
  destruct (first_free 8 0 (called k)) as [fd |] eqn:Hff; [| exact eq_refl].
  pose proof (free_above k fd Hs Hff) as Hfd.
  rewrite fill_bitmap_in by lia. unfold modify, ret, store_f_ops.
  rewrite (proj2 (Z.leb_le 0 fd)), (proj2 (Z.leb_le fd MAX_FD)) by (unfold MAX_FD; lia).
  cbn [andb]. cbv iota.
  rewrite (proj1 (opened_changes fd (inode_num d) (Some DirTable) (looked_up d k) eq_refl)). exact eq_refl.
Qed.

Lemma kernel_open_dir k p names :
  (64 <= fuel)%nat -> served k -> terminated NUL (chars k p) (str_bytes ".") -> user_page p ->
  root_listing k names ->
  exists fd k', ece391_open p k = Returns fd k' /\ fd <> -1 /\ after k k' [] nowhere /\
    listing_of k' fd names.
Proof.
  intros Hf Hs Ht Hp (Hdir & Hj & Hty & (fd & Hff & Hpos) & ->).
  pose proof (free_above k fd Hs Hff) as Hfd.
  destruct (open_dir_run k p ltac:(lia) Hs Ht Hp Hj Hty) as (d & He). rewrite Hff in He.
  destruct (looked_up_quiet d k Hs) as [Hq Hdis]. pose proof (quiet_served _ _ Hq Hs) as Hs1.
  set (gs := [set_flags 1; set_fd_inode (inode_num d); set_f_ops (Some DirTable)]) in *.
  destruct (change_all_spec fd gs (looked_up d k) Hs1 Hfd) as ((Hs' & Hd' & Hm' & Hfs' & Hf') & _).
  set (k' := change_all fd gs (looked_up d k)) in *.
  exists fd, k'. split; [exact He | split; [lia | split]].
  - split; [exact Hs' | |].
    + cbn [display kernel_view foldl] in *. by rewrite Hd', Hdis.
    + intros a Ha _. change (ld (mem k') a = ld (mem k) a). by rewrite Hm'.
  - exists (inode_num d), 0. unfold dir_in_image, dir_ok, names_from, name_bytes, fd_open, image.
    rewrite Hm', Hf'.
    assert (Hbb : boot_block (fs k') = boot_block (fs k)) by by rewrite Hfs'. rewrite Hbb.
    change (proc_fd fd (looked_up d k)) with (proc_fd fd k). unfold gs. cbn [foldl].
    split; [split; [lia |]; split; [discriminate | split; [reflexivity | split; [exact Hpos | reflexivity]]] |].
    pose proof Hdir as ((Hc & _) & _). split; [exact Hdir | split; [| reflexivity]].
    unfold image in Hc. change (mem (looked_up d k)) with (mem k). lia.
Qed.

(** *** The interface *)

Lemma user_distinct k a b :
  served k -> user_page a -> user_page b -> loc (mem k) a = loc (mem k) b -> a = b.
Proof.
  intros Hs Ha Hb. destruct (user_loc k a Hs Ha) as (p & Hp & -> & Hall). rewrite (Hall b Hb).
  intros [= He]. lia.
Qed.

Lemma users_first (p n : Z) : 0 < n -> users p n -> user_page p.
Proof. intros Hn Hu. by apply (user_at p n). Qed.

(** *** close *)

Definition give_back (o : outcome Z) : result kernel Z :=
  match o with
  | Ret a k' => Returns a k'
  | Leave _ k' | Spin k' | Fault k' => Stops k'
  end.

(** What a call on descriptor [fd] reaches. *)
Definition ops_of (fd : Z) (k : kernel) : f_ops_table := table_of (f_ops (proc_fd fd k)) (called k).

Lemma close_reaches fd k :
  0 <= fd < 8 -> ece391_close fd k = give_back (call_close (op_close (ops_of fd k)) fd (called k)).
Proof.
  intros Hfd. change (int80 6 fd 0 0 k
    = give_back (call_close (op_close (ops_of fd k)) fd (called k))).
  unfold int80, syscall_wrapper. change (u32 6) with 6.
  change ((NUM_SYSCALLS <? 6) || (6 <? 1)) with false. cbv iota. unfold system_close, MAX_FD.
  by rewrite s32_small, (proj2 (Z.ltb_ge fd 0)), (proj2 (Z.ltb_ge 7 fd)) by lia.
Qed.

Lemma kernel_close k fd l :
  served k -> stream_of k fd l ->
  exists k', ece391_close fd k = Returns 0 k' /\ after k k' [] nowhere /\
    k' = change_all fd [set_file_pos 0; set_flags 0] (called k).
Proof.
  intros Hs (inode & pos & Ho & _). pose proof (fd_open_opened _ _ _ _ _ Hs Ho) as Hop.
  destruct Ho as (Hfd & _ & _ & _ & Hf).
  assert (Hfd2 : 2 <= fd < 8).
  { destruct (decide (fd < 2)); [| lia]. destruct (sv_std k Hs fd) as [_ He]; [lia |].
    rewrite Hf in He. discriminate. }
  destruct (called_quiet k Hs) as [Hq Hd]. pose proof (quiet_served _ _ Hq Hs) as Hsc.
  destruct (change_all_spec fd [set_file_pos 0; set_flags 0] (called k) Hsc Hfd2)
    as ((Hs' & Hd' & Hm' & _) & _).
  set (k' := change_all fd [set_file_pos 0; set_flags 0] (called k)) in *.
  exists k'. split.
  - rewrite close_reaches by done. unfold ops_of. rewrite Hf. cbn [table_of].
    change (file_table (sys (called k))) with (file_table (sys k)).
    rewrite (proj1 (proj2 (proj2 (sv_tables k Hs)))). cbn [call_close]. unfold file_close.
    rewrite (opened_not _ _ _ _ Hop), free_bitmap_in by done. reflexivity.
  - split; [| reflexivity]. split; [exact Hs' | cbn [display kernel_view foldl]; by rewrite Hd', Hd |].
    intros a _ _. change (ld (mem k') a = ld (mem k) a). by rewrite Hm'.
Qed.

Lemma kernel_spec : (128 < fuel)%nat -> SysSpec kernel.
Proof.
  intros Hf. assert (Hf64 : (64 <= fuel)%nat) by lia. split.
  - exact kernel_mem_laws.
  - intros k a Hs Ha. destruct (user_loc k a Hs Ha) as (p & _ & He & _).
    cbn [loc kernel_calls user_mem kernel_mem]. rewrite He. by eexists.
  - exact user_distinct.
  - exact kernel_store.
  - intros k buf n Hs Hn Hb Hu. exact (kernel_write buf n k Hs Hn Hb Hu).
  - intros k fd l buf n Hs Ho Hn Hb Hu c. destruct (kernel_read k fd l buf n Hs Ho Hn Hb Hu) as (k' & H1 & H2 & H3 & H4 & _).
    by exists k'.
  - intros k fd l Hs Ho. destruct (kernel_close k fd l Hs Ho) as (k' & H1 & H2 & _). by exists k'.
  - intros k fd nm rest buf. exact (kernel_list k fd nm rest buf Hf64).
  - exact kernel_listed.
  - intros k fd buf. exact (kernel_list_end k fd buf Hf64).
  - intros k l buf n Hs Ht Hu _. exact (kernel_typed k l buf n Hf Hs Ht Hu).
  - exact kernel_line.
  - intros k p n l Hs Ht Hu. apply (kernel_open k p n l Hs Ht). eapply users_first; [| exact Hu]. lia.
  - intros k p n Hs Ht Hu. apply (kernel_open_absent k p n Hs Ht). eapply users_first; [| exact Hu]. lia.
  - intros k p names Hs Ht Hu. apply (kernel_open_dir k p names Hf64 Hs Ht).
    eapply users_first; [| exact Hu]. lia.
  - exact kernel_getargs.
  - intros k l (Hl & _). exact Hl.
Qed.

(** What the machine is like after a program ran. *)
Definition shown_after (k k' : kernel) (l : list Z) (touched : Z -> Prop) : Prop :=
  served k' /\ shown k' = foldl show_char (shown k) l /\
  forall a, user_page a -> ~ touched a -> ld (mem k') a = ld (mem k) a.

Lemma after_shown k k' l T : after k k' l T -> shown_after k k' l T.
Proof. by intros [Hg Hd Hm]. Qed.

(** ** Properties *)

(** C13: The kernel implements the interface that the user programs are
    verified against: through INT 0x80, every law of [SysSpec] holds of
    the system calls of a machine that serves a process. *)
Theorem kernel_implements : (128 < fuel)%nat -> SysSpec kernel.
Proof. exact kernel_spec. Qed.

Variable lit_addr : string -> Z.

(** C14: [cat] on the machine: run with the name of a regular file as its
    argument, the program makes its calls through INT 0x80 and the
    terminal then shows exactly the bytes of the file, drawn one after the
    other; the program returns 0 and changed no memory but its buffer. *)
Theorem cat_on_kernel buf name l k :
  (1024 < fuel)%nat -> served k -> argument_of k name -> name <> [] -> named_file k name l ->
  (forall i, 0 <= i < 1024 -> user_page (buf + i)) -> (length l < fuel)%nat ->
  exists k', cat_main lit_addr fuel buf k = Returns 0 k' /\ shown_after k k' l (within buf 1024).
Proof.
  intros Hf Hs Ha Hne Hn Hu Hl. pose proof (kernel_spec ltac:(lia)) as Hspec. change (good k) in Hs.
  destruct (cat_shows_file lit_addr fuel buf k name l Hs Ha Hne Hn Hu) as (k' & He & Haf); [| exact Hl |].
  - cbn [limit kernel_view]. lia.
  - exists k'. split; [exact He | exact (after_shown _ _ _ _ Haf)].
Qed.

(** [cat] of a name that no directory entry has: the machine shows
    "file not found" and the program returns 2. *)
Theorem cat_absent_on_kernel buf name k :
  (128 < fuel)%nat -> served k -> argument_of k name -> name <> [] -> no_file k name ->
  (forall i, 0 <= i < 1024 -> user_page (buf + i)) ->
  has_lit lit_addr fuel (within buf 1024) k "file not found
" ->
  exists k', cat_main lit_addr fuel buf k = Returns 2 k' /\
    shown_after k k' (str_bytes "file not found
") (within buf 1024).
Proof.
  intros Hf Hs Ha Hne Hn Hu Hl. pose proof (kernel_spec Hf) as Hspec. change (good k) in Hs.
  destruct (cat_reports_absent lit_addr fuel buf k name Hs Ha Hne Hn Hu Hl) as (k' & He & Haf).
  exists k'. split; [exact He | exact (after_shown _ _ _ _ Haf)].
Qed.

(** [ls] on the machine shows the name of every entry of the boot
    block in order, a newline after each, and returns 0. *)
Theorem ls_on_kernel buf names k :
  (128 < fuel)%nat -> served k -> root_listing k names ->
  (forall i, 0 <= i < 33 -> user_page (buf + i)) -> (length names < fuel)%nat ->
  has_lit lit_addr fuel (within buf 33) k "." ->
  exists k', ls_main lit_addr fuel buf k = Returns 0 k' /\
    shown_after k k' (concat ((fun nm => nm ++ [NEWLINE]) <$> names)) (within buf 33).
Proof.
  intros Hf Hs Hd Hu Hn Hl. pose proof (kernel_spec Hf) as Hspec. change (good k) in Hs.
  destruct (ls_shows_names lit_addr fuel buf k names Hs Hd Hu) as (k' & He & Haf); [| exact Hn | exact Hl |].
  - cbn [limit kernel_view]. lia.
  - exists k'. split; [exact He | exact (after_shown _ _ _ _ Haf)].
Qed.

(** C20: The shell takes the line that was typed: it shows its prompt, the
    line is in its buffer as a string, and it then ends on "exit", starts
    over on an empty line, and otherwise makes the call of [execute] on
    exactly that string and reports by the value. *)
Theorem shell_on_kernel n buf line k :
  (128 < fuel)%nat -> served k -> typed_line k line ->
  (forall i, 0 <= i < 1024 -> user_page (buf + i)) ->
  has_lit lit_addr fuel (within buf 1024) k "391OS> " ->
  has_lit lit_addr fuel (within buf 1024) k "exit" ->
  exists k', shell_loop lit_addr fuel (S n) buf k = shell_line lit_addr fuel n buf line k' /\
    shown_after k k' (str_bytes "391OS> ") (within buf 1024) /\
    terminated NUL (fun i => ld (mem k') (buf + i)) line.
Proof.
  intros Hf Hs Ht Hu Hp Hx. pose proof (kernel_spec Hf) as Hspec. change (good k) in Hs.
  destruct (shell_turn lit_addr fuel n buf k line Hs Ht Hu Hp Hx Hf) as (k' & He & Haf & Hl).
  exists k'. split; [exact He |]. split; [exact (after_shown _ _ _ _ Haf) | exact Hl].
Qed.

(** [hello] on the machine asks for a name, takes the line typed at the
    keyboard and shows it after "Hello, ". *)
Theorem hello_on_kernel buf line k :
  (129 < fuel)%nat -> served k -> typed_line k line ->
  (forall i, 0 <= i < 1024 -> user_page (buf + i)) ->
  has_lit lit_addr fuel (within buf 1024) k "Hi, what's your name? " ->
  has_lit lit_addr fuel (within buf 1024) k "Hello, " ->
  exists k', hello_main lit_addr fuel buf k = Returns 0 k' /\
    shown_after k k' (str_bytes "Hi, what's your name? " ++ str_bytes "Hello, " ++ line ++ [NEWLINE])
      (within buf 1024).
Proof.
  intros Hf Hs Ht Hu Hp Hx. pose proof (kernel_spec ltac:(lia)) as Hspec. change (good k) in Hs.
  destruct (hello_greets lit_addr fuel buf k line Hs Ht Hu) as (k' & He & Haf);
    [lia | cbn [limit kernel_view]; lia | exact Hp | exact Hx |].
  exists k'. split; [exact He | exact (after_shown _ _ _ _ Haf)].
Qed.
End instance.

(** ** A machine at work *)

(** The literals of the program, behind its buffer. *)
Definition work_buf : Z := UNIT_128_MB.
Definition work_text : Z := UNIT_128_MB + 0x1000.

(** The sample machine with the page of process 0 mapped, an argument
    and a text in that page, and a line typed at the terminal. *)
Definition work_mem (text : list Z) : vmem := write (map_prog 0 (mem running)) work_text text.

Definition put_to_work (k : kernel) (arg line : list Z) (m : vmem) : kernel :=
  upd_kbd (set_save_buf_1 (padded 128 (line ++ [NEWLINE])))
    (upd_sys (set_arg_buf (padded 128 arg)) (set_mem m k)).

Lemma image_put_to_work k arg line m a : image (put_to_work k arg line m) a = ld m a.
Proof. reflexivity. Qed.

Lemma fs_put_to_work k arg line m : fs (put_to_work k arg line m) = fs k.
Proof. reflexivity. Qed.

Definition at_work (arg line text : list Z) : kernel :=
  put_to_work running arg line (work_mem text).

Lemma work_xlate text a : xlate (work_mem text) a = xlate (map_prog 0 (mem running)) a.
Proof. exact (loc_write (map_prog 0 (mem running)) work_text text a). Qed.

Lemma work_kernel text : kernel_mapped (work_mem text).
Proof. apply kernel_mapped_write, map_prog_kernel; [lia | exact running_kernel]. Qed.

Lemma work_user text o :
  0 <= o < UNIT_4_MB -> xlate (work_mem text) (UNIT_128_MB + o) = Some (prog_phys 0 + o).
Proof. intros Ho. rewrite work_xlate. apply map_prog_xlate; [lia | exact running_kernel | done]. Qed.

Lemma work_video text i : 0 <= i < 4000 -> xlate (work_mem text) (VIDEO + i) = Some (VIDEO + i).
Proof.
  intros Hi. rewrite work_xlate.
  assert (Hu : u32 (VIDEO + i) = VIDEO + i) by (apply u32_small; unfold VIDEO; lia).
  assert (Hd : u32 (VIDEO + i) / UNIT_4_MB = 0)
    by (rewrite Hu; unfold VIDEO, UNIT_4_MB; Z.div_mod_to_equations; lia).
  rewrite map_prog_other; [| lia | apply running_kernel | lia].
  change (mem running) with (setup_paging (exec_image (bare ∅))).
  rewrite setup_paging_xlate, Hu.
  - rewrite decide_True; [done | right; unfold VIDEO; lia].
  - vm_compute. repeat split; congruence.
Qed.

Lemma running_console : console_wf running.
Proof.
  split; [vm_compute; repeat split; congruence |]. split; [done |].
  split; [| vm_compute; repeat split; congruence].
  intros i Hi. assert (Hc : i = 0 \/ i = 1 \/ i = 2) by lia.
  destruct Hc as [-> | [-> | ->]]; vm_compute; repeat split; congruence.
Qed.

Lemma served_at_work k arg line m :
  console_wf k -> tables_set k -> kernel_mapped m -> video_return k = VIDEO ->
  (forall o, 0 <= o < UNIT_4_MB -> xlate m (UNIT_128_MB + o) = Some (prog_phys 0 + o)) ->
  (forall i, 0 <= i < 4000 -> xlate m (VIDEO + i) = Some (VIDEO + i)) ->
  length (fdt (pcb_at (main_pcb k) k)) = 8%nat ->
  (forall fd, 0 <= fd < 2 -> flags (proc_fd fd k) <> 0 /\ f_ops (proc_fd fd k) = Some TerminalTable) ->
  served (put_to_work k arg line m).
Proof.
  intros Hc Ht Hk Hv Hu Hx Hl Hs. split; try assumption.
  - exists 0. split; [lia | exact Hu].
  - exists VIDEO. split; [lia |]. split; [unfold VIDEO, UNIT_4_MB; lia |].
    change (video_return (put_to_work k arg line m)) with (video_return k). by rewrite Hv.
Qed.

Lemma work_served arg line text : served (at_work arg line text).
Proof.
  apply served_at_work.
  - exact running_console.
  - by split_and!.
  - apply work_kernel.
  - reflexivity.
  - intros o Ho. by apply work_user.
  - intros i Hi. by apply work_video.
  - reflexivity.
  - intros fd Hfd. assert (Hc : fd = 0 \/ fd = 1) by lia.
    destruct Hc as [-> | ->]; (split; [discriminate | reflexivity]).
Qed.

(** The text is in the page, and the image is the one of the sample machine. *)
Lemma work_loc o : 0 <= o < UNIT_4_MB -> loc (map_prog 0 (mem running)) (UNIT_128_MB + o) = Some (prog_phys 0 + o).
Proof. intros Ho. apply map_prog_xlate; [lia | exact running_kernel | done]. Qed.

Lemma work_region n : (n <= 1000)%nat -> region (map_prog 0 (mem running)) work_text n.
Proof.
  intros Hn. unfold work_text. split.
  - intros i Hi. rewrite <- Z.add_assoc, work_loc by (unfold UNIT_4_MB; lia). by eexists.
  - intros i j Hi Hj. rewrite <- !Z.add_assoc, !work_loc by (unfold UNIT_4_MB; lia).
    intros [= ?]. lia.
Qed.

Lemma work_ld text a :
  (length text <= 1000)%nat -> in_kernel a -> ld (work_mem text) a = ld (mem running) a.
Proof.
  intros Hl Ha. rewrite <- (map_prog_ld 0 (mem running) a) by (lia || exact running_kernel || done).
  apply ld_write_apart; [by apply work_region |]. intros i Hi. unfold work_text.
  rewrite <- Z.add_assoc, work_loc by (unfold UNIT_4_MB; lia).
  rewrite (kernel_loc _ a) by (done || (apply map_prog_kernel; [lia | exact running_kernel])).
  rewrite prog_phys_eq by lia. unfold in_kernel, UNIT_8_MB in *. intros [= ?]. lia.
Qed.

Lemma work_bytes text :
  (length text <= 1000)%nat -> Forall (fun c => 0 <= c < 256) text ->
  bytes (work_mem text) work_text (length text) = text.
Proof.
  intros Hl Hc. unfold work_mem. rewrite bytes_write by by apply work_region. by apply u8_bytes.
Qed.

Lemma work_same_boot arg line text :
  (length text <= 1000)%nat -> same_boot running (at_work arg line text).
Proof.
  intros Hl. unfold at_work. split; [by rewrite fs_put_to_work |]. intros a Ha. rewrite image_put_to_work.
  apply (work_ld text a Hl).
  change (boot_block (fs running)) with sample_base in Ha.
  unfold within, in_kernel, sample_base, FOUR_KB, UNIT_4_MB, UNIT_8_MB in *. lia.
Qed.

Lemma work_file arg line text :
  (length text <= 1000)%nat ->
  let k := at_work arg line text in
  in_image 0 k /\ length_of k 0 = 5 /\ bytes_of k 0 5 0 = str_bytes "fish!".
Proof.
  intros Hl k.
  assert (Hi : forall a, in_kernel a -> image k a = image running a).
  { intros a Ha. unfold k, at_work. rewrite image_put_to_work. exact (work_ld text a Hl Ha). }
  assert (Hb : boot_block (fs k) = boot_block (fs running)) by (unfold k, at_work; by rewrite fs_put_to_work).
  assert (Hs : FS_START_ADDR (fs k) = FS_START_ADDR (fs running)) by (unfold k, at_work; by rewrite fs_put_to_work).
  assert (H5 : length_of running 0 = 5) by (apply (running_length 0 0); [done | by left]).
  assert (Hf : bytes_of running 0 5 0 = str_bytes "fish!") by (vm_compute; reflexivity).
  clearbody k. destruct (in_image_agree 0 running k Hi Hb Hs) as (H1 & H2 & H3).
  - split; [apply running_file; by left |]. intros a Ha. apply running_addrs in Ha; [| by left].
    unfold in_kernel, sample_base, UNIT_4_MB, UNIT_8_MB in *. lia.
  - split; [exact H1 |]. rewrite H2, H5. split; [reflexivity |]. rewrite H3, Hf; [reflexivity | lia |].
    rewrite H5. lia.
Qed.

(** What the machine at work has for a program. *)
Lemma free_put_to_work k arg line m :
  first_free 8 0 (called (put_to_work k arg line m)) = first_free 8 0 (called k) /\
  (forall i, inode_open 8 0 i (called (put_to_work k arg line m)) = inode_open 8 0 i (called k)) /\
  (forall fd, proc_fd fd (put_to_work k arg line m) = proc_fd fd k).
Proof. repeat split. Qed.

Lemma padded_terminated stop l :
  (length l < 128)%nat -> Forall (fun c => c <> stop) l ->
  terminated stop (arr_get (padded 128 (l ++ [stop]))) l.
Proof.
  intros Hl Hc. unfold padded. rewrite <- app_assoc. split.
  - intros i Hi. destruct (lookup_lt_is_Some_2 l (Z.to_nat i)) as [c Hlk]; [lia |].
    rewrite (arr_get_lookup _ _ c) by (lia || by rewrite lookup_app_l by lia). split; [done |].
    exact (Forall_lookup_1 _ _ _ _ Hc Hlk).
  - apply arr_get_lookup; [lia |]. rewrite Nat2Z.id. by apply list_lookup_middle.
Qed.

Lemma work_argument name line text :
  (length name < 127)%nat -> Forall (fun c => 0 < c < 256) name ->
  argument_of (at_work (name ++ [NUL]) line text) name.
Proof.
  intros Hl Hc. split; [lia |]. split; [done |].
  apply padded_terminated; [lia |]. eapply Forall_impl; [exact Hc |]. unfold NUL.
  intros c Hr. cbv beta in Hr. lia.
Qed.

Lemma work_typed arg line text :
  (length line < 127)%nat -> Forall (fun c => 0 < c < 256 /\ c <> NEWLINE) line ->
  typed_line (at_work arg line text) line.
Proof.
  intros Hl Hc. split; [reflexivity |]. split; [eapply Forall_impl; [exact Hc |]; by intros c [? _] |].
  exists (padded 128 (line ++ [NEWLINE])). split; [reflexivity |]. split; [| split; [lia | split]].
  - unfold padded. rewrite length_app, length_replicate, length_app. cbn [length]. lia.
  - eapply Forall_impl; [exact Hc |]. intros c [? ?]. split; [lia | done].
  - unfold padded. rewrite <- app_assoc. by eexists.
Qed.

Lemma work_named fuel arg line text :
  (32 < fuel)%nat -> (length text <= 1000)%nat ->
  named_file fuel (at_work arg line text) (str_bytes "frame0.txt") (str_bytes "fish!").
Proof.
  intros Hf Hl. destruct (work_file arg line text Hl) as (Hi & Hlen & Hb).
  pose proof (work_same_boot arg line text Hl) as [Hbb He].
  assert (Hj : has_name (image running) (boot_block (fs running)) (str_bytes "frame0.txt") 1)
    by (apply running_has_name; by left).
  assert (Hino : de_inode_num (image running) (boot_block (fs running)) 1 = 0) by (vm_compute; reflexivity).
  assert (Hty : de_filetype (image running) (boot_block (fs running)) 1 = 2) by (vm_compute; reflexivity).
  assert (Hff : is_Some (first_free 8 0 (called running))) by (vm_compute; by eexists).
  assert (Hio : inode_open 8 0 0 (called running) = false) by (vm_compute; reflexivity).
  assert (Hbk : forall a, within (boot_block (fs running)) FOUR_KB a -> in_kernel a).
  { intros a Ha. change (boot_block (fs running)) with sample_base in Ha.
    unfold within, in_kernel, sample_base, FOUR_KB, UNIT_4_MB, UNIT_8_MB in *. lia. }
  destruct (free_put_to_work running arg line (work_mem text)) as (E1 & E2 & _).
  fold (at_work arg line text) in E1, E2. rewrite <- E1 in Hff. rewrite <- E2 in Hio. clear E1 E2.
  generalize dependent (at_work arg line text). intros k Hi Hlen Hb Hbb He Hff Hio.
  assert (Hlen1 : length (str_bytes "frame0.txt") = 10%nat) by reflexivity.
  generalize dependent running. intros r Hj Hino Hty Hbk Hbb He.
  exists 1. unfold named_at. cbv zeta. rewrite Hbb. rewrite (same_inode_num _ _ _ He), Hino by (unfold BOOT_NUM_DIRS; lia).
  unfold de_filetype, FILE_TYPE_OFFSET in *. rewrite (same_field _ _ _ He), Hty by (unfold BOOT_NUM_DIRS; lia).
  rewrite Hlen1, Hlen. split; [lia |]. split; [lia |]. split; [by apply (same_has_name _ _ _ He) |].
  split; [reflexivity |]. split; [exact Hbk |]. split; [exact Hi |]. split; [exact Hio |].
  split; [exact Hff |]. rewrite <- Hbb. symmetry. exact Hb.
Qed.

Lemma running_directory : dir_in_image running.
Proof.
  assert (Hc : forall i, 0 <= i < dir_count (image running) (boot_block (fs running)) ->
    i = 0 \/ i = 1 \/ i = 2) by (change (dir_count _ _) with 3; lia).
  split; [| split; [| split; [| split; [vm_compute; done |]]]].
  - split; [vm_compute; split; congruence |]. intros i Hi.
    exists (Z.of_nat (length (name_bytes running i))).
    assert (Hb : forallb (fun t => negb (image running (direntry (boot_block (fs running)) i + t) =? NUL))
      (seqZ 0 (Z.of_nat (length (name_bytes running i)))) = true)
      by (destruct (Hc i Hi) as [-> | [-> | ->]]; vm_compute; reflexivity).
    split; [destruct (Hc i Hi) as [-> | [-> | ->]]; vm_compute; split; congruence |].
    split; [destruct (Hc i Hi) as [-> | [-> | ->]]; vm_compute; reflexivity |].
    intros t Ht. pose proof (forall_below _ _ Hb t Ht) as Hn. by apply negb_true_iff, Z.eqb_neq in Hn.
  - intros a Ha. change (boot_block (fs running)) with sample_base in Ha.
    unfold within, in_kernel, sample_base, FOUR_KB, UNIT_4_MB, UNIT_8_MB in *. lia.
  - intros i Hi. destruct (Hc i Hi) as [-> | [-> | ->]]; vm_compute; congruence.
  - exists []. split; [simpl; lia |]. split; [intros i Hi; simpl in Hi; lia | vm_compute; reflexivity].
Qed.

Lemma running_root :
  root_listing running [str_bytes "."; str_bytes "frame0.txt"; str_bytes "shell"].
Proof.
  split; [exact running_directory |]. split; [| split; [vm_compute; reflexivity | split]].
  - split; [vm_compute; split; congruence |]. split; [vm_compute; reflexivity | intros i Hi; lia].
  - exists 2. split; vm_compute; reflexivity.
  - vm_compute. reflexivity.
Qed.

(** No entry of the image can be opened by this name. *)
Definition not_in_image (n : list Z) : bool :=
  bool_decide (n = []) ||
  forallb (fun i => negb (bool_decide (entry_name (image running) (boot_block (fs running)) i = n))) (seqZ 0 63).

Lemma running_absent fuel n : (length n < fuel)%nat -> not_in_image n = true -> no_file fuel running n.
Proof.
  unfold not_in_image. intros Hf [->%bool_decide_eq_true | Hb]%orb_true_iff;
    (split; [done |]; split; [apply running_directory |]).
  - left. by left.
  - right. intros i Hi. pose proof (forall_below _ _ Hb i Hi) as Hn.
    by apply negb_true_iff, bool_decide_eq_false in Hn.
Qed.

Lemma work_root arg line text :
  (length text <= 1000)%nat ->
  root_listing (at_work arg line text) [str_bytes "."; str_bytes "frame0.txt"; str_bytes "shell"].
Proof.
  intros Hl. pose proof (work_same_boot arg line text Hl) as Hs.
  destruct (free_put_to_work running arg line (work_mem text)) as (E1 & _ & E3).
  fold (at_work arg line text) in E1, E3. exact (same_boot_root _ _ _ Hs E1 E3 running_root).
Qed.

Lemma work_absent fuel n arg line text :
  (length text <= 1000)%nat -> (length n < fuel)%nat -> not_in_image n = true ->
  no_file fuel (at_work arg line text) n.
Proof.
  intros Hl Hf Hn. exact (same_boot_absent fuel _ _ _ (work_same_boot arg line text Hl) (running_absent fuel n Hf Hn)).
Qed.

Section literals.
Variables (junk : Z -> Z) (table_addr : table -> Z) (fuel : nat) (lit_addr : string -> Z).
Let calls : SysCalls kernel := kernel_calls junk table_addr fuel.
Let view : SysView kernel := kernel_view fuel.
#[local] Existing Instances calls view.

(** A literal that follows [pre] in the text of the program. *)
Lemma work_lit n arg line text pre s post :
  text = pre ++ (str_bytes s ++ [NUL]) ++ post -> lit_addr s = work_text + Z.of_nat (length pre) -> (length text <= 1000)%nat -> (1000 < fuel)%nat ->
  0 <= n <= 4096 -> Forall (fun c => 0 <= c < 256) text -> Forall (fun c => c <> NUL) (str_bytes s) ->
  has_lit lit_addr fuel (within work_buf n) (at_work arg line text) s.
Proof.
  intros Htext Ha Hl Hf Hn Hc Hs.
  assert (Hlen : length text = (length pre + ((length (str_bytes s) + 1) + length post))%nat)
    by by rewrite Htext, !length_app.
  assert (Hb : bytes (work_mem text) work_text
    (length pre + ((length (str_bytes s) + 1) + length post)) = pre ++ (str_bytes s ++ [NUL]) ++ post)
    by (rewrite <- Hlen, <- Htext; by apply work_bytes).
  rewrite !bytes_app in Hb.
  apply app_inj_1 in Hb as [_ Hb]; [| by rewrite length_bytes].
  apply app_inj_1 in Hb as [Hb _]; [| rewrite length_app, length_bytes, length_app, !length_bytes; done].
  unfold has_lit. rewrite Ha. split; [| split; [| split; [| split; [lia | cbn [limit view kernel_view]; lia]]]].
  - eapply terminated_ext; [| apply (terminated_bytes NUL (work_mem text)); [exact Hs |]].
    + intros i _. unfold at_work. exact eq_refl.
    + rewrite bytes_app. exact Hb.
  - intros i Hi. unfold user_addr. cbn [view kernel_view]. unfold user_page, work_text, UNIT_4_MB. lia.
  - intros i Hi. unfold within, work_buf, work_text. lia.
Qed.

(** The literals one behind the other, and where each of them is. *)
Definition texts (l : list string) : list Z := concat ((fun s => str_bytes s ++ [NUL]) <$> l).

Fixpoint text_offset (l : list string) (s : string) : Z :=
  match l with
  | [] => 0
  | s' :: l' => if String.eqb s s' then 0 else Z.of_nat (length (str_bytes s' ++ [NUL])) + text_offset l' s
  end.

Definition text_addr (l : list string) (s : string) : Z := work_text + text_offset l s.

Lemma texts_split l s : s ∈ l ->
  exists pre post, texts l = pre ++ (str_bytes s ++ [NUL]) ++ post /\ text_offset l s = Z.of_nat (length pre).
Proof.
  induction l as [| s' l IH]; intros Hin; [by apply not_elem_of_nil in Hin |].
  change (texts (s' :: l)) with ((str_bytes s' ++ [NUL]) ++ texts l). cbn [text_offset].
  destruct (String.eqb_spec s s') as [-> | Hne]; [by exists [], (texts l) |].
  destruct IH as (pre & post & Ht & Ho); [by apply elem_of_cons in Hin as [|] |].
  exists ((str_bytes s' ++ [NUL]) ++ pre), post.
  rewrite Ht, Ho, (length_app (_ ++ _) pre). split; [by rewrite <- !app_assoc | lia].
Qed.

Lemma length_texts_in l s : s ∈ l -> (length (str_bytes s) < length (texts l))%nat.
Proof.
  intros Hin. destruct (texts_split l s Hin) as (pre & post & -> & _). rewrite !length_app. simpl. lia.
Qed.

Lemma texts_lit n arg line l s :
  lit_addr = text_addr l -> s ∈ l -> (length (texts l) <= 1000)%nat -> (1000 < fuel)%nat -> 0 <= n <= 4096 ->
  Forall (fun c => 0 <= c < 256) (texts l) -> Forall (fun c => c <> NUL) (str_bytes s) ->
  has_lit lit_addr fuel (within work_buf n) (at_work arg line (texts l)) s.
Proof.
  intros Ha Hin. destruct (texts_split l s Hin) as (pre & post & Ht & Ho).
  apply (work_lit n arg line (texts l) pre s post Ht). rewrite Ha. unfold text_addr. by rewrite Ho.
Qed.
End literals.

(** ** Witnesses *)

Definition no_junk : Z -> Z := fun _ => 0.
Definition no_addr : table -> Z := fun _ => 0.
Definition work_fuel : nat := Z.to_nat 1100.

Lemma work_users n : 0 <= n <= 4096 -> forall i, 0 <= i < n -> user_page (work_buf + i).
Proof. intros Hn i Hi. unfold user_page, work_buf, UNIT_4_MB. lia. Qed.

Lemma kernel_implements_witness :
  (128 < 200)%nat /\ @SysSpec kernel (kernel_view 200) (kernel_calls no_junk no_addr 200).
Proof. split; [lia | apply (kernel_implements no_junk no_addr 200); lia]. Defined.

Lemma cat_on_kernel_witness :
  let k := at_work (str_bytes "frame0.txt" ++ [NUL]) [] [] in
  exists k', @cat_main kernel (kernel_calls no_junk no_addr work_fuel) (fun _ => 0) work_fuel work_buf k
    = Returns 0 k' /\ shown k' = foldl show_char (shown k) (str_bytes "fish!").
Proof.
  intros k. destruct (cat_on_kernel no_junk no_addr work_fuel (fun _ => 0) work_buf (str_bytes "frame0.txt")
    (str_bytes "fish!") k) as (k' & He & _ & Hd & _).
  - unfold work_fuel; lia.
  - apply work_served.
  - apply work_argument; [simpl; lia | repeat constructor].
  - discriminate.
  - apply work_named; unfold work_fuel; simpl length; lia.
  - apply work_users. lia.
  - unfold work_fuel. simpl length. lia.
  - exists k'. split; [exact He | exact Hd].
Defined.

Ltac solve_lit :=
  first [lia | unfold work_fuel; lia | exact eq_refl | apply (bool_decide_unpack _); vm_compute; exact I].

Definition file_not_found : string := "file not found
".

Lemma cat_absent_on_kernel_witness :
  let k := at_work (str_bytes "nofile" ++ [NUL]) [] (texts [file_not_found]) in
  exists k', @cat_main kernel (kernel_calls no_junk no_addr work_fuel) (text_addr [file_not_found]) work_fuel work_buf k
    = Returns 2 k' /\ shown k' = foldl show_char (shown k) (str_bytes "file not found
").
Proof.
  intros k. destruct (cat_absent_on_kernel no_junk no_addr work_fuel (text_addr [file_not_found]) work_buf
    (str_bytes "nofile") k) as (k' & He & _ & Hd & _).
  - unfold work_fuel; lia.
  - apply work_served.
  - apply work_argument; [simpl; lia | repeat constructor].
  - discriminate.
  - apply work_absent; [simpl length; lia | unfold work_fuel; simpl length; lia | vm_compute; reflexivity].
  - apply work_users. lia.
  - by apply texts_lit; solve_lit.
  - exists k'. split; [exact He | exact Hd].
Defined.

Lemma ls_on_kernel_witness :
  let k := at_work [] [] (texts ["."]) in
  exists k', @ls_main kernel (kernel_calls no_junk no_addr work_fuel) (text_addr ["."]) work_fuel work_buf k
    = Returns 0 k' /\ shown k' = foldl show_char (shown k) (str_bytes ".
frame0.txt
shell
").
Proof.
  intros k. destruct (ls_on_kernel no_junk no_addr work_fuel (text_addr ["."]) work_buf
    [str_bytes "."; str_bytes "frame0.txt"; str_bytes "shell"] k) as (k' & He & _ & Hd & _).
  - unfold work_fuel; lia.
  - apply work_served.
  - apply work_root. simpl. lia.
  - apply work_users. lia.
  - unfold work_fuel. simpl length. lia.
  - by apply texts_lit; solve_lit.
  - exists k'. split; [exact He | exact Hd].
Defined.

Lemma shell_on_kernel_witness :
  let lit := text_addr ["391OS> "; "exit"] in
  let k := at_work [] (str_bytes "exit") (texts ["391OS> "; "exit"]) in
  exists k', @shell_loop kernel (kernel_calls no_junk no_addr work_fuel) lit work_fuel 1 work_buf k
    = Returns 0 k' /\ shown k' = foldl show_char (shown k) (str_bytes "391OS> ").
Proof.
  intros lit k. destruct (shell_on_kernel no_junk no_addr work_fuel lit 0 work_buf (str_bytes "exit") k)
    as (k' & He & (_ & Hd & _) & _).
  - unfold work_fuel; lia.
  - apply work_served.
  - apply work_typed; [simpl; lia | apply (bool_decide_unpack _); vm_compute; exact I].
  - apply work_users. lia.
  - by apply texts_lit; solve_lit.
  - by apply texts_lit; solve_lit.
  - exists k'. split; [exact He | exact Hd].
Defined.

Lemma hello_on_kernel_witness :
  let lit := text_addr ["Hi, what's your name? "; "Hello, "] in
  let k := at_work [] (str_bytes "Ada") (texts ["Hi, what's your name? "; "Hello, "]) in
  exists k', @hello_main kernel (kernel_calls no_junk no_addr work_fuel) lit work_fuel work_buf k
    = Returns 0 k' /\
    shown k' = foldl show_char (shown k) (str_bytes "Hi, what's your name? Hello, Ada
").
Proof.
  intros lit k. destruct (hello_on_kernel no_junk no_addr work_fuel lit work_buf (str_bytes "Ada") k)
    as (k' & He & _ & Hd & _).
  - unfold work_fuel; lia.
  - apply work_served.
  - apply work_typed; [simpl; lia | apply (bool_decide_unpack _); vm_compute; exact I].
  - apply work_users. lia.
  - by apply texts_lit; solve_lit.
  - by apply texts_lit; solve_lit.
  - exists k'. split; [exact He | exact Hd].
Defined.

Lemma comparisons_agree_witness :
  let k := at_work [] [] (texts ["cat"; "cap"]) in
  @ece391_strcmp kernel (kernel_calls no_junk no_addr 10) 10 work_text (work_text + 4) k = Returns 4 k /\
  @ece391_strncmp kernel (kernel_calls no_junk no_addr 10) 10 work_text (work_text + 4) 2 k = Returns 0 k.
Proof.
  intros k. destruct (@comparisons_agree kernel (kernel_calls no_junk no_addr 10) 10 work_text (work_text + 4) 2
    (str_bytes "cat") (str_bytes "cap") k) as (H1 & H2 & _).
  - apply (texts_lit no_junk no_addr work_fuel (text_addr ["cat"; "cap"]) 0 [] [] ["cat"; "cap"] "cat"); solve_lit.
  - apply (texts_lit no_junk no_addr work_fuel (text_addr ["cat"; "cap"]) 0 [] [] ["cat"; "cap"] "cap"); solve_lit.
  - simpl. lia.
  - lia.
  - split; [exact H1 | exact H2].
Defined.
