(* ===== verification/Syserr.v ===== *)
(** * The system call tests

    ece391syserr.c: a user program that makes wrong calls and expects each
    of them to be refused.  Its eight tests are definitions over the
    interface [SysCalls]; on the machine of Usermode.v, the theorems say which
    of them pass and from which states: so they state how the kernel answers
    wrong system calls. *)

From S2P Require Import Prelude Memory Lib Paging Devices State Sample Console Filesys Terminal.
From S2P Require Import Syscall Printing Userland Usermode.

#[local] Open Scope user_scope.

Definition NEG_FD : Z := -1073741823.
Definition BIG_FD : Z := 1073741823.
Definition BIG_NUM : Z := 1073741823.
Definition NEG_NUM : Z := -1073741823.

Section tests.
Context {W : Type} `{SysCalls W}.
Variable lit_addr : string -> Z.
Variable fuel : nat.

(** [if (-1 != call) { fail = 2; ece391_fdputs(1, msg); }] *)
Definition expect_error (call : U W Z) (msg : string) (fail : Z) : U W Z :=
  r <- call;;
  if negb (r =? -1) then print lit_addr fuel msg;; u_ret 2 else u_ret fail.

(** Such checks one after the other. *)
Fixpoint expect_errors (l : list (U W Z * string)) (fail : Z) : U W Z :=
  match l with
  | [] => u_ret fail
  | (call, msg) :: l' => fail <- expect_error call msg fail;; expect_errors l' fail
  end.

(** The end of a test: the line with the verdict. *)
Definition verdict (pass failed : string) (fail : Z) : U W Z :=
  (if negb (fail =? 0) then print lit_addr fuel failed else print lit_addr fuel pass);; u_ret fail.

(** [buf] is the buffer on the stack of the test. *)
Definition err_neg_fd (buf : Z) : U W Z :=
  fail <- expect_errors
    [(ece391_read NEG_FD buf 31, "read fail
"); (ece391_write NEG_FD buf 31, "write fail
"); (ece391_close NEG_FD, "close fail
")] 0;;
  verdict "err_neg_fd: PASS
" "err_neg_fd: FAIL
" fail.

Definition err_big_fd (buf : Z) : U W Z :=
  fail <- expect_errors
    [(ece391_read BIG_FD buf 31, "read fail
"); (ece391_write BIG_FD buf 31, "write fail
"); (ece391_close BIG_FD, "close fail
")] 0;;
  verdict "err_big_fd: PASS
" "err_big_fd: FAIL
" fail.

Fixpoint open_lots (n : nat) (cnt : Z) : U W Z :=
  match n with
  | O => u_ret cnt
  | S n' =>
      r <- ece391_open (lit_addr ".");;
      open_lots n' (if r =? -1 then cnt + 1 else cnt)
  end.

Fixpoint close_fds (n : nat) (i : Z) : U W unit :=
  match n with
  | O => u_ret tt
  | S n' => ece391_close i;; close_fds n' (i + 1)
  end.

Definition err_open_lots : U W Z :=
  cnt <- open_lots 7 0;;
  close_fds 6 2;;
  if cnt =? 1 then print lit_addr fuel "err_open_lots: PASS
";; u_ret 0
  else print lit_addr fuel "err_open_lots: FAIL
";; u_ret 2.

Definition err_open : U W Z :=
  fail <- expect_errors
    [(ece391_open (lit_addr "helloo"), "'helloo' fail
"); (ece391_open (lit_addr "shel"), "'shel' fail
"); (ece391_open (lit_addr ""), "empty string fail
")] 0;;
  verdict "err_open: PASS
" "err_open: FAIL
" fail.

Definition err_unopened (buf : Z) : U W Z :=
  fail <- expect_errors
    ((fun i => (ece391_close i, "close unopened or invalid fd fail
")) <$> seqZ 0 8) 0;;
  fail <- expect_errors
    ((fun i => (ece391_read i buf 31, "read from unopened fd fail
")) <$> seqZ 2 6) fail;;
  fail <- expect_errors
    ((fun i => (ece391_write i buf 31, "write to unopened fd fail
")) <$> seqZ 2 6) fail;;
  verdict "err_unopened: PASS
" "err_unopened: FAIL
" fail.

Definition err_vidmap : U W Z :=
  fail <- expect_errors
    [(ece391_vidmap 0x0, "Null pointer fail
"); (ece391_vidmap 0x400000, "Kernel pointer fail fail
")] 0;;
  verdict "err_vidmap: PASS
" "err_vidmap: FAIL
" fail.

Definition err_stdin_out (buf : Z) : U W Z :=
  fail <- expect_errors
    [(ece391_write 0 buf 31, "write to stdin fail
"); (ece391_read 1 buf 31, "read from stdout fail
")] 0;;
  verdict "err_stdin_out: PASS
" "err_stdin_out: FAIL
" fail.

Definition err_syscall_num : U W Z :=
  fail <- expect_errors
    [(call_sys BIG_NUM, "syscall 0 fail
"); (call_sys NEG_NUM, "big num syscall fail
"); (call_sys 0, "neg num syscall fail
")] 0;;
  verdict "err_syscall_num: PASS
" "err_syscall_num: FAIL
" fail.

(** [case 0]: all tests. *)
Definition run_all (buf : Z) : U W Z :=
  f1 <- err_neg_fd buf;; f2 <- err_big_fd buf;; f3 <- err_open_lots;; f4 <- err_open;;
  f5 <- err_unopened buf;; f6 <- err_vidmap;; f7 <- err_stdin_out buf;; f8 <- err_syscall_num;;
  let fail := 0 + f1 + f2 + f3 + f4 + f5 + f6 + f7 + f8 in
  verdict "
Overall Tests: PASS
" "
Overall Tests: FAIL
" fail.

(** [buf] is the buffer of [main], [local] the one of the tests. *)
Definition syserr_main (buf local : Z) : U W Z :=
  print lit_addr fuel "Choose from tests 1-8. 0 to run all: ";;
  cnt <- ece391_read 0 buf 127;;
  if cnt =? -1 then print lit_addr fuel "Can't read test #
";; u_ret 2
  else
    select <- u_gets (fun w => ld w buf - 48);;
    match select with
    | 0 => run_all local
    | 1 => err_neg_fd local
    | 2 => err_big_fd local
    | 3 => err_open_lots
    | 4 => err_open
    | 5 => err_unopened local
    | 6 => err_vidmap
    | 7 => err_stdin_out local
    | 8 => err_syscall_num
    | _ => print lit_addr fuel "Invalid test number. Choose from tests 1-8 or 0";; u_ret 0
    end.
End tests.

(** ** Calls that are refused *)

Section kernel.
Variable junk : Z -> Z.
Variable table_addr : table -> Z.
Variable fuel : nat.
Variable lit_addr : string -> Z.
Let calls : SysCalls kernel := kernel_calls junk table_addr fuel.
Let view : SysView kernel := kernel_view fuel.
#[local] Existing Instances calls view.

(** From [k] to [k'] the text [l] was shown and nothing else changed for the
    program. *)
Record says (k k' : kernel) (l : list Z) : Prop := Says {
  says_quiet : quiet k k';
  says_shown : shown k' = foldl show_char (shown k) l;
  says_mem : forall a, user_page a -> ld (mem k') a = ld (mem k) a
}.

Lemma says_trans k1 k2 k3 l1 l2 : says k1 k2 l1 -> says k2 k3 l2 -> says k1 k3 (l1 ++ l2).
Proof.
  intros [Q1 S1 M1] [Q2 S2 M2]. split.
  - by apply (quiet_trans k1 k2).
  - by rewrite foldl_app, S2, S1.
  - intros a Ha. by rewrite M2, M1.
Qed.

Lemma says_served k k' l : says k k' l -> served k -> served k'.
Proof. intros [Hq _ _]. by apply quiet_served. Qed.

Lemma says_refl k : served k -> says k k [].
Proof. intros Hs. split; [apply quiet_refl, Hs | done | done]. Qed.

Lemma says_same k k' : quiet k k' /\ shown k' = shown k -> mem k' = mem k -> says k k' [].
Proof. intros [Hq Hd] Hm. split; [done | done |]. intros a _. by rewrite Hm. Qed.

Lemma says_sti k : served k -> says k (sti k) [].
Proof. intros Hs. apply says_same; [apply quiet_eq; try reflexivity; apply Hs | reflexivity]. Qed.

Lemma says_called k : served k -> says k (called k) [].
Proof. intros Hs. apply says_same; [by apply called_quiet | reflexivity]. Qed.

(** The texts of the program are where the linker put them. *)
Definition has_text (k : kernel) (s : string) : Prop := has_lit lit_addr fuel (fun _ => False) k s.

Lemma says_text k k' l s : says k k' l -> has_text k s -> has_text k' s.
Proof.
  intros [_ _ Hm] (Ht & Hu & Hn). split; [| by split].
  eapply terminated_ext; [| exact Ht]. intros i Hi. apply Hm, Hu. lia.
Qed.

Lemma print_says k s :
  served k -> has_text k s ->
  exists k', print lit_addr fuel s k = Returns tt k' /\ says k k' (str_bytes s).
Proof.
  intros Hs (Ht & Hu & _ & Hf & Hl). set (p := lit_addr s) in *. set (n := length (str_bytes s)) in *.
  destruct (write_draws junk table_addr fuel p (Z.of_nat n) k Hs) as (k' & He & Hq & Hd & Hm & _).
  - cbn [limit view kernel_view] in Hl. lia.
  - apply (user_at p (Z.of_nat n + 1)); [lia | exact Hu].
  - intros i Hi. apply Hu. lia.
  - exists k'. split.
    + unfold print, ece391_fdputs, ece391_strlen, u_loop, u_bind. fold p.
      rewrite (strlen_terminated fuel _ (str_bytes s) Ht Hf). fold n.
      change (ece391_write 1 p (Z.of_nat n) k) with (int80 junk table_addr fuel 4 1 p (Z.of_nat n) k).
      by rewrite He.
    + split; [exact Hq | | exact Hm]. rewrite Nat2Z.id, <- kernel_bytes in Hd.
      pose proof (bytes_string k p (str_bytes s) Ht) as Hb.
      change (@bytes kernel kernel_mem k p n = str_bytes s) in Hb. by rewrite Hb in Hd.
Qed.

(** A call that the kernel refuses: -1, and nothing changed. *)
Definition refused (c : U kernel Z) (k : kernel) : Prop :=
  exists k', c k = Returns (-1) k' /\ says k k' [].

Lemma expect_error_refused c msg fail k :
  refused c k -> exists k', expect_error lit_addr fuel c msg fail k = Returns fail k' /\ says k k' [].
Proof. intros (k' & He & Hs). exists k'. split; [| done]. unfold expect_error, u_bind. by rewrite He. Qed.

(** The calls of [l] are refused, also after others were. *)
Definition all_refused (l : list (U kernel Z * string)) (k : kernel) : Prop :=
  Forall (fun p => forall k', says k k' [] -> refused p.1 k') l.

Lemma all_refused_says l k k' : says k k' [] -> all_refused l k -> all_refused l k'.
Proof.
  intros Hs Hl. eapply Forall_impl; [exact Hl |]. intros p Hp k2 H2.
  apply Hp. by apply (says_trans k k' k2 [] []).
Qed.

Lemma expect_errors_refused l fail : forall k,
  served k -> all_refused l k ->
  exists k', expect_errors lit_addr fuel l fail k = Returns fail k' /\ says k k' [].
Proof.
  induction l as [| [c msg] l IH]; intros k Hs Hl; [exists k; split; [done | by apply says_refl] |].
  apply Forall_cons in Hl as [Hc Hl].
  destruct (expect_error_refused c msg fail k) as (k1 & He & H1); [apply Hc; by apply says_refl |].
  destruct (IH k1) as (k2 & He2 & H2);
    [by apply (says_served k k1 []) | by apply (all_refused_says l k) |].
  exists k2. split; [| by apply (says_trans k k1 k2 [] [])].
  cbn [expect_errors]. unfold u_bind. by rewrite He.
Qed.

Lemma expect_errors_app l1 l2 fail k :
  expect_errors lit_addr fuel (l1 ++ l2) fail k
  = u_bind (expect_errors lit_addr fuel l1 fail) (expect_errors lit_addr fuel l2) k.
Proof.
  revert fail k. induction l1 as [| [c msg] l1 IH]; intros fail k; [done |].
  cbn [app expect_errors]. unfold u_bind. destruct (expect_error _ _ c msg fail k); [| done].
  by rewrite IH.
Qed.

Lemma verdict_says pass failed k :
  served k -> has_text k pass ->
  exists k', verdict lit_addr fuel pass failed 0 k = Returns 0 k' /\ says k k' (str_bytes pass).
Proof.
  intros Hs Ht. destruct (print_says k pass Hs Ht) as (k2 & He2 & H2).
  exists k2. split; [| done]. unfold verdict, u_bind. cbn [Z.eqb negb]. by rewrite He2.
Qed.

(** A test whose calls are all refused passes. *)
Lemma test_passes l pass failed k :
  served k -> has_text k pass -> all_refused l k ->
  exists k', u_bind (expect_errors lit_addr fuel l 0) (verdict lit_addr fuel pass failed) k = Returns 0 k' /\
    says k k' (str_bytes pass).
Proof.
  intros Hs Ht Hl. destruct (expect_errors_refused l 0 k Hs Hl) as (k1 & He & H1).
  destruct (verdict_says pass failed k1) as (k2 & He2 & H2);
    [by apply (says_served k k1 []) | by apply (says_text k k1 []) |].
  exists k2. split; [| by apply (says_trans k k1 k2 [])].
  unfold u_bind. by rewrite He.
Qed.

(** ** Wrong descriptors, numbers, addresses and names *)

(** The other operations that [setup_exec] fills in. *)
Definition tables_rest (k : kernel) : Prop :=
  op_write (dir_table (sys k)) = Some DrvDir /\ op_close (dir_table (sys k)) = Some DrvDir /\
  op_close (terminal_table (sys k)) = Some DrvTerminal.

Lemma says_tables k k' l : says k k' l -> tables_rest k -> tables_rest k'.
Proof. intros [Hq _ _]. destruct (quiet_sys k k' Hq) as [ts Hs]. unfold tables_rest. by rewrite Hs. Qed.

Lemma says_fd k k' l fd : says k k' l -> proc_fd fd k' = proc_fd fd k.
Proof. intros [Hq _ _]. by apply quiet_fd. Qed.

(** The number of a descriptor that no process can have. *)
Definition bad_fd (fd : Z) : Prop := s32 fd = fd /\ ((fd <? 0) || (MAX_FD <? fd)) = true.

Lemma read_bad_fd fd buf n k : served k -> bad_fd fd -> refused (ece391_read fd buf n) k.
Proof.
  intros Hs [He Hb]. exists (sti k). split; [| by apply says_sti].
  change (int80 junk table_addr fuel 3 fd buf n k = Returns (-1) (sti k)).
  unfold int80, syscall_wrapper. change (u32 3) with 3.
  change ((NUM_SYSCALLS <? 3) || (3 <? 1)) with false. cbv iota. unfold system_read.
  rewrite He. by rewrite <- orb_assoc, Hb, orb_true_r.
Qed.

Lemma write_bad_fd fd buf n k : served k -> bad_fd fd -> refused (ece391_write fd buf n) k.
Proof.
  intros Hs [He Hb]. exists (sti k). split; [| by apply says_sti].
  change (int80 junk table_addr fuel 4 fd buf n k = Returns (-1) (sti k)).
  unfold int80, syscall_wrapper. change (u32 4) with 4.
  change ((NUM_SYSCALLS <? 4) || (4 <? 1)) with false. cbv iota. unfold system_write.
  rewrite He. by rewrite <- orb_assoc, Hb, orb_true_r.
Qed.

Lemma close_bad_fd fd k : served k -> bad_fd fd -> refused (ece391_close fd) k.
Proof.
  intros Hs [He Hb]. exists (sti k). split; [| by apply says_sti].
  change (int80 junk table_addr fuel 6 fd 0 0 k = Returns (-1) (sti k)).
  unfold int80, syscall_wrapper. change (u32 6) with 6.
  change ((NUM_SYSCALLS <? 6) || (6 <? 1)) with false. cbv iota. unfold system_close.
  rewrite He. by rewrite Hb.
Qed.

Lemma bad_number n k :
  served k -> ((NUM_SYSCALLS <? u32 n) || (u32 n <? 1)) = true -> refused (call_sys n) k.
Proof.
  intros Hs Hb. exists k. split; [| by apply says_refl].
  change (int80 junk table_addr fuel n (junk 0) (junk 1) (junk 2) k = Returns (-1) k).
  unfold int80, syscall_wrapper. by rewrite Hb.
Qed.

Lemma bad_vidmap p k : served k -> p = 0 \/ p = UNIT_4_MB -> refused (ece391_vidmap p) k.
Proof.
  intros Hs Hp. exists (sti k). split; [| by apply says_sti].
  change (int80 junk table_addr fuel 8 p 0 0 k = Returns (-1) (sti k)).
  unfold int80, syscall_wrapper. change (u32 8) with 8.
  change ((NUM_SYSCALLS <? 8) || (8 <? 1)) with false. cbv iota. unfold system_vidmap.
  by destruct Hp as [-> | ->].
Qed.

Lemma bad_name s k : served k -> has_text k s -> no_file fuel k (str_bytes s) -> refused (ece391_open (lit_addr s)) k.
Proof.
  intros Hs (Ht & Hu & _) Hn. exists (called k). split; [| by apply says_called].
  apply (open_absent_refused junk table_addr fuel k (lit_addr s) (str_bytes s) Ht); [| exact Hn].
  apply (user_at _ (Z.of_nat (length (str_bytes s)) + 1)); [lia | exact Hu].
Qed.

(** *** Descriptors that are there but not open *)

Lemma read_reaches fd buf n k :
  0 <= fd < 8 -> buf <> 0 ->
  ece391_read fd buf n k = give_back (call_read fuel (op_read (ops_of fd k)) fd buf (s32 n) (called k)).
Proof.
  intros Hfd Hb. change (int80 junk table_addr fuel 3 fd buf n k
    = give_back (call_read fuel (op_read (ops_of fd k)) fd buf (s32 n) (called k))).
  unfold int80, syscall_wrapper. change (u32 3) with 3.
  change ((NUM_SYSCALLS <? 3) || (3 <? 1)) with false. cbv iota. unfold system_read, MAX_FD.
  by rewrite s32_small, (proj2 (Z.eqb_neq buf 0) Hb), (proj2 (Z.ltb_ge fd 0)), (proj2 (Z.ltb_ge 7 fd)) by lia.
Qed.

Lemma write_reaches fd buf n k :
  0 <= fd < 8 -> buf <> 0 ->
  ece391_write fd buf n k = give_back (call_write fuel (op_write (ops_of fd k)) fd buf (s32 n) (called k)).
Proof.
  intros Hfd Hb. change (int80 junk table_addr fuel 4 fd buf n k
    = give_back (call_write fuel (op_write (ops_of fd k)) fd buf (s32 n) (called k))).
  unfold int80, syscall_wrapper. change (u32 4) with 4.
  change ((NUM_SYSCALLS <? 4) || (4 <? 1)) with false. cbv iota. unfold system_write, MAX_FD.
  by rewrite s32_small, (proj2 (Z.eqb_neq buf 0) Hb), (proj2 (Z.ltb_ge fd 0)), (proj2 (Z.ltb_ge 7 fd)) by lia.
Qed.

(** A descriptor that was a directory's and is closed. *)
Definition closed_dir (k : kernel) (fd : Z) : Prop :=
  flags (proc_fd fd k) = 0 /\ f_ops (proc_fd fd k) = Some DirTable.

Lemma closed_not_opened fd k : 0 <= fd < 8 -> closed_dir k fd -> not_opened fd (called k) = true.
Proof.
  intros Hfd [Hf _]. unfold not_opened, bitmap_open.
  change (cur_fd fd (called k)) with (proc_fd fd k). rewrite Hf. by rewrite !orb_true_r.
Qed.

Lemma closed_refuses fd buf n k :
  served k -> tables_rest k -> 2 <= fd < 8 -> buf <> 0 -> closed_dir k fd ->
  refused (ece391_close fd) k /\ refused (ece391_read fd buf n) k /\ refused (ece391_write fd buf n) k.
Proof.
  intros Hs (Hw & Hc & _) Hfd Hb Hd. pose proof (closed_not_opened fd k ltac:(lia) Hd) as Hno.
  destruct Hd as [_ Hf]. pose proof (proj1 (proj2 (proj2 (proj2 (sv_tables k Hs))))) as Hr.
  pose proof (says_called k Hs) as Hq.
  assert (Ho : ops_of fd k = dir_table (sys k)) by (unfold ops_of; by rewrite Hf).
  split; [| split]; (exists (called k); split; [| exact Hq]).
  - rewrite (close_reaches junk table_addr fuel), Ho, Hc by lia. cbn [call_close]. unfold dir_close. by rewrite Hno.
  - rewrite read_reaches, Ho, Hr by lia. cbn [call_read]. unfold dir_read. by rewrite Hno.
  - rewrite write_reaches, Ho, Hw by lia. reflexivity.
Qed.

(** The terminal's descriptors cannot be closed, and each works in its own
    direction only. *)
Lemma terminal_refuses k buf n :
  served k -> tables_rest k -> buf <> 0 ->
  (forall fd, 0 <= fd < 2 -> refused (ece391_close fd) k) /\
  refused (ece391_write 0 buf n) k /\ refused (ece391_read 1 buf n) k.
Proof.
  intros Hs (_ & _ & Hc) Hb. pose proof (says_called k Hs) as Hq.
  assert (Ho : forall fd, 0 <= fd < 2 -> ops_of fd k = terminal_table (sys k)).
  { intros fd Hfd. unfold ops_of. by rewrite (proj2 (sv_std k Hs fd Hfd)). }
  destruct (sv_tables k Hs) as (_ & _ & _ & _ & _ & _ & _ & Hr & Hw).
  split; [intros fd Hfd | split]; (exists (called k); split; [| exact Hq]).
  - rewrite (close_reaches junk table_addr fuel), Ho, Hc by lia. reflexivity.
  - rewrite write_reaches, Ho, Hw by lia. reflexivity.
  - rewrite read_reaches, Ho, Hr by lia. reflexivity.
Qed.

(** ** Opening more files than there are descriptors *)

(** From [k] to [k'] the text [l] was shown, and at most descriptors and
    memory of the kernel apart from the boot block changed. *)
Record goes (k k' : kernel) (l : list Z) : Prop := Goes {
  goes_shown : shown k' = foldl show_char (shown k) l;
  goes_mem : forall a, user_page a -> ld (mem k') a = ld (mem k) a;
  goes_boot : same_boot k k';
  goes_sys : exists ts, sys k' = set_terminals ts (sys k)
}.

Lemma goes_fixed k k' :
  shown k' = shown k -> (forall a, user_page a -> ld (mem k') a = ld (mem k) a) -> same_boot k k' ->
  sys k' = sys k -> goes k k' [].
Proof. intros Hd Hm Hb Hs. split; try done. exists (terminals (sys k)). rewrite Hs. by destruct (sys k). Qed.

Lemma goes_refl k : goes k k [].
Proof. by apply goes_fixed. Qed.

Lemma goes_trans a b c l1 l2 : goes a b l1 -> goes b c l2 -> goes a c (l1 ++ l2).
Proof.
  intros [S1 M1 [B1 I1] [t1 Y1]] [S2 M2 [B2 I2] [t2 Y2]]. split.
  - by rewrite foldl_app, S2, S1.
  - intros x Hx. by rewrite M2, M1.
  - split; [congruence |]. intros x Hx. rewrite I2, I1; [done | done |]. by rewrite B1.
  - exists t2. by rewrite Y2, Y1.
Qed.

Lemma goes_main k k' l : goes k k' l -> main_process (sys k') = main_process (sys k).
Proof. intros [_ _ _ [ts ->]]. done. Qed.

Lemma goes_text k k' l s : goes k k' l -> has_text k s -> has_text k' s.
Proof.
  intros [_ Hm _ _] (Ht & Hu & Hn). split; [| by split].
  eapply terminated_ext; [| exact Ht]. intros i Hi. apply Hm, Hu. lia.
Qed.

(** The machine as the test finds it: the boot block with the directory is
    in the kernel's page, apart from the word below the control block. *)
Record dot_ready (k : kernel) : Prop := DotReady {
  dot_served : served k;
  dot_main : 0 <= main_process (sys k) < 6;
  dot_boot : forall a, within (boot_block (fs k)) FOUR_KB a ->
    in_kernel a /\ ~ within (main_pcb k - 16) 4 a;
  dot_name : has_name (image k) (boot_block (fs k)) (str_bytes ".") 0;
  dot_type : de_filetype (image k) (boot_block (fs k)) 0 = 1;
  dot_text : has_text k "."
}.

Lemma same_ready k k' ts :
  same_boot k k' -> sys k' = set_terminals ts (sys k) -> served k' -> has_text k' "." ->
  dot_ready k -> dot_ready k'.
Proof.
  intros Hb' Hy Hs' Hx' [Hs Hm Hb Hn Ht _].
  assert (Hp : main_process (sys k') = main_process (sys k)) by by rewrite Hy.
  pose proof Hb' as [Hbb Hi]. split; rewrite ?Hp, ?Hbb; try done.
  - unfold main_pcb. by rewrite Hp.
  - by apply (same_has_name (image k)).
  - unfold de_filetype, FILE_TYPE_OFFSET in *.
    rewrite (same_field (image k)); [done | done | unfold BOOT_NUM_DIRS; lia | lia].
Qed.

Lemma goes_ready k k' l : goes k k' l -> served k' -> dot_ready k -> dot_ready k'.
Proof.
  intros Hu Hs' Hr. destruct (goes_sys _ _ _ Hu) as [ts Hy].
  apply (same_ready k k' ts); try done; [apply Hu |]. by apply (goes_text k k' l), dot_text.
Qed.

(** Descriptors 2 up to [m + 1] are open on directories, the others free. *)
Definition open_dirs (m : Z) (k : kernel) : Prop :=
  (forall fd, 2 <= fd < 2 + m -> flags (proc_fd fd k) <> 0 /\ f_ops (proc_fd fd k) = Some DirTable) /\
  (forall fd, 2 + m <= fd < 8 -> flags (proc_fd fd k) = 0).

Lemma open_dirs_free m k :
  served k -> open_dirs m k -> 0 <= m <= 6 ->
  first_free 8 0 (called k) = if m =? 6 then None else Some (2 + m).
Proof.
  intros Hs [Ho Hc] Hm. pose proof (first_free_spec 8 0 (called k)) as Hff.
  assert (Hbit : forall i, bitmap_open i (called k) = (flags (proc_fd i k) =? 0)) by reflexivity.
  assert (Hused : forall i, 0 <= i < 2 + m -> flags (proc_fd i k) <> 0).
  { intros i Hi. destruct (decide (i < 2)); [apply (sv_std k Hs); lia | apply Ho; lia]. }
  destruct (first_free 8 0 (called k)) as [j |].
  - destruct Hff as (Hj & Hfree & Hlow). rewrite Hbit in Hfree. apply Z.eqb_eq in Hfree.
    assert (Hge : 2 + m <= j) by (destruct (decide (j < 2 + m)); [destruct (Hused j); [lia | done] | lia]).
    rewrite (proj2 (Z.eqb_neq m 6)) by lia. f_equal.
    destruct (decide (j = 2 + m)); [done |]. specialize (Hlow (2 + m) ltac:(lia)).
    rewrite Hbit, Hc in Hlow by lia. discriminate.
  - destruct (Z.eqb_spec m 6); [done |]. specialize (Hff (2 + m) ltac:(lia)).
    rewrite Hbit, Hc in Hff by lia. discriminate.
Qed.

Lemma dot_opens k :
  (1 < fuel)%nat -> dot_ready k ->
  exists d, ece391_open (lit_addr ".") k
    = match first_free 8 0 (called k) with
      | Some fd => Returns fd (change_all fd
          [set_flags 1; set_fd_inode (inode_num d); set_f_ops (Some DirTable)] (looked_up d k))
      | None => Returns (-1) (upd_mem (fun m => st32 m (main_pcb k + 16 * -1) (table_addr DirTable))
                  (looked_up d k))
      end.
Proof.
  intros Hf [Hs _ _ Hn Ht (Hx & Hu & _)].
  apply (open_dir_run junk table_addr fuel k (lit_addr ".") Hf Hs Hx); [| exact Hn | exact Ht].
  apply (user_at _ (Z.of_nat (length (str_bytes ".")) + 1)); [lia | exact Hu].
Qed.

Lemma open_one m k :
  (1 < fuel)%nat -> dot_ready k -> open_dirs m k -> 0 <= m < 6 ->
  exists k', ece391_open (lit_addr ".") k = Returns (2 + m) k' /\
    dot_ready k' /\ open_dirs (m + 1) k' /\ goes k k' [].
Proof.
  intros Hf Hr Ho Hm. pose proof (dot_served k Hr) as Hs. destruct (dot_opens k Hf Hr) as (d & He).
  rewrite (open_dirs_free m k Hs Ho), (proj2 (Z.eqb_neq m 6)) in He by lia.
  destruct (looked_up_quiet d k Hs) as [Hq Hd]. pose proof (quiet_served _ _ Hq Hs) as Hs1.
  set (gs := [set_flags 1; set_fd_inode (inode_num d); set_f_ops (Some DirTable)]) in *.
  destruct (change_all_spec (2 + m) gs (looked_up d k) Hs1 ltac:(lia))
    as ((Hs' & Hd' & Hm' & Hfs' & Hf') & Hsys & Hoth).
  set (k' := change_all (2 + m) gs (looked_up d k)) in *.
  assert (Hun : goes k k' []).
  { apply goes_fixed; [by rewrite Hd', Hd | intros a _; by rewrite Hm' | | by rewrite Hsys].
    split; [by rewrite Hfs' |]. intros a _. unfold image. by rewrite Hm'. }
  exists k'. split; [exact He |]. split; [by apply (goes_ready k k' []) |]. split; [| exact Hun].
  destruct Ho as [Ho Hc]. split.
  - intros fd Hfd. destruct (decide (fd = 2 + m)) as [-> | Hne].
    + rewrite Hf'. unfold gs. cbn [foldl]. split; [discriminate | reflexivity].
    + rewrite Hoth by done. change (proc_fd fd (looked_up d k)) with (proc_fd fd k). apply Ho. lia.
  - intros fd Hfd. rewrite Hoth by lia.
    change (proc_fd fd (looked_up d k)) with (proc_fd fd k). apply Hc. lia.
Qed.

(** The store below the control block that a failed open makes. *)
Lemma stray_store k v :
  served k -> 0 <= main_process (sys k) < 6 ->
  (forall a, within (boot_block (fs k)) FOUR_KB a -> in_kernel a /\ ~ within (main_pcb k - 16) 4 a) ->
  let k' := upd_mem (fun m => st32 m (main_pcb k + 16 * -1) v) k in
  served k' /\ goes k k' [].
Proof.
  intros Hs Hm Hb k'. set (a := main_pcb k - 16) in *.
  assert (Ha : forall i, 0 <= i < 4 -> in_kernel (a + i)).
  { intros i Hi. unfold a, main_pcb. rewrite pcb_addr by done.
    unfold in_kernel, UNIT_4_MB, UNIT_8_MB, UNIT_8_KB. lia. }
  set (l := [u8 v; u8 (Z.shiftr v 8); u8 (Z.shiftr v 16); u8 (Z.shiftr v 24)]).
  assert (Hmem : mem k' = write (mem k) a l).
  { unfold k', upd_mem. cbn [mem set_mem]. rewrite st32_write.
    by replace (main_pcb k + 16 * -1) with a by (unfold a; lia). }
  clearbody a.
  assert (Hr : region (mem k) a 4).
  { split; intros i; [intros Hi | intros j Hi Hj];
      rewrite !(kernel_loc (mem k)) by (apply (sv_kernel k Hs) || (apply Ha; lia));
      [by eexists | intros [= ?]; lia]. }
  assert (Hld : forall b, (forall i, 0 <= i < 4 -> loc (mem k) b <> loc (mem k) (a + i)) ->
    ld (mem k') b = ld (mem k) b).
  { intros b Hn. rewrite Hmem. apply ld_write_apart; [exact Hr | exact Hn]. }
  assert (Hun : goes k k' []).
  { apply goes_fixed.
    - unfold shown. change (video_return k') with (video_return k).
      f_equal. f_equal. apply bytes_ext. intros i Hi. apply Hld. intros j Hj He.
      apply (kernel_not_video k (a + j) i Hs (Ha j Hj) Hi). by rewrite He.
    - intros b Hu. apply Hld. intros j Hj He.
      apply (user_not_kernel k b (a + j) Hs Hu (Ha j Hj)). by rewrite He.
    - split; [done |]. intros b Hbb. destruct (Hb b Hbb) as [Hk Hn]. apply Hld. intros j Hj.
      rewrite !(kernel_loc (mem k)) by (apply (sv_kernel k Hs) || (by apply Ha) || done).
      intros [= ->]. apply Hn. unfold within. lia.
    - done. }
  split; [| exact Hun]. apply (served_keeps k); try done; try apply Hs.
  - rewrite Hmem. apply write_ram.
  - exists (terminals (sys k)). change (sys k') with (sys k). by destruct (sys k).
Qed.

Lemma open_seventh k :
  (1 < fuel)%nat -> dot_ready k -> open_dirs 6 k ->
  exists k', ece391_open (lit_addr ".") k = Returns (-1) k' /\
    dot_ready k' /\ open_dirs 6 k' /\ goes k k' [].
Proof.
  intros Hf Hr Ho. pose proof (dot_served k Hr) as Hs. destruct (dot_opens k Hf Hr) as (d & He).
  rewrite (open_dirs_free 6 k Hs Ho) in He by lia. cbn [Z.eqb Pos.eqb] in He.
  destruct (looked_up_quiet d k Hs) as [Hq Hd]. pose proof (quiet_served _ _ Hq Hs) as Hs1.
  destruct (stray_store (looked_up d k) (table_addr DirTable) Hs1) as [Hs' Hun];
    [apply Hr | apply Hr |].
  change (main_pcb (looked_up d k)) with (main_pcb k) in Hs', Hun.
  set (k' := upd_mem _ _) in *. exists k'. split; [exact He |].
  assert (Hun' : goes k k' []).
  { apply (goes_trans k (looked_up d k) k' [] []); [| exact Hun].
    apply goes_fixed; [exact Hd | done | by split | done]. }
  split; [by apply (goes_ready k k' []) |]. split; [exact Ho | exact Hun'].
Qed.

(** The loop of the test: [i] are open already. *)
Lemma open_lots_run n : forall m k cnt,
  (1 < fuel)%nat -> dot_ready k -> open_dirs m k -> 0 <= m <= 6 -> m + Z.of_nat n = 7 ->
  exists k', open_lots lit_addr n cnt k = Returns (cnt + Z.min 1 (Z.of_nat n)) k' /\
    dot_ready k' /\ open_dirs (if Nat.eqb n 0 then m else 6) k' /\ goes k k' [].
Proof.
  induction n as [| n IH]; intros m k cnt Hf Hr Ho Hm Hn; [lia |].
  cbn [open_lots]. destruct (decide (m = 6)) as [-> | Hne].
  - destruct (open_seventh k Hf Hr Ho) as (k1 & He & Hr1 & Ho1 & Hu1).
    replace n with O by lia. exists k1. split; [| done]. unfold u_bind. by rewrite He.
  - destruct (open_one m k Hf Hr Ho ltac:(lia)) as (k1 & He & Hr1 & Ho1 & Hu1).
    destruct (IH (m + 1) k1 cnt Hf Hr1 Ho1 ltac:(lia) ltac:(lia)) as (k2 & He2 & Hr2 & Ho2 & Hu2).
    exists k2. replace (Nat.eqb n 0) with false in Ho2 by (symmetry; apply Nat.eqb_neq; lia).
    split; [| split; [done | split; [done | by apply (goes_trans k k1 k2 [] [])]]].
    unfold u_bind. rewrite He, (proj2 (Z.eqb_neq (2 + m) (-1))) by lia. rewrite He2.
    f_equal. lia.
Qed.

Lemma goes_tables k k' l : goes k k' l -> tables_rest k -> tables_rest k'.
Proof. intros [_ _ _ [ts Hs]]. unfold tables_rest. by rewrite Hs. Qed.

Lemma says_goes k k' l : dot_ready k -> says k k' l -> goes k k' l.
Proof.
  intros Hr [Hq Hd Hm]. split; [done | done | | apply Hq].
  apply quiet_same_boot; [done |]. intros a Ha. by apply Hr.
Qed.

(** Closing them again. *)
Definition closing_dirs (m : Z) (k : kernel) : Prop :=
  (forall fd, 2 <= fd < 2 + m -> closed_dir k fd) /\
  (forall fd, 2 + m <= fd < 8 -> flags (proc_fd fd k) <> 0 /\ f_ops (proc_fd fd k) = Some DirTable).

Lemma close_one m k :
  served k -> tables_rest k -> closing_dirs m k -> 0 <= m < 6 ->
  exists k', ece391_close (2 + m) k = Returns 0 k' /\
    served k' /\ closing_dirs (m + 1) k' /\ goes k k' [].
Proof.
  intros Hs (_ & Hc & _) [Hcl Hop] Hm. destruct (Hop (2 + m)) as [Hfl Hf]; [lia |].
  destruct (called_quiet k Hs) as [Hq Hd]. pose proof (quiet_served _ _ Hq Hs) as Hsc.
  destruct (change_fd (2 + m) (set_flags 0) (called k) Hsc ltac:(lia)) as (Hs' & Hd' & Hf' & Hoth).
  set (k' := upd_fdt (main_pcb (called k)) (2 + m) (set_flags 0) (called k)) in *.
  exists k'. split; [| split; [exact Hs' | split]].
  - rewrite (close_reaches junk table_addr fuel) by lia. unfold ops_of. rewrite Hf. cbn [table_of].
    change (dir_table (sys (called k))) with (dir_table (sys k)). rewrite Hc. cbn [call_close].
    unfold dir_close, not_opened, bitmap_open, MAX_FILES.
    change (cur_fd (2 + m) (called k)) with (proc_fd (2 + m) k).
    rewrite (proj2 (Z.leb_gt 8 (2 + m))), (proj2 (Z.ltb_ge (2 + m) 0)), (proj2 (Z.eqb_neq _ 0) Hfl) by lia.
    cbn [orb]. rewrite free_bitmap_in by lia. reflexivity.
  - assert (Hpf : proc_fd (2 + m) (called k) = proc_fd (2 + m) k) by reflexivity.
    split; intros fd Hfd.
    + destruct (decide (fd = 2 + m)) as [-> | Hne].
      * unfold closed_dir. rewrite Hf', Hpf. split; [reflexivity | exact Hf].
      * unfold closed_dir. rewrite Hoth by done. apply Hcl. lia.
    + rewrite Hoth by lia. apply Hop. lia.
  - apply goes_fixed; [by rewrite Hd', Hd | done | by split | done].
Qed.

Lemma close_fds_run n : forall m k,
  served k -> tables_rest k -> closing_dirs m k -> 0 <= m -> m + Z.of_nat n = 6 ->
  exists k', close_fds n (2 + m) k = Returns tt k' /\
    served k' /\ closing_dirs 6 k' /\ goes k k' [].
Proof.
  induction n as [| n IH]; intros m k Hs Ht Hc Hm Hn.
  - replace m with 6 in * by lia. exists k. split; [done |]. split; [done |]. split; [done |].
    apply goes_refl.
  - destruct (close_one m k Hs Ht Hc ltac:(lia)) as (k1 & He & Hs1 & Hc1 & Hu1).
    destruct (IH (m + 1) k1 Hs1) as (k2 & He2 & Hs2 & Hc2 & Hu2); [| done | lia | lia |].
    { by apply (goes_tables k k1 []). }
    exists k2. split; [| split; [done | split; [done | by apply (goes_trans k k1 k2 [] [])]]].
    cbn [close_fds]. unfold u_bind. rewrite He. by replace (2 + m + 1) with (2 + (m + 1)) by lia.
Qed.

(** ** The tests *)

(** Test [t] returns 0 and says [pass], and nothing else changed. *)
Definition passes (t : U kernel Z) (pass : string) (k : kernel) : Prop :=
  exists k', t k = Returns 0 k' /\ says k k' (str_bytes pass).

Lemma bad_fd_test l buf k fd m1 m2 m3 pass failed :
  served k -> bad_fd fd -> has_text k pass ->
  l = [(ece391_read fd buf 31, m1); (ece391_write fd buf 31, m2); (ece391_close fd, m3)] ->
  passes (u_bind (expect_errors lit_addr fuel l 0) (verdict lit_addr fuel pass failed)) pass k.
Proof.
  intros Hs Hb Ht ->. apply test_passes; [done | done |].
  assert (Hs' : forall k', says k k' [] -> served k') by (intros k' H'; by apply (says_served k k' [])).
  repeat apply Forall_cons_2; try apply Forall_nil_2; intros k' H'; cbn [fst];
    [apply read_bad_fd | apply write_bad_fd | apply close_bad_fd]; auto.
Qed.

Lemma neg_fd_passes buf k :
  served k -> has_text k "err_neg_fd: PASS
" -> passes (err_neg_fd lit_addr fuel buf) "err_neg_fd: PASS
" k.
Proof. intros Hs Ht. by eapply (bad_fd_test _ buf k NEG_FD). Qed.

Lemma big_fd_passes buf k :
  served k -> has_text k "err_big_fd: PASS
" -> passes (err_big_fd lit_addr fuel buf) "err_big_fd: PASS
" k.
Proof. intros Hs Ht. by eapply (bad_fd_test _ buf k BIG_FD). Qed.

Lemma vidmap_passes k :
  served k -> has_text k "err_vidmap: PASS
" -> passes (err_vidmap lit_addr fuel) "err_vidmap: PASS
" k.
Proof.
  intros Hs Ht. apply test_passes; [done | done |].
  repeat apply Forall_cons_2; try apply Forall_nil_2; intros k' H'; cbn [fst];
    (apply bad_vidmap; [by apply (says_served k k' []) |]); [by left | by right].
Qed.

Lemma syscall_num_passes k :
  served k -> has_text k "err_syscall_num: PASS
" -> passes (err_syscall_num lit_addr fuel) "err_syscall_num: PASS
" k.
Proof.
  intros Hs Ht. apply test_passes; [done | done |].
  repeat apply Forall_cons_2; try apply Forall_nil_2; intros k' H'; cbn [fst];
    (apply bad_number; [by apply (says_served k k' []) | reflexivity]).
Qed.

Lemma stdin_out_passes buf k :
  served k -> tables_rest k -> buf <> 0 -> has_text k "err_stdin_out: PASS
" -> passes (err_stdin_out lit_addr fuel buf) "err_stdin_out: PASS
" k.
Proof.
  intros Hs Hr Hb Ht. apply test_passes; [done | done |].
  assert (Ht' : forall k', says k k' [] -> refused (ece391_write 0 buf 31) k' /\ refused (ece391_read 1 buf 31) k').
  { intros k' H'. apply (terminal_refuses k' buf 31); [by apply (says_served k k' []) | | done].
    by apply (says_tables k k' []). }
  repeat apply Forall_cons_2; try apply Forall_nil_2; intros k' H'; by apply Ht'.
Qed.

(** The names that the test asks for are in no directory entry. *)
Definition absent_names : list string := ["helloo"; "shel"; ""].

Definition names_absent (k : kernel) : Prop :=
  Forall (fun s => has_text k s /\ no_file fuel k (str_bytes s)) absent_names.

Lemma open_passes k :
  served k -> names_absent k -> has_text k "err_open: PASS
" -> passes (err_open lit_addr fuel) "err_open: PASS
" k.
Proof.
  intros Hs Ha Ht. apply test_passes; [done | done |].
  assert (Hn : forall s k', has_text k s /\ no_file fuel k (str_bytes s) -> says k k' [] ->
    refused (ece391_open (lit_addr s)) k').
  { intros s k' [Hx Hn] H'. apply bad_name; [by apply (says_served k k' []) | by apply (says_text k k' []) |].
    apply (same_boot_absent fuel k); [| done]. apply quiet_same_boot; [apply H' | apply Hn]. }
  apply Forall_cons in Ha as [H1 Ha]. apply Forall_cons in Ha as [H2 Ha]. apply Forall_cons in Ha as [H3 _].
  repeat apply Forall_cons_2; try apply Forall_nil_2; intros k' H'; cbn [fst]; by apply Hn.
Qed.

(** Test 5 needs descriptors that were open before. *)
Lemma unopened_passes buf k :
  served k -> tables_rest k -> buf <> 0 -> closing_dirs 6 k -> has_text k "err_unopened: PASS
" -> passes (err_unopened lit_addr fuel buf) "err_unopened: PASS
" k.
Proof.
  intros Hs Hr Hb [Hc _] Ht.
  assert (Hx : forall fd k', 2 <= fd < 8 -> says k k' [] -> refused (ece391_close fd) k' /\
    refused (ece391_read fd buf 31) k' /\ refused (ece391_write fd buf 31) k').
  { intros fd k' Hfd H'. apply closed_refuses; [by apply (says_served k k' []) | | done | done |].
    - by apply (says_tables k k' []).
    - unfold closed_dir. rewrite (says_fd k k' [] fd H'). apply Hc. lia. }
  set (l1 := (fun i => (ece391_close i, "close unopened or invalid fd fail
")) <$> seqZ 0 8).
  set (l2 := (fun i => (ece391_read i buf 31, "read from unopened fd fail
")) <$> seqZ 2 6).
  set (l3 := (fun i => (ece391_write i buf 31, "write to unopened fd fail
")) <$> seqZ 2 6).
  assert (Hl : all_refused ((l1 ++ l2) ++ l3) k).
  { apply Forall_app. split; [apply Forall_app; split |]; apply Forall_fmap, Forall_forall;
      intros fd Hfd%elem_of_seqZ k' H'; cbn [fst compose]; [| by apply Hx; [lia |] ..].
    destruct (decide (fd < 2)); [| by apply Hx; [lia |]].
    apply (terminal_refuses k' buf 31); [by apply (says_served k k' []) | by apply (says_tables k k' []) | done | lia]. }
  destruct (test_passes _ "err_unopened: PASS
" "err_unopened: FAIL
" k Hs Ht Hl) as (k' & He & H'). exists k'. split; [| exact H'].
  rewrite <- He. unfold err_unopened. fold l1 l2 l3. unfold u_bind.
  rewrite !expect_errors_app. unfold u_bind. rewrite expect_errors_app. unfold u_bind.
  by destruct (expect_errors _ _ l1 0 k) as [f1 k1 |]; [destruct (expect_errors _ _ l2 f1 k1) |].
Qed.

(** The texts that the tests print when they pass. *)
Definition pass_texts : list string :=
  ["err_neg_fd: PASS
"; "err_big_fd: PASS
"; "err_open_lots: PASS
"; "err_open: PASS
"; "err_unopened: PASS
"; "err_vidmap: PASS
"; "err_stdin_out: PASS
"; "err_syscall_num: PASS
"; "
Overall Tests: PASS
"].

(** The machine as [syserr] finds it. *)
Record test_ready (k : kernel) : Prop := TestReady {
  tr_dot : dot_ready k;
  tr_tables : tables_rest k;
  tr_absent : names_absent k;
  tr_texts : Forall (has_text k) pass_texts
}.

Lemma tr_served k : test_ready k -> served k.
Proof. intros [H _ _ _]. apply H. Qed.

(** The texts that the tests use. *)
Definition test_texts : list string := "." :: absent_names ++ pass_texts.

Lemma same_test_ready k k' ts :
  same_boot k k' -> sys k' = set_terminals ts (sys k) -> served k' ->
  (forall s, s ∈ test_texts -> has_text k s -> has_text k' s) -> test_ready k -> test_ready k'.
Proof.
  intros Hb Hy Hs Ht [H1 H2 H3 H4]. split.
  - apply (same_ready k k' ts); try done. apply Ht, H1. by left.
  - unfold tables_rest. by rewrite Hy.
  - apply Forall_forall. intros s Hin. destruct (proj1 (Forall_forall _ _) H3 s Hin) as [Hx Hn].
    split; [| by apply (same_boot_absent fuel k)]. apply Ht; [| done].
    right. apply elem_of_app. by left.
  - apply Forall_forall. intros s Hin. apply Ht; [| by apply (proj1 (Forall_forall _ _) H4)].
    right. apply elem_of_app. by right.
Qed.

Lemma goes_test_ready k k' l : goes k k' l -> served k' -> test_ready k -> test_ready k'.
Proof.
  intros Hg Hs. destruct (goes_sys _ _ _ Hg) as [ts Hy]. apply (same_test_ready k k' ts); try done.
  - apply Hg.
  - intros s _. by apply (goes_text k k' l).
Qed.

(** A part of the sequence: it returns 0 and says [l]; the descriptors go
    from [P] to [Q]. *)
Definition runs (t : U kernel Z) (l : list Z) (P Q : kernel -> Prop) : Prop :=
  forall k, test_ready k -> P k ->
    exists k', t k = Returns 0 k' /\ test_ready k' /\ Q k' /\ goes k k' l.

Lemma runs_bind t rest l1 l2 P Q R :
  runs t l1 P Q -> runs (rest 0) l2 Q R -> runs (u_bind t rest) (l1 ++ l2) P R.
Proof.
  intros H1 H2 k Hr Hk. destruct (H1 k Hr Hk) as (k1 & He1 & Hr1 & Hk1 & Hg1).
  destruct (H2 k1 Hr1 Hk1) as (k2 & He2 & Hr2 & Hk2 & Hg2).
  exists k2. unfold u_bind. rewrite He1. by eauto using goes_trans.
Qed.

Lemma passes_step t pass (P : kernel -> Prop) :
  (forall k k', (forall fd, proc_fd fd k' = proc_fd fd k) -> P k -> P k') ->
  (forall k, test_ready k -> P k -> passes t pass k) -> runs t (str_bytes pass) P P.
Proof.
  intros HP Ht k Hr Hk. destruct (Ht k Hr Hk) as (k' & He & Hs). exists k'. split; [exact He |].
  pose proof (says_goes k k' _ (tr_dot k Hr) Hs) as Hg. split; [| split; [| exact Hg]].
  - apply (goes_test_ready k k' _ Hg); [| exact Hr]. by apply (says_served k k' _ Hs), tr_served.
  - apply (HP k k'); [| exact Hk]. intros fd. by apply (says_fd k k' (str_bytes pass)).
Qed.

Lemma open_dirs_stay m k k' : (forall fd, proc_fd fd k' = proc_fd fd k) -> open_dirs m k -> open_dirs m k'.
Proof. intros Hp [H1 H2]. by split; intros fd Hfd; rewrite Hp; [apply H1 | apply H2]. Qed.

Lemma closing_dirs_stay m k k' :
  (forall fd, proc_fd fd k' = proc_fd fd k) -> closing_dirs m k -> closing_dirs m k'.
Proof.
  intros Hp [H1 H2]. by split; intros fd Hfd; unfold closed_dir; rewrite Hp; [apply H1 | apply H2].
Qed.

Lemma pass_text s k : s ∈ pass_texts -> test_ready k -> has_text k s.
Proof. intros Hin [_ _ _ Ht]. by apply (proj1 (Forall_forall _ _) Ht). Qed.

(** Test 3: all free descriptors are taken, the seventh [open] fails, and
    afterwards all are closed again. *)
Lemma open_lots_passes :
  (1 < fuel)%nat ->
  runs (err_open_lots lit_addr fuel) (str_bytes "err_open_lots: PASS
") (open_dirs 0) (closing_dirs 6).
Proof.
  intros Hf k Hr Ho.
  destruct (open_lots_run 7 0 k 0 Hf (tr_dot k Hr) Ho) as (k1 & He1 & Hr1 & Ho1 & Hg1); [lia | lia |].
  cbn [Nat.eqb] in Ho1. pose proof (dot_served k1 Hr1) as Hs1.
  destruct (close_fds_run 6 0 k1 Hs1) as (k2 & He2 & Hs2 & Hc2 & Hg2); [| | lia | lia |].
  { by apply (goes_tables k k1 []); [| apply Hr]. }
  { split; intros fd Hfd; [lia |]. apply Ho1. lia. }
  pose proof (goes_trans _ _ _ _ _ Hg1 Hg2) as Hg. cbn [app] in Hg.
  pose proof (goes_test_ready k k2 _ Hg Hs2 Hr) as Hr2.
  destruct (print_says k2 "err_open_lots: PASS
" Hs2) as (k3 & He3 & Hp); [apply pass_text; [set_solver | done] |].
  pose proof (says_goes k2 k3 _ (tr_dot k2 Hr2) Hp) as Hg3.
  exists k3. split; [| split; [| split]].
  - unfold err_open_lots, u_bind. rewrite He1. change (2 + 0) with 2 in He2. rewrite He2.
    change (0 + Z.min 1 (Z.of_nat 7) =? 1) with true. cbv iota beta. by rewrite He3.
  - apply (goes_test_ready k2 k3 _ Hg3); [| exact Hr2]. by apply (says_served k2 k3 _ Hp).
  - apply (closing_dirs_stay 6 k2); [| exact Hc2]. intros fd. by apply (says_fd k2 k3 _ fd Hp).
  - exact (goes_trans k k2 k3 [] _ Hg Hg3).
Qed.

(** What the whole sequence prints. *)
Definition all_passed : list Z := concat (str_bytes <$> pass_texts).

(** Closes what a test asks of the machine. *)
Ltac ready_for := first [by apply tr_served | apply pass_text; [set_solver | done] | done].

Lemma run_all_runs buf :
  (1 < fuel)%nat -> buf <> 0 -> runs (run_all lit_addr fuel buf) all_passed (open_dirs 0) (closing_dirs 6).
Proof.
  intros Hf Hb. unfold all_passed, pass_texts. cbn [fmap list_fmap concat]. rewrite app_nil_r.
  pose proof (open_dirs_stay 0) as Ho. pose proof (closing_dirs_stay 6) as Hc.
  eapply runs_bind; [apply (passes_step _ _ _ Ho) |].
  { intros k Hr _. apply neg_fd_passes; ready_for. }
  eapply runs_bind; [apply (passes_step _ _ _ Ho) |].
  { intros k Hr _. apply big_fd_passes; ready_for. }
  eapply runs_bind; [by apply open_lots_passes |].
  eapply runs_bind; [apply (passes_step _ _ _ Hc) |].
  { intros k Hr _. apply open_passes; [| apply Hr |]; ready_for. }
  eapply runs_bind; [apply (passes_step _ _ _ Hc) |].
  { intros k Hr Hk. apply unopened_passes; [| apply Hr | done | done |];
      ready_for. }
  eapply runs_bind; [apply (passes_step _ _ _ Hc) |].
  { intros k Hr _. apply vidmap_passes; ready_for. }
  eapply runs_bind; [apply (passes_step _ _ _ Hc) |].
  { intros k Hr _. apply stdin_out_passes; [| apply Hr | done |]; ready_for. }
  eapply runs_bind; [apply (passes_step _ _ _ Hc) |].
  { intros k Hr _. apply syscall_num_passes; ready_for. }
  apply (passes_step _ _ _ Hc). intros k Hr _. apply verdict_says; ready_for.
Qed.

(** ** The program *)

Definition prompt : string := "Choose from tests 1-8. 0 to run all: ".

(** The process as [syserr] finds it, with its line typed; the line goes to
    [buf], where none of the texts is. *)
Record started (k : kernel) (buf : Z) (line : list Z) : Prop := Started {
  st_ready : test_ready k;
  st_prompt : has_text k prompt;
  st_line : typed_line k line;
  st_buf : forall i, 0 <= i < 128 -> user_page (buf + i);
  st_apart : forall s, s ∈ test_texts ->
    forall i, 0 <= i <= Z.of_nat (length (str_bytes s)) -> ~ within buf 128 (lit_addr s + i)
}.

(** The first lines of [main]: the prompt is shown and the line is read; the
    test is chosen in a state that differs in nothing else. *)
Lemma main_reads k buf c line n :
  (128 < fuel)%nat -> started k buf (c :: line) ->
  exists k1 k2, print lit_addr fuel prompt k = Returns tt k1 /\
    ece391_read 0 buf n k1 = Returns (Z.of_nat (length (c :: line)) + 1) k2 /\ ld k2 buf = c /\
    test_ready k2 /\ shown k2 = foldl show_char (shown k) (str_bytes prompt) /\
    (forall fd, proc_fd fd k2 = proc_fd fd k).
Proof.
  intros Hf [Hr Hp Hl Hu Ha]. pose proof (tr_served k Hr) as Hs.
  destruct (print_says k prompt Hs Hp) as (k1 & He1 & H1).
  pose proof (says_served k k1 _ H1 Hs) as Hs1.
  pose proof (goes_test_ready k k1 _ (says_goes k k1 _ (tr_dot k Hr) H1) Hs1 Hr) as Hr1.
  destruct (kernel_typed_run junk table_addr fuel k1 (c :: line) buf n Hf Hs1) as (g & k0 & He & Hq & Haf & Hb);
    [by apply (env_typed k); [apply H1 |] | exact Hu |].
  destruct Haf as [Hg Hd Hm]. set (k2 := upd_kbd g k0) in *. exists k1, k2.
  split; [exact He1 |]. split; [exact He |]. split; [| split; [| split]].
  - rewrite length_cons, kernel_bytes in Hb. cbn [Nat.add bytes app] in Hb. by injection Hb.
  - destruct (quiet_sys k1 k0 Hq) as [ts Hy].
    apply (same_test_ready k1 k2 ts); [| exact Hy | exact Hg | | exact Hr1].
    + apply quiet_same_boot in Hq; [exact Hq |]. intros a Hin. by apply (dot_boot k1 (tr_dot k1 Hr1)).
    + intros s Hin (Ht & Hus & Hn). split; [| by split].
      eapply terminated_ext; [| exact Ht]. intros i Hi. apply Hm; [apply Hus; lia | by apply (Ha s Hin)].
  - cbn [display kernel_view foldl] in Hd. rewrite Hd. apply H1.
  - intros fd. change (proc_fd fd k2) with (proc_fd fd k0).
    by rewrite (quiet_fd fd k1 k0 Hq), (says_fd k k1 _ fd H1).
Qed.

(** C21: with a line that starts with "0" typed, [syserr] shows its prompt and
    the lines of eight tests passed, and returns 0: the kernel refuses with -1
    negative, big and closed descriptors, wrong call numbers, names that are
    in no directory entry, the two addresses of [vidmap], and the wrong
    directions of the terminal; six files can be opened at once, the seventh
    cannot.  Afterwards the descriptors 2 to 7 are free. *)
Theorem syserr_all_pass k buf local line :
  (128 < fuel)%nat -> started k buf (48 :: line) -> local <> 0 -> open_dirs 0 k ->
  exists k', syserr_main lit_addr fuel buf local k = Returns 0 k' /\
    shown k' = foldl show_char (shown k) (str_bytes prompt ++ all_passed) /\
    forall fd, 2 <= fd < 8 -> flags (proc_fd fd k') = 0.
Proof.
  intros Hf Hst Hloc Ho.
  destruct (main_reads k buf 48 line 127 Hf Hst) as (k1 & k2 & He1 & He2 & Hc & Hr2 & Hd2 & Hp).
  destruct (run_all_runs local ltac:(lia) Hloc k2 Hr2) as (k3 & He3 & _ & Hc3 & Hg3).
  { by apply (open_dirs_stay 0 k). }
  exists k3. split; [| split].
  - unfold syserr_main, u_bind. fold prompt. rewrite He1, He2, (proj2 (Z.eqb_neq _ (-1))) by lia.
    unfold u_gets. change (@ld kernel user_mem k2 buf) with (ld k2 buf). rewrite Hc. exact He3.
  - rewrite foldl_app, <- Hd2. apply Hg3.
  - intros fd Hfd. apply (proj1 Hc3). lia.
Qed.

(** A descriptor without operations: closing it stops the machine. *)
Lemma close_stops fd k : 0 <= fd < 8 -> f_ops (proc_fd fd k) = None ->
  ece391_close fd k = Stops (called k).
Proof.
  intros Hfd Hn. rewrite (close_reaches junk table_addr fuel) by done. unfold ops_of. rewrite Hn. reflexivity.
Qed.

Lemma expect_errors_stop l1 c msg l2 k :
  served k -> all_refused l1 k -> (forall k1, says k k1 [] -> exists k2, c k1 = Stops k2 /\ says k1 k2 []) ->
  exists k2, expect_errors lit_addr fuel (l1 ++ (c, msg) :: l2) 0 k = Stops k2 /\ says k k2 [].
Proof.
  intros Hs Hl Hc. destruct (expect_errors_refused l1 0 k Hs Hl) as (k1 & He1 & H1).
  destruct (Hc k1 H1) as (k2 & He2 & H2). exists k2.
  split; [| by apply (says_trans k k1 k2 [] [])].
  rewrite expect_errors_app. unfold u_bind. rewrite He1. cbn [expect_errors].
  unfold expect_error, u_bind. by rewrite He2.
Qed.

Lemma u_bind_stops {A B} (a : U kernel A) (f : A -> U kernel B) k k' :
  a k = Stops k' -> u_bind a f k = Stops k'.
Proof. intros He. unfold u_bind. by rewrite He. Qed.

Lemma unopened_stops buf k :
  served k -> tables_rest k -> f_ops (proc_fd 2 k) = None ->
  exists k', err_unopened lit_addr fuel buf k = Stops k' /\ says k k' [].
Proof.
  intros Hs Hr Hn. unfold err_unopened. set (m := "close unopened or invalid fd fail
"). set (f := fun i => (ece391_close i, m)).
  change (f <$> seqZ 0 8) with ((f <$> [0; 1]) ++ (ece391_close 2, m) :: (f <$> [3; 4; 5; 6; 7])).
  destruct (expect_errors_stop (f <$> [0; 1]) (ece391_close 2) m (f <$> [3; 4; 5; 6; 7]) k Hs)
    as (k2 & He & H2).
  - apply Forall_fmap, Forall_forall. intros fd Hfd k' H'. cbn [fst compose].
    apply (terminal_refuses k' 1 31); [by apply (says_served k k' []) | by apply (says_tables k k' []) | done |].
    set_unfold in Hfd. lia.
  - intros k1 H1. exists (called k1). split; [| by apply says_called, (says_served k k1 [])].
    apply close_stops; [lia |]. by rewrite (says_fd k k1 [] 2 H1).
  - exists k2. split; [exact (u_bind_stops _ _ k k2 He) | exact H2].
Qed.

(** C34: with a line that starts with "5" typed, in a process whose descriptor 2
    was never open, [syserr] shows its prompt and does not come back: [close]
    of that descriptor calls through a null table.  The test alone does not
    pass, while after test 3, which leaves tables behind, it does. *)
Theorem syserr_unopened_stops k buf local line :
  (128 < fuel)%nat -> started k buf (53 :: line) -> f_ops (proc_fd 2 k) = None ->
  exists k', syserr_main lit_addr fuel buf local k = Stops k' /\
    shown k' = foldl show_char (shown k) (str_bytes prompt).
Proof.
  intros Hf Hst Hn.
  destruct (main_reads k buf 53 line 127 Hf Hst) as (k1 & k2 & He1 & He2 & Hc & Hr2 & Hd2 & Hp).
  destruct (unopened_stops local k2 (tr_served k2 Hr2) (tr_tables k2 Hr2)) as (k3 & He3 & H3);
    [by rewrite Hp |].
  exists k3. split; [| by rewrite (says_shown _ _ _ H3), Hd2].
  unfold syserr_main, u_bind. fold prompt. rewrite He1, He2, (proj2 (Z.eqb_neq _ (-1))) by lia.
  unfold u_gets. change (@ld kernel user_mem k2 buf) with (ld k2 buf). rewrite Hc. exact He3.
Qed.
(** ** At work *)

Definition syserr_texts : list string := prompt :: test_texts.

Hypothesis lit_texts : lit_addr = text_addr syserr_texts.
Hypothesis fuel_texts : (1000 < fuel)%nat.

Lemma texts_said n line s :
  s ∈ syserr_texts -> 0 <= n <= 4096 ->
  has_lit lit_addr fuel (within work_buf n) (at_work [] line (texts syserr_texts)) s.
Proof.
  intros Hin Hn. apply texts_lit; try done; try solve_lit.
  assert (Ha : Forall (fun s => Forall (fun c => c <> NUL) (str_bytes s)) syserr_texts)
    by (apply (bool_decide_unpack _); vm_compute; exact I).
  exact (proj1 (Forall_forall _ _) Ha s Hin).
Qed.

Lemma texts_ready line s : s ∈ syserr_texts -> has_text (at_work [] line (texts syserr_texts)) s.
Proof.
  intros Hin. destruct (texts_said 0 line s Hin ltac:(lia)) as (Ht & Hu & _ & Hl).
  split; [exact Ht |]. split; [exact Hu |]. split; [| exact Hl]. intros i _ [].
Qed.

Lemma put_to_work_ready k arg line m :
  let k' := put_to_work k arg line m in
  main_process (sys k') = main_process (sys k) /\ fs k' = fs k /\ (tables_rest k -> tables_rest k') /\
  (forall fd, proc_fd fd k' = proc_fd fd k) /\ main_pcb k' = main_pcb k.
Proof. done. Qed.

Lemma running_ready :
  0 <= main_process (sys running) < 6 /\ boot_block (fs running) = sample_base /\
  main_pcb running = sample_pcb /\ tables_rest running.
Proof. split; [vm_compute; repeat split; congruence |]. by split_and!. Qed.

Lemma work_started c line :
  typed_line (at_work [] (c :: line) (texts syserr_texts)) (c :: line) ->
  started (at_work [] (c :: line) (texts syserr_texts)) work_buf (c :: line).
Proof.
  assert (Hlen : (length (texts syserr_texts) <= 1000)%nat) by (apply (bool_decide_unpack _); vm_compute; exact I).
  intros Ht. pose proof (work_root [] (c :: line) (texts syserr_texts) Hlen) as (_ & Hn & Htype & _).
  destruct (put_to_work_ready running [] (c :: line) (work_mem (texts syserr_texts))) as (E1 & E2 & E3 & _ & E5).
  destruct running_ready as (R1 & R2 & R3 & R4).
  fold (at_work [] (c :: line) (texts syserr_texts)) in *.
  split; [| by apply texts_ready; left | exact Ht | apply (work_users 128); lia |].
  - split.
    + split; [apply work_served | | | exact Hn | exact Htype | by apply texts_ready; right; left].
      * rewrite E1. exact R1.
      * rewrite E2, E5, R2, R3. unfold sample_base, sample_pcb, within, in_kernel, FOUR_KB, UNIT_4_MB, UNIT_8_MB. lia.
    + exact (E3 R4).
    + assert (Ha : Forall (fun s => (length (str_bytes s) <= 10)%nat /\ not_in_image (str_bytes s) = true) absent_names)
        by (repeat apply Forall_cons_2; try apply Forall_nil_2; (split; [simpl; lia | vm_compute; reflexivity])).
      apply Forall_forall. intros s Hin. split; [apply texts_ready; right; right; apply elem_of_app; by left |].
      destruct (proj1 (Forall_forall _ _) Ha s Hin) as [Hl Hi]. apply work_absent; [exact Hlen | lia | exact Hi].
    + apply Forall_forall. intros s Hin. apply texts_ready. right. right. apply elem_of_app. by right.
  - intros s Hin. by apply (texts_said 128 (c :: line) s); [right | lia].
Qed.
End kernel.

(** ** Witnesses *)

(** The machine of Usermode.v with these texts, and "0" typed. *)
Definition syserr_machine (line : list Z) : kernel := at_work [] line (texts syserr_texts).

Lemma syserr_machine_fds line fd : proc_fd fd (syserr_machine line) = proc_fd fd running.
Proof. apply (put_to_work_ready running [] line (work_mem (texts syserr_texts))). Qed.

Lemma running_open_dirs : open_dirs 0 running.
Proof.
  split; intros fd Hfd; [lia |].
  assert (Hb : forallb (fun fd => flags (proc_fd (fd + 2) running) =? 0) (seqZ 0 6) = true)
    by (vm_compute; reflexivity).
  pose proof (forall_below _ _ Hb (fd - 2) ltac:(lia)) as Hf. cbv beta in Hf. apply Z.eqb_eq in Hf.
  by replace (fd - 2 + 2) with fd in Hf by lia.
Qed.

Lemma syserr_started c :
  0 < c < 256 /\ c <> NEWLINE ->
  started no_junk no_addr work_fuel (text_addr syserr_texts) (syserr_machine [c]) work_buf [c].
Proof.
  intros Hc. unfold syserr_machine. refine (work_started no_junk no_addr work_fuel _ eq_refl _ c [] _).
  - unfold work_fuel; lia.
  - apply work_typed; [simpl; lia | by apply Forall_singleton].
Qed.

Lemma syserr_all_pass_witness :
  let k := syserr_machine [48] in
  exists k', @syserr_main kernel (kernel_calls no_junk no_addr work_fuel) (text_addr syserr_texts) work_fuel
      work_buf (work_buf + 128) k = Returns 0 k' /\
    shown k' = foldl show_char (shown k) (str_bytes prompt ++ all_passed).
Proof.
  intros k. destruct (syserr_all_pass no_junk no_addr work_fuel (text_addr syserr_texts) k work_buf
    (work_buf + 128) []) as (k' & He & Hd & _).
  - unfold work_fuel; lia.
  - by apply (syserr_started 48).
  - discriminate.
  - apply (open_dirs_stay 0 running); [apply syserr_machine_fds | exact running_open_dirs].
  - exists k'. split; [exact He | exact Hd].
Defined.

Lemma syserr_unopened_stops_witness :
  let k := syserr_machine [53] in
  exists k', @syserr_main kernel (kernel_calls no_junk no_addr work_fuel) (text_addr syserr_texts) work_fuel
      work_buf (work_buf + 128) k = Stops k' /\
    shown k' = foldl show_char (shown k) (str_bytes prompt).
Proof.
  intros k. destruct (syserr_unopened_stops no_junk no_addr work_fuel (text_addr syserr_texts) k work_buf
    (work_buf + 128) []) as (k' & He & Hd).
  - unfold work_fuel; lia.
  - by apply (syserr_started 53).
  - unfold k. rewrite syserr_machine_fds. reflexivity.
  - exists k'. split; [exact He | exact Hd].
Defined.
