(* ===== verification/Grep.v ===== *)
(** * grep

    ece391grep.c over the interface of Userland.v: [do_one_file] reads a file
    in pieces of up to 1024 bytes, carries the unfinished line to the front of
    its buffer, and prints each line in which the text occurs.  The theorem
    compares it with [grep_text], which splits the whole file at its newlines
    at once; then the program on the kernel of Usermode.v. *)

From S2P Require Import Prelude Memory Lib Paging Devices State Sample Console Filesys Terminal.
From S2P Require Import Syscall Printing Userland Usermode.

#[local] Open Scope user_scope.

(** ** The program *)

Definition BUFSIZE : Z := 1024.

Section program.
Context {W : Type} `{SysCalls W}.
Variable lit_addr : string -> Z.
Variable fuel : nat.

(** [while (line_end < last && '\n' != data[line_end]) line_end++;] *)
Definition end_turn (w : W) (data last line_end : Z) : turn Z Z :=
  if (line_end <? last) && negb (NEWLINE =? ld w (data + line_end)) then Continue (line_end + 1)
  else Break line_end.

Definition find_end (data last line_start : Z) : U W Z :=
  u_loop (fun w => loop fuel (end_turn w data last) line_start).

(** The loop on [check], which has [n] more turns to make; [s] is a string of
    signed characters, [data] of unsigned ones. *)
Fixpoint search_line (n : nat) (check s s_len fname data line_start : Z) : U W unit :=
  match n with
  | O => u_ret tt
  | S n' =>
      first <- u_gets (fun w => s8 (ld w s) =? ld w (data + check));;
      r <- (if first then ece391_strncmp fuel (data + check) s s_len else u_ret 1);;
      if first && (0 =? r) then
        ece391_fdputs fuel 1 fname;;
        print lit_addr fuel ":";;
        ece391_fdputs fuel 1 (data + line_start);;
        print lit_addr fuel "
"
      else search_line n' (check + 1) s s_len fname data line_start
  end.

(** The inner loop: its value is the new [last]. *)
Fixpoint lines_loop (n : nat) (line_start last cnt s s_len fname data : Z) : U W Z :=
  match n with
  | O => u_stop
  | S n' =>
      line_end <- find_end data last line_start;;
      c <- u_gets (fun w => ld w (data + line_end));;
      if negb (NEWLINE =? c) && negb (0 =? cnt) && negb (line_start =? 0) then
        u_modify (fun w => st w (data + line_end) NUL);;
        ece391_strcpy fuel data (data + line_start);;
        u_ret (last - line_start)
      else
        u_modify (fun w => st w (data + line_end) NUL);;
        search_line (Z.to_nat (line_end - line_start)) line_start s s_len fname data line_start;;
        let line_start := line_end + 1 in
        if last <=? line_start then u_ret 0
        else lines_loop n' line_start last cnt s s_len fname data
  end.

Fixpoint read_loop (n : nat) (fd last s s_len fname data : Z) : U W Z :=
  match n with
  | O => u_stop
  | S n' =>
      cnt <- ece391_read fd (data + last) (BUFSIZE - last);;
      if -1 =? cnt then print lit_addr fuel "file read failed
";; u_ret (-1)
      else
        last <- lines_loop fuel 0 (last + cnt) cnt s s_len fname data;;
        if 0 =? cnt then
          r <- ece391_close fd;;
          if -1 =? r then print lit_addr fuel "file close failed
";; u_ret (-1)
          else u_ret 0
        else read_loop n' fd last s s_len fname data
  end.

(** [data] is the buffer of 1025 bytes on the stack. *)
Definition do_one_file (s fname data : Z) : U W Z :=
  s_len <- ece391_strlen fuel s;;
  fd <- ece391_open fname;;
  if -1 =? fd then print lit_addr fuel "file open failed
";; u_ret (-1)
  else read_loop fuel fd 0 s s_len fname data.

Fixpoint grep_loop (n : nat) (fd buf search data : Z) : U W Z :=
  match n with
  | O => u_stop
  | S n' =>
      cnt <- ece391_read fd buf (SBUFSIZE - 1);;
      if 0 =? cnt then u_ret 0
      else if -1 =? cnt then print lit_addr fuel "directory entry read failed
";; u_ret 3
      else
        c <- u_gets (fun w => ld w buf);;
        if 46 =? c then grep_loop n' fd buf search data
        else
          u_modify (fun w => st w (buf + cnt) NUL);;
          r <- do_one_file search buf data;;
          if negb (0 =? r) then u_ret 3 else grep_loop n' fd buf search data
  end.

(** [buf] and [search] are the buffers of [main], [data] the one of
    [do_one_file]. *)
Definition grep_main (buf search data : Z) : U W Z :=
  r <- ece391_getargs search BUFSIZE;;
  if negb (0 =? r) then print lit_addr fuel "could not read argument
";; u_ret 3
  else
    fd <- ece391_open (lit_addr ".");;
    if -1 =? fd then print lit_addr fuel "directory open failed
";; u_ret 2
    else grep_loop fuel fd buf search data.
End program.

(** ** What grep prints *)

Definition prefix_of (p l : list Z) : bool := bool_decide (take (length p) l = p).

(** The text occurs in the line; the empty text nowhere. *)
Fixpoint occurs (p line : list Z) : bool :=
  match line with
  | [] => false
  | c :: line' => (negb (bool_decide (p = [])) && prefix_of p line) || occurs p line'
  end.

Fixpoint split_lines (l : list Z) : list (list Z) :=
  match l with
  | [] => [[]]
  | c :: l' =>
      if c =? NEWLINE then [] :: split_lines l'
      else match split_lines l' with
           | line :: rest => (c :: line) :: rest
           | [] => [[c]]
           end
  end.

Definition grep_line (fname p line : list Z) : list Z :=
  if occurs p line then fname ++ [58] ++ line ++ [NEWLINE] else [].

Definition grep_text (fname p l : list Z) : list Z := concat (grep_line fname p <$> split_lines l).

Lemma occurs_spec p line : occurs p line = true <-> p <> [] /\ exists a b, line = a ++ p ++ b.
Proof.
  induction line as [| c line IH]; cbn [occurs].
  - split; [done |]. intros [Hp (a & b & He)]. destruct a; [destruct p |]; done.
  - rewrite orb_true_iff, andb_true_iff, negb_true_iff, bool_decide_eq_false, IH.
    unfold prefix_of. rewrite bool_decide_eq_true. split.
    + intros [[Hp Ht] | [Hp (a & b & ->)]]; (split; [done |]).
      * exists [], (drop (length p) (c :: line)). cbn [app]. rewrite <- Ht at 1. by rewrite take_drop.
      * by exists (c :: a), b.
    + intros [Hp (a & b & He)]. destruct a as [| c' a].
      * left. split; [done |]. cbn [app] in He. rewrite He. by rewrite take_app_length.
      * right. split; [done |]. injection He as -> He. by exists a, b.
Qed.

Lemma split_lines_end l : Forall (fun c => c <> NEWLINE) l -> split_lines l = [l].
Proof.
  induction 1 as [| c l Hc Hl IH]; [done |]. cbn [split_lines].
  rewrite (proj2 (Z.eqb_neq c NEWLINE)) by done. by rewrite IH.
Qed.

Lemma split_lines_newline a b :
  Forall (fun c => c <> NEWLINE) a -> split_lines (a ++ NEWLINE :: b) = a :: split_lines b.
Proof.
  induction 1 as [| c l Hc Hl IH]; [done |]. cbn [split_lines app].
  rewrite (proj2 (Z.eqb_neq c NEWLINE)) by done. by rewrite IH.
Qed.

Lemma grep_text_end fname p l :
  Forall (fun c => c <> NEWLINE) l -> grep_text fname p l = grep_line fname p l.
Proof. intros Hl. unfold grep_text. rewrite split_lines_end by done. apply app_nil_r. Qed.

Lemma grep_text_newline fname p a b :
  Forall (fun c => c <> NEWLINE) a ->
  grep_text fname p (a ++ NEWLINE :: b) = grep_line fname p a ++ grep_text fname p b.
Proof. intros Ha. unfold grep_text. by rewrite split_lines_newline. Qed.

(** A text up to its first newline. *)
Lemma first_line l :
  Forall (fun c => c <> NEWLINE) l \/
  exists a b, l = a ++ NEWLINE :: b /\ Forall (fun c => c <> NEWLINE) a.
Proof.
  induction l as [| c l IH]; [by left |]. destruct (decide (c = NEWLINE)) as [-> | Hc].
  - right. by exists [], l.
  - destruct IH as [IH | (a & b & -> & Ha)].
    + left. by constructor.
    + right. exists (c :: a), b. split; [done | by constructor].
Qed.

(** A first part without a newline belongs to the first line. *)
Lemma split_lines_first a b :
  Forall (fun c => c <> NEWLINE) a ->
  exists line rest, split_lines (a ++ b) = (a ++ line) :: rest.
Proof.
  induction 1 as [| c l Hc Hl IH].
  - destruct (first_line b) as [Hb | (x & y & -> & Hx)]; cbn [app].
    + exists b, []. by apply split_lines_end.
    + exists x, (split_lines y). by apply split_lines_newline.
  - destruct IH as (line & rest & IH). exists line, rest. cbn [app split_lines].
    rewrite (proj2 (Z.eqb_neq c NEWLINE)) by done. by rewrite IH.
Qed.

(** ** The program prints it *)

Section verified.
Context {W : Type} `{SysSpec W}.
#[local] Existing Instance spec_mem.
Variable lit_addr : string -> Z.
Variable fuel : nat.

(** The argument, the name of the file and the buffer. *)
Variables (s fname data : Z) (p f : list Z).
Let T : Z -> Prop := within data 1025.

(** A string at [a], apart from the buffer. *)
Definition kept_string (w : W) (a : Z) (l : list Z) : Prop :=
  terminated NUL (chars w a) l /\ users a (Z.of_nat (length l) + 1) /\
  (forall i, 0 <= i <= Z.of_nat (length l) -> ~ T (a + i)) /\
  (length l < fuel)%nat /\ Z.of_nat (length l) <= limit.

Lemma kept_after w w' out T' a l :
  kept_string w a l -> after w w' out T' -> (forall x, T' x -> T x) -> kept_string w' a l.
Proof.
  intros (Ht & Hu & HT & Hf & Hl) Ha Hs. split_and!; try done.
  eapply after_string; [exact Ha | done | | done]. intros i Hi Hx. by apply (HT i Hi), Hs.
Qed.

Lemma fdputs_kept w a l :
  good w -> kept_string w a l ->
  exists w', ece391_fdputs fuel 1 a w = Returns tt w' /\ after w w' l nowhere /\ env_kept w w'.
Proof. intros Hg (Ht & Hu & _ & Hf & Hl). by apply fdputs_shows. Qed.

(** What the loops need throughout. *)
Record ready (w : W) : Prop := Ready {
  rd_good : good w;
  rd_s : kept_string w s p;
  rd_f : kept_string w fname f;
  rd_colon : kept_string w (lit_addr ":") [58];
  rd_newline : kept_string w (lit_addr "
") [NEWLINE]
}.

Lemma ready_after w w' out T' :
  ready w -> after w w' out T' -> (forall x, T' x -> T x) -> ready w'.
Proof.
  intros [Hg R1 R2 R3 R4] Ha Hs. split; [apply Ha | ..]; by eapply kept_after.
Qed.

Lemma nowhere_in (P : Z -> Prop) x : nowhere x -> P x.
Proof. intros []. Qed.

Hypothesis fuel_enough : (1025 < fuel)%nat.
Hypothesis limit_enough : 1024 <= limit.
Hypothesis data_users : users data 1025.
Hypothesis pattern_ascii : Forall (fun c => 0 < c < 128) p.
Hypothesis pattern_length : (length p <= 1024)%nat.

(** The line at [a] is printed behind the name. *)
Lemma line_shown w a line :
  ready w -> terminated NUL (chars w a) line -> users a (Z.of_nat (length line) + 1) ->
  (length line <= 1024)%nat ->
  exists w', u_bind (ece391_fdputs fuel 1 fname) (fun _ => u_bind (print lit_addr fuel ":") (fun _ =>
      u_bind (ece391_fdputs fuel 1 a) (fun _ => print lit_addr fuel "
"))) w = Returns tt w' /\ after w w' (f ++ [58] ++ line ++ [NEWLINE]) nowhere /\ env_kept w w'.
Proof.
  intros Hr Ht Hu Hl.
  destruct (fdputs_kept w fname f) as (w1 & He1 & Ha1 & Hk1); [apply Hr | apply Hr |].
  pose proof (ready_after w w1 _ _ Hr Ha1 (nowhere_in T)) as Hr1.
  destruct (fdputs_kept w1 (lit_addr ":") [58]) as (w2 & He2 & Ha2 & Hk2); [apply Hr1 | apply Hr1 |].
  pose proof (ready_after w1 w2 _ _ Hr1 Ha2 (nowhere_in T)) as Hr2.
  pose proof (after_trans w w1 w2 _ _ _ _ nowhere Ha1 Ha2 (nowhere_in _) (nowhere_in _)) as Ha12.
  destruct (fdputs_shows fuel w2 a line) as (w3 & He3 & Ha3 & Hk3); try (done || lia); [apply Hr2 | |].
  { eapply after_string; [exact Ha12 | exact Hu | intros i _ [] | exact Ht]. }
  pose proof (ready_after w2 w3 _ _ Hr2 Ha3 (nowhere_in T)) as Hr3.
  pose proof (after_trans w w2 w3 _ _ _ _ nowhere Ha12 Ha3 (nowhere_in _) (nowhere_in _)) as Ha13.
  destruct (fdputs_kept w3 (lit_addr "
") [NEWLINE]) as (w4 & He4 & Ha4 & Hk4); [apply Hr3 | apply Hr3 |].
  pose proof (after_trans w w3 w4 _ _ _ _ nowhere Ha13 Ha4 (nowhere_in _) (nowhere_in _)) as Ha14.
  rewrite <- !app_assoc in Ha14. exists w4. split; [| split; [exact Ha14 |]].
  - unfold u_bind, print. by rewrite He1, He2, He3.
  - by eapply env_trans; [exact Hk1 | eapply env_trans; [exact Hk2 | eapply env_trans]].
Qed.

(** The comparison of [p] with what is at [a]. *)
Lemma first_matches w a c rest :
  ready w -> terminated NUL (chars w a) (c :: rest) -> 0 < c < 256 ->
  (s8 (ld w s) =? ld w a) = negb (bool_decide (p = [])) && (hd 0 p =? c).
Proof.
  intros Hr Ha Hc. apply terminated_cons in Ha as (Hc0 & _ & _). unfold chars in Hc0. rewrite Z.add_0_r in Hc0.
  rewrite Hc0. destruct (rd_s w Hr) as (Ht & _). clear fuel_enough limit_enough pattern_length.
  destruct p as [| c' p'].
  - destruct Ht as [_ Hz]. unfold chars in Hz. cbn [length Z.of_nat] in Hz. rewrite Z.add_0_r in Hz. rewrite Hz.
    rewrite (bool_decide_eq_true_2 _ eq_refl). apply Z.eqb_neq. unfold NUL. rewrite s8_small; lia.
  - apply terminated_cons in Ht as (Hs0 & _ & _). unfold chars in Hs0. rewrite Z.add_0_r in Hs0. rewrite Hs0.
    apply Forall_cons in pattern_ascii as [Hc' _]. rewrite s8_small by lia. by rewrite bool_decide_eq_false_2.
Qed.

Lemma rest_matches w a c rest :
  ready w -> terminated NUL (chars w a) (c :: rest) -> (length (c :: rest) <= 1024)%nat -> p <> [] ->
  exists r, ece391_strncmp fuel a s (Z.of_nat (length p)) w = Returns r w /\
    (0 =? r) = prefix_of p (c :: rest).
Proof.
  intros Hr Ha Hl Hp. destruct (rd_s w Hr) as (Ht & _).
  assert (Hn : 0 < Z.of_nat (length p) < 4294967296) by (destruct p; [done | cbn [length] in *; lia]).
  exists (lex_diff (take (length p) (c :: rest)) (take (length p) p)). split.
  - unfold ece391_strncmp. rewrite u32_small, (proj2 (Z.eqb_neq _ 0)) by lia. unfold u_loop.
    rewrite (strncmp_loop _ _ (c :: rest) fuel p 0 (Z.of_nat (length p))) by (done || lia).
    by rewrite Nat2Z.id.
  - rewrite firstn_all. unfold prefix_of. apply eq_true_iff_eq.
    rewrite Z.eqb_eq, bool_decide_eq_true, <- lex_diff_zero; [split; congruence | | by eapply terminated_nonzero].
    apply Forall_take. by eapply terminated_nonzero.
Qed.

Lemma search_run ls line rest : forall check w,
  ready w -> terminated NUL (chars w (data + ls)) line ->
  users (data + ls) (Z.of_nat (length line) + 1) -> (length line <= 1024)%nat ->
  terminated NUL (chars w (data + check)) rest -> Forall (fun c => 0 < c < 256) rest ->
  (length rest <= 1024)%nat ->
  exists w', search_line lit_addr fuel (length rest) check s (Z.of_nat (length p)) fname data ls w
      = Returns tt w' /\
    after w w' (if occurs p rest then f ++ [58] ++ line ++ [NEWLINE] else []) nowhere /\ env_kept w w'.
Proof.
  induction rest as [| c rest IH]; intros check w Hr Hl Hu Hlen Hc Hb Hn.
  - exists w. split; [done |]. split; [apply after_refl, Hr | apply env_refl].
  - pose proof Hc as Hc1. apply terminated_cons in Hc1 as (_ & _ & Hc1).
    apply Forall_cons in Hb as [Hcr Hb].
    pose proof (first_matches w (data + check) c rest Hr Hc Hcr) as Hfirst.
    destruct (IH (check + 1) w) as (w2 & He2 & Hrest); try done; [| cbn [length] in Hn; lia |].
    { eapply terminated_ext; [| exact Hc1]. intros i _. unfold chars. f_equal. lia. }
    cbn [length search_line occurs]. unfold u_gets, u_bind at 1. rewrite Hfirst.
    destruct (decide (p = [])) as [Hp | Hp].
    + rewrite (bool_decide_eq_true_2 _ Hp) in *. cbn [negb andb orb]. exists w2.
      split; [exact He2 | exact Hrest].
    + destruct (rest_matches w (data + check) c rest Hr Hc Hn Hp) as (r & He & Hpre).
      rewrite (bool_decide_eq_false_2 _ Hp) in *. cbn [negb andb].
      assert (Hhd : prefix_of p (c :: rest) = true -> (hd 0 p =? c) = true).
      { unfold prefix_of. rewrite bool_decide_eq_true, Z.eqb_eq. clear -Hp.
        destruct p as [| c' p']; [done |]. cbn [length take hd]. by intros [= ->]. }
      destruct (prefix_of p (c :: rest)) eqn:Hpr.
      * rewrite Hhd by done. unfold u_bind at 1. rewrite He, Hpre. cbn [orb].
        destruct (line_shown w (data + ls) line Hr Hl Hu Hlen) as (w1 & He1 & Ha1 & Hk1).
        exists w1. split; [exact He1 | by split].
      * exists w2. split; [| exact Hrest]. destruct (hd 0 p =? c); unfold u_bind at 1; [| exact He2].
        rewrite He, Hpre. exact He2.
Qed.

(** ** The end of a line *)

Lemma find_end_run w ls a last :
  (length a < fuel)%nat -> Forall (fun c => c <> NEWLINE) a -> bytes w (data + ls) (length a) = a ->
  ls + Z.of_nat (length a) <= last ->
  ls + Z.of_nat (length a) = last \/ ld w (data + (ls + Z.of_nat (length a))) = NEWLINE ->
  find_end fuel data last ls w = Returns (ls + Z.of_nat (length a)) w.
Proof.
  intros Hf Ha Hb Hle Hend. unfold find_end, u_loop.
  rewrite <- (Z.add_0_r ls) at 1.
  rewrite (loop_scan (end_turn w data last) (fun i => ls + i) (length a) (ls + Z.of_nat (length a)) fuel);
    [done | done | |].
  - intros i Hi. unfold end_turn. rewrite (proj2 (Z.ltb_lt _ _)) by lia.
    destruct (lookup_lt_is_Some_2 a (Z.to_nat i)) as [c Hlk]; [lia |].
    pose proof (Forall_lookup_1 _ _ _ _ Ha Hlk) as Hc. cbv beta in Hc.
    rewrite <- Hb, bytes_lookup, Z2Nat.id in Hlk by lia. injection Hlk as Hlk.
    replace (data + (ls + i)) with (data + ls + i) by lia.
    rewrite Hlk, (proj2 (Z.eqb_neq NEWLINE c)) by done. cbn [negb andb]. f_equal. lia.
  - unfold end_turn. destruct Hend as [-> | ->].
    + by rewrite Z.ltb_irrefl.
    + rewrite Z.eqb_refl. cbn [negb]. by rewrite andb_false_r.
Qed.

(** ** Moving the unfinished line *)

(** The copy goes down, so a byte is read before it is overwritten. *)
Lemma strcpy_down k l : forall n i w,
  0 < k -> good w -> 0 <= i -> terminated NUL (chars w (data + k + i)) l ->
  users data (i + k + Z.of_nat (length l) + 1) -> (length l < n)%nat -> Forall (fun c => 0 < c < 256) l ->
  exists w', loop n (strcpy_turn data NUL (fun w => chars w (data + k))) (w, i) = Some w' /\
    after w w' [] (within (data + i) (Z.of_nat (length l) + 1)) /\ env_kept w w' /\
    bytes w' (data + i) (length l) = l.
Proof.
  induction l as [| c l IH]; intros n i w Hk Hg Hi Ht Hu Hn Hb; (destruct n as [| n]; [cbn [length] in Hn; lia |]);
    cbn [loop].
  - destruct Ht as [_ Hz]. unfold strcpy_turn, chars in Hz |- *. cbn [length Z.of_nat] in Hz. rewrite Z.add_0_r in Hz.
    rewrite Hz. destruct (law_store w (data + i) NUL Hg) as [Ha Hke]; [apply Hu; cbn [length]; lia |].
    exists (st w (data + i) NUL). split; [done |]. split; [| done].
    eapply after_weaken; [exact Ha |]. intros x <-. unfold within. cbn [length]. lia.
  - apply terminated_cons in Ht as (Hc & Hcn & Ht). apply Forall_cons in Hb as [Hcr Hb].
    unfold chars in Hc. rewrite Z.add_0_r in Hc.
    assert (Hstep : strcpy_turn data NUL (fun w => chars w (data + k)) (w, i)
      = Continue (st w (data + i) c, i + 1)).
    { unfold strcpy_turn, chars. by rewrite Hc, (proj2 (Z.eqb_neq c NUL)) by done. }
    rewrite Hstep.
    cbn [length] in *.
    destruct (law_store w (data + i) c Hg) as [Ha Hke]; [apply Hu; lia |].
    set (w1 := st w (data + i) c) in *.
    destruct (IH n (i + 1) w1) as (w2 & He2 & Ha2 & Hk2 & Hb2); try done; [apply Ha | lia | | | lia |].
    + eapply (after_string w w1); [exact Ha | | intros j Hj He | ].
      * replace (data + k + (i + 1)) with (data + (k + (i + 1))) by lia.
        eapply users_sub; [exact Hu | lia | lia].
      * lia.
      * eapply terminated_ext; [| exact Ht]. intros j _. unfold chars. f_equal. lia.
    + eapply users_sub; [exact Hu | lia | lia].
    + exists w2. split; [exact He2 |]. split; [| split].
      * apply (after_trans w w1 w2 [] [] _ _ _ Ha Ha2); [intros x <- | intros x Hx]; unfold within in *; lia.
      * by apply (env_trans w w1 w2).
      * cbn [bytes]. replace (data + i + 1) with (data + (i + 1)) by lia. rewrite Hb2. f_equal.
        rewrite (after_mem _ _ _ _ Ha2); [| apply Hu; lia | unfold within; lia].
        unfold w1. rewrite (ld_user_st w) by (done || (apply Hu; lia)).
        rewrite decide_True by done. apply u8_small. lia.
Qed.

Lemma bytes_kept w w' out T' a n :
  after w w' out T' -> users a (Z.of_nat n) -> (forall i, 0 <= i < Z.of_nat n -> ~ T' (a + i)) ->
  bytes w' a n = bytes w a n.
Proof. intros Ha Hu Hn. apply bytes_ext. intros i Hi. by apply (after_mem _ _ _ _ Ha); [apply Hu | apply Hn]. Qed.

(** ** Lines *)

Definition short (l : list Z) : Prop := Forall (fun line => (length line < 1024)%nat) (split_lines l).

Lemma short_newline a b : Forall (fun c => c <> NEWLINE) a -> short (a ++ NEWLINE :: b) -> short b.
Proof. intros Ha. unfold short. rewrite split_lines_newline by done. by intros [_ Hs]%Forall_cons. Qed.

Lemma short_first a b : Forall (fun c => c <> NEWLINE) a -> short (a ++ b) -> (length a < 1024)%nat.
Proof.
  intros Ha Hs. unfold short in Hs. destruct (split_lines_first a b Ha) as (line & rest & He).
  rewrite He in Hs. apply Forall_cons in Hs as [Hs _]. rewrite length_app in Hs. lia.
Qed.

(** The line [a] at [ls] was ended with a null and searched. *)
Lemma line_done w ls a :
  ready w -> Forall (fun c => 0 < c < 256) a -> bytes w (data + ls) (length a) = a -> 0 <= ls ->
  ls + Z.of_nat (length a) <= 1024 ->
  let e := ls + Z.of_nat (length a) in
  exists w', search_line lit_addr fuel (Z.to_nat (e - ls)) ls s (Z.of_nat (length p)) fname data ls
      (st w (data + e) NUL) = Returns tt w' /\
    after w w' (grep_line f p a) (eq (data + e)) /\ env_kept w w' /\ ld w' (data + e) = NUL.
Proof.
  intros Hr Ha Hb Hls Hle e. pose proof (rd_good w Hr) as Hg.
  destruct (law_store w (data + e) NUL Hg) as [Hst Hk]; [apply data_users; lia |].
  assert (HT : forall x, data + e = x -> T x) by (intros x <-; unfold T, within; lia).
  assert (Hu : users (data + ls) (Z.of_nat (length a) + 1)) by (eapply users_sub; [exact data_users | lia | lia]).
  pose proof (bytes_terminate w a (data + ls) Hg Ha Hu Hb) as Ht.
  replace (data + ls + Z.of_nat (length a)) with (data + e) in Ht by (unfold e; lia).
  set (w1 := st w (data + e) NUL) in *.
  replace (Z.to_nat (e - ls)) with (length a) by (unfold e; lia).
  destruct (search_run ls a a ls w1) as (w2 & He2 & Ha2 & Hk2); try done; try lia.
  { by apply (ready_after w w1 [] (eq (data + e))). }
  exists w2. split; [exact He2 |]. split; [| split].
  - apply (after_trans w w1 w2 [] _ _ _ _ Hst Ha2); [done | intros x []].
  - by apply (env_trans w w1 w2).
  - rewrite (after_mem _ _ _ _ Ha2); [| apply data_users; lia | intros []].
    unfold w1. rewrite (ld_user_st w); [| exact Hg | apply data_users; lia | apply data_users; lia].
    by rewrite decide_True.
Qed.

(** The inner loop printed [out] of the text [t] in the buffer and what
    follows it, [r]; [left] is at the front of the buffer. *)
Record lines_done (w w' : W) (out t r left : list Z) : Prop := LinesDone {
  ln_after : after w w' out T;
  ln_env : env_kept w w';
  ln_left : bytes w' data (length left) = left;
  ln_mark : ld w' (data + 1024) <> NEWLINE;
  ln_length : (length left < 1024)%nat;
  ln_range : Forall (fun c => 0 < c < 256) left;
  ln_short : short (left ++ r);
  ln_text : grep_text f p (t ++ r) = out ++ grep_text f p (left ++ r)
}.

(** A line in the middle. *)
Lemma lines_done_cons w w1 w2 a b r out left e :
  Forall (fun c => c <> NEWLINE) a -> after w w1 (grep_line f p a) (eq (data + e)) -> 0 <= e <= 1024 ->
  env_kept w w1 -> lines_done w1 w2 out b r left ->
  lines_done w w2 (grep_line f p a ++ out) (a ++ NEWLINE :: b) r left.
Proof.
  intros Ha Haf He Hk [L1 L2 L3 L4 L5 L6 L7 L8]. split; try done.
  - apply (after_trans w w1 w2 _ _ _ _ _ Haf L1); [| done]. intros x <-. unfold T, within. lia.
  - by apply (env_trans w w1 w2).
  - rewrite <- app_assoc. cbn [app]. rewrite grep_text_newline by done. by rewrite L8, app_assoc.
Qed.

(** The buffer is empty. *)
Lemma lines_done_empty w w' a b r e :
  Forall (fun c => c <> NEWLINE) a -> after w w' (grep_line f p a) (eq (data + e)) -> 0 <= e <= 1024 ->
  env_kept w w' -> ld w' (data + 1024) <> NEWLINE ->
  b = [NEWLINE] \/ (b = [] /\ r = []) -> short ((a ++ b) ++ r) ->
  lines_done w w' (grep_line f p a) (a ++ b) r [].
Proof.
  intros Ha Haf He Hk Hm Hb Hs. split; try done.
  - eapply after_weaken; [exact Haf |]. intros x <-. unfold T, within. lia.
  - cbn [length]. lia.
  - destruct Hb as [-> | [-> ->]].
    + rewrite <- app_assoc in Hs. by apply short_newline in Hs.
    + repeat constructor; cbn [length]; lia.
  - destruct Hb as [-> | [-> ->]].
    + rewrite <- app_assoc. cbn [app]. by rewrite grep_text_newline.
    + by rewrite !app_nil_r, grep_text_end by done.
Qed.

(** The unfinished line was moved to the front. *)
Lemma line_moved w ls t r :
  ready w -> Forall (fun c => 0 < c < 256) t -> bytes w (data + ls) (length t) = t -> 0 < ls ->
  ls + Z.of_nat (length t) <= 1024 -> ld w (data + 1024) <> NEWLINE -> short (t ++ r) ->
  exists w', ece391_strcpy fuel data (data + ls) (st w (data + (ls + Z.of_nat (length t))) NUL) = Returns tt w' /\
    lines_done w w' [] t r t.
Proof.
  intros Hr Ht Hb Hls Hle Hm Hs. set (e := ls + Z.of_nat (length t)). pose proof (rd_good w Hr) as Hg.
  destruct (law_store w (data + e) NUL Hg) as [Hst Hk]; [apply data_users; lia |].
  assert (Hu : users (data + ls) (Z.of_nat (length t) + 1)) by (eapply users_sub; [exact data_users | lia | lia]).
  pose proof (bytes_terminate w t (data + ls) Hg Ht Hu Hb) as Hterm.
  replace (data + ls + Z.of_nat (length t)) with (data + e) in Hterm by (unfold e; lia).
  set (w1 := st w (data + e) NUL) in *.
  destruct (strcpy_down ls t fuel 0 w1) as (w2 & He2 & Ha2 & Hk2 & Hb2); try done; try lia; [apply Hst | | |].
  { by rewrite Z.add_0_r. }
  { eapply users_sub; [exact data_users | lia | lia]. }
  rewrite Z.add_0_r in Hb2, Ha2. exists w2. split; [unfold ece391_strcpy; by rewrite He2 |].
  split; try done; [| by apply (env_trans w w1 w2) | | lia].
  - apply (after_trans w w1 w2 [] [] _ _ _ Hst Ha2); unfold T, within; [intros x <-; lia | intros x Hx; lia].
  - rewrite (after_mem _ _ _ _ Ha2); [| apply data_users; lia | unfold within; lia].
    unfold w1. rewrite (ld_user_st w); [| exact Hg | apply data_users; lia | apply data_users; lia].
    destruct (decide (data + 1024 = data + e)); [discriminate | exact Hm].
Qed.

(** A byte of the buffer that the line before it did not change. *)
Lemma mark_stays w w1 a e :
  ld w (data + 1024) <> NEWLINE -> after w w1 a (eq (data + e)) -> ld w1 (data + e) = NUL ->
  ld w1 (data + 1024) <> NEWLINE.
Proof.
  intros Hm Ha He. destruct (decide (e = 1024)) as [-> | Hne]; [by rewrite He |].
  rewrite (after_mem _ _ _ _ Ha); [done | apply data_users; lia | lia].
Qed.

Lemma lines_run n : forall ls t r last cnt w,
  ready w -> 0 <= ls -> last = ls + Z.of_nat (length t) -> last <= 1024 ->
  bytes w (data + ls) (length t) = t -> Forall (fun c => 0 < c < 256) t ->
  ld w (data + 1024) <> NEWLINE -> (length t < n)%nat -> (last < 1024 -> r = []) -> (cnt = 0 -> r = []) ->
  short (t ++ r) ->
  exists w' out left, lines_loop lit_addr fuel n ls last cnt s (Z.of_nat (length p)) fname data w
      = Returns (Z.of_nat (length left)) w' /\ lines_done w w' out t r left /\ (cnt = 0 -> left = []).
Proof.
  induction n as [| n IH]; intros ls t r last cnt w Hr Hls -> Hlast Hb Hrange Hm Hn Hr1 Hr2 Hs; [lia |].
  cbn [lines_loop]. destruct (first_line t) as [Ha | (a & b & -> & Ha)].
  - set (e := ls + Z.of_nat (length t)) in *.
    unfold u_bind at 1. rewrite (find_end_run w ls t e) by (done || lia || by left). fold e.
    unfold u_gets, u_bind at 1.
    destruct (negb (NEWLINE =? ld w (data + e)) && negb (0 =? cnt) && negb (ls =? 0)) eqn:Hcond.
    + apply andb_true_iff in Hcond as [[_ Hc0]%andb_true_iff Hls0].
      apply negb_true_iff, Z.eqb_neq in Hls0, Hc0.
      destruct (line_moved w ls t r) as (w' & He' & Hd); try done; [lia |].
      exists w', [], t. split; [| split; [exact Hd | congruence]]. unfold u_modify, u_bind, u_ret. fold e in He'. rewrite He'.
      f_equal. lia.
    + destruct (line_done w ls t) as (w' & He' & Ha' & Hk' & Hn'); try done. fold e in He', Ha', Hn'.
      exists w', (grep_line f p t), []. split; [| split; [| done]].
      * unfold u_modify, u_bind. rewrite He'. by rewrite (proj2 (Z.leb_le e (e + 1))) by lia.
      * pose proof (lines_done_empty w w' t [] r e) as Hd. rewrite app_nil_r in Hd.
        apply Hd; try done; [lia | |].
        -- by apply (mark_stays w w' (grep_line f p t) e).
        -- right. split; [done |]. destruct (decide (e < 1024)); [by apply Hr1 |].
           assert (He1 : e = 1024) by lia.
           rewrite He1, (proj2 (Z.eqb_neq NEWLINE (ld w (data + 1024)))) in Hcond by done.
           cbn [negb andb] in Hcond. apply andb_false_iff in Hcond as [Hc | Hc];
             apply negb_false_iff, Z.eqb_eq in Hc; [by apply Hr2 |].
           pose proof (short_first t r Ha Hs). unfold e in He1. lia.
  - rewrite length_app in Hlast, Hn, Hb. cbn [length] in Hlast, Hn, Hb.
    rewrite bytes_app in Hb. apply app_inj_1 in Hb as [Hba Hb]; [| by rewrite length_bytes].
    cbn [bytes] in Hb. injection Hb as Hnl Hbb.
    apply Forall_app in Hrange as [Hra Hrb]. apply Forall_cons in Hrb as [_ Hrb].
    set (e := ls + Z.of_nat (length a)) in *.
    assert (He : data + ls + Z.of_nat (length a) = data + e) by (unfold e; lia). rewrite He in Hnl, Hbb.
    unfold u_bind at 1. rewrite (find_end_run w ls a); [| lia | done | done | rewrite length_app; cbn [length]; lia | by right].
    fold e. unfold u_gets, u_bind at 1. rewrite Hnl, Z.eqb_refl. cbn [negb andb].
    destruct (line_done w ls a) as (w' & He' & Ha' & Hk' & Hn'); try done; [lia |]. fold e in He', Ha', Hn'.
    pose proof (mark_stays w w' _ e Hm Ha' Hn') as Hm'.
    unfold u_modify, u_bind at 1. unfold u_bind at 1. rewrite He'.
    rewrite length_app. cbn [length].
    destruct (decide (b = [])) as [-> | Hb0].
    + exists w', (grep_line f p a), []. split; [| split; [| done]].
      * by rewrite (proj2 (Z.leb_le _ (e + 1))) by (unfold e; cbn [length]; lia).
      * apply (lines_done_empty w w' a [NEWLINE] r e); try done; [lia | by left].
    + assert (Hb1 : (0 < length b)%nat) by (destruct b; [done | cbn [length]; lia]).
      rewrite (proj2 (Z.leb_gt _ (e + 1))) by (unfold e; lia).
      destruct (IH (e + 1) b r (ls + Z.of_nat (length a + S (length b))) cnt w') as (w2 & out & left & He2 & Hd2 & Hl2);
        try done; try lia.
      * apply (ready_after w w' _ _ Hr Ha'). intros x <-. unfold T, within. lia.
      * rewrite <- Hbb at 2. replace (data + (e + 1)) with (data + e + 1) by lia.
        apply (bytes_kept w w' _ _ _ _ Ha'); [| lia]. replace (data + e + 1) with (data + (e + 1)) by lia.
        eapply users_sub; [exact data_users | lia | lia].
      * rewrite length_app in Hr1. cbn [length] in Hr1. intros Hlt. apply Hr1. lia.
      * rewrite <- app_assoc in Hs. by apply short_newline in Hs.
      * exists w2, (grep_line f p a ++ out), left. split; [exact He2 | split; [| exact Hl2]].
        by apply (lines_done_cons w w' w2 a b r out left e); [| | lia | |].
Qed.

(** ** The file *)

Lemma read_run fd n : forall l left w,
  ready w -> stream w fd l -> bytes w data (length left) = left -> (length left < 1024)%nat ->
  Forall (fun c => 0 < c < 256) left -> Forall (fun c => 0 < c < 256) l ->
  ld w (data + 1024) <> NEWLINE -> short (left ++ l) -> (length l < n)%nat ->
  exists w', read_loop lit_addr fuel n fd (Z.of_nat (length left)) s (Z.of_nat (length p)) fname data w
      = Returns 0 w' /\ after w w' (grep_text f p (left ++ l)) T.
Proof.
  induction n as [| n IH]; intros l left w Hr Hst Hb Hlen Hleft Hl Hm Hs Hn; [lia |].
  set (last := Z.of_nat (length left)). cbn [read_loop].
  destruct (law_read w fd l (data + last) (BUFSIZE - last)) as (w1 & He1 & Ha1 & Hb1 & Hs1);
    [apply Hr | exact Hst | unfold BUFSIZE; lia | apply data_users; lia | |].
  { eapply users_sub; [exact data_users | lia | unfold BUFSIZE; lia]. }
  unfold BUFSIZE in *. set (c := Z.min (1024 - last) (Z.of_nat (length l))) in *.
  assert (Hin : forall x, within (data + last) c x -> T x) by (unfold T, within; intros; lia).
  pose proof (ready_after w w1 _ _ Hr Ha1 Hin) as Hr1.
  set (t := take (Z.to_nat c) l) in *. set (r := drop (Z.to_nat c) l) in *.
  assert (Hlr : left ++ l = (left ++ t) ++ r) by (unfold t, r; by rewrite <- app_assoc, take_drop).
  assert (Hlt : length t = Z.to_nat c) by (unfold t; rewrite length_take; lia).
  assert (Hlr' : length r = (length l - Z.to_nat c)%nat) by (unfold r; by rewrite length_drop).
  destruct (lines_run fuel 0 (left ++ t) r (last + c) c w1) as (w2 & out & left' & He2 & Hd2 & Hl2);
    try done; try (rewrite ?length_app; lia).
  - rewrite Z.add_0_r, length_app, bytes_app, Hlt. fold last. rewrite Hb1. f_equal.
    transitivity (bytes w data (length left)); [| exact Hb].
    apply (bytes_kept w w1 _ _ _ _ Ha1); [eapply users_sub; [exact data_users | lia | lia] |].
    unfold within. intros i Hi. lia.
  - apply Forall_app. split; [done |]. by apply Forall_take.
  - rewrite (after_mem _ _ _ _ Ha1); [done | apply data_users; lia | unfold within; lia].
  - intros Hlast. apply nil_length_inv. lia.
  - intros Hc. apply nil_length_inv. lia.
  - by rewrite <- Hlr.
  - unfold u_bind at 1. rewrite He1, (proj2 (Z.eqb_neq (-1) c)) by lia.
    unfold u_bind at 1. rewrite He2. destruct Hd2 as [L1 L2 L3 L4 L5 L6 L7 L8].
    pose proof (after_trans w w1 w2 [] out _ _ T Ha1 L1 Hin (fun _ h => h)) as Ha2. cbn [app] in Ha2.
    rewrite Hlr, L8. destruct (Z.eqb_spec 0 c) as [Hc | Hc].
    + destruct (law_close w2 fd r) as (w3 & He3 & Ha3); [apply Ha2 | by apply L2 |].
      exists w3. split; [unfold u_bind; by rewrite He3 |].
      assert (Hr0 : r = []) by (apply nil_length_inv; lia). rewrite Hl2, Hr0 by done.
      change (grep_text f p ([] ++ [])) with (@nil Z).
      apply (after_trans w w2 w3 _ _ T nowhere T Ha2 Ha3); [done | apply nowhere_in].
    + destruct (IH r left' w2) as (w3 & He3 & Ha3); try done; [| | | lia |].
      * by apply (ready_after w w2 out T Hr Ha2).
      * by apply L2.
      * by apply Forall_drop.
      * exists w3. split; [exact He3 |]. by apply (after_trans w w2 w3 _ _ T T T Ha2 Ha3).
Qed.

Lemma do_one_file_greps w l :
  ready w -> named w f l -> ld w (data + 1024) <> NEWLINE -> Forall (fun c => 0 < c < 256) l -> short l ->
  (length l < fuel)%nat ->
  exists w', do_one_file lit_addr fuel s fname data w = Returns 0 w' /\ after w w' (grep_text f p l) T.
Proof.
  intros Hr Hn Hm Hl Hs Hf. destruct (rd_s w Hr) as (Hts & _ & _ & Hfs & _).
  destruct (rd_f w Hr) as (Htf & Huf & _).
  destruct (law_open w fname f l) as (fd & w1 & He1 & Hfd & Ha1 & Hst); try done; [apply Hr |].
  destruct (read_run fd fuel l [] w1) as (w2 & He2 & Ha2); try done; [| cbn [length]; lia | |].
  - by apply (ready_after w w1 [] nowhere Hr Ha1), nowhere_in.
  - rewrite (after_mem _ _ _ _ Ha1); [done | apply data_users; lia | intros []].
  - exists w2. split.
    + unfold do_one_file, u_bind, ece391_strlen, u_loop. rewrite (strlen_terminated fuel _ p) by done.
      rewrite He1, (proj2 (Z.eqb_neq (-1) fd)) by congruence. exact He2.
    + by apply (after_trans w w1 w2 [] _ nowhere T T Ha1 Ha2); [apply nowhere_in |].
Qed.
End verified.

(** ** On the kernel *)

Section kernel.
Variable junk : Z -> Z.
Variable table_addr : table -> Z.
Variable fuel : nat.
Variable lit_addr : string -> Z.
Let calls : SysCalls kernel := kernel_calls junk table_addr fuel.
Let view : SysView kernel := kernel_view fuel.
#[local] Existing Instances calls view.

(** C15: [do_one_file] of grep prints exactly the lines of the file in which
    the text occurs, in order, each behind the name of the file and a colon,
    and returns 0, for a text file of any length whose lines are shorter than
    the buffer: also for lines that a [read] cuts in two, which the program
    moves to the front of its buffer.  It changes no memory but the buffer.
    The byte behind the 1024 of the buffer, which the program reads before
    it sets it, must not be a newline, and the text must be ASCII, since its
    characters are compared as signed ones. *)
Theorem grep_on_kernel s fname data p f l k :
  (1025 < fuel)%nat -> (length l < fuel)%nat -> ready lit_addr fuel s fname data p f k ->
  (forall i, 0 <= i < 1025 -> user_page (data + i)) ->
  Forall (fun c => 0 < c < 128) p -> (length p <= 1024)%nat ->
  named_file fuel k f l -> Forall (fun c => 0 < c < 256) l -> short l -> ld (mem k) (data + 1024) <> NEWLINE ->
  exists k', do_one_file lit_addr fuel s fname data k = Returns 0 k' /\
    served k' /\ shown k' = foldl show_char (shown k) (grep_text f p l) /\
    (forall a, user_page a -> ~ within data 1025 a -> ld (mem k') a = ld (mem k) a).
Proof.
  intros Hf Hfl Hr Hu Hp Hpl Hn Hl Hs Hm.
  pose proof (kernel_spec junk table_addr fuel ltac:(lia)) as Hspec.
  destruct (do_one_file_greps lit_addr fuel s fname data p f Hf) with (w := k) (l := l)
    as (k' & He & Haf); try done; [cbn [limit view kernel_view]; lia |].
  exists k'. split; [exact He | exact (after_shown junk table_addr fuel _ _ _ _ Haf)].
Qed.
End kernel.

(** ** Witness *)

Definition grep_texts : list string := ["is"; "frame0.txt"; ":"; "
"].

Lemma grep_on_kernel_witness :
  let k := at_work [] [] (texts grep_texts) in
  let lit := text_addr grep_texts in
  exists k', @do_one_file kernel (kernel_calls no_junk no_addr work_fuel) lit work_fuel (lit "is")
      (lit "frame0.txt") work_buf k = Returns 0 k' /\
    shown k' = foldl show_char (shown k) (str_bytes "frame0.txt:fish!
").
Proof.
  intros k lit.
  destruct (grep_on_kernel no_junk no_addr work_fuel lit (lit "is") (lit "frame0.txt") work_buf
    (str_bytes "is") (str_bytes "frame0.txt") (str_bytes "fish!") k) as (k' & He & _ & Hd & _).
  - unfold work_fuel; lia.
  - unfold work_fuel. simpl length. lia.
  - split; [apply work_served | ..].
    + apply (texts_lit no_junk no_addr work_fuel lit 1025 [] [] grep_texts "is"); solve_lit.
    + apply (texts_lit no_junk no_addr work_fuel lit 1025 [] [] grep_texts "frame0.txt"); solve_lit.
    + apply (texts_lit no_junk no_addr work_fuel lit 1025 [] [] grep_texts ":"); solve_lit.
    + apply (texts_lit no_junk no_addr work_fuel lit 1025 [] [] grep_texts "
"); solve_lit.
  - apply work_users. lia.
  - repeat constructor.
  - simpl. lia.
  - apply work_named; unfold work_fuel; simpl length; lia.
  - repeat constructor.
  - repeat constructor; simpl; lia.
  - vm_compute. discriminate.
  - exists k'. split; [exact He | exact Hd].
Defined.
