(* ===== verification/Wrappers.v ===== *)
(** * The assembly wrappers

    syscall_wrapper.S, pit_wrapper.S, rtc_wrapper.S and
    keyboard_asm_wrapper.S: the routines that the gates reach, which save the
    registers on the stack, call the C handler and restore them.  They are
    lists of instructions for a machine of eight registers, three flags and
    the stack in memory; the theorems say what the interrupted code finds
    again, and that the dispatch is [syscall_wrapper] of Syscall.v. *)

From S2P Require Import Prelude Memory Lib Paging Devices State Sample Console Filesys Terminal.
From S2P Require Import Syscall.

(** ** The machine *)

Inductive reg := EAX | ECX | EDX | EBX | ESP | EBP | ESI | EDI.

#[export] Instance reg_eq_dec : EqDecision reg.
Proof. solve_decision. Defined.

(** The C functions that the wrappers call. *)
Inductive routine :=
| SystemHalt | SystemExecute | SystemRead | SystemWrite | SystemOpen | SystemClose | SystemGetargs
| SystemVidmap | PitHandler | RtcHandler | KeyboardHandler.

#[export] Instance routine_eq_dec : EqDecision routine.
Proof. solve_decision. Defined.

Inductive label :=
| Badcode | Halt | Execute | Read | Write | Open | Close | Getargs | Vidmap.

Inductive instr :=
| Push (r : reg) | Pop (r : reg)
| Pushal | Popal
| Cld | Sti
| AddEsp (n : Z)
| MovImm (n : Z) (r : reg)
| MovByte (src dst : reg)
| XorSelf (r : reg)
| Cmp (n : Z) (r : reg)
| Ja (l : label) | Jb (l : label)
| JmpTable (r : reg)
| Call (f : routine)
| Iret.

Section machine.
Context {M : Type} `{MemOps M}.

Record machine := Machine {
  regs : reg -> Z;
  dir_flag : bool;
  int_flag : bool;
  (** the operands of the last comparison *)
  compared : Z * Z;
  stack : M
}.

Definition set_reg (r : reg) (v : Z) (c : machine) : machine :=
  Machine (fun r' => if decide (r' = r) then v else regs c r') (dir_flag c) (int_flag c) (compared c) (stack c).
Definition set_dir (b : bool) (c : machine) : machine :=
  Machine (regs c) b (int_flag c) (compared c) (stack c).
Definition set_int (b : bool) (c : machine) : machine :=
  Machine (regs c) (dir_flag c) b (compared c) (stack c).
Definition set_compared (p : Z * Z) (c : machine) : machine :=
  Machine (regs c) (dir_flag c) (int_flag c) p (stack c).
Definition set_stack (m : M) (c : machine) : machine :=
  Machine (regs c) (dir_flag c) (int_flag c) (compared c) m.

Definition push (v : Z) (c : machine) : machine :=
  let esp := u32 (regs c ESP - 4) in
  set_stack (st32 (stack c) esp v) (set_reg ESP esp c).

(** [popl %esp] loads ESP after the increment. *)
Definition pop (r : reg) (c : machine) : machine :=
  let v := ld32 (stack c) (regs c ESP) in
  set_reg r v (set_reg ESP (u32 (regs c ESP + 4)) c).

(** The low byte of [dst] becomes the one of [src]. *)
Definition mov_byte (src dst : reg) (c : machine) : machine :=
  set_reg dst (regs c dst - u8 (regs c dst) + u8 (regs c src)) c.

(** PUSHA pushes the ESP that it found, POPA skips it. *)
Definition pushal (c : machine) : machine :=
  let esp := regs c ESP in
  push (regs c EDI) (push (regs c ESI) (push (regs c EBP) (push esp
    (push (regs c EBX) (push (regs c EDX) (push (regs c ECX) (push (regs c EAX) c))))))).

Definition popal (c : machine) : machine :=
  let c := pop EBP (pop ESI (pop EDI c)) in
  let c := set_reg ESP (u32 (regs c ESP + 4)) c in
  pop EAX (pop ECX (pop EDX (pop EBX c))).

(** How a wrapper ends: at its IRET, at a jump to an address that is no
    label, or in a routine that does not come back. *)
Inductive ended :=
| Returned (c : machine)
| Wild (c : machine)
| Gone (f : routine) (c : machine).

(** ** The code *)

Definition push_regs : list instr :=
  [Push EAX; Push ECX; Push EDX; Push EBX; Push ESP; Push EBP; Push ESI; Push EDI].

(** EAX is not popped: it is the value of the call. *)
Definition pop_regs : list instr :=
  [Pop EDI; Pop ESI; Pop EBP; Pop ESP; Pop EBX; Pop EDX; Pop ECX; AddEsp 4].

Definition syscall_code : list instr :=
  push_regs ++
  [Cld;
   Cmp 10 EAX; Ja Badcode;
   Cmp 1 EAX; Jb Badcode;
   Push EDX; Push ECX; Push EBX;
   Sti;
   JmpTable EAX].

Definition syscall_table : list label :=
  [Badcode; Halt; Execute; Read; Write; Open; Close; Getargs; Vidmap].

Definition call_code (f : routine) : list instr := [Call f; AddEsp 12] ++ pop_regs ++ [Iret].

Definition code_at (l : label) : list instr :=
  match l with
  | Badcode => pop_regs ++ [MovImm 4294967295 EAX; Iret]
  | Halt => [MovByte EBX ECX; XorSelf EBX; MovByte ECX EBX] ++ call_code SystemHalt
  | Execute => call_code SystemExecute
  | Read => call_code SystemRead
  | Write => call_code SystemWrite
  | Open => call_code SystemOpen
  | Close => call_code SystemClose
  | Getargs => call_code SystemGetargs
  | Vidmap => call_code SystemVidmap
  end.

Definition rtc_code : list instr := [Pushal; Cld; Call RtcHandler; Popal; Iret].
Definition keyboard_code : list instr := [Pushal; Cld; Call KeyboardHandler; Popal; Iret].

(** No [cld], and EBP and ESP are left to [scheduler_handler]. *)
Definition pit_code : list instr :=
  [Push EAX; Push ECX; Push EDX; Push EBX; Push ESI; Push EDI; Call PitHandler;
   Pop EDI; Pop ESI; Pop EBX; Pop EDX; Pop ECX; Pop EAX; Iret].

(** ** Execution *)

(** What a C routine makes of the machine; [None]: it does not return. *)
Variable call : routine -> machine -> option machine.

Definition step (i : instr) (c : machine) : machine :=
  match i with
  | Push r => push (regs c r) c
  | Pop r => pop r c
  | Pushal => pushal c
  | Popal => popal c
  | Cld => set_dir false c
  | Sti => set_int true c
  | AddEsp n => set_reg ESP (u32 (regs c ESP + n)) c
  | MovImm n r => set_reg r n c
  | MovByte src dst => mov_byte src dst c
  | XorSelf r => set_reg r 0 c
  | Cmp n r => set_compared (regs c r, n) c
  | _ => c
  end.

(** [fuel] bounds the jumps from one block to another. *)
Fixpoint exec (fuel : nat) : list instr -> machine -> ended :=
  fix run (l : list instr) (c : machine) : ended :=
    let jump (l : label) (c : machine) :=
      match fuel with
      | O => Wild c
      | S fuel' => exec fuel' (code_at l) c
      end in
    match l with
    | [] => Wild c
    | Iret :: _ => Returned c
    | Call f :: l' => match call f c with Some c' => run l' c' | None => Gone f c end
    | Ja b :: l' => if (compared c).2 <? (compared c).1 then jump b c else run l' c
    | Jb b :: l' => if (compared c).1 <? (compared c).2 then jump b c else run l' c
    | JmpTable r :: _ =>
        match syscall_table !! Z.to_nat (regs c r) with
        | Some b => jump b c
        | None => Wild c
        end
    | i :: l' => run l' (step i c)
    end.

(** No path of the code makes more than one jump. *)
Definition run_wrapper : list instr -> machine -> ended := exec 2.
End machine.

Arguments machine M : clear implicits.
Arguments ended M : clear implicits.

(** ** Words of the stack *)

Section words.
Context {M : Type} `{MemLaws M}.
Implicit Types m : M.

(** The words [l] are in memory from [a]. *)
Fixpoint words m (a : Z) (l : list Z) : Prop :=
  match l with
  | [] => True
  | v :: l' => ld32 m a = v /\ words m (a + 4) l'
  end.

Lemma words_app m a l1 l2 : words m a (l1 ++ l2) <-> words m a l1 /\ words m (a + 4 * Z.of_nat (length l1)) l2.
Proof.
  revert a. induction l1 as [| v l1 IH]; intros a; cbn [app words length].
  - rewrite Z.add_0_r. tauto.
  - rewrite IH. replace (a + 4 + 4 * Z.of_nat (length l1)) with (a + 4 * Z.of_nat (S (length l1))) by lia.
    tauto.
Qed.

Lemma words_below m a b v l : forall n,
  region m a n -> a + 4 <= b -> b + 4 * Z.of_nat (length l) <= a + Z.of_nat n ->
  words m b l -> words (st32 m a v) b l.
Proof.
  revert b. induction l as [| x l IH]; intros b n Hr Hb Hn; [done |]. cbn [words length] in *.
  intros [Hx Hl]. split; [| by apply (IH (b + 4) n); [| lia | lia |]].
  rewrite ld32_st32_ne; [done | | by left]. eapply region_sub; [exact Hr | lia | lia].
Qed.

(** Memory that a routine left alone. *)
Lemma words_same m m' a n l :
  (forall i, 0 <= i < n -> ld m' (a + i) = ld m (a + i)) -> 4 * Z.of_nat (length l) <= n ->
  words m a l -> words m' a l.
Proof.
  revert a n. induction l as [| v l IH]; intros a n He Hn; [done |]. cbn [words length] in *.
  intros [Hv Hl]. split.
  - rewrite <- Hv. unfold ld32. rewrite <- (Z.add_0_r a) at 1 5. by rewrite !He by lia.
  - apply (IH (a + 4) (n - 4)); [| lia | done]. intros i Hi.
    replace (a + 4 + i) with (a + (4 + i)) by lia. apply He. lia.
Qed.
End words.

(** ** Saving and restoring *)

Section frames.
Context {M : Type} `{MemLaws M}.
Variable call : routine -> machine M -> option (machine M).
Implicit Types c : machine M.

(** Instructions that only step. *)
Definition plain (i : instr) : bool :=
  match i with Ja _ | Jb _ | JmpTable _ | Call _ | Iret => false | _ => true end.

Definition steps (ins : list instr) (c : machine M) : machine M := foldl (fun c i => step i c) c ins.

Lemma exec_plain fuel ins l c :
  forallb plain ins = true -> exec call fuel (ins ++ l) c = exec call fuel l (steps ins c).
Proof.
  unfold steps. revert c. induction ins as [| i ins IH]; intros c Hp; [done |]. cbn [forallb app foldl] in *.
  apply andb_true_iff in Hp as [Hi Hp]. rewrite <- IH by done. destruct fuel, i; done.
Qed.

Lemma exec_ja fuel b l c :
  exec call (S fuel) (Ja b :: l) c
  = if (compared c).2 <? (compared c).1 then exec call fuel (code_at b) c else exec call (S fuel) l c.
Proof. reflexivity. Qed.

Lemma exec_jb fuel b l c :
  exec call (S fuel) (Jb b :: l) c
  = if (compared c).1 <? (compared c).2 then exec call fuel (code_at b) c else exec call (S fuel) l c.
Proof. reflexivity. Qed.

Lemma exec_table fuel r l c :
  exec call (S fuel) (JmpTable r :: l) c
  = match syscall_table !! Z.to_nat (regs c r) with
    | Some b => exec call fuel (code_at b) c
    | None => Wild c
    end.
Proof. reflexivity. Qed.

Lemma exec_call fuel f l c :
  exec call fuel (Call f :: l) c
  = match call f c with Some c' => exec call fuel l c' | None => Gone f c end.
Proof. by destruct fuel. Qed.

Lemma exec_iret fuel l c : exec call fuel (Iret :: l) c = Returned c.
Proof. by destruct fuel. Qed.

Definition word (v : Z) : Prop := 0 <= v < 4294967296.

(** The stack from ESP holds [l], and has room down to [base]. *)
Record holds (base : Z) (n : nat) (c : machine M) (l : list Z) : Prop := Holds {
  h_region : region (stack c) base n;
  h_words : words (stack c) (regs c ESP) l;
  h_end : regs c ESP + 4 * Z.of_nat (length l) = base + Z.of_nat n;
  h_range : 0 <= base /\ base + Z.of_nat n <= 4294967296
}.

Lemma holds_push base n c l v :
  holds base n c l -> base + 4 <= regs c ESP -> word v ->
  holds base n (push v c) (v :: l) /\ regs (push v c) ESP = regs c ESP - 4 /\
  (forall r, r <> ESP -> regs (push v c) r = regs c r).
Proof.
  intros [Hr Hw He Hb] Hroom Hv.
  assert (Hesp : u32 (regs c ESP - 4) = regs c ESP - 4) by (apply u32_small; lia).
  split; [| split].
  - unfold push. rewrite Hesp. split; cbn [stack regs set_stack set_reg]; rewrite ?decide_True by done.
    + by apply region_st32.
    + cbn [words]. replace (regs c ESP - 4 + 4) with (regs c ESP) by lia. split.
      * apply ld32_st32; [| exact Hv]. eapply region_sub; [exact Hr | lia | lia].
      * eapply (words_below _ _ _ _ _ (Z.to_nat (base + Z.of_nat n - (regs c ESP - 4)))); [| lia | lia | exact Hw].
        eapply region_sub; [exact Hr | lia | lia].
    + cbn [length]. lia.
    + done.
  - unfold push. cbn [regs set_stack set_reg]. by rewrite decide_True, Hesp.
  - intros r Hne. unfold push. cbn [regs set_stack set_reg]. by rewrite decide_False.
Qed.

Lemma pop_word c v l r :
  words (stack c) (regs c ESP) (v :: l) -> word (regs c ESP + 4) -> r <> ESP ->
  regs (pop r c) r = v /\ regs (pop r c) ESP = regs c ESP + 4 /\
  words (stack (pop r c)) (regs (pop r c) ESP) l /\
  (forall r', r' <> r -> r' <> ESP -> regs (pop r c) r' = regs c r').
Proof.
  intros [Hv Hl] He Hne. unfold pop. cbn [regs stack set_reg]. rewrite Hv, (u32_small (regs c ESP + 4)) by exact He.
  rewrite decide_True, (decide_False (P := ESP = r)), decide_True by done. split_and!; try done.
  intros r' Hr He'. by rewrite !decide_False.
Qed.

(** The registers other than ESP and the flags stay. *)
Record same_rest (c c' : machine M) : Prop := SameRest {
  sr_regs : forall r, r <> ESP -> regs c' r = regs c r;
  sr_dir : dir_flag c' = dir_flag c;
  sr_int : int_flag c' = int_flag c
}.

Lemma same_rest_refl c : same_rest c c. Proof. by split. Qed.

Lemma same_rest_trans c1 c2 c3 : same_rest c1 c2 -> same_rest c2 c3 -> same_rest c1 c3.
Proof. intros [R1 D1 I1] [R2 D2 I2]. split; [| congruence..]. intros r Hr. by rewrite R2, R1. Qed.

(** Registers pushed one after the other. *)
Lemma holds_pushes base n rs : forall c l,
  holds base n c l -> base + 4 * Z.of_nat (length rs) <= regs c ESP -> Forall (fun r => r <> ESP) rs ->
  (forall r, word (regs c r)) ->
  let c' := steps (Push <$> rs) c in
  holds base n c' (reverse (regs c <$> rs) ++ l) /\ regs c' ESP = regs c ESP - 4 * Z.of_nat (length rs) /\
  same_rest c c'.
Proof.
  induction rs as [| r rs IH]; intros c l Hh Hroom Hrs Hw.
  - split; [done |]. split; [cbn [length steps foldl fmap list_fmap]; lia | apply same_rest_refl].
  - apply Forall_cons in Hrs as [Hr Hrs]. cbn [length] in Hroom.
    destruct (holds_push base n c l (regs c r) Hh) as (Hh1 & He1 & Hs1); [lia | apply Hw |].
    set (c1 := push (regs c r) c) in *.
    assert (Hw1 : forall r, word (regs c1 r)).
    { intros r'. destruct (decide (r' = ESP)) as [-> | Hne]; [| rewrite Hs1 by done; apply Hw].
      rewrite He1. pose proof (Hw ESP) as Hwe. destruct Hh1 as [_ _ Hend [Hb1 Hb2]]. unfold word in *. lia. }
    destruct (IH c1 (regs c r :: l) Hh1) as (Hh2 & He2 & Hs2); [lia | done | exact Hw1 |].
    change (steps (Push <$> r :: rs) c) with (steps (Push <$> rs) c1).
    split; [| split].
    + rewrite fmap_cons, reverse_cons, <- app_assoc. cbn [app].
      replace (regs c <$> rs) with (regs c1 <$> rs); [exact Hh2 |].
      apply list_fmap_ext. intros i r' Hi. apply Hs1.
      by eapply (Forall_lookup_1 _ _ _ _ Hrs).
    + rewrite He2, He1. cbn [length]. lia.
    + apply (same_rest_trans c c1); [by split | exact Hs2].
Qed.

(** Registers popped one after the other. *)
Lemma pops_words rs : forall c vs l,
  words (stack c) (regs c ESP) (vs ++ l) -> length vs = length rs -> NoDup rs -> ESP ∉ rs ->
  0 <= regs c ESP -> regs c ESP + 4 * Z.of_nat (length rs) < 4294967296 ->
  let c' := steps (Pop <$> rs) c in
  (forall i r, rs !! i = Some r -> vs !! i = Some (regs c' r)) /\
  regs c' ESP = regs c ESP + 4 * Z.of_nat (length rs) /\ words (stack c') (regs c' ESP) l /\
  (forall r, r ∉ rs -> r <> ESP -> regs c' r = regs c r) /\
  stack c' = stack c /\ dir_flag c' = dir_flag c /\ int_flag c' = int_flag c.
Proof.
  induction rs as [| r rs IH]; intros c vs l Hw Hl Hnd Hesp Hlo Hb.
  - destruct vs; [| done]. cbn [steps foldl fmap list_fmap length]. rewrite Z.add_0_r. by split_and!.
  - destruct vs as [| v vs]; [done |]. injection Hl as Hl.
    apply NoDup_cons in Hnd as [Hr Hnd]. apply not_elem_of_cons in Hesp as [Hne Hesp].
    cbn [length] in Hb.
    destruct (pop_word c v (vs ++ l) r) as (Hv & He & Hw1 & Hs); [exact Hw | unfold word; lia | done |].
    set (c1 := pop r c) in *.
    destruct (IH c1 vs l Hw1 Hl Hnd Hesp) as (Hvs & He2 & Hw2 & Hs2 & Hst & Hd & Hi); [lia | lia |].
    change (steps (Pop <$> r :: rs) c) with (steps (Pop <$> rs) c1).
    split; [| split; [| split; [done | split; [| by split_and!]]]].
    + intros [| i] r' Hi'; [| by apply Hvs]. injection Hi' as <-. cbn [lookup list_lookup].
      by rewrite Hs2, Hv.
    + rewrite He2, He. cbn [length]. lia.
    + intros r' Hr' He'. apply not_elem_of_cons in Hr' as [Hr1 Hr2]. rewrite Hs2 by done. by apply Hs.
Qed.

(** What [push_regs] leaves on the stack. *)
Definition saved (c : machine M) : list Z :=
  [regs c EDI; regs c ESI; regs c EBP; regs c ESP - 16; regs c EBX; regs c EDX; regs c ECX; regs c EAX].

Lemma steps_app l1 l2 c : steps (l1 ++ l2) c = steps l2 (steps l1 c).
Proof. apply foldl_app. Qed.

Lemma saved_holds base n c l :
  holds base n c l -> base + 32 <= regs c ESP -> (forall r, word (regs c r)) ->
  let c' := steps push_regs c in
  holds base n c' (saved c ++ l) /\ regs c' ESP = regs c ESP - 32 /\ same_rest c c'.
Proof.
  intros Hh Hroom Hw.
  destruct (holds_pushes base n [EAX; ECX; EDX; EBX] c l Hh) as (Hh1 & He1 & Hs1);
    [cbn [length]; lia | by repeat constructor | exact Hw |].
  set (c1 := steps (Push <$> [EAX; ECX; EDX; EBX]) c) in *. cbn [length] in He1.
  assert (Hword : forall c', same_rest c c' -> word (regs c' ESP) -> forall r, word (regs c' r)).
  { intros c' [Hs _ _] He r. destruct (decide (r = ESP)) as [-> |]; [done | rewrite Hs by done; apply Hw]. }
  pose proof (Hw ESP) as Hwe. unfold word in Hwe. destruct (h_range _ _ _ _ Hh) as [Hb1 Hb2].
  destruct (holds_push base n c1 _ (regs c1 ESP) Hh1) as (Hh2 & He2 & Hs2); [lia | unfold word; lia |].
  set (c2 := push (regs c1 ESP) c1) in *.
  assert (Hs12 : same_rest c c2) by (apply (same_rest_trans c c1); [exact Hs1 | by split]).
  destruct (holds_pushes base n [EBP; ESI; EDI] c2 _ Hh2) as (Hh3 & He3 & Hs3);
    [cbn [length]; lia | by repeat constructor | apply Hword; [done | unfold word; lia] |].
  change (steps push_regs c) with (steps (Push <$> [EBP; ESI; EDI]) c2).
  set (c3 := steps (Push <$> [EBP; ESI; EDI]) c2) in *. cbn [length] in He3.
  split; [| split; [lia | by apply (same_rest_trans c c2)]].
  cbn [fmap list_fmap reverse rev_append app] in Hh3. rewrite !(sr_regs _ _ Hs12), He1 in Hh3 by done. exact Hh3.
Qed.

(** [pop_regs] undoes [push_regs], apart from EAX. *)
Lemma restored c0 c l :
  words (stack c) (regs c ESP) (saved c0 ++ l) -> regs c ESP = regs c0 ESP - 32 ->
  0 <= regs c ESP -> regs c0 ESP < 4294967296 ->
  let c' := steps pop_regs c in
  (forall r, r <> EAX -> regs c' r = regs c0 r) /\ regs c' EAX = regs c EAX /\
  words (stack c') (regs c' ESP) l /\ dir_flag c' = dir_flag c /\ int_flag c' = int_flag c.
Proof.
  intros Hw He Hlo Hhi.
  destruct (pops_words [EDI; ESI; EBP] c [regs c0 EDI; regs c0 ESI; regs c0 EBP]
    ([regs c0 ESP - 16; regs c0 EBX; regs c0 EDX; regs c0 ECX; regs c0 EAX] ++ l))
    as (Hv1 & He1 & Hw1 & Hs1 & _ & Hd1 & Hi1); try done;
    [by apply (bool_decide_unpack _) | by apply (bool_decide_unpack _) | cbn [length]; lia |].
  set (c1 := steps (Pop <$> [EDI; ESI; EBP]) c) in *. cbn [length] in He1.
  destruct Hw1 as [Hv Hw1]. set (c2 := pop ESP c1).
  assert (Hc2 : regs c2 ESP = regs c1 ESP + 4 /\ stack c2 = stack c1 /\
    (forall r, r <> ESP -> regs c2 r = regs c1 r)).
  { unfold c2, pop. cbn [regs stack set_reg]. rewrite Hv, decide_True by done.
    split; [lia | split; [done |]]. intros r Hr. by rewrite !decide_False. }
  destruct Hc2 as (He2 & Hst2 & Hs2).
  destruct (pops_words [EBX; EDX; ECX] c2 [regs c0 EBX; regs c0 EDX; regs c0 ECX] ([regs c0 EAX] ++ l))
    as (Hv3 & He3 & Hw3 & Hs3 & _ & Hd3 & Hi3);
    [by rewrite Hst2, He2 | done | by apply (bool_decide_unpack _) | by apply (bool_decide_unpack _) | lia | cbn [length]; lia |].
  change (steps pop_regs c) with (step (AddEsp 4) (steps (Pop <$> [EBX; EDX; ECX]) c2)).
  set (c3 := steps (Pop <$> [EBX; EDX; ECX]) c2) in *. cbn [length] in He3. destruct Hw3 as [_ Hw3].
  cbn [step regs set_reg stack dir_flag int_flag]. rewrite (decide_True (P := ESP = ESP)), (u32_small (regs c3 ESP + 4)) by (done || lia).
  split; [| split; [| split; [exact Hw3 | by rewrite Hd3, Hi3, <- Hd1, <- Hi1]]].
  - intros r Hr. destruct (decide (r = ESP)) as [-> | Hne]; [lia |].
    destruct r; try done.
    + specialize (Hv3 2%nat ECX eq_refl). by injection Hv3.
    + specialize (Hv3 1%nat EDX eq_refl). by injection Hv3.
    + specialize (Hv3 0%nat EBX eq_refl). by injection Hv3.
    + rewrite Hs3, Hs2 by (done || by apply (bool_decide_unpack _)).
      specialize (Hv1 2%nat EBP eq_refl). by injection Hv1.
    + rewrite Hs3, Hs2 by (done || by apply (bool_decide_unpack _)).
      specialize (Hv1 1%nat ESI eq_refl). by injection Hv1.
    + rewrite Hs3, Hs2 by (done || by apply (bool_decide_unpack _)).
      specialize (Hv1 0%nat EDI eq_refl). by injection Hv1.
  - rewrite decide_False by done. by rewrite Hs3, Hs2, Hs1 by (done || by apply (bool_decide_unpack _)).
Qed.

(** ** The dispatch *)

(** The stack, the registers and the room that a wrapper finds: [frame] is
    what the processor pushed. *)
Definition interrupted (base : Z) (n : nat) (c : machine M) (frame : list Z) : Prop :=
  holds base n c frame /\ base + 44 <= regs c ESP < 4294967296 /\ forall r, word (regs c r).

Definition arguments (c : machine M) : list Z := [regs c EBX; regs c ECX; regs c EDX].

Lemma pushed_arguments base n c c1 l :
  holds base n c1 l -> base + 12 <= regs c1 ESP -> (forall r, r <> ESP -> regs c1 r = regs c r) ->
  (forall r, word (regs c r)) ->
  regs c1 ESP < 4294967296 ->
  let c2 := steps [Push EDX; Push ECX; Push EBX; Sti] c1 in
  holds base n c2 (arguments c ++ l) /\ int_flag c2 = true /\ dir_flag c2 = dir_flag c1 /\
  (forall r, r <> ESP -> regs c2 r = regs c r).
Proof.
  intros Hh Hroom Hs Hw Hlt. destruct (h_range _ _ _ _ Hh) as [Hb1 Hb2].
  destruct (holds_pushes base n [EDX; ECX; EBX] c1 l Hh) as (Hh2 & He2 & [Hs2 Hd2 _]);
    [cbn [length]; lia | by repeat constructor | |].
  { intros r. destruct (decide (r = ESP)) as [-> |]; [unfold word; lia | rewrite Hs by done; apply Hw]. }
  change (steps [Push EDX; Push ECX; Push EBX; Sti] c1)
    with (set_int true (steps (Push <$> [EDX; ECX; EBX]) c1)).
  set (c2 := steps (Push <$> [EDX; ECX; EBX]) c1) in *.
  cbn [fmap list_fmap reverse rev_append app] in Hh2. rewrite !Hs in Hh2 by done.
  destruct Hh2 as [H2 H3 H4 H5]. split; [by split | split; [done | split; [exact Hd2 |]]].
  intros r Hr. cbn [regs set_int]. by rewrite Hs2, Hs.
Qed.

Definition checked (c : machine M) : machine M := steps [Cld; Cmp 10 EAX] c.
Definition checked_twice (c : machine M) : machine M := steps [Cmp 1 EAX] (checked c).
Definition with_arguments (c : machine M) : machine M := steps [Push EDX; Push ECX; Push EBX; Sti] (checked_twice c).

Lemma checked_keeps c :
  (forall r, regs (checked c) r = regs c r) /\ (forall r, regs (checked_twice c) r = regs c r) /\
  dir_flag (checked c) = false /\ dir_flag (checked_twice c) = false /\
  int_flag (checked c) = int_flag c /\ int_flag (checked_twice c) = int_flag c /\
  stack (checked c) = stack c /\ stack (checked_twice c) = stack c /\
  compared (checked c) = (regs c EAX, 10) /\ compared (checked_twice c) = (regs c EAX, 1).
Proof. by split_and!. Qed.

Lemma syscall_code_run c :
  let c1 := steps push_regs c in
  run_wrapper call syscall_code c
  = if 10 <? regs c1 EAX then exec call 1 (code_at Badcode) (checked c1)
    else if regs c1 EAX <? 1 then exec call 1 (code_at Badcode) (checked_twice c1)
    else match syscall_table !! Z.to_nat (regs (with_arguments c1) EAX) with
         | Some b => exec call 1 (code_at b) (with_arguments c1)
         | None => Wild (with_arguments c1)
         end.
Proof.
  intros c1. destruct (checked_keeps c1) as (_ & _ & _ & _ & _ & _ & _ & _ & E2 & E3).
  unfold run_wrapper.
  assert (Hcode : syscall_code = push_regs ++ [Cld; Cmp 10 EAX] ++ Ja Badcode :: [Cmp 1 EAX] ++ Jb Badcode ::
    [Push EDX; Push ECX; Push EBX; Sti] ++ [JmpTable EAX]) by reflexivity.
  rewrite Hcode, (exec_plain 2 push_regs) by done. fold c1. clearbody c1.
  rewrite (exec_plain 2 [Cld; Cmp 10 EAX]) by done. fold (checked c1). rewrite exec_ja, E2. cbn [fst snd].
  rewrite (exec_plain 2 [Cmp 1 EAX]) by done. fold (checked_twice c1). rewrite exec_jb, E3. cbn [fst snd].
  rewrite (exec_plain 2 [Push EDX; Push ECX; Push EBX; Sti]), exec_table by done. reflexivity.
Qed.

Lemma holds_same base n c c' l :
  stack c' = stack c -> regs c' ESP = regs c ESP -> holds base n c l -> holds base n c' l.
Proof. intros Hs He [H2 H3 H4 H5]. split; rewrite ?Hs, ?He; done. Qed.

Lemma dispatch base n c frame :
  interrupted base n c frame ->
  exists c1, dir_flag c1 = false /\ (forall r, r <> ESP -> regs c1 r = regs c r) /\
    if (10 <? regs c EAX) || (regs c EAX <? 1) then
      run_wrapper call syscall_code c = exec call 1 (code_at Badcode) c1 /\
      int_flag c1 = int_flag c /\ holds base n c1 (saved c ++ frame)
    else
      run_wrapper call syscall_code c
      = match syscall_table !! Z.to_nat (regs c EAX) with
        | Some b => exec call 1 (code_at b) c1
        | None => Wild c1
        end /\
      int_flag c1 = true /\ holds base n c1 (arguments c ++ saved c ++ frame).
Proof.
  intros (Hh & Hroom & Hw). pose proof (syscall_code_run c) as Hrun. cbv zeta in Hrun.
  destruct (saved_holds base n c frame Hh) as (Hh1 & He1 & [Hs1 _ Hi1]); [lia | exact Hw |].
  set (c1 := steps push_regs c) in *. clearbody c1.
  destruct (checked_keeps c1) as (K1 & K2 & K3 & K4 & K5 & K6 & K7 & K8 & _ & _).
  rewrite Hrun, (Hs1 EAX) by done.
  destruct (10 <? regs c EAX); [| destruct (regs c EAX <? 1)]; cbn [orb].
  - exists (checked c1). rewrite K3, K5. split; [exact eq_refl |]. split; [intros r Hr; by rewrite K1, Hs1 |].
    split; [exact eq_refl |]. split; [exact Hi1 |]. exact (holds_same base n c1 _ _ K7 (K1 ESP) Hh1).
  - exists (checked_twice c1). rewrite K4, K6. split; [exact eq_refl |].
    split; [intros r Hr; by rewrite K2, Hs1 |].
    split; [exact eq_refl |]. split; [exact Hi1 |]. exact (holds_same base n c1 _ _ K8 (K2 ESP) Hh1).
  - pose proof (holds_same base n c1 _ _ K8 (K2 ESP) Hh1) as Hh2.
    destruct (pushed_arguments base n c (checked_twice c1) (saved c ++ frame) Hh2) as (Hh4 & Hi4 & Hd4 & Hs4);
      [rewrite K2; lia | intros r Hr; by rewrite K2, Hs1 | exact Hw | rewrite K2; lia |].
    fold (with_arguments c1) in Hh4, Hi4, Hd4, Hs4. exists (with_arguments c1).
    rewrite (Hs4 EAX) by discriminate.
    split; [exact (eq_trans Hd4 K4) |]. split; [exact Hs4 |]. split; [exact eq_refl |].
    split; [exact Hi4 | exact Hh4].
Qed.

(** ** The way back *)

(** What the C calling convention promises of a routine that returns, as far
    as the wrappers rely on it: ESP is back, and the [size] bytes of the stack
    above the [args] bytes of its arguments are as they were. *)
Definition returns (args size : Z) (c1 c2 : machine M) : Prop :=
  regs c2 ESP = regs c1 ESP /\
  forall i, 0 <= i < size -> ld (stack c2) (regs c1 ESP + args + i) = ld (stack c1) (regs c1 ESP + args + i).

(** What the interrupted code finds again. *)
Definition resumed (c c' : machine M) (frame : list Z) : Prop :=
  (forall r, r <> EAX -> regs c' r = regs c r) /\ words (stack c') (regs c' ESP) frame.

Lemma badcode_run c c1 frame :
  words (stack c1) (regs c1 ESP) (saved c ++ frame) -> regs c1 ESP = regs c ESP - 32 ->
  0 <= regs c1 ESP -> regs c ESP < 4294967296 ->
  exists c', exec call 1 (code_at Badcode) c1 = Returned c' /\ resumed c c' frame /\
    regs c' EAX = u32 (-1) /\ int_flag c' = int_flag c1.
Proof.
  intros Hw He Hlo Hhi. destruct (restored c c1 frame Hw He Hlo Hhi) as (Hr & _ & Hw' & _ & Hi).
  set (c2 := steps pop_regs c1) in *.
  exists (set_reg EAX 4294967295 c2). split; [| split; [split |]].
  - change (code_at Badcode) with (pop_regs ++ [MovImm 4294967295 EAX] ++ [Iret]).
    rewrite (exec_plain 1 pop_regs), (exec_plain 1 [MovImm 4294967295 EAX]), exec_iret by done. exact eq_refl.
  - intros r Hne. cbn [regs set_reg]. rewrite decide_False by done. by apply Hr.
  - exact Hw'.
  - split; [exact eq_refl | exact Hi].
Qed.

(** A call and the way back from it. *)
Lemma call_run f c c1 c2 frame :
  words (stack c1) (regs c1 ESP) (arguments c ++ saved c ++ frame) -> regs c1 ESP = regs c ESP - 44 ->
  0 <= regs c1 ESP -> regs c ESP < 4294967296 ->
  call f c1 = Some c2 -> returns 12 (32 + 4 * Z.of_nat (length frame)) c1 c2 ->
  exists c', exec call 1 (call_code f) c1 = Returned c' /\ resumed c c' frame /\ regs c' EAX = regs c2 EAX.
Proof.
  intros Hw He Hlo Hhi Hc [He2 Hst]. apply words_app in Hw as [_ Hw].
  change (4 * Z.of_nat (length (arguments c))) with 12 in Hw.
  set (c3 := step (AddEsp 12) c2).
  assert (He3 : regs c3 ESP = regs c1 ESP + 12).
  { unfold c3. cbn [step regs set_reg]. rewrite decide_True, He2 by done. apply u32_small. lia. }
  assert (Hw3 : words (stack c3) (regs c3 ESP) (saved c ++ frame)).
  { rewrite He3. eapply words_same; [exact Hst | | exact Hw]. rewrite length_app. change (length (saved c)) with 8%nat. lia. }
  destruct (restored c c3 frame Hw3) as (Hr & Ha & Hw' & _ & _); [lia | lia | lia |].
  set (c4 := steps pop_regs c3) in *. exists c4. split; [| split; [by split |]].
  - change (call_code f) with (Call f :: [AddEsp 12] ++ pop_regs ++ [Iret]).
    rewrite exec_call, Hc, (exec_plain 1 [AddEsp 12]), (exec_plain 1 pop_regs), exec_iret by done. exact eq_refl.
  - rewrite Ha. unfold c3. cbn [step regs set_reg]. by rewrite decide_False.
Qed.

(** The routine of each number. *)
Definition routine_of (eax : Z) : option routine :=
  match eax with
  | 1 => Some SystemHalt | 2 => Some SystemExecute | 3 => Some SystemRead | 4 => Some SystemWrite
  | 5 => Some SystemOpen | 6 => Some SystemClose | 7 => Some SystemGetargs | 8 => Some SystemVidmap
  | _ => None
  end.

Lemma routine_of_none eax : routine_of eax = None -> eax < 1 \/ 8 < eax.
Proof.
  intros Hf. destruct (decide (1 <= eax <= 8)) as [Hr |]; [exfalso | lia].
  assert (Hc : eax = 1 \/ eax = 2 \/ eax = 3 \/ eax = 4 \/ eax = 5 \/ eax = 6 \/ eax = 7 \/ eax = 8) by lia.
  by destruct Hc as [-> | [-> | [-> | [-> | [-> | [-> | [-> | ->]]]]]]].
Qed.

Definition block_of (eax : Z) (f : routine) : list instr :=
  (if eax =? 1 then [MovByte EBX ECX; XorSelf EBX; MovByte ECX EBX] else []) ++ call_code f.

Lemma table_block eax f :
  routine_of eax = Some f -> exists b, syscall_table !! Z.to_nat eax = Some b /\ code_at b = block_of eax f /\
    ((10 <? eax) || (eax <? 1)) = false.
Proof.
  intros Hf.
  destruct (decide (0 < eax <= 8)) as [Hin | Hout].
  - assert (Hc : eax = 1 \/ eax = 2 \/ eax = 3 \/ eax = 4 \/ eax = 5 \/ eax = 6 \/ eax = 7 \/ eax = 8) by lia.
    destruct Hc as [-> | [-> | [-> | [-> | [-> | [-> | [-> | ->]]]]]]]; injection Hf as <-;
      by eexists.
  - exfalso. destruct eax as [| p |]; [done | | done]. clear -Hf Hout.
    destruct p as [p | p |]; [| | lia]; destruct p as [p | p |]; try lia; try done;
      destruct p as [p | p |]; try lia; try done; destruct p as [p | p |]; try lia; try done.
Qed.

(** Before the call of [halt] EBX and ECX change, which the routine does not see. *)
Lemma block_run eax f c1 :
  exists c2, exec call 1 (block_of eax f) c1 = exec call 1 (call_code f) c2 /\
    stack c2 = stack c1 /\ regs c2 ESP = regs c1 ESP /\ dir_flag c2 = dir_flag c1 /\ int_flag c2 = int_flag c1.
Proof.
  unfold block_of. destruct (eax =? 1).
  - exists (steps [MovByte EBX ECX; XorSelf EBX; MovByte ECX EBX] c1). rewrite exec_plain by done. by split_and!.
  - by exists c1.
Qed.

Lemma call_dispatched base n c frame f :
  interrupted base n c frame -> routine_of (regs c EAX) = Some f ->
  exists c1, run_wrapper call syscall_code c = exec call 1 (call_code f) c1 /\
    words (stack c1) (regs c1 ESP) (arguments c ++ saved c ++ frame) /\
    regs c1 ESP = regs c ESP - 44 /\ 0 <= regs c1 ESP /\ dir_flag c1 = false /\ int_flag c1 = true.
Proof.
  intros Hin Hf. destruct (table_block _ _ Hf) as (b & Hb & Hcode & Hok).
  destruct (dispatch base n c frame Hin) as (c1 & Hd & _ & H2). rewrite Hok, Hb, Hcode in H2.
  destruct H2 as (Hrun & Hi & Hh). destruct (block_run (regs c EAX) f c1) as (c2 & E & B1 & B2 & B3 & B4).
  exists c2. rewrite B1, B2, B3, B4. split; [by rewrite Hrun, E |]. split; [apply Hh |].
  destruct Hin as (Hh0 & Hroom & _). destruct Hh0 as [_ _ E0 [R0 _]]. destruct Hh as [_ _ E1 _].
  rewrite !length_app in E1. change (length (arguments c)) with 3%nat in E1.
  change (length (saved c)) with 8%nat in E1. split; [lia |]. split; [lia | by split].
Qed.

(** C11: the wrapper of the system calls gives the interrupted program back
    what it had: for every number but 9 and 10 it comes to its IRET with all
    registers except EAX as they were, ESP at the words that the processor
    pushed, and these unchanged.  A number that is no call gives -1 and calls
    nothing; the others call their routine once, with EBX, ECX and EDX as the
    arguments on the stack, the direction flag clear and interrupts on, and
    EAX is what the routine returned. *)
Theorem syscall_wrapper_restores base n c frame :
  interrupted base n c frame -> regs c EAX <> 9 /\ regs c EAX <> 10 ->
  (forall f c1, routine_of (regs c EAX) = Some f ->
     words (stack c1) (regs c1 ESP) (arguments c ++ saved c ++ frame) ->
     exists c2, call f c1 = Some c2 /\ returns 12 (32 + 4 * Z.of_nat (length frame)) c1 c2) ->
  exists c', run_wrapper call syscall_code c = Returned c' /\ resumed c c' frame /\
    match routine_of (regs c EAX) with
    | None => regs c' EAX = u32 (-1) /\ int_flag c' = int_flag c
    | Some f => exists c1 c2, call f c1 = Some c2 /\ words (stack c1) (regs c1 ESP) (arguments c) /\
        dir_flag c1 = false /\ int_flag c1 = true /\ regs c' EAX = regs c2 EAX
    end.
Proof.
  intros Hin Hn Hcall. destruct Hin as (Hh & Hroom & Hw) eqn:E. clear E.
  destruct (routine_of (regs c EAX)) as [f |] eqn:Hf.
  - destruct (call_dispatched base n c frame f) as (c1 & Hrun & Hw1 & He1 & Hlo & Hd & Hi); [by split | done |].
    destruct (Hcall f c1 eq_refl Hw1) as (c2 & Hc2 & Hret).
    destruct (call_run f c c1 c2 frame Hw1 He1 Hlo) as (c' & Hrun' & Hres & Ha); [lia | done | done |].
    exists c'. split; [by rewrite Hrun |]. split; [done |]. exists c1, c2.
    split; [done |]. split; [by apply words_app in Hw1 as [H2 _] | by split_and!].
  - destruct (dispatch base n c frame) as (c1 & Hd & _ & H2); [by split |].
    assert (Hbad : ((10 <? regs c EAX) || (regs c EAX <? 1)) = true).
    { apply orb_true_iff. rewrite !Z.ltb_lt. pose proof (routine_of_none _ Hf). lia. }
    rewrite Hbad in H2. destruct H2 as (Hrun & Hi & [_ Hw1 E1 _]). destruct Hh as [_ _ E0 [R0 _]].
    rewrite length_app in E1. change (length (saved c)) with 8%nat in E1.
    destruct (badcode_run c c1 frame Hw1) as (c' & Hrun' & Hres & Ha & Hi'); [lia | lia | lia |].
    exists c'. split; [by rewrite Hrun |]. split; [done |]. split; [done | congruence].
Qed.

(** ** The interrupts *)

(** What [pushal] leaves on the stack. *)
Definition all_regs (c : machine M) : list Z :=
  [regs c EDI; regs c ESI; regs c EBP; regs c ESP; regs c EBX; regs c EDX; regs c ECX; regs c EAX].

Lemma steps_pushal c : steps [Pushal; Cld] c = set_dir false (pushal c).
Proof. unfold steps. cbn [foldl step]. exact eq_refl. Qed.

Lemma steps_popal c : steps [Popal] c = popal c.
Proof. unfold steps. cbn [foldl step]. exact eq_refl. Qed.

Lemma pushal_holds base n c l :
  holds base n c l -> base + 32 <= regs c ESP -> (forall r, word (regs c r)) ->
  holds base n (pushal c) (all_regs c ++ l) /\ regs (pushal c) ESP = regs c ESP - 32.
Proof.
  intros Hh Hroom Hw.
  assert (Hp : forall vs c' l', holds base n c' l' -> Forall word vs -> base + 4 * Z.of_nat (length vs) <= regs c' ESP ->
    holds base n (foldl (fun c v => push v c) c' vs) (reverse vs ++ l') /\
    regs (foldl (fun c v => push v c) c' vs) ESP = regs c' ESP - 4 * Z.of_nat (length vs)).
  { induction vs as [| v vs IH]; intros c' l' Hh' Hvs Hlen; [split; [done | cbn [length foldl]; lia] |].
    apply Forall_cons in Hvs as [Hv Hvs]. cbn [length] in Hlen.
    destruct (holds_push base n c' l' v Hh') as (Hh1 & He1 & _); [lia | done |].
    destruct (IH (push v c') (v :: l') Hh1 Hvs) as [Hh2 He2]; [lia |].
    cbn [foldl]. rewrite reverse_cons, <- app_assoc. split; [exact Hh2 | rewrite He2, He1; cbn [length]; lia]. }
  apply (Hp [regs c EAX; regs c ECX; regs c EDX; regs c EBX; regs c ESP; regs c EBP; regs c ESI; regs c EDI] c l Hh);
    [repeat apply Forall_cons_2; try apply Forall_nil_2; apply Hw | exact Hroom].
Qed.

Definition skip_word (c : machine M) : machine M := set_reg ESP (u32 (regs c ESP + 4)) c.

Lemma popal_eq c :
  popal c = steps (Pop <$> [EBX; EDX; ECX; EAX]) (skip_word (steps (Pop <$> [EDI; ESI; EBP]) c)).
Proof. unfold popal, steps, skip_word. cbn [fmap list_fmap foldl step]. reflexivity. Qed.

Lemma popal_restores c0 c l :
  words (stack c) (regs c ESP) (all_regs c0 ++ l) -> regs c ESP = regs c0 ESP - 32 ->
  0 <= regs c ESP -> regs c0 ESP < 4294967296 ->
  (forall r, regs (popal c) r = regs c0 r) /\ words (stack (popal c)) (regs (popal c) ESP) l.
Proof.
  intros Hw He Hlo Hhi.
  destruct (pops_words [EDI; ESI; EBP] c [regs c0 EDI; regs c0 ESI; regs c0 EBP]
    ([regs c0 ESP; regs c0 EBX; regs c0 EDX; regs c0 ECX; regs c0 EAX] ++ l))
    as (Hv1 & He1 & Hw1 & Hs1 & _); try done;
    [by apply (bool_decide_unpack _) | by apply (bool_decide_unpack _) | cbn [length]; lia |].
  set (c1 := steps (Pop <$> [EDI; ESI; EBP]) c) in *. cbn [length] in He1. destruct Hw1 as [_ Hw1].
  rewrite popal_eq. fold c1. set (c2 := skip_word c1).
  assert (He2 : regs c2 ESP = regs c1 ESP + 4).
  { unfold c2, skip_word. cbn [regs set_reg]. rewrite decide_True by done. apply u32_small. lia. }
  assert (Hs2 : forall r, r <> ESP -> regs c2 r = regs c1 r).
  { intros r Hr. unfold c2, skip_word. cbn [regs set_reg]. by rewrite decide_False. }
  destruct (pops_words [EBX; EDX; ECX; EAX] c2 [regs c0 EBX; regs c0 EDX; regs c0 ECX; regs c0 EAX] l)
    as (Hv3 & He3 & Hw3 & Hs3 & _);
    [by rewrite He2 | done | by apply (bool_decide_unpack _) | by apply (bool_decide_unpack _) | lia | cbn [length]; lia |].
  clearbody c2 c1.
  set (c3 := steps (Pop <$> [EBX; EDX; ECX; EAX]) c2) in *. cbn [length] in He3. split; [| exact Hw3].
  intros r. destruct (decide (r = ESP)) as [-> | Hne]; [lia |]. destruct r; try done.
  - specialize (Hv3 3%nat EAX eq_refl). by injection Hv3.
  - specialize (Hv3 2%nat ECX eq_refl). by injection Hv3.
  - specialize (Hv3 1%nat EDX eq_refl). by injection Hv3.
  - specialize (Hv3 0%nat EBX eq_refl). by injection Hv3.
  - rewrite Hs3, Hs2 by (done || by apply (bool_decide_unpack _)).
    specialize (Hv1 2%nat EBP eq_refl). by injection Hv1.
  - rewrite Hs3, Hs2 by (done || by apply (bool_decide_unpack _)).
    specialize (Hv1 1%nat ESI eq_refl). by injection Hv1.
  - rewrite Hs3, Hs2 by (done || by apply (bool_decide_unpack _)).
    specialize (Hv1 0%nat EDI eq_refl). by injection Hv1.
Qed.

(** C25: the wrappers of the clock and the keyboard call their handler once,
    with the direction flag clear, and come to their IRET with all eight
    registers as they were and the words that the processor pushed
    unchanged: whatever was interrupted does not notice. *)
Theorem interrupt_wrappers_restore base n c frame f :
  interrupted base n c frame -> f = RtcHandler \/ f = KeyboardHandler ->
  (forall c1, words (stack c1) (regs c1 ESP) (all_regs c ++ frame) ->
     exists c2, call f c1 = Some c2 /\ returns 0 (32 + 4 * Z.of_nat (length frame)) c1 c2) ->
  exists c1 c2 c', call f c1 = Some c2 /\ dir_flag c1 = false /\
    run_wrapper call (if decide (f = RtcHandler) then rtc_code else keyboard_code) c = Returned c' /\
    (forall r, regs c' r = regs c r) /\ words (stack c') (regs c' ESP) frame.
Proof.
  intros (Hh & Hroom & Hw) Hf Hcall.
  assert (Hcode : (if decide (f = RtcHandler) then rtc_code else keyboard_code)
    = [Pushal; Cld] ++ Call f :: [Popal] ++ [Iret]) by by destruct Hf as [-> | ->].
  destruct (pushal_holds base n c frame Hh) as [[_ Hw1 E1 _] He1]; [lia | exact Hw |].
  pose proof (steps_pushal c) as Hsteps.
  revert Hw1 E1 He1 Hsteps. generalize (pushal c). intros p Hw1 E1 He1 Hsteps.
  destruct Hh as [_ _ E0 [R0 _]].
  destruct (Hcall (set_dir false p) Hw1) as (c2 & Hc2 & [He2 Hst]). cbn [stack regs set_dir] in He2, Hst.
  assert (Hw2 : words (stack c2) (regs c2 ESP) (all_regs c ++ frame)).
  { rewrite He2. rewrite Z.add_0_r in Hst. eapply words_same; [exact Hst | | exact Hw1].
    rewrite length_app. change (length (all_regs c)) with 8%nat. lia. }
  rewrite <- He2 in He1.
  destruct (popal_restores c c2 frame Hw2 He1) as [Hr Hw3]; [lia | lia |].
  exists (set_dir false p), c2, (popal c2). split; [exact Hc2 |]. split; [exact eq_refl |].
  split; [| split; [exact Hr | exact Hw3]].
  unfold run_wrapper. rewrite Hcode, (exec_plain 2 [Pushal; Cld]), exec_call by done.
  rewrite Hsteps, Hc2, (exec_plain 2 [Popal]), exec_iret, steps_popal by done. exact eq_refl.
Qed.

(** ** The timer *)

Definition pit_save : list instr := [Push EAX; Push ECX; Push EDX; Push EBX; Push ESI; Push EDI].

Definition pit_saved (c : machine M) : list Z :=
  [regs c EDI; regs c ESI; regs c EBX; regs c EDX; regs c ECX; regs c EAX].

Lemma pit_holds base n c l :
  holds base n c l -> base + 24 <= regs c ESP -> (forall r, word (regs c r)) ->
  let c1 := steps pit_save c in
  holds base n c1 (pit_saved c ++ l) /\ regs c1 ESP = regs c ESP - 24 /\ same_rest c c1.
Proof.
  intros Hh Hroom Hw.
  destruct (holds_pushes base n [EAX; ECX; EDX; EBX; ESI; EDI] c l Hh) as (Hh1 & He1 & Hs1);
    [exact Hroom | by repeat constructor | exact Hw |].
  split; [exact Hh1 | by split].
Qed.

(** C24: the wrapper of the timer resumes any task with its registers.  Let
    task [a] have been interrupted, which left its registers on its stack;
    whenever a later tick, in any task, brings the handler to switch to the
    stack pointer and frame pointer that [a] had in its wrapper, with that
    part of its stack unchanged, the wrapper comes to its IRET with all eight
    registers of [a] and the words that the processor pushed for [a].  With
    [c] = [a] this is a tick without a switch.  Unlike the others, this
    wrapper leaves the direction flag to the handler as it found it. *)
Theorem pit_wrapper_resumes base n a frame c c2 :
  interrupted base n a frame ->
  call PitHandler (steps pit_save c) = Some c2 ->
  regs c2 ESP = regs (steps pit_save a) ESP -> regs c2 EBP = regs a EBP ->
  (forall i, 0 <= i < 24 + 4 * Z.of_nat (length frame) ->
     ld (stack c2) (regs a ESP - 24 + i) = ld (stack (steps pit_save a)) (regs a ESP - 24 + i)) ->
  exists c', run_wrapper call pit_code c = Returned c' /\
    (forall r, regs c' r = regs a r) /\ words (stack c') (regs c' ESP) frame /\
    dir_flag (steps pit_save c) = dir_flag c.
Proof.
  intros (Hh & Hroom & Hw) Hc He2 Hebp Hst.
  destruct (pit_holds base n a frame Hh) as ([_ Hw1 _ _] & He1 & _); [lia | exact Hw |].
  destruct Hh as [_ _ E0 [R0 _]]. rewrite He1 in Hw1, He2.
  assert (Hw2 : words (stack c2) (regs c2 ESP) (pit_saved a ++ frame)).
  { rewrite He2. eapply words_same; [exact Hst | | exact Hw1].
    rewrite length_app. change (length (pit_saved a)) with 6%nat. lia. }
  destruct (pops_words [EDI; ESI; EBX; EDX; ECX; EAX] c2 (pit_saved a) frame Hw2)
    as (Hv & He3 & Hw3 & Hs3 & _);
    [done | by apply (bool_decide_unpack _) | by apply (bool_decide_unpack _) | lia | cbn [length]; lia |].
  set (c3 := steps (Pop <$> [EDI; ESI; EBX; EDX; ECX; EAX]) c2) in *. cbn [length] in He3.
  exists c3. split; [| split; [| split; [exact Hw3 |]]].
  - unfold run_wrapper. change pit_code with (pit_save ++ Call PitHandler ::
      (Pop <$> [EDI; ESI; EBX; EDX; ECX; EAX]) ++ [Iret]).
    rewrite (exec_plain 2 pit_save), exec_call, Hc,
      (exec_plain 2 (Pop <$> [EDI; ESI; EBX; EDX; ECX; EAX])), exec_iret by done. exact eq_refl.
  - intros r. destruct r.
    + specialize (Hv 5%nat EAX eq_refl). by injection Hv.
    + specialize (Hv 4%nat ECX eq_refl). by injection Hv.
    + specialize (Hv 3%nat EDX eq_refl). by injection Hv.
    + specialize (Hv 2%nat EBX eq_refl). by injection Hv.
    + lia.
    + rewrite Hs3; [exact Hebp | by apply (bool_decide_unpack _) | done].
    + specialize (Hv 1%nat ESI eq_refl). by injection Hv.
    + specialize (Hv 0%nat EDI eq_refl). by injection Hv.
  - reflexivity.
Qed.
End frames.

(** ** The model of the dispatch *)

Section kernel.
Variable junk : Z -> Z.
Variable table_addr : table -> Z.
Variable fuel : nat.
Context {M : Type} `{MemLaws M}.
Implicit Types c : machine M.

(** The routine with the arguments that it finds on the stack, converted as
    its prototype says; the handlers of the interrupts are no system calls. *)
Definition call_of (f : routine) (a b d : Z) : C Z := fun k =>
  match f with
  | SystemHalt => system_halt junk fuel a k
  | SystemExecute => system_execute junk fuel (fun i => image k (a + i)) k
  | SystemRead => system_read fuel (s32 a) b (s32 d) k
  | SystemWrite => system_write fuel (s32 a) b (s32 d) k
  | SystemOpen => system_open table_addr fuel a k
  | SystemClose => system_close (s32 a) k
  | SystemGetargs => system_getargs a (s32 b) k
  | SystemVidmap => system_vidmap a k
  | _ => Fault k
  end.

Lemma call_gone (call : routine -> machine M -> option (machine M)) n f c :
  call f c = None -> exec call n (call_code f) c = Gone f c.
Proof.
  intros Hc. change (call_code f) with (Call f :: [AddEsp 12] ++ pop_regs ++ [Iret]).
  by rewrite exec_call, Hc.
Qed.

(** C10: the instructions of syscall_wrapper.S implement the dispatch of the
    model: run until they leave for a routine, they reach, with the direction
    flag clear and interrupts on, the routine that [syscall_wrapper] calls, and
    its arguments on the stack are the ones that the model passes; where the
    model returns -1 they return -1 and leave interrupts as they were, and
    they jump to no known address exactly where the model faults. *)
Theorem syscall_wrapper_dispatches base n c frame k :
  interrupted base n c frame ->
  let model := syscall_wrapper junk table_addr fuel (regs c EAX) (regs c EBX) (regs c ECX) (regs c EDX) k in
  match run_wrapper (fun _ _ => None) syscall_code c with
  | Gone f c1 => dir_flag c1 = false /\ int_flag c1 = true /\
      exists a b d, words (stack c1) (regs c1 ESP) [a; b; d] /\ model = call_of f a b d (sti k)
  | Returned c' => resumed c c' frame /\ int_flag c' = int_flag c /\ model = Ret (s32 (regs c' EAX)) k
  | Wild c1 => int_flag c1 = true /\ model = Fault (sti k)
  end.
Proof.
  intros Hin model. set (call := fun (_ : routine) (_ : machine M) => @None (machine M)).
  pose proof Hin as (Hh & Hroom & Hw). pose proof (Hw EAX) as Ha. unfold word in Ha.
  assert (Hu : u32 (regs c EAX) = regs c EAX) by by apply u32_small.
  destruct (routine_of (regs c EAX)) as [f |] eqn:Hf.
  - destruct (call_dispatched call base n c frame f Hin Hf) as (c1 & Hrun & Hw1 & _ & _ & Hd & Hi).
    rewrite Hrun, call_gone by done. split; [exact Hd |]. split; [exact Hi |].
    apply words_app in Hw1 as [Hw1 _]. exists (regs c EBX), (regs c ECX), (regs c EDX).
    split; [exact Hw1 |]. unfold model, syscall_wrapper. rewrite Hu.
    destruct (table_block _ _ Hf) as (_ & _ & _ & Hok). unfold NUM_SYSCALLS. rewrite Hok.
    revert Hf. generalize (regs c EAX). intros eax Hf.
    unfold routine_of in Hf. repeat case_match; try discriminate; by injection Hf as <-.
  - destruct (dispatch call base n c frame Hin) as (c1 & Hd & _ & H2).
    destruct ((10 <? regs c EAX) || (regs c EAX <? 1)) eqn:Hbad.
    + destruct H2 as (Hrun & Hi & [_ Hw1 E1 _]). destruct Hh as [_ _ E0 [R0 _]].
      rewrite length_app in E1. change (length (saved c)) with 8%nat in E1.
      destruct (badcode_run call c c1 frame Hw1) as (c' & Hrun' & Hres & Hx & Hi'); [lia | lia | lia |].
      rewrite Hrun, Hrun'. split; [exact Hres |]. split; [congruence |].
      unfold model, syscall_wrapper. rewrite Hu. unfold NUM_SYSCALLS. rewrite Hbad, Hx. reflexivity.
    + destruct H2 as (Hrun & Hi1 & _). apply orb_false_iff in Hbad as [H9%Z.ltb_ge H1'%Z.ltb_ge].
      assert (Hc : regs c EAX = 9 \/ regs c EAX = 10) by (pose proof (routine_of_none _ Hf); lia).
      unfold model, syscall_wrapper. rewrite Hrun, Hu.
      destruct Hc as [Hc | Hc]; rewrite Hc; (split; [exact Hi1 | reflexivity]).
Qed.
End kernel.

(** ** Witnesses *)

(** A stack at the top of a page with the words of an interrupt from user mode. *)
Definition sample_frame : list Z := [0x8048000; 0x23; 0x202; 0x8400000; 0x2B].

Definition sample_stack : flat :=
  foldl (fun m p => st32 m (4000 + 4 * Z.of_nat p.1) p.2) (Flat ∅) (zip (seq 0 5) sample_frame).

Definition sample_cpu (eax : Z) : machine flat :=
  Machine (fun r => match r with
    | EAX => eax | ECX => 0x8049000 | EDX => 32 | EBX => 2 | ESP => 4000 | EBP => 0x83FFFE0
    | ESI => 5 | EDI => 6 end) true false (0, 0) sample_stack.

(** A routine that returns 7 and does not keep ECX. *)
Definition sample_call (f : routine) (c : machine flat) : option (machine flat) :=
  Some (set_reg ECX 0 (set_reg EAX 7 c)).

Lemma sample_interrupted eax : 0 <= eax < 4294967296 -> interrupted 3956 64 (sample_cpu eax) sample_frame.
Proof.
  intros He. split; [split |].
  - apply flat_region; lia.
  - change (words sample_stack 4000 sample_frame). vm_compute. repeat split.
  - reflexivity.
  - lia.
  - split; [cbn [regs sample_cpu]; lia |]. intros r. unfold word. destruct r; cbn [regs sample_cpu]; lia.
Qed.

Lemma syscall_wrapper_restores_witness :
  exists c', run_wrapper sample_call syscall_code (sample_cpu 3) = Returned c' /\
    resumed (sample_cpu 3) c' sample_frame.
Proof.
  destruct (syscall_wrapper_restores sample_call 3956 64 (sample_cpu 3) sample_frame) as (c' & Hrun & Hres & _).
  - apply sample_interrupted. lia.
  - by split.
  - intros f c1 _ _. exists (set_reg ECX 0 (set_reg EAX 7 c1)). by split.
  - by exists c'.
Defined.

Lemma syscall_wrapper_dispatches_witness :
  exists c1 a b d, run_wrapper (fun _ _ => None) syscall_code (sample_cpu 3) = Gone SystemRead c1 /\
    syscall_wrapper (fun _ => 0) (fun _ => 0) 10 3 2 0x8049000 32 sample
    = call_of (fun _ => 0) (fun _ => 0) 10 SystemRead a b d (sti sample).
Proof.
  pose proof (syscall_wrapper_dispatches (fun _ => 0) (fun _ => 0) 10 3956 64 (sample_cpu 3) sample_frame sample
    (sample_interrupted 3 ltac:(lia))) as Hd. cbv zeta in Hd.
  destruct (call_dispatched (fun _ _ => None) 3956 64 (sample_cpu 3) sample_frame SystemRead
    (sample_interrupted 3 ltac:(lia)) eq_refl) as (c1 & Hrun & _).
  rewrite call_gone in Hrun by reflexivity. rewrite Hrun in Hd.
  destruct Hd as (_ & _ & a & b & d & _ & Hm). exists c1, a, b, d. split; [exact Hrun | exact Hm].
Defined.

Lemma interrupt_wrappers_restore_witness :
  exists c', run_wrapper sample_call rtc_code (sample_cpu 3) = Returned c' /\
    forall r, regs c' r = regs (sample_cpu 3) r.
Proof.
  destruct (interrupt_wrappers_restore sample_call 3956 64 (sample_cpu 3) sample_frame RtcHandler)
    as (_ & _ & c' & _ & _ & Hrun & Hr & _).
  - apply sample_interrupted. lia.
  - by left.
  - intros c1 _. exists (set_reg ECX 0 (set_reg EAX 7 c1)). by split.
  - by exists c'.
Defined.

(** A tick that comes back to the same task. *)
Lemma sample_tick p : exists c2, sample_call PitHandler p = Some c2 /\ regs c2 ESP = regs p ESP /\
  regs c2 EBP = regs p EBP /\ stack c2 = stack p.
Proof. by exists (set_reg ECX 0 (set_reg EAX 7 p)). Qed.

Lemma pit_wrapper_resumes_witness :
  exists c', run_wrapper sample_call pit_code (sample_cpu 3) = Returned c' /\
    forall r, regs c' r = regs (sample_cpu 3) r.
Proof.
  pose proof (sample_interrupted 3 ltac:(lia)) as Hin.
  destruct (pit_holds 3956 64 (sample_cpu 3) sample_frame) as (_ & _ & [Hs _ _]);
    [apply Hin | cbn [regs sample_cpu]; lia | apply Hin |].
  destruct (sample_tick (steps pit_save (sample_cpu 3))) as (c2 & E1 & E2 & E3 & E4).
  destruct (pit_wrapper_resumes sample_call 3956 64 (sample_cpu 3) sample_frame (sample_cpu 3) c2 Hin E1 E2)
    as (c' & Hrun & Hr & _).
  - rewrite E3. by apply Hs.
  - intros i _. by rewrite E4.
  - exists c'. split; [exact Hrun | exact Hr].
Defined.
