(* ===== verification/Blink.v ===== *)
(** * The blinking characters of fish

    blink.S and the allocator of fish.c: a list of blinking characters,
    linked through a static array, that [mp1_ioctl] adds to, removes from,
    searches and synchronises, and that [mp1_rtc_tasklet] steps at each tick
    of the clock, drawing on a page of video memory.  The routines are
    functions of the memory; the theorems tie them to a plain list. *)

From S2P Require Import Prelude Memory Lib.

(** ** Half words *)

Definition s16 (z : Z) : Z := (z + 32768) mod 65536 - 32768.

Section code.
Context {M : Type} `{MemOps M}.

Definition ld16 (m : M) (a : Z) : Z := ld m a + 256 * ld m (a + 1).
Definition st16 (m : M) (a v : Z) : M := st (st m a (u8 v)) (a + 1) (u8 (Z.shiftr v 8)).

(** ** The structure and the commands *)

Definition LOCATION : Z := 0.
Definition ON_CHAR : Z := 2.
Definition OFF_CHAR : Z := 3.
Definition ON_LENGTH : Z := 4.
Definition OFF_LENGTH : Z := 6.
Definition COUNTDOWN : Z := 8.
Definition STATUS : Z := 10.
Definition NEXT : Z := 12.
Definition STRUCT_SIZE : Z := 16.

Definition RTC_ADD : Z := 0.
Definition RTC_REMOVE : Z := 1.
Definition RTC_FIND : Z := 2.
Definition RTC_SYNC : Z := 3.

(** Where the linker put [blink_array], [mp1_list_head] and
    [vmem_base_addr], and the stack that a routine has for its locals. *)
Variable blink_array mp1_list_head vmem_base_addr : Z.
Variable local : Z.

(** ** fish.c *)

Definition ece391_memset (memory c n : Z) (m : M) : M :=
  for_loop (Z.to_nat n) 0 (fun i m => st m (memory + i) (u8 c)) m.

(** It returns 0. *)
Definition ece391_memcpy (dest src n : Z) (m : M) : M :=
  for_loop (Z.to_nat n) 0 (fun i m => st m (dest + i) (ld m (src + i))) m.

(** The size is not looked at; 0 is [NULL]. *)
Fixpoint malloc_from (n : nat) (i : Z) (m : M) : Z :=
  match n with
  | O => 0
  | S n' =>
      let a := blink_array + STRUCT_SIZE * i in
      if ld16 m (a + LOCATION) =? 0 then a else malloc_from n' (i + 1) m
  end.

Definition mp1_malloc (m : M) : Z := malloc_from (Z.to_nat (80 * 25)) 0 m.

Definition mp1_free (memory : Z) (m : M) : M := ece391_memset memory 0 STRUCT_SIZE m.

(** ** blink.S *)

Definition mp1_poke (cl eax : Z) (m : M) : M := st m (u32 (ld32 m vmem_base_addr + eax)) cl.

(** The countdown of the element at [ebx] is over: from the load of its
    location to [next_loop]. *)
Definition tasklet_toggle (ebx : Z) (m : M) : M :=
  let eax := u32 (Z.shiftl (ld16 m (ebx + LOCATION)) 1) in
  let off := Z.land 1 (ld16 m (ebx + STATUS)) =? 0 in
  let m := mp1_poke (ld m (ebx + (if off then ON_CHAR else OFF_CHAR))) eax m in
  let dx := ld16 m (ebx + (if off then ON_LENGTH else OFF_LENGTH)) in
  let m := st16 m (ebx + COUNTDOWN) dx in
  st16 m (ebx + STATUS) (Z.lxor (ld16 m (ebx + STATUS)) 1).

(** From [tasklet_loop] to the jump back. *)
Definition tasklet_visit (ebx : Z) (m : M) : M :=
  let m := st16 m (ebx + COUNTDOWN) (u16 (ld16 m (ebx + COUNTDOWN) - 1)) in
  if 0 <? s16 (ld16 m (ebx + COUNTDOWN)) then m else tasklet_toggle ebx m.

Definition tasklet_turn (s : Z * M) : turn (Z * M) M :=
  let '(ebx, m) := s in
  if ebx =? 0 then Break m
  else let m := tasklet_visit ebx m in Continue (ld32 m (ebx + NEXT), m).

Variable fuel : nat.

Definition mp1_rtc_tasklet (m : M) : option M := loop fuel tasklet_turn (ld32 m mp1_list_head, m).

(** The argument's low half is the location. *)
Definition find_turn (ax : Z) (m : M) (ebx : Z) : turn Z Z :=
  if ebx =? 0 then Break 0
  else if ld16 m (ebx + LOCATION) =? ax then Break ebx
  else Continue (ld32 m (ebx + NEXT)).

Definition mp1_find_helper (arg : Z) (m : M) : option Z :=
  loop fuel (find_turn (u16 arg) m) (ld32 m mp1_list_head).

(** What a command returns in EAX, with the memory; [None]: it does not
    return. *)
Definition reply : Type := option (M * Z).

Definition fail_return (m : M) : reply := Some (m, u32 (-1)).
Definition success_return (m : M) : reply := Some (m, 0).

(** The temporary structure is at [local]; the copies do not fail. *)
Definition mp1_ioctl_add (arg : Z) (m : M) : reply :=
  let ebx := local in
  let m := ece391_memcpy ebx arg STRUCT_SIZE m in
  if 80 * 25 <=? ld16 m (ebx + LOCATION) then fail_return m
  else
    let m := st16 m (ebx + STATUS) 1 in
    let m := st16 m (ebx + COUNTDOWN) (ld16 m (ebx + ON_LENGTH)) in
    let edx := mp1_malloc m in
    if edx =? 0 then fail_return m
    else
      let m := ece391_memcpy edx ebx STRUCT_SIZE m in
      let m := st32 m (edx + NEXT) (ld32 m mp1_list_head) in
      let m := st32 m mp1_list_head edx in
      success_return (mp1_poke (ld m (edx + ON_CHAR)) (u32 (Z.shiftl (ld16 m (edx + LOCATION)) 1)) m).

(** EDX goes over the words that hold the links. *)
Definition prev_turn (eax : Z) (m : M) (edx : Z) : turn Z Z :=
  if ld32 m edx =? eax then Break edx else Continue (u32 (ld32 m edx + NEXT)).

Definition mp1_ioctl_remove (arg : Z) (m : M) : reply :=
  eax ← mp1_find_helper arg m;
  if eax =? 0 then fail_return m
  else
    edx ← loop fuel (prev_turn eax m) mp1_list_head;
    let m := st32 m edx (ld32 m (eax + NEXT)) in
    success_return (mp1_free eax m).

(** Two bytes of the argument are copied to [local]. *)
Definition mp1_ioctl_find (arg : Z) (m : M) : reply :=
  let m := ece391_memcpy local arg 2 m in
  eax ← mp1_find_helper (ld16 m local) m;
  if eax =? 0 then fail_return m
  else success_return (ece391_memcpy arg eax STRUCT_SIZE m).

(** CMOVL moves when the sign flag is not the overflow flag; TEST of a byte
    clears the latter and makes the former bit 7 of the conjunction. *)
Definition cmovl_after_testb (mask v : Z) : bool := Z.testbit (Z.land mask v) 7.

Definition mp1_ioctl_sync (arg : Z) (m : M) : reply :=
  esi ← mp1_find_helper (Z.shiftr (u32 arg) 16) m;
  if esi =? 0 then fail_return m
  else
    edi ← mp1_find_helper (Z.land arg 0xFFFF) m;
    if edi =? 0 then fail_return m
    else
      let m := st16 m (edi + ON_LENGTH) (ld16 m (esi + ON_LENGTH)) in
      let m := st16 m (edi + OFF_LENGTH) (ld16 m (esi + OFF_LENGTH)) in
      let m := st16 m (edi + COUNTDOWN) (ld16 m (esi + COUNTDOWN)) in
      let m := st16 m (edi + STATUS) (ld16 m (esi + STATUS)) in
      let eax := u32 (Z.shiftl (ld16 m (edi + LOCATION)) 1) in
      let ecx := if cmovl_after_testb 1 (ld m (edi + STATUS)) then ld m (edi + ON_CHAR) else ld m (edi + OFF_CHAR) in
      success_return (mp1_poke ecx eax m).

(** [None] for a jump through a word behind the table. *)
Definition mp1_ioctl (arg cmd : Z) (m : M) : reply :=
  match cmd with
  | 0 => mp1_ioctl_add arg m
  | 1 => mp1_ioctl_remove arg m
  | 2 => mp1_ioctl_find arg m
  | 3 => mp1_ioctl_sync arg m
  | _ => None
  end.
End code.

(** ** The area of memory that fish uses *)

Section area.
Context {M : Type} `{MemLaws M}.
Implicit Types m : M.

(** Addresses that are mapped, each to its own cell. *)
Variable owned : Z -> Prop.

Record clean (m : M) : Prop := Clean {
  clean_mapped : forall a, owned a -> is_Some (loc m a);
  clean_distinct : forall a b, owned a -> owned b -> loc m a = loc m b -> a = b
}.

(** From [m] to [m'] by stores to owned addresses. *)
Definition stores (l : list (Z * Z)) (m : M) : M := foldl (fun m p => st m p.1 p.2) m l.

Definition reached (m m' : M) : Prop := exists l, Forall (fun p => owned p.1) l /\ m' = stores l m.

(** [m'] differs from [m] at most in [T]. *)
Record frame (T : Z -> Prop) (m m' : M) : Prop := Frame {
  only_loc : forall a, loc m' a = loc m a;
  only_ld : forall a, owned a -> ~ T a -> ld m' a = ld m a
}.

(** The same, by stores to owned addresses. *)
Record only (T : Z -> Prop) (m m' : M) : Prop := Only {
  only_frame :> frame T m m';
  only_stores : reached m m'
}.

Lemma reached_refl m : reached m m. Proof. by exists []. Qed.

Lemma reached_trans a b c : reached a b -> reached b c -> reached a c.
Proof.
  intros (l1 & H1 & ->) (l2 & H2 & ->). exists (l1 ++ l2). split; [by apply Forall_app |].
  unfold stores. by rewrite foldl_app.
Qed.

Lemma reached_st m a v : owned a -> reached m (st m a v).
Proof. intros Ha. exists [(a, v)]. split; [by apply Forall_singleton | done]. Qed.

Lemma reached_write l : forall m a, (forall x, within a (Z.of_nat (length l)) x -> owned x) -> reached m (write m a l).
Proof.
  induction l as [| v l IH]; intros m a Ho; [apply reached_refl |]. cbn [write].
  eapply reached_trans; [apply reached_st, Ho | apply IH; intros x Hx; apply Ho]; unfold within in *; cbn [length]; lia.
Qed.

(** What stores to owned addresses keep. *)
Lemma reached_keeps (P : M -> Prop) m m' :
  (forall m a v, P m -> owned a -> P (st m a v)) -> reached m m' -> P m -> P m'.
Proof.
  intros Hst (l & Hl & ->). revert m. induction Hl as [| [a v] l Ha _ IH]; intros m Hm; [done |].
  apply (IH (st m a v)). by apply Hst.
Qed.

Lemma only_refl T m : only T m m. Proof. split; [done | apply reached_refl]. Qed.

Lemma frame_trans (T1 T2 T : Z -> Prop) a b c :
  frame T1 a b -> frame T2 b c -> (forall x, T1 x -> T x) -> (forall x, T2 x -> T x) -> frame T a c.
Proof.
  intros [L1 D1] [L2 D2] H1 H2. split; [intros x; by rewrite L2, L1 |].
  intros x Hx Hn. rewrite D2, D1; auto.
Qed.

Lemma only_trans (T1 T2 T : Z -> Prop) a b c :
  only T1 a b -> only T2 b c -> (forall x, T1 x -> T x) -> (forall x, T2 x -> T x) -> only T a c.
Proof. intros [F1 R1] [F2 R2] H1 H2. split; [by eapply frame_trans | by eapply reached_trans]. Qed.

Lemma only_weaken (T1 T : Z -> Prop) a b : only T1 a b -> (forall x, T1 x -> T x) -> only T a b.
Proof. intros [[L D] R] HT. split; [split; [exact L | auto] | exact R]. Qed.

Lemma only_clean T m m' : frame T m m' -> clean m -> clean m'.
Proof. intros [L _] [C1 C2]. split; intros *; rewrite !L; auto. Qed.

Lemma clean_region m a n : clean m -> (forall x, within a (Z.of_nat n) x -> owned x) -> region m a n.
Proof.
  intros [C1 C2] Ho. split; intros i *.
  - intros Hi. apply C1, Ho. unfold within. lia.
  - intros Hi Hj He. enough (a + i = a + j) by lia. apply C2; [apply Ho; unfold within; lia.. | exact He].
Qed.

Lemma write_only m a l :
  clean m -> (forall x, within a (Z.of_nat (length l)) x -> owned x) ->
  only (within a (Z.of_nat (length l))) m (write m a l).
Proof.
  intros Hc Ho. split; [split; [intros x; apply loc_write |] | by apply reached_write]. intros x Hx Hn.
  apply ld_write_apart; [by apply clean_region |]. intros i Hi He. apply Hn.
  apply (clean_distinct m Hc) in He; [| done | apply Ho; unfold within; lia]. unfold within. lia.
Qed.

Lemma write_bytes m a l :
  clean m -> (forall x, within a (Z.of_nat (length l)) x -> owned x) ->
  Forall (fun c => 0 <= c < 256) l -> bytes (write m a l) a (length l) = l.
Proof.
  intros Hc Ho Hl. rewrite bytes_write by by apply clean_region.
  rewrite <- (list_fmap_id l) at 2. apply list_fmap_ext. intros i c Hi. apply u8_small.
  by apply (Forall_lookup_1 _ _ _ _ Hl Hi).
Qed.

(** One byte, and half words. *)
Lemma st_only m a v : clean m -> owned a -> only (eq a) m (st m a v).
Proof.
  intros Hc Ha. split; [split; [intros x; apply loc_st |] | by apply reached_st]. intros x Hx Hn. apply ld_st_ne; [by apply Hc |].
  intros He. apply Hn. symmetry. by apply Hc.
Qed.

Lemma ld_st_at m a v : clean m -> owned a -> ld (st m a v) a = u8 v.
Proof. intros Hc Ha. apply ld_st_eq. by apply Hc. Qed.

Lemma st16_only m a v :
  clean m -> owned a -> owned (a + 1) ->
  only (within a 2) m (st16 m a v) /\ ld16 (st16 m a v) a = u16 v.
Proof.
  intros Hc Ha Ha1. unfold st16. pose proof (st_only m a (u8 v) Hc Ha) as H1.
  pose proof (only_clean _ _ _ H1 Hc) as Hc1.
  pose proof (st_only _ (a + 1) (u8 (Z.shiftr v 8)) Hc1 Ha1) as H2. split.
  - eapply only_trans; [exact H1 | exact H2 | |]; unfold within; intros x <-; lia.
  - unfold ld16. rewrite (only_ld _ _ _ H2 a Ha) by lia. rewrite !ld_st_at, !u8_idem by done.
    rewrite Z.shiftr_div_pow2 by lia. mach.
Qed.

Lemma ld16_same T m m' a :
  frame T m m' -> owned a -> owned (a + 1) -> ~ T a -> ~ T (a + 1) -> ld16 m' a = ld16 m a.
Proof. intros [_ D] H1 H2 N1 N2. unfold ld16. by rewrite !D. Qed.

Lemma ld32_same T m m' a :
  frame T m m' -> (forall i, 0 <= i < 4 -> owned (a + i) /\ ~ T (a + i)) -> ld32 m' a = ld32 m a.
Proof.
  intros [_ D] Ha. unfold ld32. rewrite <- (Z.add_0_r a) at 1 5.
  rewrite !D; [done | apply Ha; lia..].
Qed.

Lemma ld16_range m a : 0 <= ld16 m a < 65536.
Proof. unfold ld16. pose proof (ld_byte m a). pose proof (ld_byte m (a + 1)). lia. Qed.

Lemma st32_only m a v :
  clean m -> (forall i, 0 <= i < 4 -> owned (a + i)) ->
  only (within a 4) m (st32 m a v) /\ (0 <= v < 4294967296 -> ld32 (st32 m a v) a = v).
Proof.
  intros Hc Ha. rewrite st32_write.
  set (l := [u8 v; u8 (Z.shiftr v 8); u8 (Z.shiftr v 16); u8 (Z.shiftr v 24)]).
  assert (Ho : forall x, within a (Z.of_nat (length l)) x -> owned x).
  { intros x Hx. replace x with (a + (x - a)) by lia. apply Ha. unfold within in Hx. cbn [length l] in Hx. lia. }
  split; [by apply (write_only m a l) |]. intros Hv.
  assert (Hb : bytes (write m a l) a 4 = l).
  { apply (write_bytes m a l); [done | exact Ho |]. repeat constructor; apply u8_range. }
  rewrite ld32_sum. revert Hb. generalize (write m a l). intros m'. unfold l. cbn [bytes].
  replace (a + 1 + 1) with (a + 2) by lia. replace (a + 2 + 1) with (a + 3) by lia.
  intros [= -> -> -> ->]. rewrite !Z.shiftr_div_pow2 by lia. mach.
Qed.

Lemma for_loop_S {A} n i (f : Z -> A -> A) a : for_loop (S n) i f a = for_loop n (i + 1) f (f i a).
Proof. reflexivity. Qed.

(** The copies are writes. *)
Lemma memcpy391_write dest src n m :
  clean m -> (forall x, within dest n x -> owned x) -> (forall x, within src n x -> owned x /\ ~ within dest n x) ->
  ece391_memcpy dest src n m = write m dest (bytes m src (Z.to_nat n)).
Proof.
  unfold ece391_memcpy. intros Hc Hd Hs.
  assert (Hn : forall x, 0 <= x < Z.of_nat (Z.to_nat n) -> 0 <= x < n) by (intros; lia).
  enough (Hg : forall k i m1, 0 <= i -> i + Z.of_nat k <= n -> only (within dest n) m m1 ->
    for_loop k i (fun i m => st m (dest + i) (ld m (src + i))) m1 = write m1 (dest + i) (bytes m (src + i) k)).
  { destruct (decide (0 <= n)).
    - rewrite Hg by (lia || apply only_refl). by rewrite !Z.add_0_r.
    - by replace (Z.to_nat n) with 0%nat by lia. }
  induction k as [| k IH]; intros i m1 Hi Hk Ho; [done |]. rewrite for_loop_S. cbn [bytes write].
  destruct (Hs (src + i)) as [Hos Hns]; [unfold within; lia |].
  rewrite (only_ld _ _ _ Ho (src + i) Hos Hns). rewrite IH; [by rewrite <- !Z.add_assoc | lia | lia |].
  eapply only_trans; [exact Ho | apply st_only | done |].
  - eapply only_clean; [exact Ho | exact Hc].
  - apply Hd. unfold within. lia.
  - unfold within. intros x <-. lia.
Qed.

Lemma memcpy_only dest src n m :
  clean m -> (forall x, within dest (Z.of_nat n) x -> owned x) ->
  (forall x, within src (Z.of_nat n) x -> owned x /\ ~ within dest (Z.of_nat n) x) ->
  let m' := ece391_memcpy dest src (Z.of_nat n) m in
  only (within dest (Z.of_nat n)) m m' /\
  forall i, 0 <= i < Z.of_nat n -> ld m' (dest + i) = ld m (src + i).
Proof.
  intros Hc Hd Hs m'. unfold m'. rewrite memcpy391_write, Nat2Z.id by done.
  set (l := bytes m src n). assert (Hl : length l = n) by apply length_bytes.
  split; [rewrite <- Hl; apply write_only; [done | by rewrite Hl] |].
  intros i Hi. assert (Hb : bytes (write m dest l) dest (length l) = l).
  { apply write_bytes; [done | by rewrite Hl |]. apply Forall_lookup. intros j c Hj.
    pose proof (lookup_lt_Some _ _ _ Hj) as Hlt. unfold l in Hj. rewrite bytes_lookup in Hj by lia. injection Hj as <-.
    apply ld_byte. }
  pose proof (f_equal (fun l => l !! Z.to_nat i) Hb) as Hi'. cbv beta in Hi'.
  rewrite bytes_lookup in Hi' by lia. unfold l in Hi' at 2. rewrite bytes_lookup in Hi' by lia.
  injection Hi' as Hi'. rewrite Z2Nat.id in Hi' by lia. exact Hi'.
Qed.

Lemma memset_zero a n m :
  clean m -> (forall x, within a (Z.of_nat n) x -> owned x) ->
  let m' := ece391_memset a 0 (Z.of_nat n) m in
  only (within a (Z.of_nat n)) m m' /\ forall x, within a (Z.of_nat n) x -> ld m' x = 0.
Proof.
  intros Hc Ho. unfold ece391_memset. rewrite Nat2Z.id.
  enough (Hg : forall k i m1, 0 <= i -> i + Z.of_nat k <= Z.of_nat n -> clean m1 ->
    let m' := for_loop k i (fun i m => st m (a + i) (u8 0)) m1 in
    only (within (a + i) (Z.of_nat k)) m1 m' /\ forall x, within (a + i) (Z.of_nat k) x -> ld m' x = 0).
  { destruct (Hg n 0 m) as [H1 H2]; [lia | lia | done |]. rewrite Z.add_0_r in H1, H2. by split. }
  induction k as [| k IH]; intros i m1 Hi Hk Hc1; cbv zeta.
  - split; [apply only_refl | unfold within; lia].
  - rewrite for_loop_S. assert (Hoi : owned (a + i)) by (apply Ho; unfold within; lia).
    pose proof (st_only m1 (a + i) (u8 0) Hc1 Hoi) as Hst.
    destruct (IH (i + 1) (st m1 (a + i) (u8 0))) as [IH1 IH2]; [lia | lia | eapply only_clean; [exact Hst | exact Hc1] |].
    cbv zeta in *. split.
    + eapply only_trans; [exact Hst | exact IH1 | |]; unfold within; intros x Hx; lia.
    + intros x Hx. destruct (decide (x = a + i)) as [-> | Hne].
      * rewrite (only_ld _ _ _ IH1) by (done || unfold within; lia). rewrite ld_st_at by done. reflexivity.
      * apply IH2. unfold within in *. lia.
Qed.
End area.

(** ** The list, as plain data *)

Record blink := Blink {
  location : Z; on_char : Z; off_char : Z; on_length : Z; off_length : Z; countdown : Z; status : Z
}.

(** What a tick makes of an element, and the character that it draws. *)
Definition fires (b : blink) : bool := negb (0 <? s16 (u16 (countdown b - 1))).

Definition is_off (b : blink) : bool := Z.land 1 (status b) =? 0.

Definition tick (b : blink) : blink :=
  Blink (location b) (on_char b) (off_char b) (on_length b) (off_length b)
    (if fires b then (if is_off b then on_length b else off_length b) else u16 (countdown b - 1))
    (if fires b then u16 (Z.lxor (status b) 1) else status b).

(** The character that the other phase shows. *)
Definition face (b : blink) : Z := if is_off b then on_char b else off_char b.

(** The characters of the page of video memory. *)
Definition put_face (i c : Z) (s : Z -> Z) : Z -> Z := fun j => if decide (j = i) then c else s j.

Definition draw_tick (s : Z -> Z) (b : blink) : Z -> Z :=
  if fires b then put_face (location b) (face b) s else s.

(** A new element starts in the on phase. *)
Definition started (b : blink) : blink :=
  Blink (location b) (on_char b) (off_char b) (on_length b) (off_length b) (on_length b) 1.

(** The first element at a location goes. *)
Fixpoint removed (loc : Z) (bs : list blink) : list blink :=
  match bs with
  | [] => []
  | b :: bs' => if location b =? loc then bs' else b :: removed loc bs'
  end.

Definition at_loc (loc : Z) (bs : list blink) : option blink := List.find (fun b => location b =? loc) bs.

(** [b] with the rhythm of [b0]. *)
Definition synced (b0 b : blink) : blink :=
  Blink (location b) (on_char b) (off_char b) (on_length b0) (off_length b0) (countdown b0) (status b0).

(** The first element at a location changes. *)
Fixpoint adjusted (loc : Z) (f : blink -> blink) (bs : list blink) : list blink :=
  match bs with
  | [] => []
  | b :: bs' => if location b =? loc then f b :: bs' else b :: adjusted loc f bs'
  end.

Lemma draw_ticks_ext bs : forall s s' i,
  (forall j, 0 <= j < 2000 -> s' j = s j) -> 0 <= i < 2000 -> foldl draw_tick s' bs i = foldl draw_tick s bs i.
Proof.
  induction bs as [| b bs IH]; intros s s' i Hs Hi; cbn [foldl]; [by apply Hs |].
  apply IH; [| done]. intros j Hj. unfold draw_tick, put_face. destruct (fires b); [| by apply Hs].
  case_decide; [done | by apply Hs].
Qed.

(** ** The list in memory *)

Section linked.
Context {M : Type} `{MemLaws M}.
Implicit Types m : M.
Variable owned : Z -> Prop.
Variable blink_array mp1_list_head vmem_base_addr local : Z.
(** The page that [vmem_base_addr] points to. *)
Variable vid : Z.
#[local] Abbreviation only := (only owned).
#[local] Abbreviation frame := (frame owned).
#[local] Abbreviation clean := (clean owned).

Definition disjoint (a n b k : Z) : Prop := a + n <= b \/ b + k <= a.

(** Where everything is: on addresses of its own. *)
Record layout : Prop := Layout {
  lay_array : forall x, within blink_array 32000 x -> owned x;
  lay_head : forall x, within mp1_list_head 4 x -> owned x;
  lay_base : forall x, within vmem_base_addr 4 x -> owned x;
  lay_video : forall x, within vid 4000 x -> owned x;
  lay_local : forall x, within local 16 x -> owned x;
  lay_range : 0 < blink_array /\ blink_array + 32000 <= 4294967296 /\
    0 <= mp1_list_head /\ mp1_list_head + 4 <= 4294967296 /\ 0 <= vid /\ vid + 4000 <= 4294967296;
  lay_array_apart : disjoint blink_array 32000 mp1_list_head 4 /\ disjoint blink_array 32000 vmem_base_addr 4 /\
    disjoint blink_array 32000 vid 4000 /\ disjoint blink_array 32000 local 16;
  lay_apart : disjoint mp1_list_head 4 vmem_base_addr 4 /\ disjoint mp1_list_head 4 vid 4000 /\
    disjoint mp1_list_head 4 local 16 /\ disjoint vmem_base_addr 4 vid 4000 /\
    disjoint vmem_base_addr 4 local 16 /\ disjoint vid 4000 local 16
}.

Hypothesis lay : layout.

Ltac place := pose proof (lay_range lay); pose proof (lay_array_apart lay); pose proof (lay_apart lay);
  unfold within, disjoint in *; lia.

Definition slot (a : Z) : Prop := exists i, 0 <= i < 2000 /\ a = blink_array + 16 * i.

Definition blink_at (m : M) (a : Z) : blink :=
  Blink (ld16 m a) (ld m (a + 2)) (ld m (a + 3)) (ld16 m (a + 4)) (ld16 m (a + 6)) (ld16 m (a + 8)) (ld16 m (a + 10)).
Definition next_at (m : M) (a : Z) : Z := ld32 m (a + 12).

Fixpoint chain (m : M) (p : Z) (l : list Z) : Prop :=
  match l with
  | [] => p = 0
  | a :: l' => p = a /\ chain m (next_at m a) l'
  end.

(** The elements in the order of the list, [l] their addresses: they are the
    slots whose location is not 0. *)
Record linked_at (m : M) (l : list Z) : Prop := LinkedAt {
  la_clean : clean m;
  la_video : ld32 m vmem_base_addr = vid;
  la_chain : chain m (ld32 m mp1_list_head) l;
  la_nodup : NoDup l;
  la_slots : Forall slot l;
  la_used : forall a, slot a -> a ∈ l <-> ld16 m a <> 0;
  la_range : Forall (fun a => ld16 m a < 2000) l
}.

Definition linked (m : M) (bs : list blink) : Prop := exists l, linked_at m l /\ bs = blink_at m <$> l.

Definition page_cell (m : M) (i : Z) : Z := ld m (vid + 2 * i).

Lemma slot_bounds a : slot a -> blink_array <= a /\ a + 16 <= blink_array + 32000.
Proof. intros (i & Hi & ->). lia. Qed.

Lemma slot_owned a x : slot a -> within a 16 x -> owned x.
Proof. intros Ha Hx. apply slot_bounds in Ha. apply (lay_array lay). unfold within in *. lia. Qed.

Lemma slot_nonzero a : slot a -> a <> 0.
Proof. intros Ha. apply slot_bounds in Ha. pose proof (lay_range lay). lia. Qed.

Lemma slots_apart a b : slot a -> slot b -> a <> b -> a + 16 <= b \/ b + 16 <= a.
Proof. intros (i & Hi & ->) (j & Hj & ->) Hne. lia. Qed.

(** The areas that the routines write. *)
Definition work (x : Z) : Prop :=
  within blink_array 32000 x \/ within mp1_list_head 4 x \/ within vid 4000 x \/ within local 16 x.

(** A structure of the program: an element, or the local one. *)
Definition room (a : Z) : Prop := forall x, within a 16 x -> owned x /\ work x.

Lemma slot_room a : slot a -> room a.
Proof.
  intros Ha x Hx. split; [by apply (slot_owned a) |]. left. apply slot_bounds in Ha. unfold within in *. lia.
Qed.

Lemma local_room : room local.
Proof. intros x Hx. split; [by apply (lay_local lay) |]. by right; right; right. Qed.

Lemma ld16_field T m m' a off :
  room a -> 0 <= off <= 14 -> frame T m m' -> ~ T (a + off) -> ~ T (a + off + 1) ->
  ld16 m' (a + off) = ld16 m (a + off).
Proof.
  intros Ha Ho HT N1 N2. eapply ld16_same; [exact HT | | | done | done]; apply Ha; unfold within; lia.
Qed.

Lemma ld_field T m m' a off :
  room a -> 0 <= off <= 15 -> frame T m m' -> ~ T (a + off) -> ld m' (a + off) = ld m (a + off).
Proof. intros Ha Ho HT N. apply (only_ld _ _ _ _ HT); [| done]. apply Ha. unfold within. lia. Qed.

Lemma next_field T m m' a :
  room a -> frame T m m' -> (forall i, 12 <= i < 16 -> ~ T (a + i)) -> next_at m' a = next_at m a.
Proof.
  intros Ha HT N. eapply ld32_same; [exact HT |]. intros i Hi. replace (a + 12 + i) with (a + (12 + i)) by lia.
  split; [| apply N; lia]. apply Ha. unfold within. lia.
Qed.

Lemma blink_kept T m m' a :
  room a -> frame T m m' -> (forall x, within a 12 x -> ~ T x) -> blink_at m' a = blink_at m a.
Proof.
  intros Ha HT N. unfold blink_at. rewrite <- (Z.add_0_r a) at 1 8.
  f_equal; (eapply ld16_field || eapply ld_field); try exact Ha; try exact HT; try lia; apply N; unfold within; lia.
Qed.

(** A structure that a change left alone. *)
Lemma blink_same T m m' a :
  room a -> frame T m m' -> (forall x, within a 16 x -> ~ T x) ->
  blink_at m' a = blink_at m a /\ next_at m' a = next_at m a.
Proof.
  intros Ha HT N. split.
  - eapply blink_kept; [done | exact HT |]. intros x Hx. apply N. unfold within in *. lia.
  - eapply next_field; [done | exact HT |]. intros i Hi. apply N. unfold within. lia.
Qed.

Lemma chain_same m m' l : forall p,
  Forall (fun a => next_at m' a = next_at m a) l -> chain m p l -> chain m' p l.
Proof.
  induction l as [| a l IH]; intros p Hn; [done |]. apply Forall_cons in Hn as [Ha Hn]. cbn [chain].
  intros [-> Hc]. split; [done |]. rewrite Ha. by apply IH.
Qed.

Lemma poke_address loc : 0 <= loc < 2000 -> u32 (vid + u32 (Z.shiftl loc 1)) = vid + 2 * loc.
Proof.
  intros Hl. rewrite Z.shiftl_mul_pow2 by lia. change (2 ^ 1) with 2. pose proof (lay_range lay).
  rewrite (u32_small (loc * 2)), u32_small by lia. lia.
Qed.

Lemma poke_spec m loc c :
  clean m -> ld32 m vmem_base_addr = vid -> 0 <= loc < 2000 ->
  let m' := mp1_poke vmem_base_addr c (u32 (Z.shiftl loc 1)) m in
  only (eq (vid + 2 * loc)) m m' /\ (0 <= c < 256 -> ld m' (vid + 2 * loc) = c).
Proof.
  intros Hc Hv Hl. unfold mp1_poke. rewrite Hv, poke_address by done. cbv zeta.
  assert (Ho : owned (vid + 2 * loc)) by (apply (lay_video lay); unfold within; lia).
  split; [by apply st_only |]. intros Hr. rewrite (ld_st_at owned) by done. by apply u8_small.
Qed.

Lemma base_kept T m m' :
  frame T m m' -> (forall x, within vmem_base_addr 4 x -> ~ T x) -> ld32 m' vmem_base_addr = ld32 m vmem_base_addr.
Proof.
  intros HT N. eapply ld32_same; [exact HT |]. intros i Hi.
  split; [apply (lay_base lay) | apply N]; unfold within; lia.
Qed.

Lemma head_kept T m m' :
  frame T m m' -> (forall x, within mp1_list_head 4 x -> ~ T x) -> ld32 m' mp1_list_head = ld32 m mp1_list_head.
Proof.
  intros HT N. eapply ld32_same; [exact HT |]. intros i Hi.
  split; [apply (lay_head lay) | apply N]; unfold within; lia.
Qed.


(** ** A tick *)

(** What the routines rely on beside the list. *)
Record ready (m : M) : Prop := Ready {
  ready_clean : clean m;
  ready_video : ld32 m vmem_base_addr = vid
}.

Lemma only_ready (T : Z -> Prop) m m' : only T m m' -> (forall x, T x -> work x) -> ready m -> ready m'.
Proof.
  intros HT Hw [Hc Hv]. split; [eapply only_clean; [exact HT | exact Hc] |]. rewrite <- Hv. eapply base_kept; [exact HT |].
  intros x Hx Ht. apply Hw in Ht. unfold work in Ht. place.
Qed.

(** A half word of an element is stored. *)
Definition with_field (off v : Z) (b : blink) : blink :=
  Blink (location b) (on_char b) (off_char b)
    (if off =? 4 then u16 v else on_length b) (if off =? 6 then u16 v else off_length b)
    (if off =? 8 then u16 v else countdown b) (if off =? 10 then u16 v else status b).

Definition stored (a : Z) (m m' : M) (f : blink -> blink) : Prop :=
  blink_at m' a = f (blink_at m a) /\ next_at m' a = next_at m a.

Lemma field_stored m a off v :
  ready m -> room a -> off = 4 \/ off = 6 \/ off = 8 \/ off = 10 ->
  let m' := st16 m (a + off) v in
  only (within (a + off) 2) m m' /\ ready m' /\ stored a m m' (with_field off v).
Proof.
  intros Hr Ha Ho. 
  assert (Hof : forall i, 0 <= i < 16 -> owned (a + i)) by (intros i Hi; apply Ha; unfold within; lia).
  destruct (st16_only owned m (a + off) v) as [O1 E1]; [apply Hr | apply Hof; lia | |].
  { replace (a + off + 1) with (a + (off + 1)) by lia. apply Hof. lia. }
  cbv zeta. set (m' := st16 m (a + off) v) in *. split; [exact O1 |]. split.
  { eapply only_ready; [exact O1 | | done]. intros x Hx. apply Ha. unfold within in *. lia. }
  unfold stored. split; [| eapply next_field; [done | exact O1 |]; unfold within; lia].
  assert (F : forall o, 0 <= o <= 14 -> o + 2 <= off \/ off + 2 <= o -> ld16 m' (a + o) = ld16 m (a + o)).
  { intros o Hi Hn. eapply ld16_field; [exact Ha | done | exact O1 | |]; unfold within; lia. }
  assert (G : forall o, 0 <= o < 4 -> ld m' (a + o) = ld m (a + o)).
  { intros o Hi. eapply ld_field; [exact Ha | lia | exact O1 |]. unfold within; lia. }
  assert (F0 : ld16 m' a = ld16 m a) by (rewrite <- (Z.add_0_r a); apply F; lia).
  unfold blink_at, with_field. cbn [location on_char off_char on_length off_length countdown status].
  rewrite F0, (G 2), (G 3) by lia.
  destruct Ho as [-> | [-> | [-> | ->]]]; rewrite E1; cbn [Z.eqb Pos.eqb]; f_equal; apply F; lia.
Qed.

(** A character on the page. *)
Lemma poked m loc c :
  ready m -> 0 <= loc < 2000 ->
  let m' := mp1_poke vmem_base_addr c (u32 (Z.shiftl loc 1)) m in
  only (eq (vid + 2 * loc)) m m' /\ ready m' /\ (forall a, slot a -> stored a m m' id) /\
  (0 <= c < 256 -> ld m' (vid + 2 * loc) = c).
Proof.
  intros Hr Hl. destruct (poke_spec m loc c (ready_clean _ Hr) (ready_video _ Hr) Hl) as [O E]. cbv zeta in *.
  split; [exact O |]. split; [| split; [| exact E]].
  - eapply only_ready; [exact O | | done]. intros x <-. right. right. left. unfold within. lia.
  - intros a Ha. pose proof (slot_bounds a Ha). eapply blink_same; [by apply slot_room | exact O |]. intros x Hx <-. place.
Qed.

Lemma stored_trans a m1 m2 m3 f g : stored a m1 m2 f -> stored a m2 m3 g -> stored a m1 m3 (fun b => g (f b)).
Proof. intros [B1 N1] [B2 N2]. unfold stored. split; [by rewrite B2, B1 | by rewrite N2, N1]. Qed.

(** What a toggle makes of an element. *)
Definition toggled (b : blink) : blink :=
  Blink (location b) (on_char b) (off_char b) (on_length b) (off_length b)
    (if is_off b then on_length b else off_length b) (u16 (Z.lxor (status b) 1)).

Lemma toggle_spec m a :
  ready m -> slot a -> ld16 m a < 2000 ->
  let b := blink_at m a in let m' := tasklet_toggle vmem_base_addr a m in
  only (fun x => within (a + 8) 4 x \/ x = vid + 2 * location b) m m' /\
  ready m' /\ stored a m m' toggled /\ ld m' (vid + 2 * location b) = face b.
Proof.
  intros Hr Ha Hloc b m'. pose proof (slot_bounds a Ha) as Hab. pose proof (ld16_range m a) as Hlr.
  set (m1 := mp1_poke vmem_base_addr (face b) (u32 (Z.shiftl (location b) 1)) m).
  assert (Hc : 0 <= face b < 256) by (unfold face; destruct (is_off b); apply ld_byte).
  destruct (poked m (location b) (face b) Hr) as (O1 & R1 & S1 & E1); [change (location b) with (ld16 m a); lia |].
  cbv zeta in *. fold m1 in O1, R1, S1, E1. specialize (E1 Hc). destruct (S1 a Ha) as [B1 N1].
  set (dx := if is_off b then on_length b else off_length b).
  assert (Hdx : u16 dx = dx).
  { unfold dx, b. cbn [on_length off_length blink_at]. pose proof (ld16_range m (a + 4)). pose proof (ld16_range m (a + 6)).
    destruct (is_off _); mach. }
  destruct (field_stored m1 a 8 dx R1 (slot_room a Ha)) as (O2 & R2 & S2); [lia |]. set (m2 := st16 m1 (a + 8) dx) in *.
  set (st := Z.lxor (status b) 1).
  destruct (field_stored m2 a 10 st R2 (slot_room a Ha)) as (O3 & R3 & S3); [lia |]. set (m3 := st16 m2 (a + 10) st) in *.
  assert (Hm : m' = m3).
  { unfold m', tasklet_toggle, LOCATION, COUNTDOWN, STATUS. rewrite Z.add_0_r.
    change (Z.land 1 (ld16 m (a + 10)) =? 0) with (is_off b). change (ld16 m a) with (location b). cbv zeta.
    assert (H1 : ld m (a + (if is_off b then ON_CHAR else OFF_CHAR)) = face b) by (unfold face; by destruct (is_off b)).
    rewrite H1. fold m1.
    assert (H2 : ld16 m1 (a + (if is_off b then ON_LENGTH else OFF_LENGTH)) = dx).
    { transitivity (if is_off b then on_length (blink_at m1 a) else off_length (blink_at m1 a)); [by destruct (is_off b) |].
      by rewrite B1. }
    rewrite H2. fold m2. change (ld16 m2 (a + 10)) with (status (blink_at m2 a)). destruct S2 as [-> _]. by rewrite B1. }
  rewrite Hm. split; [| split; [exact R3 | split]].
  - apply (only_trans _ (eq (vid + 2 * location b)) (within (a + 8) 4) _ m m1 m3 O1);
      [| intros x <-; by right | by left].
    apply (only_trans _ _ _ _ m1 m2 m3 O2 O3); unfold within; lia.
  - destruct (stored_trans _ _ _ _ _ _ (stored_trans _ _ _ _ _ _ (conj B1 N1) S2) S3) as [B N]. unfold stored.
    split; [| exact N]. rewrite B. unfold with_field, toggled. cbn [Z.eqb Pos.eqb]. cbv beta.
    by rewrite Hdx.
  - rewrite <- E1. assert (Ho : owned (vid + 2 * location b)).
    { apply (lay_video lay). unfold within. change (location b) with (ld16 m a). lia. }
    change (location b) with (ld16 m a) in Ho |- *.
    rewrite (only_ld _ _ _ _ O3), (only_ld _ _ _ _ O2); [reflexivity | done | place | done | place].
Qed.

Lemma visit_spec m a :
  ready m -> slot a -> ld16 m a < 2000 ->
  let b := blink_at m a in let m' := tasklet_visit vmem_base_addr a m in
  only (fun x => within (a + 8) 4 x \/ (fires b = true /\ x = vid + 2 * location b)) m m' /\
  ready m' /\ stored a m m' tick /\ (fires b = true -> ld m' (vid + 2 * location b) = face b).
Proof.
  intros Hr Ha Hloc b m'. pose proof (slot_bounds a Ha) as Hab.
  set (cd := u16 (countdown b - 1)). assert (Hcd : u16 cd = cd) by (unfold cd; mach).
  destruct (field_stored m a 8 cd Hr (slot_room a Ha)) as (O1 & R1 & B1 & N1); [lia |]. set (m1 := st16 m (a + 8) cd) in *.
  fold b in B1. assert (Hb1 : blink_at m1 a = with_field 8 cd b) by exact B1.
  assert (Hm : m' = if fires b then tasklet_toggle vmem_base_addr a m1 else m1).
  { unfold m', tasklet_visit, COUNTDOWN. change (ld16 m (a + 8) - 1) with (countdown b - 1). fold cd. fold m1.
    cbv zeta. change (ld16 m1 (a + 8)) with (countdown (blink_at m1 a)). rewrite Hb1. cbn [with_field countdown Z.eqb Pos.eqb].
    rewrite Hcd. unfold fires. fold cd. by destruct (0 <? s16 cd). }
  assert (Ht : tick b = if fires b then toggled (with_field 8 cd b) else with_field 8 cd b).
  { unfold tick, toggled, with_field. fold cd. cbn [Z.eqb Pos.eqb is_off status location on_char off_char on_length off_length].
    rewrite Hcd. destruct (fires b); [| done]. done. }
  unfold stored. fold b. rewrite Hm, Ht. destruct (fires b) eqn:Hf.
  - destruct (toggle_spec m1 a R1 Ha) as (O2 & R2 & [B2 N2] & E2).
    { change (ld16 m1 a) with (location (blink_at m1 a)). by rewrite Hb1. }
    rewrite Hb1 in O2, B2, E2. change (location (with_field 8 cd b)) with (location b) in O2, E2.
    split_and!; [| exact R2 | exact B2 | by rewrite N2 | intros _; exact E2].
    eapply only_trans; [exact O1 | exact O2 | |]; unfold within; intros x Hx; [left; lia |].
    destruct Hx as [Hx | ->]; [by left | by right].
  - split_and!; [| exact R1 | exact B1 | exact N1 | discriminate].
    eapply only_weaken; [exact O1 |]. unfold within. intros x Hx. left. lia.
Qed.
Lemma visit_all m a :
  ready m -> slot a -> ld16 m a < 2000 ->
  let m' := tasklet_visit vmem_base_addr a m in
  only (fun x => within blink_array 32000 x \/ within vid 4000 x) m m' /\ ready m' /\
  (forall c, slot c -> stored c m m' (if decide (c = a) then tick else id)) /\
  (forall i, 0 <= i < 2000 -> page_cell m' i = draw_tick (page_cell m) (blink_at m a) i /\
     ld m' (vid + 2 * i + 1) = ld m (vid + 2 * i + 1)).
Proof.
  intros Hr Ha Hla. destruct (visit_spec m a Hr Ha Hla) as (O1 & R1 & S1 & E1). cbv zeta in *.
  pose proof (slot_bounds a Ha) as Hab. pose proof (ld16_range m a) as Hlr.
  set (m1 := tasklet_visit vmem_base_addr a m) in *. set (b := blink_at m a) in *.
  assert (Hloc : 0 <= location b < 2000) by (change (location b) with (ld16 m a); lia).
  split_and!; [| exact R1 | |].
  - eapply only_weaken; [exact O1 |]. intros x [Hx | [_ ->]]; unfold within in *; [left; lia | right; lia].
  - intros c Hcs. case_decide as Hca; [by subst |]. eapply blink_same; [by apply slot_room | exact O1 |]. intros x Hx.
    pose proof (slots_apart _ _ Hcs Ha Hca). pose proof (slot_bounds c Hcs).
    intros [Hx' | [_ ->]]; [unfold within in *; lia | place].
  - intros i Hi. assert (Hv : owned (vid + 2 * i) /\ owned (vid + 2 * i + 1)) by (split; apply (lay_video lay); unfold within; lia).
    split; [| apply (only_ld _ _ _ _ O1); [apply Hv |]; intros [Hx | [_ Hx]]; [place | lia]].
    unfold draw_tick, put_face, page_cell. destruct (fires b) eqn:Hf.
    + case_decide as Hib; [subst i; by apply E1 |].
      apply (only_ld _ _ _ _ O1); [apply Hv |]. intros [Hx | [_ Hx]]; [place | lia].
    + apply (only_ld _ _ _ _ O1); [apply Hv |]. intros [Hx | [Hx _]]; [place | discriminate].
Qed.

(** The elements in [l] are stepped one after the other. *)
Lemma tasklet_list fuel l : forall m p,
  ready m -> chain m p l -> NoDup l -> Forall slot l -> Forall (fun a => ld16 m a < 2000) l ->
  (length l < fuel)%nat ->
  exists m', loop fuel (tasklet_turn vmem_base_addr) (p, m) = Some m' /\
    only (fun x => within blink_array 32000 x \/ within vid 4000 x) m m' /\
    (forall a, slot a -> stored a m m' (if decide (a ∈ l) then tick else id)) /\
    (forall i, 0 <= i < 2000 -> page_cell m' i = foldl draw_tick (page_cell m) (blink_at m <$> l) i /\
       ld m' (vid + 2 * i + 1) = ld m (vid + 2 * i + 1)).
Proof.
  revert fuel. induction l as [| a l IH]; intros fuel m p Hr Hc Hn Hs Hl Hf; (destruct fuel as [| fuel]; [simpl in Hf; lia |]).
  - cbn [chain] in Hc. subst p. exists m. cbn [loop tasklet_turn Z.eqb]. split; [done |].
    split; [apply only_refl |]. split; [intros a _; by split | intros i _; by split].
  - destruct Hc as [-> Hc]. apply NoDup_cons in Hn as [Hna Hn]. apply Forall_cons in Hs as [Ha Hs].
    apply Forall_cons in Hl as [Hla Hl]. cbn [length] in Hf.
    destruct (visit_all m a Hr Ha Hla) as (O1 & R1 & S1 & C1). cbv zeta in *.
    set (m1 := tasklet_visit vmem_base_addr a m) in *.
    assert (Hoth : Forall (fun c => stored c m m1 id) l).
    { apply Forall_forall. intros c Hcl. pose proof (S1 c (proj1 (Forall_forall _ _) Hs c Hcl)) as Hst.
      rewrite decide_False in Hst by (by intros ->). exact Hst. }
    assert (Hbs : blink_at m1 <$> l = blink_at m <$> l).
    { apply list_fmap_ext. intros n c Hc'. apply (Forall_lookup_1 _ _ _ _ Hoth) in Hc' as [Hb _]. exact Hb. }
    destruct (IH fuel m1 (next_at m1 a)) as (m' & He & O2 & S2 & C2); [exact R1 | | exact Hn | exact Hs | | lia |].
    { destruct (S1 a Ha) as [_ ->]. eapply chain_same; [| exact Hc]. eapply Forall_impl; [exact Hoth |]. by intros c [_ Hn1]. }
    { apply Forall_forall. intros c Hcl. destruct (proj1 (Forall_forall _ _) Hoth c Hcl) as [Hb _].
      change (ld16 m1 c) with (location (blink_at m1 c)). rewrite Hb. by apply (proj1 (Forall_forall _ _) Hl). }
    exists m'. split; [| split; [| split]].
    + cbn [loop tasklet_turn]. rewrite (proj2 (Z.eqb_neq a 0)) by by apply slot_nonzero. exact He.
    + by eapply only_trans; [exact O1 | exact O2 | |].
    + intros c Hcs. specialize (S1 c Hcs). specialize (S2 c Hcs).
      pose proof (stored_trans _ _ _ _ _ _ S1 S2) as S12. destruct (decide (c = a)) as [-> | Hne].
      * rewrite decide_False in S12 by done. by rewrite decide_True by by left.
      * rewrite (decide_ext (c ∈ a :: l) (c ∈ l)) by (rewrite elem_of_cons; tauto). exact S12.
    + intros i Hi. destruct (C2 i Hi) as [Cc Ca]. destruct (C1 i Hi) as [Cc1 Ca1]. rewrite Cc, Ca, Ca1. split; [| done].
      cbn [fmap list_fmap foldl] in Hbs |- *. rewrite Hbs. apply draw_ticks_ext; [| done].
      intros j Hj. by apply C1.
Qed.
(** ** Keeping the list *)

Lemma linked_ready m l : linked_at m l -> ready m.
Proof. intros Hl. split; [exact (la_clean _ _ Hl) | exact (la_video _ _ Hl)]. Qed.

(** Elements change, but neither their locations nor the links. *)
Lemma linked_stored (T : Z -> Prop) m m' l (f : Z -> blink -> blink) :
  linked_at m l -> frame T m m' ->
  (forall x, T x -> ~ within mp1_list_head 4 x /\ ~ within vmem_base_addr 4 x) ->
  (forall a, slot a -> stored a m m' (f a)) -> (forall a b, location (f a b) = location b) -> linked_at m' l.
Proof.
  intros [Hc Hv Hch Hn Hs Hu Hr] HT Hsub Hst Hf.
  assert (Hloc : forall a, slot a -> ld16 m' a = ld16 m a).
  { intros a Ha. destruct (Hst a Ha) as [Hb _]. change (location (blink_at m' a) = location (blink_at m a)).
    by rewrite Hb, Hf. }
  assert (Hin : forall a, a ∈ l -> slot a) by by apply Forall_forall.
  pose proof (only_clean _ _ _ _ HT Hc) as Hc'.
  assert (Hv' : ld32 m' vmem_base_addr = vid).
  { rewrite <- Hv. eapply base_kept; [exact HT |]. intros x Hx Ht. by apply Hsub in Ht as [_ Ht]. }
  split; [exact Hc' | exact Hv' | | exact Hn | exact Hs | |].
  - rewrite (head_kept T m m' HT); [| intros x Hx Ht; by apply Hsub in Ht as [Ht _]].
    eapply chain_same; [| exact Hch]. apply Forall_forall. intros a Ha. by apply Hst, Hin.
  - intros a Ha. rewrite Hloc by done. by apply Hu.
  - apply Forall_forall. intros a Ha. rewrite Hloc by by apply Hin. by apply (proj1 (Forall_forall _ _) Hr).
Qed.

Lemma linked_location m l : linked_at m l -> Forall (fun b => 0 < location b < 2000) (blink_at m <$> l).
Proof.
  intros Hl. apply Forall_fmap, Forall_forall. intros a Ha. cbn [location blink_at compose].
  pose proof (proj1 (Forall_forall _ _) (la_range _ _ Hl) a Ha). pose proof (ld16_range m a).
  pose proof (proj1 (la_used _ _ Hl a (proj1 (Forall_forall _ _) (la_slots _ _ Hl) a Ha)) Ha). cbv beta in *. lia.
Qed.

(** ** Finding an element *)

(** Either no element of the list is at the location, or it splits there. *)
Lemma find_loop fuel ax m l : forall p,
  chain m p l -> Forall slot l -> (length l < fuel)%nat ->
  (loop fuel (find_turn ax m) p = Some 0 /\ Forall (fun a => ld16 m a <> ax) l) \/
  exists l1 a l2, loop fuel (find_turn ax m) p = Some a /\ l = l1 ++ a :: l2 /\ ld16 m a = ax /\
    Forall (fun a => ld16 m a <> ax) l1.
Proof.
  revert fuel. induction l as [| a l IH]; intros fuel p Hc Hs Hf; (destruct fuel as [| fuel]; [simpl in Hf; lia |]).
  - cbn [chain] in Hc. subst p. left. by split.
  - destruct Hc as [-> Hc]. apply Forall_cons in Hs as [Ha Hs]. cbn [length] in Hf. cbn [loop]. unfold find_turn at 1 3.
    rewrite (proj2 (Z.eqb_neq a 0)) by by apply slot_nonzero. unfold LOCATION, NEXT. rewrite Z.add_0_r.
    destruct (Z.eqb_spec (ld16 m a) ax) as [He | Hne].
    + right. exists [], a, l. by split_and!.
    + destruct (IH fuel (ld32 m (a + 12)) Hc Hs) as [[He Hn] | (l1 & c & l2 & He & -> & Hax & Hn)]; [lia | |].
      * left. split; [exact He | by constructor].
      * right. exists (a :: l1), c, l2. split_and!; [exact He | done | done | by constructor].
Qed.

Lemma at_loc_none loc bs : Forall (fun b => location b <> loc) bs -> at_loc loc bs = None.
Proof.
  unfold at_loc. induction 1 as [| b bs Hb _ IH]; [done |]. cbn [List.find]. by rewrite (proj2 (Z.eqb_neq _ _)) by done.
Qed.

(** What the plain operations do where the list splits. *)
Lemma split_at loc bs1 b bs2 :
  Forall (fun b => location b <> loc) bs1 -> location b = loc ->
  at_loc loc (bs1 ++ b :: bs2) = Some b /\ removed loc (bs1 ++ b :: bs2) = bs1 ++ bs2 /\
  forall f, adjusted loc f (bs1 ++ b :: bs2) = bs1 ++ f b :: bs2.
Proof.
  intros Hn Hb. unfold at_loc. induction Hn as [| c bs1 Hc _ IH]; cbn [app List.find removed adjusted].
  - by rewrite (proj2 (Z.eqb_eq _ _)) by done.
  - rewrite (proj2 (Z.eqb_neq _ _)) by done. destruct IH as (-> & -> & IH).
    split_and!; try done. intros f. by rewrite IH.
Qed.

Lemma find_helper_spec fuel m l arg :
  linked_at m l -> (length l < fuel)%nat ->
  (mp1_find_helper mp1_list_head fuel arg m = Some 0 /\ at_loc (u16 arg) (blink_at m <$> l) = None) \/
  exists l1 a l2, mp1_find_helper mp1_list_head fuel arg m = Some a /\ l = l1 ++ a :: l2 /\ slot a /\
    location (blink_at m a) = u16 arg /\ Forall (fun b => location b <> u16 arg) (blink_at m <$> l1).
Proof.
  intros Hl Hf. unfold mp1_find_helper.
  destruct (find_loop fuel (u16 arg) m l _ (la_chain _ _ Hl) (la_slots _ _ Hl) Hf)
    as [[He Hn] | (l1 & a & l2 & He & -> & Hax & Hn)].
  - left. split; [exact He |]. apply at_loc_none. by apply Forall_fmap.
  - right. exists l1, a, l2. pose proof (la_slots _ _ Hl) as Hs. apply Forall_app in Hs as [_ Hs].
    apply Forall_cons in Hs as [Ha _]. split_and!; try done. by apply Forall_fmap.
Qed.
(** ** Removing an element *)

(** The word that links to what comes after [l1], where [q] links to [l1]. *)
Fixpoint last_link (q : Z) (l1 : list Z) : Z :=
  match l1 with
  | [] => q
  | c :: l1' => last_link (c + 12) l1'
  end.

Lemma walk fuel m a l2 l1 : forall q,
  chain m (ld32 m q) (l1 ++ a :: l2) -> ~ In a l1 -> Forall slot l1 -> (length l1 < fuel)%nat ->
  loop fuel (prev_turn a m) q = Some (last_link q l1).
Proof.
  revert fuel. induction l1 as [| c l1 IH]; intros fuel q Hc Hn Hs Hf; (destruct fuel as [| fuel]; [simpl in Hf; lia |]);
    cbn [app chain] in Hc; destruct Hc as [Hq Hc]; cbn [loop last_link]; unfold prev_turn at 1; rewrite Hq.
  - by rewrite Z.eqb_refl.
  - rewrite (proj2 (Z.eqb_neq c a)) by (intros ->; apply Hn; by left). apply Forall_cons in Hs as [Hcs Hs].
    pose proof (slot_bounds c Hcs). unfold NEXT. pose proof (lay_range lay). rewrite u32_small by lia.
    apply IH; [exact Hc | intros Hi; apply Hn; by right | exact Hs | simpl in Hf; lia].
Qed.

Definition links (q : Z) (l : list Z) : list Z := q :: ((fun c => c + 12) <$> l).

Lemma last_link_in q l1 l2 : In (last_link q l1) (links q (l1 ++ l2)).
Proof.
  revert q. induction l1 as [| c l1 IH]; intros q; [by left |]. right. cbn [app fmap list_fmap last_link]. apply IH.
Qed.

(** The link to [a] becomes the one to its successor. *)
Lemma unlinked m m' a l2 l1 : forall q,
  chain m (ld32 m q) (l1 ++ a :: l2) -> NoDup (links q (l1 ++ l2)) ->
  ld32 m' (last_link q l1) = next_at m a ->
  (forall x, In x (links q (l1 ++ l2)) -> x <> last_link q l1 -> ld32 m' x = ld32 m x) ->
  chain m' (ld32 m' q) (l1 ++ l2).
Proof.
  induction l1 as [| c l1 IH]; intros q Hc Hn He Hk; cbn [app chain last_link] in *; destruct Hc as [Hq Hc].
  - rewrite He. eapply chain_same; [| exact Hc]. apply Forall_forall. intros c Hcl. apply Hk.
    + right. apply list_elem_of_In. apply list_elem_of_fmap. by exists c.
    + intros Heq. apply NoDup_cons in Hn as [Hn _]. apply Hn. apply list_elem_of_fmap. by exists c.
  - unfold links in Hn. apply NoDup_cons in Hn as [Hn0 Hn]. cbn [fmap list_fmap] in Hn. split.
    + rewrite Hk; [exact Hq | by left |]. intros Heq. apply Hn0. rewrite Heq. apply list_elem_of_In.
      apply (last_link_in (c + 12) l1 l2).
    + apply (IH (c + 12)); [exact Hc | exact Hn | exact He |]. intros x Hx. apply Hk. by right.
Qed.

Lemma links_head l x : Forall slot l -> In x (links mp1_list_head l) -> x = mp1_list_head \/ exists c, slot c /\ c ∈ l /\ x = c + 12.
Proof.
  intros Hs [-> | Hx]; [by left | right]. apply list_elem_of_In, list_elem_of_fmap in Hx as (c & -> & Hc).
  exists c. split_and!; try done. by apply (proj1 (Forall_forall _ _) Hs).
Qed.

Lemma links_nodup l : NoDup l -> Forall slot l -> NoDup (links mp1_list_head l).
Proof.
  intros Hn Hs. apply NoDup_cons. split.
  - intros Hx. apply list_elem_of_fmap in Hx as (c & He & Hc). pose proof (slot_bounds c (proj1 (Forall_forall _ _) Hs c Hc)).
    place.
  - apply NoDup_fmap_2; [| exact Hn]. intros x y Hxy. lia.
Qed.
(** The word that is changed for [a]: the head or the link of another
    element. *)
Lemma last_link_place l1 : Forall slot l1 ->
  last_link mp1_list_head l1 = mp1_list_head \/ exists c, slot c /\ c ∈ l1 /\ last_link mp1_list_head l1 = c + 12.
Proof.
  intros Hs. apply links_head; [done |]. pose proof (last_link_in mp1_list_head l1 []) as Hi. by rewrite app_nil_r in Hi.
Qed.

(** [a] is taken out and cleared. *)
Lemma unlink_spec m l1 a l2 :
  linked_at m (l1 ++ a :: l2) ->
  let m' := mp1_free a (st32 m (last_link mp1_list_head l1) (next_at m a)) in
  linked_at m' (l1 ++ l2) /\ blink_at m' <$> (l1 ++ l2) = blink_at m <$> (l1 ++ l2) /\
  only (fun x => within blink_array 32000 x \/ within mp1_list_head 4 x) m m'.
Proof.
  intros Hl. pose proof (linked_ready m _ Hl) as Hr. destruct Hl as [Hc Hv Hch Hn Hs Hu Hlt].
  set (l := l1 ++ a :: l2) in *.
  assert (Hperm : l ≡ₚ a :: l1 ++ l2) by by unfold l; rewrite Permutation_middle.
  rewrite Hperm in Hn. apply NoDup_cons in Hn as [Hna Hn].
  assert (Hin : forall c, c ∈ l <-> c = a \/ c ∈ l1 ++ l2) by (intros c; by rewrite Hperm, elem_of_cons).
  rewrite Hperm in Hs, Hlt. apply Forall_cons in Hs as [Ha Hs]. apply Forall_cons in Hlt as [_ Hlt].
  assert (Hs1 : Forall slot l1) by by apply Forall_app in Hs as [Hs _].
  assert (Hne : forall c, c ∈ l1 ++ l2 -> slot c /\ c <> a).
  { intros c Hcl. split; [by apply (proj1 (Forall_forall _ _) Hs) | by intros ->]. }
  set (edx := last_link mp1_list_head l1).
  assert (He : edx = mp1_list_head \/ exists c, slot c /\ c <> a /\ edx = c + 12).
  { destruct (last_link_place l1 Hs1) as [He | (c & H1 & H2 & H3)]; [by left | right].
    exists c. split_and!; try done. apply Hne, elem_of_app. by left. }
  pose proof (slot_bounds a Ha) as Hab.
  assert (Heo : forall i, 0 <= i < 4 -> owned (edx + i)).
  { intros i Hi. destruct He as [-> | (c & Hcs & _ & ->)]; [apply (lay_head lay); unfold within; lia |].
    apply (slot_owned c); [done | unfold within; lia]. }
  destruct (st32_only owned m edx (next_at m a) Hc Heo) as [O1 E1]. specialize (E1 (ld32_range _ _)).
  set (m1 := st32 m edx (next_at m a)) in *.
  destruct (memset_zero owned a 16 m1) as [O2 E2]; [eapply only_clean; [exact O1 | exact Hc] | intros x; by apply slot_owned |].
  cbv zeta. change (mp1_free a m1) with (ece391_memset a 0 (Z.of_nat 16) m1). change (Z.of_nat 16) with 16 in O2, E2 |- *.
  set (m2 := ece391_memset a 0 16 m1) in *.
  assert (Hap : edx + 4 <= a \/ a + 16 <= edx).
  { destruct He as [-> | (c & Hcs & Hca & ->)]; [place | pose proof (slots_apart _ _ Hcs Ha Hca); lia]. }
  assert (O : only (fun x => within edx 4 x \/ within a 16 x) m m2) by (eapply only_trans; [exact O1 | exact O2 | |]; tauto).
  assert (Hb : forall c, slot c -> c <> a -> blink_at m2 c = blink_at m c).
  { intros c Hcs Hca. eapply blink_kept; [by apply slot_room | exact O |]. intros x Hx. pose proof (slots_apart _ _ Hcs Ha Hca).
    pose proof (slot_bounds c Hcs). destruct He as [-> | (c' & Hcs' & Hca' & ->)]; [place |].
    destruct (decide (c' = c)) as [-> | Hcc]; [unfold within in *; lia |].
    pose proof (slots_apart _ _ Hcs Hcs' (not_eq_sym Hcc)). unfold within in *. lia. }
  assert (Hw : forall x, In x (links mp1_list_head (l1 ++ l2)) -> x <> edx -> ld32 m2 x = ld32 m x).
  { intros x Hx Hxe. eapply ld32_same; [exact O |]. intros j Hj.
    destruct (links_head _ x Hs Hx) as [-> | (c & Hcs & Hcl & ->)].
    - split; [apply (lay_head lay); unfold within; lia |].
      destruct He as [He | (c' & Hcs' & _ & ->)]; [congruence | pose proof (slot_bounds c' Hcs'); place].
    - split; [apply (slot_owned c); [done | unfold within; lia] |].
      pose proof (slots_apart _ _ Hcs Ha (proj2 (Hne c Hcl))). pose proof (slot_bounds c Hcs).
      destruct He as [-> | (c' & Hcs' & _ & ->)]; [place |].
      assert (Hcc : c <> c') by congruence. pose proof (slots_apart _ _ Hcs Hcs' Hcc). unfold within. lia. }
  assert (Hwe : ld32 m2 edx = next_at m a).
  { rewrite <- E1. eapply ld32_same; [exact O2 |]. intros j Hj. split; [by apply Heo | unfold within; lia]. }
  assert (Hsub : forall x, within edx 4 x \/ within a 16 x -> within blink_array 32000 x \/ within mp1_list_head 4 x).
  { intros x [Hx | Hx]; [| unfold within in *; left; lia]. destruct He as [-> | (c & Hcs & _ & ->)]; [by right |].
    pose proof (slot_bounds c Hcs). unfold within in *. left. lia. }
  destruct (only_ready _ m m2 O) as [Hc2 Hv2]; [intros x Hx; apply Hsub in Hx; unfold work; tauto | exact Hr |].
  assert (Hloc : forall c, slot c -> c <> a -> ld16 m2 c = ld16 m c).
  { intros c Hcs Hca. change (location (blink_at m2 c) = location (blink_at m c)). by rewrite Hb. }
  split; [split | split].
  - exact Hc2.
  - exact Hv2.
  - apply (unlinked m m2 a l2 l1); [exact Hch | by apply links_nodup | exact Hwe | exact Hw].
  - exact Hn.
  - exact Hs.
  - intros c Hcs. destruct (decide (c = a)) as [-> | Hca].
    + split; [intros Hx; by destruct (Hna Hx) |]. intros Hx. destruct Hx.
      unfold ld16. rewrite !E2; [done | unfold within; lia..].
    + rewrite (Hloc c Hcs Hca), <- (Hu c Hcs), Hin. tauto.
  - apply Forall_forall. intros c Hcl. destruct (Hne c Hcl) as [Hcs Hca]. rewrite (Hloc c Hcs Hca).
    by apply (proj1 (Forall_forall _ _) Hlt).
  - apply list_fmap_ext. intros j c Hj. apply list_elem_of_lookup_2 in Hj. destruct (Hne c Hj). by apply Hb.
  - by eapply only_weaken; [exact O |].
Qed.

Lemma remove_spec fuel m l arg :
  linked_at m l -> (length l < fuel)%nat ->
  match at_loc (u16 arg) (blink_at m <$> l) with
  | None => mp1_ioctl_remove mp1_list_head fuel arg m = Some (m, u32 (-1))
  | Some _ => exists m' l', mp1_ioctl_remove mp1_list_head fuel arg m = Some (m', 0) /\ linked_at m' l' /\
      blink_at m' <$> l' = removed (u16 arg) (blink_at m <$> l) /\
      only (fun x => within blink_array 32000 x \/ within mp1_list_head 4 x) m m'
  end.
Proof.
  intros Hl Hf. unfold mp1_ioctl_remove.
  destruct (find_helper_spec fuel m l arg Hl Hf) as [[He ->] | (l1 & a & l2 & He & -> & Ha & Hloc & Hn)]; rewrite He.
  - done.
  - rewrite fmap_app, fmap_cons. destruct (split_at (u16 arg) (blink_at m <$> l1) _ (blink_at m <$> l2) Hn Hloc) as (-> & -> & _).
    destruct (unlink_spec m l1 a l2 Hl) as (Hl' & Hb & O).
    exists (mp1_free a (st32 m (last_link mp1_list_head l1) (next_at m a))), (l1 ++ l2).
    split; [| split; [exact Hl' | split; [by rewrite Hb, fmap_app | exact O]]].
    cbn [mbind option_bind]. rewrite (proj2 (Z.eqb_neq a 0)) by by apply slot_nonzero.
    rewrite (walk fuel m a l2 l1); [reflexivity | apply Hl | | |].
    + intros Hi. apply list_elem_of_In in Hi. pose proof (la_nodup _ _ Hl) as Hnd.
      apply NoDup_app in Hnd as (_ & Hd & _). apply (Hd a Hi). by left.
    + pose proof (la_slots _ _ Hl) as Hs. by apply Forall_app in Hs as [Hs _].
    + rewrite length_app in Hf. lia.
Qed.
(** ** Adding an element *)

Lemma malloc_from_spec m n : forall i,
  (exists j, i <= j < i + Z.of_nat n /\ ld16 m (blink_array + 16 * j) = 0 /\
     malloc_from blink_array n i m = blink_array + 16 * j) \/
  ((forall j, i <= j < i + Z.of_nat n -> ld16 m (blink_array + 16 * j) <> 0) /\ malloc_from blink_array n i m = 0).
Proof.
  induction n as [| n IH]; intros i; [right; split; [lia | done] |]. cbn [malloc_from].
  unfold STRUCT_SIZE, LOCATION. rewrite Z.add_0_r.
  destruct (Z.eqb_spec (ld16 m (blink_array + 16 * i)) 0) as [He | Hne].
  - left. exists i. split; [lia | done].
  - destruct (IH (i + 1)) as [(j & Hj & H1 & H2) | [H1 H2]]; [left; exists j; split; [lia | done] | right].
    split; [| exact H2]. intros j Hj. destruct (decide (j = i)) as [-> | Hji]; [done | apply H1; lia].
Qed.

Definition slots : list Z := (fun j => blink_array + 16 * j) <$> seqZ 0 2000.

Lemma slots_spec a : a ∈ slots <-> slot a.
Proof.
  unfold slots, slot. rewrite list_elem_of_fmap. split.
  - intros (j & -> & Hj). apply elem_of_seqZ in Hj. exists j. split; [lia | done].
  - intros (j & Hj & ->). exists j. split; [done |]. apply elem_of_seqZ. lia.
Qed.

Lemma slots_nodup : NoDup slots.
Proof. apply NoDup_fmap_2; [intros x y Hxy; lia | apply NoDup_seqZ]. Qed.

Lemma slots_length : length slots = 2000%nat.
Proof. unfold slots. by rewrite length_fmap, length_seqZ. Qed.

(** The allocator fails exactly when the array is full. *)
Lemma malloc_spec m l :
  linked_at m l ->
  if 2000 <=? Z.of_nat (length l) then mp1_malloc blink_array m = 0
  else slot (mp1_malloc blink_array m) /\ mp1_malloc blink_array m ∉ l.
Proof.
  intros Hl. pose proof (la_nodup _ _ Hl) as Hn.
  assert (Hsub : forall a, a ∈ l -> a ∈ slots).
  { intros a Ha. apply slots_spec. by apply (proj1 (Forall_forall _ _) (la_slots _ _ Hl)). }
  unfold mp1_malloc. destruct (malloc_from_spec m (Z.to_nat (80 * 25)) 0) as [(j & Hj & Hz & ->) | [Hz ->]].
  - set (a := blink_array + 16 * j) in *. assert (Ha : slot a) by (exists j; split; [lia | done]).
    assert (Hal : a ∉ l) by (intros Hin; by apply (la_used _ _ Hl a Ha) in Hin).
    assert (Hlen : (length (a :: l) <= length slots)%nat).
    { apply submseteq_length, NoDup_submseteq; [by apply NoDup_cons |].
      intros c [-> | Hc]%elem_of_cons; [by apply slots_spec | by apply Hsub]. }
    rewrite slots_length in Hlen. cbn [length] in Hlen. rewrite (proj2 (Z.leb_gt _ _)) by lia. by split.
  - assert (Hlen : (length slots <= length l)%nat).
    { apply submseteq_length, NoDup_submseteq; [apply slots_nodup |]. intros a Ha. apply slots_spec in Ha.
      apply (la_used _ _ Hl a Ha). destruct Ha as (j & Hj & ->). apply Hz. lia. }
    rewrite slots_length in Hlen. by rewrite (proj2 (Z.leb_le _ _)) by lia.
Qed.

(** A copy of a structure, without its link. *)
Lemma blink_copied m m' a c :
  (forall i, 0 <= i < 12 -> ld m' (a + i) = ld m (c + i)) -> blink_at m' a = blink_at m c.
Proof.
  intros He. unfold blink_at, ld16.
  replace (ld m' a) with (ld m c) by (rewrite <- (Z.add_0_r a), <- (Z.add_0_r c); symmetry; apply He; lia).
  rewrite <- !Z.add_assoc. cbn [Z.add Pos.add Pos.succ]. by rewrite !He by lia.
Qed.

(** The copy of the local structure goes to the front: what is in memory. *)
Definition pushed_front (a : Z) (m : M) : M :=
  let m1 := ece391_memcpy a local STRUCT_SIZE m in
  st32 (st32 m1 (a + NEXT) (ld32 m1 mp1_list_head)) mp1_list_head a.

Lemma front_memory m a :
  clean m -> slot a ->
  let m' := pushed_front a m in
  only (fun x => within a 16 x \/ within mp1_list_head 4 x) m m' /\
  blink_at m' a = blink_at m local /\ next_at m' a = ld32 m mp1_list_head /\ ld32 m' mp1_list_head = a.
Proof.
  intros Hc Ha. unfold pushed_front.
  set (m1 := ece391_memcpy a local STRUCT_SIZE m). set (m2 := st32 m1 (a + NEXT) (ld32 m1 mp1_list_head)).
  set (m' := st32 m2 mp1_list_head a). cbv zeta. pose proof (slot_bounds a Ha) as Hab.
  destruct (memcpy_only owned a local 16 m Hc) as [O1 E1];
    [intros x; by apply slot_owned | intros x Hx; split; [by apply (lay_local lay) | place] |].
  change (ece391_memcpy a local (Z.of_nat 16) m) with m1 in O1, E1. change (Z.of_nat 16) with 16 in O1, E1.
  pose proof (only_clean _ _ _ _ O1 Hc) as Hc1.
  assert (Hhead : ld32 m1 mp1_list_head = ld32 m mp1_list_head) by (eapply head_kept; [exact O1 | place]).
  destruct (st32_only owned m1 (a + 12) (ld32 m mp1_list_head) Hc1) as [O2 E2];
    [intros i Hi; apply (slot_owned a); [done | unfold within; lia] |]. specialize (E2 (ld32_range _ _)).
  assert (Hm2 : m2 = st32 m1 (a + 12) (ld32 m mp1_list_head)) by (unfold m2; by rewrite Hhead).
  rewrite <- Hm2 in O2, E2. pose proof (only_clean _ _ _ _ O2 Hc1) as Hc2.
  destruct (st32_only owned m2 mp1_list_head a Hc2) as [O3 E3]; [intros i Hi; apply (lay_head lay); unfold within; lia |].
  fold m' in O3, E3. specialize (E3 ltac:(pose proof (lay_range lay); lia)).
  assert (O : only (fun x => within a 16 x \/ within mp1_list_head 4 x) m m').
  { apply (only_trans _ (within a 16) (fun x => within (a + 12) 4 x \/ within mp1_list_head 4 x) _ m m1 m' O1);
      [eapply only_trans; [exact O2 | exact O3 | tauto | tauto] | tauto |]. intros x [Hx | Hx]; [| by right].
    left. unfold within in *. lia. }
  assert (Hba : blink_at m' a = blink_at m local).
  { apply blink_copied. intros i Hi. assert (Hoi : owned (a + i)) by (apply (slot_owned a); [done | unfold within; lia]).
    rewrite (only_ld _ _ _ _ O3), (only_ld _ _ _ _ O2); [apply E1; lia | done | unfold within; lia | done | place]. }
  assert (Hna : next_at m' a = ld32 m mp1_list_head).
  { rewrite <- E2. eapply next_field; [by apply slot_room | exact O3 |]. intros i Hi. place. }
  split; [exact O | split; [exact Hba | split; [exact Hna | exact E3]]].
Qed.

Lemma front_spec m l a :
  linked_at m l -> slot a -> a ∉ l -> 0 < ld16 m local < 2000 ->
  let m' := pushed_front a m in
  linked_at m' (a :: l) /\ blink_at m' <$> (a :: l) = blink_at m local :: (blink_at m <$> l) /\
  only (fun x => within blink_array 32000 x \/ within mp1_list_head 4 x) m m'.
Proof.
  intros Hl Ha Hal Hloc m'. pose proof (linked_ready m _ Hl) as Hr. destruct Hl as [Hc Hv Hch Hn Hs Hu Hlt].
  pose proof (slot_bounds a Ha) as Hab. destruct (front_memory m a Hc Ha) as (O & Hba & Hna & E3). fold m' in O, Hba, Hna, E3.
  assert (Hoth : forall c, slot c -> c <> a -> stored c m m' id).
  { intros c Hcs Hca. eapply blink_same; [by apply slot_room | exact O |]. pose proof (slot_bounds c Hcs).
    pose proof (slots_apart _ _ Hcs Ha Hca). intros x Hx [Hx' | Hx']; [unfold within in *; lia | place]. }
  assert (Hmem : forall c, c ∈ l -> slot c /\ c <> a).
  { intros c Hcl. split; [by apply (proj1 (Forall_forall _ _) Hs) | by intros ->]. }
  assert (Hsub : forall x, within a 16 x \/ within mp1_list_head 4 x -> within blink_array 32000 x \/ within mp1_list_head 4 x).
  { intros x [Hx | Hx]; [left; unfold within in *; lia | by right]. }
  destruct (only_ready _ m m' O) as [Hc' Hv']; [intros x Hx; apply Hsub in Hx; unfold work; tauto | exact Hr |].
  assert (Hla : ld16 m' a = ld16 m local) by (change (location (blink_at m' a) = location (blink_at m local)); by rewrite Hba).
  assert (Hlo : forall c, slot c -> c <> a -> ld16 m' c = ld16 m c).
  { intros c Hcs Hca. destruct (Hoth c Hcs Hca) as [Hb _]. exact (f_equal location Hb). }
  split; [split | split].
  - exact Hc'.
  - exact Hv'.
  - rewrite E3. cbn [chain]. split; [done |]. rewrite Hna. eapply chain_same; [| exact Hch].
    apply Forall_forall. intros c Hcl. destruct (Hmem c Hcl) as [Hcs Hca]. by apply Hoth.
  - by apply NoDup_cons.
  - by apply Forall_cons.
  - intros c Hcs. rewrite elem_of_cons. destruct (decide (c = a)) as [-> | Hca].
    + rewrite Hla. split; [lia | by left].
    + rewrite (Hlo c Hcs Hca), <- (Hu c Hcs). tauto.
  - apply Forall_cons. split; [rewrite Hla; lia |]. apply Forall_forall. intros c Hcl. destruct (Hmem c Hcl) as [Hcs Hca].
    rewrite (Hlo c Hcs Hca). by apply (proj1 (Forall_forall _ _) Hlt).
  - cbn [fmap list_fmap]. rewrite Hba. f_equal. apply list_fmap_ext. intros j c Hj. apply list_elem_of_lookup_2 in Hj.
    destruct (Hmem c Hj) as [Hcs Hca]. by destruct (Hoth c Hcs Hca).
  - by eapply only_weaken; [exact O |].
Qed.

(** The structure that a program hands over. *)
Definition argument (arg : Z) : Prop :=
  forall x, within arg 16 x -> owned x /\ ~ work x /\ ~ within vmem_base_addr 4 x.

(** The local copy, prepared. *)
Definition prepared (arg : Z) (m : M) : M :=
  let m := ece391_memcpy local arg STRUCT_SIZE m in
  let m := st16 m (local + STATUS) 1 in
  st16 m (local + COUNTDOWN) (ld16 m (local + ON_LENGTH)).

Lemma copy_argument m arg :
  ready m -> argument arg ->
  let m' := ece391_memcpy local arg STRUCT_SIZE m in
  only (within local 16) m m' /\ ready m' /\ blink_at m' local = blink_at m arg.
Proof.
  intros Hr Ha m'. destruct (memcpy_only owned local arg 16 m) as [O E];
    [apply Hr | apply (lay_local lay) | |].
  { intros x Hx. destruct (Ha x Hx) as (H1 & H2 & _). split; [exact H1 |]. intros Hx'. apply H2. by right; right; right. }
  change (Z.of_nat 16) with 16 in O, E. fold m' in O, E. split; [exact O |]. split.
  - eapply only_ready; [exact O | | exact Hr]. intros x Hx. by right; right; right.
  - apply blink_copied. intros i Hi. apply E. lia.
Qed.

Lemma prepared_spec m arg :
  ready m -> argument arg ->
  let m' := prepared arg m in
  only (within local 16) m m' /\ ready m' /\ blink_at m' local = started (blink_at m arg).
Proof.
  intros Hr Ha. destruct (copy_argument m arg Hr Ha) as (O1 & R1 & B1). cbv zeta in *. unfold prepared.
  set (m1 := ece391_memcpy local arg STRUCT_SIZE m) in *. cbv zeta. unfold STATUS, COUNTDOWN, ON_LENGTH.
  destruct (field_stored m1 local 10 1 R1 local_room) as (O2 & R2 & S2); [lia |]. cbv zeta in *.
  set (m2 := st16 m1 (local + 10) 1) in *.
  assert (Hon : ld16 m2 (local + 4) = on_length (blink_at m arg)).
  { change (on_length (blink_at m2 local) = on_length (blink_at m arg)). destruct S2 as [-> _]. by rewrite B1. }
  rewrite Hon.
  destruct (field_stored m2 local 8 (on_length (blink_at m arg)) R2 local_room) as (O3 & R3 & S3); [lia |]. cbv zeta in *.
  set (m3 := st16 m2 (local + 8) (on_length (blink_at m arg))) in *. split; [| split; [exact R3 |]].
  - apply (only_trans _ _ (within local 16) _ m m1 m3 O1); [| done | done].
    apply (only_trans _ _ _ _ m1 m2 m3 O2 O3); unfold within; lia.
  - destruct S3 as [-> _], S2 as [-> _]. rewrite B1. unfold with_field, started. cbn [Z.eqb Pos.eqb].
    pose proof (ld16_range m (arg + 4)). change (on_length (blink_at m arg)) with (ld16 m (arg + 4)) in *.
    f_equal. mach.
Qed.
(** Elements that a change left alone. *)
Lemma blinks_same m m' l : Forall slot l -> (forall a, slot a -> stored a m m' id) -> blink_at m' <$> l = blink_at m <$> l.
Proof.
  intros Hs Hst. apply list_fmap_ext. intros j c Hj. apply (Forall_lookup_1 _ _ _ _ Hs) in Hj. by destruct (Hst c Hj).
Qed.

(** The page after a store to one of its characters. *)
Lemma poke_linked m l loc c :
  linked_at m l -> 0 <= loc < 2000 -> 0 <= c < 256 ->
  let m' := mp1_poke vmem_base_addr c (u32 (Z.shiftl loc 1)) m in
  linked_at m' l /\ blink_at m' <$> l = blink_at m <$> l /\ only (within vid 4000) m m' /\
  (forall i, 0 <= i < 2000 -> page_cell m' i = put_face loc c (page_cell m) i /\
     ld m' (vid + 2 * i + 1) = ld m (vid + 2 * i + 1)).
Proof.
  intros Hl Hloc Hc m'. destruct (poked m loc c (linked_ready m l Hl) Hloc) as (O & R & S & E).
  fold m' in O, R, S, E. specialize (E Hc). split; [| split; [| split]].
  - apply (linked_stored _ m m' l (fun _ => id) Hl O); [| exact S | done]. intros x <-. split; place.
  - apply blinks_same; [apply (la_slots _ _ Hl) | exact S].
  - eapply only_weaken; [exact O |]. intros x <-. unfold within. lia.
  - intros i Hi. unfold page_cell, put_face.
    assert (Hv : owned (vid + 2 * i) /\ owned (vid + 2 * i + 1)) by (split; apply (lay_video lay); unfold within; lia).
    split; [| apply (only_ld _ _ _ _ O); [apply Hv | lia]].
    case_decide as Hil; [by subst i | apply (only_ld _ _ _ _ O); [apply Hv | lia]].
Qed.

(** The page where it was not written. *)
Lemma cells_kept T m m' i :
  frame T m m' -> (forall x, T x -> ~ within vid 4000 x) -> 0 <= i < 2000 ->
  page_cell m' i = page_cell m i /\ ld m' (vid + 2 * i + 1) = ld m (vid + 2 * i + 1).
Proof.
  intros O HT Hi. unfold page_cell. split; apply (only_ld _ _ _ _ O);
    try (apply (lay_video lay); unfold within; lia); intros Hx; apply (HT _ Hx); unfold within; lia.
Qed.

(** A change of the local structure. *)
Lemma local_changed m m' l :
  linked_at m l -> frame (within local 16) m m' -> linked_at m' l /\ blink_at m' <$> l = blink_at m <$> l.
Proof.
  intros Hl O. assert (Hst : forall a, slot a -> stored a m m' id).
  { intros a Ha. eapply blink_same; [by apply slot_room | exact O |]. pose proof (slot_bounds a Ha). intros x Hx. place. }
  split; [apply (linked_stored _ m m' l (fun _ => id) Hl O); [intros x Hx; split; place | exact Hst | done] |].
  apply blinks_same; [apply (la_slots _ _ Hl) | exact Hst].
Qed.

(** The command in terms of its steps. *)
Lemma add_eq arg m :
  mp1_ioctl_add blink_array mp1_list_head vmem_base_addr local arg m
  = let m0 := ece391_memcpy local arg STRUCT_SIZE m in
    if 2000 <=? ld16 m0 local then fail_return m0
    else
      let m1 := prepared arg m in
      let a := mp1_malloc blink_array m1 in
      if a =? 0 then fail_return m1
      else
        let m2 := pushed_front a m1 in
        success_return (mp1_poke vmem_base_addr (ld m2 (a + 2)) (u32 (Z.shiftl (ld16 m2 a) 1)) m2).
Proof.
  unfold mp1_ioctl_add, LOCATION. rewrite Z.add_0_r. cbv zeta. fold (prepared arg m).
  change (80 * 25) with 2000. by rewrite Z.add_0_r.
Qed.

Lemma add_spec m l arg :
  linked_at m l -> argument arg -> location (blink_at m arg) <> 0 ->
  let b := blink_at m arg in
  if (2000 <=? location b) || (2000 <=? Z.of_nat (length l)) then
    exists m', mp1_ioctl_add blink_array mp1_list_head vmem_base_addr local arg m = Some (m', u32 (-1)) /\
      linked_at m' l /\ blink_at m' <$> l = blink_at m <$> l /\ only (within local 16) m m'
  else
    exists m' a, mp1_ioctl_add blink_array mp1_list_head vmem_base_addr local arg m = Some (m', 0) /\
      linked_at m' (a :: l) /\ blink_at m' <$> (a :: l) = started b :: (blink_at m <$> l) /\ only work m m' /\
      (forall i, 0 <= i < 2000 -> page_cell m' i = put_face (location b) (on_char b) (page_cell m) i /\
         ld m' (vid + 2 * i + 1) = ld m (vid + 2 * i + 1)).
Proof.
  intros Hl Harg Hnz b. pose proof (linked_ready m l Hl) as Hr.
  destruct (copy_argument m arg Hr Harg) as (O0 & R0 & B0). cbv zeta in *.
  destruct (prepared_spec m arg Hr Harg) as (O1 & R1 & B1). cbv zeta in *. fold b in B0, B1.
  rewrite add_eq. cbv zeta. set (m0 := ece391_memcpy local arg STRUCT_SIZE m) in *. set (m1 := prepared arg m) in *.
  rewrite (f_equal location B0 : ld16 m0 local = location b).
  destruct (2000 <=? location b) eqn:Hloc; cbn [orb].
  { destruct (local_changed m m0 l Hl O0) as [H1 H2]. exists m0. split; [done | split; [exact H1 | split; [exact H2 | exact O0]]]. }
  destruct (local_changed m m1 l Hl O1) as [Hl1 Hb1]. pose proof (malloc_spec m1 l Hl1) as Hmal.
  destruct (2000 <=? Z.of_nat (length l)) eqn:Hlen.
  { exists m1. rewrite Hmal. split; [done | split; [exact Hl1 | split; [exact Hb1 | exact O1]]]. }
  destruct Hmal as [Ha Hal]. set (a := mp1_malloc blink_array m1) in *.
  rewrite (proj2 (Z.eqb_neq a 0)) by by apply slot_nonzero. apply Z.leb_gt in Hloc.
  assert (Hlb : 0 < location b < 2000).
  { pose proof (ld16_range m arg). change (ld16 m arg) with (location b) in *. fold b in Hnz. lia. }
  destruct (front_spec m1 l a Hl1 Ha Hal) as (Hl2 & Hb2 & O2).
  { change (ld16 m1 local) with (location (blink_at m1 local)). by rewrite B1. }
  cbv zeta in *. rewrite B1, Hb1 in Hb2. set (m2 := pushed_front a m1) in *.
  pose proof (f_equal (List.hd (started b)) Hb2 : blink_at m2 a = started b) as Hba.
  destruct (poke_linked m2 (a :: l) (location b) (on_char b) Hl2) as (Hl3 & Hb3 & O3 & C3); [lia | apply ld_byte |].
  cbv zeta in *. set (m3 := mp1_poke vmem_base_addr (on_char b) (u32 (Z.shiftl (location b) 1)) m2) in *.
  exists m3, a. split; [| split; [exact Hl3 | split; [by rewrite Hb3 | split]]].
  - fold m2. change (ld m2 (a + 2)) with (on_char (blink_at m2 a)). change (ld16 m2 a) with (location (blink_at m2 a)).
    rewrite Hba. reflexivity.
  - apply (only_trans _ (within local 16) _ _ m m1 m3 O1 (only_trans _ _ _ work m1 m2 m3 O2 O3 ltac:(unfold work; tauto)
      ltac:(unfold work; tauto))); [unfold work; tauto | done].
  - intros i Hi. destruct (C3 i Hi) as [-> ->].
    destruct (cells_kept _ m m1 i O1) as [E1 F1]; [place | done |].
    destruct (cells_kept _ m1 m2 i O2) as [E2 F2]; [place | done |].
    unfold put_face. rewrite E2, E1, F2, F1. done.
Qed.
(** ** Synchronising two elements *)

(** The moves of [sync_copy_loop]. *)
Definition rhythm_copied (esi edi : Z) (m : M) : M :=
  let m := st16 m (edi + ON_LENGTH) (ld16 m (esi + ON_LENGTH)) in
  let m := st16 m (edi + OFF_LENGTH) (ld16 m (esi + OFF_LENGTH)) in
  let m := st16 m (edi + COUNTDOWN) (ld16 m (esi + COUNTDOWN)) in
  st16 m (edi + STATUS) (ld16 m (esi + STATUS)).

(** The half word at [off] of the target, when the ones before it from
    offset 4 on are written. *)
Lemma move_field m0 m esi edi off f :
  ready m -> slot esi -> slot edi -> off = 4 \/ off = 6 \/ off = 8 \/ off = 10 ->
  only (within (edi + 4) (off - 4)) m0 m -> stored edi m0 m f ->
  let m' := st16 m (edi + off) (ld16 m (esi + off)) in
  only (within (edi + 4) (off - 2)) m0 m' /\ ready m' /\
  stored edi m0 m' (fun b => with_field off (ld16 m0 (esi + off)) (f b)).
Proof.
  intros Hr Hs Hd Hoff O S.
  assert (Hv : ld16 m (esi + off) = ld16 m0 (esi + off)).
  { eapply ld16_field; [by apply slot_room | lia | exact O | |]; intros Hx;
      (destruct (decide (esi = edi)) as [-> | Hne]; [| pose proof (slots_apart _ _ Hs Hd Hne)]); unfold within in *; lia. }
  rewrite Hv. destruct (field_stored m edi off (ld16 m0 (esi + off)) Hr (slot_room edi Hd) Hoff) as (O1 & R1 & S1).
  cbv zeta in *. split; [| split; [exact R1 | exact (stored_trans _ _ _ _ _ _ S S1)]].
  eapply only_trans; [exact O | exact O1 | |]; unfold within; lia.
Qed.

Lemma rhythm_spec m esi edi :
  ready m -> slot esi -> slot edi ->
  let m' := rhythm_copied esi edi m in
  only (within (edi + 4) 8) m m' /\ ready m' /\ stored edi m m' (synced (blink_at m esi)).
Proof.
  intros Hr Hs Hd. unfold rhythm_copied, ON_LENGTH, OFF_LENGTH, COUNTDOWN, STATUS.
  set (w off := with_field off (ld16 m (esi + off))).
  destruct (move_field m m esi edi 4 id Hr Hs Hd) as (O1 & R1 & S1); [lia | apply only_refl | by split |].
  destruct (move_field m _ esi edi 6 (w 4) R1 Hs Hd) as (O2 & R2 & S2); [lia | exact O1 | exact S1 |].
  destruct (move_field m _ esi edi 8 (fun b => w 6 (w 4 b)) R2 Hs Hd) as (O3 & R3 & S3); [lia | exact O2 | exact S2 |].
  destruct (move_field m _ esi edi 10 (fun b => w 8 (w 6 (w 4 b))) R3 Hs Hd) as (O4 & R4 & S4); [lia | exact O3 | exact S3 |].
  cbv zeta in *. split; [exact O4 | split; [exact R4 |]]. destruct S4 as [B N]. unfold stored. split; [| exact N].
  rewrite B. unfold w, with_field, synced. cbn [Z.eqb Pos.eqb location on_char off_char on_length off_length countdown status].
  assert (Hu : forall a, u16 (ld16 m a) = ld16 m a) by (intros a; pose proof (ld16_range m a); mach).
  by rewrite !Hu.
Qed.

(** TEST with the mask 1 never makes the sign flag: the move of
    [mp1_ioctl_sync] is never made. *)
Lemma cmovl_never v : cmovl_after_testb 1 v = false.
Proof. unfold cmovl_after_testb. by rewrite Z.land_spec. Qed.

(** One element changes. *)
Lemma blinks_adjusted m m' l1 a l2 loc f :
  NoDup (l1 ++ a :: l2) -> Forall slot (l1 ++ a :: l2) ->
  Forall (fun b => location b <> loc) (blink_at m <$> l1) -> location (blink_at m a) = loc ->
  (forall c, slot c -> stored c m m' (if decide (c = a) then f else id)) ->
  blink_at m' <$> (l1 ++ a :: l2) = adjusted loc f (blink_at m <$> (l1 ++ a :: l2)).
Proof.
  intros Hn Hs Hn1 Hloc Hst. rewrite !fmap_app, !fmap_cons.
  destruct (split_at loc (blink_at m <$> l1) _ (blink_at m <$> l2) Hn1 Hloc) as (_ & _ & ->).
  apply Forall_app in Hs as [Hs1 Hs]. apply Forall_cons in Hs as [Ha Hs2].
  apply NoDup_app in Hn as (_ & Hd & Hn). apply NoDup_cons in Hn as [Ha2 _].
  assert (Hsame : forall l, Forall slot l -> a ∉ l -> blink_at m' <$> l = blink_at m <$> l).
  { intros l Hsl Hal. apply list_fmap_ext. intros j c Hj. pose proof (Forall_lookup_1 _ _ _ _ Hsl Hj) as Hc.
    apply list_elem_of_lookup_2 in Hj. destruct (Hst c Hc) as [Hb _]. by rewrite decide_False in Hb by (by intros ->). }
  rewrite !Hsame; [| done | done | done | intros H1; apply (Hd a H1); by left].
  destruct (Hst a Ha) as [Hb _]. rewrite decide_True in Hb by done. by rewrite Hb.
Qed.

Lemma rhythm_linked m l1 esi edi l2 loc :
  let l := l1 ++ edi :: l2 in
  linked_at m l -> slot esi -> location (blink_at m edi) = loc ->
  Forall (fun b => location b <> loc) (blink_at m <$> l1) ->
  let m' := rhythm_copied esi edi m in let b' := synced (blink_at m esi) (blink_at m edi) in
  linked_at m' l /\ blink_at m' <$> l = adjusted loc (synced (blink_at m esi)) (blink_at m <$> l) /\
  blink_at m' edi = b' /\ only (within blink_array 32000) m m'.
Proof.
  intros l Hl Hs Hloc Hn1 m' b'. pose proof (la_slots _ _ Hl) as Hsl. pose proof (la_nodup _ _ Hl) as Hnd.
  assert (Hd : slot edi) by (apply (proj1 (Forall_forall _ _) Hsl), elem_of_app; right; by left).
  destruct (rhythm_spec m esi edi (linked_ready m l Hl) Hs Hd) as (O & R & S). fold m' in O, R, S.
  pose proof (slot_bounds edi Hd) as Hb.
  assert (Hst : forall c, slot c -> stored c m m' (if decide (c = edi) then synced (blink_at m esi) else id)).
  { intros c Hc. case_decide as Hce; [subst c; exact S |]. eapply blink_same; [by apply slot_room | exact O |].
    pose proof (slots_apart _ _ Hc Hd Hce). unfold within. lia. }
  split; [| split; [by apply blinks_adjusted | split; [apply S | eapply only_weaken; [exact O |]; unfold within; lia]]].
  apply (linked_stored _ m m' l (fun c => if decide (c = edi) then synced (blink_at m esi) else id) Hl O);
    [intros x Hx; split; place | exact Hst |]. intros c b. by case_decide.
Qed.

Lemma sync_spec fuel m l arg :
  linked_at m l -> (length l < fuel)%nat ->
  match at_loc (Z.shiftr (u32 arg) 16) (blink_at m <$> l), at_loc (u16 arg) (blink_at m <$> l) with
  | Some b0, Some b =>
      exists m', mp1_ioctl_sync mp1_list_head vmem_base_addr fuel arg m = Some (m', 0) /\ linked_at m' l /\
        blink_at m' <$> l = adjusted (u16 arg) (synced b0) (blink_at m <$> l) /\ only work m m' /\
        (forall i, 0 <= i < 2000 -> page_cell m' i = put_face (location b) (off_char b) (page_cell m) i /\
           ld m' (vid + 2 * i + 1) = ld m (vid + 2 * i + 1))
  | _, _ => mp1_ioctl_sync mp1_list_head vmem_base_addr fuel arg m = Some (m, u32 (-1))
  end.
Proof.
  intros Hl Hf. pose proof (linked_ready m l Hl) as Hr. unfold mp1_ioctl_sync.
  assert (Hhi : u16 (Z.shiftr (u32 arg) 16) = Z.shiftr (u32 arg) 16).
  { rewrite Z.shiftr_div_pow2 by lia. change (2 ^ 16) with 65536. pose proof (u32_range arg). mach. }
  assert (Hlo : u16 (Z.land arg 0xFFFF) = u16 arg).
  { change 0xFFFF with (Z.ones 16). rewrite Z.land_ones by lia. change (2 ^ 16) with 65536. mach. }
  pose proof (find_helper_spec fuel m l (Z.shiftr (u32 arg) 16) Hl Hf) as H1. rewrite Hhi in H1.
  pose proof (find_helper_spec fuel m l (Z.land arg 0xFFFF) Hl Hf) as H2. rewrite Hlo in H2.
  destruct H1 as [[He1 ->] | (k1 & esi & k2 & He1 & Hk & Hs & Hloc1 & Hn1)]; rewrite He1; [reflexivity |].
  assert (Ha1 : at_loc (Z.shiftr (u32 arg) 16) (blink_at m <$> l) = Some (blink_at m esi)).
  { rewrite Hk, fmap_app, fmap_cons. by apply split_at. }
  rewrite Ha1. cbn [mbind option_bind]. rewrite (proj2 (Z.eqb_neq esi 0)) by by apply slot_nonzero.
  destruct H2 as [[He2 ->] | (l1 & edi & l2 & He2 & Hll & Hd & Hloc2 & Hn2)]; rewrite He2; [reflexivity |].
  cbn [mbind option_bind]. rewrite (proj2 (Z.eqb_neq edi 0)) by by apply slot_nonzero.
  clear Hk. subst l. destruct (rhythm_linked m l1 esi edi l2 _ Hl Hs Hloc2 Hn2) as (Hl' & Hb' & Hbe & O). cbv zeta in *.
  assert (Ha2 : at_loc (u16 arg) (blink_at m <$> l1 ++ edi :: l2) = Some (blink_at m edi)).
  { rewrite fmap_app, fmap_cons. by apply split_at. }
  rewrite Ha2. fold (rhythm_copied esi edi m). set (m1 := rhythm_copied esi edi m) in *. set (b := blink_at m edi) in *.
  pose proof (linked_location m _ Hl) as Hrange. rewrite fmap_app, fmap_cons in Hrange.
  apply Forall_app in Hrange as [_ Hrange]. apply Forall_cons in Hrange as [Hrange _]. fold b in Hrange. cbv beta in Hrange.
  destruct (poke_linked m1 (l1 ++ edi :: l2) (location b) (off_char b) Hl') as (Hl2 & Hb2 & O2 & C2); [lia | apply ld_byte |].
  cbv zeta in *. set (m2 := mp1_poke vmem_base_addr (off_char b) (u32 (Z.shiftl (location b) 1)) m1) in *.
  exists m2. split; [| split; [exact Hl2 | split; [by rewrite Hb2 | split]]].
  - unfold LOCATION, OFF_CHAR. rewrite cmovl_never, Z.add_0_r. change (ld m1 (edi + 3)) with (off_char (blink_at m1 edi)).
    change (ld16 m1 edi) with (location (blink_at m1 edi)). rewrite Hbe. reflexivity.
  - apply (only_trans _ _ _ _ m m1 m2 O O2); unfold work; tauto.
  - intros i Hi. destruct (C2 i Hi) as [-> ->]. destruct (cells_kept _ m m1 i O) as [E1 F1]; [place | done |].
    unfold put_face. rewrite E1, F1. done.
Qed.
(** ** Finding an element for the program *)

(** A change outside of the data of the routines. *)
Lemma outside_linked T m m' l :
  linked_at m l -> frame T m m' -> (forall x, T x -> ~ work x /\ ~ within vmem_base_addr 4 x) ->
  linked_at m' l /\ blink_at m' <$> l = blink_at m <$> l.
Proof.
  intros Hl O HT.
  assert (Hst : forall a, slot a -> stored a m m' id).
  { intros a Ha. eapply blink_same; [by apply slot_room | exact O |]. intros x Hx Ht. apply HT in Ht as [Ht _].
    apply Ht. by apply (slot_room a Ha). }
  split; [| apply blinks_same; [apply (la_slots _ _ Hl) | exact Hst]].
  apply (linked_stored _ m m' l (fun _ => id) Hl O); [| exact Hst | done]. intros x Hx. apply HT in Hx as [Hx Hv].
  split; [| exact Hv]. intros Hh. apply Hx. by right; left.
Qed.

Lemma find_spec fuel m l arg :
  linked_at m l -> argument arg -> (length l < fuel)%nat ->
  exists m1, only (within local 16) m m1 /\
  match at_loc (location (blink_at m arg)) (blink_at m <$> l) with
  | None => mp1_ioctl_find mp1_list_head local fuel arg m = Some (m1, u32 (-1))
  | Some b => exists m', mp1_ioctl_find mp1_list_head local fuel arg m = Some (m', 0) /\
      only (within arg 16) m1 m' /\ blink_at m' arg = b
  end.
Proof.
  intros Hl Ha Hf. unfold mp1_ioctl_find. set (m1 := ece391_memcpy local arg 2 m). exists m1.
  destruct (memcpy_only owned local arg 2 m (la_clean _ _ Hl)) as [O1 E1].
  { intros x Hx. apply (lay_local lay). unfold within in *. lia. }
  { intros x Hx. destruct (Ha x) as (H1 & H2 & _); [unfold within in *; lia |]. split; [exact H1 |].
    intros Hx'. apply H2. right; right; right. unfold within in *. lia. }
  change (ece391_memcpy local arg (Z.of_nat 2) m) with m1 in O1, E1. change (Z.of_nat 2) with 2 in O1, E1.
  assert (O : only (within local 16) m m1) by (eapply only_weaken; [exact O1 | unfold within; lia]).
  split; [exact O |]. destruct (local_changed m m1 l Hl O) as [Hl1 Hb1].
  assert (Hloc : ld16 m1 local = location (blink_at m arg)).
  { change (location (blink_at m arg)) with (ld16 m arg). unfold ld16. rewrite <- (Z.add_0_r local) at 1.
    rewrite <- (Z.add_0_r arg) at 1. by rewrite !E1 by lia. }
  assert (Hu : u16 (ld16 m1 local) = ld16 m1 local) by (pose proof (ld16_range m1 local); mach).
  pose proof (find_helper_spec fuel m1 l (ld16 m1 local) Hl1 Hf) as H2. rewrite Hu, Hloc, Hb1 in H2. rewrite Hloc.
  destruct H2 as [[He ->] | (l1 & a & l2 & He & -> & Hs & Hla & Hn)]; rewrite He; [reflexivity |].
  assert (Hat : at_loc (location (blink_at m arg)) (blink_at m <$> l1 ++ a :: l2) = Some (blink_at m1 a)).
  { rewrite <- Hb1, fmap_app, fmap_cons. by apply split_at. }
  rewrite Hat. cbn [mbind option_bind]. rewrite (proj2 (Z.eqb_neq a 0)) by by apply slot_nonzero.
  destruct (memcpy_only owned arg a 16 m1 (la_clean _ _ Hl1)) as [O2 E2].
  { intros x Hx. by apply Ha. }
  { intros x Hx. destruct (slot_room a Hs x Hx) as [H1 H2]. split; [exact H1 |]. intros Hx'.
    by destruct (Ha x Hx') as (_ & H3 & _). }
  eexists. split; [reflexivity |]. split; [exact O2 |]. apply blink_copied. intros i Hi. apply E2. lia.
Qed.

(** ** The commands and the tick, against the plain list *)

(** What a command makes of the list and which characters it draws; [None]:
    it fails. *)
Definition ioctl_spec (b : blink) (arg cmd : Z) (bs : list blink) : option (list blink * list (Z * Z)) :=
  match cmd with
  | 0 => if (2000 <=? location b) || (2000 <=? Z.of_nat (length bs)) then None
         else Some (started b :: bs, [(location b, on_char b)])
  | 1 => _ ← at_loc (u16 arg) bs; Some (removed (u16 arg) bs, [])
  | 2 => _ ← at_loc (location b) bs; Some (bs, [])
  | 3 => b0 ← at_loc (Z.shiftr (u32 arg) 16) bs; b1 ← at_loc (u16 arg) bs;
         Some (adjusted (u16 arg) (synced b0) bs, [(location b1, off_char b1)])
  | _ => None
  end.

Definition put_faces (draws : list (Z * Z)) (s : Z -> Z) : Z -> Z := foldl (fun s d => put_face d.1 d.2 s) s draws.
(** The page shows [s]; the attributes are those of [m]. *)
Definition page_is (m m' : M) (s : Z -> Z) : Prop :=
  forall i, 0 <= i < 2000 -> page_cell m' i = s i /\ ld m' (vid + 2 * i + 1) = ld m (vid + 2 * i + 1).

Definition touched (arg cmd : Z) (x : Z) : Prop := work x \/ (cmd = RTC_FIND /\ within arg 16 x).

Lemma page_same T m m' : frame T m m' -> (forall x, T x -> ~ within vid 4000 x) -> page_is m m' (page_cell m).
Proof. intros O HT i. by apply (cells_kept T). Qed.

(** C17: the commands of [mp1_ioctl] on the linked list in the static array
    do to it what [ioctl_spec] does to a plain list: add puts a started copy
    of the structure at the front, unless its location is off the screen or
    the array is full; remove takes out the first element at the location;
    find copies it to the program; sync gives the second element the rhythm
    of the first.  They return 0 or -1 accordingly, draw exactly the
    characters of the specification and change nothing but their own data,
    the page and, for find, the structure of the program. *)
Theorem ioctl_refines fuel m bs arg cmd :
  linked m bs -> (length bs < fuel)%nat -> 0 <= cmd < 4 ->
  (cmd = RTC_ADD \/ cmd = RTC_FIND -> argument arg) ->
  (cmd = RTC_ADD -> location (blink_at m arg) <> 0) ->
  exists m' ret, mp1_ioctl blink_array mp1_list_head vmem_base_addr local fuel arg cmd m = Some (m', ret) /\
    only (touched arg cmd) m m' /\
    match ioctl_spec (blink_at m arg) arg cmd bs with
    | None => ret = u32 (-1) /\ linked m' bs /\ page_is m m' (page_cell m)
    | Some (bs', draws) => ret = 0 /\ linked m' bs' /\ page_is m m' (put_faces draws (page_cell m)) /\
        (cmd = RTC_FIND -> at_loc (location (blink_at m arg)) bs = Some (blink_at m' arg))
    end.
Proof.
  intros (l & Hl & ->) Hf Hcmd Harg Hnz. rewrite length_fmap in Hf.
  assert (Hw : forall x, within local 16 x -> touched arg cmd x) by (intros x Hx; left; by right; right; right).
  assert (Hc : cmd = 0 \/ cmd = 1 \/ cmd = 2 \/ cmd = 3) by lia. unfold RTC_ADD, RTC_FIND in *.
  destruct Hc as [-> | [-> | [-> | ->]]]; cbn [mp1_ioctl ioctl_spec].
  - pose proof (add_spec m l arg Hl (Harg ltac:(by left)) (Hnz eq_refl)) as Ha. cbv zeta in Ha. rewrite length_fmap.
    destruct ((2000 <=? location (blink_at m arg)) || (2000 <=? Z.of_nat (length l))).
    + destruct Ha as (m' & He & Hl' & Hb' & O). exists m', (u32 (-1)). split_and!; try done.
      * by eapply only_weaken; [exact O |].
      * by exists l.
      * eapply page_same; [exact O | place].
    + destruct Ha as (m' & a & He & Hl' & Hb' & O & Hp). exists m', 0. split_and!; try done.
      * eapply only_weaken; [exact O | by left].
      * by exists (a :: l).
  - pose proof (remove_spec fuel m l arg Hl Hf) as Hr. destruct (at_loc (u16 arg) (blink_at m <$> l)); cbn [mbind option_bind].
    + destruct Hr as (m' & l' & He & Hl' & Hb' & O). exists m', 0. split_and!; try done.
      * eapply only_weaken; [exact O |]. unfold touched, work. tauto.
      * by exists l'.
      * eapply page_same; [exact O | intros x; place].
    + exists m, (u32 (-1)). split_and!; try done; (apply only_refl || by exists l).
  - destruct (find_spec fuel m l arg Hl (Harg ltac:(by right)) Hf) as (m1 & O1 & Hm).
    destruct (local_changed m m1 l Hl O1) as [Hl1 Hb1].
    destruct (at_loc (location (blink_at m arg)) (blink_at m <$> l)) as [b |]; cbn [mbind option_bind].
    + destruct Hm as (m' & He & O2 & Hb). exists m', 0.
      destruct (outside_linked _ m1 m' l Hl1 O2) as [Hl2 Hb2].
      { intros x Hx. by apply (Harg ltac:(by right)). }
      assert (O : only (touched arg 2) m m') by (eapply only_trans; [exact O1 | exact O2 | exact Hw | by right]).
      split_and!; try done.
      * exists l. split; [exact Hl2 | by rewrite Hb2].
      * eapply page_same; [eapply (only_trans _ _ (within arg 16) (fun x => within local 16 x \/ within arg 16 x));
          [exact O1 | exact O2 | by left | by right] |].
        intros x [Hx | Hx]; [place |]. destruct (Harg ltac:(by right) x Hx) as (_ & H2 & _).
        intros Hv. apply H2. by right; right; left.
      * intros _. by rewrite Hb.
    + exists m1, (u32 (-1)). split_and!; try done.
      * by eapply only_weaken; [exact O1 |].
      * by exists l.
      * eapply page_same; [exact O1 | place].
  - pose proof (sync_spec fuel m l arg Hl Hf) as Hs.
    destruct (at_loc (Z.shiftr (u32 arg) 16) (blink_at m <$> l)) as [b0 |]; cbn [mbind option_bind];
      [destruct (at_loc (u16 arg) (blink_at m <$> l)) as [b1 |]; cbn [mbind option_bind] |].
    + destruct Hs as (m' & He & Hl' & Hb' & O & Hp). exists m', 0. split_and!; try done.
      * eapply only_weaken; [exact O | by left].
      * by exists l.
    + exists m, (u32 (-1)). split_and!; try done; (apply only_refl || by exists l).
    + exists m, (u32 (-1)). split_and!; try done; (apply only_refl || by exists l).
Qed.

(** C18: a tick of the clock steps every element of the list once, in its
    order, returns for any list that the array can hold, and the page then
    shows what the elements whose countdown ended draw, a later one over an
    earlier one; nothing else changes. *)
Theorem tasklet_refines fuel m bs :
  linked m bs -> (length bs < fuel)%nat ->
  exists m', mp1_rtc_tasklet mp1_list_head vmem_base_addr fuel m = Some m' /\
    linked m' (tick <$> bs) /\ page_is m m' (foldl draw_tick (page_cell m) bs) /\
    only (fun x => within blink_array 32000 x \/ within vid 4000 x) m m'.
Proof.
  intros (l & Hl & ->) Hf. rewrite length_fmap in Hf.
  destruct (tasklet_list fuel l m _ (linked_ready m l Hl) (la_chain _ _ Hl) (la_nodup _ _ Hl) (la_slots _ _ Hl)
    (la_range _ _ Hl) Hf) as (m' & He & O & S & C).
  exists m'. split; [exact He |]. split; [| split; [exact C | exact O]]. exists l. split.
  - apply (linked_stored _ m m' l (fun a => if decide (a ∈ l) then tick else id) Hl O);
      [intros x Hx; split; place | exact S |]. intros a b. by case_decide.
  - rewrite <- list_fmap_compose. apply list_fmap_ext. intros j a Hj.
    pose proof (Forall_lookup_1 _ _ _ _ (la_slots _ _ Hl) Hj) as Ha. apply list_elem_of_lookup_2 in Hj.
    destruct (S a Ha) as [Hb _]. rewrite decide_True in Hb by done. by rewrite Hb.
Qed.
End linked.

(** ** The start, and a location that is not a location *)

Section start.
Context {M : Type} `{MemLaws M}.
Implicit Types m : M.
Variable owned : Z -> Prop.
Variable blink_array mp1_list_head vmem_base_addr local vid : Z.
Hypothesis lay : layout owned blink_array mp1_list_head vmem_base_addr local vid.

(** The array of zeros with a null head is the empty list. *)
Lemma cleared_linked m :
  clean owned m -> ld32 m vmem_base_addr = vid -> ld32 m mp1_list_head = 0 ->
  (forall x, within blink_array 32000 x -> ld m x = 0) ->
  linked owned blink_array mp1_list_head vmem_base_addr vid m [].
Proof.
  intros Hc Hv Hh Hz. exists []. split; [| done]. split; try done; try apply NoDup_nil; try apply Forall_nil; try done.
  intros a Ha. split; [by intros ?%elem_of_nil |]. intros Hn. destruct Hn. unfold ld16.
  apply slot_bounds in Ha. rewrite !Hz; [done | unfold within; lia..].
Qed.

(** An element that links to itself keeps the tick busy for ever. *)
Lemma self_link_spins fuel a : forall m,
  ready owned vmem_base_addr vid m -> slot blink_array a -> ld16 m a < 2000 -> next_at m a = a ->
  loop fuel (tasklet_turn vmem_base_addr) (a, m) = None.
Proof.
  induction fuel as [| fuel IH]; intros m Hr Ha Hla Hself; [done |]. cbn [loop tasklet_turn].
  rewrite (proj2 (Z.eqb_neq a 0)) by (eapply slot_nonzero; [exact lay | exact Ha]).
  destruct (visit_all owned blink_array mp1_list_head vmem_base_addr local vid lay m a Hr Ha Hla) as (_ & R & S & _).
  cbv zeta in *. destruct (S a Ha) as [Hb Hn]. rewrite decide_True in Hb by done.
  change (ld32 (tasklet_visit vmem_base_addr a m) (a + NEXT)) with (next_at (tasklet_visit vmem_base_addr a m) a).
  rewrite Hn, Hself. apply IH; [exact R | exact Ha | | by rewrite Hn].
  change (location (blink_at (tasklet_visit vmem_base_addr a m) a) < 2000). by rewrite Hb.
Qed.
End start.

(** ** Witnesses *)

(** A program with its data in the first half megabyte. *)
Definition desk_owned (x : Z) : Prop := 0 <= x < 4294967296.

Lemma desk_layout : layout desk_owned 0x10000 0x300 0x200 0x400 0xB8000.
Proof. split; unfold desk_owned, within, disjoint; lia. Qed.

Lemma flat_clean (m : flat) : clean desk_owned m.
Proof.
  split; [by eexists |]. intros a b Ha Hb He. cbn [loc flat_ops] in He. injection He as He.
  unfold desk_owned in *. by rewrite !u32_small in He.
Qed.

Definition desk_struct (loc : Z) : list Z := [loc; 0; 65; 66; 2; 0; 3; 0; 0; 0; 0; 0; 0; 0; 0; 0].

Definition desk (loc : Z) : flat := st32 (write (Flat ∅) 0x100 (desk_struct loc)) 0x200 0xB8000.

Lemma desk_linked loc : linked desk_owned 0x10000 0x300 0x200 0xB8000 (desk loc) [].
Proof.
  pose proof (flat_clean (Flat ∅)) as Hc.
  assert (O1 : only desk_owned (within 0x100 16) (Flat ∅) (write (Flat ∅) 0x100 (desk_struct loc))).
  { apply (write_only desk_owned (Flat ∅) 0x100 (desk_struct loc) Hc). unfold desk_owned, within. cbn [length desk_struct]. lia. }
  destruct (st32_only desk_owned (write (Flat ∅) 0x100 (desk_struct loc)) 0x200 0xB8000) as [O2 E2];
    [apply flat_clean | unfold desk_owned; lia |].
  assert (Hz : forall x, desk_owned x -> ~ within 0x100 16 x -> ~ within 0x200 4 x -> ld (desk loc) x = 0).
  { intros x Ho H1 H2. unfold desk. by rewrite (only_ld _ _ _ _ O2), (only_ld _ _ _ _ O1) by done. }
  apply cleared_linked.
  - apply flat_clean.
  - apply E2. lia.
  - rewrite ld32_sum, !Hz; [done | unfold desk_owned, within; lia..].
  - intros x Hx. apply Hz; unfold desk_owned, within in *; lia.
Qed.

Lemma desk_argument : argument desk_owned 0x10000 0x300 0x200 0x400 0xB8000 0x100.
Proof. unfold argument, work, desk_owned, within. lia. Qed.

Lemma desk_blink : blink_at (desk 45) 0x100 = Blink 45 65 66 2 3 0 0.
Proof. vm_compute. reflexivity. Qed.

Lemma ioctl_refines_witness :
  exists m', mp1_ioctl 0x10000 0x300 0x200 0x400 3 0x100 RTC_ADD (desk 45) = Some (m', 0) /\
    linked desk_owned 0x10000 0x300 0x200 0xB8000 m' [Blink 45 65 66 2 3 2 1] /\ page_cell 0xB8000 m' 45 = 65.
Proof.
  destruct (ioctl_refines desk_owned 0x10000 0x300 0x200 0x400 0xB8000 desk_layout 3 (desk 45) [] 0x100 RTC_ADD
    (desk_linked 45)) as (m' & ret & He & _ & Hm).
  - cbn [length]. lia.
  - unfold RTC_ADD. lia.
  - intros _. exact desk_argument.
  - intros _. rewrite desk_blink. discriminate.
  - rewrite desk_blink in Hm. destruct Hm as (-> & Hl & Hp & _). exists m'. split; [exact He |]. split; [exact Hl |].
    destruct (Hp 45) as [Hc _]; [lia | exact Hc].
Defined.

Lemma tasklet_refines_witness :
  exists m m', linked desk_owned 0x10000 0x300 0x200 0xB8000 m [Blink 45 65 66 2 3 2 1] /\
    mp1_rtc_tasklet 0x300 0x200 3 m = Some m' /\
    linked desk_owned 0x10000 0x300 0x200 0xB8000 m' [Blink 45 65 66 2 3 1 1].
Proof.
  destruct (desk_linked 45) as (l & Hl & Hn). symmetry in Hn. apply fmap_nil_inv in Hn. subst l.
  pose proof (add_spec desk_owned 0x10000 0x300 0x200 0x400 0xB8000 desk_layout (desk 45) [] 0x100 Hl desk_argument) as Ha.
  rewrite desk_blink in Ha. destruct (Ha ltac:(discriminate)) as (m & a & _ & Hm & Hb & _).
  assert (Hlk : linked desk_owned 0x10000 0x300 0x200 0xB8000 m [Blink 45 65 66 2 3 2 1]) by (exists [a]; by split).
  destruct (tasklet_refines desk_owned 0x10000 0x300 0x200 0x400 0xB8000 desk_layout 3 m _ Hlk) as (m' & He & Hl' & _);
    [cbn [length]; lia |].
  exists m, m'. split; [exact Hlk |]. split; [exact He | exact Hl'].
Defined.

(** Two additions of a structure with location 0: both report success, but
    the allocator takes a location of 0 for a free slot and hands out the
    same one again, which then links to itself. *)
Definition add_desk (m : flat) : reply := mp1_ioctl 0x10000 0x300 0x200 0x400 3 0x100 RTC_ADD m.

Definition added_once : flat := from_option fst (Flat ∅) (add_desk (desk 0)).
Definition added_twice : flat := from_option fst (Flat ∅) (add_desk added_once).

Lemma location_zero_spins fuel :
  snd <$> add_desk (desk 0) = Some 0 /\ snd <$> add_desk added_once = Some 0 /\
  mp1_rtc_tasklet 0x300 0x200 fuel added_twice = None.
Proof.
  split; [vm_compute; reflexivity |]. split; [vm_compute; reflexivity |]. unfold mp1_rtc_tasklet.
  assert (Hh : ld32 added_twice 0x300 = 0x10000) by (vm_compute; reflexivity). rewrite Hh.
  apply (self_link_spins desk_owned 0x10000 0x300 0x200 0x400 0xB8000 desk_layout).
  - split; [apply flat_clean | vm_compute; reflexivity].
  - exists 0. lia.
  - vm_compute. reflexivity.
  - vm_compute. reflexivity.
Qed.
