(* ===== verification/Userdev.v ===== *)
(** * Programs on devices: the interface

    What programs rely on beyond Userland.v: several open files at a time,
    the clock, and the page of video memory that vidmap hands out.
    [DeviceSpec] extends [SysSpec]; the kernel is shown to keep it in
    Kerneldev.v.  With it pingpong, whose frames follow the ticks. *)

From S2P Require Import Prelude Memory Lib Userland.

#[local] Open Scope user_scope.

(** ** The view of a program *)

(** What a name in the directory stands for: a file with its bytes, or the
    clock with the ticks that are still to come. *)
Inductive item := File (l : list Z) | Clock (ticks : nat).

Class DeviceView (W : Type) := {
  (** an open descriptor of the clock, before [n] more ticks *)
  clock : W -> Z -> nat -> Prop;
  (** a descriptor of a file that was closed *)
  closed : W -> Z -> Prop;
  (** the page of video memory is at an address *)
  video : W -> Z -> Prop;
  (** the page tables are as vidmap needs them *)
  mappable : W -> Prop;
  (** these names can be opened, one after the other *)
  openable : W -> list (list Z * item) -> Prop
}.

Section view.
Context {W : Type} `{SysView W, SysCalls W, DeviceView W}.

(** Nothing else changes: the other descriptors, and where memory is. *)
Record others_kept (fd : option Z) (w w' : W) : Prop := OthersKept {
  ok_loc : forall a, loc w' a = loc w a;
  ok_stream : forall i l, Some i <> fd -> stream w i l -> stream w' i l;
  ok_closed : forall i, Some i <> fd -> closed w i -> closed w' i;
  ok_video : forall b, video w b -> video w' b;
  ok_mappable : mappable w -> mappable w'
}.

Definition clocks_kept (w w' : W) : Prop := forall i n, clock w i n -> clock w' i n.
Definition openable_kept (w w' : W) : Prop := forall its, openable w its -> openable w' its.
Definition page_kept (w w' : W) : Prop := forall b i, video w b -> 0 <= i < 4000 -> ld w' (b + i) = ld w (b + i).

(** A store of the program changes nothing but memory. *)
Record stays (w w' : W) : Prop := Stays {
  stays_good : good w';
  stays_others : others_kept None w w';
  stays_clocks : clocks_kept w w';
  stays_openable : openable_kept w w'
}.

(** A call that shows nothing and changes no memory of the program outside
    of [touched], nor the page. *)
Record silent (fd : option Z) (w w' : W) (touched : Z -> Prop) : Prop := Silent {
  silent_after : after w w' [] touched;
  silent_others : others_kept fd w w';
  silent_page : page_kept w w'
}.
End view.

Class DeviceSpec (W : Type) `{SysSpec W, DeviceView W} : Prop := {
  dev_range (w : W) b : video w b -> 0 <= b /\ b + 4000 <= 4294967296;
  dev_mapped (w : W) b i : good w -> video w b -> 0 <= i < 4000 -> is_Some (loc w (b + i));
  dev_distinct (w : W) b i j : good w -> video w b -> 0 <= i < 4000 -> 0 <= j < 4000 ->
    loc w (b + i) = loc w (b + j) -> i = j;
  dev_apart (w : W) b a i : good w -> video w b -> user_addr a -> 0 <= i < 4000 -> loc w a <> loc w (b + i);
  dev_store (w : W) a v : good w -> user_addr a -> stays w (st w a v);
  dev_poke (w : W) b i v : good w -> video w b -> 0 <= i < 4000 -> stays w (st w (b + i) v);
  dev_vidmap (w : W) p : good w -> mappable w -> users p 4 ->
    exists b w', ece391_vidmap p w = Returns 0 w' /\ after w w' [] (within p 4) /\ video w' b /\ ld32 w' p = b /\
      b <> 0 /\ (forall a, user_addr a -> loc w' a = loc w a) /\ openable_kept w w';
  dev_open (w : W) p name it rest : good w -> openable w ((name, it) :: rest) ->
    terminated NUL (chars w p) name -> users p (Z.of_nat (length name) + 1) ->
    exists fd w', ece391_open p w = Returns fd w' /\ 0 <= fd /\ silent (Some fd) w w' nowhere /\ clocks_kept w w' /\
      (forall l, ~ stream w fd l) /\ (forall n, ~ clock w fd n) /\
      match it with File l => stream w' fd l | Clock n => clock w' fd n end /\ openable w' rest;
  dev_read (w : W) fd l buf n : good w -> stream w fd l -> 0 <= n -> user_addr buf -> users buf n ->
    let c := Z.min n (Z.of_nat (length l)) in
    exists w', ece391_read fd buf n w = Returns c w' /\ silent (Some fd) w w' (within buf c) /\ clocks_kept w w' /\
      bytes w' buf (Z.to_nat c) = take (Z.to_nat c) l /\ stream w' fd (drop (Z.to_nat c) l);
  dev_close (w : W) fd l : good w -> stream w fd l ->
    exists w', ece391_close fd w = Returns 0 w' /\ silent (Some fd) w w' nowhere /\ clocks_kept w w' /\ closed w' fd;
  dev_close_again (w : W) fd : good w -> closed w fd ->
    exists w', ece391_close fd w = Returns (-1) w' /\ silent None w w' nowhere /\ clocks_kept w w';
  dev_close_clock (w : W) fd n : good w -> clock w fd n ->
    exists w', ece391_close fd w = Returns 0 w' /\ silent None w w' nowhere /\ clocks_kept w w';
  dev_rate (w : W) fd n buf : good w -> clock w fd n -> users buf 4 -> ld32 w buf = 32 ->
    exists w', ece391_write fd buf 4 w = Returns 0 w' /\ silent None w w' nowhere /\ clocks_kept w w';
  dev_tick (w : W) fd n buf : good w -> clock w fd (S n) -> user_addr buf ->
    exists w', ece391_read fd buf 4 w = Returns 0 w' /\ silent None w w' nowhere /\ clock w' fd n;
  dev_wait (w : W) fd buf : good w -> clock w fd 0 -> user_addr buf ->
    exists w', ece391_read fd buf 4 w = Stops w' /\ display w' = display w;
  dev_write (w : W) buf n : good w -> 0 <= n <= limit -> user_addr buf -> users buf n ->
    exists w', ece391_write 1 buf n w = Returns n w' /\
      after w w' (bytes w buf (Z.to_nat n)) nowhere /\ clocks_kept w w'
}.

(** ** ece391pingpong.c *)

Section pingpong.
Context {W : Type} `{SysCalls W}.
Variable lit_addr : string -> Z.
Variable fuel : nat.
(** The locals that have an address. *)
Variable buf ret_val garbage : Z.

Definition SCREENWIDTH : Z := 79.
Definition ENDING : Z := 2.
Definition BUFMAX : Z := SCREENWIDTH + ENDING.
Definition START : Z := 1.
Definition STARTLOOP : Z := START + 1.
Definition LOOPMAX : Z := BUFMAX - ENDING - 1.
Definition STARTCHAR : Z := 65.
Definition ENDCHAR : Z := 90.
Definition SPACE : Z := 32.
Definition BAR : Z := 124.

Definition fill (from to : Z) (w : W) : W :=
  for_loop (Z.to_nat (to - from)) from (fun i w => st w (buf + i) SPACE) w.

(** The loops at the start. *)
Definition walls (w : W) : W :=
  let w := fill 0 BUFMAX w in
  let w := st w (buf + (BUFMAX - 1)) NUL in
  let w := st w (buf + (BUFMAX - 2)) NEWLINE in
  let w := st w (buf + (BUFMAX - 3)) BAR in
  st w (buf + START) BAR.

(** One turn of either inner loop. *)
Definition show_frame (rtc_fd curchar j : Z) : U W unit :=
  u_modify (fill STARTLOOP LOOPMAX);;
  u_modify (fun w => st w (buf + j) curchar);;
  ece391_fdputs fuel 1 buf;;
  ece391_read rtc_fd garbage 4;;
  u_ret tt.

Fixpoint move_out (n : nat) (rtc_fd curchar j : Z) : U W unit :=
  match n with
  | O => u_ret tt
  | S n' => show_frame rtc_fd curchar j;; move_out n' rtc_fd curchar (j + 1)
  end.

Fixpoint move_back (n : nat) (rtc_fd curchar j : Z) : U W unit :=
  match n with
  | O => u_ret tt
  | S n' => show_frame rtc_fd curchar j;; move_back n' rtc_fd curchar (j - 1)
  end.

Definition next_char (curchar : Z) : Z := if curchar =? ENDCHAR then STARTCHAR else u8 (curchar + 1).

Fixpoint pingpong_loop (n : nat) (rtc_fd curchar : Z) : U W Z :=
  match n with
  | O => u_stop
  | S n' =>
      move_out (Z.to_nat (LOOPMAX - STARTLOOP)) rtc_fd curchar STARTLOOP;;
      move_back (Z.to_nat (LOOPMAX - STARTLOOP)) rtc_fd curchar (LOOPMAX - 1);;
      pingpong_loop n' rtc_fd (next_char curchar)
  end.

Definition pingpong_main : U W Z :=
  u_modify walls;;
  rtc_fd <- ece391_open (lit_addr "rtc");;
  u_modify (fun w => st32 w ret_val 32);;
  r <- ece391_write rtc_fd ret_val 4;;
  u_modify (fun w => st32 w ret_val (u32 r));;
  pingpong_loop fuel rtc_fd STARTCHAR.
End pingpong.

(** ** Stores of a program *)

Section verified.
Context {W : Type} `{DeviceSpec W}.
#[local] Existing Instance spec_mem.
Implicit Types w : W.

Lemma stays_refl w : good w -> stays w w.
Proof. intros Hg. split; [done | by split | by intros i n Hc | by intros its Hi]. Qed.

Lemma others_trans fd w1 w2 w3 : others_kept fd w1 w2 -> others_kept fd w2 w3 -> others_kept fd w1 w3.
Proof. intros [A1 A2 A3 A4 A5] [B1 B2 B3 B4 B5]. split; auto. intros a. by rewrite B1, A1. Qed.

Lemma stays_trans w1 w2 w3 : stays w1 w2 -> stays w2 w3 -> stays w1 w3.
Proof.
  intros [G1 O1 C1 P1] [G2 O2 C2 P2]. split; [done | by eapply others_trans | |].
  - intros i n Hc. by apply C2, C1.
  - intros its Hi. by apply P2, P1.
Qed.

(** A change of the program's own memory. *)
Record written (w w' : W) (T : Z -> Prop) : Prop := Written {
  written_after : after w w' [] T;
  written_stays : stays w w'
}.

Lemma written_refl w T : good w -> written w w T.
Proof. intros Hg. split; [by split | by apply stays_refl]. Qed.

Lemma written_trans w1 w2 w3 T1 T2 T :
  written w1 w2 T1 -> written w2 w3 T2 -> (forall x, T1 x -> T x) -> (forall x, T2 x -> T x) -> written w1 w3 T.
Proof.
  intros [A1 S1] [A2 S2] HT1 HT2. split; [| by eapply stays_trans]. by apply (after_trans w1 w2 w3 [] [] T1 T2).
Qed.

Lemma written_weaken w w' T1 T : written w w' T1 -> (forall x, T1 x -> T x) -> written w w' T.
Proof. intros [A S] HT. split; [by eapply after_weaken | done]. Qed.

Lemma written_ld w w' T a : written w w' T -> user_addr a -> ~ T a -> ld w' a = ld w a.
Proof. intros [[_ _ Hm] _]. apply Hm. Qed.

Lemma written_good w w' T : written w w' T -> good w'.
Proof. intros [[Hg _ _] _]. exact Hg. Qed.

Lemma st_written w a v : good w -> user_addr a -> written w (st w a v) (eq a) /\ ld (st w a v) a = u8 v.
Proof.
  intros Hg Ha. split; [split; [by apply law_store | by apply dev_store] |].
  rewrite (ld_user_st w) by done. by rewrite decide_True.
Qed.

Lemma write_written l : forall w a,
  good w -> users a (Z.of_nat (length l)) -> written w (write w a l) (within a (Z.of_nat (length l))).
Proof.
  induction l as [| v l IH]; intros w a Hg Hu; [by apply written_refl |]. cbn [write length].
  assert (Ha : user_addr a) by (replace a with (a + 0) by lia; apply Hu; cbn [length]; lia).
  destruct (st_written w a v Hg Ha) as [Hw _].
  eapply written_trans; [exact Hw | apply IH | |].
  - by eapply written_good.
  - intros i Hi. replace (a + 1 + i) with (a + (i + 1)) by lia. apply Hu. cbn [length]. lia.
  - intros x <-. unfold within. lia.
  - unfold within. intros x Hx. lia.
Qed.

Lemma written_st w0 w a v T : written w0 w T -> user_addr a -> T a -> written w0 (st w a v) T.
Proof.
  intros Hw Ha HT. destruct (st_written w a v (written_good _ _ _ Hw) Ha) as [Hs _].
  eapply written_trans; [exact Hw | exact Hs | done |]. by intros x <-.
Qed.

(** A word for the system. *)
Lemma st32_written w a v :
  good w -> users a 4 -> 0 <= v < 4294967296 -> written w (st32 w a v) (within a 4) /\ ld32 (st32 w a v) a = v.
Proof.
  intros Hg Hu Hv. split.
  - rewrite st32_write. set (l := [u8 v; u8 (Z.shiftr v 8); u8 (Z.shiftr v 16); u8 (Z.shiftr v 24)]).
    exact (write_written l w a Hg Hu).
  - apply ld32_st32; [| done]. split; [intros i Hi; apply law_mapped; [done | by apply Hu] |].
    intros i j Hi Hj He. enough (a + i = a + j) by lia. apply (law_distinct w); [done | by apply Hu | by apply Hu | done].
Qed.

(** A program that ends in a call that does not come back, or in a loop that
    waits. *)
Definition stops_showing (w : W) {A} (r : result W A) (l : list Z) : Prop :=
  exists w', r = Stops w' /\ display w' = foldl show (display w) l.

(** ** pingpong *)

Section pingpong.
Variable lit_addr : string -> Z.
Variable fuel : nat.
Variable buf ret_val garbage : Z.
Hypothesis buf_users : users buf 81.
Hypothesis garbage_user : user_addr garbage.
Hypothesis long_fuel : (80 < fuel)%nat.
Hypothesis long_limit : 80 <= limit.

Lemma buf_user i : 0 <= i < 81 -> user_addr (buf + i). Proof. apply buf_users. Qed.

Lemma fill_from w n : forall i,
  good w -> 0 <= i -> i + Z.of_nat n <= 81 ->
  let w' := for_loop n i (fun i w => st w (buf + i) SPACE) w in
  written w w' (within (buf + i) (Z.of_nat n)) /\ forall j, i <= j < i + Z.of_nat n -> ld w' (buf + j) = SPACE.
Proof.
  revert w. induction n as [| n IH]; intros w i Hg Hi Hn; cbv zeta.
  - split; [by apply written_refl | lia].
  - change (for_loop (S n) i ?f w) with (for_loop n (i + 1) f (f i w)). cbv beta.
    destruct (st_written w (buf + i) SPACE Hg) as [Hw Hv]; [apply buf_user; lia |].
    set (w1 := st w (buf + i) SPACE) in *.
    destruct (IH w1 (i + 1)) as [Hw2 Hv2]; [by eapply written_good | lia | lia |]. cbv zeta in *. split.
    + eapply written_trans; [exact Hw | exact Hw2 | |]; unfold within; intros x Hx; lia.
    + intros j Hj. destruct (decide (j = i)) as [-> | Hne]; [| apply Hv2; lia].
      rewrite (written_ld _ _ _ _ Hw2); [rewrite Hv; done | apply buf_user; lia | unfold within; lia].
Qed.

Lemma fill_spec w from to :
  good w -> 0 <= from <= to -> to <= 81 ->
  written w (fill buf from to w) (within (buf + from) (to - from)) /\
  forall j, from <= j < to -> ld (fill buf from to w) (buf + j) = SPACE.
Proof.
  intros Hg Hf Ht. unfold fill. destruct (fill_from w (Z.to_nat (to - from)) from Hg) as [Hw Hv]; [lia | lia |].
  rewrite Z2Nat.id in Hw by lia. split; [exact Hw |]. intros j Hj. apply Hv. lia.
Qed.

(** The byte at [i] of a frame with [c] at [j]. *)
Definition frame_char (c j i : Z) : Z :=
  if (i =? 1) || (i =? 78) then BAR else if i =? 79 then NEWLINE else if i =? j then c else SPACE.

Definition pp_frame (p : Z * Z) : list Z := frame_char p.1 p.2 <$> seqZ 0 80.

(** The parts of the buffer that stay. *)
Record walled w : Prop := Walled {
  wl_good : good w;
  wl_left : ld w (buf + 0) = SPACE /\ ld w (buf + 1) = BAR;
  wl_right : ld w (buf + 78) = BAR /\ ld w (buf + 79) = NEWLINE /\ ld w (buf + 80) = NUL
}.

Lemma walled_kept w w' T l :
  walled w -> after w w' l T -> (forall i, 0 <= i < 81 -> T (buf + i) -> 2 <= i < 78) -> walled w'.
Proof.
  intros [Hg [L0 L1] (R0 & R1 & R2)] [Hg' _ Hm] HT.
  assert (Hk : forall i, i = 0 \/ i = 1 \/ i = 78 \/ i = 79 \/ i = 80 -> ld w' (buf + i) = ld w (buf + i)).
  { intros i Hi. apply Hm; [apply buf_user; lia |]. intros Ht. apply HT in Ht; lia. }
  split; [done | |]; rewrite !Hk by lia; auto.
Qed.

Lemma drawn_frame w c j :
  walled w -> 65 <= c <= 90 -> 2 <= j < 78 ->
  let w' := st (fill buf STARTLOOP LOOPMAX w) (buf + j) c in
  written w w' (within (buf + 2) 76) /\ walled w' /\ terminated NUL (chars w' buf) (pp_frame (c, j)).
Proof.
  intros Hw Hc Hj. pose proof (wl_good w Hw) as Hg.
  destruct (fill_spec w 2 78 Hg) as [W1 V1]; [lia | lia |]. change (fill buf 2 78 w) with (fill buf STARTLOOP LOOPMAX w) in *.
  set (w1 := fill buf STARTLOOP LOOPMAX w) in *. pose proof (written_good _ _ _ W1) as Hg1.
  destruct (st_written w1 (buf + j) c Hg1) as [W2 V2]; [apply buf_user; lia |]. cbv zeta. set (w2 := st w1 (buf + j) c) in *.
  assert (W12 : written w w2 (within (buf + 2) 76)).
  { eapply written_trans; [exact W1 | exact W2 | |]; unfold within; intros x Hx; lia. }
  assert (Hwl : walled w2).
  { eapply walled_kept; [exact Hw | apply W12 |]. unfold within. intros i Hi Hx. lia. }
  split; [exact W12 | split; [exact Hwl |]].
  assert (Hch : forall i, 0 <= i < 80 -> chars w2 buf i = frame_char c j i).
  { intros i Hi. unfold chars, frame_char. destruct Hwl as [_ [L0 L1] (R0 & R1 & _)].
    destruct (Z.eqb_spec i 1) as [-> |]; [done |]. destruct (Z.eqb_spec i 78) as [-> |]; [done |]. cbn [orb].
    destruct (Z.eqb_spec i 79) as [-> |]; [done |]. destruct (Z.eqb_spec i j) as [-> | Hij]; [rewrite V2; apply u8_small; lia |].
    destruct (decide (i = 0)) as [-> |]; [done |].
    rewrite (written_ld _ _ _ _ W2); [apply V1; lia | apply buf_user; lia | lia]. }
  assert (Hlen : length (pp_frame (c, j)) = 80%nat) by (unfold pp_frame; by rewrite length_fmap, length_seqZ).
  split; rewrite Hlen; [| apply Hwl]. intros i Hi. rewrite Hch by lia. split.
  - unfold pp_frame. rewrite list_lookup_fmap, lookup_seqZ_lt by lia. cbn [fmap option_fmap option_map].
    do 2 f_equal. lia.
  - unfold frame_char. repeat case_match; unfold NUL, BAR, NEWLINE, SPACE; lia.
Qed.
(** What a part of the program shows with [n] ticks to come: all of [ps], or
    one frame more than ticks, and then it waits. *)
Definition plays (fd : Z) (P : U W unit) (ps : list (Z * Z)) : Prop :=
  forall w n, walled w -> clock w fd n ->
    if decide (length ps <= n)%nat then
      exists w', P w = Returns tt w' /\ after w w' (concat (pp_frame <$> ps)) (within buf 81) /\
        clock w' fd (n - length ps) /\ walled w'
    else stops_showing w (P w) (concat (pp_frame <$> take (S n) ps)).

Lemma plays_nothing fd : plays fd (u_ret tt) [].
Proof.
  intros w n Hw Hc. rewrite decide_True by (cbn [length]; lia). exists w. cbn [length fmap list_fmap concat].
  rewrite Nat.sub_0_r. split_and!; try done. by apply after_weaken with nowhere; [apply after_refl, Hw |].
Qed.

Lemma plays_then fd P Q ps qs : plays fd P ps -> plays fd Q qs -> plays fd (P;; Q) (ps ++ qs).
Proof.
  intros HP HQ w n Hw Hc. specialize (HP w n Hw Hc). unfold u_bind. rewrite length_app. destruct (decide (length ps <= n)%nat) as [Hn | Hn].
  - destruct HP as (w1 & -> & Ha1 & Hc1 & Hw1). specialize (HQ w1 _ Hw1 Hc1).
    destruct (decide (length qs <= n - length ps)%nat) as [Hm | Hm].
    + rewrite decide_True by lia. destruct HQ as (w2 & -> & Ha2 & Hc2 & Hw2). exists w2.
      rewrite fmap_app, concat_app. split_and!; [done | | | done].
      * by apply (after_trans w w1 w2 _ _ (within buf 81) (within buf 81)).
      * by rewrite Nat.sub_add_distr.
    + rewrite decide_False by lia. destruct HQ as (w2 & -> & Hd). exists w2. split; [done |].
      rewrite take_app_ge, fmap_app, concat_app, foldl_app by lia. rewrite Hd.
      replace (S n - length ps)%nat with (S (n - length ps)) by lia. by rewrite (after_display _ _ _ _ Ha1).
  - rewrite decide_False by lia. destruct HP as (w1 & -> & Hd). exists w1. split; [done |].
    by rewrite take_app_le by lia.
Qed.

Lemma show_plays fd c j :
  65 <= c <= 90 -> 2 <= j < 78 -> plays fd (show_frame fuel buf garbage fd c j) [(c, j)].
Proof.
  intros Hc Hj w n Hw Hck. destruct (drawn_frame w c j Hw Hc Hj) as (W2 & Hw2 & Ht). cbv zeta in *.
  set (w2 := st (fill buf STARTLOOP LOOPMAX w) (buf + j) c) in *.
  assert (Hlen : length (pp_frame (c, j)) = 80%nat) by (unfold pp_frame; by rewrite length_fmap, length_seqZ).
  assert (Hck2 : clock w2 fd n) by by apply (stays_clocks _ _ (written_stays _ _ _ W2)).
  destruct (dev_write w2 buf 80) as (w3 & He3 & Ha3 & Hk3);
    [apply Hw2 | lia | replace buf with (buf + 0) by lia; apply buf_user; lia | intros i Hi; apply buf_user; lia |].
  assert (Hby : bytes w2 buf (Z.to_nat 80) = pp_frame (c, j)).
  { rewrite <- (bytes_string w2 buf (pp_frame (c, j)) Ht). by rewrite Hlen. }
  rewrite Hby in Ha3.
  assert (Ha : after w w3 (pp_frame (c, j)) (within (buf + 2) 76)).
  { by apply (after_trans w w2 w3 [] _ (within (buf + 2) 76) nowhere _ (written_after _ _ _ W2) Ha3). }
  assert (Hw3 : walled w3) by (eapply walled_kept; [exact Hw | exact Ha | unfold within; lia]).
  assert (Hshow : show_frame fuel buf garbage fd c j w = (ece391_read fd garbage 4;; u_ret tt) w3).
  { unfold show_frame, u_modify, u_bind. fold w2. unfold ece391_fdputs, ece391_strlen, u_loop, u_bind.
    rewrite (strlen_terminated fuel _ (pp_frame (c, j))); [| exact Ht | by rewrite Hlen]. rewrite Hlen.
    change (Z.of_nat 80) with 80. by rewrite He3. }
  rewrite Hshow. apply Hk3 in Hck2. unfold u_bind. destruct n as [| n].
  - rewrite decide_False by (cbn [length]; lia). destruct (dev_wait w3 fd garbage) as (w4 & -> & Hd);
      [apply Hw3 | exact Hck2 | exact garbage_user |].
    exists w4. split; [done |]. cbn [take fmap list_fmap concat]. rewrite app_nil_r, Hd. apply Ha.
  - rewrite decide_True by (cbn [length]; lia). destruct (dev_tick w3 fd n garbage) as (w4 & -> & Hs & Hck4);
      [apply Hw3 | exact Hck2 | exact garbage_user |].
    exists w4. cbn [length fmap list_fmap concat]. rewrite app_nil_r. split; [done |]. split; [| split].
    + rewrite <- (app_nil_r (pp_frame (c, j))).
      apply (after_trans w w3 w4 _ [] _ _ _ Ha (silent_after _ _ _ _ Hs)); unfold within; [lia | done].
    + by replace (S n - 1)%nat with n by lia.
    + eapply walled_kept; [exact Hw3 | apply Hs | done].
Qed.

Fixpoint frames_out (n : nat) (c j : Z) : list (Z * Z) :=
  match n with O => [] | S n' => (c, j) :: frames_out n' c (j + 1) end.
Fixpoint frames_back (n : nat) (c j : Z) : list (Z * Z) :=
  match n with O => [] | S n' => (c, j) :: frames_back n' c (j - 1) end.

(** The frames of [n] turns of the outer loop. *)
Fixpoint bounces (n : nat) (c : Z) : list (Z * Z) :=
  match n with
  | O => []
  | S n' => (frames_out 76 c 2 ++ frames_back 76 c 77) ++ bounces n' (next_char c)
  end.

Lemma out_plays fd c n : forall j, 65 <= c <= 90 -> 2 <= j -> j + Z.of_nat n <= 78 ->
  plays fd (move_out fuel buf garbage n fd c j) (frames_out n c j).
Proof.
  induction n as [| n IH]; intros j Hc Hj Hn; [apply plays_nothing |]. cbn [move_out frames_out].
  apply (plays_then fd _ _ [(c, j)]); [apply show_plays; lia | apply IH; lia].
Qed.

Lemma back_plays fd c n : forall j, 65 <= c <= 90 -> j < 78 -> 2 <= j - Z.of_nat n + 1 ->
  plays fd (move_back fuel buf garbage n fd c j) (frames_back n c j).
Proof.
  induction n as [| n IH]; intros j Hc Hj Hn; [apply plays_nothing |]. cbn [move_back frames_back].
  apply (plays_then fd _ _ [(c, j)]); [apply show_plays; lia | apply IH; lia].
Qed.

Lemma frames_length n c : forall j, length (frames_out n c j) = n /\ length (frames_back n c j) = n.
Proof. induction n as [| n IH]; intros j; [done |]. cbn [frames_out frames_back length]. split; f_equal; apply IH. Qed.

Lemma next_char_range c : 65 <= c <= 90 -> 65 <= next_char c <= 90.
Proof. unfold next_char, ENDCHAR, STARTCHAR. intros Hc. destruct (Z.eqb_spec c 90); [lia |]. rewrite u8_small by lia. lia. Qed.

Lemma loop_shows fd k : forall c w n,
  walled w -> clock w fd n -> 65 <= c <= 90 -> (n < 152 * k)%nat ->
  stops_showing w (pingpong_loop fuel buf garbage k fd c w) (concat (pp_frame <$> take (S n) (bounces k c))).
Proof.
  induction k as [| k IH]; intros c w n Hw Hc Hr Hn; [lia |].
  change (pingpong_loop fuel buf garbage (S k) fd c w) with
    ((move_out fuel buf garbage 76 fd c 2;; move_back fuel buf garbage 76 fd c 77;;
      pingpong_loop fuel buf garbage k fd (next_char c)) w).
  pose proof (plays_then fd _ _ _ _ (out_plays fd c 76 2 Hr ltac:(lia) ltac:(lia))
    (back_plays fd c 76 77 Hr ltac:(lia) ltac:(lia)) w n Hw Hc) as Hp.
  assert (Hlen : length (frames_out 76 c 2 ++ frames_back 76 c 77) = 152%nat).
  { rewrite length_app. by rewrite (proj1 (frames_length _ _ _)), (proj2 (frames_length _ _ _)). }
  cbn [bounces]. set (ps := frames_out 76 c 2 ++ frames_back 76 c 77) in *. clearbody ps. rewrite Hlen in Hp.
  assert (Hassoc : forall A (P Q : U W unit) (R : U W A), (P;; Q;; R) w = ((P;; Q);; R) w).
  { intros A P Q R. unfold u_bind. by destruct (P w). }
  rewrite Hassoc. unfold u_bind at 1. destruct (decide (152 <= n)%nat) as [H152 | H152].
  - destruct Hp as (w1 & -> & Ha1 & Hc1 & Hw1).
    destruct (IH (next_char c) w1 _ Hw1 Hc1 (next_char_range c Hr)) as (w2 & He & Hd); [lia |].
    exists w2. split; [exact He |]. rewrite take_app_ge, fmap_app, concat_app, foldl_app by lia.
    rewrite Hd, Hlen. replace (S n - 152)%nat with (S (n - 152)) by lia. by rewrite (after_display _ _ _ _ Ha1).
  - destruct Hp as (w1 & -> & Hd). exists w1. split; [done |]. by rewrite take_app_le by lia.
Qed.
(** Frame [t]: the letter moves 76 columns to the right and back, and then
    the next one does. *)
Definition frame_no (c : Z) (t : Z) : Z * Z :=
  (65 + (c - 65 + t / 152) mod 26, if t mod 152 <? 76 then 2 + t mod 152 else 153 - t mod 152).

Lemma frames_lookup n c : forall j t, (t < n)%nat ->
  frames_out n c j !! t = Some (c, j + Z.of_nat t) /\ frames_back n c j !! t = Some (c, j - Z.of_nat t).
Proof.
  induction n as [| n IH]; intros j t Ht; [lia |]. destruct t as [| t]; cbn [frames_out frames_back lookup list_lookup].
  - split; do 2 f_equal; lia.
  - destruct (IH (j + 1) t) as [Ho _]; [lia |]. destruct (IH (j - 1) t) as [_ Hb]; [lia |].
    split; [etrans; [exact Ho |] | etrans; [exact Hb |]]; do 2 f_equal; lia.
Qed.

Lemma next_char_mod c : 65 <= c <= 90 -> next_char c = 65 + (c - 65 + 1) mod 26.
Proof.
  intros Hc. unfold next_char, ENDCHAR, STARTCHAR. destruct (Z.eqb_spec c 90) as [-> |]; [done |].
  rewrite u8_small, Z.mod_small by lia. lia.
Qed.

Lemma bounces_lookup k : forall c t, 65 <= c <= 90 -> (t < 152 * k)%nat ->
  bounces k c !! t = Some (frame_no c (Z.of_nat t)).
Proof.
  induction k as [| k IH]; intros c t Hc Ht; [lia |]. cbn [bounces]. destruct (frames_length 76 c 2) as [Lo _].
  destruct (frames_length 76 c 77) as [_ Lb].
  destruct (decide (t < 152)%nat) as [H152 | H152].
  - rewrite lookup_app_l by (rewrite length_app; lia). unfold frame_no.
    rewrite Z.div_small, Z.mod_small, (Z.mod_small (Z.of_nat t)) by lia.
    destruct (Z.ltb_spec (Z.of_nat t) 76).
    + rewrite lookup_app_l by lia. rewrite (proj1 (frames_lookup 76 c 2 t ltac:(lia))). do 2 f_equal; lia.
    + rewrite lookup_app_r, Lo by lia. rewrite (proj2 (frames_lookup 76 c 77 (t - 76) ltac:(lia))). do 2 f_equal; lia.
  - rewrite lookup_app_r by (rewrite length_app; lia). rewrite length_app, Lo, Lb.
    rewrite IH by (try apply next_char_range; lia). unfold frame_no.
    replace (Z.of_nat t) with (Z.of_nat (t - (76 + 76)) + 1 * 152) by lia.
    rewrite Z.div_add, Z.mod_add by lia. rewrite next_char_mod by done. do 3 f_equal.
    replace (65 + (c - 65 + 1) mod 26 - 65 + Z.of_nat (t - (76 + 76)) / 152)
      with ((c - 65 + 1) mod 26 + Z.of_nat (t - (76 + 76)) / 152) by lia.
    rewrite Zplus_mod_idemp_l. f_equal. lia.
Qed.

Lemma bounces_frames k c n : 65 <= c <= 90 -> (n <= 152 * k)%nat ->
  take n (bounces k c) = (fun t => frame_no c (Z.of_nat t)) <$> seq 0 n.
Proof.
  intros Hc Hn. apply list_eq. intros t. rewrite list_lookup_fmap. destruct (decide (t < n)%nat) as [Ht | Ht].
  - rewrite lookup_take_lt by done. rewrite bounces_lookup by (done || lia). by rewrite lookup_seq_lt.
  - rewrite lookup_take_ge, lookup_seq_ge by lia. done.
Qed.

Lemma walls_walled w : good w -> written w (walls buf w) (within buf 81) /\ walled (walls buf w).
Proof.
  intros Hg. unfold walls. destruct (fill_spec w 0 81 Hg) as [W0 V0]; [lia | lia |].
  change (fill buf 0 BUFMAX w) with (fill buf 0 81 w). set (w0 := fill buf 0 81 w) in *.
  change (BUFMAX - 1) with 80. change (BUFMAX - 2) with 79. change (BUFMAX - 3) with 78. unfold START.
  destruct (st_written w0 (buf + 80) NUL) as [W1 V1]; [by eapply written_good | apply buf_user; lia |]. set (w1 := st w0 (buf + 80) NUL) in *.
  destruct (st_written w1 (buf + 79) NEWLINE) as [W2 V2]; [by eapply written_good | apply buf_user; lia |]. set (w2 := st w1 (buf + 79) NEWLINE) in *.
  destruct (st_written w2 (buf + 78) BAR) as [W3 V3]; [by eapply written_good | apply buf_user; lia |]. set (w3 := st w2 (buf + 78) BAR) in *.
  destruct (st_written w3 (buf + 1) BAR) as [W4 V4]; [by eapply written_good | apply buf_user; lia |]. set (w4 := st w3 (buf + 1) BAR) in *.
  cbv zeta. split.
  - assert (Wf : written w w0 (within buf 81)) by (eapply written_weaken; [exact W0 | unfold within; lia]).
    unfold w4, w3, w2, w1. do 4 (apply written_st; [| apply buf_user; lia | unfold within; lia]). exact Wf.
  - assert (Hk : forall i, 0 <= i < 81 ->
      ld w4 (buf + i) = if decide (i = 1) then BAR else if decide (i = 78) then BAR else if decide (i = 79) then NEWLINE
        else if decide (i = 80) then NUL else SPACE).
    { intros i Hi. pose proof (buf_user i Hi) as Hu. case_decide; [by subst |].
      rewrite (written_ld _ _ _ _ W4) by (done || lia). case_decide; [by subst |].
      rewrite (written_ld _ _ _ _ W3) by (done || lia). case_decide; [by subst |].
      rewrite (written_ld _ _ _ _ W2) by (done || lia). case_decide; [by subst |].
      rewrite (written_ld _ _ _ _ W1) by (done || lia). apply V0. lia. }
    split; [by eapply written_good | |]; rewrite !Hk by lia; done.
Qed.

Hypothesis ret_users : users ret_val 4.
Hypothesis ret_apart : forall x, within ret_val 4 x -> ~ within buf 81 x.

(** The text of a literal, apart from what the program stores to before. *)
Lemma pingpong_shows w n :
  good w -> openable w [(str_bytes "rtc", Clock n)] ->
  terminated NUL (chars w (lit_addr "rtc")) (str_bytes "rtc") -> users (lit_addr "rtc") 4 ->
  (forall i, 0 <= i < 4 -> ~ within buf 81 (lit_addr "rtc" + i)) -> (n < fuel)%nat ->
  stops_showing w (pingpong_main lit_addr fuel buf ret_val garbage w)
    (concat (pp_frame <$> ((fun t => frame_no 65 (Z.of_nat t)) <$> seq 0 (S n)))).
Proof.
  intros Hg Ho Ht Hlu Hla Hf. destruct (walls_walled w Hg) as [W1 Hw1]. set (w1 := walls buf w) in *.
  pose proof (stays_openable _ _ (written_stays _ _ _ W1) _ Ho) as Ho1.
  assert (Ht1 : terminated NUL (chars w1 (lit_addr "rtc")) (str_bytes "rtc")).
  { eapply after_string; [apply W1 | exact Hlu | | exact Ht]. intros i Hi. apply Hla. simpl in Hi. lia. }
  destruct (dev_open w1 (lit_addr "rtc") (str_bytes "rtc") (Clock n) [] (wl_good w1 Hw1) Ho1 Ht1 Hlu)
    as (fd & w2 & He2 & _ & S2 & _ & _ & _ & Hck2 & _).
  assert (Hw2 : walled w2) by (eapply walled_kept; [exact Hw1 | apply S2 | done]).
  destruct (st32_written w2 ret_val 32 (wl_good w2 Hw2) ret_users ltac:(lia)) as [W3 V3]. set (w3 := st32 w2 ret_val 32) in *.
  assert (Hrb : forall i, 0 <= i < 81 -> within ret_val 4 (buf + i) -> 2 <= i < 78).
  { intros i Hi Hr. exfalso. apply (ret_apart _ Hr). unfold within. lia. }
  assert (Hw3 : walled w3) by (eapply walled_kept; [exact Hw2 | apply W3 | exact Hrb]).
  pose proof (stays_clocks _ _ (written_stays _ _ _ W3) _ _ Hck2) as Hck3.
  destruct (dev_rate w3 fd n ret_val (wl_good w3 Hw3) Hck3 ret_users V3) as (w4 & He4 & S4 & Hk4). apply Hk4 in Hck3.
  assert (Hw4 : walled w4) by (eapply walled_kept; [exact Hw3 | apply S4 | done]).
  destruct (st32_written w4 ret_val (u32 0) (wl_good w4 Hw4) ret_users ltac:(pose proof (u32_range 0); lia)) as [W5 _]. set (w5 := st32 w4 ret_val (u32 0)) in *.
  assert (Hw5 : walled w5) by (eapply walled_kept; [exact Hw4 | apply W5 | exact Hrb]).
  pose proof (stays_clocks _ _ (written_stays _ _ _ W5) _ _ Hck3) as Hck5.
  assert (Hd : display w5 = display w).
  { destruct W1 as [[_ D1 _] _], S2 as [[_ D2 _] _ _], W3 as [[_ D3 _] _], S4 as [[_ D4 _] _ _], W5 as [[_ D5 _] _].
    cbn [foldl] in *. congruence. }
  rewrite <- (bounces_frames fuel 65 (S n)) by lia.
  destruct (loop_shows fd fuel 65 w5 n Hw5 Hck5 ltac:(lia) ltac:(lia)) as (w6 & He6 & Hd6).
  exists w6. split; [| by rewrite Hd6, Hd]. unfold pingpong_main, u_modify, u_bind. fold w1. rewrite He2. fold w3.
  by rewrite He4.
Qed.
End pingpong.
End verified.
