(* ===== verification/Kerneldev.v ===== *)
(** * The kernel keeps the device interface

    The instance of [DeviceView] for the kernel and the proof of
    [DeviceSpec]: files opened one after the other, the clock, whose reads
    wait for interrupts, and the page of video memory.  With it pingpong
    on the machine. *)

From S2P Require Import Prelude Memory Lib Paging Devices State Sample Console Filesys Terminal.
From S2P Require Import Syscall Printing Userland Frames Processes Usermode Userdev.

(** ** The clock *)

(** The clock's interrupts among those to come. *)
Fixpoint ticks (evs : list irq) : nat :=
  match evs with
  | [] => O
  | IrqRtc :: evs' => S (ticks evs')
  | _ :: evs' => ticks evs'
  end.

Lemma rtc_read_ticks evs s :
  match ticks evs with
  | O => rtc_read evs s = None
  | S n => exists s' evs', rtc_read evs s = Some (s', evs', 0) /\ ticks evs' = n
  end.
Proof.
  unfold rtc_read. generalize (rtc_ports s). intros p. induction evs as [| e evs IH]; [done |].
  destruct e; cbn [ticks rtc_wait rtc_flag Z.eqb negb]; [exact IH | exact IH |].
  exists (rtc_handler (Rtc 0 p)), evs. split; [| done]. destruct evs; reflexivity.
Qed.

Section kernel.
Variable junk : Z -> Z.
Variable table_addr : table -> Z.
Variable fuel : nat.
Let calls : SysCalls kernel := kernel_calls junk table_addr fuel.
Let view : SysView kernel := kernel_view fuel.
#[local] Existing Instances calls view.

(** ** The view *)

Definition clock_of (k : kernel) (fd : Z) (n : nat) : Prop :=
  2 <= fd < 8 /\ flags (proc_fd fd k) <> 0 /\ f_ops (proc_fd fd k) = Some RtcTable /\ n = ticks (pending k).

Definition closed_of (k : kernel) (fd : Z) : Prop :=
  2 <= fd < 8 /\ flags (proc_fd fd k) = 0 /\ f_ops (proc_fd fd k) = Some FileTable.

Definition video_at (k : kernel) (b : Z) : Prop :=
  0 <= b /\ b + 4000 <= 4294967296 /\
  exists q, VIDEO <= q /\ q + 4000 <= UNIT_4_MB /\ forall i, 0 <= i < 4000 -> xlate (mem k) (b + i) = Some (q + i).

(** The tables have their sizes, and the program's pages are of 4 MB. *)
Definition mappable_at (k : kernel) : Prop :=
  tables_wf (mem k) /\ paging_on (mem k) = true /\ entry_bit (arr_get (page_dir (mem k)) 32) 7 = true.

(** The entry [j] of the directory is what the name stands for. *)
Definition item_ok (k : kernel) (name : list Z) (it : item) (j : Z) : Prop :=
  (0 < length name <= 32)%nat /\ (length name < fuel)%nat /\ has_name (image k) (boot_block (fs k)) name j /\
  (forall a, within (boot_block (fs k)) FOUR_KB a -> in_kernel a) /\
  match it with
  | File l =>
      let inode := de_inode_num (image k) (boot_block (fs k)) j in
      de_filetype (image k) (boot_block (fs k)) j = 2 /\ in_image inode k /\
      l = bytes_of k inode (Z.to_nat (length_of k inode)) 0
  | Clock n => de_filetype (image k) (boot_block (fs k)) j = 0 /\ n = ticks (pending k)
  end.

(** The inode that a descriptor gets; the clock's keeps what it had. *)
Definition item_inode (k : kernel) (it : item) (j : Z) : list Z :=
  match it with File _ => [de_inode_num (image k) (boot_block (fs k)) j] | Clock _ => [] end.

Fixpoint items_ok (k : kernel) (its : list (list Z * item)) (js : list Z) : Prop :=
  match its, js with
  | [], [] => True
  | (name, it) :: its', j :: js' => item_ok k name it j /\ items_ok k its' js'
  | _, _ => False
  end.

Fixpoint item_inodes (k : kernel) (its : list (list Z * item)) (js : list Z) : list Z :=
  match its, js with
  | (_, it) :: its', j :: js' => item_inode k it j ++ item_inodes k its' js'
  | _, _ => []
  end.

(** The descriptors from [s] on are unused since the process was made, the
    files are different and not open yet. *)
Definition openable_of (k : kernel) (its : list (list Z * item)) : Prop :=
  exists s js, 2 <= s /\ s + Z.of_nat (length its) <= 8 /\
    (forall i, 0 <= i < s -> flags (proc_fd i k) <> 0) /\
    (forall i, s <= i < 8 -> flags (proc_fd i k) = 0 /\ fd_inode (proc_fd i k) = -1) /\
    items_ok k its js /\ NoDup (item_inodes k its js) /\
    (forall i, 0 <= i < s -> fd_inode (proc_fd i k) ∉ item_inodes k its js) /\ (-1) ∉ item_inodes k its js.

#[local] Instance kernel_device : DeviceView kernel := {
  clock := clock_of;
  closed := closed_of;
  video := video_at;
  mappable := mappable_at;
  openable := openable_of
}.

(** ** What calls leave alone *)

Record still (fd : option Z) (k k' : kernel) : Prop := Still {
  calm_image : forall a, in_kernel a -> image k' a = image k a;
  calm_boot : boot_block (fs k') = boot_block (fs k);
  calm_start : FS_START_ADDR (fs k') = FS_START_ADDR (fs k);
  calm_fds : forall i, Some i <> fd -> proc_fd i k' = proc_fd i k
}.

Record calm (fd : option Z) (k k' : kernel) : Prop := Calm {
  calm_still :> still fd k k';
  calm_ram : exists r, mem k' = set_ram r (mem k)
}.

Lemma calm_map fd k k' a : calm fd k k' -> xlate (mem k') a = xlate (mem k) a.
Proof. intros [_ [r ->]]. done. Qed.

Lemma quiet_calm k k' : quiet k k' -> calm None k k'.
Proof. intros Hq. split; [split |]; try apply Hq. intros i _. by apply quiet_fd. Qed.

Lemma calm_trans fd1 fd2 fd k1 k2 k3 :
  calm fd1 k1 k2 -> calm fd2 k2 k3 -> (forall i, Some i <> fd -> Some i <> fd1 /\ Some i <> fd2) -> calm fd k1 k3.
Proof.
  intros [[I1 B1 S1 F1] [r1 M1]] [[I2 B2 S2 F2] [r2 M2]] Hfd.
  split; [split; [| congruence | congruence |] | exists r2; by rewrite M2, M1].
  - intros a Ha. by rewrite I2, I1.
  - intros i Hi. destruct (Hfd i Hi) as [Hi1 Hi2]. by rewrite F2, F1.
Qed.

Lemma change_calm fd gs k :
  served k -> 2 <= fd < 8 -> calm (Some fd) k (change_all fd gs k).
Proof.
  intros Hs Hfd. destruct (change_all_spec fd gs k Hs Hfd) as ((_ & _ & Hm & Hf & _) & _ & Ho).
  split; [split |]; unfold image; rewrite ?Hm, ?Hf; try done; [| exists (ram (mem k)); by destruct (mem k)].
  intros i Hi. apply Ho. congruence.
Qed.

Lemma calm_stream fd k k' i l : calm fd k k' -> Some i <> fd -> stream_of k i l -> stream_of k' i l.
Proof.
  intros [[I B S F] _] Hi (inode & pos & Ho & Him & Hp & Hl). exists inode, pos.
  destruct (in_image_agree inode k k' I B S Him) as (Hi' & Hl' & Hb').
  unfold fd_open in *. rewrite (F i Hi), Hl'. split; [exact Ho |]. split; [exact Hi' |]. split; [lia |].
  rewrite Hl. symmetry. apply Hb'; lia.
Qed.

Lemma calm_others fd k k' : calm fd k k' -> others_kept fd k k'.
Proof.
  intros Hc. split.
  - intros a. apply (calm_map _ _ _ _ Hc).
  - intros i l Hi. by apply (calm_stream fd).
  - intros i Hi. cbn [closed kernel_device]. unfold closed_of. by rewrite (calm_fds _ _ _ Hc).
  - intros b. cbn [video kernel_device]. intros (Hb1 & Hb2 & q & Hq1 & Hq2 & Hx).
    split_and!; [done | done |]. exists q. split_and!; [done | done |]. intros i Hi. rewrite (calm_map _ _ _ _ Hc). by apply Hx.
  - cbn [mappable kernel_device]. unfold mappable_at. destruct (calm_ram _ _ _ Hc) as [r ->]. done.
Qed.

Lemma calm_clocks fd k k' :
  calm fd k k' -> pending k' = pending k -> (forall i n, Some i = fd -> ~ clock_of k i n) -> clocks_kept k k'.
Proof.
  intros Hc Hp Hn i n Hck. cbn [clock kernel_device] in *.
  destruct (decide (Some i = fd)) as [He | He]; [by destruct (Hn i n He) |].
  unfold clock_of in *. by rewrite (calm_fds _ _ _ Hc), Hp.
Qed.

(** ** The directory's entries *)

Lemma calm_item fd k k' name it j :
  still fd k k' -> pending k' = pending k -> item_ok k name it j ->
  item_ok k' name it j /\ item_inode k' it j = item_inode k it j.
Proof.
  intros [I B S _] Hp (Hn & Hf & Hj & Hb & Hit).
  assert (He : forall a, within (boot_block (fs k)) FOUR_KB a -> image k' a = image k a) by (intros a Ha; by apply I, Hb).
  pose proof Hj as ([Hj0 Hj1] & _). unfold item_ok, item_inode. rewrite B, Hp.
  assert (Hino : de_inode_num (image k') (boot_block (fs k)) j = de_inode_num (image k) (boot_block (fs k)) j).
  { apply same_inode_num; [exact He | lia]. }
  assert (Hty : de_filetype (image k') (boot_block (fs k)) j = de_filetype (image k) (boot_block (fs k)) j).
  { unfold de_filetype, FILE_TYPE_OFFSET. apply same_field; [exact He | lia | lia]. }
  rewrite Hino, Hty. split; [| by destruct it].
  split; [exact Hn |]. split; [exact Hf |]. split; [by apply (same_has_name (image k)) |]. split; [exact Hb |].
  destruct it as [l | n]; [| exact Hit]. destruct Hit as (Ht & Hi & ->).
  destruct (in_image_agree _ k k' I B S Hi) as (Hi' & Hl & Hby). rewrite Hl. split; [exact Ht |]. split; [exact Hi' |].
  rewrite B in Hby. symmetry. apply Hby; [lia |]. destruct Hi as [(_ & Hlen & _) _]. lia.
Qed.

Lemma calm_items fd k k' its : forall js,
  still fd k k' -> pending k' = pending k -> items_ok k its js ->
  items_ok k' its js /\ item_inodes k' its js = item_inodes k its js.
Proof.
  induction its as [| [name it] its IH]; intros [| j js] Hc Hp; cbn [items_ok item_inodes]; try done.
  intros [Hi Hr]. destruct (calm_item fd k k' name it j Hc Hp Hi) as [Hi' ->].
  destruct (IH js Hc Hp Hr) as [Hr' ->]. done.
Qed.

Lemma calm_openable k k' : still None k k' -> pending k' = pending k -> openable_kept k k'.
Proof.
  intros Hc Hp its. cbn [openable kernel_device]. intros (s & js & Hs & Hlen & Hu & Hfree & Hok & Hnd & Hin & Hm1).
  destruct (calm_items None k k' its js Hc Hp Hok) as [Hok' Hino].
  assert (Hfd : forall i, proc_fd i k' = proc_fd i k) by (intros i; by apply (calm_fds _ _ _ Hc)).
  exists s, js. rewrite Hino. split_and!; try done; intros i Hi; rewrite Hfd; auto.
Qed.

(** ** Stores *)

Lemma calm_stays k k' : served k' -> calm None k k' -> pending k' = pending k -> stays k k'.
Proof.
  intros Hs Hc Hp. split; [exact Hs | by apply calm_others | | apply calm_openable; [apply Hc | done]].
  by apply (calm_clocks None).
Qed.

Lemma kernel_stays_store k a v : served k -> user_page a -> stays k (st k a v).
Proof.
  intros Hs Ha. destruct (quiet_user_write k a [v] Hs) as [Hq _].
  { intros i Hi. cbn [length] in Hi. by replace (a + i) with a by lia. }
  apply calm_stays; [by apply (quiet_served k) | by apply quiet_calm | done].
Qed.

Lemma video_not_kernel k b i a : served k -> video_at k b -> 0 <= i < 4000 -> in_kernel a ->
  loc (mem k) a <> loc (mem k) (b + i).
Proof.
  intros Hs (_ & _ & q & Hq1 & Hq2 & Hx) Hi Ha. rewrite (kernel_loc (mem k) a (sv_kernel k Hs) Ha).
  cbn [loc vmem_ops]. rewrite Hx by done. unfold in_kernel, UNIT_4_MB in *. intros [= ?]. lia.
Qed.

Lemma video_not_user k b i a : served k -> video_at k b -> 0 <= i < 4000 -> user_page a ->
  loc (mem k) a <> loc (mem k) (b + i).
Proof.
  intros Hs (_ & _ & q & Hq1 & Hq2 & Hx) Hi Ha. destruct (user_loc k a Hs Ha) as (p & Hp & -> & _).
  cbn [loc vmem_ops]. rewrite Hx by done. rewrite prog_phys_eq by done.
  unfold user_page, UNIT_8_MB, UNIT_4_MB, UNIT_128_MB in *. intros [= ?]. lia.
Qed.

Lemma kernel_stays_poke k b i v : served k -> video_at k b -> 0 <= i < 4000 -> stays k (st k (b + i) v).
Proof.
  intros Hs Hv Hi. destruct (st_ram (mem k) (b + i) v) as [r Hr].
  assert (Hm : is_Some (loc (mem k) (b + i))).
  { destruct Hv as (_ & _ & q & _ & _ & Hx). cbn [loc vmem_ops]. rewrite Hx by done. by eexists. }
  assert (Hcalm : calm None k (st k (b + i) v)).
  { split; [split; try done | by exists r].
    intros a Ha. change (ld (st (mem k) (b + i) v) a = ld (mem k) a). apply ld_st_ne; [exact Hm |].
    by apply video_not_kernel. }
  apply calm_stays; [| exact Hcalm | done]. apply (served_keeps k); try done.
  - by exists r.
  - apply Hs.
  - exists (terminals (sys k)). change (sys (st k (b + i) v)) with (sys k). by destruct (sys k).
  - apply Hs.
Qed.
(** ** Calls on files *)

(** The state of a call differs from [k] by a text in the program's memory. *)
Lemma filled_calm fd buf l c k :
  served k -> 2 <= fd < 8 -> (forall i, 0 <= i < Z.of_nat (length l) -> user_page (buf + i)) ->
  calm (Some fd) k (filled fd buf l c k) /\ page_kept k (filled fd buf l c k).
Proof.
  intros Hs Hfd Hu. destruct (called_quiet k Hs) as [Hq _]. pose proof (quiet_served _ _ Hq Hs) as Hsc.
  destruct (quiet_user_write (called k) buf l Hsc Hu) as [Hq1 _]. cbv zeta in Hq1.
  set (k1 := set_mem (write (mem (called k)) buf l) (called k)) in *.
  pose proof (quiet_served _ _ Hq1 Hsc) as Hs1. split.
  - apply (calm_trans None (Some fd) (Some fd) k k1 _); [| | by split].
    + apply quiet_calm. by apply (quiet_trans k (called k)).
    + apply (change_calm fd [fun e => set_file_pos (s32 (file_pos e + c)) e] k1 Hs1 Hfd).
  - intros b i Hv Hi. change (ld (write (mem k) buf l) (b + i) = ld (mem k) (b + i)).
    apply ld_write_apart; [by apply (user_region k) |]. intros j Hj He. symmetry in He.
    by apply (video_not_user k b i (buf + j) Hs Hv Hi (Hu j Hj)).
Qed.

Lemma not_both k fd l n : stream_of k fd l -> ~ clock_of k fd n.
Proof. intros (inode & pos & (_ & _ & _ & _ & Hf) & _) (_ & _ & Hc & _). congruence. Qed.

Lemma kernel_dev_read k fd l buf n :
  served k -> stream_of k fd l -> 0 <= n -> user_page buf -> (forall i, 0 <= i < n -> user_page (buf + i)) ->
  let c := Z.min n (Z.of_nat (length l)) in
  exists k', ece391_read fd buf n k = Returns c k' /\ silent (Some fd) k k' (within buf c) /\ clocks_kept k k' /\
    bytes k' buf (Z.to_nat c) = take (Z.to_nat c) l /\ stream_of k' fd (drop (Z.to_nat c) l).
Proof.
  intros Hs Ho Hn Hb Hu c.
  destruct (kernel_read junk table_addr fuel k fd l buf n Hs Ho Hn Hb Hu) as (k' & H1 & H2 & H3 & H4 & Hk').
  fold c in H1, H2, H3, H4, Hk'. exists k'.
  assert (Hfd : 2 <= fd < 8) by (destruct Ho as (inode & pos & Ho & _); by apply (open_above fd inode pos FileTable k)).
  destruct (filled_calm fd buf (take (Z.to_nat c) l) c k Hs Hfd) as [Hc Hp].
  { intros i Hi. apply Hu. rewrite length_take in Hi. lia. }
  rewrite <- Hk' in Hc, Hp. split; [exact H1 |]. split; [| split; [| by split]].
  - split; [exact H2 | by apply calm_others | exact Hp].
  - apply (calm_clocks (Some fd)); [exact Hc | by rewrite Hk' |]. intros i m [= ->]. by eapply not_both.
Qed.

Lemma kernel_dev_close k fd l :
  served k -> stream_of k fd l ->
  exists k', ece391_close fd k = Returns 0 k' /\ silent (Some fd) k k' nowhere /\ clocks_kept k k' /\ closed_of k' fd.
Proof.
  intros Hs Ho. destruct (kernel_close junk table_addr fuel k fd l Hs Ho) as (k' & H1 & H2 & Hk'). exists k'.
  pose proof Ho as (inode & pos & Ho' & _).
  assert (Hfd : 2 <= fd < 8) by by apply (open_above fd inode pos FileTable k).
  destruct (called_quiet k Hs) as [Hq _]. pose proof (quiet_served _ _ Hq Hs) as Hsc.
  assert (Hc : calm (Some fd) k k').
  { rewrite Hk'. apply (calm_trans None (Some fd) (Some fd) k (called k)); [by apply quiet_calm | by apply change_calm | by split]. }
  destruct (change_all_spec fd [set_file_pos 0; set_flags 0] (called k) Hsc Hfd) as ((_ & _ & Hm & _ & Hf) & _).
  rewrite <- Hk' in Hm, Hf. split; [exact H1 |]. split; [| split].
  - split; [exact H2 | by apply calm_others |]. intros b i _ _. change (ld (mem k') (b + i) = ld (mem k) (b + i)). by rewrite Hm.
  - apply (calm_clocks (Some fd)); [exact Hc | by rewrite Hk' |]. intros i m [= ->]. by eapply not_both.
  - split; [exact Hfd |]. rewrite Hf. cbn [foldl]. split; [done |]. change (f_ops (proc_fd fd k) = Some FileTable).
    apply Ho'.
Qed.

(** A call that changes nothing for the program. *)
Lemma quiet_silent k k' :
  served k -> quiet k k' -> shown k' = shown k -> mem k' = mem k -> silent None k k' nowhere.
Proof.
  intros Hs Hq Hd Hm. split.
  - split; [by apply (quiet_served k) | exact Hd | intros a _ _; by change (ld (mem k') a = ld (mem k) a); rewrite Hm].
  - by apply calm_others, quiet_calm.
  - intros b i _ _. change (ld (mem k') (b + i) = ld (mem k) (b + i)). by rewrite Hm.
Qed.

Lemma quiet_clocks k k' : quiet k k' -> pending k' = pending k -> clocks_kept k k'.
Proof. intros Hq Hp. by apply (calm_clocks None); [apply quiet_calm | |]. Qed.

Lemma kernel_dev_close_again k fd :
  served k -> closed_of k fd ->
  exists k', ece391_close fd k = Returns (-1) k' /\ silent None k k' nowhere /\ clocks_kept k k'.
Proof.
  intros Hs (Hfd & Hfl & Hf). exists (called k). destruct (called_quiet k Hs) as [Hq Hd].
  split; [| split; [by apply quiet_silent | by apply quiet_clocks]].
  etrans; [apply (close_reaches junk table_addr fuel); lia |]. unfold ops_of. rewrite Hf. cbn [table_of].
  change (file_table (sys (called k))) with (file_table (sys k)).
  rewrite (proj1 (proj2 (proj2 (sv_tables k Hs)))). cbn [call_close]. unfold file_close, not_opened.
  change (bitmap_open fd (called k)) with (flags (proc_fd fd k) =? 0). rewrite Hfl. by rewrite !orb_true_r.
Qed.
(** ** Calls on the clock *)

(** Rates and interrupts are not the program's. *)
Lemma rtc_quiet k k' :
  served k -> mem k' = mem k -> sys k' = sys k -> scr k' = scr k -> kbd k' = kbd k -> pcbs k' = pcbs k ->
  boot_block (fs k') = boot_block (fs k) -> FS_START_ADDR (fs k') = FS_START_ADDR (fs k) ->
  quiet k k' /\ silent None k k' nowhere.
Proof.
  intros Hs Hm H1 H2 H3 H4 H5 H6. destruct (quiet_eq k k' (sv_console k Hs) Hm H1 H2 H3 H4 H5 H6) as [Hq Hd].
  split; [exact Hq | by apply quiet_silent].
Qed.

Lemma clock_ops k fd n :
  served k -> clock_of k fd n ->
  op_read (ops_of fd k) = Some DrvRtc /\ op_write (ops_of fd k) = Some DrvRtc /\ op_close (ops_of fd k) = Some DrvRtc.
Proof.
  intros Hs (_ & _ & Hf & _). unfold ops_of. rewrite Hf. cbn [table_of].
  change (rtc_table (sys (called k))) with (rtc_table (sys k)).
  destruct (sv_tables k Hs) as (_ & _ & _ & _ & H1 & H2 & H3 & _). by rewrite H1, H2, H3.
Qed.

Lemma clock_read k fd n buf :
  served k -> clock_of k fd n -> user_page buf ->
  ece391_read fd buf 4 k
  = match rtc_read (pending k) (rtc k) with
    | Some (s, evs, r) => Returns r (set_pending evs (set_rtc s (called k)))
    | None => Stops (called k)
    end.
Proof.
  intros Hs Hc Hb. destruct (clock_ops k fd n Hs Hc) as (Ho & _). destruct Hc as (Hfd & _).
  etrans; [apply (int80_read junk table_addr fuel); lia |]. unfold system_read, MAX_FD.
  rewrite (proj2 (Z.eqb_neq buf 0)), (proj2 (Z.ltb_ge fd 0)), (proj2 (Z.ltb_ge 7 fd)) by (try apply user_nonzero; done || lia).
  cbn [orb]. cbv zeta.
  change (set_filesys_pcb (return_pcb_parent (main_process (sys (sti k)))) (sti k)) with (called k).
  change (fd_ops (return_pcb_parent (main_process (sys (sti k)))) fd (called k)) with (ops_of fd k). rewrite Ho.
  cbn [call_read]. unfold kernel_rtc_read. change (pending (called k)) with (pending k). change (rtc (called k)) with (rtc k).
  by destruct (rtc_read (pending k) (rtc k)) as [[[s evs] r] |].
Qed.

Lemma kernel_dev_tick k fd n buf :
  served k -> clock_of k fd (S n) -> user_page buf ->
  exists k', ece391_read fd buf 4 k = Returns 0 k' /\ silent None k k' nowhere /\ clock_of k' fd n.
Proof.
  intros Hs Hc Hb. rewrite (clock_read k fd (S n) buf Hs Hc Hb). pose proof (rtc_read_ticks (pending k) (rtc k)) as Ht.
  destruct Hc as (Hfd & Hfl & Hf & Hn). rewrite <- Hn in Ht. destruct Ht as (s & evs & He & Hev). rewrite He.
  exists (set_pending evs (set_rtc s (called k))). split; [done |].
  destruct (rtc_quiet k (set_pending evs (set_rtc s (called k))) Hs eq_refl eq_refl eq_refl eq_refl eq_refl eq_refl eq_refl) as [Hq Hd].
  split; [exact Hd |]. split; [exact Hfd |]. split; [exact Hfl |]. split; [exact Hf |]. by symmetry.
Qed.

Lemma kernel_dev_wait k fd buf :
  served k -> clock_of k fd 0 -> user_page buf ->
  exists k', ece391_read fd buf 4 k = Stops k' /\ shown k' = shown k.
Proof.
  intros Hs Hc Hb. rewrite (clock_read k fd 0 buf Hs Hc Hb). pose proof (rtc_read_ticks (pending k) (rtc k)) as Ht.
  destruct Hc as (_ & _ & _ & Hn). rewrite <- Hn in Ht. rewrite Ht. exists (called k). split; [done |]. by apply called_quiet.
Qed.

(** The rate is written to the ports and to nothing else. *)
Lemma kernel_dev_rate k fd n buf :
  served k -> clock_of k fd n -> (forall i, 0 <= i < 4 -> user_page (buf + i)) -> ld32 k buf = 32 ->
  exists k', ece391_write fd buf 4 k = Returns 0 k' /\ silent None k k' nowhere /\ clocks_kept k k'.
Proof.
  intros Hs Hc Hu Hv. destruct (clock_ops k fd n Hs Hc) as (_ & Ho & _). destruct Hc as (Hfd & _).
  assert (Hb : user_page buf) by (replace buf with (buf + 0) by lia; apply Hu; lia).
  set (s' := (rtc_write (mem k) buf 4 (rtc k)).1).
  assert (Hr : rtc_write (mem k) buf 4 (rtc k) = (s', 0)).
  { unfold s', rtc_write, lds32. change (ld32 (mem k) buf) with (ld32 k buf). rewrite Hv. reflexivity. }
  exists (set_rtc s' (called k)). destruct (rtc_quiet k (set_rtc s' (called k)) Hs eq_refl eq_refl eq_refl eq_refl eq_refl eq_refl eq_refl) as [Hq Hd].
  split; [| split; [exact Hd | by apply quiet_clocks]].
  change (int80 junk table_addr fuel 4 fd buf 4 k = Returns 0 (set_rtc s' (called k))). unfold int80, syscall_wrapper.
  change (u32 4) with 4. change ((NUM_SYSCALLS <? 4) || (4 <? 1)) with false. cbv iota.
  change (s32 4) with 4. rewrite (s32_small fd) by lia. unfold system_write, MAX_FD.
  rewrite (proj2 (Z.eqb_neq buf 0)), (proj2 (Z.ltb_ge fd 0)), (proj2 (Z.ltb_ge 7 fd)) by (try apply user_nonzero; done || lia).
  cbn [orb]. cbv zeta.
  change (set_filesys_pcb (return_pcb_parent (main_process (sys (sti k)))) (sti k)) with (called k).
  change (fd_ops (return_pcb_parent (main_process (sys (sti k)))) fd (called k)) with (ops_of fd k). rewrite Ho.
  cbn [call_write]. unfold kernel_rtc_write. change (mem (called k)) with (mem k). change (rtc (called k)) with (rtc k).
  by rewrite Hr.
Qed.

Lemma kernel_dev_close_clock k fd n :
  served k -> clock_of k fd n ->
  exists k', ece391_close fd k = Returns 0 k' /\ silent None k k' nowhere /\ clocks_kept k k'.
Proof.
  intros Hs Hc. destruct (clock_ops k fd n Hs Hc) as (_ & _ & Ho). destruct Hc as (Hfd & _).
  exists (set_rtc (rtc k) (called k)).
  destruct (rtc_quiet k (set_rtc (rtc k) (called k)) Hs eq_refl eq_refl eq_refl eq_refl eq_refl eq_refl eq_refl) as [Hq Hd].
  split; [| split; [exact Hd | by apply quiet_clocks]].
  etrans; [apply (close_reaches junk table_addr fuel); lia |]. by rewrite Ho.
Qed.

(** ** open *)

Lemma first_free_at k s :
  0 <= s < 8 -> (forall i, 0 <= i < s -> flags (proc_fd i k) <> 0) -> flags (proc_fd s k) = 0 ->
  first_free 8 0 (called k) = Some s.
Proof.
  intros Hs Hu Hf. pose proof (first_free_spec 8 0 (called k)) as Hff.
  assert (Hbit : forall i, bitmap_open i (called k) = (flags (proc_fd i k) =? 0)) by reflexivity.
  destruct (first_free 8 0 (called k)) as [j |].
  - destruct Hff as (Hj & Hb & Hlt). rewrite Hbit, Z.eqb_eq in Hb. f_equal.
    destruct (decide (j < s)); [by destruct (Hu j ltac:(lia)) |]. destruct (decide (s < j)); [| lia].
    specialize (Hlt s ltac:(lia)). rewrite Hbit, Hf in Hlt. discriminate.
  - specialize (Hff s ltac:(lia)). rewrite Hbit, Hf in Hff. discriminate.
Qed.

Lemma fill_open_at k s n : forall fd,
  (forall i, fd <= i < s -> flags (proc_fd i k) <> 0) -> flags (proc_fd s k) = 0 -> fd <= s < fd + Z.of_nat n ->
  fill_open_from n (main_pcb k) fd (called k) = (upd_fdt (main_pcb k) s (set_flags 1) (called k), s).
Proof.
  induction n as [| n IH]; intros fd Hu Hf Hs; [lia |]. cbn [fill_open_from].
  change (fdt_at (fdt (pcb_at (main_pcb k) (called k))) fd) with (proc_fd fd k).
  destruct (decide (fd = s)) as [-> | Hne]; [by rewrite Hf |].
  rewrite (proj2 (Z.eqb_neq (flags (proc_fd fd k)) 0)) by (apply Hu; lia). apply IH; [| done | lia].
  intros i Hi. apply Hu. lia.
Qed.

(** The tail of [openable_of] when descriptor [s] was taken. *)
Lemma taken_openable k k' s name it j its js :
  calm (Some s) k k' -> pending k' = pending k -> 2 <= s -> s + 1 + Z.of_nat (length its) <= 8 ->
  (forall i, 0 <= i < s -> flags (proc_fd i k) <> 0) ->
  (forall i, s <= i < 8 -> flags (proc_fd i k) = 0 /\ fd_inode (proc_fd i k) = -1) ->
  items_ok k ((name, it) :: its) (j :: js) -> NoDup (item_inodes k ((name, it) :: its) (j :: js)) ->
  (forall i, 0 <= i < s -> fd_inode (proc_fd i k) ∉ item_inodes k ((name, it) :: its) (j :: js)) ->
  (-1) ∉ item_inodes k ((name, it) :: its) (j :: js) ->
  flags (proc_fd s k') <> 0 ->
  fd_inode (proc_fd s k') = match it with File _ => de_inode_num (image k) (boot_block (fs k)) j | Clock _ => -1 end ->
  openable_of k' its.
Proof.
  intros Hc Hp Hs Hlen Hu Hfree [_ Hok] Hnd Hin Hm1 Hfl Hino. cbn [item_inodes] in *.
  destruct (calm_items _ _ _ its js Hc Hp Hok) as [Hok' Hinos].
  assert (Hoth : forall i, i <> s -> proc_fd i k' = proc_fd i k) by (intros i Hi; apply (calm_fds _ _ _ Hc); congruence).
  exists (s + 1), js. rewrite Hinos. rewrite NoDup_app in Hnd. destruct Hnd as (_ & Hd & Hnd).
  split; [lia |]. split; [lia |]. split_and!.
  - intros i Hi. destruct (decide (i = s)) as [-> | Hne]; [done |]. rewrite Hoth by done. apply Hu. lia.
  - intros i Hi. rewrite Hoth by lia. apply Hfree. lia.
  - exact Hok'.
  - exact Hnd.
  - intros i Hi. destruct (decide (i = s)) as [-> | Hne].
    + rewrite Hino. destruct it; [apply Hd; by left |]. intros Hx. apply Hm1, elem_of_app. by right.
    + rewrite Hoth by done. intros Hx. apply (Hin i ltac:(lia)), elem_of_app. by right.
  - intros Hx. apply Hm1, elem_of_app. by right.
Qed.

(** What a descriptor that was free is open as. *)
Lemma free_not_open k s :
  flags (proc_fd s k) = 0 -> (forall l, ~ stream_of k s l) /\ (forall n, ~ clock_of k s n).
Proof.
  intros Hf. split; [intros l (inode & pos & (_ & Hn & _) & _) | intros n (_ & Hn & _)]; by apply Hn.
Qed.

Lemma kernel_dev_open_file k p name l rest s j js :
  served k -> terminated NUL (chars k p) name -> user_page p ->
  2 <= s -> s + 1 + Z.of_nat (length rest) <= 8 ->
  (forall i, 0 <= i < s -> flags (proc_fd i k) <> 0) ->
  (forall i, s <= i < 8 -> flags (proc_fd i k) = 0 /\ fd_inode (proc_fd i k) = -1) ->
  items_ok k ((name, File l) :: rest) (j :: js) -> NoDup (item_inodes k ((name, File l) :: rest) (j :: js)) ->
  (forall i, 0 <= i < s -> fd_inode (proc_fd i k) ∉ item_inodes k ((name, File l) :: rest) (j :: js)) ->
  (-1) ∉ item_inodes k ((name, File l) :: rest) (j :: js) ->
  exists k', ece391_open p k = Returns s k' /\ silent (Some s) k k' nowhere /\ clocks_kept k k' /\
    stream_of k' s l /\ openable_of k' rest.
Proof.
  intros Hs Ht Hp Hs2 Hlen Hu Hfree Hok Hnd Hin Hm1.
  destruct (Hfree s) as [Hfs Hfi]; [lia |]. pose proof (first_free_at k s ltac:(lia) Hu Hfs) as Hff.
  pose proof Hok as [(Hn & Hnf & Hj & Hb & Hty & Hi & Hl) _].
  set (inode := de_inode_num (image k) (boot_block (fs k)) j) in *.
  assert (Hno : forall i, 0 <= i < 8 -> fd_inode (proc_fd i k) <> inode).
  { intros i Hi8 He. destruct (decide (i < s)).
    - apply (Hin i ltac:(lia)). cbn [item_inodes item_inode]. rewrite He. by left.
    - destruct (Hfree i ltac:(lia)) as [_ Hm]. apply Hm1. cbn [item_inodes item_inode]. rewrite <- Hm, He. by left. }
  assert (Hio : inode_open 8 0 inode (called k) = false).
  { destruct (inode_open 8 0 inode (called k)) eqn:He; [| done]. apply inode_open_spec in He as (t & Ht8 & _ & He).
    change (cur_fd t (called k)) with (proc_fd t k) in He. by destruct (Hno t ltac:(lia)). }
  destruct (kernel_open_at junk table_addr fuel k p name l j Hs Ht Hp) as (fd & d & Hff' & He & _ & Ha & Hst).
  { split; [exact Hn |]. split; [exact Hnf |]. split; [exact Hj |]. split; [exact Hty |]. split; [exact Hb |].
    split; [exact Hi |]. split; [exact Hio |]. split; [by eexists | exact Hl]. }
  cbv zeta in *. fold inode in He, Ha, Hst. rewrite Hff in Hff'. injection Hff' as <-. exists (file_opened s inode d k).
  destruct (looked_up_quiet d k Hs) as [Hq _]. pose proof (quiet_served _ _ Hq Hs) as Hs1.
  set (gs := [set_flags 1; set_fd_inode inode; set_file_pos 0; set_f_ops (Some FileTable)]).
  destruct (change_all_spec s gs (looked_up d k) Hs1 ltac:(lia)) as ((_ & _ & Hm & _ & Hf) & _).
  change (change_all s gs (looked_up d k)) with (file_opened s inode d k) in Hm, Hf.
  assert (Hc : calm (Some s) k (file_opened s inode d k)).
  { apply (calm_trans None (Some s) (Some s) k (looked_up d k)); [by apply quiet_calm | | by split].
    apply change_calm; [exact Hs1 | lia]. }
  split; [exact He |]. split; [| split; [| split; [exact Hst |]]].
  - split; [exact Ha | by apply calm_others |]. intros b i _ _.
    change (ld (mem (file_opened s inode d k)) (b + i) = ld (mem k) (b + i)). by rewrite Hm.
  - apply (calm_clocks (Some s)); [exact Hc | done |]. intros i m [= ->]. by apply free_not_open.
  - apply (taken_openable k _ s name (File l) j rest js Hc eq_refl Hs2 Hlen Hu Hfree Hok Hnd Hin Hm1).
    + by rewrite Hf.
    + by rewrite Hf.
Qed.

(** The state with the clock opened: the inode of the descriptor stays. *)
Definition clock_opened (fd : Z) (k : kernel) : kernel :=
  change_all fd [set_flags 1; set_f_ops (Some RtcTable)] (called k).

Lemma kernel_dev_open_clock k p name n rest s j js :
  served k -> terminated NUL (chars k p) name -> user_page p ->
  2 <= s -> s + 1 + Z.of_nat (length rest) <= 8 ->
  (forall i, 0 <= i < s -> flags (proc_fd i k) <> 0) ->
  (forall i, s <= i < 8 -> flags (proc_fd i k) = 0 /\ fd_inode (proc_fd i k) = -1) ->
  items_ok k ((name, Clock n) :: rest) (j :: js) -> NoDup (item_inodes k ((name, Clock n) :: rest) (j :: js)) ->
  (forall i, 0 <= i < s -> fd_inode (proc_fd i k) ∉ item_inodes k ((name, Clock n) :: rest) (j :: js)) ->
  (-1) ∉ item_inodes k ((name, Clock n) :: rest) (j :: js) ->
  exists k', ece391_open p k = Returns s k' /\ silent (Some s) k k' nowhere /\ clocks_kept k k' /\
    clock_of k' s n /\ openable_of k' rest.
Proof.
  intros Hs Ht Hp Hs2 Hlen Hu Hfree Hok Hnd Hin Hm1.
  destruct (Hfree s) as [Hfs Hfi]; [lia |]. pose proof Hok as [(Hn & Hnf & Hj & Hb & Hty & Hl) _].
  set (pname := ptr_str (image k) p). assert (Hnn : is_null pname = false) by by apply Z.eqb_neq, user_nonzero.
  destruct (get_filetype_spec (image k) (boot_block (fs k)) fuel pname name Hnn Ht Hnf) as [Hg _].
  destruct (called_quiet k Hs) as [Hq Hd]. pose proof (quiet_served _ _ Hq Hs) as Hs1.
  set (gs := [set_flags 1; set_f_ops (Some RtcTable)]).
  destruct (change_all_spec s gs (called k) Hs1 ltac:(lia)) as ((Hs' & Hd' & Hm & _ & Hf) & _).
  change (change_all s gs (called k)) with (clock_opened s k) in Hs', Hd', Hm, Hf.
  assert (Hc : calm (Some s) k (clock_opened s k)).
  { apply (calm_trans None (Some s) (Some s) k (called k)); [by apply quiet_calm | | by split].
    apply change_calm; [exact Hs1 | lia]. }
  assert (He : ece391_open p k = Returns s (clock_opened s k)).
  { etrans; [exact (int80_open junk table_addr fuel p k) |]. unfold system_open.
    change (set_filesys_pcb (return_pcb_parent (main_process (sys (sti k)))) (sti k)) with (called k).
    change (image (called k)) with (image k). change (boot_block (fs (called k))) with (boot_block (fs k)).
    fold pname. rewrite (Hg j Hn Hj), Hty. unfold fill_open_fd.
    change (return_pcb_parent (main_process (sys (sti k)))) with (main_pcb k).
    rewrite (fill_open_at k s (Z.to_nat (MAX_FILES - FILES)) FILES);
      [| intros i Hi; apply Hu; unfold FILES in Hi; lia | exact Hfs | unfold FILES, MAX_FILES; lia].
    rewrite (proj2 (Z.eqb_neq s (-1))) by lia. unfold store_f_ops.
    rewrite (proj2 (Z.leb_le 0 s)), (proj2 (Z.leb_le s MAX_FD)) by (unfold MAX_FD; lia). cbn [andb]. cbv iota. unfold clock_opened, change_all.
    cbn [foldl]. unfold main_pcb. by rewrite sys_upd_fdt. }
  exists (clock_opened s k). split; [exact He |]. split; [| split; [| split]].
  - split; [| by apply calm_others |].
    + split; [exact Hs' | |]; [change (shown (clock_opened s k) = shown k); by rewrite Hd', Hd |].
      intros a _ _. change (ld (mem (clock_opened s k)) a = ld (mem k) a). by rewrite Hm.
    + intros b i _ _. change (ld (mem (clock_opened s k)) (b + i) = ld (mem k) (b + i)). by rewrite Hm.
  - apply (calm_clocks (Some s)); [exact Hc | done |]. intros i m [= ->]. by apply free_not_open.
  - unfold clock_of. rewrite Hf. split; [lia |]. split; [done |]. split; [done | exact Hl].
  - apply (taken_openable k _ s name (Clock n) j rest js Hc eq_refl Hs2 Hlen Hu Hfree Hok Hnd Hin Hm1).
    + by rewrite Hf.
    + rewrite Hf. exact Hfi.
Qed.

Lemma kernel_dev_open k p name it rest :
  served k -> openable_of k ((name, it) :: rest) -> terminated NUL (chars k p) name ->
  (forall i, 0 <= i < Z.of_nat (length name) + 1 -> user_page (p + i)) ->
  exists fd k', ece391_open p k = Returns fd k' /\ 0 <= fd /\ silent (Some fd) k k' nowhere /\ clocks_kept k k' /\
    (forall l, ~ stream_of k fd l) /\ (forall n, ~ clock_of k fd n) /\
    match it with File l => stream_of k' fd l | Clock n => clock_of k' fd n end /\ openable_of k' rest.
Proof.
  intros Hs (s & js & Hs2 & Hlen & Hu & Hfree & Hok & Hnd & Hin & Hm1) Ht Hup.
  assert (Hp : user_page p) by (apply (user_at p (Z.of_nat (length name) + 1)); [lia | exact Hup]).
  destruct js as [| j js]; [by destruct Hok |]. cbn [length] in Hlen.
  destruct (free_not_open k s) as [Hns Hnc]; [apply Hfree; lia |]. exists s. destruct it as [l | n].
  - destruct (kernel_dev_open_file k p name l rest s j js) as (k' & H1 & H2 & H3 & H4 & H5); try assumption; [lia |].
    exists k'. split; [exact H1 |]. split; [lia |]. by split_and!.
  - destruct (kernel_dev_open_clock k p name n rest s j js) as (k' & H1 & H2 & H3 & H4 & H5); try assumption; [lia |].
    exists k'. split; [exact H1 |]. split; [lia |]. by split_and!.
Qed.

Lemma kernel_dev_write k buf n :
  served k -> 0 <= n <= Z.min (Z.of_nat fuel - 1) 65536 -> user_page buf ->
  (forall i, 0 <= i < n -> user_page (buf + i)) ->
  exists k', ece391_write 1 buf n k = Returns n k' /\ after k k' (bytes k buf (Z.to_nat n)) nowhere /\
    clocks_kept k k' /\ openable_kept k k'.
Proof.
  intros Hs Hn Hb Hu. destruct (write_draws junk table_addr fuel buf n k Hs Hn Hb Hu) as (k' & He & Hq & Hd & Hm & Hp).
  exists k'. split; [exact He |]. split; [| split].
  - rewrite kernel_bytes. exact (quiet_after junk table_addr fuel k k' _ _ Hs Hq Hd (fun a Ha _ => Hm a Ha)).
  - by apply quiet_clocks.
  - apply calm_openable; [by apply (quiet_calm k k') | done].
Qed.

(** ** vidmap *)

(** What the new page leaves where it is: the pages of 4 MB and all but the
    first page of the page table. *)
Lemma vidmap_keeps t m a :
  u32 a / UNIT_4_MB <> NEW_VID_IDX ->
  entry_bit (arr_get (page_dir m) (u32 a / UNIT_4_MB)) 7 = true \/ (u32 a / UNIT_4_KB) mod 1024 <> 0 ->
  xlate (get_vidmap_page t m).1 a = xlate m a.
Proof.
  intros Hd Ht. unfold xlate, get_vidmap_page. psimpl. rewrite !(arr_get_set_ne _ NEW_VID_IDX) by congruence.
  destruct Ht as [-> | Ht]; [done |]. by rewrite !(arr_get_set_ne _ 0) by congruence.
Qed.

Lemma same_xlate_ld m m' a : ram m' = ram m -> xlate m' a = xlate m a -> ld m' a = ld m a.
Proof. intros Hr Hx. cbn [ld vmem_ops]. by rewrite Hx, Hr. Qed.

Lemma video_return_range k : console_wf k -> VIDEO <= video_return k <= VIDEO + 3 * UNIT_4_KB.
Proof.
  intros (_ & _ & _ & Ha & Hm). unfold video_return, VIDEO, UNIT_4_KB. repeat case_match; lia.
Qed.

(** The state with the page mapped. *)
Definition vidmapped (k : kernel) : kernel := set_mem (get_vidmap_page (active_terminal (sys k)) (mem k)).1 (sti k).

Lemma vidmapped_loc k :
  served k -> mappable_at k ->
  (forall a, user_page a -> xlate (mem (vidmapped k)) a = xlate (mem k) a) /\
  (forall a, in_kernel a -> xlate (mem (vidmapped k)) a = xlate (mem k) a) /\
  (forall i, 0 <= i < 4000 -> xlate (mem (vidmapped k)) (video_return k + i) = xlate (mem k) (video_return k + i)).
Proof.
  intros Hs (_ & _ & H32). unfold vidmapped. cbn [mem set_mem]. split_and!.
  - intros a Ha. unfold user_page, UNIT_128_MB, UNIT_4_MB in Ha.
    assert (Hi : u32 a / UNIT_4_MB = 32) by (rewrite u32_small by lia; unfold UNIT_4_MB; Z.div_mod_to_equations; lia).
    apply vidmap_keeps; rewrite Hi; [done | by left].
  - intros a Ha. unfold in_kernel, UNIT_4_MB, UNIT_8_MB in Ha.
    assert (Hi : u32 a / UNIT_4_MB = 1) by (rewrite u32_small by lia; unfold UNIT_4_MB; Z.div_mod_to_equations; lia).
    apply vidmap_keeps; rewrite Hi; [done |]. left. change 1 with KERNEL_IDX.
    by rewrite (proj2 (proj2 (sv_kernel k Hs))).
  - intros i Hi. pose proof (video_return_range k (sv_console k Hs)) as Hv. unfold VIDEO, UNIT_4_KB in Hv.
    apply vidmap_keeps; rewrite u32_small by lia; [| right];
      unfold UNIT_4_MB, UNIT_4_KB, NEW_VID_IDX; Z.div_mod_to_equations; lia.
Qed.

Lemma vidmapped_served k :
  served k -> mappable_at k ->
  served (vidmapped k) /\ shown (vidmapped k) = shown k /\ still None k (vidmapped k) /\
  (forall a, user_page a -> ld (mem (vidmapped k)) a = ld (mem k) a).
Proof.
  intros Hs Hmap. destruct (vidmapped_loc k Hs Hmap) as (Hu & Hk & Hv). pose proof Hs as [S1 S2 S3 S4 S5 S6 S7].
  change (video_return k) with (video_return (vidmapped k)) in Hv.
  split; [| split; [| split]].
  - split; try done.
    + apply (kept_kernel (mem k)); [| exact S3]. change (mem (vidmapped k)) with (get_vidmap_page (active_terminal (sys k)) (mem k)).1.
      apply kept_get_vidmap. reflexivity.
    + destruct S4 as (p & Hp & Hx). exists p. split; [done |]. intros o Ho. rewrite Hu; [by apply Hx |]. unfold user_page. lia.
    + destruct S5 as (q & Hq1 & Hq2 & Hx). exists q. split; [done |]. split; [done |]. intros i Hi. rewrite Hv by done. by apply Hx.
  - assert (Hb : bytes (mem (vidmapped k)) (video_return k) 4000 = bytes (mem k) (video_return k) 4000).
    { apply bytes_ext. intros i Hi. apply same_xlate_ld; [exact eq_refl |]. apply (Hv i). lia. }
    change ((bytes (mem (vidmapped k)) (video_return k) 4000, (x_return 0 k, y_return 0 k), text_color (scr k))
      = (bytes (mem k) (video_return k) 4000, (x_return 0 k, y_return 0 k), text_color (scr k))).
    by rewrite Hb.
  - split; try done. intros a Ha. apply same_xlate_ld; [done | by apply Hk].
  - intros a Ha. apply same_xlate_ld; [done | by apply Hu].
Qed.

Lemma kernel_ld32 (k : kernel) a : ld32 k a = ld32 (mem k) a.
Proof. reflexivity. Qed.

Lemma kernel_dev_vidmap k p :
  served k -> mappable_at k -> (forall i, 0 <= i < 4 -> user_page (p + i)) ->
  exists b k', ece391_vidmap p k = Returns 0 k' /\ after k k' [] (within p 4) /\ video_at k' b /\ ld32 k' p = b /\
    b <> 0 /\ (forall a, user_page a -> loc k' a = loc k a) /\ openable_kept k k'.
Proof.
  intros Hs Hmap Hup. destruct (vidmapped_served k Hs Hmap) as (Hs1 & Hd1 & Hst & Hu1).
  destruct (vidmapped_loc k Hs Hmap) as (Hx & _). set (k1 := vidmapped k) in *.
  set (l := [u8 NEW_VIRTUAL; u8 (Z.shiftr NEW_VIRTUAL 8); u8 (Z.shiftr NEW_VIRTUAL 16); u8 (Z.shiftr NEW_VIRTUAL 24)]).
  destruct (quiet_user_write k1 p l Hs1) as [Hq2 Hd2]; [exact Hup |]. cbv zeta in *.
  set (k2 := set_mem (write (mem k1) p l) k1) in *.
  assert (Hp : user_page p) by (by apply (user_at p 4)).
  assert (Hr : region (mem k1) p 4) by (apply (user_region k1); [exact Hs1 | exact Hup]).
  assert (Hm2 : mem k2 = st32 (mem k1) p NEW_VIRTUAL) by (unfold k2; by rewrite st32_write).
  assert (Hloc : forall a, xlate (mem k2) a = xlate (mem k1) a).
  { intros a. destruct (quiet_ram _ _ Hq2) as [r ->]. done. }
  exists NEW_VIRTUAL, k2. split; [| split; [| split; [| split; [| split; [done | split]]]]].
  - change (int80 junk table_addr fuel 8 p 0 0 k = Returns 0 k2). unfold int80, syscall_wrapper.
    change (u32 8) with 8. change ((NUM_SYSCALLS <? 8) || (8 <? 1)) with false. cbv iota. unfold system_vidmap.
    rewrite (proj2 (Z.eqb_neq p 0)) by by apply user_nonzero.
    rewrite (proj2 (Z.eqb_neq p UNIT_4_MB)) by (unfold user_page, UNIT_128_MB, UNIT_4_MB in *; lia). cbn [orb].
    unfold k2, l. rewrite <- st32_write. exact eq_refl.
  - assert (Hd : shown k2 = shown k) by exact (eq_trans Hd2 Hd1).
    split; [exact (quiet_served k1 k2 Hq2 Hs1) | exact Hd |]. intros a Ha Hn. change (ld (mem k2) a = ld (mem k) a). rewrite <- (Hu1 a Ha). unfold k2. cbn [mem set_mem].
    apply ld_write_apart; [exact Hr |]. intros i Hi He. apply Hn.
    change (Z.of_nat (length l)) with 4 in Hi. rewrite (user_distinct k1 a (p + i) Hs1 Ha (Hup i Hi) He). unfold within. lia.
  - split; [done |]. split; [done |]. exists VIDEO_MEM_ADDR. split; [done |]. split; [done |]. intros i Hi. rewrite Hloc.
    destruct Hmap as (Hwf & Hon & _).
    destruct (get_vidmap_page_maps (mem k) (active_terminal (sys k)) i Hwf Hon ltac:(lia)) as (_ & Hvx & _). exact Hvx.
  - rewrite kernel_ld32, Hm2. apply ld32_st32; [exact Hr | unfold NEW_VIRTUAL, UNIT_4_MB, NEW_VID_IDX; lia].
  - intros a Ha. clearbody k2. change (xlate (mem k2) a = xlate (mem k) a). by rewrite Hloc, Hx.
  - apply calm_openable; [| done]. destruct (calm_still _ _ _ (quiet_calm _ _ Hq2)) as [I2 B2 S2 F2], Hst as [I1 B1 S1 F1].
    split; [| congruence | congruence |].
    + intros a Ha. by rewrite I2, I1.
    + intros i Hi. by rewrite F2, F1.
Qed.

(** ** The law *)

Lemma kernel_devices (Hf : (128 < fuel)%nat) :
  @DeviceSpec kernel view calls (kernel_spec junk table_addr fuel Hf) kernel_device.
Proof.
  split.
  - intros k b (H1 & H2 & _). by split.
  - intros k b i _ (_ & _ & q & _ & _ & Hx) Hi. change (is_Some (xlate (mem k) (b + i))). rewrite Hx by done. by eexists.
  - intros k b i j _ (_ & _ & q & _ & _ & Hx) Hi Hj. change (xlate (mem k) (b + i) = xlate (mem k) (b + j) -> i = j).
    rewrite !Hx by done. intros [= He]. lia.
  - intros k b a i Hs Hv Ha Hi. exact (video_not_user k b i a Hs Hv Hi Ha).
  - exact kernel_stays_store.
  - exact kernel_stays_poke.
  - exact kernel_dev_vidmap.
  - exact kernel_dev_open.
  - exact kernel_dev_read.
  - exact kernel_dev_close.
  - exact kernel_dev_close_again.
  - exact kernel_dev_close_clock.
  - exact kernel_dev_rate.
  - exact kernel_dev_tick.
  - exact kernel_dev_wait.
  - intros k buf n Hs Hn Hb Hu. destruct (kernel_dev_write k buf n Hs Hn Hb Hu) as (k' & H1 & H2 & H3 & _). by exists k'.
Qed.

(** ** pingpong on the machine *)

Variable lit_addr : string -> Z.

(** C16: pingpong on the machine. The program opens the clock through
    INT 0x80, and every tick of the clock lets it draw one more frame: with
    [n] interrupts of the clock to come, the terminal has shown exactly the
    frames 0 to [n] when the program waits for the next one; frame [t] has
    the bars at the sides and one letter, which goes 76 columns to the
    right and back and then is the next letter of the alphabet. *)
Theorem pingpong_on_kernel buf ret_val garbage k :
  (128 < fuel)%nat -> served k -> openable_of k [(str_bytes "rtc", Clock (ticks (pending k)))] ->
  (ticks (pending k) < fuel)%nat ->
  (forall i, 0 <= i < 81 -> user_page (buf + i)) -> (forall i, 0 <= i < 4 -> user_page (ret_val + i)) ->
  user_page garbage -> (forall x, within ret_val 4 x -> ~ within buf 81 x) ->
  has_lit lit_addr fuel (within buf 81) k "rtc" ->
  exists k', pingpong_main lit_addr fuel buf ret_val garbage k = Stops k' /\
    shown k' = foldl show_char (shown k)
      (concat (pp_frame <$> ((fun t => frame_no 65 (Z.of_nat t)) <$> seq 0 (S (ticks (pending k)))))).
Proof.
  intros Hf Hs Ho Ht Hb Hr Hg Hap (L1 & L2 & L3 & _).
  change (good k) in Hs. change (openable k [(str_bytes "rtc", Clock (ticks (pending k)))]) in Ho.
  pose proof (kernel_devices Hf) as Hdev.
  apply (@pingpong_shows kernel view calls _ _ Hdev lit_addr fuel buf ret_val garbage Hb Hg); try assumption; [lia | cbn [limit view kernel_view]; lia |].
  intros i Hi. apply L3. cbn [length]. simpl. lia.
Qed.
End kernel.

(** ** A machine with the clock *)

(** The sample machine with an entry for the clock, and with interrupts of
    the clock to come. *)
Definition clock_boot : list Z := padded 4096 sample_boot.

(** Another boot block, and interrupts to come. *)
Definition with_boot (evs : list irq) (k : kernel) : kernel :=
  set_pending evs (set_mem (write (mem k) sample_base clock_boot) k).

Definition clock_machine (n : nat) (text : list Z) : kernel := with_boot (replicate n IrqRtc) (at_work [] [] text).

Lemma clock_boot_length : length clock_boot = 4096%nat.
Proof. vm_compute. reflexivity. Qed.

Lemma clock_boot_bytes : Forall (fun c => 0 <= c < 256) clock_boot.
Proof. apply (bool_decide_unpack _). vm_compute. exact I. Qed.

Lemma boot_region k : served k -> region (mem k) sample_base (length clock_boot).
Proof. intros Hs. rewrite clock_boot_length. apply kernel_region; [apply Hs | done | done]. Qed.

Lemma boot_served evs k : served k -> served (with_boot evs k).
Proof.
  intros Hs. apply (served_keeps k); try done.
  - exact (write_ram clock_boot sample_base (mem k)).
  - apply Hs.
  - exists (terminals (sys k)). change (sys (with_boot evs k)) with (sys k). by destruct (sys k).
  - apply Hs.
Qed.

Lemma boot_image evs k a :
  served k -> within sample_base FOUR_KB a -> image (with_boot evs k) a = arr_get clock_boot (a - sample_base).
Proof.
  unfold within, FOUR_KB. intros Hs Ha.
  assert (Hb : bytes (write (mem k) sample_base clock_boot) sample_base (length clock_boot) = clock_boot).
  { rewrite bytes_write by by apply boot_region. apply u8_bytes, clock_boot_bytes. }
  change (ld (write (mem k) sample_base clock_boot) a = arr_get clock_boot (a - sample_base)).
  symmetry. apply arr_get_lookup; [lia |]. rewrite <- Hb at 1. rewrite bytes_lookup by (rewrite clock_boot_length; lia).
  by replace (sample_base + Z.of_nat (Z.to_nat (a - sample_base))) with a by lia.
Qed.

(** The texts of the program are as they were. *)
Lemma boot_ld evs k a : served k -> user_page a -> ld (mem (with_boot evs k)) a = ld (mem k) a.
Proof.
  intros Hs Ha. change (ld (write (mem k) sample_base clock_boot) a = ld (mem k) a).
  apply ld_write_apart; [by apply boot_region |]. intros i Hi He. symmetry in He. revert He. rewrite clock_boot_length in Hi.
  apply (user_not_kernel k); [exact Hs | exact Ha |].
  unfold in_kernel, sample_base, UNIT_4_MB, UNIT_8_MB. lia.
Qed.

Lemma lit_kept junk table_addr fuel lit_addr T k k' s :
  (forall a, user_page a -> ld (mem k') a = ld (mem k) a) ->
  @has_lit kernel (kernel_view fuel) (kernel_calls junk table_addr fuel) lit_addr fuel T k s ->
  @has_lit kernel (kernel_view fuel) (kernel_calls junk table_addr fuel) lit_addr fuel T k' s.
Proof.
  intros Hld (L1 & L2 & L3). split; [| by split]. eapply terminated_ext; [| exact L1].
  intros i Hi. apply Hld, L2. lia.
Qed.

Lemma ticks_replicate n : ticks (replicate n IrqRtc) = n.
Proof. induction n as [| n IH]; [done |]. cbn [replicate ticks]. by f_equal. Qed.

Lemma clock_entry :
  has_name (fun a => arr_get clock_boot (a - sample_base)) sample_base (str_bytes "rtc") 2 /\
  de_filetype (fun a => arr_get clock_boot (a - sample_base)) sample_base 2 = 0.
Proof.
  split; [| vm_compute; reflexivity]. split; [split; vm_compute; congruence |]. split; [vm_compute; reflexivity |].
  intros i Hi. assert (Hc : i = 0 \/ i = 1) by lia. destruct Hc as [-> | ->]; vm_compute; congruence.
Qed.

Lemma work_fd text i : proc_fd i (at_work [] [] text) = fdt_at exec_fdt i.
Proof.
  destruct (free_put_to_work running [] [] (work_mem text)) as (_ & _ & Hfd).
  unfold at_work. rewrite Hfd. unfold proc_fd.
  assert (Hp : fdt (pcb_at (main_pcb running) running) = exec_fdt) by (vm_compute; reflexivity). by rewrite Hp.
Qed.

Lemma clock_openable fuel n text :
  (32 < fuel)%nat -> openable_of fuel (clock_machine n text) [(str_bytes "rtc", Clock n)].
Proof.
  intros Hf. pose proof (fun a => boot_image (replicate n IrqRtc) _ a (work_served [] [] text)) as Hi.
  destruct clock_entry as [Hn Ht]. pose proof (work_fd text) as Hfd.
  assert (Hbb : boot_block (fs (at_work [] [] text)) = sample_base) by (unfold at_work; rewrite fs_put_to_work; vm_compute; reflexivity).
  unfold clock_machine. revert Hi Hfd Hbb. generalize (at_work [] [] text). intros k0 Hi Hfd Hbb.
  change (boot_block (fs (with_boot (replicate n IrqRtc) k0)) = sample_base) in Hbb.
  change (forall i, proc_fd i (with_boot (replicate n IrqRtc) k0) = fdt_at exec_fdt i) in Hfd.
  assert (Hp : ticks (pending (with_boot (replicate n IrqRtc) k0)) = n) by apply ticks_replicate.
  revert Hi Hfd Hp Hbb. generalize (with_boot (replicate n IrqRtc) k0). clear k0. intros k Hi Hfd Hp Hbb.
  exists 2, [2]. cbn [length items_ok item_inodes item_inode app]. split; [lia |]. split; [lia |].
  split; [| split; [| split; [| split; [constructor | split; intros; apply not_elem_of_nil]]]].
  - intros i Hr. rewrite Hfd. assert (Hc : i = 0 \/ i = 1) by lia. destruct Hc as [-> | ->]; discriminate.
  - intros i Hr. rewrite Hfd. assert (Hc : i = 2 \/ i = 3 \/ i = 4 \/ i = 5 \/ i = 6 \/ i = 7) by lia.
    by destruct Hc as [-> | [-> | [-> | [-> | [-> | ->]]]]].
  - split; [| done]. unfold item_ok. rewrite Hbb. cbn [length]. simpl length. split; [lia |]. split; [lia |].
    split; [by apply (same_has_name (fun a => arr_get clock_boot (a - sample_base))) |]. split.
    + intros a Ha. unfold within, in_kernel, sample_base, FOUR_KB, UNIT_4_MB, UNIT_8_MB in *. lia.
    + split; [| done]. rewrite <- Ht. unfold de_filetype, FILE_TYPE_OFFSET. by apply same_field; [exact Hi | |].
Qed.

Lemma pingpong_on_kernel_witness :
  let lit := text_addr ["rtc"] in
  let k := clock_machine 3 (texts ["rtc"]) in
  exists k', @pingpong_main kernel (kernel_calls no_junk no_addr work_fuel) lit work_fuel work_buf (work_buf + 100) (work_buf + 200) k
    = Stops k' /\
    shown k' = foldl show_char (shown k) (concat (pp_frame <$> [(65, 2); (65, 3); (65, 4); (65, 5)])).
Proof.
  intros lit k. destruct (pingpong_on_kernel no_junk no_addr work_fuel lit work_buf (work_buf + 100) (work_buf + 200) k)
    as (k' & He & Hd).
  - unfold work_fuel; lia.
  - apply boot_served, work_served.
  - apply clock_openable. unfold work_fuel; lia.
  - unfold work_fuel. change (ticks (pending k)) with 3%nat. lia.
  - apply work_users. lia.
  - intros i Hi. replace (work_buf + 100 + i) with (work_buf + (100 + i)) by lia. apply (work_users 104); lia.
  - apply (work_users 201); lia.
  - unfold within. lia.
  - apply (lit_kept no_junk no_addr work_fuel lit _ (at_work [] [] (texts ["rtc"])));
      [intros a; apply boot_ld, work_served | by apply texts_lit; solve_lit].
  - exists k'. split; [exact He | exact Hd].
Defined.
